(* ===== verification/_CoqProject ===== *)
-Q . S2P
Prelude.v
GoStrings.v
GoStrconv.v
Misc.v
Terminal.v
LogUtils.v
Logger.v
NamedLock.v
Storage.v
RamCacheDB.v
Reference.v
RamCacheDump.v
Parallel.v
Runtime.v
VarHelper.v
Samples.v
Namer.v
TcpServer.v
Observations.v
VarLock.v
ClientHelper.v
DbList.v
ClientState.v
Controller.v
Variables.v
Subtree.v
Notify.v
Delivery.v
Subscribe.v
LockProtocol.v
Registry.v
Atomic.v
Vstp.v
VstpRun.v
Connections.v
Lifecycle.v
Session.v
Push.v
Resume.v
HttpApi.v
WebSocket.v
Documents.v
WebPush.v
Confs.v
Help.v
Startup.v
Interception.v
Shutdown.v
