(* ===== verification/Prelude.v ===== *)
(** * VSS (Variables and Streams Server): a verification development

    VSS keeps named variables for its clients: they set, read, delete, lock and
    observe them over a text protocol on TCP (VSTP) or over HTTP and WebSockets.
    This library models the Go program under [src/] and proves what makes it
    correct.  Definitions keep the names of the source.  This first file is the
    prelude: notations, tactics, hints and lemmas the others share.

    ** The program and the files that model it

    - Go's own library.  [GoStrings] and [GoStrconv] give the functions of
      [strings], [strconv] and [unicode/utf8] the server calls, on byte strings.
      Case mapping outside ASCII is the class [UnicodeCase].
    - [sources/misc].  [Misc]: [DynamicVar], [Tuple], [GetOnly].  [Terminal]:
      separator lines.  [Namer]: random names.  [NamedLock]: the named locks.
    - [sources/misc/logger].  [LogUtils], [Logger]: texts, the buffered logger
      and its writers.
    - [sources/services/storage].  [Storage] states the interface [IStorage] and
      the laws its users rely on, the class [StorageSpec].  [RamCacheDB] is the
      implementation, a heap of nodes with pointers to children and parents;
      [Reference] refines it to a finite map; [RamCacheDump] is its file and the
      background dumper; [Parallel] is its worker pool.
    - [sources/controller].  [VarHelper] and [Observations], [VarLock]: what the
      database keeps about a variable (value, flags, observers).  [ClientHelper]
      with [DbList] and [ClientState]: about a client.  [Controller] with
      [Variables], [Subtree], [Notify], [Delivery], [Subscribe]: the methods of
      [TheController] and their effect on the whole database.  [LockProtocol] and
      [Registry] with [Atomic]: any number of them at once.
    - [sources/misc/tcpserver] is [TcpServer]; [sources/services/apis/vstp] is
      [Vstp], with [VstpRun], [Connections], [Lifecycle], [Session], [Push] (what a
      change sends to other connections) and [Resume] (a client that comes back).
    - [sources/services/apis/httpapi] is [HttpApi], with [Documents] (requests),
      [WebSocket] (sockets) and [WebPush] (from a request to a socket).
    - [sources/misc/confs] is [Confs]; [main.go] is [Startup] and [Help], with
      [Interception] (the standard streams) and [Shutdown] (the ticker of the
      dumper and the signals).

    ** How the parts interact

    A handler of the controller is a program [prog A] ([Runtime]), a tree of
    effects: calls of the storage, named locks, clock, random numbers, logging,
    calls of an API, [go].  [run] executes a program alone on a [World] and
    queues the goroutines it starts; [run_tasks] runs the queue; [drun] is the
    part of [run] that touches only the database; [pool_step] interleaves any
    number of goroutines effect by effect, and [run_pool_steps] shows that [run]
    is one of its executions.  The controller sees the storage through
    [StorageSpec] alone: its theorems hold for every implementation, and
    [RamCacheDB_spec] supplies the one of the program.  The VSTP and the HTTP
    API add their own state around a [World] and execute the controller's
    programs with their own callbacks [CheckAlive] and [NotifyClient].

    ** What is shown

    - Storage: the tree answers every sequence of requests as a finite map does
      ([RamCacheDB_refines_reference]) and is always a tree
      ([heap_stays_a_tree]); what is dumped is loaded again
      ([dump_load_roundtrip]) and what changed reaches the file
      ([dumper_persists]); the worker pool ends and calls its function once for
      each child ([ForEachChildsParallel_completes]).
    - Variables: set then read, deletion and reading of subtrees, exact errors,
      confinement to the user's names ([SetVar_then_GetVars], [GetVars_subtree],
      [DelVar_deletes_subtree], [SetVar_rejects_iff], [GetVars_error_iff],
      [SetVar_confined]).
    - Observers: their array in the database is a list
      ([observations_refine_list], [client_observations_refine_list]), a change
      starts one notification for each ([notify_each_observation_once]), and
      from [SetVar] to the messages that arrive ([set_reaches_every_observer]);
      subscribing, being told and stopping ([ObserveVar_registers],
      [observed_change_arrives], [observe_then_stop]); the same over the wire,
      with the lines each connection gets ([subscription_pushes_changes],
      [setid_resends_values], [socket_gets_posted_value]).
    - Concurrency of the observers: [Registry] simulates every interleaving by a
      machine whose state is the list of observers and where a call is one step,
      and [Atomic] shows that the handlers of the controller obey its rules
      ([observers_are_atomic]).
    - Locks: mutual exclusion and progress of the named locks
      ([NamedLockRun_mutual_exclusion], [NamedLockRun_completes]); the lock of a
      variable alone ([Lock_spec]), under every interleaving
      ([locked_work_is_exclusive], [Lock_terminates]), over the wire
      ([lock_excludes_set]), and what it does not protect from
      ([SetVar_overtakes_a_lock]).
    - APIs: lines do not depend on the chunks of TCP ([chunks_do_not_matter]);
      connections leave nothing behind ([connection_lifecycle]); ids lead to
      those who hold them in every reachable state
      ([notifications_reach_the_holder], [messages_reach_a_running_handler],
      [clients_are_the_running_handlers]); whole exchanges ([set_then_get],
      [POST_then_GET], [GET_document], [normalizeArrays_keeps_values]).
    - Configuration, logging and start: [CreateConfig_resolves],
      [read_print_file], [main_serves_within_limits], [messages_in_order],
      [FileWriter_rotates].
    - The end: the dumper ticks for every interval but a huge one
      ([dumper_ticks]), and no signal ends the program or has the storage save
      ([signals_do_not_end_the_program]); the interception of the streams, if it
      were installed, would never be quiet ([interception_feeds_itself]).
    - Theorems and examples on what the code does against its intention are
      stated next to the definitions they are about, for instance
      [resumed_session_is_lost], [unreachable_client_never_expires],
      [dumper_forgets_failed_write], [same_instant_sockets_collide].

    ** Choices

    - Integers are [Z] within 64 bits; [wrap64] and [to_uint] are applied where
      the code converts or may overflow.  A string is its bytes.
    - [for k := range m] visits a map in an order the language does not fix: the
      class [RangeOrder] gives one admissible order for each map.  A theorem
      proved for all instances holds whichever order each loop meets, as long as
      two loops over the same map in one execution meet the same one; where a
      loop changes the map it ranges over, only values of visited keys change.
    - Fuel.  Recursions of the source that are not structural take a fuel:
      [scrollTree] and the dump compute a bound that is enough (the length of
      the name, the number of nodes); [GetVars] and [DelVar] take the depth of
      the database, and their theorems say that some fuel is enough, and any
      greater one; [Lock_loop] and [notifyParents_fuel] get theirs from the
      time-out and the length of the name; [take_lines] from the buffer.  [None]
      stands for fuel that ran out or a goroutine that blocks for ever, and no
      theorem about a result holds of it.
    - What the program does not decide is a parameter: the network
      ([Environment], [Network], [Peers]), random numbers ([Environment]),
      [encoding/json] and floats ([Codec]), the process and its files
      ([Process], [file_read]), sockets and certificates ([Listen],
      [LoadX509KeyPair]).  Parameters of the theorems have instances in the
      witnesses.
    - Every method of the storage holds its mutex from its first to its last
      access, so it is one step here; the mutexes of the VSTP server are modelled.

    ** Not modelled

    What happens inside [net], [net/http], [tls], the WebSocket package and the
    operating system (pipes and their capacity included).  Messages printed by the storage
    are not kept.  Times before 1970 and clocks near the least 64-bit integer
    are outside of the theorems, which assume the time in range. *)

From stdpp Require Export prelude strings gmap list sorting pretty.
From Stdlib Require Export Ascii ZArith Lia.

(** ** Scope *)
Declare Scope vss_scope.
Delimit Scope vss_scope with vss.
Open Scope vss_scope.

(** Go slices of a string, [s[i:]] and [s[:i]]. *)
Reserved Notation "s '.[' i ':]'" (at level 8, left associativity, format "s .[ i :]").
Reserved Notation "s '.[:' i ']'" (at level 8, left associativity, format "s .[: i ]").

(** ** Go's [range] over a map with string keys

    The language leaves the order of a [for k, v := range m] unspecified.  A
    [RangeOrder] is one admissible choice of orders: it lists every map, each
    entry once.  Every definition that ranges over a map takes it as an
    implicit argument, so a theorem that holds for all instances holds for
    every order the runtime may pick. *)
Class RangeOrder := {
  range : ∀ {V : Type}, gmap string V → list (string * V);
  range_perm : ∀ {V : Type} (m : gmap string V), range m ≡ₚ map_to_list m
}.

(** One admissible order, used by the witnesses. *)
Definition canonical_order : RangeOrder :=
  {| range V m := map_to_list m; range_perm V m := Permutation_refl _ |}.

(** Its reverse, to exhibit results that depend on the order. *)
Definition reverse_order : RangeOrder.
Proof.
  refine {| range V m := reverse (map_to_list m) |}.
  intros V m. apply reverse_Permutation.
Defined.

Lemma elem_of_range `{RangeOrder} {V} (m : gmap string V) k v :
  (k, v) ∈ range m ↔ m !! k = Some v.
Proof. rewrite range_perm. apply elem_of_map_to_list. Qed.

Lemma NoDup_fst_range `{RangeOrder} {V} (m : gmap string V) : NoDup (range m).*1.
Proof. rewrite range_perm. apply NoDup_fst_map_to_list. Qed.

Lemma range_empty `{RangeOrder} {V} : range (∅ : gmap string V) = [].
Proof. apply Permutation_nil_r. rewrite range_perm. by rewrite map_to_list_empty. Qed.

(** ** Machine integers

    Go's [int] and [int64] are both 64-bit two's complement on the platforms
    the server is built for. *)
Definition int64_max : Z := 9223372036854775807.
Definition int64_min : Z := -9223372036854775808.
Definition wrap64 (z : Z) : Z := ((z + 2 ^ 63) mod 2 ^ 64 - 2 ^ 63)%Z.
Definition in_int64 (z : Z) : bool := (int64_min <=? z)%Z && (z <=? int64_max)%Z.

Lemma in_int64_spec z : (int64_min ≤ z ≤ int64_max)%Z → in_int64 z = true.
Proof. unfold in_int64. rewrite andb_true_iff, !Z.leb_le. lia. Qed.

Lemma wrap64_small z : in_int64 z = true → wrap64 z = z.
Proof.
  unfold in_int64, wrap64, int64_min, int64_max. intros Hz.
  rewrite Z.mod_small; lia.
Qed.

Lemma wrap64_bounds z : in_int64 (wrap64 z) = true.
Proof.
  unfold in_int64, wrap64, int64_min, int64_max.
  pose proof (Z.mod_pos_bound (z + 2 ^ 63) (2 ^ 64) ltac:(lia)). lia.
Qed.

(** ** Errors as values: Go's [(T, error)] pairs *)
Inductive result (E A : Type) : Type :=
  | Ok (a : A)
  | Err (e : E).
Arguments Ok {E A} a.
Arguments Err {E A} e.

Definition is_ok {E A} (r : result E A) : bool := if r is Ok _ then true else false.

#[export] Instance result_eq_dec {E A} `{EqDecision E, EqDecision A} : EqDecision (result E A).
Proof. solve_decision. Defined.

(** ** Generic lemmas *)
Lemma prefix_snoc_inv {A} (p q : list A) (x : A) :
  p `prefix_of` q ++ [x] → p = q ++ [x] ∨ p `prefix_of` q.
Proof.
  intros [r Hr]. destruct r as [|y r _] using rev_ind.
  - left. by rewrite app_nil_r in Hr.
  - right. exists r. rewrite app_assoc in Hr. by apply app_inj_tail in Hr as [-> _].
Qed.

Lemma prefix_snoc_self {A} (p : list A) (x : A) : ¬ (p ++ [x]) `prefix_of` p.
Proof. intros Hp%prefix_length. rewrite length_app in Hp. simpl in Hp. lia. Qed.

Lemma prefix_cons_iff {A} (x y : A) (p q : list A) :
  (x :: p) `prefix_of` (y :: q) ↔ x = y ∧ p `prefix_of` q.
Proof.
  split.
  - intros H. split; [by eapply prefix_cons_inv_1|by eapply prefix_cons_inv_2].
  - intros [-> H]. by apply prefix_cons.
Qed.

Lemma app_inv_prefix {A} (p a b : list A) : p ++ a = p ++ b ↔ a = b.
Proof. split; [apply (inj _)|by intros ->]. Qed.

Lemma fold_left_ext {A B} (f g : A → B → A) (l : list B) (a : A) :
  (∀ a b, f a b = g a b) → fold_left f l a = fold_left g l a.
Proof. intros Hfg. revert a. induction l as [|b l IH]; intros a; [done|]. cbn. by rewrite Hfg. Qed.

(** ** Automation *)
Create HintDb vss.
#[export] Hint Resolve wrap64_bounds prefix_snoc_self : vss.
#[export] Hint Rewrite @app_inv_prefix : vss.

(** [decide] of the goal only ([case_decide] looks at the hypotheses first). *)
Tactic Notation "decide_goal" "as" simple_intropattern(p) :=
  match goal with |- context [decide ?P] => destruct (decide P) as p end.
Tactic Notation "decide_goal" := decide_goal as [?|?].

(** Case analysis on every [decide] and [if] of the goal. *)
Ltac case_all := repeat (case_decide || case_match); simplify_eq/=.
