(* ===== verification/GoStrings.v ===== *)
(** * Go's strings: the functions of package [strings] the server uses.

    A Go string is a sequence of bytes: here a [string] of 8-bit [ascii].
    Indices are [nat]; the [-1] of [strings.Index] is [None].  The functions
    are those of Go 1.24, on the arguments the server passes. *)
From S2P Require Import Prelude.

(** [len(s)] *)
Abbreviation len := String.length.

(** Slicing: [s[:i]] and [s[i:]]. *)
Fixpoint str_take (i : nat) (s : string) : string :=
  match i, s with
  | S i, String c s => String c (str_take i s)
  | _, _ => ""
  end.
Fixpoint str_drop (i : nat) (s : string) : string :=
  match i, s with
  | S i, String _ s => str_drop i s
  | _, _ => s
  end.
Notation "s '.[' i ':]'" := (str_drop i s) : vss_scope.
Notation "s '.[:' i ']'" := (str_take i s) : vss_scope.

#[global] Arguments str_take : simpl nomatch.
#[global] Arguments str_drop : simpl nomatch.

(** [strings.IndexByte] and [strings.LastIndexByte]. *)
Fixpoint IndexByte (s : string) (c : ascii) : option nat :=
  match s with
  | "" => None
  | String a s => if decide (a = c) then Some 0 else S <$> IndexByte s c
  end.
Fixpoint LastIndexByte (s : string) (c : ascii) : option nat :=
  match s with
  | "" => None
  | String a s =>
      match LastIndexByte s c with
      | Some i => Some (S i)
      | None => if decide (a = c) then Some 0 else None
      end
  end.

(** [strings.HasPrefix], [strings.Index], [strings.Contains]. *)
Fixpoint HasPrefix (s p : string) : bool :=
  match p, s with
  | "", _ => true
  | String a p, String b s => bool_decide (a = b) && HasPrefix s p
  | String _ _, "" => false
  end.
Fixpoint Index (s sub : string) : option nat :=
  if HasPrefix s sub then Some 0
  else match s with "" => None | String _ s => S <$> Index s sub end.
Definition Contains (s sub : string) : bool := bool_decide (is_Some (Index s sub)).
Definition HasSuffix (s suf : string) : bool :=
  (len suf <=? len s) && bool_decide (str_drop (len s - len suf) s = suf).

Definition TrimPrefix (s p : string) : string :=
  if HasPrefix s p then str_drop (len p) s else s.
Definition TrimSuffix (s suf : string) : string :=
  if HasSuffix s suf then str_take (len s - len suf) s else s.

(** [strings.Split] by a one-byte separator, and [strings.Join]. *)
Fixpoint SplitByte (s : string) (c : ascii) : list string :=
  match s with
  | "" => [""]
  | String a s =>
      if decide (a = c) then "" :: SplitByte s c
      else match SplitByte s c with
           | [] => [String a ""]
           | w :: ws => String a w :: ws
           end
  end.
Fixpoint Join (l : list string) (sep : string) : string :=
  match l with
  | [] => ""
  | [w] => w
  | w :: l => w +:+ sep +:+ Join l sep
  end.

(** [strings.ReplaceAll] with a non-empty [old]: scans from the left and skips
    a match whole.  [skip] counts the bytes of the last match still to pass. *)
Fixpoint replace_from (skip : nat) (s old new : string) : string :=
  match s with
  | "" => ""
  | String c s' =>
      match skip with
      | S k => replace_from k s' old new
      | O => if HasPrefix s old then new +:+ replace_from (len old - 1) s' old new
             else String c (replace_from 0 s' old new)
      end
  end.
Definition ReplaceAll (s old new : string) : string := replace_from 0 s old new.

(** [strings.TrimRight] by a one-byte cut set. *)
Fixpoint TrimRightByte (s : string) (c : ascii) : string :=
  match s with
  | "" => ""
  | String a s =>
      match TrimRightByte s c with
      | "" => if decide (a = c) then "" else String a ""
      | t => String a t
      end
  end.

(** [strings.TrimSpace]: the UTF-8 encodings of Unicode's White_Space. *)
Definition byte (n : nat) : ascii := ascii_of_nat n.
Fixpoint bytes (l : list nat) : string :=
  match l with [] => "" | n :: l => String (byte n) (bytes l) end.
Definition white_space : list string :=
  [bytes [9]; bytes [10]; bytes [11]; bytes [12]; bytes [13]; bytes [32];
   bytes [194; 133]; bytes [194; 160]; bytes [225; 154; 128]]
  ++ ((λ n, bytes [226; 128; n]) <$> [128; 129; 130; 131; 132; 133; 134; 135; 136; 137; 138; 168; 169; 175])
  ++ [bytes [226; 129; 159]; bytes [227; 128; 128]].
Fixpoint trim_left_fuel (fuel : nat) (s : string) : string :=
  match fuel, List.find (HasPrefix s) white_space with
  | S fuel, Some w => trim_left_fuel fuel (str_drop (len w) s)
  | _, _ => s
  end.
Fixpoint trim_right_fuel (fuel : nat) (s : string) : string :=
  match fuel, List.find (HasSuffix s) white_space with
  | S fuel, Some w => trim_right_fuel fuel (str_take (len s - len w) s)
  | _, _ => s
  end.
(** Each round removes at least one byte: [len s] rounds are enough. *)
Definition TrimSpace (s : string) : string :=
  let s := trim_left_fuel (len s) s in trim_right_fuel (len s) s.

(** ASCII case mapping; [strings.ToLower] agrees with it on ASCII strings. *)
Definition lower_byte (c : ascii) : ascii :=
  let n := nat_of_ascii c in
  if (65 <=? n) && (n <=? 90) then ascii_of_nat (n + 32) else c.
Definition upper_byte (c : ascii) : ascii :=
  let n := nat_of_ascii c in
  if (97 <=? n) && (n <=? 122) then ascii_of_nat (n - 32) else c.
Fixpoint map_bytes (f : ascii → ascii) (s : string) : string :=
  match s with "" => "" | String c s => String (f c) (map_bytes f s) end.
Fixpoint all_bytes (P : ascii → bool) (s : string) : bool :=
  match s with "" => true | String c s => P c && all_bytes P s end.
Definition is_ascii_byte (c : ascii) : bool := nat_of_ascii c <? 128.

(** On strings with other bytes, Go maps case by the Unicode tables, which are
    data of the language's library: the class names that part. *)
Class UnicodeCase := { unicode_lower : string → string; unicode_upper : string → string }.
Definition ToLower `{UnicodeCase} (s : string) : string :=
  if all_bytes is_ascii_byte s then map_bytes lower_byte s else unicode_lower s.
Definition ToUpper `{UnicodeCase} (s : string) : string :=
  if all_bytes is_ascii_byte s then map_bytes upper_byte s else unicode_upper s.
Definition ascii_case : UnicodeCase :=
  {| unicode_lower := map_bytes lower_byte; unicode_upper := map_bytes upper_byte |}.

(** The bytes named in the sources. *)
Abbreviation dot := "."%char.
Abbreviation newline := "010"%char.
Abbreviation cr := "013"%char.
Definition nl : string := String newline "".

(** ** Lemmas on appending and slicing *)
Lemma app_cons (x : ascii) (a b : string) : String x a +:+ b = String x (a +:+ b).
Proof. done. Qed.

Lemma app_empty_r (s : string) : s +:+ "" = s.
Proof. induction s as [|a s IH]; [done|]. by rewrite app_cons, IH. Qed.

Lemma str_app_assoc (a b c : string) : (a +:+ b) +:+ c = a +:+ b +:+ c.
Proof. induction a as [|x a IH]; [done|]. by rewrite !app_cons, IH. Qed.

Lemma app_empty_l (b : string) : "" +:+ b = b.
Proof. done. Qed.

(** Evaluation that also pushes through [+:+]. *)
Ltac str_simpl := repeat first [rewrite app_cons | rewrite app_empty_l | progress simpl].

Lemma len_app (a b : string) : len (a +:+ b) = len a + len b.
Proof. induction a as [|x a IH]; [done|]. rewrite app_cons. simpl. by rewrite IH. Qed.

Lemma str_take_app (a b : string) : str_take (len a) (a +:+ b) = a.
Proof. induction a as [|x a IH]; [by destruct b|]. rewrite app_cons. simpl. by rewrite IH. Qed.

Lemma str_drop_app (a b : string) : str_drop (len a) (a +:+ b) = b.
Proof. induction a as [|x a IH]; [by destruct b|]. rewrite app_cons. simpl. by rewrite IH. Qed.

Lemma str_drop_S_app (a b : string) (c : ascii) : str_drop (S (len a)) (a +:+ String c b) = b.
Proof. induction a as [|x a IH]; [by destruct b|]. rewrite app_cons. exact IH. Qed.

Lemma take_drop_str (i : nat) (s : string) : str_take i s +:+ str_drop i s = s.
Proof. revert i. induction s as [|x s IH]; intros [|i]; [done..|]. simpl. by rewrite app_cons, IH. Qed.

Lemma len_str_drop (i : nat) (s : string) : len (str_drop i s) = len s - i.
Proof. revert i. induction s as [|x s IH]; intros [|i]; [done..|]. cbn. apply IH. Qed.

Lemma str_app_inj_r (a b c : string) : a +:+ c = b +:+ c → a = b.
Proof.
  intros H. rewrite <-(str_take_app a c), <-(str_take_app b c), H.
  apply (f_equal len) in H. rewrite !len_app in H. f_equal. lia.
Qed.

(** ** Lemmas on searching *)

(** [s] has no byte [c]. *)
Definition lacks (c : ascii) (s : string) : Prop := IndexByte s c = None.
#[export] Instance lacks_dec c s : Decision (lacks c s) := option_eq_dec _ _.

Lemma lacks_cons c a s : lacks c (String a s) ↔ a ≠ c ∧ lacks c s.
Proof. unfold lacks. cbn. case_decide; destruct (IndexByte s c); naive_solver. Qed.

Lemma lacks_app c a b : lacks c (a +:+ b) ↔ lacks c a ∧ lacks c b.
Proof.
  induction a as [|x a IH]; [unfold lacks; cbn; naive_solver|].
  rewrite app_cons, !lacks_cons, IH. naive_solver.
Qed.

Lemma IndexByte_Some s c i :
  IndexByte s c = Some i →
  s = str_take i s +:+ String c (str_drop (S i) s) ∧ lacks c (str_take i s) ∧ i < len s.
Proof.
  revert i. induction s as [|a s IH]; intros i; cbn; [done|].
  case_decide as Hac; [intros [= <-]; subst; cbn; split_and!; [done|done|lia]|].
  destruct (IndexByte s c) as [j|]; [|done]. intros [= <-].
  destruct (IH j eq_refl) as (Hs & Hl & Hlt). split_and!.
  - exact (f_equal (String a) Hs).
  - cbn [str_take]. by apply lacks_cons.
  - lia.
Qed.

Lemma IndexByte_app c a b : lacks c a → IndexByte (a +:+ String c b) c = Some (len a).
Proof.
  induction a as [|x a IH]; rewrite ?lacks_cons; str_simpl.
  - intros _. by rewrite decide_True.
  - intros [Hx Ha]. rewrite decide_False by done. by rewrite IH.
Qed.

Lemma HasPrefix_spec s p : HasPrefix s p = true ↔ ∃ t, s = p +:+ t.
Proof.
  revert s. induction p as [|a p IH]; intros s.
  { split; [by exists s|by destruct s]. }
  destruct s as [|b s]; [split; [done|by intros [t ?]]|]. str_simpl.
  rewrite andb_true_iff, bool_decide_eq_true, IH. split.
  - intros [-> [t ->]]. by exists t.
  - intros [t [= -> ->]]. split; [done|by exists t].
Qed.

Lemma HasPrefix_app p t : HasPrefix (p +:+ t) p = true.
Proof. apply HasPrefix_spec. by exists t. Qed.

Lemma HasSuffix_spec s suf : HasSuffix s suf = true ↔ ∃ t, s = t +:+ suf.
Proof.
  unfold HasSuffix. rewrite andb_true_iff, bool_decide_eq_true, Nat.leb_le. split.
  - intros [Hle Hd]. exists (str_take (len s - len suf) s).
    rewrite <-Hd at 2. by rewrite take_drop_str.
  - intros [t ->]. rewrite len_app. replace (len t + len suf - len suf) with (len t) by lia.
    by rewrite str_drop_app; split; [lia|].
Qed.

Lemma TrimSuffix_app s suf : TrimSuffix (s +:+ suf) suf = s.
Proof.
  unfold TrimSuffix. rewrite (proj2 (HasSuffix_spec _ _)) by (by exists s).
  rewrite len_app. replace (len s + len suf - len suf) with (len s) by lia. apply str_take_app.
Qed.

Lemma TrimPrefix_app p s : TrimPrefix (p +:+ s) p = s.
Proof. unfold TrimPrefix. by rewrite HasPrefix_app, str_drop_app. Qed.

(** Searching for a one-byte string is searching for the byte. *)
Lemma Index_byte s c : Index s (String c "") = IndexByte s c.
Proof.
  induction s as [|a s IH]; [done|]. cbn.
  destruct (decide (a = c)) as [->|Hne].
  - rewrite bool_decide_true by done. by destruct s.
  - rewrite bool_decide_false by congruence. simpl. by rewrite IH.
Qed.

Lemma Contains_byte s c : Contains s (String c "") = true ↔ ¬ lacks c s.
Proof.
  unfold Contains, lacks. rewrite Index_byte, bool_decide_eq_true.
  destruct (IndexByte s c); split; naive_solver eauto.
Qed.

Lemma Contains_byte_false s c : Contains s (String c "") = false ↔ lacks c s.
Proof.
  rewrite <-not_true_iff_false, Contains_byte. split; [|naive_solver].
  intros H. by destruct (decide (lacks c s)).
Qed.

(** ** Lemmas on splitting *)
Lemma SplitByte_ne s c : SplitByte s c ≠ [].
Proof. destruct s as [|a s]; cbn; [done|]. case_decide; [done|]. by case_match. Qed.

Lemma SplitByte_lacks s c : lacks c s → SplitByte s c = [s].
Proof.
  induction s as [|a s IH]; [done|]. rewrite lacks_cons. intros [Ha Hs]. simpl.
  rewrite decide_False by done. by rewrite IH.
Qed.

(** Splitting at a separator splits the two sides independently. *)
Lemma SplitByte_app a b c : SplitByte (a +:+ String c b) c = SplitByte a c ++ SplitByte b c.
Proof.
  induction a as [|x a IH]; str_simpl.
  - by rewrite decide_True.
  - case_decide; [simpl; by rewrite IH|]. rewrite IH.
    pose proof (SplitByte_ne a c). by destruct (SplitByte a c).
Qed.

Lemma SplitByte_all_lack s c : Forall (lacks c) (SplitByte s c).
Proof.
  induction s as [|a s IH]; cbn; [by repeat constructor|].
  case_decide; [by constructor|].
  pose proof (SplitByte_ne s c). destruct (SplitByte s c) as [|w ws]; [done|].
  inversion_clear IH. constructor; [by apply lacks_cons|done].
Qed.

Lemma Join_cons w l sep : l ≠ [] → Join (w :: l) sep = w +:+ sep +:+ Join l sep.
Proof. by destruct l. Qed.

(** [Join] undoes [Split]. *)
Lemma Join_SplitByte s c : Join (SplitByte s c) (String c "") = s.
Proof.
  induction s as [|a s IH]; [done|]. cbn [SplitByte].
  pose proof (SplitByte_ne s c). case_decide as Ha.
  - rewrite Join_cons by done. str_simpl. by rewrite IH, Ha.
  - destruct (SplitByte s c) as [|w ws]; [done|].
    destruct ws as [|w' ws]; [simpl in *; by rewrite IH|].
    rewrite Join_cons in IH |- * by done. by rewrite app_cons, IH.
Qed.

(** ... and [Split] undoes [Join] on words without the separator. *)
Lemma SplitByte_Join l c :
  l ≠ [] → Forall (lacks c) l → SplitByte (Join l (String c "")) c = l.
Proof.
  induction l as [|w l IH]; [done|]. intros _ [Hw Hl]%Forall_cons.
  destruct l as [|w' l]; [by apply SplitByte_lacks|].
  rewrite Join_cons, app_cons, app_empty_l, SplitByte_app, IH by done.
  by rewrite SplitByte_lacks.
Qed.

Lemma lacks_SplitByte s c d : lacks d s → Forall (lacks d) (SplitByte s c).
Proof.
  induction s as [|a s IH]; cbn; [by repeat constructor|].
  rewrite lacks_cons. intros [Ha Hs]. specialize (IH Hs). case_decide; [by constructor|].
  destruct (SplitByte s c) as [|w ws]; [by repeat constructor; apply lacks_cons|].
  inversion_clear IH. constructor; [by apply lacks_cons|done].
Qed.

#[export] Hint Rewrite app_empty_r str_app_assoc len_app : vss.
#[export] Hint Resolve SplitByte_ne SplitByte_all_lack : vss.
