(* ===== verification/GoStrconv.v ===== *)
(** * Go's number conversions (package [strconv]) and its UTF-8 decoder

    [Atoi] and [Itoa] are the only number conversions the storage layer relies
    on: counters and indices are kept in the database as decimal strings.
    [decode_rune] is [utf8.DecodeRuneInString]; ranging over a string decodes
    runes with it. *)
From S2P Require Import Prelude GoStrings.

(** ** Decimal integers *)

(** [strconv.Itoa], and also what [json.Marshal] prints for an integer. *)
Definition Itoa (z : Z) : string := pretty z.

Definition digit_val (c : ascii) : option Z :=
  let n := nat_of_ascii c in
  if (48 <=? n) && (n <=? 57) then Some (Z.of_nat n - 48)%Z else None.

Fixpoint parse_digits (acc : Z) (s : string) : option Z :=
  match s with
  | "" => Some acc
  | String c s => d ← digit_val c; parse_digits (acc * 10 + d) s
  end.

(** One or more digits. *)
Definition parse_uint (s : string) : option Z :=
  match s with "" => None | _ => parse_digits 0 s end.

(** [strconv.Atoi]: an optional sign, digits, and the value in range of [int].
    The error value (syntax or range) is not distinguished: [None]. *)
Definition Atoi (s : string) : option Z :=
  let signed :=
    match s with
    | String "+" s => parse_uint s
    | String "-" s => Z.opp <$> parse_uint s
    | _ => parse_uint s
    end in
  z ← signed; if in_int64 z then Some z else None.

Definition is_digit (c : ascii) : bool := bool_decide (is_Some (digit_val c)).

(** ** UTF-8 *)
Definition rune_error : Z := 65533.
Definition byte_at (s : string) (i : nat) : option Z :=
  (λ c, Z.of_nat (nat_of_ascii c)) <$> String.get i s.
Definition in_range (lo hi : Z) (b : Z) : bool := (lo <=? b)%Z && (b <=? hi)%Z.
Definition low6 (b : Z) : Z := Z.land b 63.

(** The rune at the start of [s] and its width in bytes; an ill-formed sequence
    decodes to [rune_error] with width 1, and the empty string to width 0. *)
Definition decode_rune (s : string) : Z * nat :=
  match byte_at s 0 with
  | None => (rune_error, 0)
  | Some b0 =>
    let b1 := default 0%Z (byte_at s 1) in
    let b2 := default 0%Z (byte_at s 2) in
    let b3 := default 0%Z (byte_at s 3) in
    let cont b := in_range 128 191 b in
    let lo := if (b0 =? 224)%Z then 160%Z else if (b0 =? 240)%Z then 144%Z else 128%Z in
    let hi := if (b0 =? 237)%Z then 159%Z else if (b0 =? 244)%Z then 143%Z else 191%Z in
    if (b0 <? 128)%Z then (b0, 1)
    else if in_range 194 223 b0 && in_range lo hi b1 then
      (Z.lor (Z.shiftl (Z.land b0 31) 6) (low6 b1), 2)
    else if in_range 224 239 b0 && in_range lo hi b1 && cont b2 then
      (Z.lor (Z.lor (Z.shiftl (Z.land b0 15) 12) (Z.shiftl (low6 b1) 6)) (low6 b2), 3)
    else if in_range 240 244 b0 && in_range lo hi b1 && cont b2 && cont b3 then
      (Z.lor (Z.lor (Z.lor (Z.shiftl (Z.land b0 7) 18) (Z.shiftl (low6 b1) 12))
                    (Z.shiftl (low6 b2) 6)) (low6 b3), 4)
    else (rune_error, 1)
  end.

(** The runes of a string, in the order [for _, c := range s] yields them.
    Every step consumes at least one byte: [len s] steps are enough. *)
Fixpoint runes_fuel (fuel : nat) (s : string) : list Z :=
  match fuel, s with
  | S fuel, String _ _ =>
      let '(r, w) := decode_rune s in r :: runes_fuel fuel (str_drop w s)
  | _, _ => []
  end.
Definition runes (s : string) : list Z := runes_fuel (len s) s.

(** [string(c)] for a rune [c] (surrogates and out-of-range runes encode
    U+FFFD). *)
Definition zbyte (z : Z) : ascii := ascii_of_nat (Z.to_nat z).
Definition valid_rune (r : Z) : bool :=
  in_range 0 1114111 r && negb (in_range 55296 57343 r).
Definition encode_rune (r : Z) : string :=
  let r := if valid_rune r then r else rune_error in
  let tail k := zbyte (Z.lor 128 (Z.land (Z.shiftr r k) 63)) in
  if (r <=? 127)%Z then String (zbyte r) ""
  else if (r <=? 2047)%Z then String (zbyte (Z.lor 192 (Z.shiftr r 6))) (String (tail 0%Z) "")
  else if (r <=? 65535)%Z then
    String (zbyte (Z.lor 224 (Z.shiftr r 12))) (String (tail 6%Z) (String (tail 0%Z) ""))
  else String (zbyte (Z.lor 240 (Z.shiftr r 18)))
         (String (tail 12%Z) (String (tail 6%Z) (String (tail 0%Z) ""))).

(** [strings.ContainsRune]: a search for U+FFFD also finds ill-formed bytes. *)
Definition ContainsRune (s : string) (r : Z) : bool :=
  if in_range 0 127 r then bool_decide (is_Some (IndexByte s (zbyte r)))
  else if (r =? rune_error)%Z then bool_decide (rune_error ∈ runes s)
  else if negb (valid_rune r) then false
  else Contains s (encode_rune r).

#[global] Arguments Atoi : simpl never.
#[global] Arguments Itoa : simpl never.

(** ** Lemmas on decimal integers *)
Lemma digit_val_pretty (x : N) :
  (x < 10)%N → digit_val (pretty_N_char x) = Some (Z.of_N x).
Proof.
  intros Hx.
  assert (x = 0 ∨ x = 1 ∨ x = 2 ∨ x = 3 ∨ x = 4 ∨ x = 5 ∨ x = 6 ∨ x = 7 ∨ x = 8 ∨ x = 9)%N by lia.
  by destruct_or!; subst.
Qed.

Lemma parse_pretty_N_go (x : N) s :
  parse_digits 0 (pretty_N_go x s) = parse_digits (Z.of_N x) s.
Proof.
  revert s. induction (N.lt_wf_0 x) as [x _ IH]; intros s.
  destruct (decide (x = 0%N)) as [->|Hx]; [done|].
  rewrite pretty_N_go_step by lia. rewrite IH by (apply N.div_lt; lia). cbn.
  rewrite digit_val_pretty by (apply N.mod_lt; lia). cbn. f_equal.
  rewrite N2Z.inj_div, N2Z.inj_mod. pose proof (Z.div_mod (Z.of_N x) 10). lia.
Qed.

Lemma all_digits_pretty_N_go (x : N) s :
  all_bytes is_digit s = true → all_bytes is_digit (pretty_N_go x s) = true.
Proof.
  revert s. induction (N.lt_wf_0 x) as [x _ IH]; intros s Hs.
  destruct (decide (x = 0%N)) as [->|Hx]; [done|].
  rewrite pretty_N_go_step by lia. apply IH; [apply N.div_lt; lia|].
  cbn. rewrite Hs, andb_true_r. unfold is_digit.
  by rewrite digit_val_pretty by (apply N.mod_lt; lia).
Qed.

Lemma pretty_N_parse (x : N) : parse_uint (pretty x) = Some (Z.of_N x).
Proof.
  destruct (decide (x = 0%N)) as [->|Hx]; [done|].
  assert (parse_digits 0 (pretty x) = Some (Z.of_N x)) as Hp.
  { unfold pretty, pretty_N. rewrite decide_False by done. apply parse_pretty_N_go. }
  unfold parse_uint. destruct (pretty x) eqn:He; [|done].
  cbn in Hp. injection Hp. lia.
Qed.

Lemma pretty_N_digits (x : N) : all_bytes is_digit (pretty x) = true.
Proof.
  unfold pretty, pretty_N. case_decide; [done|]. by apply all_digits_pretty_N_go.
Qed.

(** A character of a decimal number is a digit or the minus sign. *)
Lemma Itoa_shape z :
  all_bytes is_digit (Itoa z) = true ∨ ∃ s, Itoa z = String "-" s ∧ all_bytes is_digit s = true.
Proof.
  destruct z as [|p|p]; [by left|left|right].
  - apply (pretty_N_digits (Npos p)).
  - exists (pretty (Npos p)). split; [done|]. apply pretty_N_digits.
Qed.

Lemma Itoa_nonneg_digits z : (0 ≤ z)%Z → all_bytes is_digit (Itoa z) = true.
Proof. destruct z as [|p|p]; [done| |lia]. intros _. apply (pretty_N_digits (Npos p)). Qed.

Lemma all_digits_first s c : all_bytes is_digit s = true → is_digit c = false → ∀ t, s ≠ String c t.
Proof. intros Hs Hc t ->. cbn in Hs. by rewrite Hc in Hs. Qed.

Lemma parse_uint_head s z :
  all_bytes is_digit s = true → parse_uint s = Some z → Atoi s = if in_int64 z then Some z else None.
Proof.
  intros Hd Hp. unfold Atoi.
  destruct s as [|c s]; [done|].
  assert (c ≠ "+"%char) by (intros ->; done).
  assert (c ≠ "-"%char) by (intros ->; done).
  replace (match c with "+"%char => parse_uint s | "-"%char => Z.opp <$> parse_uint s
           | _ => parse_uint (String c s) end) with (parse_uint (String c s)).
  { by rewrite Hp. }
  destruct c as [[] [] [] [] [] [] [] []]; done.
Qed.

Lemma Atoi_bounds s z : Atoi s = Some z → (int64_min ≤ z ≤ int64_max)%Z.
Proof.
  unfold Atoi. destruct (match s with String "+" s => _ | _ => _ end) as [y|]; cbn; [|done].
  destruct (in_int64 y) eqn:E; [|done]. intros [= <-]. unfold in_int64 in E. lia.
Qed.

(** [Atoi] reads back what [Itoa] wrote, on every value an [int] can hold. *)
Lemma Atoi_Itoa z : in_int64 z = true → Atoi (Itoa z) = Some z.
Proof.
  intros Hz. destruct z as [|p|p]; [done| |].
  - unfold Itoa. rewrite (parse_uint_head _ (Z.pos p)); [by rewrite Hz| |].
    + apply (pretty_N_digits (Npos p)).
    + apply (pretty_N_parse (Npos p)).
  - unfold Itoa, pretty, pretty_Z, Atoi. rewrite app_cons, app_empty_l.
    replace (pretty p) with (pretty (Npos p)) by done.
    rewrite pretty_N_parse. cbn. change (- Z.pos p)%Z with (Z.neg p). by rewrite Hz.
Qed.

Lemma Itoa_inj_iff i j : Itoa i = Itoa j ↔ i = j.
Proof. split; [apply (inj pretty)|by intros ->]. Qed.

Lemma digits_lack c s : is_digit c = false → all_bytes is_digit s = true → lacks c s.
Proof.
  intros Hc. induction s as [|a s IH]; [done|]. cbn. rewrite andb_true_iff, lacks_cons.
  intros [Ha Hs]. split; [|by apply IH]. intros ->. congruence.
Qed.

(** Decimal numbers contain no byte outside [0-9-]; in particular no dot. *)
Lemma Itoa_lacks c z : is_digit c = false → c ≠ "-"%char → lacks c (Itoa z).
Proof.
  intros Hc Hd. destruct (Itoa_shape z) as [H|(s & -> & H)]; [by apply digits_lack|].
  apply lacks_cons. split; [congruence|]. by apply digits_lack.
Qed.

Lemma Itoa_lacks_dot z : lacks dot (Itoa z).
Proof. by apply Itoa_lacks. Qed.

Lemma Itoa_ne_letter z c s : is_digit c = false → c ≠ "-"%char → Itoa z ≠ String c s.
Proof. intros Hc Hd He. pose proof (Itoa_lacks c z Hc Hd) as H. rewrite He, lacks_cons in H. naive_solver. Qed.

Lemma Itoa_ne_empty z : Itoa z ≠ "".
Proof.
  intros He. destruct (decide (in_int64 z = true)) as [Hz|Hz].
  - apply Atoi_Itoa in Hz. by rewrite He in Hz.
  - destruct z as [|p|p]; [done| |done].
    pose proof (pretty_N_parse (Npos p)) as Hp. unfold Itoa, pretty, pretty_Z in He.
    change (pretty (Npos p)) with (pretty p) in Hp. by rewrite He in Hp.
Qed.

#[export] Hint Resolve Itoa_lacks_dot Itoa_ne_empty : vss.
#[export] Hint Rewrite Itoa_inj_iff : vss.

(** ** Lemmas on the UTF-8 decoder *)

(** A byte below 128 is a rune by itself. *)
Lemma decode_rune_ascii c s :
  is_ascii_byte c = true → decode_rune (String c s) = (Z.of_nat (nat_of_ascii c), 1).
Proof.
  unfold is_ascii_byte. intros Hc%Nat.ltb_lt. unfold decode_rune. cbn [byte_at String.get fmap option_fmap option_map].
  by rewrite (proj2 (Z.ltb_lt _ _)) by lia.
Qed.

(** The first [w] bytes of [s] are not ASCII. *)
Fixpoint high_bytes (w : nat) (s : string) : Prop :=
  match w, s with
  | O, _ => True
  | S w, String c s => is_ascii_byte c = false ∧ high_bytes w s
  | S _, "" => False
  end.

Lemma lor_ge_l a b : (0 ≤ a)%Z → (0 ≤ b)%Z → (a ≤ Z.lor a b)%Z.
Proof.
  intros Ha Hb.
  pose proof (Z.lor_nonneg a b) as Hn.
  assert (Z.ldiff a (Z.lor a b) = 0)%Z as Hd.
  { apply Z.bits_inj'. intros n Hn'. rewrite Z.ldiff_spec, Z.lor_spec, Z.bits_0.
    destruct (Z.testbit a n); [done|by rewrite andb_false_l]. }
  apply Z.ldiff_le; [naive_solver|done].
Qed.

Lemma shiftl_ge a k m : (0 ≤ k)%Z → (m ≤ a)%Z → (m * 2 ^ k ≤ Z.shiftl a k)%Z.
Proof. intros Hk Ha. rewrite Z.shiftl_mul_pow2 by done. pose proof (Z.pow_pos_nonneg 2 k). nia. Qed.

Lemma low6_nonneg b : (0 ≤ low6 b)%Z.
Proof. unfold low6. apply Z.land_nonneg. right. lia. Qed.

Lemma land_ones_mod b k : (0 ≤ k)%Z → Z.land b (2 ^ k - 1) = (b mod 2 ^ k)%Z.
Proof. intros Hk. rewrite <-Z.land_ones by done. by rewrite Z.ones_equiv. Qed.

Lemma high_byte c lo hi :
  in_range lo hi (Z.of_nat (nat_of_ascii c)) = true → (128 ≤ lo)%Z → is_ascii_byte c = false.
Proof. unfold in_range, is_ascii_byte. intros [?%Z.leb_le _]%andb_true_iff ?. apply Nat.ltb_ge. lia. Qed.

(** A byte [default 0 (byte_at s i)] in a range above 128 exists. *)
Lemma byte_at_range s i lo hi :
  in_range lo hi (default 0%Z (byte_at s i)) = true → (128 ≤ lo)%Z →
  ∃ c, String.get i s = Some c ∧ is_ascii_byte c = false
       ∧ default 0%Z (byte_at s i) = Z.of_nat (nat_of_ascii c).
Proof.
  unfold byte_at. destruct (String.get i s) as [c|] eqn:Hg; cbn.
  - intros Hr Hlo. exists c. split_and!; [done| |done]. by eapply high_byte.
  - unfold in_range. intros [?%Z.leb_le _]%andb_true_iff ?. lia.
Qed.

Lemma rune2_ge b0 b1 : in_range 194 223 b0 = true → (128 ≤ Z.lor (Z.shiftl (Z.land b0 31) 6) (low6 b1))%Z.
Proof.
  unfold in_range. intros [?%Z.leb_le ?%Z.leb_le]%andb_true_iff.
  etrans; [|apply lor_ge_l; [apply Z.shiftl_nonneg, Z.land_nonneg; lia|apply low6_nonneg]].
  pose proof (land_ones_mod b0 5 ltac:(lia)) as Hm. change (2 ^ 5 - 1)%Z with 31%Z in Hm. rewrite Hm.
  apply (shiftl_ge _ 6 2); [lia|]. change (2 ^ 5)%Z with 32%Z.
  replace b0 with ((b0 - 192) + 6 * 32)%Z by lia. rewrite Z.mod_add, Z.mod_small by lia. lia.
Qed.

Lemma low6_ge b k : (128 + k ≤ b ≤ 191)%Z → (0 ≤ k)%Z → (k ≤ low6 b)%Z.
Proof.
  intros Hb Hk. unfold low6. pose proof (land_ones_mod b 6 ltac:(lia)) as Hm.
  change (2 ^ 6 - 1)%Z with 63%Z in Hm. rewrite Hm. change (2 ^ 6)%Z with 64%Z.
  replace b with ((b - 128) + 2 * 64)%Z by lia. rewrite Z.mod_add, Z.mod_small by lia. lia.
Qed.

Lemma lor_ge a b m : (0 ≤ a)%Z → (0 ≤ b)%Z → (m ≤ a ∨ m ≤ b)%Z → (m ≤ Z.lor a b)%Z.
Proof.
  intros Ha Hb [H|H].
  - pose proof (lor_ge_l a b Ha Hb). lia.
  - rewrite Z.lor_comm. pose proof (lor_ge_l b a Hb Ha). lia.
Qed.

Ltac nonneg := repeat first
  [ apply Z.lor_nonneg; split | apply Z.shiftl_nonneg | apply low6_nonneg
  | apply Z.land_nonneg; right; lia ].

Lemma rune3_ge b0 b1 b2 :
  in_range 224 239 b0 = true →
  in_range (if (b0 =? 224)%Z then 160%Z else if (b0 =? 240)%Z then 144%Z else 128%Z)
           (if (b0 =? 237)%Z then 159%Z else if (b0 =? 244)%Z then 143%Z else 191%Z) b1 = true →
  (128 ≤ Z.lor (Z.lor (Z.shiftl (Z.land b0 15) 12) (Z.shiftl (low6 b1) 6)) (low6 b2))%Z.
Proof.
  unfold in_range. intros [?%Z.leb_le ?%Z.leb_le]%andb_true_iff [Hlo%Z.leb_le Hhi%Z.leb_le]%andb_true_iff.
  apply lor_ge; [nonneg..|left]. apply lor_ge; [nonneg..|].
  destruct (Z.eqb_spec b0 224) as [->|Hne].
  - right. apply (Z.le_trans _ (32 * 2 ^ 6)); [done|]. apply shiftl_ge; [done|]. apply low6_ge; [|done]. cbn in Hhi. lia.
  - left. apply (Z.le_trans _ (1 * 2 ^ 12)); [done|]. apply shiftl_ge; [done|].
    pose proof (land_ones_mod b0 4 ltac:(lia)) as Hm. change (2 ^ 4 - 1)%Z with 15%Z in Hm. rewrite Hm.
    change (2 ^ 4)%Z with 16%Z. replace b0 with ((b0 - 224) + 14 * 16)%Z by lia.
    rewrite Z.mod_add, Z.mod_small by lia. lia.
Qed.

Lemma rune4_ge b0 b1 b2 b3 :
  in_range 240 244 b0 = true →
  in_range (if (b0 =? 224)%Z then 160%Z else if (b0 =? 240)%Z then 144%Z else 128%Z)
           (if (b0 =? 237)%Z then 159%Z else if (b0 =? 244)%Z then 143%Z else 191%Z) b1 = true →
  (128 ≤ Z.lor (Z.lor (Z.lor (Z.shiftl (Z.land b0 7) 18) (Z.shiftl (low6 b1) 12))
                      (Z.shiftl (low6 b2) 6)) (low6 b3))%Z.
Proof.
  unfold in_range. intros [?%Z.leb_le ?%Z.leb_le]%andb_true_iff [Hlo%Z.leb_le Hhi%Z.leb_le]%andb_true_iff.
  apply lor_ge; [nonneg..|left]. apply lor_ge; [nonneg..|left]. apply lor_ge; [nonneg..|].
  destruct (Z.eqb_spec b0 240) as [->|Hne].
  - right. apply (Z.le_trans _ (16 * 2 ^ 12)); [done|]. apply shiftl_ge; [done|]. apply low6_ge; [|done]. cbn in Hhi, Hlo. lia.
  - left. apply (Z.le_trans _ (1 * 2 ^ 18)); [done|]. apply shiftl_ge; [done|].
    pose proof (land_ones_mod b0 3 ltac:(lia)) as Hm. change (2 ^ 3 - 1)%Z with 7%Z in Hm. rewrite Hm.
    change (2 ^ 3)%Z with 8%Z. replace b0 with ((b0 - 240) + 30 * 8)%Z by lia.
    rewrite Z.mod_add, Z.mod_small by lia. lia.
Qed.

Lemma high_bytes_get w s :
  (∀ i, i < w → ∃ c, String.get i s = Some c ∧ is_ascii_byte c = false) → high_bytes w s.
Proof.
  revert s. induction w as [|w IH]; intros s Hi; [done|].
  destruct (Hi 0 ltac:(lia)) as (c & Hg & Hc). destruct s as [|a s]; [done|]. cbn in Hg.
  injection Hg as ->. split; [done|]. apply IH. intros i Hlt. apply (Hi (S i)). lia.
Qed.

(** A rune that starts with a high byte is above 127 and made of high bytes. *)
Lemma decode_rune_high c s r w :
  is_ascii_byte c = false → decode_rune (String c s) = (r, w) →
  (128 ≤ r)%Z ∧ 1 ≤ w ∧ high_bytes w (String c s).
Proof.
  intros Hc. unfold decode_rune. cbn [byte_at String.get fmap option_fmap option_map].
  rewrite (proj2 (Z.ltb_ge _ _)) by (unfold is_ascii_byte in Hc; apply Nat.ltb_ge in Hc; lia).
  set (s' := String c s). set (b0 := Z.of_nat (nat_of_ascii c)).
  assert (Hlo : (128 ≤ (if (b0 =? 224) then 160 else if (b0 =? 240) then 144 else 128))%Z)
    by (repeat case_match; lia).
  assert (H0 : ∃ a, String.get 0 s' = Some a ∧ is_ascii_byte a = false) by (by exists c).
  intros Hd.
  destruct (in_range 194 223 b0 && _) eqn:H2;
    [|destruct (in_range 224 239 b0 && _ && _) eqn:H3;
      [|destruct (in_range 240 244 b0 && _ && _ && _) eqn:H4]];
    injection Hd as <- <-; repeat match goal with H : _ && _ = true |- _ => apply andb_true_iff in H as [? ?] end.
  - split_and!; [by apply rune2_ge|lia|]. apply high_bytes_get. intros [|[|i]] Hi; [done| |lia].
    destruct (byte_at_range s' 1 _ _ ltac:(done) Hlo) as (? & ? & ? & ?); eauto.
  - split_and!; [by apply rune3_ge|lia|]. apply high_bytes_get. intros [|[|[|i]]] Hi; [done| | |lia].
    + destruct (byte_at_range s' 1 _ _ ltac:(done) Hlo) as (? & ? & ? & ?); eauto.
    + destruct (byte_at_range s' 2 128 191 ltac:(done) ltac:(lia)) as (? & ? & ? & ?); eauto.
  - split_and!; [by apply rune4_ge|lia|]. apply high_bytes_get. intros [|[|[|[|i]]]] Hi; [done| | | |lia].
    + destruct (byte_at_range s' 1 _ _ ltac:(done) Hlo) as (? & ? & ? & ?); eauto.
    + destruct (byte_at_range s' 2 128 191 ltac:(done) ltac:(lia)) as (? & ? & ? & ?); eauto.
    + destruct (byte_at_range s' 3 128 191 ltac:(done) ltac:(lia)) as (? & ? & ? & ?); eauto.
  - split_and!; [done|lia|]. by cbn.
Qed.
