(* ===== verification/Misc.v ===== *)
(** * Package [misc]: [DynamicVar], [Tuple] and [GetOnly]

    [sources/misc/dynamicvar.go], [sources/misc/tuples.go] and the text filter
    of [sources/misc/misc.go].  A [DynamicVar] is a string; the typed accessors
    convert at every call.  The floating-point accessors are in [HttpApi.v],
    with the numbers of JSON. *)
From S2P Require Import Prelude GoStrings GoStrconv.

(** ** DynamicVar *)
Record DynamicVar := mkDynamicVar { data : string }.

#[export] Instance DynamicVar_eq_dec : EqDecision DynamicVar.
Proof. solve_decision. Defined.

(** The dynamic type of a Go [any] argument.  A value of any kind other than
    string, integer or bool is represented by the text [json.Marshal] gives it. *)
Inductive any :=
  | AnyNil
  | AnyString (s : string)
  | AnyInt (z : Z)
  | AnyBool (b : bool)
  | AnyOther (json indented : string).

(** [anyToString]; [None] is the nil dereference of [reflect.TypeOf(nil).Kind()]. *)
Definition anyToString (value : any) (enableJsonOutputIdent : bool) : option string :=
  match value with
  | AnyNil => None
  | AnyString s => Some s
  | AnyInt z => Some (Itoa z)
  | AnyBool b => Some (if b then "true" else "false")
  | AnyOther json indented => Some (if enableJsonOutputIdent then indented else json)
  end.

(** [NewDynamicVar(data any)]; [None] when it panics. *)
Definition NewDynamicVar_any (data : any) : option DynamicVar :=
  mkDynamicVar <$> anyToString data false.

(** [NewDynamicVar] at the two static types the storage code uses. *)
Definition NewDynamicVar (s : string) : DynamicVar := mkDynamicVar s.
Definition NewDynamicVar_int (z : Z) : DynamicVar := mkDynamicVar (Itoa z).
Definition NewEmptyDynamicVar : DynamicVar := mkDynamicVar "".

Definition SetString (_ : DynamicVar) (value : string) : DynamicVar := mkDynamicVar value.
Definition GetString (v : DynamicVar) : string := data v.
Definition SetInt (v : DynamicVar) (value : Z) : DynamicVar := SetString v (Itoa value).
Definition GetInte (v : DynamicVar) : option Z := Atoi (data v).
Definition GetInt (v : DynamicVar) : Z := default 0%Z (GetInte v).
(** [int64] and [int] have the same width: the conversions are identities. *)
Definition SetInt64 (v : DynamicVar) (value : Z) : DynamicVar := SetString v (Itoa value).
Definition GetInt64e (v : DynamicVar) : option Z := Atoi (data v).
Definition GetInt64 (v : DynamicVar) : Z := default 0%Z (GetInt64e v).
Definition SetBool (_ : DynamicVar) (value : bool) : DynamicVar :=
  mkDynamicVar (if value then "1" else "0").
Definition GetBool `{UnicodeCase} (v : DynamicVar) : bool :=
  Contains "1trueyesok" (ToLower (data v)).
Definition DynamicVar_Set (_ : DynamicVar) (value : any) : option DynamicVar :=
  mkDynamicVar <$> anyToString value false.

(** The functional options of [NewDynamicVar2]. *)
Definition NewDynamicVar2 (option : DynamicVar → DynamicVar) : DynamicVar := option NewEmptyDynamicVar.
Definition WithString (value : string) (v : DynamicVar) : DynamicVar := SetString v value.
Definition WithInt (value : Z) (v : DynamicVar) : DynamicVar := SetInt64 v value.
Definition WithBool (value : bool) (v : DynamicVar) : DynamicVar := SetBool v value.

(** ** Tuple: indexing out of bounds panics ([None]). *)
Record Tuple (T : Type) := mkTuple { elements : list T }.
Arguments mkTuple {T} _.
Arguments elements {T} _.

Definition NewTuple {T} (l : list T) : Tuple T := mkTuple l.
Definition ElementAt {T} (t : Tuple T) (index : nat) : option T := elements t !! index.
Definition At {T} (t : Tuple T) (index : nat) : option T := elements t !! index.
Definition Len {T} (t : Tuple T) : nat := length (elements t).
Definition Unpack {T} (t : Tuple T) : list T := elements t.
Definition First {T} (t : Tuple T) : option T := elements t !! 0.
Definition Second {T} (t : Tuple T) : option T := elements t !! 1.
Definition Third {T} (t : Tuple T) : option T := elements t !! 2.
Definition Fourth {T} (t : Tuple T) : option T := elements t !! 3.
Definition Fifth {T} (t : Tuple T) : option T := elements t !! 4.

#[export] Instance Tuple_eq_dec {T} `{EqDecision T} : EqDecision (Tuple T).
Proof. solve_decision. Defined.

(** ** GetOnly: keeps the runes of [source] that occur in [validChars]. *)
Definition GetOnly_step (validChars result : string) (c : Z) : string :=
  if ContainsRune validChars c then result +:+ encode_rune c else result.
Definition GetOnly (source validChars : string) : string :=
  fold_left (GetOnly_step validChars) (runes source) "".

(** The reference: keeps the bytes that satisfy [P]. *)
Fixpoint filter_bytes (P : ascii → bool) (s : string) : string :=
  match s with
  | "" => ""
  | String c s => if P c then String c (filter_bytes P s) else filter_bytes P s
  end.
Definition byte_in (chars : string) (c : ascii) : bool := bool_decide (is_Some (IndexByte chars c)).

(** ** Lemmas *)
Lemma GetInt64_int z : in_int64 z = true → GetInt64 (NewDynamicVar_int z) = z.
Proof. intros Hz. unfold GetInt64, GetInt64e, NewDynamicVar_int. cbn. by rewrite Atoi_Itoa. Qed.

Lemma all_bytes_lookup P s i c : all_bytes P s = true → String.get i s = Some c → P c = true.
Proof.
  revert i. induction s as [|a s IH]; intros [|i]; cbn; [done..| |];
    rewrite andb_true_iff; intros [Ha Hs]; [congruence|by apply IH].
Qed.

Lemma filter_bytes_high P w s :
  high_bytes w s → (∀ c, is_ascii_byte c = false → P c = false) →
  filter_bytes P s = filter_bytes P (str_drop w s).
Proof.
  revert s. induction w as [|w IH]; intros [|c s] Hh HP; [done..|].
  destruct Hh as [Hc Hh]. cbn. rewrite HP by done. by apply IH.
Qed.

Lemma runes_ascii_bound fuel s r :
  all_bytes is_ascii_byte s = true → r ∈ runes_fuel fuel s → (r < 128)%Z.
Proof.
  revert s. induction fuel as [|fuel IH]; intros [|c s]; cbn [runes_fuel];
    try (intros ? Hr; by apply elem_of_nil in Hr).
  cbn [all_bytes]. intros [Hc Hs]%andb_true_iff. rewrite decode_rune_ascii by done.
  intros [->|Hr]%elem_of_cons.
  - unfold is_ascii_byte in Hc. apply Nat.ltb_lt in Hc. lia.
  - by eapply IH.
Qed.

Lemma high_first_not_contained s sub c t :
  all_bytes is_ascii_byte s = true → sub = String c t → is_ascii_byte c = false → Contains s sub = false.
Proof.
  intros Hs -> Hc. unfold Contains. apply bool_decide_eq_false.
  induction s as [|a s IH]; cbn [Index HasPrefix].
  - by intros [? ?].
  - cbn [all_bytes] in Hs. apply andb_true_iff in Hs as [Ha Hs].
    rewrite bool_decide_false by congruence. cbn.
    destruct (Index s (String c t)) eqn:E; [|by intros [? ?]].
    exfalso. apply IH; [done|]. by eexists.
Qed.

Lemma zbyte_high z : (128 ≤ z ≤ 255)%Z → is_ascii_byte (zbyte z) = false.
Proof.
  intros Hz. unfold is_ascii_byte, zbyte. apply Nat.ltb_ge.
  rewrite nat_ascii_embedding by lia. lia.
Qed.

Lemma lor_bound a b n : (0 ≤ a < 2 ^ n)%Z → (0 ≤ b < 2 ^ n)%Z → (0 ≤ n)%Z → (Z.lor a b < 2 ^ n)%Z.
Proof.
  intros Ha Hb Hn. destruct (Z.eq_dec (Z.lor a b) 0) as [->|Hne]; [apply Z.pow_pos_nonneg; lia|].
  pose proof (Z.lor_nonneg a b). apply Z.log2_lt_cancel. rewrite Z.log2_lor by lia.
  rewrite (Z.log2_pow2 n) by done.
  assert (∀ x, 0 ≤ x < 2 ^ n → 0 < n → Z.log2 x < n)%Z as Hl.
  { intros x Hx Hpos. destruct (Z.eq_dec x 0) as [->|]; [done|]. apply Z.log2_lt_pow2; lia. }
  destruct (Z.eq_dec n 0) as [->|]; [cbn in *; assert (a = 0)%Z by lia; assert (b = 0)%Z by lia; subst; done|].
  apply Z.max_lub_lt; apply Hl; lia.
Qed.

Lemma lead_byte_high k r s :
  (128 ≤ k < 256)%Z → (0 ≤ Z.shiftr r s < 256)%Z → is_ascii_byte (zbyte (Z.lor k (Z.shiftr r s))) = false.
Proof.
  intros Hk Hs. apply zbyte_high. split.
  - pose proof (lor_ge_l k (Z.shiftr r s)). lia.
  - pose proof (lor_bound k (Z.shiftr r s) 8). lia.
Qed.

(** A rune above 127 is encoded with a leading byte above 127. *)
Lemma encode_rune_high r :
  valid_rune r = true → (128 ≤ r)%Z → ∃ c t, encode_rune r = String c t ∧ is_ascii_byte c = false.
Proof.
  intros Hv Hr. unfold encode_rune. rewrite Hv.
  unfold valid_rune, in_range in Hv. rewrite !andb_true_iff, !Z.leb_le in Hv.
  rewrite (proj2 (Z.leb_gt _ _)) by lia.
  destruct (Z.leb_spec r 2047); [|destruct (Z.leb_spec r 65535)]; eexists _, _; (split; [done|]);
    apply lead_byte_high; rewrite ?Z.shiftr_div_pow2 by lia; try lia;
    (split; [apply Z.div_pos; lia|apply Z.div_lt_upper_bound; lia]).
Qed.

Lemma ContainsRune_high chars r :
  all_bytes is_ascii_byte chars = true → (128 ≤ r)%Z → ContainsRune chars r = false.
Proof.
  intros Hc Hr. unfold ContainsRune, in_range at 1.
  rewrite (proj2 (Z.leb_gt r 127)), andb_false_r by lia.
  destruct (Z.eqb_spec r rune_error) as [->|].
  - apply bool_decide_eq_false. intros Hin%runes_ascii_bound; [|done]. unfold rune_error in Hin. lia.
  - destruct (valid_rune r) eqn:Hv; [|done]. cbn.
    destruct (encode_rune_high r Hv Hr) as (c & t & Hs & Hca). by eapply high_first_not_contained.
Qed.

Lemma zbyte_of_ascii c : zbyte (Z.of_nat (nat_of_ascii c)) = c.
Proof. unfold zbyte. by rewrite Nat2Z.id, ascii_nat_embedding. Qed.

Lemma ascii_rune_bounds c :
  is_ascii_byte c = true → (0 ≤ Z.of_nat (nat_of_ascii c) ≤ 127)%Z.
Proof. unfold is_ascii_byte. intros Hc%Nat.ltb_lt. lia. Qed.

Lemma ContainsRune_ascii chars c :
  is_ascii_byte c = true → ContainsRune chars (Z.of_nat (nat_of_ascii c)) = byte_in chars c.
Proof.
  intros Hc%ascii_rune_bounds. unfold ContainsRune, in_range at 1.
  rewrite !(proj2 (Z.leb_le _ _)) by lia. cbn [andb]. by rewrite zbyte_of_ascii.
Qed.

Lemma encode_rune_ascii c :
  is_ascii_byte c = true → encode_rune (Z.of_nat (nat_of_ascii c)) = String c "".
Proof.
  intros Hc%ascii_rune_bounds. unfold encode_rune.
  assert (valid_rune (Z.of_nat (nat_of_ascii c)) = true) as ->.
  { unfold valid_rune, in_range. lia. }
  rewrite (proj2 (Z.leb_le _ _)) by lia. by rewrite zbyte_of_ascii.
Qed.

Lemma byte_in_high chars c :
  all_bytes is_ascii_byte chars = true → is_ascii_byte c = false → byte_in chars c = false.
Proof.
  intros Hs Hc. unfold byte_in. apply bool_decide_eq_false. intros [i Hi].
  induction chars as [|a s IH] in i, Hs, Hi |- *; [done|]. cbn [all_bytes IndexByte] in *.
  apply andb_true_iff in Hs as [Ha Hs]. case_decide; [congruence|].
  destruct (IndexByte s c) as [j|] eqn:Hj; [|done]. by eapply IH.
Qed.

Lemma GetOnly_fold fuel s chars acc :
  all_bytes is_ascii_byte chars = true → len s ≤ fuel →
  fold_left (GetOnly_step chars) (runes_fuel fuel s) acc = acc +:+ filter_bytes (byte_in chars) s.
Proof.
  intros Hchars. revert s acc. induction fuel as [|fuel IH]; intros [|c s] acc Hlen;
    cbn [String.length] in Hlen; try (cbn; by rewrite app_empty_r); [lia|].
  cbn [runes_fuel]. destruct (is_ascii_byte c) eqn:Hc.
  - rewrite decode_rune_ascii by done. cbn [fold_left str_drop filter_bytes]. rewrite IH by lia.
    unfold GetOnly_step. rewrite ContainsRune_ascii by done.
    destruct (byte_in chars c); [|done]. rewrite encode_rune_ascii by done.
    by rewrite str_app_assoc, app_cons, app_empty_l.
  - destruct (decode_rune (String c s)) as [r w] eqn:Hd.
    destruct (decode_rune_high c s r w Hc Hd) as (Hr & Hw & Hh).
    cbn [fold_left]. rewrite IH by (rewrite len_str_drop; cbn; lia). f_equal.
    + unfold GetOnly_step. by rewrite ContainsRune_high.
    + symmetry. apply filter_bytes_high; [done|]. intros. by apply byte_in_high.
Qed.

(** ** Properties *)

Lemma GetOnly_filter source validChars :
  all_bytes is_ascii_byte validChars = true →
  GetOnly source validChars = filter_bytes (byte_in validChars) source.
Proof. intros Hv. unfold GetOnly, runes. by rewrite GetOnly_fold, app_empty_l. Qed.

(** [GetOnly], which decodes the source rune by rune, is the byte filter its
    callers expect when the allowed characters are ASCII: malformed UTF-8 and
    multi-byte characters are dropped whole, whatever the source. *)
Theorem GetOnly_filters_bytes source validChars :
  all_bytes is_ascii_byte validChars = true →
  GetOnly source validChars = filter_bytes (byte_in validChars) source.
Proof. apply GetOnly_filter. Qed.

Lemma GetOnly_filters_bytes_witness :
  let chars := "0123456789abcdefABCDEF" in
  let source := "x1" +:+ bytes [226; 130; 172; 195] +:+ "fZ9" in
  all_bytes is_ascii_byte chars = true ∧ GetOnly source chars = filter_bytes (byte_in chars) source.
Proof. split; [reflexivity|]. apply GetOnly_filters_bytes. reflexivity. Defined.

