(* ===== verification/Terminal.v ===== *)
(** * The terminal utilities of [sources/misc/misc.go]

    Separator lines and centred text.  The size of the terminal is found by the
    package [golang.org/x/term] or, failing that, by the command [tput]: both are
    parameters.  The loops of the code are bounded by fuel; [None] is a loop
    that does not end, [Err] a slice out of range, which panics. *)
From S2P Require Import Prelude GoStrings GoStrconv.

(** [fmt.Sscanf(text, "%d", &n)] on the output of [tput] is a parameter too. *)
Definition getTerminalSize_tput (run : string → list string → option string) (scan : string → option Z) : (Z * Z) * bool :=
  match run "tput" ["cols"] with
  | None => ((100, 24)%Z, false)
  | Some outWidth =>
      match run "tput" ["lines"] with
      | None => ((100, 24)%Z, false)
      | Some outHeight =>
          match scan outWidth with
          | None => ((100, 24)%Z, false)
          | Some w => match scan outHeight with
                      | None => ((100, 24)%Z, false)
                      | Some h => ((w, h), true)
                      end
          end
      end
  end.
Definition executeCommandAndGetOutput (exec : string → list string → option string) (command : string) (args : list string)
    : option string :=
  TrimSpace <$> exec command args.
Definition getTerminalSize (GetSize : option (Z * Z)) (exec : string → list string → option string)
    (scan : string → option Z) : (Z * Z) * bool :=
  match GetSize with
  | Some wh => (wh, true)
  | None => getTerminalSize_tput (executeCommandAndGetOutput exec) scan
  end.

(** [for len(line) < width { line += charToUse }] *)
Fixpoint fill_line (fuel : nat) (line charToUse : string) (width : Z) : option string :=
  if (Z.of_nat (len line) <? width)%Z then
    match fuel with
    | O => None
    | S fuel => fill_line fuel (line +:+ charToUse) charToUse width
    end
  else Some line.

(** [line[:width]], when the line is longer. *)
Definition cut_line (line : string) (width : Z) : result string string :=
  if (width <? Z.of_nat (len line))%Z then
    if (width <? 0)%Z then Err "slice bounds out of range" else Ok (str_take (Z.to_nat width) line)
  else Ok line.

Definition CreateTermSeparator (fuel : nat) (terminalSize : Z) (charToUse centralText : string)
    : option (result string string) :=
  let width := terminalSize in
  line ←
    (if decide (centralText = "") then fill_line fuel "" charToUse width
     else
       let padding := Z.quot (width - Z.of_nat (len centralText)) 2 in
       left ← fill_line fuel "" charToUse padding;
       fill_line fuel (left +:+ centralText) charToUse width);
  Some (cut_line line width).

Definition CreateTerminalSeparatorForCurrentTerminal (fuel : nat) (size : (Z * Z) * bool) (charToUse centralText : string)
    : option (result string string) :=
  let '((width, _), ok) := size in
  CreateTermSeparator fuel (if ok : bool then width else 100%Z) charToUse centralText.

(** The text a call writes to the standard output. *)
Definition PrintTerminalSeparator (fuel : nat) (size : (Z * Z) * bool) (charToUse centralText : string)
    : option (result string string) :=
  r ← CreateTerminalSeparatorForCurrentTerminal fuel size charToUse centralText;
  Some (match r with Ok sep => Ok (sep +:+ nl) | Err e => Err e end).

Fixpoint spaces (n : nat) : string := match n with O => "" | S n => String " " (spaces n) end.

(** The lines printed; the text is a slice of itself at every turn. *)
Fixpoint PrintAtCenter_loop (fuel : nat) (width : Z) (text : string) : option (result string (list string)) :=
  match fuel with
  | O => None
  | S fuel =>
      if (width <=? Z.of_nat (len text))%Z then
        if (width <? 0)%Z then Some (Err "slice bounds out of range")
        else
          r ← PrintAtCenter_loop fuel width (str_drop (Z.to_nat width) text);
          Some (match r with Ok lines => Ok (text :: lines) | Err e => Err e end)
      else
        let padding := Z.quot (width - Z.of_nat (len text)) 2 in
        Some (Ok [spaces (Z.to_nat padding) +:+ text])
  end.
Definition PrintAtCenterOfTerminal (fuel : nat) (size : (Z * Z) * bool) (text : string)
    : option (result string (list string)) :=
  let '((width, _), ok) := size in
  PrintAtCenter_loop fuel (if ok : bool then width else 100%Z) text.

(** ** The loops end *)
Fixpoint repeat_str (n : nat) (s : string) : string := match n with O => "" | S n => s +:+ repeat_str n s end.

Lemma len_repeat_str n s : len (repeat_str n s) = n * len s.
Proof. induction n as [|n IH]; [done|]. cbn. rewrite len_app, IH. lia. Qed.

Lemma len_0 s : len s = 0 → s = "".
Proof. by destruct s. Qed.

(** With something to fill with, [width] turns are enough; the last one starts on
    a line that is still too short. *)
Lemma fill_line_ends fuel line unit width :
  unit ≠ "" → (width - Z.of_nat (len line) ≤ Z.of_nat fuel)%Z →
  ∃ n, fill_line fuel line unit width = Some (line +:+ repeat_str n unit) ∧
    (width ≤ Z.of_nat (len line + n * len unit))%Z ∧
    (n = 0 ∨ (Z.of_nat (len line + (n - 1) * len unit) < width)%Z).
Proof.
  intros Hu. assert (len unit ≠ 0) as Hlu by (intros E; by apply Hu, len_0).
  revert line. induction fuel as [|fuel IH]; intros line Hf; cbn [fill_line];
    destruct (Z.ltb_spec (Z.of_nat (len line)) width) as [Hlt|Hge].
  - lia.
  - exists 0. cbn. rewrite app_empty_r. split; [done|]. split; [lia|by left].
  - destruct (IH (line +:+ unit)) as (n & Hr & H1 & H2); [rewrite len_app; lia|].
    exists (S n). rewrite Hr. cbn. rewrite str_app_assoc. rewrite len_app in H1, H2.
    split; [done|]. split; [lia|]. right. destruct H2 as [->|]; [cbn; lia|]. nia.
  - exists 0. cbn. rewrite app_empty_r. split; [done|]. split; [lia|by left].
Qed.

(** With nothing to fill with, a line that is too short stays so. *)
Lemma fill_line_stuck fuel line width : (Z.of_nat (len line) < width)%Z → fill_line fuel line "" width = None.
Proof.
  intros Hw. induction fuel as [|fuel IH]; cbn [fill_line]; rewrite (proj2 (Z.ltb_lt _ _)) by done; [done|].
  by rewrite app_empty_r.
Qed.
Lemma fill_line_done fuel line unit width : (width ≤ Z.of_nat (len line))%Z → fill_line fuel line unit width = Some line.
Proof. intros Hw. destruct fuel; cbn; by rewrite (proj2 (Z.ltb_ge _ _)). Qed.

Lemma cut_line_len line width :
  (0 ≤ width ≤ Z.of_nat (len line))%Z → ∃ l, cut_line line width = Ok l ∧ Z.of_nat (len l) = width ∧ l = str_take (Z.to_nat width) line.
Proof.
  intros Hw. unfold cut_line. destruct (Z.ltb_spec width (Z.of_nat (len line))).
  - rewrite (proj2 (Z.ltb_ge width 0)) by lia. eexists. split; [done|]. split; [|done].
    pose proof (f_equal len (take_drop_str (Z.to_nat width) line)) as E. rewrite len_app, len_str_drop in E. lia.
  - eexists. split; [done|]. split; [lia|]. replace (Z.to_nat width) with (len line) by lia.
    pose proof (str_take_app line "") as E. by rewrite app_empty_r in E.
Qed.

Lemma CreateTermSeparator_line fuel width unit text :
  unit ≠ "" → (0 ≤ width ≤ Z.of_nat fuel)%Z →
  ∃ n m line, CreateTermSeparator fuel width unit text = Some (Ok line) ∧ Z.of_nat (len line) = width ∧
    line = str_take (Z.to_nat width) (repeat_str n unit +:+ text +:+ repeat_str m unit) ∧
    let padding := if decide (text = "") then 0%Z else Z.quot (width - Z.of_nat (len text)) 2 in
    (padding ≤ Z.of_nat (n * len unit))%Z ∧ (n = 0 ∨ (Z.of_nat ((n - 1) * len unit) < padding)%Z).
Proof.
  intros Hu Hw. unfold CreateTermSeparator. case_decide as Ht.
  - destruct (fill_line_ends fuel "" unit width Hu ltac:(cbn; lia)) as (m & -> & H1 & _). rewrite app_empty_l.
    destruct (cut_line_len (repeat_str m unit) width) as (l & Hl & Hlen & Hcut); [rewrite len_repeat_str; cbn in H1; lia|].
    exists 0, m, l. cbn [option_bind mbind]. rewrite Hl, Ht. cbn [repeat_str]. rewrite !app_empty_l. split_and!; [done..|by left].
  - set (padding := Z.quot _ 2).
    assert (padding ≤ width)%Z as Hp by (unfold padding; pose proof (Z.quot_le_mono (width - Z.of_nat (len text)) width 2);
      pose proof (Z.quot_le_upper_bound width 2 width); lia).
    destruct (fill_line_ends fuel "" unit padding Hu ltac:(cbn; lia)) as (n & -> & H1 & H2). rewrite app_empty_l. cbn [option_bind mbind].
    destruct (fill_line_ends fuel (repeat_str n unit +:+ text) unit width Hu ltac:(cbn; lia)) as (m & -> & H3 & _).
    cbn [option_bind mbind].
    destruct (cut_line_len ((repeat_str n unit +:+ text) +:+ repeat_str m unit) width) as (l & Hl & Hlen & Hcut).
    { rewrite !len_app, !len_repeat_str in *. lia. }
    exists n, m, l. rewrite Hl, <-str_app_assoc. split_and!; [done..|cbn in H1; lia|]. destruct H2; [by left|right; cbn in *; lia].
Qed.

(** [CreateTermSeparator] ends with a line of exactly the width of the terminal
    as soon as there is something to fill it with; the text is preceded by the
    least number of copies that takes up half of the room it leaves. *)
Theorem CreateTermSeparator_fits fuel width unit text :
  unit ≠ "" → (0 ≤ width ≤ Z.of_nat fuel)%Z →
  ∃ n m line, CreateTermSeparator fuel width unit text = Some (Ok line) ∧ Z.of_nat (len line) = width ∧
    line = str_take (Z.to_nat width) (repeat_str n unit +:+ text +:+ repeat_str m unit) ∧
    let padding := if decide (text = "") then 0%Z else Z.quot (width - Z.of_nat (len text)) 2 in
    (padding ≤ Z.of_nat (n * len unit))%Z ∧ (n = 0 ∨ (Z.of_nat ((n - 1) * len unit) < padding)%Z).
Proof. apply CreateTermSeparator_line. Qed.

(** [CreateTermSeparator] loops for ever exactly when it is given nothing to
    fill with and the text does not fill the line by itself. *)
Theorem CreateTermSeparator_diverges_iff width unit text :
  (0 ≤ width)%Z →
  (∀ fuel, CreateTermSeparator fuel width unit text = None) ↔ unit = "" ∧ (Z.of_nat (len text) < width)%Z.
Proof.
  intros Hw. split.
  - intros Hn. destruct (decide (unit = "")) as [->|Hu].
    + split; [done|]. destruct (Z.ltb_spec (Z.of_nat (len text)) width) as [|Hge]; [done|]. exfalso.
      specialize (Hn 0). unfold CreateTermSeparator in Hn. case_decide as Ht.
      * subst text. cbn in Hge. by rewrite (fill_line_done 0 "" "" width Hge) in Hn.
      * rewrite (fill_line_done 0 "") in Hn by (cbn; apply Z.quot_le_upper_bound; lia). cbn [option_bind mbind] in Hn.
        by rewrite app_empty_l, (fill_line_done 0 text) in Hn.
    + destruct (CreateTermSeparator_line (Z.to_nat width) width unit text) as (n & m & l & Hl & _); [done|lia|]. by rewrite Hn in Hl.
  - intros [-> Hlt] fuel. unfold CreateTermSeparator. case_decide as Ht.
    + subst text. by rewrite (fill_line_stuck fuel "" width).
    + destruct (decide (Z.quot (width - Z.of_nat (len text)) 2 ≤ 0)%Z) as [Hp|Hp].
      * rewrite (fill_line_done fuel "") by done. cbn [option_bind mbind]. by rewrite app_empty_l, fill_line_stuck.
      * by rewrite (fill_line_stuck fuel "") by (cbn; lia).
Qed.

(** A text that is wider than the terminal is printed whole, and its tail again. *)
Example PrintAtCenter_repeats_the_tail :
  PrintAtCenterOfTerminal 9 ((4, 24)%Z, true) "abcdefgh" = Some (Ok ["abcdefgh"; "efgh"; "  "]).
Proof. reflexivity. Qed.

Lemma CreateTermSeparator_fits_witness :
  CreateTermSeparator 12 12 "=-" "hi" = Some (Ok "=-=-=-hi=-=-") ∧
  ∃ n m line, CreateTermSeparator 12 12 "=-" "hi" = Some (Ok line) ∧ Z.of_nat (len line) = 12%Z ∧
    line = str_take (Z.to_nat 12) (repeat_str n "=-" +:+ "hi" +:+ repeat_str m "=-") ∧
    let padding := if decide ("hi" = "") then 0%Z else Z.quot (12 - Z.of_nat (len "hi")) 2 in
    (padding ≤ Z.of_nat (n * len "=-"))%Z ∧ (n = 0 ∨ (Z.of_nat ((n - 1) * len "=-") < padding)%Z).
Proof. split; [reflexivity|]. apply (CreateTermSeparator_fits 12 12 "=-" "hi"); [done|lia]. Defined.

Lemma CreateTermSeparator_diverges_iff_witness :
  (∀ fuel, CreateTermSeparator fuel 10 "" "text" = None) ↔ "" = "" ∧ (Z.of_nat (len "text") < 10)%Z.
Proof. apply (CreateTermSeparator_diverges_iff 10 "" "text"). lia. Defined.
