(* ===== verification/LogUtils.v ===== *)
(** * Texts of the logger ([sources/misc/logger/loggerutils/common.go])

    Levels, line beginnings, indentation and escaping.  A [time.Time] is an
    instant with the offset of its zone; [Format] prints the civil date of the
    proleptic Gregorian calendar, for years of at most four digits. *)
From S2P Require Import Prelude GoStrings GoStrconv.

Definition LEVEL_TRACE : Z := 9.
Definition LEVEL_DEBUG2 : Z := 10.
Definition LEVEL_DEBUG : Z := 20.
Definition LEVEL_INFO2 : Z := 30.
Definition LEVEL_INFO : Z := 40.
Definition LEVEL_WARNING : Z := 50.
Definition LEVEL_ERROR : Z := 60.
Definition LEVEL_CRITICAL : Z := 70.

(** ** [time.Time] *)
Record Time := mkTime { t_unix : Z; (** nanoseconds *) t_zone : Z (** seconds east of UTC *) }.

Definition IsZero (t : Time) : bool := (t_unix t =? -62135596800 * 1000000000)%Z.
Definition Add (t : Time) (d : Z) : Time := mkTime (t_unix t + d) (t_zone t).

(** The date of a day counted from 1970-01-01: in eras of 400 years that start on
    a first of March. *)
Definition civil (days : Z) : Z * Z * Z :=
  (let z := days + 719468 in
   let era := z / 146097 in
   let doe := z mod 146097 in
   let yoe := (doe - doe / 1460 + doe / 36524 - doe / 146096) / 365 in
   let doy := doe - (365 * yoe + yoe / 4 - yoe / 100) in
   let mp := (5 * doy + 2) / 153 in
   let d := doy - (153 * mp + 2) / 5 + 1 in
   let m := if mp <? 10 then mp + 3 else mp - 9 in
   ((yoe + era * 400 + if m <=? 2 then 1 else 0, m), d))%Z.

Fixpoint zeros (n : nat) : string := match n with O => "" | S n => String "0" (zeros n) end.
(** [%0nd] of a number that is not negative. *)
Definition pad (n : nat) (z : Z) : string := let s := Itoa z in zeros (n - len s) +:+ s.

Definition Format (millis : bool) (t : Time) : string :=
  let secs := (t_unix t / 1000000000 + t_zone t)%Z in
  let '(y, m, d) := civil (secs / 86400) in
  let s := (secs mod 86400)%Z in
  pad 4 y +:+ "-" +:+ pad 2 m +:+ "-" +:+ pad 2 d +:+ "T" +:+
  pad 2 (s / 3600) +:+ ":" +:+ pad 2 (s mod 3600 / 60) +:+ ":" +:+ pad 2 (s mod 60) +:+
  (if millis then "." +:+ pad 3 (t_unix t mod 1000000000 / 1000000) else "").

(** ** The functions *)
Fixpoint repeat_space (n : nat) : string := match n with O => "" | S n => String " " (repeat_space n) end.

Definition Ident (source prefix : string) : string :=
  let ret := ReplaceAll source nl (nl +:+ prefix) in
  if HasSuffix source nl then str_take (len ret - len prefix) ret else ret.

Definition backslash : string := String "\"%char "".
Definition quote : string := String "034"%char "".
Definition tab : string := String "009"%char "".
Definition cr_str : string := String cr "".

Definition EscapeString (s : string) : string :=
  let s := ReplaceAll s backslash (backslash +:+ backslash) in
  let s := ReplaceAll s quote (backslash +:+ quote) in
  let s := ReplaceAll s nl (backslash +:+ "n") in
  let s := ReplaceAll s cr_str (backslash +:+ "r") in
  ReplaceAll s tab (backslash +:+ "t").

(** [fmt.Sprintf("%+03d%02d", hours, minutes)] *)
Definition signed2 (z : Z) : string := (if (z <? 0)%Z then "-" else "+") +:+ pad 2 (Z.abs z).
Definition width2 (z : Z) : string := if (z <? 0)%Z then "-" +:+ pad 1 (Z.abs z) else pad 2 z.
Definition zone_text (timezoneoffset : Z) : string :=
  let hours := Z.quot timezoneoffset 3600 in
  let minutes := Z.quot (Z.rem timezoneoffset 3600) 60 in
  signed2 hours +:+ width2 minutes.

(** [now] is the clock, for a time that was not given. *)
Definition GenerateLineBeginning (now : Time) (levelStr name : string) (includeDateTime : bool) (dateTime : Time)
    (timezoneoffset : Z) (includeMillis : bool) : string :=
  (if includeDateTime then
     let dateTime :=
       if IsZero dateTime then Add now ((timezoneoffset - t_zone now) * 1000000000)%Z else dateTime in
     "[" +:+ Format includeMillis dateTime +:+ zone_text timezoneoffset +:+ "] "
   else "") +:+
  "[" +:+ levelStr +:+ "] " +:+
  (if decide (name ≠ "") then "[" +:+ name +:+ "] " else "").

Definition LevelToString (level : Z) (defaultName : string) : string :=
  if decide (level = LEVEL_TRACE) then "TRACE"
  else if decide (level = LEVEL_DEBUG2) then "DEBUG2"
  else if decide (level = LEVEL_DEBUG) then "DEBUG"
  else if decide (level = LEVEL_INFO2) then "INFO2"
  else if decide (level = LEVEL_INFO) then "INFO"
  else if decide (level = LEVEL_WARNING) then "WARNING"
  else if decide (level = LEVEL_ERROR) then "ERROR"
  else if decide (level = LEVEL_CRITICAL) then "CRITICAL"
  else defaultName.

(** An argument of [Log]: a string, a function, or a value with what
    [json.Marshal], [json.MarshalIndent] and [fmt.Sprintf] make of it. *)
Inductive logged :=
  | LogString (s : string)
  | LogFunc (call : logged)
  | LogValue (json indented : option string) (printed : string).

Fixpoint AnyToString (value : logged) (enableJsonOutputIdent : bool) : string :=
  match value with
  | LogString s => s
  | LogFunc call => AnyToString call enableJsonOutputIdent
  | LogValue json indented printed => default printed (if enableJsonOutputIdent then indented else json)
  end.

(** ** One character at a time *)
Fixpoint concat_map (f : ascii → string) (s : string) : string :=
  match s with "" => "" | String c s => f c +:+ concat_map f s end.

Lemma concat_map_app f a b : concat_map f (a +:+ b) = concat_map f a +:+ concat_map f b.
Proof. induction a as [|c a IH]; [done|]. rewrite app_cons. cbn. by rewrite IH, str_app_assoc. Qed.

Lemma concat_map_comp f g s : concat_map f (concat_map g s) = concat_map (λ c, concat_map f (g c)) s.
Proof. induction s as [|c s IH]; [done|]. cbn. by rewrite concat_map_app, IH. Qed.

Lemma concat_map_ext f g s : (∀ c, f c = g c) → concat_map f s = concat_map g s.
Proof. intros Hfg. induction s as [|c s IH]; [done|]. cbn. by rewrite Hfg, IH. Qed.

(** Replacing a byte. *)
Definition replace_byte (b : ascii) (new : string) (c : ascii) : string := if decide (c = b) then new else String c "".

Lemma ReplaceAll_byte s b new : ReplaceAll s (String b "") new = concat_map (replace_byte b new) s.
Proof.
  unfold ReplaceAll. induction s as [|c s IH]; [done|]. cbn. unfold replace_byte at 1.
  assert (HasPrefix s "" = true) as -> by (by destruct s). rewrite andb_true_r. destruct (decide (c = b)) as [-> | Hne].
  - rewrite bool_decide_true by done. by rewrite IH.
  - rewrite bool_decide_false by congruence. by rewrite IH.
Qed.

(** ** Escaping *)
Definition escape_byte (c : ascii) : string :=
  if decide (c = "\"%char) then backslash +:+ backslash
  else if decide (c = "034"%char) then backslash +:+ quote
  else if decide (c = newline) then backslash +:+ "n"
  else if decide (c = cr) then backslash +:+ "r"
  else if decide (c = "009"%char) then backslash +:+ "t"
  else String c "".

Lemma EscapeString_bytes s : EscapeString s = concat_map escape_byte s.
Proof.
  unfold EscapeString, backslash at 1, quote at 1, nl at 1, cr_str, tab. cbv zeta.
  rewrite !ReplaceAll_byte, !concat_map_comp. apply concat_map_ext. intros c.
  unfold escape_byte, replace_byte. repeat (decide_goal as [-> | ?]; [reflexivity|]). cbn.
  by repeat (rewrite decide_False by done; cbn).
Qed.

(** What a reader of the escaped text does. *)
Fixpoint unescape (s : string) : string :=
  match s with
  | "" => ""
  | String b s1 =>
      if decide (b = "\"%char) then
        match s1 with
        | "" => s
        | String c s2 =>
            String (if decide (c = "n"%char) then newline else if decide (c = "r"%char) then cr
                    else if decide (c = "t"%char) then "009"%char else c) (unescape s2)
        end
      else String b (unescape s1)
  end.

Lemma escape_byte_spec c rest :
  unescape (escape_byte c +:+ rest) = String c (unescape rest) ∧ lacks newline (escape_byte c) ∧ lacks cr (escape_byte c).
Proof.
  unfold escape_byte. repeat (decide_goal as [-> | ?]; [by unfold lacks|]).
  rewrite app_cons, app_empty_l, !lacks_cons. cbn [unescape]. by rewrite decide_False.
Qed.

Lemma EscapeString_facts s : unescape (EscapeString s) = s ∧ lacks newline (EscapeString s) ∧ lacks cr (EscapeString s).
Proof.
  rewrite EscapeString_bytes. induction s as [|c s (IH1 & IH2 & IH3)]; [done|]. cbn [concat_map].
  destruct (escape_byte_spec c (concat_map escape_byte s)) as (-> & H2 & H3). by rewrite IH1, !lacks_app.
Qed.
Lemma EscapeString_lacks s : lacks newline (EscapeString s).
Proof. apply EscapeString_facts. Qed.

(** [EscapeString] loses nothing, and leaves no line end: the text can be read
    back from one line. *)
Theorem EscapeString_roundtrip s : unescape (EscapeString s) = s ∧ lacks newline (EscapeString s) ∧ lacks cr (EscapeString s).
Proof. apply EscapeString_facts. Qed.

(** ** Indentation *)

(** Every line but the first gets the prefix; an empty last line is no line. *)
Fixpoint indented (prefix : string) (rest : list string) : list string :=
  match rest with
  | [] => []
  | [""] => [""]
  | y :: rest => (prefix +:+ y) :: indented prefix rest
  end.
Definition indent_lines (prefix : string) (l : list string) : list string :=
  match l with [] => [] | x :: rest => x :: indented prefix rest end.

Lemma ReplaceAll_lines p x l :
  lacks newline x → Forall (lacks newline) l →
  ReplaceAll (Join (x :: l) nl) nl (nl +:+ p) = Join (x :: (String.append p <$> l)) nl.
Proof.
  intros Hx Hl. unfold nl at 2. rewrite ReplaceAll_byte. revert x Hx.
  assert (∀ x, lacks newline x → concat_map (replace_byte newline (nl +:+ p)) x = x) as Hid.
  { induction x as [|c x IH]; [done|]. intros [Hc Hx]%lacks_cons. cbn. rewrite IH by done.
    unfold replace_byte. by rewrite decide_False. }
  induction Hl as [|y l Hy Hl IH]; intros x Hx; [by apply Hid|].
  rewrite fmap_cons, !Join_cons by done. rewrite !concat_map_app, Hid by done. f_equal.
  cbn [nl]. change (concat_map _ nl) with (replace_byte newline (nl +:+ p) newline +:+ "").
  unfold replace_byte at 1. rewrite decide_True, app_empty_r, str_app_assoc by done. f_equal.
  rewrite IH by done. destruct l as [|z l]; [done|].
  rewrite fmap_cons, (Join_cons x), (Join_cons y), (Join_cons (p +:+ y)) by done. by rewrite str_app_assoc.
Qed.

(** What [indented] does at the end. *)
Lemma indented_ended p l : indented p (l ++ [""]) = (String.append p <$> l) ++ [""].
Proof.
  induction l as [|y l IH]; [done|]. cbn [app]. rewrite fmap_cons. cbn [app]. rewrite <-IH.
  destruct y; [|done]. by destruct l.
Qed.
Lemma indented_open p l : last l ≠ Some "" → indented p l = String.append p <$> l.
Proof.
  induction l as [|y l IH]; [done|]. intros Hl. rewrite fmap_cons.
  destruct l as [|z l]; [by destruct y|]. rewrite <-IH by exact Hl. by destruct y.
Qed.

Lemma Join_snoc_lines x l z sep : Join (x :: l ++ [z]) sep = (Join (x :: l) sep +:+ sep) +:+ z.
Proof.
  revert x. induction l as [|y l IH]; intros x; [cbn; by rewrite str_app_assoc|].
  change ((y :: l) ++ [z]) with (y :: (l ++ [z])). rewrite !(Join_cons x) by done. by rewrite IH, !str_app_assoc.
Qed.

(** [Ident] prefixes every line of a text but the first, and nothing follows a
    final line end: the slice it takes there removes one prefix exactly. *)
Theorem Ident_lines s p : Ident s p = Join (indent_lines p (SplitByte s newline)) nl.
Proof.
  pose proof (Join_SplitByte s newline) as Hs. pose proof (SplitByte_all_lack s newline) as Hl.
  pose proof (SplitByte_ne s newline) as Hne. destruct (SplitByte s newline) as [|x l]; [done|].
  apply Forall_cons in Hl as [Hx Hl]. change (String newline "") with nl in Hs. subst s.
  unfold Ident. rewrite ReplaceAll_lines by done. cbn [indent_lines].
  destruct (decide (last l = Some "")) as [(l' & ->)%last_Some|Hlast].
  - rewrite (proj2 (HasSuffix_spec _ _)) by (exists (Join (x :: l') nl); by rewrite Join_snoc_lines, app_empty_r).
    rewrite indented_ended, fmap_app, list_fmap_singleton, app_empty_r, !Join_snoc_lines, app_empty_r, (len_app _ p).
    rewrite Nat.add_sub. apply str_take_app.
  - rewrite indented_open by done. destruct (HasSuffix _ _) eqn:Hsuf; [|done]. exfalso.
    apply HasSuffix_spec in Hsuf as [t Ht]. apply (f_equal (λ s, SplitByte s newline)) in Ht.
    unfold nl at 2 in Ht. rewrite SplitByte_app in Ht. unfold nl in Ht. rewrite SplitByte_Join in Ht by (done || by constructor).
    destruct l as [|y l].
    + destruct (SplitByte t newline) as [|z l] eqn:Et; [by destruct (SplitByte_ne t newline)|]. by destruct l.
    + apply Hlast. change (last (x :: y :: l) = Some ""). rewrite Ht. apply last_snoc.
Qed.

(** The zone of a line beginning is a sign and four digits, unless the zone is
    west of Greenwich by a fraction of an hour. *)
Example zone_east : zone_text 19800 = "+0530".
Proof. reflexivity. Qed.
Example zone_west : zone_text (-10800) = "-0300".
Proof. reflexivity. Qed.
Example negative_half_hour_zone : zone_text (-12600) = "-03-30" ∧ zone_text (-1800) = "+00-30".
Proof. split; reflexivity. Qed.

(** A date, to the millisecond. *)
Example format_date : Format true (mkTime 1709210096789000000 (-10800)) = "2024-02-29T09:34:56.789".
Proof. reflexivity. Qed.
