(* ===== verification/Logger.v ===== *)
(** * The logger and its writers ([sources/misc/logger])

    [Log] puts a message in a buffer; one goroutine takes the messages out and
    gives each to every writer.  The writers print on the console, append to a
    file that is rotated when it grows, hand the messages to a command, or call
    a function.  [now] is the clock, read where the code calls [time.Now].

    The file system is a map from paths to contents, and the rotated files wait
    in [fw_pending] for the goroutine that archives them. *)
From S2P Require Import Prelude GoStrings GoStrconv LogUtils.

(** ** Writers *)

(** [ILogWriter]: what a writer of type [W] becomes by one message. *)
Class ILogWriter (W : Type) :=
  Write : ∀ (now : Time) (msg : string) (level : Z) (name : string) (dateTime : Time) (timezoneoffset : Z), W → W.

(** *** Console *)
Record ConsoleWriter := mkConsole {
  cw_colors : bool;
  cw_displayLinePref : bool;
  cw_displayDateTime : bool;
  cw_logLevel : Z;
  cw_printMillis : bool;
  cw_lastLineOpened : bool;
  cw_currIdentPrefix : string;
  cw_out : list (bool * string)  (** what was printed; [true] on the standard error *)
}.

Definition NewConsoleWriter (logLevel : Z) (useColors displayLinePrefix displayDateTime printMillis : bool) : ConsoleWriter :=
  mkConsole useColors displayLinePrefix displayDateTime logLevel printMillis false "" [].

Definition escape_code (code text : string) : string :=
  String "027"%char ("[" +:+ code +:+ "m") +:+ text +:+ String "027"%char "[0m".
Definition colored (level : Z) (out : string) : string :=
  if decide (level = LEVEL_INFO2) then escape_code "0;36" out
  else if decide (level = LEVEL_WARNING) then escape_code "0;33" out
  else if decide (level = LEVEL_ERROR) then escape_code "0;31" out
  else if decide (level = LEVEL_CRITICAL) then escape_code "0;31" out
  else if decide (level = LEVEL_DEBUG) then escape_code "0;35" out
  else if decide (level = LEVEL_DEBUG2 ∨ level = LEVEL_TRACE) then escape_code "0;90" out
  else out.

Definition ConsoleWriter_Write (now : Time) (msg : string) (level : Z) (name : string) (dateTime : Time)
    (timezoneoffset : Z) (c : ConsoleWriter) : ConsoleWriter :=
  if (level <? cw_logLevel c)%Z then c
  else
    let '(out, ident) :=
      if cw_displayLinePref c && negb (cw_lastLineOpened c) then
        let lvl := LevelToString level "INFO" in
        let prefix := GenerateLineBeginning now lvl name (cw_displayDateTime c) dateTime timezoneoffset (cw_printMillis c) in
        (prefix +:+ msg, repeat_space (len prefix))
      else (msg, cw_currIdentPrefix c) in
    let out := Ident out ident in
    let out := if cw_colors c then colored level out else out in
    let stderr := bool_decide (level = LEVEL_ERROR ∨ level = LEVEL_CRITICAL) in
    mkConsole (cw_colors c) (cw_displayLinePref c) (cw_displayDateTime c) (cw_logLevel c) (cw_printMillis c)
      (negb (HasSuffix msg nl)) ident (cw_out c ++ [(stderr, out)]).
#[export] Instance console_writer : ILogWriter ConsoleWriter := ConsoleWriter_Write.

(** *** File *)
Record FileWriter := mkFileWriter {
  fw_filePath : string;
  fw_file : bool;  (** the file is open *)
  fw_logLevel : Z;
  fw_printMilliseconds : bool;
  fw_maxFileSize : Z;
  fw_lastLineOpened : bool;
  fw_currIdentPrefix : string;
  fw_fs : gmap string string;
  fw_pending : list (string * string);  (** rotated files, each with its archive *)
  fw_archives : gmap string string      (** what each archive holds *)
}.

Section file.
Context (can_open : string → bool).  (** whether the system lets a path be opened *)

(** [os.OpenFile] with [O_APPEND|O_CREATE|O_WRONLY] *)
Definition open_append (path : string) (fs : gmap string string) : option (gmap string string) :=
  if can_open path then
    Some (match fs !! path with Some _ => fs | None => <[path := ""]> fs end)
  else None.

Definition NewFileWriter (fs : gmap string string) (path : string) (logLevel : Z) (printMilliseconds : bool) (maxFileSize : Z)
    : option FileWriter :=
  fs ← open_append path fs;
  Some (mkFileWriter path true logLevel printMilliseconds maxFileSize false "" fs [] ∅).

(** The extension of the path, from its last dot on, and the rest. *)
Definition split_extension (path : string) : string * string :=
  if Contains path "." then
    let pos := default 0 (LastIndexByte path dot) in (str_take pos path, str_drop pos path)
  else (path, "").
(** What comes after the last slash. *)
Definition base_name (path : string) : string :=
  if Contains path "/" then
    let pos := default 0 (LastIndexByte path "/"%char) in str_drop (S pos) path
  else path.

(** The date in the names of rotated files: [2006-01-02-15-04-05]. *)
Definition file_date (t : Time) : string :=
  let secs := (t_unix t / 1000000000 + t_zone t)%Z in
  let '(y, m, d) := civil (secs / 86400) in
  let s := (secs mod 86400)%Z in
  pad 4 y +:+ "-" +:+ pad 2 m +:+ "-" +:+ pad 2 d +:+ "-" +:+
  pad 2 (s / 3600) +:+ "-" +:+ pad 2 (s mod 3600 / 60) +:+ "-" +:+ pad 2 (s mod 60).

(** [os.Rename]: the target is replaced. *)
Definition rename (old new : string) (fs : gmap string string) : gmap string string :=
  match fs !! old with Some content => <[new := content]> (delete old fs) | None => fs end.

(** The name the full log gets, and its archive. *)
Definition rotated_name (now : Time) (path : string) : string :=
  let '(noext, extension) := split_extension path in
  noext +:+ "-" +:+ file_date now +:+ extension.
Definition archive_name (now : Time) (path : string) : string :=
  let '(noext, _) := split_extension path in
  let historyDir := path +:+ ".history" in
  historyDir +:+ "/" +:+ base_name noext +:+ "-" +:+ file_date now +:+ ".tar.xz".

Definition startCompaction (now : Time) (fw : FileWriter) : FileWriter :=
  let newFname := rotated_name now (fw_filePath fw) in
  let tarXzFile := archive_name now (fw_filePath fw) in
  let fs := rename (fw_filePath fw) newFname (fw_fs fw) in
  let opened := open_append (fw_filePath fw) fs in
  mkFileWriter (fw_filePath fw) (bool_decide (is_Some opened)) (fw_logLevel fw) (fw_printMilliseconds fw) (fw_maxFileSize fw)
    (fw_lastLineOpened fw) (fw_currIdentPrefix fw) (default fs opened) (fw_pending fw ++ [(newFname, tarXzFile)]) (fw_archives fw).

(** The goroutine of a rotation: [tar], then [os.Remove] whatever came of it. *)
Definition archive_turn (tar_works : bool) (fw : FileWriter) : FileWriter :=
  match fw_pending fw with
  | [] => fw
  | (newFname, tarXzFile) :: pending =>
      let archives := match fw_fs fw !! newFname with
        | Some content => if tar_works then <[tarXzFile := content]> (fw_archives fw) else fw_archives fw
        | None => fw_archives fw
        end in
      mkFileWriter (fw_filePath fw) (fw_file fw) (fw_logLevel fw) (fw_printMilliseconds fw) (fw_maxFileSize fw)
        (fw_lastLineOpened fw) (fw_currIdentPrefix fw) (delete newFname (fw_fs fw)) pending archives
  end.

(** The header of a new line; its width is the indentation of the lines after it. *)
Definition file_header (now : Time) (level : Z) (name : string) (dateTime : Time) (timezoneoffset : Z) (fw : FileWriter) : string :=
  if negb (fw_lastLineOpened fw)
  then GenerateLineBeginning now (LevelToString level "INFO") name true dateTime timezoneoffset (fw_printMilliseconds fw)
  else "".
Definition file_ident (header : string) (fw : FileWriter) : string :=
  if negb (fw_lastLineOpened fw) then repeat_space (len header) else fw_currIdentPrefix fw.

Definition set_fw_fs (fs : gmap string string) (fw : FileWriter) : FileWriter :=
  mkFileWriter (fw_filePath fw) (fw_file fw) (fw_logLevel fw) (fw_printMilliseconds fw) (fw_maxFileSize fw)
    (fw_lastLineOpened fw) (fw_currIdentPrefix fw) fs (fw_pending fw) (fw_archives fw).
Definition set_fw_line (opened : bool) (ident : string) (fw : FileWriter) : FileWriter :=
  mkFileWriter (fw_filePath fw) (fw_file fw) (fw_logLevel fw) (fw_printMilliseconds fw) (fw_maxFileSize fw)
    opened ident (fw_fs fw) (fw_pending fw) (fw_archives fw).

(** [fw.file.WriteString(out)], and the rotation. *)
Definition append_to_log (now : Time) (out : string) (fw : FileWriter) : FileWriter :=
  if fw_file fw then
    let content := default "" (fw_fs fw !! fw_filePath fw) +:+ out in
    let fw := set_fw_fs (<[fw_filePath fw := content]> (fw_fs fw)) fw in
    if (0 <? fw_maxFileSize fw)%Z then
      if (fw_maxFileSize fw <? Z.of_nat (len content))%Z then startCompaction now fw else fw
    else fw
  else fw.

Definition FileWriter_Write (now : Time) (msg : string) (level : Z) (name : string) (dateTime : Time)
    (timezoneoffset : Z) (fw : FileWriter) : FileWriter :=
  if (level <? fw_logLevel fw)%Z then fw
  else
    let header := file_header now level name dateTime timezoneoffset fw in
    let ident := file_ident header fw in
    let out := header +:+ Ident msg ident in
    let fw := append_to_log now out fw in
    set_fw_line (negb (HasSuffix msg nl)) ident fw.
End file.

(** *** Command *)
Record commandEntry := mkEntry { e_header : string; e_text : string; e_name : string; e_level : Z }.
Record CommandCallWriter := mkCommandCall {
  cc_command : string;
  cc_minInterval : Z;
  cc_running : bool;
  cc_cache : list commandEntry;
  cc_runs : list (string * string)  (** the commands run, each with the text of its file *)
}.
Definition NewCommandCallWriter (command : string) (minInterval : Z) : CommandCallWriter :=
  mkCommandCall command minInterval true [] [].

Definition CommandCallWriter_Write (now : Time) (msg : string) (level : Z) (name : string) (dateTime : Time)
    (timezoneoffset : Z) (w : CommandCallWriter) : CommandCallWriter :=
  let header := GenerateLineBeginning now (LevelToString level "INFO") name true dateTime timezoneoffset true in
  mkCommandCall (cc_command w) (cc_minInterval w) (cc_running w) (cc_cache w ++ [mkEntry header msg name level]) (cc_runs w).
#[export] Instance command_writer : ILogWriter CommandCallWriter := CommandCallWriter_Write.

Definition quoted (s : string) : string := quote +:+ EscapeString s +:+ quote.
Definition csv_line (e : commandEntry) : string :=
  quoted (e_header e) +:+ "," +:+ quoted (e_text e) +:+ "," +:+ quoted (e_name e) +:+ "," +:+ Itoa (e_level e) +:+ nl.
Fixpoint csv_text (l : list commandEntry) : string :=
  match l with [] => "" | e :: l => csv_line e +:+ csv_text l end.

(** One turn of the loop; [temp] is the file [os.CreateTemp] makes, [None] when it
    fails, and then the messages are gone. *)
Definition loop_turn (temp : option string) (w : CommandCallWriter) : CommandCallWriter :=
  match cc_cache w with
  | [] => w
  | local =>
      let runs := match temp with
        | None => cc_runs w
        | Some f => cc_runs w ++ [(cc_command w +:+ " " +:+ quote +:+ f +:+ quote, csv_text local)]
        end in
      mkCommandCall (cc_command w) (cc_minInterval w) (cc_running w) [] runs
  end.

(** *** Function *)
Record LambdaWriter (W : Type) := mkLambda { lw_fn : option (string → Z → string → Time → Z → W → W); lw_state : W }.
Arguments mkLambda {W} _ _.
Arguments lw_fn {W} _.
Arguments lw_state {W} _.
Definition NewLambdaWriter {W} (f : string → Z → string → Time → Z → W → W) (s : W) : LambdaWriter W := mkLambda (Some f) s.
Definition LambdaWriter_Write {W} (now : Time) (msg : string) (level : Z) (name : string) (dateTime : Time)
    (timezoneoffset : Z) (l : LambdaWriter W) : LambdaWriter W :=
  match lw_fn l with
  | Some fn => mkLambda (lw_fn l) (fn msg level name dateTime timezoneoffset (lw_state l))
  | None => l
  end.
#[export] Instance lambda_writer {W} : ILogWriter (LambdaWriter W) := LambdaWriter_Write.

(** ** The logger *)
Record message := mkMessage { m_msg : string; m_level : Z; m_name : string; m_dateTime : Time; m_timezoneoffset : Z }.

Section logger.
Context `{!ILogWriter W}.

Record Logger := mkLogger {
  writers : list W;
  useCustomTimezone : bool;
  customTimeZoneOffsetSeconds : Z;
  buffer : list message;  (** a channel of capacity 100 *)
  keepNextLineOpened : bool
}.
Definition buffer_capacity : nat := 100.

Definition NewLogger (ws : list W) (useCustomTimezone : bool) (tzOffsetSeconds : Z) : Logger :=
  mkLogger ws useCustomTimezone tzOffsetSeconds [] false.

(** One turn of the goroutine [NewLogger] starts. *)
Definition deliver (now : Time) (l : Logger) : option Logger :=
  match buffer l with
  | [] => None
  | m :: rest =>
      Some (mkLogger (Write now (m_msg m) (m_level m) (m_name m) (m_dateTime m) (m_timezoneoffset m) <$> writers l)
        (useCustomTimezone l) (customTimeZoneOffsetSeconds l) rest (keepNextLineOpened l))
  end.

Definition KeepNextLineOpened (l : Logger) : Logger :=
  mkLogger (writers l) (useCustomTimezone l) (customTimeZoneOffsetSeconds l) (buffer l) true.

(** The text of the arguments, separated by spaces. *)
Fixpoint log_text (index : nat) (msgs : list logged) : string :=
  match msgs with
  | [] => ""
  | item :: msgs => (if decide (0 < index) then " " else "") +:+ AnyToString item true +:+ log_text (S index) msgs
  end.

(** [None]: the buffer is full, and the call waits. *)
Definition Log (now : Time) (level : Z) (name : string) (msgs : list logged) (l : Logger) : option Logger :=
  let '(now, timezoneoffset) :=
    if useCustomTimezone l then
      let totalOffset := (customTimeZoneOffsetSeconds l - t_zone now)%Z in
      (Add now (totalOffset * 1000000000)%Z, totalOffset)
    else (now, t_zone now) in
  let msg := log_text 0 msgs in
  let msg := if negb (keepNextLineOpened l) then (if HasSuffix msg nl then msg else msg +:+ nl) else msg in
  if decide (length (buffer l) < buffer_capacity) then
    Some (mkLogger (writers l) (useCustomTimezone l) (customTimeZoneOffsetSeconds l)
      (buffer l ++ [mkMessage msg level name now timezoneoffset]) false)
  else None.

Definition Trace now := Log now LEVEL_TRACE.
Definition Debug2 now := Log now LEVEL_DEBUG2.
Definition Debug_ now := Log now LEVEL_DEBUG.
Definition Info2 now := Log now LEVEL_INFO2.
Definition Info_ now := Log now LEVEL_INFO.
Definition Warning now := Log now LEVEL_WARNING.
Definition Error_ now := Log now LEVEL_ERROR.
Definition Critical now := Log now LEVEL_CRITICAL.
Definition DEFAULT_LOG_NAME : string := "".
Definition LogDefault (now : Time) (level : Z) (msg : string) : Logger → option Logger :=
  Log now level DEFAULT_LOG_NAME [LogString msg].
Definition TraceDefault (now : Time) (msg : string) : Logger → option Logger := Trace now DEFAULT_LOG_NAME [LogString msg].

(** A named logger: the name goes with every message of the main logger. *)
Record NLogger := mkNLogger { nl_name : string; nl_main : Logger }.
Definition NewNLogger (name : string) (main : Logger) : NLogger := mkNLogger name main.
Definition GetNamedLogger (name : string) (l : Logger) : NLogger := NewNLogger name l.
Definition SetName (name : string) (n : NLogger) : NLogger := mkNLogger name (nl_main n).
Definition SetMainLogger (l : Logger) (n : NLogger) : NLogger := mkNLogger (nl_name n) l.
Definition NLogger_Log (now : Time) (level : Z) (msgs : list logged) (n : NLogger) : option NLogger :=
  mkNLogger (nl_name n) <$> Log now level (nl_name n) msgs (nl_main n).
Definition NLogger_KeepNextLineOpened (n : NLogger) : NLogger := mkNLogger (nl_name n) (KeepNextLineOpened (nl_main n)).
End logger.
Arguments Logger W : clear implicits.
Arguments NLogger W : clear implicits.

(** ** Theorems on files *)
Section rotation.
Context (can_open : string → bool).
Implicit Types fw : FileWriter.

Lemma str_take_length i s : i ≤ len s → len (str_take i s) = i.
Proof.
  intros Hi. pose proof (f_equal len (take_drop_str i s)) as E. rewrite len_app, len_str_drop in E. lia.
Qed.

Lemma split_extension_app path : let '(noext, extension) := split_extension path in noext +:+ extension = path.
Proof. unfold split_extension. destruct (Contains path "."); [apply take_drop_str|apply app_empty_r]. Qed.

(** A rotated file never takes the name of the log. *)
Lemma rotated_name_ne now path : rotated_name now path ≠ path.
Proof.
  unfold rotated_name. pose proof (split_extension_app path) as Hs. destruct (split_extension path) as [noext extension].
  intros Heq%(f_equal len). rewrite <-Hs in Heq. rewrite !len_app in Heq. cbn in Heq. lia.
Qed.

End rotation.

(** Two rotations within a second have the same name: the second file takes the
    place of the first, if that has not been archived yet. *)
Definition always_open (_ : string) : bool := true.
Definition noon : Time := mkTime 1709208000000000000 0.
Definition small_log : FileWriter :=
  default (mkFileWriter "" false 0 false 0 false "" ∅ [] ∅) (NewFileWriter always_open ∅ "vss.log" LEVEL_INFO true 40).
Definition two_rotations : FileWriter :=
  FileWriter_Write always_open noon ("second" +:+ nl) LEVEL_INFO "" noon 0
    (FileWriter_Write always_open noon ("first" +:+ nl) LEVEL_INFO "" noon 0 small_log).

Example rotation_overwrites :
  fw_pending two_rotations = [("vss-2024-02-29-12-00-00.log", "vss.log.history/vss-2024-02-29-12-00-00.tar.xz");
                              ("vss-2024-02-29-12-00-00.log", "vss.log.history/vss-2024-02-29-12-00-00.tar.xz")] ∧
  fw_fs two_rotations !! "vss-2024-02-29-12-00-00.log" =
    Some ("[2024-02-29T12:00:00.000+0000] [INFO] second" +:+ nl) ∧
  fw_fs two_rotations !! "vss.log" = Some "".
Proof. split_and!; reflexivity. Qed.

(** The rotated file is removed even when [tar] did not archive it. *)
Example failed_archive_loses_the_log :
  let fw := archive_turn false two_rotations in
  fw_fs fw !! "vss-2024-02-29-12-00-00.log" = None ∧ fw_archives fw = ∅.
Proof. split; reflexivity. Qed.

(** A dot in a directory is taken for the extension of a log without one. *)
Example dotted_directory : rotated_name noon "/etc/vss.d/log" = "/etc/vss-2024-02-29-12-00-00.d/log".
Proof. reflexivity. Qed.

(** ** Theorems on commands *)

Lemma quoted_lacks s : lacks newline (quoted s).
Proof.
  unfold quoted, quote. rewrite app_cons, app_empty_l, lacks_cons, lacks_app. split; [done|]. split; [|done].
  apply EscapeString_lacks.
Qed.

Definition csv_record (e : commandEntry) : string :=
  quoted (e_header e) +:+ "," +:+ quoted (e_text e) +:+ "," +:+ quoted (e_name e) +:+ "," +:+ Itoa (e_level e).

Lemma csv_record_lacks e : lacks newline (csv_record e).
Proof. unfold csv_record. rewrite !lacks_app. split_and!; first [apply quoted_lacks|done|by apply Itoa_lacks]. Qed.

(** The file a command gets has one line for each message, whatever line ends
    the messages have. *)
Theorem csv_text_lines l : SplitByte (csv_text l) newline = (csv_record <$> l) ++ [""].
Proof.
  induction l as [|e l IH]; [done|]. cbn [csv_text]. 
  assert (csv_line e +:+ csv_text l = csv_record e +:+ String newline (csv_text l)) as ->.
  { unfold csv_line, csv_record. by rewrite !str_app_assoc. }
  rewrite SplitByte_app, IH, SplitByte_lacks; [done|apply csv_record_lacks].
Qed.

(** ** The messages reach the writers in order *)
Section fifo.
Context `{!ILogWriter W}.

Implicit Types l : Logger W.

(** A call to [Log], the call that keeps the next line open, a turn of the
    goroutine.  A call that finds the buffer full waits, and is made again. *)
Inductive action :=
  | Call (now : Time) (level : Z) (name : string) (msgs : list logged)
  | Keep
  | Turn (now : Time).

Definition act (l : Logger W) (a : action) : Logger W :=
  match a with
  | Call now level name msgs => default l (Log now level name msgs l)
  | Keep => KeepNextLineOpened l
  | Turn now => default l (deliver now l)
  end.

(** The messages accepted and those delivered, by an action. *)
Definition accepted (l : Logger W) (a : action) : list message := drop (length (buffer l)) (buffer (act l a)).
Definition delivered (l : Logger W) (a : action) : list (Time * message) :=
  match a, buffer l with
  | Turn now, m :: _ => [(now, m)]
  | _, _ => []
  end.
Fixpoint all_accepted (l : Logger W) (acts : list action) : list message :=
  match acts with [] => [] | a :: acts => accepted l a ++ all_accepted (act l a) acts end.
Fixpoint all_delivered (l : Logger W) (acts : list action) : list (Time * message) :=
  match acts with [] => [] | a :: acts => delivered l a ++ all_delivered (act l a) acts end.

Definition write_message (w : W) (tm : Time * message) : W :=
  let '(now, m) := tm in Write now (m_msg m) (m_level m) (m_name m) (m_dateTime m) (m_timezoneoffset m) w.

Lemma Log_buffer now level name msgs l l' :
  Log now level name msgs l = Some l' →
  writers l' = writers l ∧ keepNextLineOpened l' = false ∧ length (buffer l) < buffer_capacity ∧
  ∃ m, buffer l' = buffer l ++ [m] ∧ m_level m = level ∧ m_name m = name ∧
    (keepNextLineOpened l = false → ∃ t, m_msg m = t +:+ nl).
Proof.
  unfold Log. destruct (if useCustomTimezone l then _ else _) as [now' tz]. case_decide as Hlen; [|done].
  intros [= <-]. cbn. split_and!; [done..|]. eexists. split_and!; [done..|]. cbn. intros ->. cbn.
  destruct (HasSuffix _ nl) eqn:Hs; [by apply HasSuffix_spec|by eexists].
Qed.

Lemma act_facts l a :
  delivered l a = [] ∧ buffer (act l a) = buffer l ++ accepted l a ∧ writers (act l a) = writers l ∨
  ∃ now m, delivered l a = [(now, m)] ∧ buffer l = m :: buffer (act l a) ∧ accepted l a = [] ∧
    writers (act l a) = (λ w, write_message w (now, m)) <$> writers l.
Proof.
  unfold accepted. destruct a as [now level name msgs| |now]; cbn.
  - left. split; [done|]. destruct (Log _ _ _ _ _) as [l'|] eqn:E; cbn; [|by rewrite drop_all, app_nil_r].
    apply Log_buffer in E as (-> & _ & _ & m & -> & _). by rewrite drop_app_length.
  - left. by rewrite drop_all, app_nil_r.
  - unfold deliver. destruct (buffer l) as [|m rest] eqn:E; cbn.
    + left. by rewrite E.
    + right. exists now, m. split_and!; [done..| |done]. apply drop_ge. lia.
Qed.

End fifo.


(** A writer that remembers the texts. *)
Definition recorder : LambdaWriter (list string) := NewLambdaWriter (λ msg _ _ _ _ l, l ++ [msg]) [].
Definition two_recorders : Logger (LambdaWriter (list string)) := NewLogger [recorder; recorder] false 0.
Definition some_actions : list action :=
  [Keep; Call noon LEVEL_INFO "Main" [LogString "Starting ..."]; Turn noon; Call noon LEVEL_INFO "Main" [LogString "done"];
   Call noon LEVEL_ERROR "" [LogString "a"; LogString "b"]; Turn noon].

