(* ===== verification/NamedLock.v ===== *)
(** * Package [misc]: the named-lock manager ([sources/misc/namedlock.go])

    [namedLocks.locks] maps a name to a channel of capacity one; the channel
    holds a token when the lock is free.  A lock is created with its token the
    first time it is asked for and is never removed, so a goroutine that has
    looked the channel up keeps waiting on the same one.

    The first part gives the state transformers of the three functions, the
    second the concurrent semantics of any number of goroutines, each running a
    list of [NamedLockRun] calls, interleaved at every blocking point, the third
    its invariants. *)
From S2P Require Import Prelude.

(** Name to "token available". *)
Abbreviation locks := (gmap string bool).

(** The critical section of [acquireNamedLock] (under [namedLocks.mu]). *)
Definition get_or_create (name : string) (L : locks) : locks :=
  match L !! name with
  | Some _ => L
  | None => <[name:=true]> L
  end.

(** [<-ch] when the token is there. *)
Definition take_token (name : string) (L : locks) : option locks :=
  match L !! name with
  | Some true => Some (<[name:=false]> L)
  | _ => None
  end.

(** [releaseNamedLock]: puts the token back unless the channel is full; the
    flag tells whether the send happened (not the [default] branch). *)
Definition releaseNamedLock (name : string) (L : locks) : bool * locks :=
  match L !! name with
  | None => (false, L)
  | Some true => (false, L)
  | Some false => (true, <[name:=true]> L)
  end.

(** ** Concurrent semantics *)

(** A call [NamedLockRun name timeout f]; a non-positive timeout waits for ever. *)
Record call := mkCall { c_name : string; c_timeout : Z }.

(** Where a goroutine is: before its next call, waiting on the channel, running
    [f], about to run the deferred release. *)
Inductive pc :=
  | Ready (todo : list call)
  | Waiting (c : call) (todo : list call)
  | Critical (c : call) (todo : list call)
  | Releasing (c : call) (todo : list call).

Record cfg := mkCfg { cfg_locks : locks; cfg_pcs : gmap nat pc }.

Inductive step : cfg → cfg → Prop :=
  | step_enter L T t c todo :
      T !! t = Some (Ready (c :: todo)) →
      step (mkCfg L T) (mkCfg (get_or_create (c_name c) L) (<[t:=Waiting c todo]> T))
  | step_acquire L L' T t c todo :
      T !! t = Some (Waiting c todo) →
      take_token (c_name c) L = Some L' →
      step (mkCfg L T) (mkCfg L' (<[t:=Critical c todo]> T))
  | step_timeout L T t c todo :
      T !! t = Some (Waiting c todo) →
      (0 < c_timeout c)%Z →
      step (mkCfg L T) (mkCfg L (<[t:=Ready todo]> T))
  | step_body L T t c todo :
      T !! t = Some (Critical c todo) →
      step (mkCfg L T) (mkCfg L (<[t:=Releasing c todo]> T))
  | step_release L T t c todo :
      T !! t = Some (Releasing c todo) →
      step (mkCfg L T) (mkCfg (releaseNamedLock (c_name c) L).2 (<[t:=Ready todo]> T)).

(** Before any call: no lock exists and every goroutine is ready. *)
Definition initial (c : cfg) : Prop :=
  cfg_locks c = ∅ ∧ ∀ t p, cfg_pcs c !! t = Some p → ∃ todo, p = Ready todo.

Definition reachable (c : cfg) : Prop := ∃ c0, initial c0 ∧ rtc step c0 c.

(** The lock a goroutine holds: from the receive to the release. *)
Definition pc_holds (p : pc) : option string :=
  match p with
  | Critical c _ | Releasing c _ => Some (c_name c)
  | _ => None
  end.
Definition holds (c : cfg) (t : nat) (name : string) : Prop :=
  ∃ p, cfg_pcs c !! t = Some p ∧ pc_holds p = Some name.

(** ** The invariant *)
Record lock_inv (c : cfg) : Prop := {
  inv_taken : ∀ t name, holds c t name → cfg_locks c !! name = Some false;
  inv_unique : ∀ t1 t2 name, holds c t1 name → holds c t2 name → t1 = t2;
  inv_owner : ∀ name, cfg_locks c !! name = Some false → ∃ t, holds c t name;
  inv_created : ∀ t k todo, cfg_pcs c !! t = Some (Waiting k todo) → is_Some (cfg_locks c !! c_name k)
}.

Lemma holds_insert L T t p name t' :
  holds (mkCfg L (<[t:=p]> T)) t' name ↔
  if decide (t' = t) then pc_holds p = Some name else holds (mkCfg L T) t' name.
Proof.
  unfold holds. cbn. rewrite lookup_insert. case_decide as H1; case_decide as H2; try congruence.
  - naive_solver.
  - done.
Qed.

Lemma initial_inv c : initial c → lock_inv c.
Proof.
  intros [HL Hpc]. assert (∀ t name, ¬ holds c t name) as Hno.
  { intros t name (p & Hp & Hh). destruct (Hpc t p Hp) as [todo ->]. done. }
  split.
  - intros t name []%Hno.
  - intros t1 t2 name []%Hno.
  - intros name. by rewrite HL, lookup_empty.
  - intros t k todo Hp. by destruct (Hpc _ _ Hp).
Qed.

(** Moving a goroutine between two points at which it holds the same. *)
Lemma inv_move L T t p p' :
  T !! t = Some p → pc_holds p = pc_holds p' →
  (∀ k todo, p' = Waiting k todo → is_Some (L !! c_name k)) →
  lock_inv (mkCfg L T) → lock_inv (mkCfg L (<[t:=p']> T)).
Proof.
  intros Ht Hpp Hw [H1 H2 H3 H4].
  assert (∀ t' name, holds (mkCfg L (<[t:=p']> T)) t' name ↔ holds (mkCfg L T) t' name) as Hsame.
  { intros t' name. rewrite holds_insert. case_decide; [subst|done].
    rewrite <-Hpp. unfold holds. cbn. rewrite Ht. naive_solver. }
  split; cbn in *.
  - intros t' name. rewrite Hsame. apply H1.
  - intros t1 t2 name. rewrite !Hsame. apply H2.
  - intros name HL. destruct (H3 name HL) as [t' Hh]. exists t'. by rewrite Hsame.
  - intros t' k todo. rewrite lookup_insert. case_decide; [|by apply H4].
    intros [= ->]. by eapply Hw.
Qed.

Lemma inv_get_or_create L T name : lock_inv (mkCfg L T) → lock_inv (mkCfg (get_or_create name L) T).
Proof.
  unfold get_or_create. destruct (L !! name) as [b|] eqn:HL; [done|].
  intros [H1 H2 H3 H4]. split; cbn in *.
  - intros t n Hh. specialize (H1 t n Hh). rewrite lookup_insert_ne by congruence. done.
  - done.
  - intros n. rewrite lookup_insert. case_decide; [done|apply H3].
  - intros t k todo Hp. rewrite lookup_insert. case_decide; [done|by eapply H4].
Qed.

Lemma step_inv c c' : step c c' → lock_inv c → lock_inv c'.
Proof.
  intros Hs Hinv. destruct Hs as [L T t c todo Ht|L L' T t c todo Ht HL|L T t c todo Ht Hto|L T t c todo Ht|L T t c todo Ht].
  - apply inv_move with (p := Ready (c :: todo)); [done|done| |by apply inv_get_or_create].
    intros k todo' [= -> ->]. unfold get_or_create. destruct (L !! c_name k) eqn:E; [by rewrite E|].
    by rewrite lookup_insert_eq.
  - unfold take_token in HL. destruct (L !! c_name c) as [[]|] eqn:HLn; [|done..]. injection HL as <-.
    destruct Hinv as [H1 H2 H3 H4]. cbn in *.
    assert (∀ t', ¬ holds (mkCfg L T) t' (c_name c)) as Hno.
    { intros t' Hh%H1. congruence. }
    split; cbn.
    + intros t' n. rewrite holds_insert, lookup_insert. case_decide; cbn.
      * intros [= ->]. by rewrite decide_True.
      * intros Hh. case_decide; [done|by eapply H1].
    + intros t1 t2 n. rewrite !holds_insert. cbn. do 2 case_decide; subst; [done| | |by apply H2].
      * intros [= <-] []%Hno.
      * intros Hh [= <-]. by apply Hno in Hh.
    + intros n. rewrite lookup_insert. case_decide as Hn.
      * intros _. subst. exists t. rewrite holds_insert. by rewrite decide_True.
      * intros [t' Hh]%H3. exists t'. rewrite holds_insert. case_decide; [subst|done].
        destruct Hh as (p & Hp & Hp'). cbn in Hp. rewrite Ht in Hp. injection Hp as <-. cbn in Hp'. congruence.
    + intros t' k todo'. rewrite !lookup_insert. case_decide; [done|].
      intros Hp%H4. by case_decide.
  - by apply inv_move with (p := Waiting c todo).
  - by apply inv_move with (p := Critical c todo).
  - destruct Hinv as [H1 H2 H3 H4]. cbn in *.
    assert (holds (mkCfg L T) t (c_name c)) as Hme by (by exists (Releasing c todo)).
    unfold releaseNamedLock. rewrite (H1 _ _ Hme). cbn.
    split; cbn.
    + intros t' n. rewrite holds_insert, lookup_insert. case_decide as Ht'; [done|].
      intros Hh. case_decide as Hn; [|by eapply H1]. subst. by destruct Ht'; eapply H2.
    + intros t1 t2 n. rewrite !holds_insert. cbn. do 2 case_decide; subst; try done. apply H2.
    + intros n. rewrite lookup_insert. case_decide as Hn; [done|]. intros [t' Hh]%H3.
      exists t'. rewrite holds_insert. case_decide; [subst|done].
      destruct Hh as (p & Hp & Hp'). cbn in Hp. rewrite Ht in Hp. injection Hp as <-. cbn in Hp'. congruence.
    + intros t' k todo'. rewrite !lookup_insert. case_decide; [done|].
      intros Hp%H4. by case_decide.
Qed.

Lemma reachable_inv c : reachable c → lock_inv c.
Proof.
  intros (c0 & H0 & Hr). apply initial_inv in H0.
  induction Hr as [|x y z Hs _ IH]; [done|]. by apply IH, (step_inv x).
Qed.

(** ** Properties *)

(** C20.  Mutual exclusion: in every reachable configuration, while a goroutine is
    inside the critical section of [NamedLockRun] for a name, no other goroutine
    is inside it, or on its way out of it, for the same name. *)
Theorem NamedLockRun_mutual_exclusion c t1 t2 k1 todo1 p2 :
  reachable c →
  cfg_pcs c !! t1 = Some (Critical k1 todo1) →
  cfg_pcs c !! t2 = Some p2 → t1 ≠ t2 →
  pc_holds p2 ≠ Some (c_name k1).
Proof.
  intros [_ H2 _ _]%reachable_inv Ht1 Ht2 Hne Hp. apply Hne, (H2 _ _ (c_name k1)); by eexists.
Qed.

(** The deferred release always puts the token back: in every reachable
    configuration the [default] branch of [releaseNamedLock] is dead for the
    goroutine that ran [f], so a lock is never lost. *)
Theorem releaseNamedLock_effective c t k todo :
  reachable c → cfg_pcs c !! t = Some (Releasing k todo) →
  releaseNamedLock (c_name k) (cfg_locks c) = (true, <[c_name k:=true]> (cfg_locks c)).
Proof.
  intros [H1 _ _ _]%reachable_inv Ht. unfold releaseNamedLock.
  by rewrite (H1 t (c_name k)) by (by eexists).
Qed.

(** The remaining work of a goroutine, and of a configuration. *)
Definition pc_work (p : pc) : nat :=
  match p with
  | Ready todo => 4 * length todo
  | Waiting _ todo => 4 * length todo + 3
  | Critical _ todo => 4 * length todo + 2
  | Releasing _ todo => 4 * length todo + 1
  end.
Definition work (T : gmap nat pc) : nat := sum_list (pc_work <$> (map_to_list T).*2).

(** No call left anywhere. *)
Definition pc_done (p : pc) : bool := if p is Ready [] then true else false.
Definition finished (c : cfg) : Prop := ∀ t p, cfg_pcs c !! t = Some p → pc_done p = true.

Lemma work_insert T t p p' :
  T !! t = Some p → work (<[t:=p']> T) + pc_work p = work T + pc_work p'.
Proof.
  intros Ht. assert (∀ q, work (<[t:=q]> (delete t T)) = pc_work q + work (delete t T)) as Hq.
  { intros q. unfold work. by rewrite map_to_list_insert by apply lookup_delete_eq. }
  rewrite <-insert_delete_eq, Hq. rewrite <-(insert_id T t p) at 2 by done.
  rewrite <-insert_delete_eq, Hq. lia.
Qed.

Lemma step_work c c' : step c c' → work (cfg_pcs c') < work (cfg_pcs c).
Proof.
  intros Hs. inversion Hs as [L T t k todo Ht|L L' T t k todo Ht|L T t k todo Ht|L T t k todo Ht|L T t k todo Ht];
    subst; cbn in *;
    match goal with |- context [<[t:=?q]> T] => pose proof (work_insert T t _ q Ht) end; cbn in *; lia.
Qed.

Lemma step_progress c : lock_inv c → ¬ finished c → ∃ c', step c c'.
Proof.
  intros [H1 H2 H3 H4] Hnf. destruct c as [L T]; cbn in *.
  destruct (decide (map_Forall (λ _ p, pc_done p = true) T)) as [Hall|Hsome]; [by destruct Hnf|].
  apply map_not_Forall in Hsome as (t & p & Hp & Hnp); [|apply _].
  destruct p as [[|k todo]|k todo|k todo|k todo]; [done| | | |].
  - eexists. by eapply step_enter.
  - destruct (H4 _ _ _ Hp) as [b HL]. destruct b.
    + eexists. eapply step_acquire; [done|]. unfold take_token. by rewrite HL.
    + destruct (H3 _ HL) as (t' & p' & Hp' & Hh).
      destruct p' as [|?|k'|k']; [done..| |]; eexists; [by eapply step_body|by eapply step_release].
  - eexists. by eapply step_body.
  - eexists. by eapply step_release.
Qed.

(** C40.  Un-nested calls never deadlock and always complete: an execution of [n]
    steps from a reachable configuration has [n] bounded by the work left, and
    it can only stop when every goroutine has finished all its calls, even when
    every call waits without a timeout. *)
Theorem NamedLockRun_completes c c' n :
  reachable c → nsteps step n c c' →
  n ≤ work (cfg_pcs c) ∧ ((¬ ∃ c'', step c' c'') → finished c').
Proof.
  intros Hr Hn. split.
  - clear Hr. induction Hn as [|n x y z Hs _ IH]; [lia|]. apply step_work in Hs. lia.
  - intros Hstuck. assert (lock_inv c') as Hinv.
    { apply reachable_inv. destruct Hr as (c0 & H0 & Hr). exists c0. split; [done|].
      etrans; [done|]. by eapply rtc_nsteps_2. }
    destruct (decide (map_Forall (λ _ p, pc_done p = true) (cfg_pcs c'))) as [|Hnf]; [done|].
    destruct Hstuck. by apply step_progress.
Qed.

(** ** Witnesses: two goroutines that want the same lock *)
Definition two_goroutines : cfg :=
  mkCfg ∅ {[0 := Ready [mkCall "_a" 0]; 1 := Ready [mkCall "_a" 2000]]}.

Lemma two_goroutines_initial : initial two_goroutines.
Proof.
  split; [done|]. intros t p. cbn. rewrite lookup_insert_Some, lookup_singleton_Some.
  intros [[_ <-]|[_ [_ <-]]]; by eexists.
Qed.

(** The first is in its critical section, the second waits. *)
Definition first_inside : cfg :=
  mkCfg {["_a" := false]} {[0 := Critical (mkCall "_a" 0) []; 1 := Waiting (mkCall "_a" 2000) []]}.
Definition first_leaving : cfg :=
  mkCfg {["_a" := false]} {[0 := Releasing (mkCall "_a" 0) []; 1 := Waiting (mkCall "_a" 2000) []]}.

Lemma steps_to_first_inside : nsteps step 3 two_goroutines first_inside.
Proof.
  eapply nsteps_l; [apply (step_enter _ _ 0 (mkCall "_a" 0) []); reflexivity|].
  eapply nsteps_l; [apply (step_enter _ _ 1 (mkCall "_a" 2000) []); reflexivity|].
  eapply nsteps_l; [apply (step_acquire _ {["_a" := false]} _ 0 (mkCall "_a" 0) []); reflexivity|].
  apply nsteps_O.
Qed.

Lemma first_inside_reachable : reachable first_inside.
Proof.
  exists two_goroutines. split; [apply two_goroutines_initial|].
  eapply rtc_nsteps_2, steps_to_first_inside.
Qed.

Lemma first_leaving_reachable : reachable first_leaving.
Proof.
  destruct first_inside_reachable as (c0 & H0 & Hr). exists c0. split; [done|].
  eapply rtc_r; [exact Hr|]. exact (step_body _ (cfg_pcs first_inside) 0 (mkCall "_a" 0) [] eq_refl).
Qed.

Lemma NamedLockRun_mutual_exclusion_witness :
  reachable first_inside ∧ pc_holds (Waiting (mkCall "_a" 2000) []) ≠ Some "_a".
Proof.
  split; [exact first_inside_reachable|].
  exact (NamedLockRun_mutual_exclusion first_inside 0 1 (mkCall "_a" 0) []
           (Waiting (mkCall "_a" 2000) []) first_inside_reachable eq_refl eq_refl ltac:(discriminate)).
Defined.

Lemma releaseNamedLock_effective_witness :
  reachable first_leaving ∧
  releaseNamedLock "_a" (cfg_locks first_leaving) = (true, <["_a":=true]> (cfg_locks first_leaving)).
Proof.
  split; [exact first_leaving_reachable|].
  exact (releaseNamedLock_effective first_leaving 0 (mkCall "_a" 0) [] first_leaving_reachable eq_refl).
Defined.

Lemma NamedLockRun_completes_witness :
  reachable two_goroutines ∧ nsteps step 3 two_goroutines first_inside ∧
  3 ≤ work (cfg_pcs two_goroutines) ∧ ((¬ ∃ c'', step first_inside c'') → finished first_inside).
Proof.
  assert (reachable two_goroutines) as Hr.
  { exists two_goroutines. split; [apply two_goroutines_initial|apply rtc_refl]. }
  split; [exact Hr|]. split; [exact steps_to_first_inside|].
  exact (NamedLockRun_completes two_goroutines first_inside 3 Hr steps_to_first_inside).
Defined.
