(* ===== verification/Storage.v ===== *)
(** * The storage interface ([sources/services/storage/istorage.go])

    [IStorage] is the Go interface; [StorageSpec] is what an implementation
    promises to the controller: the database is a tree of named nodes, seen
    through [view] as a partial function from paths to values, and every
    operation acts on that view as [spec_set] and [spec_delete] say.  The
    controller's theorems are proved against these two classes;
    [RamCacheDB.v] discharges them. *)
From S2P Require Import Prelude GoStrings GoStrconv Misc.

(** ** Keys and paths *)

(** A path without its last segment when that segment is empty. *)
Definition trim_last (l : list string) : list string :=
  match last l with Some "" => removelast l | _ => l end.

(** The path a key denotes: the key split at its dots; one trailing dot is
    ignored, but the key [""] is the path [[""]]. *)
Definition keypath (key : string) : list string :=
  match SplitByte key dot with
  | [w] => [w]
  | ws => trim_last ws
  end.

(** ** The interface *)
Class IStorage (DB : Type) := {
  st_Set : string → DynamicVar → DB → DB;
  st_Get : string → DynamicVar → DB → DynamicVar;
  st_GetChilds : string → DB → list string;
  st_HasValue : string → DB → bool;
  st_DeleteValue : string → bool → DB → DB;
  (** the calls [f(childFullName, value)] makes, in order *)
  st_ForEachChilds : string → DB → list (string * DynamicVar)
}.

(** ** The specification of the operations on a view *)
Abbreviation view_t := (list string → option DynamicVar).

Definition spec_set (m : view_t) (q : list string) (v : DynamicVar) : view_t := λ p,
  if decide (p = q) then Some v
  else if decide (p `prefix_of` q) then Some (default NewEmptyDynamicVar (m p))
  else m p.

Definition has_child (m : view_t) (q : list string) : Prop := ∃ k, is_Some (m (q ++ [k])).

(** The value stored at a path, the empty one where there is no node. *)
Definition value_at (m : view_t) (p : list string) : DynamicVar := default NewEmptyDynamicVar (m p).

Class StorageSpec (DB : Type) `{IStorage DB} := {
  (** well-formed databases and the node tree of one *)
  valid : DB → Prop;
  view : DB → view_t;

  view_closed db p k : valid db → is_Some (view db (p ++ [k])) → is_Some (view db p);
  view_names db p : valid db → is_Some (view db p) → Forall (lacks dot) p;
  view_bounded db : valid db → ∃ n, ∀ p, is_Some (view db p) → length p ≤ n;

  Get_spec db key d : valid db → st_Get key d db = default d (view db (keypath key));
  HasValue_spec db key : valid db → st_HasValue key db = bool_decide (is_Some (view db (keypath key)));

  Set_valid db key v : valid db → valid (st_Set key v db);
  Set_spec db key v p : valid db → view (st_Set key v db) p = spec_set (view db) (keypath key) v p;

  Delete_valid db key b : valid db → valid (st_DeleteValue key b db);
  (** deleting a missing node changes nothing *)
  Delete_missing db key b p :
    valid db → view db (keypath key) = None → view (st_DeleteValue key b db) p = view db p;
  (** with cascade: the node and everything below it *)
  Delete_cascade db key p :
    valid db →
    view (st_DeleteValue key true db) p = if decide (keypath key `prefix_of` p) then None else view db p;
  (** without: the value only, and the node when it has no child *)
  Delete_other db key p : valid db → p ≠ keypath key → view (st_DeleteValue key false db) p = view db p;
  Delete_leaf db key :
    valid db → ¬ has_child (view db) (keypath key) → view (st_DeleteValue key false db) (keypath key) = None;
  Delete_inner db key :
    valid db → has_child (view db) (keypath key) →
    view (st_DeleteValue key false db) (keypath key) = Some NewEmptyDynamicVar;

  GetChilds_NoDup db key : valid db → NoDup (st_GetChilds key db);
  (** the immediate names below a node; [""] stands for the root *)
  GetChilds_spec db key k :
    valid db →
    k ∈ st_GetChilds key db ↔
    is_Some (view db ((if decide (key = "") then [] else keypath key) ++ [k]))
}.

#[export] Hint Resolve Set_valid Delete_valid : vss.

(** ** Lemmas on paths *)
Lemma removelast_snoc {A} (l : list A) x : removelast (l ++ [x]) = l.
Proof. induction l as [|y l IH]; [done|]. cbn. rewrite IH. by destruct l. Qed.

Lemma trim_last_app ws vs : vs ≠ [] → trim_last (ws ++ vs) = ws ++ trim_last vs.
Proof.
  intros Hvs. destruct vs as [|v vs _] using rev_ind; [done|]. unfold trim_last.
  rewrite app_assoc, !last_snoc. destruct v; [|by rewrite app_assoc].
  by rewrite !removelast_snoc.
Qed.

Lemma trim_last_singleton w : w ≠ "" → trim_last [w] = [w].
Proof. unfold trim_last. by destruct w. Qed.

(** The path of [a.b]. *)
Lemma keypath_app a b :
  keypath (a +:+ String dot b) = SplitByte a dot ++ trim_last (SplitByte b dot).
Proof.
  unfold keypath. rewrite SplitByte_app, <-trim_last_app by apply SplitByte_ne.
  pose proof (SplitByte_ne a dot). pose proof (SplitByte_ne b dot).
  destruct (SplitByte a dot) as [|x [|y xs]], (SplitByte b dot); done.
Qed.

Lemma keypath_trim key : key ≠ "" → trim_last (SplitByte key dot) = keypath key.
Proof.
  intros Hne. unfold keypath. pose proof (SplitByte_ne key dot).
  pose proof (Join_SplitByte key dot) as Hj.
  destruct (SplitByte key dot) as [|w [|w' ws]]; [done| |done].
  cbn in Hj. apply trim_last_singleton. congruence.
Qed.

(** The recursion of the tree walk: the first segment and the rest. *)
Lemma keypath_cut key i :
  IndexByte key dot = Some i →
  keypath key = str_take i key :: (if decide (str_drop (S i) key = "") then [] else keypath (str_drop (S i) key)).
Proof.
  intros (Hk & Hl & _)%IndexByte_Some. rewrite Hk at 1.
  rewrite keypath_app, SplitByte_lacks by done. cbn [app]. f_equal.
  case_decide as Hr; [by rewrite Hr|]. by apply keypath_trim.
Qed.

Lemma keypath_lacks key : lacks dot key → keypath key = [key].
Proof. intros Hl. unfold keypath. by rewrite SplitByte_lacks. Qed.

Lemma keypath_ne key : keypath key ≠ [].
Proof.
  destruct (IndexByte key dot) as [i|] eqn:Hi.
  - by rewrite (keypath_cut _ _ Hi).
  - by rewrite keypath_lacks.
Qed.

Lemma trim_last_Forall (P : string → Prop) l : Forall P l → Forall P (trim_last l).
Proof.
  destruct l as [|x l _] using rev_ind; [done|]. unfold trim_last. rewrite last_snoc.
  destruct x; [|done]. rewrite removelast_snoc. by intros [? _]%Forall_app.
Qed.

Lemma keypath_names key : Forall (lacks dot) (keypath key).
Proof.
  unfold keypath. pose proof (SplitByte_all_lack key dot) as H.
  destruct (SplitByte key dot) as [|w [|w' ws]]; [by apply trim_last_Forall|done|by apply trim_last_Forall].
Qed.

(** *** Keys below a name *)

(** The path under which the entries [name + "." + ...] are stored. *)
Definition npath (name : string) : list string := SplitByte name dot.

Lemma last_ne_trim (l : list string) : last l ≠ Some "" → trim_last l = l.
Proof. unfold trim_last. destruct (last l) as [[]|]; [done|done|done]. Qed.

Lemma keypath_below name b :
  last (SplitByte b dot) ≠ Some "" → keypath (name +:+ String dot b) = npath name ++ SplitByte b dot.
Proof. intros Hl. by rewrite keypath_app, last_ne_trim. Qed.

Lemma SplitByte_dot a b : lacks dot a → SplitByte (a +:+ String dot b) dot = a :: SplitByte b dot.
Proof. intros Ha. by rewrite SplitByte_app, SplitByte_lacks. Qed.

(** ** Lemmas on the specification of [Set] *)
Lemma spec_set_eq m q v : spec_set m q v q = Some v.
Proof. unfold spec_set. by rewrite decide_True. Qed.

(** Writing a value adds empty ancestors but changes no other value. *)
Lemma value_at_spec_set m q v p :
  value_at (spec_set m q v) p = if decide (p = q) then v else value_at m p.
Proof. unfold value_at, spec_set. case_decide; [done|]. by case_decide. Qed.

Lemma spec_set_mono m q v p : is_Some (m p) → is_Some (spec_set m q v p).
Proof. unfold spec_set. intros H. repeat case_decide; [by eexists..|done]. Qed.

(** ** Values of a database *)
Section values.
Context {DB : Type} {HI : IStorage DB} {HS : StorageSpec DB}.
Implicit Types db : DB.

(** The value stored under a path, empty where there is none. *)
Definition val (db : DB) (p : list string) : DynamicVar := value_at (view db) p.

Lemma val_Set db key v p :
  valid db → val (st_Set key v db) p = if decide (p = keypath key) then v else val db p.
Proof.
  intros Hv. unfold val, value_at at 1. rewrite Set_spec by done. apply value_at_spec_set.
Qed.

Lemma val_Delete_cascade db key p :
  valid db →
  val (st_DeleteValue key true db) p = if decide (keypath key `prefix_of` p) then NewEmptyDynamicVar else val db p.
Proof. intros Hv. unfold val, value_at. rewrite Delete_cascade by done. by case_decide. Qed.

(** Whether a node has children is decidable ([""] and ["."] are the same path,
    but [GetChilds] takes [""] for the root). *)
Lemma GetChilds_has_child db key :
  valid db → has_child (view db) (keypath key) ∨ ¬ has_child (view db) (keypath key).
Proof.
  intros Hv. assert (∃ key', key' ≠ "" ∧ keypath key' = keypath key) as (key' & Hne & <-).
  { destruct (decide (key = "")) as [->|]; [by exists "."|by exists key]. }
  pose proof (λ k, GetChilds_spec db key' k Hv) as H. rewrite decide_False in H by done.
  destruct (st_GetChilds key' db) as [|k l].
  - right. intros [k Hs%H%elem_of_nil]. done.
  - left. exists k. apply H. by left.
Qed.

Lemma val_Delete_value db key p :
  valid db →
  val (st_DeleteValue key false db) p = if decide (p = keypath key) then NewEmptyDynamicVar else val db p.
Proof.
  intros Hv. unfold val, value_at. case_decide as Hp; [subst|by rewrite Delete_other].
  destruct (GetChilds_has_child db key Hv) as [Hc|Hc].
  - by rewrite Delete_inner.
  - by rewrite Delete_leaf.
Qed.

Lemma Get_empty db key : valid db → st_Get key NewEmptyDynamicVar db = val db (keypath key).
Proof. intros Hv. by rewrite Get_spec. Qed.

(** Reading an integer with the default [0]. *)
Lemma Get_int0 db key : valid db → GetInt64 (st_Get key (NewDynamicVar_int 0) db) = GetInt64 (val db (keypath key)).
Proof. intros Hv. rewrite Get_spec by done. unfold val, value_at. by destruct (view db (keypath key)). Qed.
End values.
