(* ===== verification/RamCacheDB.v ===== *)
(** * The in-memory tree storage ([sources/services/storage/ramcachedb.go])

    The Go code keeps a tree of heap-allocated [ramNode]s linked by pointers in
    both directions.  The model keeps the pointers: [mem] is a heap from
    locations to nodes, [scrollTree] walks it and allocates, the operations
    update the cell they were handed.  A node is never freed (the garbage
    collector is not observable), so a deleted subtree stays in the heap,
    unreachable from [root].

    Every operation runs under [r.mu]; the model executes it in one piece.

    The first part are the definitions, the second the refinement of the heap
    to the view of [Storage.v], the third the dump and load of the database
    file. *)
From S2P Require Import Prelude GoStrings GoStrconv Misc Storage.

(** ** State *)
Abbreviation loc := positive.

Record ramNode := mkNode {
  imediateName : string;
  parent : option loc;
  childs : gmap string loc;
  value : DynamicVar
}.

Record Heap := mkHeap { nodes : gmap loc ramNode; next : loc }.

(** [&r.root] *)
Definition root : loc := 1%positive.

Record RamCacheDB := mkRam {
  mem : Heap;
  pendingChanges : bool;
  dataDir : string;
  dumpIntervalMs : Z;
  stopped : bool  (** [stopCh] is closed *)
}.

Definition set_childs (m : gmap string loc) (n : ramNode) : ramNode :=
  mkNode (imediateName n) (parent n) m (value n).
Definition set_value (v : DynamicVar) (n : ramNode) : ramNode :=
  mkNode (imediateName n) (parent n) (childs n) v.

Definition empty_heap : Heap := mkHeap {[root := mkNode "" None ∅ NewEmptyDynamicVar]} 2.

(** Allocation of [&ramNode{imediateName: name, parent: curr, ...}] and its
    entry in [curr.childs]. *)
Definition new_child (name : string) (curr : loc) (n : ramNode) (h : Heap) : Heap :=
  mkHeap
    (<[next h := mkNode name (Some curr) ∅ NewEmptyDynamicVar]>
       (<[curr := set_childs (<[name := next h]> (childs n)) n]> (nodes h)))
    (Pos.succ (next h)).

(** ** Walking the tree *)

(** One recursive call per segment.  A dangling [curr] does not occur. *)
Fixpoint scrollTree_fuel (fuel : nat) (name : string) (curr : loc) (readOnly : bool) (h : Heap)
    : option loc * Heap :=
  match fuel with
  | O => (None, h)
  | S fuel =>
    let '(currName, remainingName) :=
      if Contains name "." then
        let indx := default 0 (Index name ".") in (name.[:indx], name.[S indx:])
      else (name, "") in
    match nodes h !! curr with
    | None => (None, h)
    | Some n =>
      let found :=
        match childs n !! currName with
        | Some c => Some (c, h)
        | None =>
            if readOnly then None else Some (next h, new_child currName curr n h)
        end in
      match found with
      | None => (None, h)
      | Some (c, h) =>
          if decide (remainingName = "") then (Some c, h)
          else scrollTree_fuel fuel remainingName c readOnly h
      end
    end
  end.

(** [remainingName] is shorter than [name]: [len name + 1] calls are enough. *)
Definition scrollTree (name : string) (curr : loc) (readOnly : bool) (h : Heap) : option loc * Heap :=
  scrollTree_fuel (S (len name)) name curr readOnly h.

(** Reading and writing through a node pointer. *)
Definition update_node (f : ramNode → ramNode) (l : loc) (h : Heap) : Heap :=
  mkHeap (alter f l (nodes h)) (next h).

(** ** The operations on the heap *)
Definition heap_set (name : string) (v : DynamicVar) (h : Heap) : Heap :=
  match scrollTree name root false h with
  | (Some item, h) => update_node (set_value v) item h
  | (None, h) => h
  end.

Definition heap_get (name : string) (defaultValue : DynamicVar) (h : Heap) : DynamicVar :=
  match (scrollTree name root true h).1 with
  | Some item => from_option value defaultValue (nodes h !! item)
  | None => defaultValue
  end.

(** Unlinks a childless node from its parent. *)
Definition unlink_if_leaf (item : loc) (h : Heap) : Heap :=
  match nodes h !! item with
  | Some n =>
      match parent n with
      | Some p =>
          if decide (childs n = ∅)
          then update_node (λ np, set_childs (delete (imediateName n) (childs np)) np) p h
          else h
      | None => h
      end
  | None => h
  end.

Definition heap_delete (name : string) (deleteChildsInACascade : bool) (h : Heap) : Heap :=
  match (scrollTree name root true h).1 with
  | None => h
  | Some item =>
      let h := update_node (set_value NewEmptyDynamicVar) item h in
      let h := if deleteChildsInACascade then update_node (set_childs ∅) item h else h in
      unlink_if_leaf item h
  end.

Section with_order.
Context `{RangeOrder}.

(** The children of a node in the order [range] yields them. *)
Definition node_childs (h : Heap) (l : loc) : list (string * loc) :=
  from_option (λ n, range (childs n)) [] (nodes h !! l).

Definition heap_child_names (parentName : string) (h : Heap) : list string :=
  if decide (parentName = "") then (node_childs h root).*1
  else match (scrollTree parentName root true h).1 with
       | None => []
       | Some item => (node_childs h item).*1
       end.

(** The [(full, value)] pairs [ForEachChilds] hands to [f]. *)
Definition heap_foreach (parentName : string) (h : Heap) : list (string * DynamicVar) :=
  match (scrollTree parentName root true h).1 with
  | None => []
  | Some item =>
      (λ kc, (if decide (parentName = "") then kc.1 else parentName +:+ "." +:+ kc.1,
              from_option value NewEmptyDynamicVar (nodes h !! kc.2))) <$> node_childs h item
  end.
End with_order.

(** ** The methods of [RamCacheDB] *)
Definition with_mem (h : Heap) (r : RamCacheDB) : RamCacheDB :=
  mkRam h (pendingChanges r) (dataDir r) (dumpIntervalMs r) (stopped r).
Definition set_pending (b : bool) (r : RamCacheDB) : RamCacheDB :=
  mkRam (mem r) b (dataDir r) (dumpIntervalMs r) (stopped r).

Definition ram_Set (name : string) (v : DynamicVar) (r : RamCacheDB) : RamCacheDB :=
  match scrollTree name root false (mem r) with
  | (Some item, h) => set_pending true (with_mem (update_node (set_value v) item h) r)
  | (None, h) => with_mem h r
  end.

Definition ram_Get (name : string) (defaultValue : DynamicVar) (r : RamCacheDB) : DynamicVar :=
  heap_get name defaultValue (mem r).

Definition ram_HasValue (name : string) (r : RamCacheDB) : bool :=
  bool_decide (is_Some (scrollTree name root true (mem r)).1).

Definition ram_DeleteValue (name : string) (deleteChildsInACascade : bool) (r : RamCacheDB) : RamCacheDB :=
  match (scrollTree name root true (mem r)).1 with
  | None => r
  | Some _ => set_pending true (with_mem (heap_delete name deleteChildsInACascade (mem r)) r)
  end.

(** [Finalize] closes [stopCh] once. *)
Definition ram_Finalize (r : RamCacheDB) : RamCacheDB :=
  mkRam (mem r) (pendingChanges r) (dataDir r) (dumpIntervalMs r) true.

(** ** The database file *)
Section dump.
Context `{RangeOrder}.

(** [dumpToStringLocked]; the fuel bounds the depth of the tree. *)
Fixpoint dumpToString_fuel (fuel : nat) (h : Heap) (current : loc) (currentParentName : string) : string :=
  match fuel with
  | O => ""
  | S fuel =>
    let prefix := if decide (currentParentName = "") then "" else currentParentName +:+ "." in
    fold_left (λ ret kc,
      let v := from_option (λ c, GetString (value c)) "" (nodes h !! kc.2) in
      let ret := if decide (v = "") then ret
                 else ret +:+ prefix +:+ kc.1 +:+ "=" +:+ v +:+ nl in
      ret +:+ dumpToString_fuel fuel h kc.2 (prefix +:+ kc.1)) (node_childs h current) ""
  end.

(** A path of the tree has fewer segments than there are allocated nodes. *)
Definition dumpToString (h : Heap) : string := dumpToString_fuel (Pos.to_nat (next h)) h root "".

(** [dump] writes the file; [write_ok] tells whether the file system obeyed. *)
Definition ram_dump (write_ok : bool) (r : RamCacheDB) (file : option string) : option string :=
  if write_ok then Some (dumpToString (mem r)) else file.

(** One round of [backgroundDumper], on the ticker and, with [closing], on
    [stopCh] (the goroutine then returns). *)
Definition dumper_round (write_ok : bool) (st : RamCacheDB * option string) : RamCacheDB * option string :=
  let '(r, file) := st in
  if pendingChanges r then (set_pending false r, ram_dump write_ok r file) else (r, file).
End dump.

(** A line of the file: blank lines and lines without ["="] are skipped. *)
Definition load_line (h : Heap) (line : string) : Heap :=
  if decide (TrimSpace line = "") then h
  else match Index line "=" with
       | None => h
       | Some idx => heap_set (line.[:idx]) (NewDynamicVar (line.[S idx:])) h
       end.
Definition load_text (text : string) (h : Heap) : Heap := fold_left load_line (SplitByte text newline) h.

(** What [os.ReadFile] reports. *)
Inductive file_read := FileMissing | FileError (msg : string) | FileText (text : string).

Definition ram_load (file : file_read) (r : RamCacheDB) : result string unit * RamCacheDB :=
  match file with
  | FileMissing => (Ok (), r)
  | FileError msg => (Err msg, r)
  | FileText text => (Ok (), set_pending false (with_mem (load_text text (mem r)) r))
  end.

(** [NewRamCacheDB]: defaults, then the file is loaded, twice. *)
Definition NewRamCacheDB (dir : string) (intervalMs : Z) (file : file_read) : RamCacheDB :=
  let r := mkRam empty_heap false
             (if decide (dir = "") then "./data/database" else dir)
             (if (intervalMs <=? 0)%Z then (5 * 60 * 1000)%Z else intervalMs) false in
  (ram_load file (ram_load file r).2).2.
Definition NewRamCacheDB2 (file : file_read) : RamCacheDB := NewRamCacheDB "" 0 file.

(** ** Paths in the heap *)

(** The node at a path below [l], following the [childs] pointers. *)
Fixpoint walk (h : Heap) (l : loc) (p : list string) : option loc :=
  match p with
  | [] => Some l
  | k :: p => n ← nodes h !! l; c ← childs n !! k; walk h c p
  end.

Definition heap_view (h : Heap) : view_t := λ p, l ← walk h root p; value <$> nodes h !! l.

(** The representation invariant: the [parent] pointer and the [imediateName]
    of every linked node name the edge that leads to it, and children are
    younger than their parent (so there is no cycle). *)
Record heap_wf (h : Heap) : Prop := {
  wf_root : ∃ n, nodes h !! root = Some n ∧ parent n = None;
  wf_child : ∀ l n k c, nodes h !! l = Some n → childs n !! k = Some c →
    ∃ nc, nodes h !! c = Some nc ∧ parent nc = Some l ∧ imediateName nc = k;
  wf_young : ∀ l n k c, nodes h !! l = Some n → childs n !! k = Some c → (l < c)%positive;
  wf_next : ∀ l, is_Some (nodes h !! l) → (l < next h)%positive;
  wf_names : ∀ l n k, nodes h !! l = Some n → is_Some (childs n !! k) → lacks dot k
}.

(** [l --k--> c] *)
Definition edge (h : Heap) (l : loc) (k : string) (c : loc) : Prop :=
  ∃ n, nodes h !! l = Some n ∧ childs n !! k = Some c.

Lemma walk_app h l p q : walk h l (p ++ q) = walk h l p ≫= λ l', walk h l' q.
Proof.
  revert l. induction p as [|k p IH]; intros l; [done|]. cbn.
  destruct (nodes h !! l) as [n|]; [cbn|done]. destruct (childs n !! k) as [c|]; [cbn|done]. apply IH.
Qed.

Lemma walk_snoc h l p k c : walk h l (p ++ [k]) = Some c ↔ ∃ l', walk h l p = Some l' ∧ edge h l' k c.
Proof.
  rewrite walk_app. unfold edge. split.
  - destruct (walk h l p) as [l'|]; [|done]. cbn. intros H. exists l'. split; [done|].
    destruct (nodes h !! l') as [n|]; [|done]. cbn in H.
    exists n. split; [done|]. by destruct (childs n !! k).
  - intros (l' & -> & n & Hn & Hc). cbn. rewrite Hn. cbn. by rewrite Hc.
Qed.

Lemma walk_node h p l : heap_wf h → walk h root p = Some l → is_Some (nodes h !! l).
Proof.
  intros Hwf. destruct p as [|k p _] using rev_ind.
  - intros [= <-]. destruct (wf_root h Hwf) as (n & -> & _). by eexists.
  - rewrite walk_snoc. intros (l' & _ & n & Hn & Hc).
    destruct (wf_child h Hwf _ _ _ _ Hn Hc) as (nc & -> & _). by eexists.
Qed.

(** Every node has one path. *)
Lemma walk_inj h p q l : heap_wf h → walk h root p = Some l → walk h root q = Some l → p = q.
Proof.
  intros Hwf. destruct (wf_root h Hwf) as (nr & Hroot & Hnp).
  revert q l. induction p as [|k p IH] using rev_ind; intros q l;
    destruct q as [|k' q _] using rev_ind; rewrite ?walk_snoc; try done.
  - intros [= <-] (l' & _ & n & Hn & Hc). destruct (wf_child h Hwf _ _ _ _ Hn Hc) as (? & ? & ? & ?). congruence.
  - intros (l' & _ & n & Hn & Hc) [= <-]. destruct (wf_child h Hwf _ _ _ _ Hn Hc) as (? & ? & ? & ?). congruence.
  - intros (l1 & Hw1 & n1 & Hn1 & Hc1) (l2 & Hw2 & n2 & Hn2 & Hc2).
    destruct (wf_child h Hwf _ _ _ _ Hn1 Hc1) as (? & ? & ? & ?).
    destruct (wf_child h Hwf _ _ _ _ Hn2 Hc2) as (? & ? & ? & ?).
    assert (l1 = l2) as -> by congruence. assert (k = k') as -> by congruence.
    by rewrite (IH _ _ Hw1 Hw2).
Qed.

Lemma walk_depth h p l : heap_wf h → walk h root p = Some l → length p < Pos.to_nat l.
Proof.
  intros Hwf. revert l. induction p as [|k p IH] using rev_ind; intros l.
  - intros [= <-]. cbn. lia.
  - rewrite walk_snoc. intros (l' & Hw & n & Hn & Hc). specialize (IH _ Hw).
    pose proof (wf_young h Hwf _ _ _ _ Hn Hc). rewrite length_app. cbn. lia.
Qed.

Lemma heap_view_walk h p v :
  heap_view h p = Some v ↔ ∃ l n, walk h root p = Some l ∧ nodes h !! l = Some n ∧ value n = v.
Proof.
  unfold heap_view. split.
  - destruct (walk h root p) as [l|]; [|done]. cbn.
    destruct (nodes h !! l) as [n|] eqn:Hn; [|done]. intros [= <-]. by exists l, n.
  - intros (l & n & -> & Hn & <-). cbn. by rewrite Hn.
Qed.

Lemma heap_view_is_Some h p : heap_wf h → is_Some (heap_view h p) ↔ is_Some (walk h root p).
Proof.
  intros Hwf. split.
  - intros [v (l & n & Hw & _)%heap_view_walk]. by eexists.
  - intros [l Hw]. destruct (walk_node h p l Hwf Hw) as [n Hn]. exists (value n).
    apply heap_view_walk. eauto.
Qed.

(** Two heaps with the same reachable nodes and values have the same view. *)
Lemma heap_view_eq h h' p :
  walk h' root p = walk h root p →
  (∀ l, walk h root p = Some l → value <$> nodes h' !! l = value <$> nodes h !! l) →
  heap_view h' p = heap_view h p.
Proof. unfold heap_view. intros -> Hv. destruct (walk h root p); [by apply Hv|done]. Qed.

Lemma empty_heap_wf : heap_wf empty_heap.
Proof.
  assert (∀ l n, nodes empty_heap !! l = Some n → l = root ∧ n = mkNode "" None ∅ NewEmptyDynamicVar) as Hs.
  { intros l n H. unfold empty_heap in H. cbn [nodes] in H.
    apply lookup_singleton_Some in H as [<- <-]. done. }
  split.
  - by eexists.
  - intros l n k c (-> & ->)%Hs. done.
  - intros l n k c (-> & ->)%Hs. done.
  - intros l [n (-> & ->)%Hs]. done.
  - intros l n k (-> & ->)%Hs [? ?]. done.
Qed.

(** ** The walk of [scrollTree] *)
Lemma scrollTree_ro fuel name curr h :
  heap_wf h → is_Some (nodes h !! curr) → len name < fuel →
  scrollTree_fuel fuel name curr true h = (walk h curr (keypath name), h).
Proof.
  intros Hwf. revert name curr. induction fuel as [|fuel IH]; intros name curr [n Hn] Hlt; [lia|].
  cbn [scrollTree_fuel]. rewrite Hn. rewrite Index_byte.
  destruct (Contains name ".") eqn:Hc.
  - rewrite Contains_byte in Hc. destruct (IndexByte name dot) as [i|] eqn:Hi; [|by destruct Hc].
    cbn [default from_option id]. rewrite (keypath_cut _ _ Hi). cbn [walk]. rewrite Hn. cbn.
    destruct (childs n !! str_take i name) as [c|] eqn:Hcc; [|done]. cbn.
    case_decide; [done|]. apply IH.
    + destruct (wf_child h Hwf _ _ _ _ Hn Hcc) as (nc & -> & _). by eexists.
    + apply IndexByte_Some in Hi as (_ & _ & Hi). rewrite len_str_drop. lia.
  - rewrite Contains_byte_false in Hc. rewrite (keypath_lacks _ Hc). cbn. rewrite Hn. cbn.
    by destruct (childs n !! name).
Qed.

Lemma scrollTree_ro_root name h :
  heap_wf h → scrollTree name root true h = (walk h root (keypath name), h).
Proof.
  intros Hwf. apply scrollTree_ro; [done| |lia]. destruct (wf_root h Hwf) as (n & -> & _). by eexists.
Qed.

(** *** One new node *)
Section new_child.
Context (h : Heap) (pl : list string) (curr : loc) (n : ramNode) (k : string).
Context (Hwf : heap_wf h) (Hw : walk h root pl = Some curr) (Hn : nodes h !! curr = Some n).
Context (Hk : childs n !! k = None) (Hdot : lacks dot k).
Let h' := new_child k curr n h.

Lemma next_fresh : nodes h !! next h = None.
  Proof. destruct (nodes h !! next h) eqn:E; [|done]. pose proof (wf_next h Hwf (next h) ltac:(eauto)). lia. Qed.

Lemma curr_old : (curr < next h)%positive.
  Proof. apply (wf_next h Hwf). eauto. Qed.

Lemma new_child_lookup l :
    nodes h' !! l =
      if decide (l = next h) then Some (mkNode k (Some curr) ∅ NewEmptyDynamicVar)
      else if decide (l = curr) then Some (set_childs (<[k:=next h]> (childs n)) n)
      else nodes h !! l.
  Proof. subst h'. cbn. rewrite !lookup_insert. repeat case_decide; congruence. Qed.

Lemma new_child_edge l k' c :
    edge h' l k' c ↔ edge h l k' c ∨ (l = curr ∧ k' = k ∧ c = next h).
  Proof.
    unfold edge. pose proof next_fresh as Hf. pose proof curr_old. split.
    - intros (m & Hm & Hc). rewrite new_child_lookup in Hm. repeat case_decide; simplify_eq/=.
      + rewrite lookup_insert in Hc. case_decide; simplify_eq; eauto.
      + eauto.
    - intros [(m & Hm & Hc)|(-> & -> & ->)]; rewrite new_child_lookup.
      + rewrite decide_False by congruence. case_decide; simplify_eq/=; [|eauto].
        eexists. split; [done|]. cbn. rewrite lookup_insert_ne by congruence. done.
      + rewrite decide_False by lia. rewrite decide_True by done.
        eexists. split; [done|]. cbn. by rewrite lookup_insert_eq.
  Qed.

Lemma new_child_old_edge l k' c : edge h l k' c → l ≠ next h ∧ c ≠ next h.
  Proof.
    pose proof next_fresh. intros (m & Hm & Hc). split; [congruence|].
    destruct (wf_child h Hwf _ _ _ _ Hm Hc) as (? & ? & _). congruence.
  Qed.

Lemma new_child_walk p :
    walk h' root p = if decide (p = pl ++ [k]) then Some (next h) else walk h root p.
  Proof.
    induction p as [|k' p IH] using rev_ind.
    { rewrite decide_False by (by destruct pl). done. }
    apply option_eq. intros c. rewrite walk_snoc.
    assert (∀ l, walk h' root p = Some l → edge h' l k' c →
              walk h root p = Some l) as Hold.
    { intros l. rewrite IH. destruct (decide (p = pl ++ [k])); [|done]. intros [= <-] [He|(He & _)]%new_child_edge.
      - by apply new_child_old_edge in He as [? _].
      - pose proof curr_old. lia. }
    destruct (decide (p ++ [k'] = pl ++ [k])) as [Hp|Hp].
    - apply app_inj_tail in Hp as [-> ->]. split.
      + intros (l & Hl & He). specialize (Hold l Hl He). assert (l = curr) as -> by congruence.
        apply new_child_edge in He as [(m & Hm & Hc)|(_ & _ & ->)]; congruence.
      + intros [= <-]. exists curr. split; [|apply new_child_edge; auto].
        rewrite IH, decide_False; [done|]. intros Heq%(f_equal length). rewrite length_app in Heq. cbn in Heq. lia.
    - rewrite walk_snoc. split; intros (l & Hl & He).
      + exists l. split; [by apply Hold|]. apply new_child_edge in He as [He|(-> & -> & ->)]; [done|].
        destruct Hp. f_equal. eapply walk_inj; [done| |done]. by apply Hold; [|apply new_child_edge; auto].
      + exists l. split; [|apply new_child_edge; auto]. rewrite IH. destruct (decide (p = pl ++ [k])) as [Hpp|]; [|done]. subst p.
        apply walk_snoc in Hl as (l0 & Hl0 & m & Hm & Hc). congruence.
  Qed.

Lemma new_child_wf : heap_wf h'.
  Proof.
    pose proof next_fresh as Hf. pose proof curr_old.
    assert (∀ l m k' c, nodes h' !! l = Some m → childs m !! k' = Some c → edge h' l k' c) as Hedge by (by eexists).
    split.
    - destruct (wf_root h Hwf) as (m & Hm & Hp).
      pose proof (wf_next h Hwf root ltac:(eauto)). rewrite new_child_lookup, decide_False by lia.
      case_decide; [|eauto]. subst. eexists. split; [done|]. cbn. congruence.
    - intros l m k' c Hm Hc. destruct (proj1 (new_child_edge _ _ _) (Hedge _ _ _ _ Hm Hc)) as [He|(-> & -> & ->)].
      + pose proof (new_child_old_edge _ _ _ He) as [_ ?]. destruct He as (m' & Hm' & Hc').
        destruct (wf_child h Hwf _ _ _ _ Hm' Hc') as (nc & Hnc & ? & ?).
        rewrite new_child_lookup, decide_False by done. case_decide; simplify_eq; eauto.
      + rewrite new_child_lookup, decide_True by done. eauto.
    - intros l m k' c Hm Hc. destruct (proj1 (new_child_edge _ _ _) (Hedge _ _ _ _ Hm Hc)) as [He|(-> & -> & ->)].
      + destruct He as (m' & Hm' & Hc'). by eapply (wf_young h Hwf).
      + done.
    - intros l [m Hm]. rewrite new_child_lookup in Hm. subst h'. cbn. repeat case_decide; subst; try lia.
      pose proof (wf_next h Hwf l ltac:(eauto)). lia.
    - intros l m k' Hm [c Hc]. destruct (proj1 (new_child_edge _ _ _) (Hedge _ _ _ _ Hm Hc)) as [He|(-> & -> & ->)].
      + destruct He as (m' & Hm' & Hc'). by eapply (wf_names h Hwf).
      + done.
  Qed.

Lemma new_child_view p :
    heap_view h' p = if decide (p = pl ++ [k]) then Some NewEmptyDynamicVar else heap_view h p.
  Proof.
    unfold heap_view. rewrite new_child_walk. case_decide as Hp; cbn.
    - rewrite lookup_insert_eq. done.
    - destruct (walk h root p) as [l|] eqn:Hl; [|done]. cbn.
      destruct (walk_node h p l Hwf Hl) as [m Hm]. pose proof (wf_next h Hwf l ltac:(eauto)).
      rewrite lookup_insert_ne by lia. rewrite lookup_insert. case_decide; [|done]. subst.
      rewrite Hm. cbn. congruence.
  Qed.

Lemma new_child_absent : heap_view h (pl ++ [k]) = None.
  Proof.
    unfold heap_view. destruct (walk h root (pl ++ [k])) as [l|] eqn:Hl; [|done].
    apply walk_snoc in Hl as (l0 & Hl0 & m & Hm & Hc). congruence.
  Qed.
End new_child.

(** *** The creating walk *)
(** The child at a segment, found or created. *)
Lemma child_found_or_created pl curr n k h :
  heap_wf h → walk h root pl = Some curr → nodes h !! curr = Some n → lacks dot k →
  ∃ c h1,
    match childs n !! k with Some c => Some (c, h) | None => Some (next h, new_child k curr n h) end = Some (c, h1) ∧
    heap_wf h1 ∧ walk h1 root (pl ++ [k]) = Some c ∧
    ∀ p, heap_view h1 p = if decide (p `prefix_of` pl ++ [k])
                          then Some (default NewEmptyDynamicVar (heap_view h p)) else heap_view h p.
Proof.
  intros Hwf Hw Hn Hk.
  assert (∀ p, p `prefix_of` pl → is_Some (heap_view h p)) as Hpre.
  { intros p [r ->]. apply heap_view_is_Some; [done|]. rewrite walk_app in Hw.
    destruct (walk h root p); [by eexists|done]. }
  destruct (childs n !! k) as [c|] eqn:Hc.
  - assert (walk h root (pl ++ [k]) = Some c) as Hwc by (apply walk_snoc; exists curr; split; [done|by eexists]).
    exists c, h. split_and!; [done..|]. intros p. decide_goal as [Hp|]; [|done].
    apply prefix_snoc_inv in Hp as [->|Hp].
    + destruct (proj2 (heap_view_is_Some h _ Hwf) (ex_intro _ _ Hwc)) as [v ->]. done.
    + by destruct (Hpre _ Hp) as [v ->].
  - eexists _, _. split_and!; [done|by eapply new_child_wf| |].
    + erewrite new_child_walk by done. by rewrite decide_True.
    + intros p. erewrite new_child_view by done. decide_goal as [Hp|Hp].
      * subst. rewrite decide_True by done. by erewrite new_child_absent.
      * decide_goal as [Hpp|]; [|done]. apply prefix_snoc_inv in Hpp as [|Hpp]; [done|].
        by destruct (Hpre _ Hpp) as [v ->].
Qed.

Lemma scrollTree_create fuel name pl curr h :
  heap_wf h → walk h root pl = Some curr → len name < fuel →
  ∃ l h', scrollTree_fuel fuel name curr false h = (Some l, h') ∧ heap_wf h' ∧
    walk h' root (pl ++ keypath name) = Some l ∧
    ∀ p, heap_view h' p = if decide (p `prefix_of` pl ++ keypath name)
                          then Some (default NewEmptyDynamicVar (heap_view h p)) else heap_view h p.
Proof.
  revert name pl curr h. induction fuel as [|fuel IH]; intros name pl curr h Hwf Hw Hlt; [lia|].
  destruct (walk_node h pl curr Hwf Hw) as [n Hn].
  pose proof (λ k, child_found_or_created pl curr n k h Hwf Hw Hn) as Hfind.
  cbn [scrollTree_fuel]. rewrite Hn. rewrite Index_byte.
  destruct (Contains name ".") eqn:Hcont.
  - rewrite Contains_byte in Hcont. destruct (IndexByte name dot) as [i|] eqn:Hi; [|by destruct Hcont].
    cbn [default from_option id]. rewrite (keypath_cut _ _ Hi).
    apply IndexByte_Some in Hi as (_ & Hlk & Hilt).
    destruct (Hfind _ Hlk) as (c & h1 & -> & Hwf1 & Hw1 & Hv1).
    decide_goal as [Hrest|Hrest]; [exists c, h1; by split_and!|].
    destruct (IH (str_drop (S i) name) (pl ++ [str_take i name]) c h1) as (l & h' & -> & Hwf' & Hw' & Hv'); [done|done| |].
    { rewrite len_str_drop. lia. }
    rewrite <-app_assoc in Hw', Hv'. cbn in Hw', Hv'.
    exists l, h'. split_and!; [done..|]. intros p. rewrite Hv', Hv1.
    decide_goal as [Hp|Hp].
    + by decide_goal.
    + rewrite decide_False; [done|]. intros Hp'. apply Hp. etrans; [done|].
      apply prefix_app. apply prefix_cons, prefix_nil.
  - rewrite Contains_byte_false in Hcont. rewrite (keypath_lacks _ Hcont).
    destruct (Hfind _ Hcont) as (c & h1 & -> & Hwf1 & Hw1 & Hv1).
    rewrite decide_True by done. exists c, h1. by split_and!.
Qed.

(** *** Writing a value *)
Lemma set_value_edge h l v l' k c : edge (update_node (set_value v) l h) l' k c ↔ edge h l' k c.
Proof.
  unfold edge. cbn. rewrite lookup_alter. decide_goal as [<-|]; [|done].
  destruct (nodes h !! l) as [n|]; cbn; [|done]. by split; intros (m & [= <-] & Hc); eexists.
Qed.

Lemma set_value_walk h l v p : walk (update_node (set_value v) l h) root p = walk h root p.
Proof.
  induction p as [|k p IH] using rev_ind; [done|]. apply option_eq. intros c.
  rewrite !walk_snoc, IH. by setoid_rewrite set_value_edge.
Qed.

Lemma set_value_wf h l v : heap_wf h → heap_wf (update_node (set_value v) l h).
Proof.
  intros Hwf. set (h' := update_node (set_value v) l h).
  assert (∀ l' m, nodes h' !! l' = Some m → ∃ n, nodes h !! l' = Some n ∧
            imediateName m = imediateName n ∧ parent m = parent n ∧ childs m = childs n) as Hback.
  { intros l' m. subst h'. cbn. rewrite lookup_alter. decide_goal as [<-|]; [|eauto].
    destruct (nodes h !! l) as [n|]; cbn; [|done]. intros [= <-]. by exists n. }
  assert (∀ l' n, nodes h !! l' = Some n → ∃ m, nodes h' !! l' = Some m ∧
            imediateName m = imediateName n ∧ parent m = parent n ∧ childs m = childs n) as Hforth.
  { intros l' n Hn. subst h'. cbn. rewrite lookup_alter. decide_goal as [<-|]; [|eauto].
    rewrite Hn. by eexists. }
  split.
  - destruct (wf_root h Hwf) as (n & Hn & Hp). destruct (Hforth _ _ Hn) as (m & Hm & _ & Hp' & _).
    exists m. split; [done|]. congruence.
  - intros l' m k c (n & Hn & _ & _ & ->)%Hback Hc. destruct (wf_child h Hwf _ _ _ _ Hn Hc) as (nc & Hnc & ? & ?).
    destruct (Hforth _ _ Hnc) as (mc & Hmc & ? & ? & _). exists mc. split_and!; congruence.
  - intros l' m k c (n & Hn & _ & _ & ->)%Hback Hc. by eapply (wf_young h Hwf).
  - intros l' [m (n & Hn & _)%Hback]. apply (wf_next h Hwf). eauto.
  - intros l' m k (n & Hn & _ & _ & ->)%Hback Hc. by eapply (wf_names h Hwf).
Qed.

Lemma set_value_view h l v q p :
  heap_wf h → walk h root q = Some l →
  heap_view (update_node (set_value v) l h) p = if decide (p = q) then Some v else heap_view h p.
Proof.
  intros Hwf Hq. unfold heap_view. rewrite set_value_walk.
  destruct (walk h root p) as [l'|] eqn:Hp; cbn.
  - rewrite lookup_alter. destruct (walk_node h p l' Hwf Hp) as [n Hn].
    destruct (decide (p = q)) as [->|Hne].
    + assert (l' = l) as -> by congruence. rewrite decide_True by done. by rewrite Hn.
    + rewrite decide_False; [done|]. intros <-. destruct Hne. by eapply walk_inj.
  - rewrite decide_False; [done|]. by intros ->; congruence.
Qed.

(** *** Dropping children of a node *)
Section restrict.
Context (h : Heap) (pl : list string) (l : loc) (n : ramNode) (m' : gmap string loc).
Context (Hwf : heap_wf h) (Hw : walk h root pl = Some l) (Hn : nodes h !! l = Some n).
Context (Hsub : m' ⊆ childs n).
Let h' := update_node (set_childs m') l h.

Lemma restrict_lookup l' :
    nodes h' !! l' = if decide (l' = l) then Some (set_childs m' n) else nodes h !! l'.
  Proof. subst h'. cbn. rewrite lookup_alter. repeat case_decide; subst; try congruence. by rewrite Hn. Qed.

Lemma restrict_edge l' k c :
    edge h' l' k c ↔ edge h l' k c ∧ (l' = l → m' !! k = Some c).
  Proof.
    unfold edge. rewrite restrict_lookup. case_decide as Hl; [subst l'|].
    - split.
      + intros (m & [= <-] & Hc). cbn in Hc. split; [|done]. exists n. split; [done|]. by eapply lookup_weaken.
      + intros [_ Hm]. eexists. split; [done|]. by apply Hm.
    - naive_solver.
  Qed.

Lemma restrict_walk_old p c : walk h' root p = Some c → walk h root p = Some c.
  Proof.
    revert c. induction p as [|k p IH] using rev_ind; intros c; [done|].
    rewrite !walk_snoc. intros (l' & Hl' & [He _]%restrict_edge). eauto.
  Qed.

Lemma restrict_walk p :
    (∀ k r, p = pl ++ k :: r → m' !! k = childs n !! k) → walk h' root p = walk h root p.
  Proof.
    induction p as [|k p IH] using rev_ind; [done|]. intros Hk. apply option_eq. intros c. split.
    - apply restrict_walk_old.
    - rewrite !walk_snoc. intros (l' & Hl' & He). exists l'. split.
      + rewrite IH; [done|]. intros k0 r ->. apply (Hk k0 (r ++ [k])). by rewrite <-app_assoc.
      + apply restrict_edge. split; [done|]. intros ->.
        assert (p = pl) as -> by (by eapply walk_inj).
        rewrite (Hk k [] eq_refl). destruct He as (m & Hm & Hc). congruence.
  Qed.

Lemma restrict_walk_cut k r : m' !! k = None → walk h' root (pl ++ k :: r) = None.
  Proof.
    intros Hk. rewrite walk_app. rewrite restrict_walk.
    - rewrite Hw. cbn. rewrite lookup_alter_eq, Hn. cbn. by rewrite Hk.
    - intros k0 r0 Heq%(f_equal length). rewrite length_app in Heq. cbn in Heq. lia.
  Qed.

Lemma restrict_view p :
    (∀ k r, p = pl ++ k :: r → m' !! k = childs n !! k) → heap_view h' p = heap_view h p.
  Proof.
    intros Hp. apply heap_view_eq; [by apply restrict_walk|]. intros l' _.
    rewrite restrict_lookup. case_decide; [subst|done]. by rewrite Hn.
  Qed.

Lemma restrict_view_cut k r : m' !! k = None → heap_view h' (pl ++ k :: r) = None.
  Proof. intros Hk. unfold heap_view. by rewrite restrict_walk_cut. Qed.

Lemma restrict_wf : heap_wf h'.
  Proof.
    assert (∀ l' m k c, nodes h' !! l' = Some m → childs m !! k = Some c →
              ∃ m0, nodes h !! l' = Some m0 ∧ childs m0 !! k = Some c) as Hback.
    { intros l' m k c Hm Hc. assert (edge h' l' k c) as He by (by eexists).
      apply restrict_edge in He as [He _]. exact He. }
    split.
    - destruct (wf_root h Hwf) as (m & Hm & Hp). rewrite restrict_lookup. case_decide; [subst|eauto].
      eexists. split; [done|]. cbn. congruence.
    - intros l' m k c Hm Hc. destruct (Hback _ _ _ _ Hm Hc) as (m0 & Hm0 & Hc0).
      destruct (wf_child h Hwf _ _ _ _ Hm0 Hc0) as (nc & Hnc & ? & ?).
      rewrite restrict_lookup. case_decide; [subst|eauto]. eexists. split; [done|]. cbn. naive_solver congruence.
    - intros l' m k c Hm Hc. destruct (Hback _ _ _ _ Hm Hc) as (m0 & Hm0 & Hc0). by eapply (wf_young h Hwf).
    - intros l' [m Hm]. apply (wf_next h Hwf). rewrite restrict_lookup in Hm. case_decide; subst; eauto.
    - intros l' m k Hm [c Hc]. destruct (Hback _ _ _ _ Hm Hc) as (m0 & Hm0 & Hc0).
      eapply (wf_names h Hwf); [done|by eexists].
  Qed.
End restrict.

(** *** Deleting *)
Lemma has_child_childs h q l n :
  heap_wf h → walk h root q = Some l → nodes h !! l = Some n →
  has_child (heap_view h) q ↔ childs n ≠ ∅.
Proof.
  intros Hwf Hw Hn. unfold has_child. split.
  - intros (k & Hk) He. rewrite heap_view_is_Some in Hk by done. destruct Hk as [c Hc].
    apply walk_snoc in Hc as (l' & Hl' & m & Hm & Hc). assert (m = n) as -> by congruence.
    by rewrite He in Hc.
  - intros (k & c & Hc)%map_choose. exists k. apply heap_view_is_Some; [done|]. exists c.
    apply walk_snoc. exists l. split; [done|]. by exists n.
Qed.

Lemma unlink_spec h q k l n :
  heap_wf h → walk h root (q ++ [k]) = Some l → nodes h !! l = Some n →
  heap_wf (unlink_if_leaf l h) ∧
  ∀ p, heap_view (unlink_if_leaf l h) p =
    if decide (childs n = ∅ ∧ (q ++ [k]) `prefix_of` p) then None else heap_view h p.
Proof.
  intros Hwf Hw Hn. pose proof Hw as Hw'. apply walk_snoc in Hw' as (lp & Hlp & np & Hnp & Hc).
  destruct (wf_child h Hwf _ _ _ _ Hnp Hc) as (n' & Hn' & Hpar & Hname). assert (n' = n) as -> by congruence.
  unfold unlink_if_leaf. rewrite Hn, Hpar. destruct (decide (childs n = ∅)) as [He|He].
  - assert (delete k (childs np) ⊆ childs np) as Hsub by apply delete_subseteq.
    rewrite Hname.
    replace (update_node (λ np0, set_childs (delete k (childs np0)) np0) lp h)
      with (update_node (set_childs (delete k (childs np))) lp h).
    2:{ unfold update_node. f_equal. apply map_eq. intros i. rewrite !lookup_alter.
        case_decide; [subst|done]. by rewrite Hnp. }
    split; [by eapply restrict_wf|]. intros p. decide_goal as [[_ [r ->]]|Hp].
    + rewrite <-app_assoc. eapply restrict_view_cut; [done..|apply lookup_delete_eq].
    + eapply restrict_view; [done..|]. intros k' r ->. rewrite lookup_delete_ne; [done|].
      intros <-. apply Hp. split; [done|]. exists r. by rewrite <-app_assoc.
  - split; [done|]. intros p. rewrite decide_False by naive_solver. done.
Qed.

Lemma heap_delete_missing h name b :
  heap_wf h → heap_view h (keypath name) = None → heap_delete name b h = h.
Proof.
  intros Hwf Hv. unfold heap_delete. rewrite scrollTree_ro_root by done. cbn.
  destruct (walk h root (keypath name)) as [l|] eqn:Hw; [|done].
  destruct (proj2 (heap_view_is_Some h (keypath name) Hwf)) as [v Hv']; [by eexists|congruence].
Qed.

Lemma heap_delete_spec h name b l n :
  heap_wf h → walk h root (keypath name) = Some l → nodes h !! l = Some n →
  heap_wf (heap_delete name b h) ∧
  ∀ p, heap_view (heap_delete name b h) p =
    if decide ((b = true ∨ childs n = ∅) ∧ keypath name `prefix_of` p) then None
    else if decide (p = keypath name) then Some NewEmptyDynamicVar else heap_view h p.
Proof.
  intros Hwf Hw Hn. unfold heap_delete. rewrite scrollTree_ro_root by done. cbn [fst]. rewrite Hw.
  set (q := keypath name) in *.
  destruct (exists_last (keypath_ne name)) as (q0 & k & Hq). fold q in Hq.
  set (h1 := update_node (set_value NewEmptyDynamicVar) l h).
  assert (heap_wf h1) as Hwf1 by by apply set_value_wf.
  assert (walk h1 root q = Some l) as Hw1 by (subst h1; by rewrite set_value_walk).
  assert (nodes h1 !! l = Some (set_value NewEmptyDynamicVar n)) as Hn1.
  { subst h1. cbn. by rewrite lookup_alter_eq, Hn. }
  assert (∀ p, heap_view h1 p = if decide (p = q) then Some NewEmptyDynamicVar else heap_view h p) as Hv1.
  { intros p. by apply set_value_view. }
  destruct b.
  - assert (∅ ⊆ childs (set_value NewEmptyDynamicVar n)) as Hsub by apply map_empty_subseteq.
    set (h2 := update_node (set_childs ∅) l h1).
    assert (heap_wf h2) as Hwf2 by by eapply restrict_wf.
    assert (walk h2 root q = Some l) as Hw2.
    { subst h2. erewrite restrict_walk; try done. intros k' r Heq%(f_equal length).
      rewrite length_app in Heq. cbn in Heq. lia. }
    assert (nodes h2 !! l = Some (set_childs ∅ (set_value NewEmptyDynamicVar n))) as Hn2.
    { subst h2 h1. cbn. by rewrite !lookup_alter_eq, Hn. }
    rewrite Hq in Hw2. destruct (unlink_spec h2 q0 k l _ Hwf2 Hw2 Hn2) as [Hwf3 Hv3].
    split; [done|]. intros p. rewrite Hv3. cbn. rewrite <-Hq.
    destruct (decide (q `prefix_of` p)) as [Hp|Hp].
    + by rewrite !decide_True by auto.
    + rewrite !decide_False by naive_solver. subst h2.
      erewrite restrict_view; try done.
      * rewrite Hv1, decide_False; [done|]. intros ->. by apply Hp.
      * intros k' r ->. destruct Hp. by apply prefix_app_r.
  - rewrite Hq in Hw1. destruct (unlink_spec h1 q0 k l _ Hwf1 Hw1 Hn1) as [Hwf3 Hv3].
    split; [done|]. intros p. rewrite Hv3. cbn. rewrite <-Hq, Hv1.
    destruct (decide (childs n = ∅ ∧ q `prefix_of` p)) as [Hp|Hp].
    + rewrite decide_True by naive_solver. done.
    + by destruct (decide ((false = true ∨ childs n = ∅) ∧ q `prefix_of` p)) as [[[?|?] ?]|];
        [|destruct Hp|].
Qed.

(** *** [Set] and the reads *)
Lemma heap_set_spec h name v :
  heap_wf h →
  heap_wf (heap_set name v h) ∧
  ∀ p, heap_view (heap_set name v h) p = spec_set (heap_view h) (keypath name) v p.
Proof.
  intros Hwf. unfold heap_set, scrollTree.
  destruct (scrollTree_create (S (len name)) name [] root h Hwf eq_refl ltac:(lia))
    as (l & h' & -> & Hwf' & Hw & Hv).
  split; [by apply set_value_wf|]. intros p. erewrite set_value_view by done. cbn [app].
  unfold spec_set. decide_goal; [done|]. by rewrite Hv.
Qed.

(** [Set] never fails: the creating walk returns a node. *)
Lemma ram_Set_mem name v r :
  heap_wf (mem r) →
  mem (ram_Set name v r) = heap_set name v (mem r) ∧ pendingChanges (ram_Set name v r) = true.
Proof.
  intros Hwf. unfold ram_Set, heap_set, scrollTree.
  destruct (scrollTree_create (S (len name)) name [] root (mem r) Hwf eq_refl ltac:(lia))
    as (l & h' & -> & _). done.
Qed.

Lemma ram_Delete_mem name b r : mem (ram_DeleteValue name b r) = heap_delete name b (mem r).
Proof. unfold ram_DeleteValue, heap_delete. by destruct (scrollTree name root true (mem r)).1. Qed.

Lemma heap_get_spec h name d : heap_wf h → heap_get name d h = default d (heap_view h (keypath name)).
Proof.
  intros Hwf. unfold heap_get, heap_view. rewrite scrollTree_ro_root by done. cbn.
  destruct (walk h root (keypath name)) as [l|] eqn:Hw; [|done]. cbn.
  by destruct (walk_node h _ l Hwf Hw) as [n ->].
Qed.

Section order.
Context `{RangeOrder}.

Lemma elem_of_node_childs h l n k :
  nodes h !! l = Some n → k ∈ (node_childs h l).*1 ↔ is_Some (childs n !! k).
Proof.
  intros Hn. unfold node_childs. rewrite Hn. cbn. rewrite list_elem_of_fmap. split.
  - intros ([k' c] & -> & Hc%elem_of_range). by eexists.
  - intros [c Hc]. exists (k, c). split; [done|]. by apply elem_of_range.
Qed.

Lemma NoDup_node_childs h l : NoDup (node_childs h l).*1.
Proof.
  unfold node_childs. destruct (nodes h !! l); cbn; [apply NoDup_fst_range|constructor].
Qed.

Lemma heap_child_names_spec h name k :
  heap_wf h →
  k ∈ heap_child_names name h ↔
  is_Some (heap_view h ((if decide (name = "") then [] else keypath name) ++ [k])).
Proof.
  intros Hwf.
  assert (∀ l p, walk h root p = Some l →
            k ∈ (node_childs h l).*1 ↔ is_Some (heap_view h (p ++ [k]))) as Hl.
  { intros l p Hw. destruct (walk_node h p l Hwf Hw) as [n Hn].
    rewrite heap_view_is_Some, (elem_of_node_childs _ _ _ _ Hn) by done. split.
    - intros [c Hc]. exists c. apply walk_snoc. exists l. split; [done|]. by exists n.
    - intros [c Hc]. apply walk_snoc in Hc as (l' & Hl' & m & Hm & Hc).
      exists c. congruence. }
  unfold heap_child_names. decide_goal; [by apply Hl|].
  rewrite scrollTree_ro_root by done. cbn.
  destruct (walk h root (keypath name)) as [l|] eqn:Hw; [by apply Hl|].
  split; [by intros ?%elem_of_nil|]. intros Hs. apply heap_view_is_Some in Hs as [c Hc]; [|done].
  apply walk_snoc in Hc as (l' & Hl' & _). congruence.
Qed.

(** ** [RamCacheDB] implements the interface *)
#[export] Instance RamCacheDB_storage : IStorage RamCacheDB := {|
  st_Set := ram_Set;
  st_Get := ram_Get;
  st_GetChilds name r := heap_child_names name (mem r);
  st_HasValue := ram_HasValue;
  st_DeleteValue := ram_DeleteValue;
  st_ForEachChilds name r := heap_foreach name (mem r)
|}.

Lemma ram_view_names h p : heap_wf h → is_Some (heap_view h p) → Forall (lacks dot) p.
Proof.
  intros Hwf. rewrite heap_view_is_Some by done. intros [l Hw].
  induction p as [|k p IH] using rev_ind in l, Hw |- *; [done|].
  apply walk_snoc in Hw as (l' & Hl' & n & Hn & Hc). apply Forall_app. split; [by eapply IH|].
  repeat constructor. eapply (wf_names h Hwf); [done|by eexists].
Qed.


Lemma ram_view_bounded h p : heap_wf h → is_Some (heap_view h p) → length p ≤ Pos.to_nat (next h).
Proof.
  intros Hwf. rewrite heap_view_is_Some by done. intros [l Hw].
  pose proof (walk_depth h p l Hwf Hw). pose proof (wf_next h Hwf l (walk_node h p l Hwf Hw)). lia.
Qed.

Lemma ram_view_closed h p k : heap_wf h → is_Some (heap_view h (p ++ [k])) → is_Some (heap_view h p).
Proof.
  intros Hwf. rewrite !heap_view_is_Some by done. intros [c (l & Hl & _)%walk_snoc]. by eexists.
Qed.

(** A leaf has no node below it. *)
Lemma no_child_below h q p :
  heap_wf h → ¬ has_child (heap_view h) q → q `prefix_of` p → p ≠ q → heap_view h p = None.
Proof.
  intros Hwf Hnc [r ->] Hne. destruct (heap_view h (q ++ r)) as [v|] eqn:Hv; [|done].
  destruct Hnc. revert v Hv Hne. induction r as [|k r IH] using rev_ind; intros v Hv Hne.
  { by rewrite app_nil_r in Hne. }
  destruct r as [|k' r _] using rev_ind; [exists k; by eexists|].
  rewrite app_assoc in Hv. destruct (ram_view_closed h (q ++ r ++ [k']) k Hwf (ex_intro _ _ Hv)) as [v' Hv'].
  apply (IH v' Hv'). intros Heq%(f_equal length). rewrite !length_app in Heq. cbn in Heq. lia.
Qed.

(** Deleting: the node is missing, it goes with what is below it, or it stays,
    empty, for the sake of its children. *)
Lemma ram_delete_cases name b r :
  heap_wf (mem r) →
  let h := mem r in let h' := mem (ram_DeleteValue name b r) in let q := keypath name in
  (heap_view h q = None ∧ h' = h) ∨
  ((b = true ∨ ¬ has_child (heap_view h) q) ∧ heap_wf h' ∧
   ∀ p, heap_view h' p = if decide (q `prefix_of` p) then None else heap_view h p) ∨
  (b = false ∧ has_child (heap_view h) q ∧ heap_wf h' ∧
   ∀ p, heap_view h' p = if decide (p = q) then Some NewEmptyDynamicVar else heap_view h p).
Proof.
  intros Hwf h h' q. unfold h'. rewrite ram_Delete_mem. fold h.
  destruct (heap_view h q) as [v|] eqn:Hv; [right|left; by rewrite heap_delete_missing].
  apply heap_view_walk in Hv as (l & n & Hw & Hn & _).
  destruct (heap_delete_spec h name b l n Hwf Hw Hn) as [Hwf' Hview]. fold q in Hview.
  pose proof (has_child_childs h q l n Hwf Hw Hn) as Hch.
  destruct (decide (b = true ∨ childs n = ∅)) as [Hd|Hd]; [left|right].
  - split; [tauto|]. split; [done|]. intros p. rewrite Hview.
    destruct (decide (q `prefix_of` p)) as [Hp|Hp]; [by rewrite decide_True|].
    rewrite !decide_False; [done| |naive_solver]. intros ->. by apply Hp.
  - split; [destruct b; tauto|]. split; [tauto|]. split; [done|]. intros p. rewrite Hview. by rewrite decide_False by tauto.
Qed.

(** A node that is not there has nothing below it. *)
Lemma nothing_below h q r : heap_wf h → heap_view h q = None → heap_view h (q ++ r) = None.
Proof.
  intros Hwf Hv. induction r as [|k r IH] using rev_ind; [by rewrite app_nil_r|].
  destruct (heap_view h (q ++ r ++ [k])) as [v|] eqn:Hk; [|done]. rewrite app_assoc in Hk.
  destruct (ram_view_closed h (q ++ r) k Hwf (ex_intro _ _ Hk)) as [v' Hv']. congruence.
Qed.

#[export] Instance RamCacheDB_spec : StorageSpec RamCacheDB.
Proof.
  refine {| valid r := heap_wf (mem r); view r := heap_view (mem r) |}; cbn.
  - intros db p k. apply ram_view_closed.
  - intros db p. apply ram_view_names.
  - intros db Hwf. eexists. intros p. by apply ram_view_bounded.
  - intros db key d. apply heap_get_spec.
  - intros db key Hwf. unfold ram_HasValue. rewrite scrollTree_ro_root by done. cbn.
    apply bool_decide_ext. by rewrite heap_view_is_Some.
  - intros db key v Hwf. destruct (ram_Set_mem key v db Hwf) as [-> _]. by apply heap_set_spec.
  - intros db key v p Hwf. destruct (ram_Set_mem key v db Hwf) as [-> _]. by apply heap_set_spec.
  - intros db key b Hwf. by destruct (ram_delete_cases key b db Hwf) as [[_ ->]|[(_ & ? & _)|(_ & _ & ? & _)]].
  - intros db key b p Hwf Hv. rewrite ram_Delete_mem. by rewrite heap_delete_missing.
  - intros db key p Hwf. destruct (ram_delete_cases key true db Hwf) as [[Hv ->]|[(_ & _ & ->)|(? & _)]]; [|done..].
    decide_goal as [[r ->]|]; [|done]. by apply nothing_below.
  - intros db key p Hwf Hne. destruct (ram_delete_cases key false db Hwf) as [[_ ->]|[(Hc & _ & ->)|(_ & _ & _ & ->)]]; [done| |].
    + decide_goal; [|done]. symmetry. eapply no_child_below; [done| |done..]. by destruct Hc.
    + by rewrite decide_False.
  - intros db key Hwf Hnc. destruct (ram_delete_cases key false db Hwf) as [[Hv ->]|[(_ & _ & ->)|(_ & ? & _)]]; [done| |done].
    by rewrite decide_True.
  - intros db key Hwf Hc. destruct (ram_delete_cases key false db Hwf) as [[Hv ->]|[([|] & _)|(_ & _ & _ & ->)]]; [|done..|].
    + destruct Hc as [k Hk]. destruct (ram_view_closed _ _ _ Hwf Hk) as [v Hv']. congruence.
    + by rewrite decide_True.
  - intros db key Hwf. unfold heap_child_names. decide_goal; [apply NoDup_node_childs|].
    destruct (scrollTree key root true (mem db)).1; [apply NoDup_node_childs|constructor].
  - intros db key k. apply heap_child_names_spec.
Defined.
End order.
