(* ===== verification/Reference.v ===== *)
(** * The reference database

    An abstract machine for [IStorage]: a finite map from paths to values and
    the obvious operations on it.  Any implementation of [StorageSpec] is
    simulated by it, operation by operation, answers included; the in-memory
    tree of [RamCacheDB.v] is one such implementation. *)
From S2P Require Import Prelude GoStrings GoStrconv Misc Storage RamCacheDB.

Abbreviation tree := (gmap (list string) DynamicVar).

(** The proper prefixes of a path, shortest first. *)
Definition ancestors (q : list string) : list (list string) := (λ i, take i q) <$> seq 0 (length q).

Definition touch (t : tree) (p : list string) : tree :=
  match t !! p with Some _ => t | None => <[p := NewEmptyDynamicVar]> t end.
Definition tree_set (q : list string) (v : DynamicVar) (t : tree) : tree :=
  <[q := v]> (fold_left touch (ancestors q) t).

Definition below (q p : list string) : Prop := q `prefix_of` p ∧ length p = S (length q).
#[export] Instance below_dec q p : Decision (below q p) := and_dec _ _.
Definition tree_has_child (q : list string) (t : tree) : Prop := map_Exists (λ p _, below q p) t.
#[export] Instance tree_has_child_dec q t : Decision (tree_has_child q t) := _.
Definition tree_delete (q : list string) (cascade : bool) (t : tree) : tree :=
  match t !! q with
  | None => t
  | Some _ =>
      if cascade then filter (λ pv, ¬ q `prefix_of` pv.1) t
      else if decide (tree_has_child q t) then <[q := NewEmptyDynamicVar]> t
      else delete q t
  end.

(** Requests and answers of the interface. *)
Inductive request :=
  | ReqSet (key : string) (v : DynamicVar)
  | ReqDelete (key : string) (cascade : bool)
  | ReqGet (key : string) (d : DynamicVar)
  | ReqHas (key : string).
Inductive answer := AnsDone | AnsValue (v : DynamicVar) | AnsBool (b : bool).

Definition ref_step (t : tree) (r : request) : tree * answer :=
  match r with
  | ReqSet key v => (tree_set (keypath key) v t, AnsDone)
  | ReqDelete key b => (tree_delete (keypath key) b t, AnsDone)
  | ReqGet key d => (t, AnsValue (default d (t !! keypath key)))
  | ReqHas key => (t, AnsBool (bool_decide (is_Some (t !! keypath key))))
  end.

Definition db_step `{IStorage DB} (db : DB) (r : request) : DB * answer :=
  match r with
  | ReqSet key v => (st_Set key v db, AnsDone)
  | ReqDelete key b => (st_DeleteValue key b db, AnsDone)
  | ReqGet key d => (db, AnsValue (st_Get key d db))
  | ReqHas key => (db, AnsBool (st_HasValue key db))
  end.

(** The answers to a sequence of requests. *)
Fixpoint run {S} (step : S → request → S * answer) (s : S) (l : list request) : S * list answer :=
  match l with
  | [] => (s, [])
  | r :: l => let '(s, a) := step s r in let '(s, l) := run step s l in (s, a :: l)
  end.

(** ** The simulation *)
Lemma lookup_touch t p q :
  touch t p !! q = if decide (q = p) then Some (default NewEmptyDynamicVar (t !! p)) else t !! q.
Proof.
  unfold touch. destruct (t !! p) eqn:Hp.
  - decide_goal; by subst.
  - rewrite lookup_insert. destruct (decide (q = p)) as [->|Hne]; [by rewrite decide_True|by rewrite decide_False by congruence].
Qed.

Lemma lookup_touch_all l t q :
  fold_left touch l t !! q = if decide (q ∈ l) then Some (default NewEmptyDynamicVar (t !! q)) else t !! q.
Proof.
  revert t. induction l as [|p l IH]; intros t; cbn.
  { rewrite decide_False; [done|]. apply not_elem_of_nil. }
  rewrite IH, lookup_touch. destruct (decide (q ∈ p :: l)) as [Hin|Hin]; rewrite elem_of_cons in Hin;
    destruct (decide (q ∈ l)), (decide (q = p)) as [->|]; naive_solver.
Qed.

Lemma elem_of_ancestors p q : p ∈ ancestors q ↔ p `prefix_of` q ∧ p ≠ q.
Proof.
  unfold ancestors. rewrite list_elem_of_fmap. split.
  - intros (i & -> & Hi%elem_of_seq). split; [by exists (drop i q); rewrite take_drop|].
    intros Heq%(f_equal length). rewrite length_take in Heq. lia.
  - intros [[r ->] Hne]. exists (length p). rewrite take_app_length. split; [done|].
    apply elem_of_seq. rewrite length_app. destruct r; [|cbn; lia]. by rewrite app_nil_r in Hne.
Qed.

Lemma lookup_tree_set q v t p : tree_set q v t !! p = spec_set (λ p, t !! p) q v p.
Proof.
  unfold tree_set, spec_set. rewrite lookup_insert. destruct (decide (p = q)) as [->|Hne].
  - by rewrite decide_True.
  - rewrite decide_False by congruence. rewrite lookup_touch_all.
    destruct (decide (p ∈ ancestors q)) as [Ha|Ha]; rewrite elem_of_ancestors in Ha.
    + by rewrite decide_True by naive_solver.
    + by rewrite decide_False by naive_solver.
Qed.

Lemma below_snoc q p : below q p ↔ ∃ k, p = q ++ [k].
Proof.
  split.
  - intros [[r ->] Hl]. rewrite length_app in Hl. destruct r as [|k [|]]; cbn in Hl; [lia|by exists k|lia].
  - intros [k ->]. split; [by apply prefix_app_r|]. rewrite length_app. cbn. lia.
Qed.

Section simulation.
Context `{StorageSpec DB}.

(** The database shows exactly the nodes of the tree. *)
Definition shows (db : DB) (t : tree) : Prop := valid db ∧ ∀ p, view db p = t !! p.

Lemma shows_has_child db t q : shows db t → has_child (view db) q ↔ tree_has_child q t.
Proof.
  intros [_ Hv]. unfold has_child, tree_has_child, map_Exists. setoid_rewrite Hv. split.
  - intros (k & v & Hk). exists (q ++ [k]), v. split; [done|]. apply below_snoc. by exists k.
  - intros (p & v & Hp & [k ->]%below_snoc). exists k. by eexists.
Qed.

Lemma shows_Set db t key v : shows db t → shows (st_Set key v db) (tree_set (keypath key) v t).
Proof.
  intros [Hval Hv]. split; [by apply Set_valid|]. intros p.
  rewrite Set_spec, lookup_tree_set by done. unfold spec_set. by rewrite Hv.
Qed.

Lemma shows_Delete db t key b : shows db t → shows (st_DeleteValue key b db) (tree_delete (keypath key) b t).
Proof.
  intros Hs. pose proof Hs as [Hval Hv]. split; [by apply Delete_valid|]. intros p.
  unfold tree_delete. destruct (t !! keypath key) as [v|] eqn:Ht; [destruct b|].
  - rewrite Delete_cascade by done. rewrite map_lookup_filter, Hv. decide_goal as [Hp|Hp].
    + destruct (t !! p); [cbn|done]. by rewrite option_guard_False by naive_solver.
    + destruct (t !! p); [cbn|done]. by rewrite option_guard_True.
  - destruct (decide (p = keypath key)) as [->|Hne].
    + destruct (decide (tree_has_child (keypath key) t)) as [Hc|Hc].
      * rewrite Delete_inner, lookup_insert_eq; [done|done|]. by apply (shows_has_child db t).
      * rewrite Delete_leaf, lookup_delete_eq; [done|done|]. by rewrite shows_has_child.
    + rewrite Delete_other by done. decide_goal.
      * by rewrite lookup_insert_ne.
      * by rewrite lookup_delete_ne.
  - by rewrite Delete_missing, Hv by (done || by rewrite Hv).
Qed.

Lemma shows_step db t r :
  shows db t → shows (db_step db r).1 (ref_step t r).1 ∧ (db_step db r).2 = (ref_step t r).2.
Proof.
  intros Hs. pose proof Hs as [Hval Hv]. destruct r; cbn.
  - split; [by apply shows_Set|done].
  - split; [by apply shows_Delete|done].
  - split; [done|]. by rewrite Get_spec, Hv.
  - split; [done|]. by rewrite HasValue_spec, Hv.
Qed.

Lemma shows_run db t l :
  shows db t → shows (run db_step db l).1 (run ref_step t l).1 ∧ (run db_step db l).2 = (run ref_step t l).2.
Proof.
  revert db t. induction l as [|r l IH]; intros db t Hs; [done|].
  destruct (shows_step db t r Hs) as [Hs' Ha]. cbn.
  destruct (db_step db r) as [db' a], (ref_step t r) as [t' a']. cbn in *. subst a'.
  destruct (IH _ _ Hs') as [Hs'' Hl].
  by destruct (run db_step db' l), (run ref_step t' l); cbn in *; subst.
Qed.
End simulation.

Lemma empty_ram_shows `{RangeOrder} dir ms :
  shows (NewRamCacheDB dir ms FileMissing) {[ [] := NewEmptyDynamicVar ]}.
Proof.
  split; [apply empty_heap_wf|]. intros p. cbn.
  destruct p as [|k p]; [done|]. rewrite lookup_singleton_ne by done. done.
Qed.


(** ** The heap is a tree *)
Lemma load_line_wf h line : heap_wf h → heap_wf (load_line h line).
Proof.
  intros Hwf. unfold load_line. case_decide; [done|]. destruct (Index line "=") as [i|]; [|done].
  by apply heap_set_spec.
Qed.

Lemma load_text_wf text h : heap_wf h → heap_wf (load_text text h).
Proof.
  unfold load_text. generalize (SplitByte text newline). intros ls. revert h.
  induction ls as [|l ls IH]; intros h Hwf; [done|]. by apply IH, load_line_wf.
Qed.

Lemma ram_load_wf file r : heap_wf (mem r) → heap_wf (mem (ram_load file r).2).
Proof. destruct file; [done|done|]. apply load_text_wf. Qed.

Lemma NewRamCacheDB_wf dir ms file : heap_wf (mem (NewRamCacheDB dir ms file)).
Proof. unfold NewRamCacheDB. apply ram_load_wf, ram_load_wf, empty_heap_wf. Qed.

Lemma db_step_valid `{StorageSpec DB} (db : DB) r : valid db → valid (db_step db r).1.
Proof. intros Hv. destruct r; cbn; [by apply Set_valid|by apply Delete_valid|done|done]. Qed.

Lemma run_valid `{StorageSpec DB} (l : list request) (db : DB) : valid db → valid (run db_step db l).1.
Proof.
  revert db. induction l as [|r l IH]; intros db Hv; [done|]. cbn.
  pose proof (db_step_valid db r Hv) as Hr. destruct (db_step db r) as [db' a]. specialize (IH _ Hr). cbn in IH.
  by destruct (run db_step db' l).
Qed.

(** C21.  Whatever the database file holds and whatever is stored and deleted
    afterwards, the nodes form a tree: the links and the [parent] pointers
    agree, no pointer dangles, no two paths lead to one node, no name has a dot,
    and a path is shorter than the number of nodes ever allocated, so that no
    walk along [childs] runs for ever. *)
Theorem heap_stays_a_tree `{RangeOrder} dir ms file (l : list request) :
  let h := mem (run db_step (NewRamCacheDB dir ms file) l).1 in
  (∀ c n k d, nodes h !! c = Some n → childs n !! k = Some d →
     ∃ nd, nodes h !! d = Some nd ∧ parent nd = Some c ∧ imediateName nd = k ∧ lacks dot k) ∧
  (∀ p q c, walk h root p = Some c → walk h root q = Some c → p = q) ∧
  (∀ p c, walk h root p = Some c → is_Some (nodes h !! c) ∧ length p < Pos.to_nat (next h)).
Proof.
  assert (heap_wf (mem (run db_step (NewRamCacheDB dir ms file) l).1)) as Hwf.
  { exact (run_valid (H0 := RamCacheDB_spec) l (NewRamCacheDB dir ms file) (NewRamCacheDB_wf dir ms file)). }
  intros h. fold h in Hwf. split_and!.
  - intros c n k d Hn Hd. destruct (wf_child h Hwf c n k d Hn Hd) as (nd & ? & ? & ?). exists nd.
    split_and!; [done..|]. eapply (wf_names h Hwf); [exact Hn|by exists d].
  - intros p q c. by apply walk_inj.
  - intros p c Hw. pose proof (walk_node h p c Hwf Hw) as Hc. split; [exact Hc|].
    pose proof (walk_depth h p c Hwf Hw). pose proof (wf_next h Hwf c Hc). lia.
Qed.
