(* ===== verification/RamCacheDump.v ===== *)
(** * Dump and load of the database file

    [dumpToStringLocked] writes one line [key=value] per node with a non-empty
    value; [load] reads such lines back with [scrollTree].  The round trip
    holds for trees whose segments are non-empty and free of ["="] and newline
    and whose values hold no newline; the last part shows what happens
    outside these bounds, and how the dumper treats a failed write. *)
From S2P Require Import Prelude GoStrings GoStrconv Misc Storage RamCacheDB Reference.

(** ** Lines and entries *)
Abbreviation entry := (list string * string)%type.

Definition key_of (p : list string) : string := Join p ".".
Definition line_of (e : entry) : string := key_of e.1 +:+ "=" +:+ e.2.
Fixpoint text_of (l : list entry) : string :=
  match l with [] => "" | e :: l => line_of e +:+ nl +:+ text_of l end.

(** The nodes below [cur] with a non-empty value, in the order of the dump. *)
Fixpoint entries_fuel `{RangeOrder} (fuel : nat) (h : Heap) (cur : loc) (pl : list string) : list entry :=
  match fuel with
  | O => []
  | S fuel =>
      kc ← node_childs h cur;
      let v := from_option (λ c, GetString (value c)) "" (nodes h !! kc.2) in
      (if decide (v = "") then [] else [(pl ++ [kc.1], v)]) ++ entries_fuel fuel h kc.2 (pl ++ [kc.1])
  end.

(** ** What the file format can carry *)
Definition clean_segment (k : string) : Prop := k ≠ "" ∧ lacks "=" k ∧ lacks newline k.
#[export] Instance clean_segment_dec k : Decision (clean_segment k).
Proof. unfold clean_segment. apply _. Defined.
Record clean (h : Heap) : Prop := {
  clean_root : value_at (heap_view h) [] = NewEmptyDynamicVar;
  clean_names : ∀ p v, heap_view h p = Some v → Forall clean_segment p;
  clean_values : ∀ p v, heap_view h p = Some v → lacks newline (GetString v)
}.

Lemma text_of_app l l' : text_of (l ++ l') = text_of l +:+ text_of l'.
Proof. induction l as [|e l IH]; [done|]. cbn. by rewrite IH, !str_app_assoc. Qed.

Lemma key_of_snoc pl k : pl ≠ [] → key_of (pl ++ [k]) = key_of pl +:+ "." +:+ k.
Proof.
  unfold key_of. induction pl as [|w pl IH]; [done|]. intros _.
  destruct pl as [|w' pl]; [done|]. cbn [app].
  rewrite !(Join_cons w) by (done || by destruct pl). cbn [app] in IH. by rewrite IH, !str_app_assoc.
Qed.

Lemma key_of_empty pl : Forall clean_segment pl → key_of pl = "" → pl = [].
Proof.
  destruct pl as [|w [|w' pl]]; [done|..]; intros [(Hw & _) _]%Forall_cons; unfold key_of.
  - done.
  - rewrite Join_cons by done. by destruct w.
Qed.

Section dump.
Context `{RangeOrder}.

Lemma entries_step fuel h cur pl :
  Forall clean_segment pl →
  dumpToString_fuel fuel h cur (key_of pl) =
  match fuel with
  | O => ""
  | S fuel => fold_left (λ ret kc,
      let v := from_option (λ c, GetString (value c)) "" (nodes h !! kc.2) in
      (if decide (v = "") then ret else ret +:+ line_of (pl ++ [kc.1], v) +:+ nl)
      +:+ dumpToString_fuel fuel h kc.2 (key_of (pl ++ [kc.1]))) (node_childs h cur) ""
  end.
Proof.
  intros Hpl. destruct fuel as [|fuel]; [done|]. cbn [dumpToString_fuel].
  assert (∀ k : string, (if decide (key_of pl = "") then "" else key_of pl +:+ ".") +:+ k = key_of (pl ++ [k])) as Hk.
  { intros k. decide_goal as [He|He].
    - by rewrite (key_of_empty pl Hpl He).
    - rewrite key_of_snoc by (by intros ->). by rewrite str_app_assoc. }
  apply fold_left_ext. intros ret kc. cbn zeta. f_equal; [|by rewrite Hk].
  destruct (decide (from_option _ "" (nodes h !! kc.2) = "")); [done|].
  unfold line_of. cbn [fst snd]. by rewrite <-Hk, !str_app_assoc.
Qed.

(** The dump is the text of the entries. *)
Lemma dump_entries fuel h cur pl :
  heap_wf h → clean h → walk h root pl = Some cur → Forall clean_segment pl →
  dumpToString_fuel fuel h cur (key_of pl) = text_of (entries_fuel fuel h cur pl).
Proof.
  intros Hwf Hcl. revert cur pl. induction fuel as [|fuel IH]; intros cur pl Hw Hpl; [done|].
  rewrite entries_step by done. cbn [entries_fuel].
  assert (∀ l ret, (∀ kc, kc ∈ l → kc ∈ node_childs h cur) →
    fold_left (λ ret kc,
      let v := from_option (λ c, GetString (value c)) "" (nodes h !! kc.2) in
      (if decide (v = "") then ret else ret +:+ line_of (pl ++ [kc.1], v) +:+ nl)
      +:+ dumpToString_fuel fuel h kc.2 (key_of (pl ++ [kc.1]))) l ret =
    ret +:+ text_of (l ≫= λ kc,
      let v := from_option (λ c, GetString (value c)) "" (nodes h !! kc.2) in
      (if decide (v = "") then [] else [(pl ++ [kc.1], v)]) ++ entries_fuel fuel h kc.2 (pl ++ [kc.1])))
    as Hl; [|by rewrite Hl].
  induction l as [|kc l IHl]; intros ret Hin; [by rewrite app_empty_r|].
  rewrite bind_cons. cbn [fold_left]. rewrite IHl by (intros; apply Hin; by right).
  assert (walk h root (pl ++ [kc.1]) = Some kc.2) as Hwk.
  { specialize (Hin kc ltac:(by left)). unfold node_childs in Hin.
    destruct (walk_node h pl cur Hwf Hw) as [n Hn]. rewrite Hn in Hin. cbn in Hin.
    destruct kc as [k c]. apply elem_of_range in Hin. apply walk_snoc. exists cur. split; [done|]. by exists n. }
  destruct (walk_node h _ _ Hwf Hwk) as [nc Hnc].
  rewrite (IH kc.2 (pl ++ [kc.1])); [|done|].
  2:{ eapply clean_names; [done|]. apply heap_view_walk. eauto. }
  cbn zeta. destruct (decide (from_option _ "" (nodes h !! kc.2) = ""));
    rewrite !text_of_app; cbn [text_of]; by rewrite ?app_empty_r, ?app_empty_l, !str_app_assoc.
Qed.
End dump.

(** ** What the entries are *)
Lemma elem_of_entries `{RangeOrder} fuel h cur pl p v :
  heap_wf h → walk h root pl = Some cur →
  (p, v) ∈ entries_fuel fuel h cur pl ↔
  v ≠ "" ∧ ∃ k r, p = pl ++ k :: r ∧ length r < fuel ∧ GetString <$> heap_view h p = Some v.
Proof.
  intros Hwf. revert cur pl. induction fuel as [|fuel IH]; intros cur pl Hw.
  { split; [by intros ?%elem_of_nil|]. intros (_ & k & r & _ & ? & _). lia. }
  assert (∀ k c, (k, c) ∈ node_childs h cur ↔ walk h root (pl ++ [k]) = Some c) as Hch.
  { intros k c. destruct (walk_node h pl cur Hwf Hw) as [n Hn]. unfold node_childs. rewrite Hn. cbn.
    rewrite elem_of_range, walk_snoc. split.
    - intros Hc. exists cur. split; [done|]. by exists n.
    - intros (l' & Hl' & m & Hm & Hc). congruence. }
  assert (∀ k c, walk h root (pl ++ [k]) = Some c → ∃ n, nodes h !! c = Some n ∧
            heap_view h (pl ++ [k]) = Some (value n)) as Hval.
  { intros k c Hc. destruct (walk_node h _ c Hwf Hc) as [n Hn]. exists n. split; [done|].
    apply heap_view_walk. eauto. }
  cbn [entries_fuel]. rewrite list_elem_of_bind. split.
  - intros ([k c] & Hin & Hkc%Hch). cbn [fst snd] in Hin. destruct (Hval k c Hkc) as (n & Hn & Hv).
    rewrite Hn in Hin. cbn in Hin. apply elem_of_app in Hin as [Hin|Hin].
    + destruct (decide (GetString (value n) = "")); [by apply elem_of_nil in Hin|].
      apply list_elem_of_singleton in Hin as [= -> ->]. split; [done|]. exists k, [].
      rewrite Hv. split_and!; [done|cbn; lia|done].
    + apply (IH c (pl ++ [k]) Hkc) in Hin as (Hne & k' & r & -> & Hlt & Hvv). split; [done|].
      exists k, (k' :: r). rewrite <-app_assoc in *. cbn in *. split_and!; [done|lia|done].
  - intros (Hne & k & r & -> & Hlt & Hv). destruct (heap_view h (pl ++ k :: r)) as [dv|] eqn:Hd; [|done].
    injection Hv as Hv. replace (pl ++ k :: r) with ((pl ++ [k]) ++ r) in * by by rewrite <-app_assoc.
    pose proof Hd as Hd'. apply heap_view_walk in Hd' as (l & n & Hl & Hn & Hvn). rewrite walk_app in Hl.
    destruct (walk h root (pl ++ [k])) as [c|] eqn:Hc; [|done]. exists (k, c). split; [|by apply Hch].
    cbn [fst snd]. destruct (Hval k c Hc) as (nc & Hnc & Hvc). rewrite Hnc. cbn [from_option].
    apply elem_of_app. destruct r as [|k' r].
    + left. rewrite app_nil_r in *. assert (GetString (value nc) = v) as -> by congruence.
      rewrite decide_False by done. by apply list_elem_of_singleton.
    + right. apply (IH c (pl ++ [k]) Hc). split; [done|]. exists k', r.
      split_and!; [done|cbn in Hlt; lia|cbn; by rewrite Hv].
Qed.

(** ** Loading lines *)
Lemma white_space_lacks_eq : Forall (lacks "=") white_space.
Proof. apply Forall_forall. intros w. cbn. set_unfold. intros. by destruct_or!; subst. Qed.

Lemma trim_left_keeps fuel s : ¬ lacks "=" s → ¬ lacks "=" (trim_left_fuel fuel s).
Proof.
  revert s. induction fuel as [|fuel IH]; intros s Hs; [done|]. cbn [trim_left_fuel].
  destruct (List.find (HasPrefix s) white_space) as [w|] eqn:Hf; [|done].
  apply List.find_some in Hf as [Hin [t ->]%HasPrefix_spec]. apply IH. rewrite str_drop_app.
  rewrite lacks_app in Hs. pose proof white_space_lacks_eq as Hw. rewrite List.Forall_forall in Hw. intros Ht. apply Hs. split; [by apply Hw|exact Ht].
Qed.

Lemma trim_right_keeps fuel s : ¬ lacks "=" s → ¬ lacks "=" (trim_right_fuel fuel s).
Proof.
  revert s. induction fuel as [|fuel IH]; intros s Hs; [done|]. cbn [trim_right_fuel].
  destruct (List.find (HasSuffix s) white_space) as [w|] eqn:Hf; [|done].
  apply List.find_some in Hf as [Hin [t ->]%HasSuffix_spec]. apply IH.
  rewrite len_app. replace (len t + len w - len w) with (len t) by lia. rewrite str_take_app.
  rewrite lacks_app in Hs. pose proof white_space_lacks_eq as Hw. rewrite List.Forall_forall in Hw. intros Ht. apply Hs. split; [exact Ht|by apply Hw].
Qed.

Lemma TrimSpace_ne s : ¬ lacks "=" s → TrimSpace s ≠ "".
Proof.
  intros Hs He. unfold TrimSpace in He.
  assert (¬ lacks "=" "") as Hno; [|by apply Hno].
  rewrite <-He. by apply trim_right_keeps, trim_left_keeps.
Qed.

(** The line of an entry sets that entry. *)
Lemma load_line_of h key v :
  lacks "=" key → load_line h (key +:+ "=" +:+ v) = heap_set key (NewDynamicVar v) h.
Proof.
  intros Hk. unfold load_line. rewrite decide_False.
  - rewrite app_cons, app_empty_l, Index_byte, IndexByte_app by done.
    by rewrite str_take_app, str_drop_S_app.
  - apply TrimSpace_ne. rewrite lacks_app, app_cons, app_empty_l, lacks_cons. naive_solver.
Qed.

Lemma load_text_of l h :
  Forall (λ e, lacks newline (line_of e)) l → Forall (λ e, lacks "=" (key_of e.1)) l →
  load_text (text_of l) h = fold_left (λ h e, heap_set (key_of e.1) (NewDynamicVar e.2) h) l h.
Proof.
  unfold load_text. revert h. induction l as [|e l IH]; intros h; [done|].
  intros [Hn Hns]%Forall_cons [Hq Hqs]%Forall_cons. cbn [text_of fold_left].
  unfold nl. rewrite app_cons, app_empty_l, SplitByte_app, SplitByte_lacks by done. cbn [app fold_left].
  unfold line_of at 1. rewrite load_line_of by done. by apply IH.
Qed.

(** Writing entries that agree with each other. *)
Lemma fold_sets_value l h p v :
  heap_wf h → Forall (λ e : entry, keypath (key_of e.1) = e.1) l →
  (∀ v', (p, v') ∈ l → v' = v) →
  value_at (heap_view h) p = NewDynamicVar v ∨ (p, v) ∈ l →
  value_at (heap_view (fold_left (λ h e, heap_set (key_of e.1) (NewDynamicVar e.2) h) l h)) p = NewDynamicVar v.
Proof.
  revert h. induction l as [|[q w] l IH]; intros h Hwf Hkey Hfun Hor.
  { destruct Hor as [?|?%elem_of_nil]; done. }
  apply Forall_cons in Hkey as [Hq Hkey]. cbn [fst snd] in Hq. cbn [fold_left fst snd].
  destruct (heap_set_spec h (key_of q) (NewDynamicVar w) Hwf) as [Hwf' Hv'].
  apply IH; [done|done| |].
  - intros v' Hin. apply Hfun. by apply elem_of_cons; right.
  - assert (value_at (heap_view (heap_set (key_of q) (NewDynamicVar w) h)) p
            = value_at (spec_set (heap_view h) q (NewDynamicVar w)) p) as ->
      by (unfold value_at; by rewrite Hv', Hq).
    rewrite value_at_spec_set. decide_goal as [->|Hne].
    + left. f_equal. apply Hfun. by apply elem_of_cons; left.
    + destruct Hor as [Hor|Hor]; [by left|]. apply elem_of_cons in Hor as [[= <- <-]|Hor]; [done|by right].
Qed.

(** ** The round trip *)
Lemma fold_sets_wf l h :
  heap_wf h → heap_wf (fold_left (λ h e, heap_set (key_of e.1) (NewDynamicVar e.2) h) l h).
Proof. revert h. induction l as [|e l IH]; intros h Hwf; [done|]. by apply IH, heap_set_spec. Qed.

Lemma lacks_key c p : c ≠ "."%char → Forall (lacks c) p → lacks c (key_of p).
Proof.
  intros Hc. unfold key_of. induction p as [|w p IH]; [done|]. intros [Hw Hp]%Forall_cons.
  destruct p as [|w' p]; [done|]. rewrite Join_cons by done. rewrite app_cons, app_empty_l.
  apply lacks_app. split; [done|]. apply lacks_cons. split; [congruence|]. by apply IH.
Qed.

Lemma keypath_key_of p : p ≠ [] → Forall clean_segment p → Forall (lacks dot) p → keypath (key_of p) = p.
Proof.
  intros Hne Hcl Hd. unfold keypath, key_of. rewrite SplitByte_Join by done.
  destruct p as [|w [|w' p]]; [done..|]. unfold trim_last.
  destruct (exists_last Hne) as (q & x & Hq). rewrite Hq in Hcl |- *. rewrite last_snoc.
  apply Forall_app in Hcl as [_ Hx]. apply Forall_singleton in Hx as [Hx _]. by destruct x.
Qed.

Section roundtrip.
Context `{RangeOrder}.

Definition entries (h : Heap) : list entry := entries_fuel (Pos.to_nat (next h)) h root [].

Lemma elem_of_all_entries h p v :
  heap_wf h → (p, v) ∈ entries h ↔ v ≠ "" ∧ p ≠ [] ∧ GetString <$> heap_view h p = Some v.
Proof.
  intros Hwf. unfold entries. rewrite elem_of_entries by done. split.
  - intros (Hne & k & r & -> & _ & Hv). done.
  - intros (Hne & Hp & Hv). split; [done|]. destruct p as [|k r]; [done|]. exists k, r. split_and!; [done| |done].
    assert (is_Some (heap_view h (k :: r))) as Hs by (destruct (heap_view h (k :: r)); [by eexists|done]).
    apply ram_view_bounded in Hs; [|done]. cbn in Hs. lia.
Qed.

Lemma entries_clean h :
  heap_wf h → clean h →
  Forall (λ e, lacks newline (line_of e)) (entries h) ∧
  Forall (λ e, lacks "=" (key_of e.1)) (entries h) ∧
  Forall (λ e, keypath (key_of e.1) = e.1) (entries h).
Proof.
  intros Hwf Hcl. rewrite <-!Forall_and. apply Forall_forall. intros [p v] Hin%elem_of_all_entries; [|done].
  destruct Hin as (_ & Hp & Hv). cbn [fst snd].
  destruct (heap_view h p) as [dv|] eqn:Hd; [|done]. injection Hv as Hv.
  pose proof (clean_names h Hcl p dv Hd) as Hseg. pose proof (clean_values h Hcl p dv Hd) as Hval.
  rewrite Hv in Hval. split_and!.
  - unfold line_of. cbn [fst snd]. rewrite app_cons, app_empty_l. apply lacks_app. split.
    + apply lacks_key; [done|]. eapply Forall_impl; [done|]. by intros k (_ & _ & ?).
    + by apply lacks_cons.
  - apply lacks_key; [done|]. eapply Forall_impl; [done|]. by intros k (_ & ? & _).
  - apply keypath_key_of; [done|done|]. apply (ram_view_names h); [done|]. by eexists.
Qed.

(** Loading a dump over a tree whose values all are those of the dumped one. *)
Lemma load_dump h h0 :
  heap_wf h → clean h → heap_wf h0 →
  (∀ p, value_at (heap_view h0) p = NewEmptyDynamicVar
        ∨ value_at (heap_view h0) p = value_at (heap_view h) p) →
  heap_wf (load_text (dumpToString h) h0) ∧
  ∀ p, value_at (heap_view (load_text (dumpToString h) h0)) p = value_at (heap_view h) p.
Proof.
  intros Hwf Hcl Hwf0 Hv0. destruct (entries_clean h Hwf Hcl) as (Hnl & Heq & Hkey).
  unfold dumpToString. rewrite (dump_entries _ h root []) by done.
  fold (entries h). rewrite load_text_of by done. split; [by apply fold_sets_wf|]. intros p.
  assert (value_at (heap_view h) p = NewDynamicVar (GetString (value_at (heap_view h) p))) as Hdv
    by by destruct (value_at (heap_view h) p).
  rewrite Hdv. apply fold_sets_value; [done..| |].
  - intros v' (_ & _ & Hv)%elem_of_all_entries; [|done]. unfold value_at.
    destruct (heap_view h p); [|done]. by injection Hv.
  - rewrite <-Hdv. destruct (decide (value_at (heap_view h) p = NewEmptyDynamicVar)) as [He|Hne].
    + left. rewrite He. destruct (Hv0 p) as [Hv0p|Hv0p]; rewrite Hv0p; done.
    + right. apply elem_of_all_entries; [done|]. unfold value_at in *.
      destruct (heap_view h p) as [dv|] eqn:Hd; cbn in *; [|done]. split_and!; [|intros ->|done].
      * intros He. destruct Hne. by destruct dv; cbn in He; subst.
      * pose proof (clean_root h Hcl) as Hr. unfold value_at in Hr. rewrite Hd in Hr. by apply Hne.
Qed.

(** C24.  Round trip of the database file: starting the storage on the file a
    previous instance dumped gives every path the value it had, provided the
    segments are non-empty and free of ["="] and newline and no value contains
    a newline; the changes flag is clear. *)
Theorem dump_load_roundtrip (r : RamCacheDB) dir ms :
  valid r → clean (mem r) →
  let r' := NewRamCacheDB dir ms (FileText (dumpToString (mem r))) in
  valid r' ∧ pendingChanges r' = false ∧ ∀ p, value_at (view r') p = value_at (view r) p.
Proof.
  intros Hwf Hcl r'. cbn in Hwf.
  destruct (load_dump (mem r) empty_heap Hwf Hcl empty_heap_wf) as [Hwf1 Hv1].
  { intros [|k p]; [by left|left]. done. }
  destruct (load_dump (mem r) (load_text (dumpToString (mem r)) empty_heap) Hwf Hcl Hwf1) as [Hwf2 Hv2].
  { intros p. right. apply Hv1. }
  split_and!; [done|done|]. exact Hv2.
Qed.
End roundtrip.

(** A database that shows a clean reference map is clean. *)
Definition clean_tree (t : tree) : Prop :=
  map_Forall (λ p v, Forall clean_segment p ∧ lacks newline (GetString v)) t ∧
  t !! [] = Some NewEmptyDynamicVar.
#[export] Instance clean_tree_dec t : Decision (clean_tree t).
Proof. unfold clean_tree. apply _. Defined.

Lemma shows_clean `{RangeOrder} (r : RamCacheDB) t : shows r t → clean_tree t → clean (mem r).
Proof.
  intros [_ Hv] [Ht Hroot]. cbn in Hv. split.
  - unfold value_at. by rewrite Hv, Hroot.
  - intros p v Hp. rewrite Hv in Hp. by apply (Ht p v Hp).
  - intros p v Hp. rewrite Hv in Hp. by apply (Ht p v Hp).
Qed.

Definition sample_requests : list request :=
  [ReqSet "vars.home.lamp" (NewDynamicVar "on"); ReqSet "vars.home" (NewDynamicVar "a=b");
   ReqSet "internal.clients.list.count" (NewDynamicVar_int 3); ReqDelete "vars.home.lamp" false].

#[local] Existing Instance canonical_order.

Lemma dump_load_roundtrip_witness :
  let r := (run db_step (NewRamCacheDB "" 0 FileMissing) sample_requests).1 in
  let r' := NewRamCacheDB "" 0 (FileText (dumpToString (mem r))) in
  (valid r ∧ clean (mem r)) ∧
  valid r' ∧ pendingChanges r' = false ∧ ∀ p, value_at (view r') p = value_at (view r) p.
Proof.
  intros r r'.
  destruct (shows_run _ _ sample_requests (empty_ram_shows "" 0)) as [Hs _].
  assert (clean_tree (run ref_step {[ [] := NewEmptyDynamicVar ]} sample_requests).1) as Ht
    by (apply (bool_decide_unpack _); by vm_compute).
  assert (valid r ∧ clean (mem r)) as Hr by (split; [apply Hs|by eapply shows_clean]).
  split; [exact Hr|]. exact (dump_load_roundtrip r "" 0 (proj1 Hr) (proj2 Hr)).
Defined.

(** ** Outside the bounds of the file format *)

(** A value with a newline does not survive the file: it comes back cut at
    the newline, and the rest of it is read as another entry, so a client that
    may set one variable can create any key of the database, internal ones
    included, at the next start. *)
Theorem newline_in_value_injects_key :
  let r := st_Set "vars.a" (NewDynamicVar ("x" +:+ nl +:+ "internal.clients.list.count=9"))
             (NewRamCacheDB "" 0 FileMissing) in
  let r' := NewRamCacheDB "" 0 (FileText (dumpToString (mem r))) in
  st_HasValue "internal.clients.list.count" r = false ∧
  st_Get "vars.a" NewEmptyDynamicVar r' = NewDynamicVar "x" ∧
  st_Get "internal.clients.list.count" NewEmptyDynamicVar r' = NewDynamicVar "9".
Proof. by vm_compute. Qed.

(** ** The background dumper *)

(** The storage, the file on disk, and whether the dumper goroutine still runs. *)
Record disk := mkDisk { d_db : RamCacheDB; d_file : option string; d_dumping : bool }.

(** What may happen: changes and [Finalize] at any time; a tick of the dumper, at
    any time while it runs; its last round, once [stopCh] is closed, after which
    the goroutine is gone.  The writes of these rounds succeed. *)
Inductive disk_step `{RangeOrder} : disk → disk → Prop :=
  | disk_set r f d key v : disk_step (mkDisk r f d) (mkDisk (ram_Set key v r) f d)
  | disk_delete r f d key b : disk_step (mkDisk r f d) (mkDisk (ram_DeleteValue key b r) f d)
  | disk_finalize r f d : disk_step (mkDisk r f d) (mkDisk (ram_Finalize r) f d)
  | disk_tick r f :
      let rf := dumper_round true (r, f) in disk_step (mkDisk r f true) (mkDisk rf.1 rf.2 true)
  | disk_exit r f :
      stopped r = true →
      let rf := dumper_round true (r, f) in disk_step (mkDisk r f true) (mkDisk rf.1 rf.2 false).

Definition on_disk (f : option string) : string := default "" f.
Definition disk_inv `{RangeOrder} (s : disk) : Prop :=
  valid (d_db s) ∧ (pendingChanges (d_db s) = false → on_disk (d_file s) = dumpToString (mem (d_db s))).

Lemma dumper_round_inv `{RangeOrder} r f d :
  disk_inv (mkDisk r f d) →
  let rf := dumper_round true (r, f) in
  valid rf.1 ∧ mem rf.1 = mem r ∧ pendingChanges rf.1 = false ∧ on_disk rf.2 = dumpToString (mem r).
Proof.
  intros [Hwf Hp]. unfold dumper_round. cbn in *. destruct (pendingChanges r) eqn:E; cbn; auto.
Qed.

Lemma disk_start_inv `{RangeOrder} dir ms : disk_inv (mkDisk (NewRamCacheDB dir ms FileMissing) None true).
Proof.
  split; [apply empty_heap_wf|]. intros _. cbn.
  change (dumpToString empty_heap) with (dumpToString_fuel 2 empty_heap root "").
  cbn [dumpToString_fuel]. change (node_childs empty_heap root) with (range (∅ : gmap string loc)).
  by rewrite range_empty.
Qed.

Lemma disk_step_inv `{RangeOrder} s s' : disk_step s s' → disk_inv s → disk_inv s'.
Proof.
  intros Hs. inversion Hs as [r f d key v|r f d key b|r f d|r f rf|r f Hst rf]; subst; intros Hinv.
  - destruct Hinv as [Hwf _]. destruct (ram_Set_mem key v r Hwf) as [_ Hpd].
    split; [exact (Set_valid r key v Hwf)|]. cbn. congruence.
  - destruct Hinv as [Hwf Hp]. split; [exact (Delete_valid r key b Hwf)|]. cbn in *.
    unfold ram_DeleteValue. by destruct (scrollTree key root true (mem r)).1.
  - exact Hinv.
  - destruct (dumper_round_inv r f true Hinv) as (Hv & Hm & _ & Hf). split; [exact Hv|].
    intros _. transitivity (dumpToString (mem r)); [exact Hf|]. symmetry. exact (f_equal dumpToString Hm).
  - destruct (dumper_round_inv r f true Hinv) as (Hv & Hm & _ & Hf). split; [exact Hv|].
    intros _. transitivity (dumpToString (mem r)); [exact Hf|]. symmetry. exact (f_equal dumpToString Hm).
Qed.



(** A failed write is forgotten: the round clears the changes flag even when
    the file could not be written, so no later round retries until the next
    change, and the final round on [stopCh] saves nothing either. *)
Theorem dumper_forgets_failed_write `{RangeOrder} r f :
  pendingChanges r = true →
  let '(r1, f1) := dumper_round false (r, f) in
  f1 = f ∧ mem r1 = mem r ∧ ∀ n, Nat.iter n (dumper_round true) (r1, f1) = (r1, f).
Proof.
  intros Hp. unfold dumper_round at 1. rewrite Hp. cbn. split_and!; [done|done|].
  induction n as [|n IH]; [done|]. unfold Nat.iter in *. cbn [nat_rect]. by rewrite IH.
Qed.

Lemma dumper_forgets_failed_write_witness :
  let r := st_Set "vars.a" (NewDynamicVar "1") (NewRamCacheDB "" 0 FileMissing) in
  pendingChanges r = true ∧
  let '(r1, f1) := dumper_round false (r, None) in
  f1 = None ∧ mem r1 = mem r ∧ ∀ n, Nat.iter n (dumper_round true) (r1, f1) = (r1, None).
Proof.
  intros r. assert (pendingChanges r = true) as Hp by reflexivity.
  split; [exact Hp|]. exact (dumper_forgets_failed_write r None Hp).
Defined.
