(* ===== verification/Parallel.v ===== *)
(** * [ForEachChildsParallel]: the worker pool of [ramcachedb.go]

    The children are collected under the lock; a goroutine feeds them, one by
    one, to a number of workers through an unbuffered channel, closes the
    channel, waits for the workers and closes [done].  [pstep] interleaves the
    feeder and the workers; a call of [f] is under way while its worker is
    [Busy]. *)
From Stdlib Require Import Wf_nat.
From S2P Require Import Prelude GoStrings GoStrconv Misc NamedLock Storage RamCacheDB.

(** ** The pool *)
Abbreviation task := (string * DynamicVar)%type.

(** A worker waits at the channel, runs [f] on a task, or has left its loop. *)
Inductive worker := Idle | Busy (t : task) | Exited.
#[export] Instance worker_eq_dec : EqDecision worker.
Proof. solve_decision. Defined.

Record pool_state := mkPoolState {
  to_feed : list task;
  workers : list worker;
  closed : bool;        (** [taskCh] *)
  calls : list task;    (** the calls of [f] that have returned *)
  done_closed : bool    (** [done] *)
}.

(** [concurrency] is at least one. *)
Definition pool_size (concurrency : Z) : nat := Z.to_nat (if (concurrency <? 1)%Z then 1 else concurrency).

Definition start_pool (tasks : list task) (concurrency : Z) : pool_state :=
  mkPoolState tasks (replicate (pool_size concurrency) Idle) false [] false.

(** Without the node nothing is started, and [done] is closed at once. *)
Definition ForEachChildsParallel `{RangeOrder} (parentName : string) (concurrency : Z) (r : RamCacheDB) : pool_state :=
  match (scrollTree parentName root true (mem r)).1 with
  | None => mkPoolState [] [] true [] true
  | Some _ => start_pool (heap_foreach parentName (mem r)) concurrency
  end.

Inductive pstep : pool_state → pool_state → Prop :=
  | step_feed t ts ws cs i :
      (* the feeder's send meets a worker's receive *)
      ws !! i = Some Idle →
      pstep (mkPoolState (t :: ts) ws false cs false) (mkPoolState ts (<[i := Busy t]> ws) false cs false)
  | step_return ts ws b cs t i :
      ws !! i = Some (Busy t) →
      pstep (mkPoolState ts ws b cs false) (mkPoolState ts (<[i := Idle]> ws) b (cs ++ [t]) false)
  | step_close ws cs :
      pstep (mkPoolState [] ws false cs false) (mkPoolState [] ws true cs false)
  | step_exit ts ws cs i :
      (* the receive of a closed channel ends the loop of the worker *)
      ws !! i = Some Idle →
      pstep (mkPoolState ts ws true cs false) (mkPoolState ts (<[i := Exited]> ws) true cs false)
  | step_done ts ws cs :
      (* [wg.Wait] returns *)
      Forall (λ w, w = Exited) ws →
      pstep (mkPoolState ts ws true cs false) (mkPoolState ts ws true cs true).

(** ** Invariant *)
Definition running (ws : list worker) : list task := omap (λ w, if w is Busy t then Some t else None) ws.

Record pool_inv (tasks : list task) (s : pool_state) : Prop := {
  pi_tasks : calls s ++ running (workers s) ++ to_feed s ≡ₚ tasks;
  pi_closed : closed s = true → to_feed s = [];
  pi_done : done_closed s = true → closed s = true ∧ running (workers s) = [];
  pi_open : closed s = false → Exited ∉ workers s
}.

Lemma running_replicate n : running (replicate n Idle) = [].
Proof. induction n as [|n IH]; [done|exact IH]. Qed.

(** Changing a worker. *)
Lemma running_insert ws i w w' :
  ws !! i = Some w → running [w'] ++ running ws ≡ₚ running [w] ++ running (<[i := w']> ws).
Proof.
  revert i. induction ws as [|x ws IH]; intros i Hi; [done|]. destruct i as [|i].
  - injection Hi as ->. change (running (<[0:=w']> (w :: ws))) with (running ([w'] ++ ws)).
    change (running (w :: ws)) with (running ([w] ++ ws)). unfold running. rewrite !omap_app. solve_Permutation.
  - change (running (<[S i:=w']> (x :: ws))) with (running ([x] ++ <[i:=w']> ws)).
    change (running (x :: ws)) with (running ([x] ++ ws)). specialize (IH i Hi). unfold running in *. rewrite !omap_app.
    rewrite (Permutation_app_swap_app _ (omap _ [x])), IH. by rewrite Permutation_app_swap_app.
Qed.

Ltac split_inv := intros [Ht Hc Hd Ho]; split; cbn [calls workers to_feed closed done_closed] in *.

Lemma pool_inv_step tasks s s' : pstep s s' → pool_inv tasks s → pool_inv tasks s'.
Proof.
  intros Hs. destruct Hs as [t ts ws cs i Hi|ts ws b cs t i Hi|ws cs|ts ws cs i Hi|ts ws cs Hall]; split_inv; try done.
  - pose proof (running_insert ws i Idle (Busy t) Hi) as Hr. cbn in Hr. rewrite <-Ht, <-Hr. solve_Permutation.
  - intros _ [j Hj]%list_elem_of_lookup. apply list_lookup_insert_Some in Hj as [(_ & [=] & _)|[_ Hj]].
    by apply Ho, list_elem_of_lookup_2 with j.
  - pose proof (running_insert ws i (Busy t) Idle Hi) as Hr. cbn in Hr. rewrite <-Ht, Hr. solve_Permutation.
  - intros Hb [j Hj]%list_elem_of_lookup. apply list_lookup_insert_Some in Hj as [(_ & [=] & _)|[_ Hj]].
    by apply (Ho Hb), list_elem_of_lookup_2 with j.
  - pose proof (running_insert ws i Idle Exited Hi) as Hr. cbn in Hr. by rewrite <-Hr.
  - intros _. split; [done|]. clear -Hall. induction Hall as [|w ws -> _ IH]; [done|exact IH].
Qed.

(** ** Termination *)
Definition worker_weight (w : worker) : nat := match w with Idle => 1 | Busy _ => 2 | Exited => 0 end.
Definition weight (s : pool_state) : nat :=
  3 * length (to_feed s) + sum_list (worker_weight <$> workers s) +
  (if closed s then 0 else 1) + (if done_closed s then 0 else 1).

Lemma sum_insert ws i w w' :
  ws !! i = Some w →
  sum_list (worker_weight <$> <[i := w']> ws) + worker_weight w = sum_list (worker_weight <$> ws) + worker_weight w'.
Proof.
  revert i. induction ws as [|x ws IH]; intros [|i] Hi; [done..|injection Hi as ->; cbn; lia|].
  cbn. rewrite <-!Nat.add_assoc. f_equal. exact (IH i Hi).
Qed.

(** Every step does some of the work. *)
Lemma pstep_weight s s' : pstep s s' → weight s' < weight s.
Proof.
  intros Hs. unfold weight.
  destruct Hs as [t ts ws cs i Hi|ts ws b cs t i Hi|ws cs|ts ws cs i Hi|ts ws cs Hall];
    cbn [to_feed workers closed done_closed length]; try lia.
  - pose proof (sum_insert ws i _ (Busy t) Hi) as Hsum. cbn in Hsum. lia.
  - pose proof (sum_insert ws i _ Idle Hi) as Hsum. cbn in Hsum. lia.
  - pose proof (sum_insert ws i _ Exited Hi) as Hsum. cbn in Hsum. lia.
Qed.

Lemma pstep_wf : well_founded (flip pstep).
Proof. apply (well_founded_lt_compat _ weight). intros s s'. apply pstep_weight. Qed.

(** Nobody waits for ever. *)
Lemma pool_progress tasks s :
  pool_inv tasks s → workers s ≠ [] → done_closed s = false → ∃ s', pstep s s'.
Proof.
  destruct s as [ts ws b cs d]. intros [_ Hc _ Ho] Hne Hd. cbn in *. subst d.
  destruct (decide (Exists (λ w, w ≠ Exited) ws)) as [Hex|Hall].
  - apply Exists_exists in Hex as (w & [i Hi]%list_elem_of_In%list_elem_of_In%list_elem_of_lookup & Hw).
    destruct w as [|t|]; [|eexists; by eapply step_return|done].
    destruct b; [eexists; by eapply step_exit|].
    destruct ts as [|t ts]; eexists; [apply step_close|by eapply step_feed].
  - apply not_Exists_Forall in Hall; [|intros w; apply _].
    assert (Forall (λ w, w = Exited) ws) as Hex by (eapply Forall_impl; [exact Hall|]; intros w Hw; by apply dec_stable).
    destruct b; [eexists; by apply step_done|]. exfalso. destruct ws as [|w ws]; [done|].
    apply Forall_cons in Hex as [-> _]. apply (Ho eq_refl). by left.
Qed.

Section theorems.
Context `{RangeOrder}.

Lemma pstep_workers s s' : pstep s s' → length (workers s') = length (workers s).
Proof. intros Hs. destruct Hs; cbn; by rewrite ?length_insert. Qed.

Lemma running_length ws : length (running ws) ≤ length ws.
Proof. induction ws as [|[] ws IH]; cbn; unfold running in *; lia. Qed.

(** C29.  However the feeder and the workers are interleaved, [ForEachChildsParallel]
    comes to an end, with no deadlock on the way and never more calls of [f] at
    once than asked for; and when [done] is closed [f] has returned exactly once
    for every child. *)
Theorem ForEachChildsParallel_completes parentName concurrency r s :
  rtc pstep (ForEachChildsParallel parentName concurrency r) s →
  Acc (flip pstep) s ∧
  length (running (workers s)) ≤ pool_size concurrency ∧
  (done_closed s = false → ∃ s', pstep s s') ∧
  (done_closed s = true → calls s ≡ₚ heap_foreach parentName (mem r)).
Proof.
  intros Hr. split; [apply pstep_wf|].
  unfold ForEachChildsParallel in Hr. destruct (scrollTree parentName root true (mem r)).1 as [item|] eqn:E.
  - set (tasks := heap_foreach parentName (mem r)) in *.
    assert (pool_inv tasks s ∧ length (workers s) = pool_size concurrency) as [Hinv Hlen].
    { remember (start_pool tasks concurrency) as s0 eqn:Hs0.
      assert (pool_inv tasks s0 ∧ length (workers s0) = pool_size concurrency) as H0.
      { subst s0. split; [|by cbn; rewrite length_replicate]. split; cbn; try done; [by rewrite running_replicate|].
        intros _ Hin. by apply elem_of_replicate_inv in Hin. }
      clear Hs0. induction Hr as [s0|s0 s1 s2 Hs _ IH]; [done|]. apply IH. destruct H0 as [Hi Hl].
      split; [by eapply pool_inv_step|by rewrite (pstep_workers _ _ Hs)]. }
    split; [rewrite <-Hlen; apply running_length|]. split.
    + apply (pool_progress tasks s Hinv). intros Hn. rewrite Hn in Hlen. unfold pool_size in Hlen. cbn in Hlen.
      destruct (Z.ltb_spec concurrency 1); lia.
    + intros Hd. destruct (pi_done _ _ Hinv Hd) as [Hc Hw]. pose proof (pi_tasks _ _ Hinv) as Ht.
      by rewrite Hw, (pi_closed _ _ Hinv Hc), !app_nil_r in Ht.
  - assert (s = mkPoolState [] [] true [] true) as ->.
    { inversion Hr as [|? ? ? Hs]; [done|]. inversion Hs. }
    split; [cbn; lia|]. split; [done|]. intros _. unfold heap_foreach. by rewrite E.
Qed.
End theorems.

(** Two workers on three children: a run to its end. *)
Section witness.
Existing Instance canonical_order.

Definition three_children : RamCacheDB :=
  ram_Set "p.c" (NewDynamicVar "3") (ram_Set "p.b" (NewDynamicVar "2") (ram_Set "p.a" (NewDynamicVar "1") (NewRamCacheDB2 FileMissing))).

Lemma ForEachChildsParallel_completes_witness :
  ∃ s, rtc pstep (ForEachChildsParallel "p" 2 three_children) s ∧ done_closed s = true ∧
    calls s ≡ₚ [("p.a", NewDynamicVar "1"); ("p.b", NewDynamicVar "2"); ("p.c", NewDynamicVar "3")].
Proof.
  set (tasks := heap_foreach "p" (mem three_children)).
  assert (∃ t1 t2 t3, tasks = [t1; t2; t3]) as (t1 & t2 & t3 & Ht) by (eexists _, _, _; vm_compute; reflexivity).
  assert (tasks ≡ₚ [("p.a", NewDynamicVar "1"); ("p.b", NewDynamicVar "2"); ("p.c", NewDynamicVar "3")]) as Hp
    by (apply (bool_decide_unpack _); vm_compute; exact I).
  set (s := mkPoolState [] [Exited; Exited] true [t1; t3; t2] true).
  assert (rtc pstep (ForEachChildsParallel "p" 2 three_children) s) as Hr.
  { replace (ForEachChildsParallel "p" 2 three_children) with (start_pool [t1; t2; t3] 2)
      by (rewrite <-Ht; vm_compute; reflexivity).
    eapply rtc_l; [by apply (step_feed t1 _ _ _ 0)|]. eapply rtc_l; [by apply (step_feed t2 _ _ _ 1)|].
    eapply rtc_l; [by apply (step_return _ _ _ _ t1 0)|]. eapply rtc_l; [by apply (step_feed t3 _ _ _ 0)|].
    eapply rtc_l; [by apply step_close|].
    eapply rtc_l; [by apply (step_return _ _ _ _ t3 0)|]. eapply rtc_l; [by apply (step_return _ _ _ _ t2 1)|].
    eapply rtc_l; [by apply (step_exit _ _ _ 0)|]. eapply rtc_l; [by apply (step_exit _ _ _ 1)|].
    eapply rtc_l; [by apply step_done; repeat constructor|]. apply rtc_refl. }
  exists s. split; [exact Hr|]. split; [reflexivity|].
  destruct (ForEachChildsParallel_completes "p" 2 three_children s Hr) as (_ & _ & _ & Hd).
  rewrite (Hd eq_refl). exact Hp.
Defined.
End witness.
