(* ===== verification/Runtime.v ===== *)
(** * Goroutines and their effects

    A handler of the server is a program over a fixed set of effects: the
    methods of [IStorage], the named locks, the clock, [rand], the methods of
    the [IApi] a client is connected through, the controller's table of APIs,
    logging, and [go].  [prog] is the free monad over these effects: a handler
    is translated once, and is given two meanings here.

    - [run] executes one goroutine alone, to its end, with the goroutines it
      spawns queued in [w_tasks].  It is a function, so that a handler can be
      evaluated; [drun] is its restriction to the effects of the database.
    - [pool_step] interleaves any number of goroutines, one effect at a time.

    [run_pool_steps] shows that an execution of [run] is one of [pool_step]. *)
From S2P Require Import Prelude GoStrings GoStrconv Misc NamedLock Storage.

(** ** Effects *)

(** The [(name, metadata, value)] tuples of a notification. *)
Abbreviation payload := (list (string * string * string)).

Inductive op :=
  | Db_Set (name : string) (v : DynamicVar)
  | Db_Get (name : string) (defaultValue : DynamicVar)
  | Db_GetChilds (parentName : string)
  | Db_HasValue (name : string)
  | Db_DeleteValue (name : string) (deleteChildsInACascade : bool)
  | Lock_acquire (name : string) (timeout : Z)
  | Lock_release (name : string)
  | Time_Now
  | Time_Sleep (d : Z)
  | Rand_Intn (n : Z)
  | Api_CheckAlive (api clientId : string)
  | Api_NotifyClient (api clientId : string) (varsAndValues : payload)
  | Apis_lookup (apiId : string)
  | Apis_insert (apiId : string)
  | Log_Error (msg : string)
  | Println (msg : string).

(** What the effect returns.  [Lock_acquire] tells whether the lock was taken
    (no error); times and durations are nanoseconds. *)
Definition answer (o : op) : Type :=
  match o with
  | Db_Get _ _ => DynamicVar
  | Db_GetChilds _ => list string
  | Db_HasValue _ | Lock_acquire _ _ | Api_CheckAlive _ _ | Api_NotifyClient _ _ _ | Apis_lookup _ => bool
  | Time_Now | Rand_Intn _ => Z
  | _ => unit
  end.

(** ** Programs *)
Inductive prog (A : Type) : Type :=
  | Ret (a : A)
  | Vis (o : op) (k : answer o → prog A)
  | Go (t : prog unit) (k : prog A).
Arguments Ret {A} a.
Arguments Vis {A} o k.
Arguments Go {A} t k.

#[export] Instance prog_ret : MRet prog := λ A a, Ret a.

#[export] Instance prog_bind : MBind prog :=
  λ A B f, fix bind (p : prog A) : prog B :=
    match p with
    | Ret a => f a
    | Vis o k => Vis o (λ x, bind (k x))
    | Go t k => Go t (bind k)
    end.

Definition do_ (o : op) : prog (answer o) := Vis o Ret.
Definition go (t : prog unit) : prog unit := Go t (Ret tt).

Definition db_Set (k : string) (v : DynamicVar) : prog unit := do_ (Db_Set k v).
Definition db_Get (k : string) (d : DynamicVar) : prog DynamicVar := do_ (Db_Get k d).
Definition db_GetChilds (k : string) : prog (list string) := do_ (Db_GetChilds k).
Definition db_HasValue (k : string) : prog bool := do_ (Db_HasValue k).
Definition db_DeleteValue (k : string) (b : bool) : prog unit := do_ (Db_DeleteValue k b).

(** [if b { p }] *)
Definition when (b : bool) (p : prog unit) : prog unit := if b then p else mret tt.

(** [for _, x := range l { f(x) }]; [for i := a; i < a + n; i++ { f(i) }], and
    with a variable assigned in the loop; [for i := n - 1; i >= 0; i-- { f(i) }],
    and with a [break] when [f] says so. *)
Fixpoint for_each {X} (l : list X) (f : X → prog unit) : prog unit :=
  match l with
  | [] => mret tt
  | x :: l => f x ;; for_each l f
  end.
Fixpoint for_up (n : nat) (a : Z) (f : Z → prog unit) : prog unit :=
  match n with
  | O => mret tt
  | S n => f a ;; for_up n (a + 1) f
  end.
Fixpoint for_up_acc {X} (n : nat) (a : Z) (f : Z → X → prog X) (x : X) : prog X :=
  match n with
  | O => mret x
  | S n => x ← f a x; for_up_acc n (a + 1) f x
  end.
Fixpoint for_down (n : nat) (f : Z → prog unit) : prog unit :=
  match n with
  | O => mret tt
  | S n => f (Z.of_nat n) ;; for_down n f
  end.

Fixpoint for_down_break (n : nat) (f : Z → prog bool) : prog unit :=
  match n with
  | O => mret tt
  | S n => stop ← f (Z.of_nat n); if stop : bool then mret tt else for_down_break n f
  end.

(** [misc.NamedLockRun]: [None] is the error of the time-out, otherwise what [f]
    assigned to the variables of its caller. *)
Definition NamedLockRun {X} (name : string) (timeout : Z) (f : prog X) : prog (option X) :=
  ok ← do_ (Lock_acquire name timeout);
  if ok : bool then x ← f; do_ (Lock_release name) ;; mret (Some x)
  else mret None.

Definition Millisecond : Z := 1000000.
Definition Second : Z := 1000000000.

(** ** The world of a goroutine *)
Record World (DB : Type) := mkWorld {
  w_db : DB;
  w_locks : locks;
  w_now : Z;
  w_apis : gset string;                       (** keys of [c.apis] *)
  w_sent : list (string * string * payload);  (** what [NotifyClient] delivered *)
  w_calls : nat;                              (** calls answered by the environment *)
  w_log : list string;
  w_out : list string;
  w_tasks : list (prog unit)                  (** goroutines not started yet *)
}.
Arguments mkWorld {DB} _ _ _ _ _ _ _ _ _.
Arguments w_db {DB} _.
Arguments w_locks {DB} _.
Arguments w_now {DB} _.
Arguments w_apis {DB} _.
Arguments w_sent {DB} _.
Arguments w_calls {DB} _.
Arguments w_log {DB} _.
Arguments w_out {DB} _.
Arguments w_tasks {DB} _.

Section updates.
Context {DB : Type}.
Implicit Types w : World DB.
Definition set_db (x : DB) w : World DB :=
  mkWorld x (w_locks w) (w_now w) (w_apis w) (w_sent w) (w_calls w) (w_log w) (w_out w) (w_tasks w).
Definition set_locks (x : locks) w : World DB :=
  mkWorld (w_db w) x (w_now w) (w_apis w) (w_sent w) (w_calls w) (w_log w) (w_out w) (w_tasks w).
Definition set_now (x : Z) w : World DB :=
  mkWorld (w_db w) (w_locks w) x (w_apis w) (w_sent w) (w_calls w) (w_log w) (w_out w) (w_tasks w).
Definition set_apis (x : gset string) w : World DB :=
  mkWorld (w_db w) (w_locks w) (w_now w) x (w_sent w) (w_calls w) (w_log w) (w_out w) (w_tasks w).
Definition set_sent (x : list (string * string * payload)) w : World DB :=
  mkWorld (w_db w) (w_locks w) (w_now w) (w_apis w) x (w_calls w) (w_log w) (w_out w) (w_tasks w).
Definition set_calls (x : nat) w : World DB :=
  mkWorld (w_db w) (w_locks w) (w_now w) (w_apis w) (w_sent w) x (w_log w) (w_out w) (w_tasks w).
Definition set_log (x : list string) w : World DB :=
  mkWorld (w_db w) (w_locks w) (w_now w) (w_apis w) (w_sent w) (w_calls w) x (w_out w) (w_tasks w).
Definition set_out (x : list string) w : World DB :=
  mkWorld (w_db w) (w_locks w) (w_now w) (w_apis w) (w_sent w) (w_calls w) (w_log w) x (w_tasks w).
Definition set_tasks (x : list (prog unit)) w : World DB :=
  mkWorld (w_db w) (w_locks w) (w_now w) (w_apis w) (w_sent w) (w_calls w) (w_log w) (w_out w) x.
End updates.

(** ** One effect *)

(** What the code does not decide, by the number of the call: the answers of the
    network for an API and a client, and of the random generator. *)
Class Environment := {
  env_reachable : nat → string → string → bool;
  env_rand : nat → Z → Z;
  env_rand_bounds : ∀ i n, (0 < n → 0 ≤ env_rand i n < n)%Z
}.

Section semantics.
Context `{!IStorage DB}.
Implicit Types w : World DB.

(** The effect on a world with an idle machine: a lock that is taken stays so,
    a wait with a time-out runs out and one without blocks for ever ([None]). *)
Definition exec `{Environment} (o : op) (w : World DB) : option (answer o * World DB) :=
  match o with
  | Db_Set k v => Some (tt, set_db (st_Set k v (w_db w)) w)
  | Db_Get k d => Some (st_Get k d (w_db w), w)
  | Db_GetChilds k => Some (st_GetChilds k (w_db w), w)
  | Db_HasValue k => Some (st_HasValue k (w_db w), w)
  | Db_DeleteValue k b => Some (tt, set_db (st_DeleteValue k b (w_db w)) w)
  | Lock_acquire name timeout =>
      let L := get_or_create name (w_locks w) in
      match take_token name L with
      | Some L' => Some (true, set_locks L' w)
      | None => if (timeout <=? 0)%Z then None
                else Some (false, set_now (w_now w + timeout)%Z (set_locks L w))
      end
  | Lock_release name => Some (tt, set_locks (releaseNamedLock name (w_locks w)).2 w)
  | Time_Now => Some (w_now w, w)
  | Time_Sleep d => Some (tt, set_now (w_now w + Z.max 0 d)%Z w)
  | Rand_Intn n => Some (env_rand (w_calls w) n, set_calls (S (w_calls w)) w)
  | Api_CheckAlive a c => Some (env_reachable (w_calls w) a c, set_calls (S (w_calls w)) w)
  | Api_NotifyClient a c p =>
      let w' := set_calls (S (w_calls w)) w in
      if env_reachable (w_calls w) a c then Some (true, set_sent (w_sent w ++ [(a, c, p)]) w')
      else Some (false, w')
  | Apis_lookup i => Some (bool_decide (i ∈ w_apis w), w)
  | Apis_insert i => Some (tt, set_apis ({[i]} ∪ w_apis w) w)
  | Log_Error m => Some (tt, set_log (w_log w ++ [m]) w)
  | Println m => Some (tt, set_out (w_out w ++ [m]) w)
  end.

(** The effect among other goroutines: time passes, the network answers as it
    likes, a wait with a time-out may run out, one without waits. *)
Definition op_step (o : op) (w : World DB) : answer o → World DB → Prop :=
  match o with
  | Db_Set k v => λ _ w', w' = set_db (st_Set k v (w_db w)) w
  | Db_Get k d => λ a w', a = st_Get k d (w_db w) ∧ w' = w
  | Db_GetChilds k => λ a w', a = st_GetChilds k (w_db w) ∧ w' = w
  | Db_HasValue k => λ a w', a = st_HasValue k (w_db w) ∧ w' = w
  | Db_DeleteValue k b => λ _ w', w' = set_db (st_DeleteValue k b (w_db w)) w
  | Lock_acquire name timeout => λ a w',
      let L := get_or_create name (w_locks w) in
      if a : bool then ∃ L', take_token name L = Some L' ∧ w' = set_locks L' w
      else (0 < timeout)%Z ∧ ∃ t, (w_now w ≤ t)%Z ∧ w' = set_now t (set_locks L w)
  | Lock_release name => λ _ w', w' = set_locks (releaseNamedLock name (w_locks w)).2 w
  | Time_Now => λ a w', (w_now w ≤ a)%Z ∧ w' = set_now a w
  | Time_Sleep d => λ _ w', ∃ t, (w_now w + d ≤ t ∧ w_now w ≤ t)%Z ∧ w' = set_now t w
  | Rand_Intn n => λ a w', (0 < n → 0 ≤ a < n)%Z ∧ w' = set_calls (S (w_calls w)) w
  | Api_CheckAlive a c => λ _ w', w' = set_calls (S (w_calls w)) w
  | Api_NotifyClient a c p => λ b w',
      w' = if b : bool then set_sent (w_sent w ++ [(a, c, p)]) (set_calls (S (w_calls w)) w)
           else set_calls (S (w_calls w)) w
  | Apis_lookup i => λ a w', a = bool_decide (i ∈ w_apis w) ∧ w' = w
  | Apis_insert i => λ _ w', w' = set_apis ({[i]} ∪ w_apis w) w
  | Log_Error m => λ _ w', w' = set_log (w_log w ++ [m]) w
  | Println m => λ _ w', w' = set_out (w_out w ++ [m]) w
  end.

(** ** One goroutine alone *)
Fixpoint run `{Environment} {A} (p : prog A) (w : World DB) : option (A * World DB) :=
  match p with
  | Ret a => Some (a, w)
  | Vis o k => match exec o w with Some (x, w) => run (k x) w | None => None end
  | Go t k => run k (set_tasks (w_tasks w ++ [t]) w)
  end.

(** The queue of goroutines: each runs to its end, those it spawns come last. *)
Fixpoint run_tasks `{Environment} (fuel : nat) (w : World DB) : option (World DB) :=
  match w_tasks w with
  | [] => Some w
  | t :: ts =>
      match fuel with
      | O => None
      | S fuel => match run t (set_tasks ts w) with Some (_, w) => run_tasks fuel w | None => None end
      end
  end.

(** ** Interleaved goroutines *)
Record pool := mkPool { p_world : World DB; p_threads : list (prog unit) }.

(** Goroutine [i] performs its next effect, or spawns a goroutine. *)
Inductive pool_step : pool → pool → Prop :=
  | pool_op w w' ts i o k a :
      ts !! i = Some (Vis o k) → op_step o w a w' →
      pool_step (mkPool w ts) (mkPool w' (<[i := k a]> ts))
  | pool_go w ts i t k :
      ts !! i = Some (Go t k) →
      pool_step (mkPool w ts) (mkPool w (<[i := k]> ts ++ [t])).
End semantics.
Arguments pool DB : clear implicits.

(** ** Database programs *)

(** [run] of a program whose effects are all on the database, or read the clock
    (which stands still meanwhile). *)
Section database.
Context `{!IStorage DB}.

Fixpoint drun {A} (now : Z) (p : prog A) (db : DB) : option (A * DB) :=
  match p with
  | Ret a => Some (a, db)
  | Vis (Db_Set k v) f => drun now (f tt) (st_Set k v db)
  | Vis (Db_Get k d) f => drun now (f (st_Get k d db)) db
  | Vis (Db_GetChilds k) f => drun now (f (st_GetChilds k db)) db
  | Vis (Db_HasValue k) f => drun now (f (st_HasValue k db)) db
  | Vis (Db_DeleteValue k b) f => drun now (f tt) (st_DeleteValue k b db)
  | Vis Time_Now f => drun now (f now) db
  | _ => None
  end.

Lemma drun_ret {A} {now} (a : A) db : drun now (mret a) db = Some (a, db).
Proof. done. Qed.
Lemma drun_get {A} {now} k d (f : DynamicVar → prog A) db :
  drun now (db_Get k d ≫= f) db = drun now (f (st_Get k d db)) db.
Proof. done. Qed.
Lemma drun_set {A} {now} k v (f : unit → prog A) db :
  drun now (db_Set k v ≫= f) db = drun now (f tt) (st_Set k v db).
Proof. done. Qed.
Lemma drun_delete {A} {now} k b (f : unit → prog A) db :
  drun now (db_DeleteValue k b ≫= f) db = drun now (f tt) (st_DeleteValue k b db).
Proof. done. Qed.
Lemma drun_has {A} {now} k (f : bool → prog A) db :
  drun now (db_HasValue k ≫= f) db = drun now (f (st_HasValue k db)) db.
Proof. done. Qed.
Lemma drun_childs {A} {now} k (f : list string → prog A) db :
  drun now (db_GetChilds k ≫= f) db = drun now (f (st_GetChilds k db)) db.
Proof. done. Qed.

Lemma drun_bind {A B} {now} (p : prog A) (f : A → prog B) db :
  drun now (p ≫= f) db = match drun now p db with Some (a, db') => drun now (f a) db' | None => None end.
Proof.
  revert db. induction p as [? a|? o k IH|? t _ k IH]; intros db; [done| |done].
  destruct o; cbn; try done; apply IH.
Qed.

Context `{Environment}.

Lemma run_bind {A B} (p : prog A) (f : A → prog B) (w : World DB) :
  run (p ≫= f) w = match run p w with Some (a, w') => run (f a) w' | None => None end.
Proof.
  revert w. induction p as [? a|? o k IH|? t _ k IH]; intros w; [done| |apply IH].
  cbn. destruct (exec o w) as [[x w']|]; [apply IH|done].
Qed.

Lemma run_bind_eq {A B} (p : prog A) (f : A → prog B) (w w' : World DB) a :
  run p w = Some (a, w') → run (p ≫= f) w = run (f a) w'.
Proof. intros Hp. by rewrite run_bind, Hp. Qed.

Lemma drun_bind_eq {A B} {now} (p : prog A) (f : A → prog B) db db' a :
  drun now p db = Some (a, db') → drun now (p ≫= f) db = drun now (f a) db'.
Proof. intros Hp. by rewrite drun_bind, Hp. Qed.

Lemma set_db_set_db db db' (w : World DB) : set_db db (set_db db' w) = set_db db w.
Proof. done. Qed.
Lemma set_db_self (w : World DB) : set_db (w_db w) w = w.
Proof. by destruct w. Qed.

(** A database program runs in any world, and changes nothing else in it. *)
Lemma run_drun {A} (p : prog A) (w : World DB) a db' :
  drun (w_now w) p (w_db w) = Some (a, db') → run p w = Some (a, set_db db' w).
Proof.
  revert w. induction p as [? x|? o k IH|? t _ k IH]; intros w; cbn.
  - intros [= -> <-]. by rewrite set_db_self.
  - destruct o; cbn; try done; intros Hr; first
      [exact (IH _ _ w Hr)|exact (IH tt _ (set_db _ w) Hr)].
  - done.
Qed.

(** ** Named locks, one goroutine *)

(** No lock is held. *)
Definition quiet (w : World DB) : Prop := ∀ name, w_locks w !! name ≠ Some false.

(** [w'] is [w] with another database, and no lock held. *)
Record evolves (w w' : World DB) (db' : DB) : Prop := {
  evolves_eq : w' = set_locks (w_locks w') (set_db db' w);
  evolves_quiet : quiet w'
}.

Lemma evolves_refl w : quiet w → evolves w w (w_db w).
Proof. intros Hq. split; [by destruct w|done]. Qed.

Lemma evolves_db w w' db' : evolves w w' db' → w_db w' = db'.
Proof. intros [-> _]. done. Qed.

Lemma evolves_trans w w1 w2 db1 db2 : evolves w w1 db1 → evolves w1 w2 db2 → evolves w w2 db2.
Proof. intros [H1 _] [H2 Hq]. split; [|done]. rewrite H2, H1. done. Qed.

Lemma evolves_drun {A} (p : prog A) w a db' :
  quiet w → drun (w_now w) p (w_db w) = Some (a, db') →
  ∃ w', run p w = Some (a, w') ∧ evolves w w' db'.
Proof.
  intros Hq Hp. eexists. split; [by apply run_drun|]. split; [by destruct w|exact Hq].
Qed.

Lemma run_acquire_free name timeout w :
  quiet w → exec (Lock_acquire name timeout) w = Some (true, set_locks (<[name:=false]> (w_locks w)) w).
Proof.
  intros Hq. cbn. unfold get_or_create, take_token. specialize (Hq name).
  destruct (w_locks w !! name) as [[]|] eqn:HL; [by rewrite HL|done|].
  by rewrite lookup_insert_eq, insert_insert_eq.
Qed.

(** A database program under a free lock runs, and the lock is free again. *)
Lemma run_locked {X} name timeout (f : prog X) w x db' :
  quiet w → drun (w_now w) f (w_db w) = Some (x, db') →
  ∃ w', run (NamedLockRun name timeout f) w = Some (Some x, w') ∧ evolves w w' db'.
Proof.
  intros Hq Hf. unfold NamedLockRun. rewrite run_bind. unfold do_ at 1. cbn [run].
  rewrite (run_acquire_free name timeout w Hq). cbn [run]. rewrite run_bind.
  rewrite (run_drun f (set_locks (<[name:=false]> (w_locks w)) w) x db' Hf). cbn.
  unfold releaseNamedLock. rewrite lookup_insert_eq. cbn. rewrite insert_insert_eq.
  eexists. split; [done|]. split; [done|]. intros n. cbn. rewrite lookup_insert.
  case_decide; [done|apply Hq].
Qed.
End database.

(** ** [run] is one of the interleavings *)
Section adequacy.
Context `{!IStorage DB} `{Environment}.

Lemma exec_op_step (o : op) (w w' : World DB) a : exec o w = Some (a, w') → op_step o w a w'.
Proof.
  destruct o; cbn; intros He; try (injection He as <- <-; auto; fail).
  - destruct (take_token name (get_or_create name (w_locks w))) as [L'|] eqn:E.
    + injection He as <- <-. by eexists.
    + destruct (Z.leb_spec timeout 0) as [|Hto]; [done|]. injection He as <- <-.
      split; [done|]. exists (w_now w + timeout)%Z. split; [lia|done].
  - injection He as <- <-. split; [lia|by destruct w].
  - injection He as <- <-. eexists. split; [|done]. lia.
  - injection He as <- <-. split; [|done]. by apply env_rand_bounds.
  - destruct (env_reachable (w_calls w) api clientId); by injection He as <- <-.
Qed.

(** What a goroutine does alone it may do among others, before it goes on with
    [f]: [run] is replayed as steps of goroutine [i]; the goroutines it spawns
    wait at the end of the pool. *)
Lemma run_steps {i : nat} {A} (p : prog A) (f : A → prog unit) (w w' : World DB) a ts :
  ts !! i = Some (p ≫= f) → run p w = Some (a, w') →
  ∃ new, w_tasks w' = w_tasks w ++ new ∧
    rtc pool_step (mkPool (set_tasks [] w) ts) (mkPool (set_tasks [] w') (<[i := f a]> ts ++ new)).
Proof.
  revert f w ts. induction p as [? x|? o k IH|? t _ k IH]; intros f w ts Hi; cbn [run].
  - intros [= -> ->]. exists []. rewrite !app_nil_r. split; [done|]. by rewrite list_insert_id.
  - destruct (exec o w) as [[x w1]|] eqn:He; [|done]. intros Hr.
    assert (w_tasks w1 = w_tasks w ∧ exec o (set_tasks [] w) = Some (x, set_tasks [] w1)) as [Ht He'].
    { clear -He. destruct o; cbn in *; repeat case_match; simplify_eq; done. }
    destruct (IH x a f w1 (<[i := k x ≫= f]> ts)) as (new & Hnew & Hs); [|done|].
    { apply list_lookup_insert_eq. by eapply lookup_lt_Some. }
    rewrite list_insert_insert_eq in Hs. exists new. rewrite Hnew, Ht. split; [done|].
    eapply rtc_l; [|exact Hs]. apply (pool_op _ _ _ _ o (λ x, k x ≫= f)); [exact Hi|]. by apply exec_op_step.
  - intros Hr. assert (i < length ts) as Hlt by (by eapply lookup_lt_Some).
    destruct (IH a f (set_tasks (w_tasks w ++ [t]) w) (<[i := k ≫= f]> ts ++ [t])) as (new & Hnew & Hs); [|done|].
    { rewrite lookup_app_l by (by rewrite length_insert). by apply list_lookup_insert_eq. }
    exists (t :: new). cbn in Hnew. rewrite Hnew, <-app_assoc. split; [done|].
    rewrite insert_app_l, list_insert_insert_eq, <-app_assoc in Hs by (by rewrite length_insert).
    eapply rtc_l; [by apply (pool_go _ _ i t (k ≫= f))|]. exact Hs.
Qed.

(** The same where nothing was queued before. *)
Lemma run_pool_steps {i : nat} {A} (p : prog A) (f : A → prog unit) (w w' : World DB) a ts :
  ts !! i = Some (p ≫= f) → w_tasks w = [] → run p w = Some (a, w') →
  rtc pool_step (mkPool w ts) (mkPool (set_tasks [] w') (<[i := f a]> ts ++ w_tasks w')).
Proof.
  intros Hi Hw Hr. destruct (run_steps p f w w' a ts Hi Hr) as (new & Hnew & Hs).
  rewrite Hnew, Hw. replace w with (set_tasks [] w) at 1 by (by destruct w; cbn in *; subst). exact Hs.
Qed.

Lemma run_alone_steps {i : nat} {A} (p : prog A) (f : A → prog unit) (w w' : World DB) a ts :
  ts !! i = Some (p ≫= f) → w_tasks w = [] → run p w = Some (a, w') → w_tasks w' = [] →
  rtc pool_step (mkPool w ts) (mkPool w' (<[i := f a]> ts)).
Proof.
  intros Hi Hw Hr Hw'. pose proof (run_pool_steps p f w w' a ts Hi Hw Hr) as Hs. rewrite Hw', app_nil_r in Hs.
  replace w' with (set_tasks [] w') by (by destruct w'; cbn in *; subst). exact Hs.
Qed.
End adequacy.
