(* ===== verification/VarHelper.v ===== *)
(** * The variable helper ([sources/controller/controller_varhelper.go])

    [ControllerVarHelper] keeps everything the server knows about a variable in
    the database, under the name of the variable: its value, its flags (the lock
    among them) and its observations, an array of [(clientId, metadata)] entries
    with its length in [list.count], and an index [byId].

    The definitions are the programs of the methods.  The theorems say that the
    array part is a list with the operations of one, whatever the database
    holds elsewhere. *)
From S2P Require Import Prelude GoStrings GoStrconv Misc NamedLock Storage Runtime.

(** ** Definitions *)
Record ControllerVarHelper := mkVH { vh_name : string; vh_raw : bool }.

Definition NewControllerVarHelper (allowRawDbAccess : bool) : ControllerVarHelper := mkVH "" allowRawDbAccess.

Definition SetControlledVarName (vname : string) (c : ControllerVarHelper) : ControllerVarHelper :=
  if vh_raw c then mkVH vname (vh_raw c)
  else if HasPrefix vname "vars." then mkVH vname (vh_raw c)
  else mkVH ("vars." +:+ vname) (vh_raw c).

(** The helper every handler of the controller builds. *)
Definition var_helper (raw : bool) (vname : string) : ControllerVarHelper :=
  SetControlledVarName vname (NewControllerVarHelper raw).

(** Keys of the entries below a name. *)
Definition key_count (name : string) : string := name +:+ "._observers.list.count".
Definition key_clientId (name : string) (i : Z) : string := name +:+ "._observers.list." +:+ Itoa i +:+ ".clientId".
Definition key_metadata (name : string) (i : Z) : string := name +:+ "._observers.list." +:+ Itoa i +:+ ".metadata".
Definition key_entry (name : string) (i : Z) : string := name +:+ "._observers.list." +:+ Itoa i.
Definition key_byId (name clientID : string) : string := name +:+ "._observers.byId." +:+ clientID.
Definition key_byMetadata (name clientID metadata : string) : string :=
  name +:+ "._observers.byId." +:+ clientID +:+ ".byMetadata." +:+ metadata.

Definition runLocked {X} (c : ControllerVarHelper) (f : prog X) : prog (option X) :=
  NamedLockRun (vh_name c +:+ "._observationLock") (10 * Second) f.

(** [int(tmp.GetInt64())] of the count *)
Definition read_count (name : string) : prog Z :=
  tmp ← db_Get (key_count name) (NewDynamicVar_int 0); mret (GetInt64 tmp).
(** the two [Get]s of an entry *)
Definition read_entry (name : string) (i : Z) : prog (string * string) :=
  t1 ← db_Get (key_clientId name i) (NewDynamicVar "");
  t2 ← db_Get (key_metadata name i) (NewDynamicVar "");
  mret (GetString t1, GetString t2).

Definition RegisterObservation (c : ControllerVarHelper) (clientID metadata : string) : prog string :=
  let name := vh_name c in
  obsID ← runLocked c (
    cnt ← read_count name;
    db_Set (key_clientId name cnt) (NewDynamicVar clientID) ;;
    db_Set (key_metadata name cnt) (NewDynamicVar metadata) ;;
    db_Set (key_byMetadata name clientID metadata) (NewDynamicVar_int cnt) ;;
    db_Set (key_count name) (NewDynamicVar_int (wrap64 (cnt + 1))) ;;
    mret (Itoa cnt));
  mret (default "" obsID).

(** The observations as the map from [ObservationID] to [(clientId, metadata)]. *)
Definition GetAllObservingClients (c : ControllerVarHelper) : prog (gmap string (string * string)) :=
  let name := vh_name c in
  res ← runLocked c (
    cnt ← read_count name;
    for_up_acc (Z.to_nat cnt) 0 (λ i (res : gmap string (string * string)),
      e ← read_entry name i;
      mret (if decide (e.1 ≠ "") then <[Itoa i := e]> res else res)) ∅);
  mret (default ∅ res).

(** One position [i] of the search of [internalRemoveObserving]: [true] is the
    [break] after a match. *)
Definition remove_at (name clientID metadata : string) (actualCount i : Z) : prog bool :=
  e ← read_entry name i;
  if decide (e = (clientID, metadata)) then
    for_up (Z.to_nat (wrap64 (actualCount - 1) - i)) i (λ j,
      next ← read_entry name (wrap64 (j + 1));
      db_Set (key_clientId name j) (NewDynamicVar next.1) ;;
      db_Set (key_metadata name j) (NewDynamicVar next.2) ;;
      db_Set (key_byMetadata name next.1 next.2) (NewDynamicVar_int j)) ;;
    db_DeleteValue (key_entry name (wrap64 (actualCount - 1))) true ;;
    db_Set (key_count name) (NewDynamicVar_int (wrap64 (actualCount - 1))) ;;
    db_DeleteValue (key_byId name clientID) true ;;
    mret true
  else mret false.

Definition internalRemoveObserving (c : ControllerVarHelper) (clientID metadata : string) : prog unit :=
  actualCount ← read_count (vh_name c);
  for_down_break (Z.to_nat actualCount) (remove_at (vh_name c) clientID metadata actualCount).

Definition RemoveObservationByClientAndMetadata (c : ControllerVarHelper) (clientID metadata : string) : prog unit :=
  runLocked c (internalRemoveObserving c clientID metadata) ;; mret tt.

Definition RemoveObservationById (c : ControllerVarHelper) (obsID : string) : prog unit :=
  match Atoi obsID with
  | None => mret tt
  | Some idx =>
      e ← read_entry (vh_name c) idx;
      if decide (e = ("", "")) then mret tt
      else RemoveObservationByClientAndMetadata c e.1 e.2
  end.

Definition RemoveAllClientObservations (c : ControllerVarHelper) (clientID : string) : prog unit :=
  runLocked c (
    cnt ← read_count (vh_name c);
    for_down (Z.to_nat cnt) (λ i,
      e ← read_entry (vh_name c) i;
      if decide (e.1 = clientID) then internalRemoveObserving c e.1 e.2 else mret tt)) ;;
  mret tt.

Definition GetAllObservations (c : ControllerVarHelper) : prog (gmap string (string * string)) :=
  GetAllObservingClients c.

Definition RemoveAllObservations (c : ControllerVarHelper) : prog unit :=
  runLocked c (
    db_DeleteValue (vh_name c +:+ "._observers") true ;;
    db_Set (key_count (vh_name c)) (NewDynamicVar_int 0)) ;;
  mret tt.

(** [curr[strings.Index(curr, ".")+1:]] of the children that contain a dot *)
Definition after_dot (curr : string) : option string :=
  if Contains curr "." then Some (curr.[S (default 0 (Index curr ".")):]) else None.
Definition GetMetadatasOfAClient (c : ControllerVarHelper) (clientID : string) : prog (list string) :=
  childs ← db_GetChilds (key_byId (vh_name c) clientID +:+ ".byMetadata");
  mret (omap (M:=list) after_dot childs).

Definition GetValue (c : ControllerVarHelper) : prog DynamicVar := db_Get (vh_name c) (NewDynamicVar "").

Definition SetValue (c : ControllerVarHelper) (v : DynamicVar) : prog unit :=
  if Contains (vh_name c) "*" then mret tt else db_Set (vh_name c) v.

(** The children a client may see. *)
Definition visible_child (raw : bool) (ch : string) : bool :=
  match ch with
  | "" => false
  | String a _ => raw || negb (bool_decide (a = "_"%char))
  end.
Definition GetChildNames (c : ControllerVarHelper) : prog (list string) :=
  childs ← db_GetChilds (vh_name c);
  mret (filter (λ ch, visible_child (vh_raw c) ch = true) childs).

Definition GetParentName (c : ControllerVarHelper) : string :=
  match LastIndexByte (vh_name c) dot with
  | Some indx => (vh_name c).[:indx]
  | None => ""
  end.

(** [flagName] with its underscore; [None] when it is empty. *)
Definition flag_key (flagName : string) : option string :=
  match flagName with
  | "" => None
  | String a _ => Some (if decide (a = "_"%char) then flagName else "_" +:+ flagName)
  end.
Definition SetFlag (c : ControllerVarHelper) (flagName : string) (value : DynamicVar) : prog unit :=
  match flag_key flagName with
  | None => mret tt
  | Some flagName => db_Set (vh_name c +:+ "." +:+ flagName) value
  end.
Definition GetFlag (c : ControllerVarHelper) (flagName : string) (defaultValue : DynamicVar) : prog DynamicVar :=
  match flag_key flagName with
  | None => mret defaultValue
  | Some flagName => db_Get (vh_name c +:+ "." +:+ flagName) defaultValue
  end.

Definition IsLocked (c : ControllerVarHelper) : prog bool :=
  t ← GetFlag c "lock" (NewDynamicVar "0");
  mret (negb (bool_decide (GetString t = "0")) && negb (bool_decide (GetString t = ""))).

(** The critical section of [Lock]. *)
Definition tryLock (c : ControllerVarHelper) : prog bool :=
  r ← NamedLockRun "varLockerSystem" 0 (
    b ← IsLocked c;
    if b : bool then mret false
    else SetFlag c "lock" (NewDynamicVar "1") ;; IsLocked c);
  mret (default false r).

(** [waitTimeout_ms] as a duration; [0] means 30 seconds. *)
Definition lock_timeout (waitTimeout_ms : Z) : Z :=
  let maxTimeout := wrap64 (wrap64 waitTimeout_ms * Millisecond) in
  if decide (maxTimeout = 0%Z) then (30 * Second)%Z else maxTimeout.

(** The retry loop; [None] when the fuel runs out. *)
Fixpoint Lock_loop (fuel : nat) (c : ControllerVarHelper) (start maxTimeout : Z) : prog (option (result string unit)) :=
  match fuel with
  | O => mret None
  | S fuel =>
      ok ← tryLock c;
      if ok : bool then mret (Some (Ok ()))
      else
        now ← do_ Time_Now;
        if (maxTimeout <=? now - start)%Z then mret (Some (Err "timeout reached"))
        else
          r ← do_ (Rand_Intn 9);
          do_ (Time_Sleep ((1 + r) * Millisecond)%Z) ;;
          Lock_loop fuel c start maxTimeout
  end.

(** A round sleeps for a millisecond at least. *)
Definition lock_fuel (maxTimeout : Z) : nat := Z.to_nat (maxTimeout / Millisecond) + 2.

Definition Lock (c : ControllerVarHelper) (waitTimeout_ms : Z) : prog (option (result string unit)) :=
  let maxTimeout := lock_timeout waitTimeout_ms in
  start ← do_ Time_Now;
  Lock_loop (lock_fuel maxTimeout) c start maxTimeout.

Definition Unlock (c : ControllerVarHelper) : prog (result string unit) :=
  NamedLockRun "varLockerSystem" 0 (SetFlag c "lock" (NewDynamicVar "0")) ;; mret (Ok ()).

Definition IsClientObserving (c : ControllerVarHelper) (clientId metadata : string) : prog bool :=
  db_HasValue (key_byMetadata (vh_name c) clientId metadata).

(** [f] gets the observations in the order of [range]. *)
Definition ForeachObservation `{RangeOrder} (c : ControllerVarHelper) (f : string → string → string → prog unit) : prog unit :=
  obs ← GetAllObservingClients c;
  for_each (range obs) (λ '(id, tup), f id tup.1 tup.2).

Definition vh_DeleteValue (c : ControllerVarHelper) : prog unit :=
  do_ (Println ("Deleting var: " +:+ vh_name c)) ;;
  db_DeleteValue (vh_name c) false.
