(* ===== verification/Samples.v ===== *)
(** * Sample worlds

    Concrete databases and environments on which the witnesses evaluate the
    theorems of the other files. *)
From S2P Require Import Prelude GoStrings GoStrconv Misc NamedLock Storage RamCacheDB Reference Runtime.

(** Every client answers; [rand] yields [0]. *)
Definition online : Environment.
Proof. refine {| env_reachable _ _ _ := true; env_rand _ _ := 0%Z |}. intros _ n Hn. lia. Defined.

(** No client answers. *)
Definition offline : Environment.
Proof. refine {| env_reachable _ _ _ := false; env_rand _ _ := 0%Z |}. intros _ n Hn. lia. Defined.

(** A server that has just started on an empty disk, a second after the epoch. *)
Definition fresh_db : RamCacheDB := NewRamCacheDB "" 0 FileMissing.
Definition world_of (db : RamCacheDB) : World RamCacheDB :=
  mkWorld db ∅ 1000000000 {["VSTP"]} [] 0 [] [] [].
Definition fresh_world : World RamCacheDB := world_of fresh_db.

Lemma quiet_world_of db : quiet (world_of db).
Proof. intros name. cbn. by rewrite lookup_empty. Qed.

Section samples.
Existing Instance canonical_order.

Lemma fresh_valid : valid fresh_db.
Proof. apply empty_heap_wf. Qed.

Lemma fresh_view p : view fresh_db p = if decide (p = []) then Some NewEmptyDynamicVar else None.
Proof. by destruct p as [|k p]. Qed.

Lemma fresh_val p : val fresh_db p = NewEmptyDynamicVar.
Proof. unfold val, value_at. rewrite fresh_view. by case_decide. Qed.
End samples.
