(* ===== verification/Namer.v ===== *)
(** * Random names ([sources/misc/namer.go])

    Names are drawn word by word with [rand.Intn]; the word lists are the
    source's.  The connection ids the VSTP server suggests come from
    [CreateFunName]; the other two functions are called nowhere. *)
From S2P Require Import Prelude GoStrings GoStrconv Misc NamedLock Storage Runtime Samples.

Definition names : list string := [
  "James"; "John"; "Robert"; "Michael"; "William"; "David"; "Richard"; "Charles"; "Joseph"; "Thomas";
  "Christopher"; "Daniel"; "Paul"; "Mark"; "Donald"; "George"; "Kenneth"; "Steven"; "Edward"; "Brian";
  "Ronald"; "Anthony"; "Kevin"; "Jason"; "Matthew"; "Gary"; "Timothy"; "Jose"; "Larry"; "Jeffrey"; "Frank";
  "Scott"; "Eric"; "Stephen"; "Andrew"; "Raymond"; "Gregory"; "Joshua"; "Jerry"; "Dennis"; "Walter";
  "Patrick"; "Peter"; "Harold"; "Douglas"; "Henry"; "Carl"; "Arthur"; "Ryan"; "Roger"; "Joe"; "Juan";
  "Jack"; "Albert"; "Jonathan"; "Justin"; "Terry"; "Gerald"; "Keith"; "Samuel"; "Willie"; "Ralph";
  "Lawrence"; "Nicholas"; "Roy"; "Benjamin"; "Bruce"; "Brandon"; "Adam"; "Harry"; "Fred"; "Wayne"; "Billy";
  "Steve"; "Louis"; "Jeremy"; "Aaron"; "Randy"; "Howard"; "Eugene"; "Carlos"; "Russell"; "Bobby"; "Victor";
  "Martin"; "Ernest"; "Phillip"; "Todd"; "Jesse"; "Craig"; "Alan"; "Shawn"; "Clarence"; "Sean"; "Philip";
  "Chris"; "Johnny"; "Earl"; "Jimmy"; "Antonio"; "Danny"; "Bryan"; "Tony"; "Luis"; "Mike"; "Stanley";
  "Leonard"; "Nathan"; "Dale"; "Manuel"; "Rodney"; "Curtis"; "Norman"; "Allen"; "Marvin"; "Vincent";
  "Glenn"; "Jeffery"; "Travis"; "Jeff"; "Chad"; "Jacob"; "Lee"; "Melvin"; "Alfred"; "Kyle"; "Francis";
  "Bradley"; "Jesus"; "Herbert"; "Frederick"; "Ray"; "Joel"; "Edwin"; "Don"; "Eddie"; "Ricky"; "Troy";
  "Randall"; "Barry"; "Alexander"; "Bernard"; "Mario"; "Leroy"; "Francisco"; "Marcus"; "Micheal";
  "Theodore"; "Clifford"; "Miguel"; "Oscar"; "Jay"; "Jim"; "Tom"; "Calvin"; "Alex"; "Jon"; "Ronnie"; "Bill";
  "Lloyd"; "Tommy"; "Leon"; "Derek"; "Warren"; "Darrell"; "Jerome"; "Floyd"; "Leo"; "Alvin"; "Tim";
  "Wesley"; "Gordon"; "Dean"; "Greg"; "Jorge"; "Dustin"; "Pedro"; "Derrick"; "Dan"; "Lewis"; "Zachary";
  "Corey"; "Herman"; "Maurice"; "Vernon"; "Roberto"; "Clyde"; "Glen"; "Hector"; "Shane"; "Ricardo"; "Sam";
  "Rick"; "Lester"; "Brent"; "Ramon"; "Charlie"; "Tyler"; "Gilbert"; "Gene"; "Marc"; "Reginald"; "Ruben";
  "Brett"; "Angel"; "Nathaniel"; "Rafael"; "Leslie"; "Edgar"; "Milton"; "Raul"; "Ben"; "Chester"; "Cecil";
  "Duane"; "Franklin"; "Andre"; "Elmer"; "Brad"; "Gabriel"; "Ron"; "Mitchell"; "Roland"; "Arnold"; "Harvey";
  "Jared"; "Adrian"; "Karl"; "Cory"; "Claude"; "Erik"; "Darryl"; "Jamie"; "Neil"; "Jessie"; "Christian";
  "Javier"; "Fernando"; "Clinton"; "Ted"; "Mathew"; "Tyrone"; "Darren"; "Lonnie"; "Lance"; "Cody"; "Julio";
  "Kelly"; "Kurt"; "Allan"; "Nelson"; "Guy"; "Clayton"; "Hugh"; "Max"; "Dwayne"; "Dwight"; "Armando";
  "Felix"; "Jimmie"; "Everett"; "Jordan"; "Ian"; "Wallace"; "Ken"; "Bob"; "Jaime"; "Casey"; "Alfredo";
  "Alberto"; "Dave"; "Ivan"; "Johnnie"; "Sidney"; "Byron"; "Julian"; "Isaac"; "Morris"; "Clifton";
  "Willard"; "Daryl"; "Ross"; "Virgil"; "Andy"; "Marshall"; "Salvador"; "Perry"; "Kirk"; "Sergio"; "Marion";
  "Tracy"; "Seth"; "Kent"; "Terrance"; "Rene"; "Eduardo"; "Terrence"; "Enrique"; "Freddie"; "Wade"; "Mary";
  "Patricia"; "Linda"; "Barbara"; "Elizabeth"; "Jennifer"; "Maria"; "Susan"; "Margaret"; "Dorothy"; "Lisa";
  "Nancy"; "Karen"; "Betty"; "Helen"; "Sandra"; "Donna"; "Carol"; "Ruth"; "Sharon"; "Michelle"; "Laura";
  "Sarah"; "Kimberly"; "Deborah"; "Jessica"; "Shirley"; "Cynthia"; "Angela"; "Melissa"; "Brenda"; "Amy";
  "Anna"; "Rebecca"; "Virginia"; "Kathleen"; "Pamela"; "Martha"; "Debra"; "Amanda"; "Stephanie"; "Carolyn";
  "Christine"; "Marie"; "Janet"; "Catherine"; "Frances"; "Ann"; "Joyce"; "Diane"; "Alice"; "Julie";
  "Heather"; "Teresa"; "Doris"; "Gloria"; "Evelyn"; "Jean"; "Cheryl"; "Mildred"; "Katherine"; "Joan";
  "Ashley"; "Judith"; "Rose"; "Janice"; "Kelly"; "Nicole"; "Judy"; "Christina"; "Kathy"; "Theresa";
  "Beverly"; "Denise"; "Tammy"; "Irene"; "Jane"; "Lori"; "Rachel"; "Marilyn"; "Andrea"; "Kathryn"; "Louise";
  "Sara"; "Anne"; "Jacqueline"; "Wanda"; "Bonnie"; "Julia"; "Ruby"; "Lois"; "Tina"; "Phyllis"; "Norma";
  "Paula"; "Diana"; "Annie"; "Lillian"; "Emily"; "Robin"; "Peggy"; "Crystal"; "Gladys"; "Rita"; "Dawn";
  "Connie"; "Florence"; "Tracy"; "Edna"; "Tiffany"; "Carmen"; "Rosa"; "Cindy"; "Grace"; "Wendy"; "Victoria";
  "Edith"; "Kim"; "Sherry"; "Sylvia"; "Josephine"; "Thelma"; "Shannon"; "Sheila"; "Ethel"; "Ellen";
  "Elaine"; "Marjorie"; "Carrie"; "Charlotte"; "Monica"; "Esther"; "Pauline"; "Emma"; "Juanita"; "Anita";
  "Rhonda"; "Hazel"; "Amber"; "Eva"; "Debbie"; "April"; "Leslie"; "Clara"; "Lucille"; "Jamie"; "Joanne";
  "Eleanor"; "Valerie"; "Danielle"; "Megan"; "Alicia"; "Suzanne"; "Michele"; "Gail"; "Bertha"; "Darlene";
  "Veronica"; "Jill"; "Erin"; "Geraldine"; "Lauren"; "Cathy"; "Joann"; "Lorraine"; "Lynn"; "Sally";
  "Regina"; "Erica"; "Beatrice"; "Dolores"; "Bernice"; "Audrey"; "Yvonne"; "Annette"; "June"; "Samantha";
  "Marion"; "Dana"; "Stacy"; "Ana"; "Renee"; "Ida"; "Vivian"; "Roberta"; "Holly"; "Brittany"; "Melanie";
  "Loretta"; "Yolanda"; "Jeanette"; "Laurie"; "Katie"; "Kristen"; "Vanessa"; "Alma"; "Sue"; "Elsie"; "Beth";
  "Jeanne"; "Vicki"; "Carla"; "Tara"; "Rosemary"; "Eileen"; "Terri"; "Gertrude"; "Lucy"; "Tonya"; "Ella";
  "Stacey"; "Wilma"; "Gina"; "Kristin"; "Jessie"; "Natalie"; "Agnes"; "Vera"; "Willie"; "Charlene";
  "Bessie"; "Delores"; "Melinda"; "Pearl"; "Arlene"; "Maureen"; "Colleen"; "Allison"; "Tamara"; "Joy";
  "Georgia"; "Constance"; "Lillie"; "Claudia"; "Jackie"; "Marcia"; "Tanya"; "Nellie"; "Minnie"; "Marlene";
  "Heidi"; "Glenda"; "Lydia"; "Viola"; "Courtney"; "Marian"; "Stella"; "Caroline"; "Dora"; "Jo"; "Vickie";
  "Mattie"; "Terry"; "Maxine"; "Irma"; "Mabel"; "Marsha"; "Myrtle"; "Lena"; "Christy"; "Deanna"; "Patsy";
  "Hilda"; "Gwendolyn"; "Jennie"; "Nora"; "Margie"; "Nina"; "Cassandra"; "Leah"; "Penny"; "Kay";
  "Priscilla"; "Naomi"; "Carole"; "Brandy"; "Olga"; "Billie"; "Dianne"; "Tracey"; "Leona"; "Jenny";
  "Felicia"; "Sonia"; "Miriam"; "Velma"; "Becky"; "Bobbie"; "Violet"; "Kristina"; "Toni"; "Misty"; "Mae";
  "Shelly"; "Daisy"; "Ramona"; "Sherri"; "Erika"; "Katrina"; "Claire"; "Lindsey"; "Lindsay"; "Geneva";
  "Guadalupe"; "Belinda"; "Margarita"; "Sheryl"; "Cora"; "Faye"; "Ada"; "Natasha"; "Sabrina"; "Isabel";
  "Marguerite"; "Hattie"; "Harriet"; "Molly"; "Cecilia"; "Kristi"; "Brandi"; "Blanche"; "Sandy"; "Rosie";
  "Joanna"; "Iris"; "Eunice"; "Angie"; "Inez"; "Lynda"; "Madeline"; "Amelia"; "Alberta"; "Genevieve";
  "Monique"; "Jodi"; "Janie"; "Maggie"; "Kayla"; "Sonya"; "Jan"; "Lee"; "Kristine"; "Candace"; "Fannie";
  "Maryann"; "Opal"; "Alison"; "Yvette"; "Melody"; "Luz"; "Susie"; "Olivia"; "Flora"; "Shelley"; "Kristy";
  "Mamie"; "Lula"; "Lola"; "Verna"; "Beulah"; "Antoinette"; "Candice"; "Juana"; "Jeannette"; "Pam"; "Kelli";
  "Hannah"; "Whitney"; "Bridget"; "Karla"; "Celia"; "Latoya"; "Patty"; "Shelia"; "Gayle"; "Della"; "Vicky";
  "Lynne"; "Sheri"; "Marianne"; "Kara"; "Jacquelyn"; "Erma"; "Blanca"; "Myra"; "Leticia"; "Pat"; "Krista";
  "Roxanne"; "Angelica"; "Johnnie"; "Robyn"; "Francis"; "Adrienne"; "Rosalie"; "Alexandra"; "Brooke";
  "Bethany"; "Sadie"; "Bernadette"; "Traci"; "Jody"; "Kendra"; "Jasmine"; "Nichole"; "Rachael"; "Chelsea";
  "Mable"; "Ernestine"; "Muriel"; "Marcella"; "Elena"; "Krystal"; "Angelina"; "Nadine"; "Kari"; "Estelle";
  "Dianna"; "Paulette"; "Lora"; "Mona"; "Doreen"; "Rosemarie"; "Angel"; "Desiree"; "Antonia"; "Hope";
  "Ginger"; "Janis"; "Betsy"; "Christie"; "Freda"; "Mercedes"; "Meredith"; "Lynette"; "Teri"; "Cristina";
  "Eula"; "Leigh"; "Meghan"; "Sophia"; "Eloise"; "Rochelle"; "Gretchen"; "Cecelia"; "Raquel"; "Henrietta";
  "Alyssa"; "Jana"; "Kelley"; "Gwen"; "Kerry"; "Jenna"; "Tricia"; "Laverne"; "Olive"; "Alexis"; "Tasha";
  "Silvia"; "Elvira"; "Casey"; "Delia"; "Sophie"; "Kate"; "Patti"; "Lorena"; "Kellie"; "Sonja"; "Lila";
  "Lana"; "Darla"; "May"; "Mindy"; "Essie"; "Mandy"; "Lorene"; "Elsa"; "Josefina"; "Jeannie"; "Miranda";
  "Dixie"; "Lucia"; "Marta"; "Faith"; "Lela"; "Johanna"; "Shari"; "Camille"; "Tami"; "Shawna"; "Elisa";
  "Ebony"; "Melba"; "Ora"; "Nettie"; "Tabitha"; "Ollie"; "Jaime"; "Winifred"; "Kristie"; "Marina"; "Alisha";
  "Aimee"; "Rena"; "Myrna"; "Marla"; "Tammie"; "Latasha"; "Bonita"; "Patrice"; "Ronda"; "Sherrie"; "Addie";
  "Francine"; "Deloris"; "Stacie"; "Adriana"; "Cheri"; "Shelby"; "Abigail"; "Celeste"; "Jewel"; "Cara";
  "Adele"; "Rebekah"; "Lucinda"; "Dorthy"; "Chris"; "Effie"; "Trina"; "Reba"; "Shawn"; "Sallie"; "Aurora";
  "Lenora"; "Etta"; "Lottie"; "Kerri"; "Trisha"; "Nikki"; "Estella"; "Francisca"; "Josie"; "Tracie";
  "Marissa"; "Karin"; "Brittney"; "Janelle"; "Lourdes"; "Laurel"; "Helene"; "Fern"; "Elva"; "Corinne";
  "Kelsey"; "Ina"; "Bettie"; "Elisabeth"; "Aida"; "Caitlin"; "Ingrid"; "Iva"; "Eugenia"; "Christa";
  "Goldie"; "Cassie"; "Maude"; "Jenifer"; "Therese"; "Frankie"; "Dena"; "Lorna"; "Janette"; "Latonya";
  "Candy"; "Morgan"; "Consuelo"; "Tamika"; "Rosetta"; "Debora"; "Cherie"; "Polly"; "Dina"; "Jewell"; "Fay";
  "Jillian"; "Dorothea"; "Nell"; "Trudy"; "Esperanza"; "Patrica"; "Kimberley"; "Shanna"; "Helena";
  "Carolina"; "Cleo"; "Stefanie"; "Rosario"; "Ola"; "Janine"; "Mollie"; "Lupe"; "Alisa"; "Lou"; "Maribel";
  "Susanne"; "Bette"; "Susana"; "Elise"; "Cecile"; "Isabelle"; "Lesley"; "Jocelyn"; "Paige"; "Joni";
  "Rachelle"; "Leola"; "Daphne"; "Alta"; "Ester"; "Petra"; "Graciela"; "Imogene"; "Jolene"; "Keisha";
  "Lacey"; "Glenna"; "Gabriela"; "Keri"; "Ursula"; "Lizzie"; "Kirsten"; "Shana"; "Adeline"; "Mayra";
  "Jayne"; "Jaclyn"; "Gracie"; "Sondra"; "Carmela"; "Marisa"; "Rosalind"; "Charity"; "Tonia"; "Beatriz";
  "Marisol"; "Clarice"; "Jeanine"; "Sheena"; "Angeline"; "Frieda"; "Lily"; "Robbie"; "Shauna"; "Millie";
  "Claudette"; "Cathleen"; "Angelia"; "Gabrielle"; "Autumn"; "Katharine"; "Summer"; "Jodie"; "Staci"; "Lea";
  "Christi"; "Jimmie"; "Justine"; "Elma"; "Luella"; "Margret"; "Dominique"; "Socorro"; "Rene"; "Martina";
  "Margo"; "Mavis"; "Callie"; "Bobbi"; "Maritza"; "Lucile"; "Leanne"; "Jeannine"; "Deana"; "Aileen";
  "Lorie"; "Ladonna"; "Willa"; "Manuela"; "Gale"; "Selma"; "Dolly"; "Sybil"; "Abby"; "Lara"; "Dale"; "Ivy";
  "Dee"; "Winnie"; "Marcy"; "Luisa"; "Jeri"; "Magdalena"; "Ofelia"; "Meagan"; "Audra"; "Matilda"; "Leila";
  "Cornelia"; "Bianca"; "Simone"; "Bettye"; "Randi"; "Virgie"; "Latisha"; "Barbra"; "Georgina"; "Eliza";
  "Leann"; "Bridgette"; "Rhoda"; "Haley"; "Adela"; "Nola"; "Bernadine"; "Flossie"; "Ila"; "Greta"; "Ruthie";
  "Nelda"; "Minerva"; "Lilly"; "Terrie"; "Letha"; "Hilary"; "Estela"; "Valarie"; "Brianna"; "Rosalyn";
  "Earline"; "Catalina"; "Ava"; "Mia"; "Clarissa"; "Lidia"; "Corrine"; "Alexandria"; "Concepcion"; "Tia";
  "Sharron"; "Rae"; "Dona"; "Ericka"; "Jami"; "Elnora"; "Chandra"; "Lenore"; "Neva"; "Marylou"; "Melisa";
  "Tabatha"; "Serena"; "Avis"; "Allie"; "Sofia"; "Jeanie"; "Odessa"; "Nannie"; "Harriett"; "Loraine";
  "Penelope"; "Milagros"; "Emilia"; "Benita"; "Allyson"; "Ashlee"; "Tania"; "Tommie"; "Esmeralda"; "Karina";
  "Eve"; "Pearlie"; "Zelma"; "Malinda"; "Noreen"; "Tameka"; "Saundra"; "Hillary"; "Amie"; "Althea";
  "Rosalinda"; "Jordan"; "Lilia"; "Alana"; "Gay"; "Clare"; "Alejandra"; "Elinor"; "Michael"; "Lorrie";
  "Jerri"; "Darcy"; "Earnestine"; "Carmella"; "Taylor"; "Noemi"; "Marcie"; "Liza"; "Annabelle"; "Louisa";
  "Earlene"; "Mallory"; "Carlene"; "Nita"; "Selena"; "Tanisha"; "Katy"; "Julianne"; "John"; "Lakisha";
  "Edwina"; "Maricela"; "Margery"; "Kenya"; "Dollie"; "Roxie"; "Roslyn"; "Kathrine"; "Nanette"; "Charmaine";
  "Lavonne"; "Ilene"; "Kris"; "Tammi"; "Suzette"; "Corine"; "Kaye"; "Jerry"; "Merle"; "Chrystal"; "Lina";
  "Deanne"; "Lilian"; "Juliana"; "Aline"; "Luann"; "Kasey"; "Maryanne"; "Evangeline"; "Colette"; "Melva";
  "Lawanda"; "Yesenia"; "Nadia"; "Madge"; "Kathie"; "Eddie"; "Ophelia"; "Valeria"; "Nona"; "Mitzi"; "Mari";
  "Georgette"; "Claudine"; "Fran"; "Alissa"; "Roseann"; "Lakeisha"; "Susanna"; "Reva"; "Deidre"; "Chasity";
  "Sheree"; "Carly"; "James"; "Elvia"; "Alyce"; "Deirdre"; "Gena"; "Briana"; "Araceli"; "Katelyn";
  "Rosanne"; "Wendi"; "Tessa"; "Berta"; "Marva"; "Imelda"; "Marietta"; "Marci"; "Leonor"; "Arline"; "Sasha";
  "Madelyn"; "Janna"; "Juliette"; "Deena"; "Aurelia"; "Josefa"; "Augusta"; "Liliana"; "Young"; "Christian";
  "Lessie"; "Amalia"; "Savannah"; "Anastasia"; "Vilma"; "Natalia"; "Rosella"; "Lynnette"; "Corina";
  "Alfreda"; "Leanna"; "Carey"; "Amparo"; "Coleen"; "Tamra"; "Aisha"; "Wilda"; "Karyn"; "Cherry"; "Queen";
  "Maura"; "Mai"; "Evangelina"; "Rosanna"; "Hallie"; "Erna"; "Enid"; "Mariana"; "Lacy"; "Juliet"; "Jacklyn";
  "Freida"; "Madeleine"; "Mara"; "Hester"; "Cathryn"; "Lelia"; "Casandra"; "Bridgett"; "Angelita"; "Jannie";
  "Dionne"; "Annmarie"; "Katina"; "Beryl"; "Phoebe"; "Millicent"; "Katheryn"; "Diann"; "Carissa";
  "Maryellen"; "Liz"; "Lauri"; "Helga"; "Gilda"; "Adrian"; "Rhea"; "Marquita"; "Hollie"; "Tisha"; "Tamera";
  "Angelique"; "Francesca"; "Britney"; "Kaitlin"; "Lolita"; "Florine"; "Rowena"; "Reyna"; "Twila"; "Fanny";
  "Janell"; "Ines"; "Concetta"; "Bertie"; "Alba"; "Brigitte"; "Alyson"; "Vonda"; "Pansy"; "Elba"; "Noelle";
  "Letitia"; "Kitty"; "Deann"; "Brandie"; "Louella"; "Leta"; "Felecia"; "Sharlene"; "Lesa"; "Beverley";
  "Robert"; "Isabella"; "Herminia"; "Terra"; "Celina"
]%string.
Definition surnames : list string := [
  "Smith"; "Johnson"; "Williams"; "Brown"; "Jones"; "Miller"; "Davis"; "Garcia"; "Rodriguez"; "Wilson";
  "Martinez"; "Anderson"; "Taylor"; "Thomas"; "Hernandez"; "Moore"; "Martin"; "Jackson"; "Thompson";
  "White"; "Lopez"; "Lee"; "Gonzalez"; "Harris"; "Clark"; "Lewis"; "Robinson"; "Walker"; "Perez"; "Hall";
  "Young"; "Allen"; "Sanchez"; "Wright"; "King"; "Scott"; "Green"; "Baker"; "Adams"; "Nelson"; "Hill";
  "Ramirez"; "Campbell"; "Mitchell"; "Roberts"; "Carter"; "Phillips"; "Evans"; "Turner"; "Torres"; "Parker";
  "Collins"; "Edwards"; "Stewart"; "Flores"; "Morris"; "Nguyen"; "Murphy"; "Rivera"; "Cook"; "Rogers";
  "Morgan"; "Peterson"; "Cooper"; "Reed"; "Bailey"; "Bell"; "Gomez"; "Kelly"; "Howard"; "Ward"; "Cox";
  "Diaz"; "Richardson"; "Wood"; "Watson"; "Brooks"; "Bennett"; "Gray"; "James"; "Reyes"; "Cruz"; "Hughes";
  "Price"; "Myers"; "Long"; "Foster"; "Sanders"; "Ross"; "Morales"; "Powell"; "Sullivan"; "Russell";
  "Ortiz"; "Jenkins"; "Gutierrez"; "Perry"; "Butler"; "Barnes"; "Fisher"; "Henderson"; "Coleman"; "Simmons";
  "Patterson"; "Jordan"; "Reynolds"; "Hamilton"; "Graham"; "Kim"; "Gonzales"; "Alexander"; "Ramos";
  "Wallace"; "Griffin"; "West"; "Cole"; "Hayes"; "Chavez"; "Gibson"; "Bryant"; "Ellis"; "Stevens"; "Murray";
  "Ford"; "Marshall"; "Owens"; "Mcdonald"; "Harrison"; "Ruiz"; "Kennedy"; "Wells"; "Alvarez"; "Woods";
  "Mendoza"; "Castillo"; "Olson"; "Webb"; "Washington"; "Tucker"; "Freeman"; "Burns"; "Henry"; "Vasquez";
  "Snyder"; "Simpson"; "Crawford"; "Jimenez"; "Porter"; "Mason"; "Shaw"; "Gordon"; "Wagner"; "Hunter";
  "Romero"; "Hicks"; "Dixon"; "Hunt"; "Palmer"; "Robertson"; "Black"; "Holmes"; "Stone"; "Meyer"; "Boyd";
  "Mills"; "Warren"; "Fox"; "Rose"; "Rice"; "Moreno"; "Schmidt"; "Patel"; "Ferguson"; "Nichols"; "Herrera";
  "Medina"; "Ryan"; "Fernandez"; "Weaver"; "Daniels"; "Stephens"; "Gardner"; "Payne"; "Kelley"; "Dunn";
  "Pierce"; "Arnold"; "Tran"; "Spencer"; "Peters"; "Hawkins"; "Grant"; "Hansen"; "Castro"; "Hoffman";
  "Hart"; "Elliott"; "Cunningham"; "Knight"; "Bradley"; "Carroll"; "Hudson"; "Duncan"; "Armstrong"; "Berry";
  "Andrews"; "Johnston"; "Ray"; "Lane"; "Riley"; "Carpenter"; "Perkins"; "Aguilar"; "Silva"; "Richards";
  "Willis"; "Matthews"; "Chapman"; "Lawrence"; "Garza"; "Vargas"; "Watkins"; "Wheeler"; "Larson"; "Carlson";
  "Harper"; "George"; "Greene"; "Burke"; "Guzman"; "Morrison"; "Munoz"; "Jacobs"; "Obrien"; "Lawson";
  "Franklin"; "Lynch"; "Bishop"; "Carr"; "Salazar"; "Austin"; "Mendez"; "Gilbert"; "Jensen"; "Williamson";
  "Montgomery"; "Harvey"; "Oliver"; "Howell"; "Dean"; "Hanson"; "Weber"; "Garrett"; "Sims"; "Burton";
  "Fuller"; "Soto"; "Mccoy"; "Welch"; "Chen"; "Schultz"; "Walters"; "Reid"; "Fields"; "Walsh"; "Little";
  "Fowler"; "Bowman"; "Davidson"; "May"; "Day"; "Schneider"; "Newman"; "Brewer"; "Lucas"; "Holland"; "Wong";
  "Banks"; "Santos"; "Curtis"; "Pearson"; "Delgado"; "Valdez"; "Pena"; "Rios"; "Douglas"; "Sandoval";
  "Barrett"; "Hopkins"; "Keller"; "Guerrero"; "Stanley"; "Bates"; "Alvarado"; "Beck"; "Ortega"; "Wade";
  "Estrada"; "Contreras"; "Barnett"; "Caldwell"; "Santiago"; "Lambert"; "Powers"; "Chambers"; "Nunez";
  "Craig"; "Leonard"; "Lowe"; "Rhodes"; "Byrd"; "Gregory"; "Shelton"; "Frazier"; "Becker"; "Maldonado";
  "Fleming"; "Vega"; "Sutton"; "Cohen"; "Jennings"; "Parks"; "Mcdaniel"; "Watts"; "Barker"; "Norris";
  "Vaughn"; "Vazquez"; "Holt"; "Schwartz"; "Steele"; "Benson"; "Neal"; "Dominguez"; "Horton"; "Terry";
  "Wolfe"; "Hale"; "Lyons"; "Graves"; "Haynes"; "Miles"; "Park"; "Warner"; "Padilla"; "Bush"; "Thornton";
  "Mccarthy"; "Mann"; "Zimmerman"; "Erickson"; "Fletcher"; "Mckinney"; "Page"; "Dawson"; "Joseph";
  "Marquez"; "Reeves"; "Klein"; "Espinoza"; "Baldwin"; "Moran"; "Love"; "Robbins"; "Higgins"; "Ball";
  "Cortez"; "Le"; "Griffith"; "Bowen"; "Sharp"; "Cummings"; "Ramsey"; "Hardy"; "Swanson"; "Barber";
  "Acosta"; "Luna"; "Chandler"; "Blair"; "Daniel"; "Cross"; "Simon"; "Dennis"; "Oconnor"; "Quinn"; "Gross";
  "Navarro"; "Moss"; "Fitzgerald"; "Doyle"; "Mclaughlin"; "Rojas"; "Rodgers"; "Stevenson"; "Singh"; "Yang";
  "Figueroa"; "Harmon"; "Newton"; "Paul"; "Manning"; "Garner"; "Mcgee"; "Reese"; "Francis"; "Burgess";
  "Adkins"; "Goodman"; "Curry"; "Brady"; "Christensen"; "Potter"; "Walton"; "Goodwin"; "Mullins"; "Molina";
  "Webster"; "Fischer"; "Campos"; "Avila"; "Sherman"; "Todd"; "Chang"; "Blake"; "Malone"; "Wolf"; "Hodges";
  "Juarez"; "Gill"; "Farmer"; "Hines"; "Gallagher"; "Duran"; "Hubbard"; "Cannon"; "Miranda"; "Wang";
  "Saunders"; "Tate"; "Mack"; "Hammond"; "Carrillo"; "Townsend"; "Wise"; "Ingram"; "Barton"; "Mejia";
  "Ayala"; "Schroeder"; "Hampton"; "Rowe"; "Parsons"; "Frank"; "Waters"; "Strickland"; "Osborne"; "Maxwell";
  "Chan"; "Deleon"; "Norman"; "Harrington"; "Casey"; "Patton"; "Logan"; "Bowers"; "Mueller"; "Glover";
  "Floyd"; "Hartman"; "Buchanan"; "Cobb"; "French"; "Kramer"; "Mccormick"; "Clarke"; "Tyler"; "Gibbs";
  "Moody"; "Conner"; "Sparks"; "Mcguire"; "Leon"; "Bauer"; "Norton"; "Pope"; "Flynn"; "Hogan"; "Robles";
  "Salinas"; "Yates"; "Lindsey"; "Lloyd"; "Marsh"; "Mcbride"; "Owen"; "Solis"; "Pham"; "Lang"; "Pratt";
  "Lara"; "Brock"; "Ballard"; "Trujillo"; "Shaffer"; "Drake"; "Roman"; "Aguirre"; "Morton"; "Stokes";
  "Lamb"; "Pacheco"; "Patrick"; "Cochran"; "Shepherd"; "Cain"; "Burnett"; "Hess"; "Li"; "Cervantes";
  "Olsen"; "Briggs"; "Ochoa"; "Cabrera"; "Velasquez"; "Montoya"; "Roth"; "Meyers"; "Cardenas"; "Fuentes";
  "Weiss"; "Wilkins"; "Hoover"; "Nicholson"; "Underwood"; "Short"; "Carson"; "Morrow"; "Colon"; "Holloway";
  "Summers"; "Bryan"; "Petersen"; "Mckenzie"; "Serrano"; "Wilcox"; "Carey"; "Clayton"; "Poole"; "Calderon";
  "Gallegos"; "Greer"; "Rivas"; "Guerra"; "Decker"; "Collier"; "Wall"; "Whitaker"; "Bass"; "Flowers";
  "Davenport"; "Conley"; "Houston"; "Huff"; "Copeland"; "Hood"; "Monroe"; "Massey"; "Roberson"; "Combs";
  "Franco"; "Larsen"; "Pittman"; "Randall"; "Skinner"; "Wilkinson"; "Kirby"; "Cameron"; "Bridges";
  "Anthony"; "Richard"; "Kirk"; "Bruce"; "Singleton"; "Mathis"; "Bradford"; "Boone"; "Abbott"; "Charles";
  "Allison"; "Sweeney"; "Atkinson"; "Horn"; "Jefferson"; "Rosales"; "York"; "Christian"; "Phelps";
  "Farrell"; "Castaneda"; "Nash"; "Dickerson"; "Bond"; "Wyatt"; "Foley"; "Chase"; "Gates"; "Vincent";
  "Mathews"; "Hodge"; "Garrison"; "Trevino"; "Villarreal"; "Heath"; "Dalton"; "Valencia"; "Callahan";
  "Hensley"; "Atkins"; "Huffman"; "Roy"; "Boyer"; "Shields"; "Lin"; "Hancock"; "Grimes"; "Glenn"; "Cline";
  "Delacruz"; "Camacho"; "Dillon"; "Parrish"; "Oneill"; "Melton"; "Booth"; "Kane"; "Berg"; "Harrell";
  "Pitts"; "Savage"; "Wiggins"; "Brennan"; "Salas"; "Marks"; "Russo"; "Sawyer"; "Baxter"; "Golden";
  "Hutchinson"; "Liu"; "Walter"; "Mcdowell"; "Wiley"; "Rich"; "Humphrey"; "Johns"; "Koch"; "Suarez";
  "Hobbs"; "Beard"; "Gilmore"; "Ibarra"; "Keith"; "Macias"; "Khan"; "Andrade"; "Ware"; "Stephenson";
  "Henson"; "Wilkerson"; "Dyer"; "Mcclure"; "Blackwell"; "Mercado"; "Tanner"; "Eaton"; "Clay"; "Barron";
  "Beasley"; "Oneal"; "Small"; "Preston"; "Wu"; "Zamora"; "Macdonald"; "Vance"; "Snow"; "Mcclain";
  "Stafford"; "Orozco"; "Barry"; "English"; "Shannon"; "Kline"; "Jacobson"; "Woodard"; "Huang"; "Kemp";
  "Mosley"; "Prince"; "Merritt"; "Hurst"; "Villanueva"; "Roach"; "Nolan"; "Lam"; "Yoder"; "Mccullough";
  "Lester"; "Santana"; "Valenzuela"; "Winters"; "Barrera"; "Orr"; "Leach"; "Berger"; "Mckee"; "Strong";
  "Conway"; "Stein"; "Whitehead"; "Bullock"; "Escobar"; "Knox"; "Meadows"; "Solomon"; "Velez"; "Odonnell";
  "Kerr"; "Stout"; "Blankenship"; "Browning"; "Kent"; "Lozano"; "Bartlett"; "Pruitt"; "Buck"; "Barr";
  "Gaines"; "Durham"; "Gentry"; "Mcintyre"; "Sloan"; "Rocha"; "Melendez"; "Herman"; "Sexton"; "Moon";
  "Hendricks"; "Rangel"; "Stark"; "Lowery"; "Hardin"; "Hull"; "Sellers"; "Ellison"; "Calhoun"; "Gillespie";
  "Mora"; "Knapp"; "Mccall"; "Morse"; "Dorsey"; "Weeks"; "Nielsen"; "Livingston"; "Leblanc"; "Mclean";
  "Bradshaw"; "Glass"; "Middleton"; "Buckley"; "Schaefer"; "Frost"; "Howe"; "House"; "Mcintosh"; "Ho";
  "Pennington"; "Reilly"; "Hebert"; "Mcfarland"; "Hickman"; "Noble"; "Spears"; "Conrad"; "Arias"; "Galvan";
  "Velazquez"; "Huynh"; "Frederick"; "Randolph"; "Cantu"; "Fitzpatrick"; "Mahoney"; "Peck"; "Villa";
  "Michael"; "Donovan"; "Mcconnell"; "Walls"; "Boyle"; "Mayer"; "Zuniga"; "Giles"; "Pineda"; "Pace";
  "Hurley"; "Mays"; "Mcmillan"; "Crosby"; "Ayers"; "Case"; "Bentley"; "Shepard"; "Everett"; "Pugh"; "David";
  "Mcmahon"; "Dunlap"; "Bender"; "Hahn"; "Harding"; "Acevedo"; "Raymond"; "Blackburn"; "Duffy"; "Landry";
  "Dougherty"; "Bautista"; "Shah"; "Potts"; "Arroyo"; "Valentine"; "Meza"; "Gould"; "Vaughan"; "Fry";
  "Rush"; "Avery"; "Herring"; "Dodson"; "Clements"; "Sampson"; "Tapia"; "Bean"; "Lynn"; "Crane"; "Farley";
  "Cisneros"; "Benton"; "Ashley"; "Mckay"; "Finley"; "Best"; "Blevins"; "Friedman"; "Moses"; "Sosa";
  "Blanchard"; "Huber"; "Frye"; "Krueger"; "Bernard"; "Rosario"; "Rubio"; "Mullen"; "Benjamin"; "Haley";
  "Chung"; "Moyer"; "Choi"; "Horne"; "Yu"; "Woodward"; "Ali"; "Nixon"; "Hayden"; "Rivers"; "Estes";
  "Mccarty"; "Richmond"; "Stuart"; "Maynard"; "Brandt"; "Oconnell"; "Hanna"; "Sanford"; "Sheppard";
  "Church"; "Burch"; "Levy"; "Rasmussen"; "Coffey"; "Ponce"; "Faulkner"; "Donaldson"; "Schmitt"; "Novak";
  "Costa"; "Montes"; "Booker"; "Cordova"; "Waller"; "Arellano"; "Maddox"; "Mata"; "Bonilla"; "Stanton";
  "Compton"; "Kaufman"; "Dudley"; "Mcpherson"; "Beltran"; "Dickson"; "Mccann"; "Villegas"; "Proctor";
  "Hester"; "Cantrell"; "Daugherty"; "Cherry"; "Bray"; "Davila"; "Rowland"; "Madden"; "Levine"; "Spence";
  "Good"; "Irwin"; "Werner"; "Krause"; "Petty"; "Whitney"; "Baird"; "Hooper"; "Pollard"; "Zavala"; "Jarvis";
  "Holden"; "Haas"; "Hendrix"; "Mcgrath"; "Bird"; "Lucero"; "Terrell"; "Riggs"; "Joyce"; "Mercer";
  "Rollins"; "Galloway"; "Duke"; "Odom"; "Andersen"; "Downs"; "Hatfield"; "Benitez"; "Archer"; "Huerta";
  "Travis"; "Mcneil"; "Hinton"; "Zhang"; "Hays"; "Mayo"; "Fritz"; "Branch"; "Mooney"; "Ewing"; "Ritter";
  "Esparza"; "Frey"; "Braun"; "Gay"; "Riddle"; "Haney"; "Kaiser"; "Holder"; "Chaney"; "Mcknight"; "Gamble";
  "Vang"; "Cooley"; "Carney"; "Cowan"; "Forbes"; "Ferrell"; "Davies"; "Barajas"; "Shea"; "Osborn"; "Bright";
  "Cuevas"; "Bolton"; "Murillo"; "Lutz"; "Duarte"; "Kidd"; "Key"; "Cooke"
]%string.
Definition adjectives : list string := [
  "adorable"; "adventurous"; "agile"; "alert"; "ambitious"; "amiable"; "amusing"; "ancient"; "angelic";
  "angry"; "anxious"; "artistic"; "athletic"; "attractive"; "awesome"; "awkward"; "babyish"; "bad";
  "beautiful"; "bewildered"; "big"; "bitter"; "black"; "blue"; "blushing"; "bold"; "bored"; "bouncy"; "brave";
  "breezy"; "bright"; "brilliant"; "bubbly"; "busy"; "calm"; "careful"; "caring"; "cautious"; "charming";
  "cheerful"; "chilly"; "chubby"; "classy"; "clever"; "clumsy"; "cold"; "colorful"; "cool"; "cozy"; "crazy";
  "creative"; "creepy"; "crisp"; "cuddly"; "curious"; "curly"; "cute"; "daring"; "dark"; "dazzling"; "deep";
  "defiant"; "delicious"; "delightful"; "determined"; "dizzy"; "dreamy"; "dry"; "dull"; "dynamic"; "eager";
  "early"; "easy"; "elegant"; "electric"; "elusive"; "enchanting"; "energetic"; "epic"; "evil"; "excited";
  "exotic"; "fabulous"; "fancy"; "fast"; "fearless"; "feisty"; "festive"; "fierce"; "fiery"; "fluffy";
  "fluffy"; "fresh"; "friendly"; "frosty"; "funny"; "fuzzy"; "gentle"; "gigantic"; "glamorous"; "gleaming";
  "glorious"; "glowing"; "graceful"; "grumpy"; "happy"; "hardy"; "healthy"; "heavy"; "helpful"; "high";
  "hilarious"; "hollow"; "hot"; "humble"; "hungry"; "icy"; "ideal"; "immense"; "innocent"; "inspiring";
  "intense"; "invincible"; "ironic"; "jolly"; "jovial"; "joyful"; "jumpy"; "kind"; "large"; "lazy"; "light";
  "lively"; "lonely"; "lovely"; "lucky"; "luminous"; "magical"; "majestic"; "melodic"; "mellow"; "merry";
  "mighty"; "mischievous"; "modern"; "mysterious"; "neat"; "nervous"; "nice"; "noisy"; "odd"; "old"; "orange";
  "ordinary"; "peaceful"; "perfect"; "petite"; "playful"; "pleasant"; "plump"; "polite"; "popular";
  "precious"; "prickly"; "proud"; "purple"; "quaint"; "quick"; "quiet"; "radiant"; "rainy"; "rapid"; "raspy";
  "ready"; "red"; "rich"; "ripe"; "robust"; "romantic"; "round"; "royal"; "rustic"; "sassy"; "scary"; "shiny";
  "short"; "shy"; "silly"; "silver"; "simple"; "sleek"; "slimy"; "small"; "smart"; "smooth"; "snazzy"; "soft";
  "sour"; "spicy"; "spiffy"; "springy"; "steep"; "stormy"; "strong"; "sturdy"; "sunny"; "super"; "sweet";
  "swift"; "tall"; "tame"; "tasty"; "teal"; "tender"; "thick"; "thin"; "thoughtful"; "tiny"; "tough";
  "tranquil"; "tropical"; "trusty"; "twinkling"; "unique"; "upbeat"; "velvety"; "vibrant"; "vivid"; "warm";
  "wavy"; "weary"; "whimsical"; "white"; "wild"; "witty"; "wonderful"; "wooden"; "yellow"; "youthful";
  "zealous"; "zesty"; "zippy"; "abundant"; "accurate"; "acidic"; "acrobatic"; "adamant"; "adroit"; "affable";
  "afraid"; "aggressive"; "airy"; "alarming"; "alluring"; "aloof"; "amazing"; "ample"; "amused"; "ancient";
  "antique"; "apathetic"; "appetizing"; "aromatic"; "arrogant"; "ashamed"; "astonishing"; "attentive";
  "authentic"; "average"; "awful"; "balanced"; "barren"; "bashful"; "batty"; "beady"; "beaming"; "beefy";
  "befitting"; "bewitching"; "bizarre"; "bland"; "blissful"; "blithe"; "blunt"; "boiling"; "bookish";
  "booming"; "boring"; "botanical"; "bouncy"; "brawny"; "breakable"; "brief"; "brisk"; "brooding"; "bubbly";
  "bumpy"; "bustling"; "candid"; "canny"; "captivating"; "casual"; "celestial"; "cerulean"; "cheery"; "chic";
  "chilly"; "choppy"; "chunky"; "cinnamon"; "circular"; "classic"; "clean"; "clear"; "clever"; "cloistered";
  "cloudy"; "clueless"; "cluttered"; "cobalt"; "coherent"; "colossal"; "comfy"; "comical"; "compact";
  "complex"; "concise"; "confident"; "confused"; "constant"; "contagious"; "cooing"; "cool"; "coppery";
  "corny"; "cosmic"; "courageous"; "coveted"; "crabby"; "cranky"; "crashing"; "craven"; "creaky"; "critical";
  "crooked"; "crowded"; "cruel"; "cuddly"; "cultured"; "cumbersome"; "cunning"; "curl"; "curved"; "daffy";
  "damp"; "dandy"; "dapper"; "dashing"; "deadly"; "deafening"; "dearest"; "decadent"; "decisive"; "deep";
  "defeated"; "defiant"; "deft"; "delicate"; "demonic"; "dense"; "dental"; "dependable"; "deranged";
  "deserted"; "desolate"; "detailed"; "devoted"; "dewey"; "difficult"; "diligent"; "dim"; "direct";
  "discreet"; "disguised"; "dismal"; "distinct"; "disturbed"; "divine"; "dizzy"; "domineering"; "doubtful";
  "drab"; "dramatic"; "dreamy"; "dreary"; "drunk"; "dual"; "dusty"; "eager"; "earthy"; "eccentric"; "edible";
  "educated"; "eerie"; "elastic"; "elderly"; "elfin"; "elite"; "embarrassed"; "eminent"; "empty";
  "enchanting"; "endless"; "energetic"; "enormous"; "enticing"; "equal"; "erect"; "ethereal"; "euphoric";
  "evasive"; "even"; "evil"; "exact"; "exalted"; "excellent"; "excitable"; "exclusive"; "exotic"; "expensive";
  "exquisite"; "extinct"; "extra"; "extreme"; "fabulous"; "faded"; "failed"; "faint"; "fair"; "faithful";
  "fallacious"; "false"; "familiar"; "famous"; "fancy"; "fantastic"; "far"; "fast"; "fatal"; "fat"; "faulty";
  "fearful"; "feeble"; "fertile"; "festive"; "few"; "fierce"; "filthy"; "final"; "finicky"; "firm"; "first";
  "fit"; "flaky"; "flashy"; "flat"; "fleeting"; "flimsy"; "flippant"; "flowery"; "fluffy"; "fluttering";
  "flying"; "foamy"; "fond"; "foolish"; "forlorn"; "formal"; "fortunate"; "foul"; "frantic"; "freaky";
  "fresh"; "fretful"; "frigid"; "frilly"; "frivolous"; "frizzy"; "frothy"; "frugal"; "fruitful"; "full";
  "fumbling"; "functional"; "funny"; "furry"; "furtive"; "fussy"; "future"; "gabby"; "gainful"; "gargantuan";
  "gaudy"; "giddy"; "gifted"; "gigantic"; "glacial"; "glaring"; "glass"; "gleeful"; "glistening"; "glorious";
  "glossy"; "godly"; "golden"; "good"; "goofy"; "gorgeous"; "graceful"; "grandiose"; "grateful"; "gratis";
  "gray"; "greasy"; "great"; "greedy"; "green"; "gregarious"; "grey"; "grieving"; "grimy"; "gritty"; "groovy";
  "gross"; "grubby"; "grumpy"; "guarded"; "guilty"; "gullible"; "gusty"; "hallowed"; "halting"; "handy";
  "hapless"; "happy"; "hard"; "harsh"; "hasty"; "haughty"; "healthy"; "hearty"; "heavenly"; "heavy"; "hefty";
  "helpful"; "helpless"; "hesitant"; "hideous"; "high"; "hilarious"; "hissing"; "hollow"; "homely"; "honest";
  "hopeful"; "horrible"; "hospitable"; "hot"; "huge"; "hulking"; "humdrum"; "hungry"; "hurried"; "hushed";
  "husky"; "ideal"; "idiotic"; "ignorant"; "ill"; "illegal"; "illustrious"; "imaginary"; "immaculate";
  "immense"; "imminent"; "impartial"; "imperfect"; "impolite"; "important"; "impossible"; "incandescent";
  "incredible"; "indigo"; "indolent"; "inexpensive"; "infamous"; "infinite"; "innocent"; "inquisitive";
  "instant"; "insidious"; "intrepid"; "inventive"; "irate"; "irritating"; "itchy"; "jaded"; "jaunty"; "jazzy";
  "jealous"; "jittery"; "jovial"; "joyous"; "judicious"; "jumbled"; "jumpy"; "keen"; "kind"; "klutzy";
  "knobby"; "known"; "lame"; "languid"; "large"; "lavish"; "lazy"; "leafy"; "lean"; "learned"; "legal";
  "lethal"; "level"; "light"; "lilac"; "lime"; "lively"; "livid"; "lonely"; "long"; "loose"; "loud"; "lovely";
  "lucky"; "ludicrous"; "lush"; "luxuriant"; "lying"; "lyrical"; "macho"; "magenta"; "magnificent";
  "majestic"; "mammoth"; "maniacal"; "many"; "marked"; "married"; "massive"; "material"; "meek"; "melodic";
  "melted"; "messy"; "mighty"; "military"; "minor"; "minty"; "mirthful"; "misty"; "modern"; "modest"; "moist";
  "momentous"; "monstrous"; "monthly"; "moral"; "morbid"; "muddy"; "muffled"; "mundane"; "mushy"; "mute";
  "mysterious"; "nappy"; "narrow"; "nasty"; "natural"; "naughty"; "nauseating"; "near"; "neat"; "nebulous";
  "necessary"; "needless"; "needy"; "nervous"; "new"; "nice"; "nimble"; "nippy"; "nocturnal"; "noisy";
  "nonchalant"; "nondescript"; "normal"; "nostalgic"; "nosy"; "noxious"; "null"; "nutty"; "oafish";
  "obedient"; "obnoxious"; "obscure"; "observant"; "obsolete"; "obtuse"; "odd"; "offbeat"; "old";
  "omniscient"; "onerous"; "open"; "opposite"; "optimal"; "orange"; "organic"; "ornate"; "ossified";
  "outgoing"; "outrageous"; "outrageous"; "oval"; "overjoyed"; "overrated"; "overwrought"; "owing"; "painful";
  "pale"; "paltry"; "panicky"; "parallel"; "parched"; "parsimonious"; "past"; "pastel"; "peaceful";
  "penitent"; "perfect"; "periodic"; "permissible"; "perpetual"; "petite"; "phobic"; "physical"; "picayune";
  "pink"; "piquant"; "placid"; "plain"; "plant"; "plastic"; "plausible"; "plucky"; "pointless"; "poised";
  "polite"; "political"; "poor"; "possessive"; "powerful"; "precious"; "premium"; "pretty"; "prickly";
  "private"; "probable"; "productive"; "profuse"; "protective"; "psychedelic"; "puffy"; "pumped"; "puny";
  "purple"; "quack"; "quaint"; "quarrelsome"; "questionable"; "quick"; "quiet"; "quirky"; "quixotic";
  "quizzical"; "rabid"; "radiant"; "ragged"; "rainy"; "rampant"; "rare"; "raspy"; "ratty"; "ready"; "real";
  "receptive"; "red"; "reflective"; "regular"; "rejoicing"; "relieved"; "remarkable"; "repulsive"; "resolute";
  "resonant"; "rich"; "ripe"; "ritzy"; "roasted"; "robust"; "romantic"; "roomy"; "rosy"; "rotten"; "rough";
  "round"; "rude"; "rustic"; "sable"; "sad"; "salty"; "same"; "sassy"; "scrawny"; "secret"; "sedate";
  "selfish"; "separate"; "serious"; "shaggy"; "shaky"; "shallow"; "sharp"; "sheer"; "shiny"; "shivering";
  "shocking"; "short"; "shrill"; "shut"; "silent"; "silky"; "silly"; "similar"; "skillful"; "skinny"; "slimy";
  "slippery"; "slow"; "small"; "smarmy"; "smiling"; "smoggy"; "smooth"; "sneaky"; "snoopy"; "soft"; "soggy";
  "solid"; "somber"; "sordid"; "sore"; "sour"; "sparkling"; "special"; "spectacular"; "spicy"; "spiffy";
  "spiky"; "spiritual"; "spiteful"; "splendid"; "spoiled"; "spotless"; "square"; "stale"; "standing";
  "statuesque"; "steep"; "sticky"; "stiff"; "stimulating"; "stingy"; "stormy"; "straight"; "strange";
  "striped"; "strong"; "stupendous"; "sturdy"; "subdued"; "substantial"; "successful"; "succinct"; "sudden";
  "sulky"; "super"; "superb"; "supreme"; "swanky"; "sweet"; "sweltering"; "swift"; "symptomatic";
  "synonymous"; "tacit"; "tall"; "tame"; "tangible"; "tart"; "tasteful"; "tasty"; "tatty"; "tawdry";
  "tearful"; "tender"
]%string.

Definition funwords : list string := [
  "fluffy"; "sparky"; "bubbles"; "waffles"; "noodle"; "zippy"; "pickle"; "snickers"; "boop"; "tater";
  "muffin"; "popcorn"; "jellybean"; "squishy"; "fidget"; "pudding"; "biscuit"; "twinkle"; "gizmo"; "peanut";
  "skittles"; "wiggle"; "banjo"; "mochi"; "sprinkle"; "frodo"; "churro"; "pogo"; "lollipop"; "cricket";
  "toffee"; "whiskers"; "marshmallow"; "scooter"; "pumpkin"; "cupcake"; "giggles"; "snuggle"; "taco"; "pixie";
  "bambam"; "bean"; "pogo"; "chips"; "ziggy"; "jinx"; "poppy"; "fudge"; "razzle"; "socks"; "pogo"; "bloop";
  "crumpet"; "sprout"; "twix"; "booger"; "pepper"; "skipper"; "wombat"; "fizzy"; "tootsie"; "crouton"; "pogo";
  "nacho"; "skittles"; "boop"; "chutney"; "snickerdoodle"; "popple"; "waffles"; "moose"; "skittles"; "boop";
  "chutney"; "snickerdoodle"; "popple"; "waffles"; "moose"; "pogo"; "chips"; "ziggy"; "jinx"; "poppy";
  "fudge"; "razzle"; "socks"; "pogo"; "bloop"; "crumpet"; "sprout"; "twix"; "booger"; "pepper"; "skipper";
  "wombat"; "fizzy"; "tootsie"; "crouton"; "pogo"; "nacho"; "skittles"; "boop"; "chutney"; "snickerdoodle";
  "popple"; "waffles"; "moose"; "pogo"; "chips"; "ziggy"; "jinx"; "poppy"; "fudge"; "razzle"; "socks"; "pogo";
  "bloop"; "crumpet"; "sprout"; "twix"; "booger"; "pepper"; "skipper"; "wombat"; "fizzy"; "tootsie";
  "crouton"; "pogo"; "nacho"; "skittles"; "boop"; "chutney"; "snickerdoodle"; "popple"; "waffles"; "moose";
  "pogo"; "chips"; "ziggy"; "jinx"; "poppy"; "fudge"; "razzle"; "socks"; "pogo"; "bloop"; "crumpet"; "sprout";
  "twix"; "booger"; "pepper"; "skipper"; "wombat"; "fizzy"; "tootsie"; "crouton"; "pogo"; "nacho"; "skittles";
  "boop"; "chutney"; "snickerdoodle"; "popple"; "waffles"; "moose"; "pogo"; "chips"; "ziggy"; "jinx"; "poppy";
  "fudge"; "razzle"; "socks"; "pogo"; "bloop"; "crumpet"; "sprout"; "twix"; "booger"; "pepper"; "skipper";
  "wombat"; "fizzy"; "tootsie"; "crouton"; "pogo"; "nacho"; "skittles"; "boop"; "chutney"; "snickerdoodle";
  "popple"; "waffles"; "moose"; "pogo"; "chips"; "ziggy"; "jinx"; "poppy"; "fudge"; "razzle"; "socks"; "pogo";
  "bloop"; "crumpet"; "sprout"; "twix"; "booger"; "pepper"; "skipper"; "wombat"; "fizzy"; "tootsie";
  "crouton"; "pogo"; "nacho"; "skittles"; "boop"; "chutney"; "snickerdoodle"; "popple"; "waffles"; "moose";
  "pogo"; "chips"; "ziggy"; "jinx"; "poppy"; "fudge"; "razzle"; "socks"; "pogo"; "bloop"; "crumpet"; "sprout";
  "twix"; "booger"; "pepper"; "skipper"; "wombat"; "fizzy"; "tootsie"; "crouton"; "pogo"; "nacho"; "skittles";
  "boop"; "chutney"; "snickerdoodle"; "popple"; "waffles"; "moose"; "pogo"; "chips"; "ziggy"; "jinx"; "poppy";
  "fudge"; "razzle"; "socks"; "pogo"; "bloop"; "crumpet"; "sprout"; "twix"; "booger"; "pepper"; "skipper";
  "wombat"; "fizzy"; "tootsie"; "crouton"; "pogo"; "nacho"; "skittles"; "boop"; "chutney"; "snickerdoodle";
  "popple"; "waffles"; "moose"; "pogo"; "chips"; "ziggy"; "jinx"; "poppy"; "fudge"; "razzle"; "socks"; "pogo";
  "bloop"; "crumpet"; "sprout"; "twix"; "booger"; "pepper"; "skipper"; "wombat"; "fizzy"; "tootsie";
  "crouton"; "pogo"; "nacho"; "skittles"; "boop"; "chutney"; "snickerdoodle"; "popple"; "waffles"; "moose";
  "pogo"; "chips"; "ziggy"; "jinx"; "poppy"; "fudge"; "razzle"; "socks"; "pogo"; "bloop"; "crumpet"; "sprout";
  "twix"; "booger"; "pepper"; "skipper"; "wombat"; "fizzy"; "tootsie"; "crouton"; "pogo"; "nacho"; "skittles";
  "boop"; "chutney"; "snickerdoodle"; "popple"; "waffles"; "moose"; "pogo"; "chips"; "ziggy"; "jinx"; "poppy";
  "fudge"; "razzle"; "socks"; "pogo"; "bloop"; "crumpet"; "sprout"; "twix"; "booger"; "pepper"; "skipper";
  "wombat"; "fizzy"; "tootsie"; "crouton"; "pogo"; "nacho"; "skittles"; "boop"; "chutney"; "snickerdoodle";
  "popple"; "waffles"; "moose"; "pogo"; "chips"; "ziggy"; "jinx"; "poppy"; "fudge"; "razzle"; "socks"; "pogo";
  "bloop"; "crumpet"; "sprout"; "twix"; "booger"; "pepper"; "skipper"; "wombat"; "fizzy"; "tootsie";
  "crouton"; "pogo"; "nacho"; "skittles"; "boop"; "chutney"; "snickerdoodle"; "popple"; "waffles"; "moose";
  "pogo"; "chips"; "ziggy"; "jinx"; "poppy"; "fudge"; "razzle"; "socks"; "pogo"; "bloop"; "crumpet"; "sprout";
  "twix"; "booger"; "pepper"; "skipper"; "wombat"; "fizzy"; "tootsie"; "crouton"; "pogo"; "nacho"; "skittles";
  "boop"; "chutney"; "snickerdoodle"; "popple"; "waffles"; "moose"; "pogo"; "chips"; "ziggy"; "jinx"; "poppy";
  "fudge"; "razzle"; "socks"; "pogo"; "bloop"; "crumpet"; "sprout"; "twix"; "booger"; "pepper"; "skipper";
  "wombat"; "fizzy"; "tootsie"; "crouton"; "pogo"; "nacho"; "skittles"; "boop"; "chutney"; "snickerdoodle";
  "popple"; "waffles"; "moose"; "pogo"; "chips"; "ziggy"; "jinx"; "poppy"; "fudge"; "razzle"; "socks"; "pogo";
  "bloop"; "crumpet"; "sprout"; "twix"; "booger"; "pepper"; "skipper"; "wombat"; "fizzy"; "tootsie";
  "crouton"; "pogo"; "nacho"; "skittles"; "boop"; "chutney"; "snickerdoodle"; "popple"; "waffles"; "moose";
  "pogo"; "chips"; "ziggy"; "jinx"; "poppy"; "fudge"; "razzle"; "socks"; "pogo"; "bloop"; "crumpet"; "sprout";
  "twix"; "booger"; "pepper"; "skipper"; "wombat"; "fizzy"; "tootsie"; "crouton"; "pogo"; "nacho"; "skittles";
  "boop"; "chutney"; "snickerdoodle"; "popple"; "waffles"; "moose"; "pogo"; "chips"; "ziggy"; "jinx"; "poppy";
  "fudge"; "razzle"; "socks"; "pogo"; "bloop"; "crumpet"; "sprout"; "twix"; "booger"; "pepper"; "skipper";
  "wombat"; "fizzy"; "tootsie"; "crouton"; "pogo"; "nacho"; "skittles"; "boop"; "chutney"; "snickerdoodle";
  "popple"; "waffles"; "moose"; "pogo"; "chips"; "ziggy"; "jinx"; "poppy"; "fudge"; "razzle"; "socks"; "pogo";
  "bloop"; "crumpet"; "sprout"; "twix"; "booger"; "pepper"; "skipper"; "wombat"; "fizzy"; "tootsie";
  "crouton"; "pogo"; "nacho"; "skittles"; "boop"; "chutney"; "snickerdoodle"; "popple"; "waffles"; "moose";
  "pogo"; "chips"; "ziggy"; "jinx"; "poppy"; "fudge"; "razzle"; "socks"; "pogo"; "bloop"; "crumpet"; "sprout";
  "twix"; "booger"; "pepper"; "skipper"; "wombat"; "fizzy"; "tootsie"; "crouton"; "pogo"; "nacho"; "skittles";
  "boop"; "chutney"; "snickerdoodle"; "popple"; "waffles"; "moose"; "pogo"; "chips"; "ziggy"; "jinx"; "poppy";
  "fudge"; "razzle"; "socks"; "pogo"; "bloop"; "crumpet"; "sprout"; "twix"; "booger"; "pepper"; "skipper";
  "wombat"; "fizzy"; "tootsie"; "crouton"; "pogo"; "nacho"; "skittles"; "boop"; "chutney"; "snickerdoodle";
  "popple"; "waffles"; "moose"; "pogo"; "chips"; "ziggy"; "jinx"; "poppy"; "fudge"; "razzle"; "socks"; "pogo";
  "bloop"; "crumpet"; "sprout"; "twix"; "booger"; "pepper"; "skipper"; "wombat"; "fizzy"; "tootsie";
  "crouton"; "pogo"; "nacho"; "skittles"; "boop"; "chutney"; "snickerdoodle"; "popple"; "waffles"; "moose";
  "pogo"; "chips"; "ziggy"; "jinx"; "poppy"; "fudge"; "razzle"; "socks"; "pogo"; "bloop"; "crumpet"; "sprout";
  "twix"; "booger"; "pepper"; "skipper"; "wombat"; "fizzy"; "tootsie"; "crouton"; "pogo"; "nacho"; "skittles";
  "boop"; "chutney"; "snickerdoodle"; "popple"; "waffles"; "moose"; "pogo"; "chips"; "ziggy"; "jinx"; "poppy";
  "fudge"; "razzle"; "socks"; "pogo"; "bloop"; "crumpet"; "sprout"; "twix"; "booger"; "pepper"; "skipper";
  "wombat"; "fizzy"; "tootsie"; "crouton"; "pogo"; "nacho"; "skittles"; "boop"; "chutney"; "snickerdoodle";
  "popple"; "waffles"; "moose"; "pogo"; "chips"; "ziggy"; "jinx"; "poppy"; "fudge"; "razzle"; "socks"; "pogo";
  "bloop"; "crumpet"; "sprout"; "twix"; "booger"; "pepper"; "skipper"; "wombat"; "fizzy"; "tootsie";
  "crouton"; "pogo"; "nacho"; "skittles"; "boop"; "chutney"; "snickerdoodle"; "popple"; "waffles"; "moose";
  "pogo"; "chips"; "ziggy"; "jinx"; "poppy"; "fudge"; "razzle"; "socks"; "pogo"; "bloop"; "crumpet"; "sprout";
  "twix"; "booger"; "pepper"; "skipper"; "wombat"; "fizzy"; "tootsie"; "crouton"; "pogo"; "nacho"; "skittles";
  "boop"; "chutney"; "snickerdoodle"; "popple"; "waffles"; "moose"; "pogo"; "chips"; "ziggy"; "jinx"; "poppy";
  "fudge"; "razzle"; "socks"; "pogo"; "bloop"; "crumpet"; "sprout"; "twix"; "booger"; "pepper"; "skipper";
  "wombat"; "fizzy"; "tootsie"; "crouton"; "pogo"; "nacho"; "skittles"; "boop"; "chutney"; "snickerdoodle";
  "popple"; "waffles"; "moose"; "pogo"; "chips"; "ziggy"; "jinx"; "poppy"; "fudge"; "razzle"; "socks"; "pogo";
  "bloop"; "crumpet"; "sprout"; "twix"; "booger"; "pepper"; "skipper"; "wombat"; "fizzy"; "tootsie";
  "crouton"; "pogo"; "nacho"; "skittles"; "boop"; "chutney"; "snickerdoodle"; "popple"; "waffles"; "moose";
  "pogo"; "chips"; "ziggy"; "jinx"; "poppy"; "fudge"; "razzle"; "socks"; "pogo"; "bloop"; "crumpet"; "sprout";
  "twix"; "booger"; "pepper"; "skipper"; "wombat"; "fizzy"; "tootsie"; "crouton"; "pogo"; "nacho"; "skittles";
  "boop"; "chutney"; "snickerdoodle"; "popple"; "waffles"; "moose"; "pogo"; "chips"; "ziggy"; "jinx"; "poppy";
  "fudge"; "razzle"; "socks"; "pogo"; "bloop"; "crumpet"; "sprout"; "twix"; "booger"; "pepper"; "skipper";
  "wombat"; "fizzy"; "tootsie"; "crouton"; "pogo"; "nacho"; "skittles"; "boop"; "chutney"; "snickerdoodle";
  "popple"; "waffles"; "moose"; "pogo"; "chips"; "ziggy"; "jinx"; "poppy"; "fudge"; "razzle"; "socks"; "pogo";
  "bloop"; "crumpet"; "sprout"; "twix"; "booger"; "pepper"; "skipper"; "wombat"; "fizzy"; "tootsie";
  "crouton"; "pogo"; "nacho"; "skittles"; "boop"; "chutney"; "snickerdoodle"; "popple"; "waffles"; "moose";
  "pogo"; "chips"; "ziggy"; "jinx"; "poppy"; "fudge"; "razzle"; "socks"; "pogo"; "bloop"; "crumpet"; "sprout";
  "twix"; "booger"; "pepper"; "skipper"; "wombat"; "fizzy"; "tootsie"; "crouton"; "pogo"; "nacho"; "skittles";
  "boop"; "chutney"; "snickerdoodle"; "popple"; "waffles"; "moose"; "pogo"; "chips"; "ziggy"; "jinx"; "poppy";
  "fudge"; "razzle"; "socks"; "pogo"; "bloop"; "crumpet"; "sprout"; "twix"; "booger"; "pepper"; "skipper";
  "wombat"; "fizzy"; "tootsie"; "crouton"; "pogo"; "nacho"; "skittles"; "boop"; "chutney"; "snickerdoodle";
  "popple"; "waffles"; "moose"; "pogo"; "chips"; "ziggy"; "jinx"; "poppy"; "fudge"; "razzle"; "socks"; "pogo";
  "bloop"; "crumpet"; "sprout"; "twix"; "booger"; "pepper"; "skipper"; "wombat"; "fizzy"; "tootsie";
  "crouton"; "pogo"; "nacho"; "skittles"; "boop"; "chutney"; "snickerdoodle"; "popple"; "waffles"; "moose";
  "pogo"; "chips"; "ziggy"; "jinx"; "poppy"; "fudge"; "razzle"; "socks"; "pogo"; "bloop"; "crumpet"; "sprout";
  "twix"; "booger"; "pepper"; "skipper"; "wombat"; "fizzy"; "tootsie"; "crouton"; "pogo"; "nacho"; "skittles";
  "boop"; "chutney"; "snickerdoodle"; "popple"; "waffles"; "moose"; "pogo"; "chips"; "ziggy"; "jinx"; "poppy";
  "fudge"; "razzle"; "socks"; "pogo"; "bloop"; "crumpet"; "sprout"; "twix"; "booger"; "pepper"; "skipper";
  "wombat"; "fizzy"; "tootsie"; "crouton"; "pogo"; "nacho"; "skittles"; "boop"; "chutney"; "snickerdoodle";
  "popple"; "waffles"; "moose"; "pogo"; "chips"; "ziggy"; "jinx"; "poppy"; "fudge"; "razzle"; "socks"; "pogo";
  "bloop"; "crumpet"; "sprout"; "twix"; "booger"; "pepper"; "skipper"; "wombat"; "fizzy"; "tootsie";
  "crouton"; "pogo"; "nacho"; "skittles"; "boop"; "chutney"; "snickerdoodle"; "popple"; "waffles"; "moose";
  "pogo"; "chips"; "ziggy"; "jinx"; "poppy"; "fudge"; "razzle"; "socks"; "pogo"; "bloop"; "crumpet"; "sprout";
  "twix"; "booger"; "pepper"; "skipper"; "wombat"; "fizzy"; "tootsie"; "crouton"; "pogo"; "nacho"; "skittles";
  "boop"; "chutney"; "snickerdoodle"; "popple"; "waffles"; "moose"; "pogo"; "chips"; "ziggy"; "jinx"; "poppy";
  "fudge"; "razzle"; "socks"; "pogo"; "bloop"; "crumpet"; "sprout"; "twix"; "booger"; "pepper"; "skipper";
  "wombat"; "fizzy"; "tootsie"; "crouton"; "pogo"; "nacho"; "skittles"; "boop"; "chutney"; "snickerdoodle";
  "popple"; "waffles"; "moose"; "pogo"; "chips"; "ziggy"; "jinx"; "poppy"; "fudge"; "razzle"; "socks"; "pogo";
  "bloop"; "crumpet"; "sprout"; "twix"; "booger"; "pepper"; "skipper"; "wombat"; "fizzy"; "tootsie";
  "crouton"; "pogo"; "nacho"; "skittles"; "boop"; "chutney"; "snickerdoodle"; "popple"; "waffles"; "moose";
  "pogo"; "chips"; "ziggy"; "jinx"; "poppy"; "fudge"; "razzle"; "socks"; "pogo"; "bloop"; "crumpet"; "sprout";
  "twix"; "booger"; "pepper"; "skipper"; "wombat"; "fizzy"; "tootsie"; "crouton"; "pogo"; "nacho"; "skittles";
  "boop"; "chutney"; "snickerdoodle"; "popple"; "waffles"; "moose"; "pogo"; "chips"; "ziggy"; "jinx"; "poppy";
  "fudge"; "razzle"; "socks"; "pogo"; "bloop"; "crumpet"; "sprout"; "twix"; "booger"; "pepper"; "skipper";
  "wombat"; "fizzy"; "tootsie"; "crouton"; "pogo"; "nacho"; "skittles"; "boop"; "chutney"; "snickerdoodle";
  "popple"; "waffles"; "moose"; "pogo"; "chips"; "ziggy"; "jinx"; "poppy"; "fudge"; "razzle"; "socks"; "pogo";
  "bloop"; "crumpet"; "sprout"; "twix"; "booger"; "pepper"; "skipper"; "wombat"; "fizzy"; "tootsie";
  "crouton"; "pogo"; "nacho"; "skittles"; "boop"; "chutney"; "snickerdoodle"; "popple"; "waffles"; "moose";
  "pogo"; "chips"; "ziggy"; "jinx"; "poppy"; "fudge"; "razzle"; "socks"; "pogo"; "bloop"; "crumpet"; "sprout";
  "twix"; "booger"; "pepper"; "skipper"; "wombat"; "fizzy"; "tootsie"; "crouton"; "pogo"; "nacho"; "skittles";
  "boop"; "chutney"; "snickerdoodle"; "popple"; "waffles"; "moose"; "pogo"; "chips"; "ziggy"; "jinx"; "poppy";
  "fudge"; "razzle"; "socks"; "pogo"; "bloop"; "crumpet"; "sprout"; "twix"; "booger"; "pepper"; "skipper";
  "wombat"; "fizzy"; "tootsie"; "crouton"; "pogo"; "nacho"; "skittles"; "boop"; "chutney"; "snickerdoodle";
  "popple"; "waffles"; "moose"; "pogo"; "chips"; "ziggy"; "jinx"; "poppy"; "fudge"; "razzle"; "socks"; "pogo";
  "bloop"; "crumpet"; "sprout"; "twix"; "booger"; "pepper"; "skipper"; "wombat"; "fizzy"; "tootsie";
  "crouton"; "pogo"; "nacho"; "skittles"; "boop"; "chutney"; "snickerdoodle"; "popple"; "waffles"; "moose";
  "pogo"; "chips"; "ziggy"; "jinx"; "poppy"; "fudge"; "razzle"; "socks"; "pogo"; "bloop"; "crumpet"; "sprout";
  "twix"; "booger"; "pepper"; "skipper"; "wombat"; "fizzy"; "tootsie"; "crouton"; "pogo"; "nacho"; "skittles";
  "boop"; "chutney"; "snickerdoodle"; "popple"; "waffles"; "moose"; "pogo"; "chips"; "ziggy"; "jinx"; "poppy";
  "fudge"; "razzle"; "socks"; "pogo"; "bloop"; "crumpet"; "sprout"; "twix"; "booger"; "pepper"; "skipper";
  "wombat"; "fizzy"; "tootsie"; "crouton"; "pogo"; "nacho"; "skittles"; "boop"; "chutney"; "snickerdoodle";
  "popple"; "waffles"; "moose"; "pogo"; "chips"; "ziggy"; "jinx"; "poppy"; "fudge"; "razzle"; "socks"; "pogo";
  "bloop"; "crumpet"; "sprout"; "twix"; "booger"; "pepper"; "skipper"; "wombat"; "fizzy"; "tootsie";
  "crouton"; "pogo"; "nacho"; "skittles"; "boop"; "chutney"; "snickerdoodle"; "popple"; "waffles"; "moose";
  "pogo"; "chips"; "ziggy"; "jinx"; "poppy"; "fudge"; "razzle"; "socks"; "pogo"; "bloop"; "crumpet"; "sprout";
  "twix"; "booger"; "pepper"; "skipper"; "wombat"; "fizzy"; "tootsie"; "crouton"; "pogo"; "nacho"; "skittles";
  "boop"; "chutney"; "snickerdoodle"; "popple"; "waffles"; "moose"; "pogo"; "chips"; "ziggy"; "jinx"; "poppy";
  "fudge"; "razzle"; "socks"; "pogo"; "bloop"; "crumpet"; "sprout"; "twix"; "booger"; "pepper"; "skipper";
  "wombat"; "fizzy"; "tootsie"; "crouton"; "pogo"; "nacho"; "skittles"; "boop"; "chutney"; "snickerdoodle";
  "popple"; "waffles"; "moose"; "pogo"; "chips"; "ziggy"; "jinx"; "poppy"; "fudge"; "razzle"; "socks"; "pogo";
  "bloop"; "crumpet"; "sprout"; "twix"; "booger"; "pepper"; "skipper"; "wombat"; "fizzy"; "tootsie";
  "crouton"; "pogo"; "nacho"; "skittles"; "boop"; "chutney"; "snickerdoodle"; "popple"; "waffles"; "moose";
  "pogo"; "chips"; "ziggy"; "jinx"; "poppy"; "fudge"; "razzle"; "socks"; "pogo"; "bloop"; "crumpet"; "sprout";
  "twix"; "booger"; "pepper"; "skipper"; "wombat"; "fizzy"; "tootsie"; "crouton"; "pogo"; "nacho"; "skittles";
  "boop"; "chutney"; "snickerdoodle"; "popple"; "waffles"; "moose"; "pogo"; "chips"; "ziggy"; "jinx"; "poppy";
  "fudge"; "razzle"; "socks"; "pogo"; "bloop"; "crumpet"; "sprout"; "twix"; "booger"; "pepper"; "skipper";
  "wombat"; "fizzy"; "tootsie"; "crouton"; "pogo"; "nacho"; "skittles"; "boop"; "chutney"; "snickerdoodle";
  "popple"; "waffles"; "moose"; "pogo"; "chips"; "ziggy"; "jinx"; "poppy"; "fudge"; "razzle"; "socks"; "pogo";
  "bloop"; "crumpet"; "sprout"; "twix"; "booger"; "pepper"; "skipper"; "wombat"; "fizzy"; "tootsie";
  "crouton"; "pogo"; "nacho"; "skittles"; "boop"; "chutney"; "snickerdoodle"; "popple"; "waffles"; "moose";
  "pogo"; "chips"; "ziggy"; "jinx"; "poppy"; "fudge"; "razzle"; "socks"; "pogo"; "bloop"; "crumpet"; "sprout";
  "twix"; "booger"; "pepper"; "skipper"; "wombat"; "fizzy"; "tootsie"; "crouton"; "pogo"; "nacho"; "skittles";
  "boop"; "chutney"; "snickerdoodle"; "popple"; "waffles"; "moose"; "pogo"; "chips"; "ziggy"; "jinx"; "poppy";
  "fudge"; "razzle"; "socks"; "pogo"; "bloop"; "crumpet"; "sprout"; "twix"; "booger"; "pepper"; "skipper";
  "wombat"; "fizzy"; "tootsie"; "crouton"; "pogo"; "nacho"; "skittles"; "boop"; "chutney"; "snickerdoodle";
  "popple"; "waffles"; "moose"; "pogo"; "chips"; "ziggy"; "jinx"; "poppy"; "fudge"; "razzle"; "socks"; "pogo";
  "bloop"; "crumpet"; "sprout"; "twix"; "booger"; "pepper"; "skipper"; "wombat"; "fizzy"; "tootsie";
  "crouton"; "pogo"; "nacho"; "skittles"; "boop"; "chutney"; "snickerdoodle"; "popple"; "waffles"; "moose";
  "pogo"; "chips"; "ziggy"; "jinx"; "poppy"; "fudge"; "razzle"; "socks"; "pogo"; "bloop"; "crumpet"; "sprout";
  "twix"; "booger"; "pepper"; "skipper"; "wombat"; "fizzy"; "tootsie"; "crouton"; "pogo"; "nacho"; "skittles";
  "boop"; "chutney"; "snickerdoodle"; "popple"; "waffles"; "moose"; "pogo"; "chips"; "ziggy"; "jinx"; "poppy";
  "fudge"; "razzle"; "socks"; "pogo"; "bloop"; "crumpet"; "sprout"; "twix"; "booger"; "pepper"; "skipper";
  "wombat"; "fizzy"; "tootsie"; "crouton"; "pogo"; "nacho"; "skittles"; "boop"; "chutney"; "snickerdoodle";
  "popple"; "waffles"; "moose"; "pogo"; "chips"; "ziggy"; "jinx"; "poppy"; "fudge"; "razzle"; "socks"; "pogo";
  "bloop"; "crumpet"; "sprout"; "twix"; "booger"; "pepper"; "skipper"; "wombat"; "fizzy"; "tootsie";
  "crouton"; "pogo"; "nacho"; "skittles"; "boop"; "chutney"; "snickerdoodle"; "popple"; "waffles"; "moose";
  "pogo"; "chips"; "ziggy"; "jinx"; "poppy"; "fudge"; "razzle"; "socks"; "pogo"; "bloop"; "crumpet"; "sprout";
  "twix"; "booger"; "pepper"; "skipper"; "wombat"; "fizzy"; "tootsie"; "crouton"; "pogo"; "nacho"; "skittles";
  "boop"; "chutney"; "snickerdoodle"; "popple"; "waffles"; "moose"; "pogo"; "chips"; "ziggy"; "jinx"; "poppy";
  "fudge"; "razzle"; "socks"; "pogo"; "bloop"; "crumpet"; "sprout"; "twix"; "booger"; "pepper"; "skipper";
  "wombat"; "fizzy"; "tootsie"; "crouton"; "pogo"; "nacho"; "skittles"; "boop"; "chutney"; "snickerdoodle";
  "popple"; "waffles"; "moose"; "pogo"; "chips"
]%string.

(** [for i := 0; i < n; i++ { nameParts = append(nameParts, words[rand.Intn(len(words))]) }] *)
Fixpoint draw_words (words : list string) (n : nat) (nameParts : list string) : prog (list string) :=
  match n with
  | O => mret nameParts
  | S n =>
      r ← do_ (Rand_Intn (Z.of_nat (length words)));
      draw_words words n (nameParts ++ [default "" (words !! Z.to_nat r)])
  end.

Definition CreateHumanLikeName (numnames numsurnames : Z) : prog string :=
  l ← draw_words names (Z.to_nat numnames) [];
  l ← draw_words surnames (Z.to_nat numsurnames) l;
  mret (Join l " ").

Definition CreateFunName (numadjectives funnames : Z) : prog string :=
  l ← draw_words adjectives (Z.to_nat numadjectives) [];
  l ← draw_words funwords (Z.to_nat funnames) l;
  mret (Join l " ").

(** The bytes of [s] at an index [rand.Intn(len(s))]. *)
Definition draw_letter (letters : string) : prog string :=
  r ← do_ (Rand_Intn (Z.of_nat (len letters)));
  mret (if String.get (Z.to_nat r) letters is Some c then String c "" else "").

Fixpoint draw_syllables (n : nat) (name : string) : prog string :=
  match n with
  | O => mret name
  | S n =>
      c ← draw_letter "bcdfghjklmnpqrstvwxz";
      v ← draw_letter "aeiouy";
      draw_syllables n (name +:+ c +:+ v)
  end.

Fixpoint draw_names (syllablecount : list Z) (nameParts : list string) : prog (list string) :=
  match syllablecount with
  | [] => mret nameParts
  | n :: rest => name ← draw_syllables (Z.to_nat n) ""; draw_names rest (nameParts ++ [name])
  end.

Definition CreateAlgorithmicName (syllablecount : list Z) : prog string :=
  l ← draw_names syllablecount []; mret (Join l " ").

(** ** Lemmas *)

(** Every word is made of letters. *)
Definition is_letter (c : ascii) : bool :=
  let n := nat_of_ascii c in ((65 <=? n) && (n <=? 90)) || ((97 <=? n) && (n <=? 122)).
Definition good_word (s : string) : bool := all_bytes is_letter s.

Lemma adjectives_good : forallb good_word adjectives = true.
Proof. by vm_compute. Qed.
Lemma funwords_good : forallb good_word funwords = true.
Proof. by vm_compute. Qed.

Lemma letters_lack c s : is_letter c = false → good_word s = true → lacks c s.
Proof.
  intros Hc. unfold good_word. induction s as [|a s IH]; [done|]. cbn. rewrite andb_true_iff, lacks_cons.
  intros [Ha Hs]. split; [|by apply IH]. intros ->. congruence.
Qed.

Section draw.
Context `{!IStorage DB} `{Environment}.
Implicit Types w : World DB.

(** One word is drawn. *)
Lemma run_draw_word words l w :
  forallb good_word words = true → words ≠ [] →
  ∃ s, good_word s = true ∧ run (draw_words words 1 l) w = Some (l ++ [s], set_calls (S (w_calls w)) w).
Proof.
  intros Hg Hne. cbn. set (r := env_rand _ _).
  assert (0 ≤ r < Z.of_nat (length words))%Z as Hr.
  { apply env_rand_bounds. destruct words; [done|cbn; lia]. }
  destruct (lookup_lt_is_Some_2 words (Z.to_nat r)) as [s Hs]; [lia|]. exists s. rewrite Hs. split; [|done].
  rewrite forallb_forall in Hg. apply Hg, list_elem_of_In. by eapply list_elem_of_lookup_2.
Qed.

(** The name of a connection: an adjective, a space, a fun word. *)
Lemma run_CreateFunName w :
  ∃ a f, good_word a = true ∧ good_word f = true ∧
    run (CreateFunName 1 1) w = Some (a +:+ " " +:+ f, set_calls (S (S (w_calls w))) w).
Proof.
  destruct (run_draw_word adjectives [] w adjectives_good) as (a & Ha & Hra); [done|].
  destruct (run_draw_word funwords [a] (set_calls (S (w_calls w)) w) funwords_good) as (f & Hf & Hrf); [done|].
  exists a, f. split; [done|]. split; [done|]. unfold CreateFunName.
  rewrite (run_bind_eq _ _ _ _ _ Hra), (run_bind_eq _ _ _ _ _ Hrf). done.
Qed.
End draw.
