(* ===== verification/TcpServer.v ===== *)
(** * The TCP server ([sources/misc/tcpserver])

    [New] applies the options in order and starts listening.  Each accepted
    connection has a goroutine, [handleClient], that calls the handlers of the
    server: it is modelled by the sequence of its calls, for the sequence of the
    results of [con.Read].  The files of certificates and the listener are not
    part of the program: they are parameters. *)
From S2P Require Import Prelude GoStrings GoStrconv.

(** ** Construction *)
Section construction.
(** [tls.LoadX509KeyPair] *)
Context {cert : Type} (LoadX509KeyPair : string → string → result string cert).

(** The configuration part of the struct; [tlsConfig] holds its [Certificates]. *)
Record TCPServer := mkTCPServer {
  tlsConfig : option (list cert);
  port : Z;
  unixSocketPath : string
}.

(** A function on the server: the server after the option, or its error. *)
Definition Option : Type := TCPServer → result string TCPServer.

Definition WithTLSConfig (cfg : list cert) : Option :=
  λ s, Ok (mkTCPServer (Some cfg) (port s) (unixSocketPath s)).

Definition WithTLSFromFiles (certFile keyFile : string) : Option :=
  λ s, match LoadX509KeyPair certFile keyFile with
       | Err err => Err err
       | Ok c => Ok (mkTCPServer (Some [c]) (port s) (unixSocketPath s))
       end.

Definition WithPort (p : Z) : Option :=
  λ s, if decide (p ≤ 0 ∨ 65535 < p)%Z then Err ("invalid port " +:+ Itoa p)
       else Ok (mkTCPServer (tlsConfig s) p (unixSocketPath s)).

Definition WithUnixSocket (path : string) : Option :=
  λ s, if decide (path = "") then Err "empty unix socket path"
       else Ok (mkTCPServer (tlsConfig s) (port s) path).

Fixpoint apply_options (opts : list Option) (r : TCPServer) : result string TCPServer :=
  match opts with
  | [] => Ok r
  | opt :: opts => match opt r with Err e => Err e | Ok r => apply_options opts r end
  end.

(** [net.Listen]: the error, if any. *)
Context (Listen : string → string → option string).

(** What [init] does: the socket file it removes, where it listens, and whether
    the listener is wrapped in TLS. *)
Record listener := mkListener { removed : option string; network : string; address : string; tls : bool }.

Definition init (t : TCPServer) : result string listener :=
  if decide (unixSocketPath t ≠ "") then
    match Listen "unix" (unixSocketPath t) with
    | Some err => Err ("error starting unix socket server: " +:+ err)
    | None => Ok (mkListener (Some (unixSocketPath t)) "unix" (unixSocketPath t) false)
    end
  else
    match Listen "tcp" (":" +:+ Itoa (port t)) with
    | Some err => Err ("error starting tcp server: " +:+ err)
    | None => Ok (mkListener None "tcp" (":" +:+ Itoa (port t)) (bool_decide (is_Some (tlsConfig t))))
    end.

Definition New (opts : list Option) : result string (TCPServer * listener) :=
  match apply_options opts (mkTCPServer None 9001 "") with
  | Err e => Err e
  | Ok r => match init r with Err e => Err e | Ok l => Ok (r, l) end
  end.
End construction.
Arguments TCPServer : clear implicits.

(** ** One connection *)

(** The handler [handleClient] calls; [Panics] is the nil dereference. *)
Inductive event :=
  | OnClientConnect
  | OnClientData (data : string)
  | OnClientDataString (data : string)
  | OnClientDisconnect
  | Panics.

(** A [con.Read] gives bytes or an error. *)
Definition read : Type := option string.

(** The handlers of a chunk; the client's own [OnData] and [OnDataString] are nil. *)
Definition processReceivedData (d : string) : list event := [OnClientData d; OnClientDataString d].

(** The loop, as far as the reads have come: without an error the connection is
    still open. *)
Fixpoint read_loop (reads : list read) : list event :=
  match reads with
  | [] => []
  | None :: _ => [OnClientDisconnect]
  | Some d :: reads => (if 0 <? len d then processReceivedData d else []) ++ read_loop reads
  end.

(** [con] is [None] for a nil connection. *)
Definition handleClient (con : option (list read)) : list event :=
  OnClientConnect :: match con with Some reads => read_loop reads | None => [Panics] end.

(** One turn of [work]: the result of [Accept] goes to [handleClient], the nil
    connection of an error too. *)
Definition work_turn (accepted : result string (list read)) : list event :=
  handleClient (match accepted with Ok con => Some con | Err _ => None end).

(** ** The handlers of the server

    [M] is the state the handlers act on; a connection is a number. *)
Record Handlers (M : Type → Type) := mkHandlers {
  h_connect : nat → M unit;
  h_disconnect : nat → M unit;
  h_data : nat → string → M unit;
  h_data_string : nat → string → M unit
}.
Arguments mkHandlers {M} _ _ _ _.
Arguments h_connect {M} _.
Arguments h_disconnect {M} _.
Arguments h_data {M} _.
Arguments h_data_string {M} _.

Section handlers.
Context {M : Type → Type} `{MRet M}.
Implicit Types t : Handlers M.

(** What [New] starts with. *)
Definition no_handlers : Handlers M := mkHandlers (λ _, mret ()) (λ _, mret ()) (λ _ _, mret ()) (λ _ _, mret ()).

Definition SetOnCLientConnect (f : nat → M unit) t : Handlers M :=
  mkHandlers f (h_disconnect t) (h_data t) (h_data_string t).
Definition SetOnClientDisconnect (f : nat → M unit) t : Handlers M :=
  mkHandlers (h_connect t) f (h_data t) (h_data_string t).
Definition SetOnClientData (f : nat → string → M unit) t : Handlers M :=
  mkHandlers (h_connect t) (h_disconnect t) f (h_data_string t).
Definition SetOnClientDataString (f : nat → string → M unit) t : Handlers M :=
  mkHandlers (h_connect t) (h_disconnect t) (h_data t) f.

(** The call of the handler of an event; [crash] is the end of the program. *)
Definition fire (crash : M unit) t (cli : nat) (e : event) : M unit :=
  match e with
  | OnClientConnect => h_connect t cli
  | OnClientData d => h_data t cli d
  | OnClientDataString d => h_data_string t cli d
  | OnClientDisconnect => h_disconnect t cli
  | Panics => crash
  end.
End handlers.

(** ** The client object ([evttcpclienthelper.go]) *)

(** The connections that are open. *)
Abbreviation sockets := (gset nat).

(** [con.Close()]: closing twice is an error. *)
Definition con_Close (con : nat) (open : sockets) : option string * sockets :=
  if decide (con ∈ open) then (None, open ∖ {[con]}) else (Some "use of closed network connection", open).

(** [sendFunction] is the closure of [createCli]: it is given by the connection
    it captures. *)
Record TCPClient := mkTCPClient { con : option nat; sendFunction : nat; Tags : gmap string string }.

Definition createCli (con : nat) : TCPClient := mkTCPClient (Some con) con ∅.

Section client.
(** [con.Write]: the error, if any. *)
Context (Write : nat → string → option string).

Definition Client_Send (data : string) (ch : TCPClient) : option string :=
  match Write (sendFunction ch) data with
  | Some err => Some ("error sending data to client: " +:+ err)
  | None => None
  end.
Definition Client_SendString (data : string) (ch : TCPClient) : option string := Client_Send data ch.

(** The method has a pointer receiver: it changes the client. *)
Definition Close (ch : TCPClient) (open : sockets) : option string * TCPClient * sockets :=
  match con ch with
  | None => (None, ch, open)
  | Some c => let '(err, open) := con_Close c open in (err, mkTCPClient None (sendFunction ch) (Tags ch), open)
  end.

(** [Disconnect] and [disconnectFunction] take the client by value: what
    [Close] changes is a copy. *)
Definition Disconnect (ch : TCPClient) (open : sockets) : option string * sockets :=
  let '(err, _, open) := Close ch open in (err, open).

(** The methods of the server; [None] is a nil client. *)
Definition Server_Send (cli : option TCPClient) (data : string) : option string :=
  match cli with
  | None => Some "nil client"
  | Some ch => match Client_Send data ch with _ => None end
  end.
Definition Server_SendString (cli : option TCPClient) (data : string) : option string :=
  match cli with
  | None => Some "nil client"
  | Some ch => match Client_SendString data ch with _ => None end
  end.
Definition DisconnectClient (cli : option TCPClient) (open : sockets) : option string * sockets :=
  match cli with None => (Some "nil client", open) | Some ch => Disconnect ch open end.

(** Closing the client itself twice is harmless. *)
Lemma Close_again ch open :
  let '(_, ch, open) := Close ch open in Close ch open = (None, ch, open).
Proof.
  unfold Close. destruct (con ch) as [c|] eqn:Hc; [|by rewrite Hc]. by destruct (con_Close c open) as [err open'].
Qed.

(** Disconnecting it twice is not: the copy forgets the connection, the client
    does not, and the second call closes a closed connection. *)
Theorem Disconnect_again c open :
  c ∈ open →
  let ch := createCli c in
  Disconnect ch open = (None, open ∖ {[c]}) ∧
  Disconnect ch (open ∖ {[c]}) = (Some "use of closed network connection", open ∖ {[c]}).
Proof.
  intros Hc ch. unfold Disconnect, Close, con_Close. cbn.
  rewrite decide_True by done. by rewrite decide_False by set_solver.
Qed.

(** The methods of the server report no failed write. *)
Theorem Server_Send_drops_errors ch data :
  Server_Send (Some ch) data = None ∧ Server_SendString (Some ch) data = None.
Proof. done. Qed.
End client.

(** ** The events of a connection *)

(** The bytes the reads return before the first error. *)
Fixpoint bytes_read (reads : list read) : string :=
  match reads with Some d :: reads => d +:+ bytes_read reads | _ => "" end.
(** The bytes an event hands to [OnClientData]. *)
Definition event_bytes (e : event) : string := match e with OnClientData d => d | _ => "" end.

Lemma read_loop_bytes reads : foldr (λ e s, event_bytes e +:+ s) "" (read_loop reads) = bytes_read reads.
Proof.
  induction reads as [|[d|] reads IH]; [done| |done].
  destruct d as [|c d]; [exact IH|]. cbn. by rewrite IH.
Qed.

Lemma read_loop_ends reads : OnClientDisconnect ∈ read_loop reads ↔ None ∈ reads.
Proof.
  induction reads as [|[d|] reads IH]; cbn.
  - by rewrite !elem_of_nil.
  - rewrite elem_of_cons, <-IH. destruct (len d); cbn; rewrite ?elem_of_cons.
    + split; [by right|]. by intros [?|?].
    + split; [intros [?|[?|?]]; [done..|by right]|]. intros [?|?]; [done|by right; right].
  - rewrite !elem_of_cons, elem_of_nil. split; by left.
Qed.

(** An error of [Accept] is handed to a goroutine that dereferences nil. *)
Example failed_accept_panics err : work_turn (Err err) = [OnClientConnect; Panics].
Proof. reflexivity. Qed.
