(* ===== verification/Observations.v ===== *)
(** * The observations of a variable are a list

    [ControllerVarHelper] stores the observations of a variable as numbered
    entries of the database.  This file shows that the entries represent a list
    of [(clientId, metadata)] pairs, on which the methods act as list
    operations: append, removal of the last occurrence, filter, clear. *)
From S2P Require Import Prelude GoStrings GoStrconv Misc NamedLock Storage RamCacheDB Reference Runtime Samples VarHelper.

(** ** Paths *)
Definition p_count (name : string) : list string := npath name ++ ["_observers"; "list"; "count"].
Definition p_entry (name : string) (i : Z) : list string := npath name ++ ["_observers"; "list"; Itoa i].
Definition p_field (name : string) (i : Z) (f : string) : list string :=
  npath name ++ ["_observers"; "list"; Itoa i; f].
Definition p_observers (name : string) : list string := npath name ++ ["_observers"].

Lemma keypath_count name : keypath (key_count name) = p_count name.
Proof. unfold key_count. by rewrite (keypath_below name "_observers.list.count"). Qed.

Lemma split_list_entry s :
  SplitByte ("_observers.list." +:+ s) dot = "_observers" :: "list" :: SplitByte s dot.
Proof.
  change ("_observers.list." +:+ s) with ("_observers" +:+ String dot ("list" +:+ String dot s)).
  by rewrite !SplitByte_dot.
Qed.

Lemma split_list_field i f :
  lacks dot f →
  SplitByte ("_observers.list." +:+ Itoa i +:+ String dot f) dot = ["_observers"; "list"; Itoa i; f].
Proof.
  intros Hf. by rewrite split_list_entry, SplitByte_dot, SplitByte_lacks by (done || apply Itoa_lacks_dot).
Qed.

Lemma keypath_clientId name i : keypath (key_clientId name i) = p_field name i "clientId".
Proof.
  unfold key_clientId. change (name +:+ "._observers.list." +:+ Itoa i +:+ ".clientId")
    with (name +:+ String dot ("_observers.list." +:+ Itoa i +:+ String dot "clientId")).
  by rewrite keypath_below; rewrite split_list_field.
Qed.

Lemma keypath_metadata name i : keypath (key_metadata name i) = p_field name i "metadata".
Proof.
  unfold key_metadata. change (name +:+ "._observers.list." +:+ Itoa i +:+ ".metadata")
    with (name +:+ String dot ("_observers.list." +:+ Itoa i +:+ String dot "metadata")).
  by rewrite keypath_below; rewrite split_list_field.
Qed.

Lemma keypath_entry name i : keypath (key_entry name i) = p_entry name i.
Proof.
  assert (SplitByte ("_observers.list." +:+ Itoa i) dot = ["_observers"; "list"; Itoa i]) as Hs.
  { rewrite split_list_entry, SplitByte_lacks; [done|apply Itoa_lacks_dot]. }
  unfold key_entry. change (name +:+ "._observers.list." +:+ Itoa i)
    with (name +:+ String dot ("_observers.list." +:+ Itoa i)).
  rewrite keypath_below; rewrite Hs; [done|].
  cbn. intros [=He]. by eapply Itoa_ne_empty.
Qed.

(** Keys of the index are below [byId], whatever the client and the metadata. *)
Lemma keypath_byId_below name s :
  ∃ r, keypath (name +:+ "._observers.byId." +:+ s) = npath name ++ "_observers" :: "byId" :: r.
Proof.
  exists (trim_last (SplitByte s dot)).
  change (name +:+ "._observers.byId." +:+ s)
    with (name +:+ String dot ("_observers" +:+ String dot ("byId" +:+ String dot s))).
  rewrite keypath_app, !SplitByte_dot by done.
  unfold npath. f_equal. apply (trim_last_app ["_observers"; "byId"]), SplitByte_ne.
Qed.

(** ** The representation *)
Section rep.
Context {DB : Type} {HI : IStorage DB} {HS : StorageSpec DB}.
Implicit Types (db : DB) (l : list (string * string)).
Context {now : Z}.

Definition count (db : DB) (name : string) : Z := GetInt64 (val db (p_count name)).
Definition entry (db : DB) (name : string) (i : Z) : string * string :=
  (GetString (val db (p_field name i "clientId")), GetString (val db (p_field name i "metadata"))).

(** The entries of [name] hold exactly the list [l]. *)
Record obs_is (db : DB) (name : string) l : Prop := {
  obs_valid : valid db;
  obs_count : count db name = Z.of_nat (length l);
  obs_bound : (Z.of_nat (length l) < int64_max)%Z;
  obs_entry : ∀ i : Z, entry db name i = if (0 <=? i)%Z then default ("", "") (l !! Z.to_nat i) else ("", "")
}.

(** Nothing outside the observations of [name] changed: no value, and no node but
    those above them (which a first observation creates). *)
Record obs_frame (name : string) (db db' : DB) : Prop := {
  frame_val : ∀ p, ¬ p_observers name `prefix_of` p → val db' p = val db p;
  frame_view : ∀ p, ¬ p_observers name `prefix_of` p → ¬ p `prefix_of` p_observers name → view db' p = view db p
}.

Lemma obs_frame_refl name db : obs_frame name db db.
Proof. done. Qed.
Lemma obs_frame_trans name db1 db2 db3 : obs_frame name db1 db2 → obs_frame name db2 db3 → obs_frame name db1 db3.
Proof.
  intros [H1 H1'] [H2 H2']. split; intros p Hp; [rewrite H2 by done; by apply H1|].
  intros Hp'. rewrite H2' by done. by apply H1'.
Qed.

Lemma drun_read_count {A} name (f : Z → prog A) db :
  valid db → drun now (read_count name ≫= f) db = drun now (f (count db name)) db.
Proof.
  intros Hv. rewrite drun_bind. unfold read_count. rewrite drun_get, drun_ret.
  by rewrite Get_int0, keypath_count.
Qed.

Lemma drun_read_entry {A} name i (f : string * string → prog A) db :
  valid db → drun now (read_entry name i ≫= f) db = drun now (f (entry db name i)) db.
Proof.
  intros Hv. rewrite drun_bind. unfold read_entry. rewrite !drun_get, drun_ret.
  change (NewDynamicVar "") with NewEmptyDynamicVar.
  by rewrite !Get_empty, keypath_clientId, keypath_metadata.
Qed.

(** *** What one write does to the representation *)
Lemma frame_Set name db key v :
  valid db → p_observers name `prefix_of` keypath key → obs_frame name db (st_Set key v db).
Proof.
  intros Hv Hk. split; intros p Hp.
  - rewrite val_Set by done. by rewrite decide_False by congruence.
  - intros Hp'. rewrite Set_spec by done. unfold spec_set. rewrite !decide_False; [done| |by intros ->].
    intros Hpk. destruct (prefix_weak_total _ _ _ Hk Hpk); done.
Qed.

Lemma frame_Delete name db key :
  valid db → p_observers name `prefix_of` keypath key → obs_frame name db (st_DeleteValue key true db).
Proof.
  intros Hv Hk. assert (∀ p, ¬ p_observers name `prefix_of` p → ¬ keypath key `prefix_of` p) as Hno.
  { intros p Hp Hkp. apply Hp. by etrans. }
  split; intros p Hp.
  - rewrite val_Delete_cascade by done. rewrite decide_False; [done|by apply Hno].
  - intros _. rewrite Delete_cascade by done. rewrite decide_False; [done|by apply Hno].
Qed.

Lemma observers_prefix name r : p_observers name `prefix_of` npath name ++ "_observers" :: r.
Proof. unfold p_observers. apply prefix_app. exists r. done. Qed.

(** An index write or delete. *)
Lemma byId_Set name s v db :
  valid db →
  let db' := st_Set (name +:+ "._observers.byId." +:+ s) v db in
  valid db' ∧ count db' name = count db name ∧ (∀ i, entry db' name i = entry db name i) ∧ obs_frame name db db'.
Proof.
  intros Hv. cbn. destruct (keypath_byId_below name s) as [r Hr].
  assert (∀ x, val (st_Set (name +:+ "._observers.byId." +:+ s) v db) (npath name ++ "_observers" :: "list" :: x)
    = val db (npath name ++ "_observers" :: "list" :: x)) as Hl.
  { intros x. rewrite val_Set, Hr by done. rewrite decide_False; [done|].
    rewrite app_inv_prefix. done. }
  split_and!; [by apply Set_valid| | |].
  - unfold count, p_count. by rewrite Hl.
  - intros i. unfold entry, p_field. by rewrite !Hl.
  - apply frame_Set; [done|]. rewrite Hr. apply observers_prefix.
Qed.

Lemma byId_Delete name s db :
  valid db →
  let db' := st_DeleteValue (name +:+ "._observers.byId." +:+ s) true db in
  valid db' ∧ count db' name = count db name ∧ (∀ i, entry db' name i = entry db name i) ∧ obs_frame name db db'.
Proof.
  intros Hv. cbn. destruct (keypath_byId_below name s) as [r Hr].
  assert (∀ x, val (st_DeleteValue (name +:+ "._observers.byId." +:+ s) true db) (npath name ++ "_observers" :: "list" :: x)
    = val db (npath name ++ "_observers" :: "list" :: x)) as Hl.
  { intros x. rewrite val_Delete_cascade, Hr by done. rewrite decide_False; [done|].
    intros [y Hy]. rewrite <-app_assoc in Hy. apply app_inv_prefix in Hy. done. }
  split_and!; [by apply Delete_valid| | |].
  - unfold count, p_count. by rewrite Hl.
  - intros i. unfold entry, p_field. by rewrite !Hl.
  - apply frame_Delete; [done|]. rewrite Hr. apply observers_prefix.
Qed.

Lemma count_ne_field name i f : p_count name ≠ p_field name i f.
Proof. unfold p_count, p_field. rewrite app_inv_prefix. done. Qed.

Lemma field_inj name i f j g : p_field name i f = p_field name j g ↔ i = j ∧ f = g.
Proof.
  unfold p_field. rewrite app_inv_prefix. split; [|naive_solver].
  intros [= Hi ->]. by apply Itoa_inj_iff in Hi.
Qed.

(** The length. *)
Lemma count_Set name z db :
  valid db → in_int64 z = true →
  let db' := st_Set (key_count name) (NewDynamicVar_int z) db in
  valid db' ∧ count db' name = z ∧ (∀ i, entry db' name i = entry db name i) ∧ obs_frame name db db'.
Proof.
  intros Hv Hz. cbn. split_and!; [by apply Set_valid| | |].
  - unfold count. rewrite val_Set, keypath_count, decide_True by done. by apply GetInt64_int.
  - intros i. unfold entry. rewrite !val_Set, keypath_count by done.
    pose proof (count_ne_field name i "clientId"). pose proof (count_ne_field name i "metadata").
    by rewrite !decide_False by done.
  - apply frame_Set; [done|]. rewrite keypath_count. apply observers_prefix.
Qed.

(** The two fields of an entry. *)
Lemma entry_Set name i e db :
  valid db →
  let db' := st_Set (key_metadata name i) (NewDynamicVar e.2) (st_Set (key_clientId name i) (NewDynamicVar e.1) db) in
  valid db' ∧ count db' name = count db name ∧
  (∀ j, entry db' name j = if decide (j = i) then e else entry db name j) ∧ obs_frame name db db'.
Proof.
  intros Hv. cbn. set (db1 := st_Set (key_clientId name i) (NewDynamicVar e.1) db).
  assert (valid db1) as Hv1 by (by apply Set_valid).
  split_and!; [by apply Set_valid| | |].
  - unfold count. rewrite val_Set, keypath_metadata, decide_False by (done || apply count_ne_field).
    unfold db1. by rewrite val_Set, keypath_clientId, decide_False by (done || apply count_ne_field).
  - intros j. unfold entry, db1. rewrite !val_Set, keypath_metadata, keypath_clientId by done.
    destruct (decide (j = i)) as [->|Hji]; [destruct e|];
      repeat first [rewrite decide_True by (apply field_inj; done)
                   |rewrite decide_False by (rewrite field_inj; naive_solver)]; done.
  - eapply obs_frame_trans; apply frame_Set; try done; rewrite ?keypath_clientId, ?keypath_metadata;
      apply observers_prefix.
Qed.

(** Dropping an entry with everything below it. *)
Lemma entry_Delete name i db :
  valid db →
  let db' := st_DeleteValue (key_entry name i) true db in
  valid db' ∧ count db' name = count db name ∧
  (∀ j, entry db' name j = if decide (j = i) then ("", "") else entry db name j) ∧ obs_frame name db db'.
Proof.
  intros Hv. cbn. assert (∀ j f, p_entry name i `prefix_of` p_field name j f ↔ j = i) as Hp.
  { intros j f. unfold p_entry, p_field. split.
    - intros [y Hy]. rewrite <-app_assoc in Hy. apply app_inv_prefix in Hy.
      injection Hy as Hy _. by apply Itoa_inj_iff in Hy.
    - intros ->. exists [f]. by rewrite <-app_assoc. }
  split_and!; [by apply Delete_valid| | |].
  - unfold count. rewrite val_Delete_cascade, keypath_entry, decide_False; [done| |done].
    unfold p_entry, p_count. intros [y Hy]. rewrite <-app_assoc in Hy. apply app_inv_prefix in Hy.
    injection Hy as Hy _. symmetry in Hy. by eapply Itoa_ne_letter in Hy.
  - intros j. unfold entry. rewrite !val_Delete_cascade, !keypath_entry by done.
    destruct (decide (j = i)) as [Hji|Hji].
    + by rewrite !decide_True by (by apply Hp).
    + by rewrite !decide_False by (by rewrite Hp).
  - apply frame_Delete; [done|]. rewrite keypath_entry. apply observers_prefix.
Qed.

(** *** Writes to the entries, packaged *)

(** [db'] differs from [db] in the observations of [name] only, which have the
    count [n] and the entries [f]. *)
Record obs_become (db : DB) (name : string) (n : Z) (f : Z → string * string) (db' : DB) : Prop := {
  become_valid : valid db';
  become_count : count db' name = n;
  become_entry : ∀ i, entry db' name i = f i;
  become_frame : obs_frame name db db'
}.

Lemma become_refl db name : valid db → obs_become db name (count db name) (entry db name) db.
Proof. by split. Qed.

Lemma become_trans db1 db2 db3 name n f n' f' :
  obs_become db1 name n f db2 → obs_become db2 name n' f' db3 → obs_become db1 name n' f' db3.
Proof. intros [? ? ? ?] [? ? ? ?]. split; [done..|]. by eapply obs_frame_trans. Qed.

Lemma become_ext db name n f f' db' :
  (∀ i, f i = f' i) → obs_become db name n f db' → obs_become db name n f' db'.
Proof. intros Hf [? ? He ?]. split; [done..| |done]. intros i. by rewrite He. Qed.

(** One round of the shift: entry [j] becomes its successor. *)
Definition shift_round (name : string) (j : Z) : prog unit :=
  next ← read_entry name (wrap64 (j + 1));
  db_Set (key_clientId name j) (NewDynamicVar next.1) ;;
  db_Set (key_metadata name j) (NewDynamicVar next.2) ;;
  db_Set (key_byMetadata name next.1 next.2) (NewDynamicVar_int j).

Lemma drun_shift_round name j db :
  valid db → (0 ≤ j < int64_max)%Z →
  ∃ db', drun now (shift_round name j) db = Some ((), db') ∧
    obs_become db name (count db name) (λ i, if decide (i = j) then entry db name (j + 1) else entry db name i) db'.
Proof.
  intros Hv Hj. unfold shift_round. rewrite drun_read_entry by done. rewrite wrap64_small by (unfold in_int64, int64_min; lia).
  set (e := entry db name (j + 1)).
  destruct (entry_Set name j e db Hv) as (Hv1 & Hc1 & He1 & Hf1).
  set (db1 := st_Set (key_metadata name j) (NewDynamicVar e.2) (st_Set (key_clientId name j) (NewDynamicVar e.1) db)) in *.
  destruct (byId_Set name (e.1 +:+ ".byMetadata." +:+ e.2) (NewDynamicVar_int j) db1 Hv1) as (Hv2 & Hc2 & He2 & Hf2).
  eexists. split; [reflexivity|]. split; [exact Hv2| | |].
  - etransitivity; [exact Hc2|exact Hc1].
  - intros i. etransitivity; [apply He2|apply He1].
  - eapply obs_frame_trans; [exact Hf1|exact Hf2].
Qed.

Lemma drun_shift name n i db :
  valid db → (0 ≤ i)%Z → (i + Z.of_nat n ≤ int64_max)%Z →
  ∃ db', drun now (for_up n i (shift_round name)) db = Some ((), db') ∧
    obs_become db name (count db name)
      (λ j, if decide (i ≤ j < i + Z.of_nat n)%Z then entry db name (j + 1) else entry db name j) db'.
Proof.
  revert i db. induction n as [|n IH]; intros i db Hv Hi Hn.
  - exists db. split; [done|]. eapply become_ext; [|by apply become_refl]. intros j.
    by rewrite decide_False by lia.
  - destruct (drun_shift_round name i db Hv) as (db1 & Hr1 & [Hv1 Hc1 He1 Hf1]); [lia|].
    destruct (IH (i + 1)%Z db1 Hv1) as (db2 & Hr2 & H2); [lia|lia|].
    exists db2. split. { cbn [for_up]. by rewrite (drun_bind_eq _ _ _ _ _ Hr1). }
    rewrite Hc1 in H2. eapply become_trans; [by split|]. eapply become_ext; [|exact H2].
    intros j. cbn beta. rewrite !He1. case_decide; case_decide; repeat case_decide; try lia; try done.
    by subst.
Qed.

(** *** The list operations *)

(** Removes the last occurrence. *)
Fixpoint remove_last (e : string * string) (l : list (string * string)) : list (string * string) :=
  match l with
  | [] => []
  | x :: l => if decide (e ∈ l) then x :: remove_last e l else if decide (x = e) then l else x :: l
  end.

Lemma remove_last_absent e l : e ∉ l → remove_last e l = l.
Proof.
  induction l as [|x l IH]; [done|]. rewrite not_elem_of_cons. intros [Hx Hl]. cbn.
  by rewrite decide_False, decide_False by congruence.
Qed.

Lemma remove_last_split e l1 l2 : e ∉ l2 → remove_last e (l1 ++ e :: l2) = l1 ++ l2.
Proof.
  intros Hl. induction l1 as [|x l1 IH]; cbn.
  - by rewrite decide_False, decide_True by done.
  - rewrite decide_True by set_solver. by rewrite IH.
Qed.

Lemma elem_of_remove_last e x l : x ∈ remove_last e l → x ∈ l.
Proof.
  induction l as [|y l IH]; [done|]. cbn. repeat case_decide; set_solver.
Qed.

(** *** [internalRemoveObserving] *)

Lemma obs_is_entry db name l i e :
  obs_is db name l → l !! i = Some e → entry db name (Z.of_nat i) = e.
Proof.
  intros [_ _ _ He] Hi. rewrite He. destruct (Z.leb_spec 0 (Z.of_nat i)); [|lia].
  by rewrite Nat2Z.id, Hi.
Qed.

Lemma become_obs_is db name l n f db' l' :
  obs_is db name l → obs_become db name n f db' →
  n = Z.of_nat (length l') → (Z.of_nat (length l') < int64_max)%Z →
  (∀ i, f i = if (0 <=? i)%Z then default ("", "") (l' !! Z.to_nat i) else ("", "")) →
  obs_is db' name l'.
Proof.
  intros _ [Hv Hc He _] Hn Hb Hf. split; [done|by rewrite Hc|done|]. intros i. by rewrite He.
Qed.

(** The shift at index [i] followed by the deletion of the last entry. *)
Lemma shifted_entries l i (j : Z) :
  i < length l →
  let f := λ j : Z, if (0 <=? j)%Z then default ("", "") (l !! Z.to_nat j) else ("", "") in
  (if decide (j = Z.of_nat (length l) - 1)%Z then ("", "")
   else if decide (Z.of_nat i ≤ j < Z.of_nat i + (Z.of_nat (length l) - 1 - Z.of_nat i))%Z then f (j + 1)%Z else f j) =
  (if (0 <=? j)%Z then default ("", "") ((take i l ++ drop (S i) l) !! Z.to_nat j) else ("", "")).
Proof.
  intros Hi f. subst f. cbn beta. destruct (Z.leb_spec 0 j) as [Hj|Hj].
  2:{ rewrite !decide_False by lia. rewrite ?(proj2 (Z.leb_gt _ _)) by lia. done. }
  destruct (decide (j = Z.of_nat (length l) - 1)%Z) as [->|Hlast].
  { rewrite lookup_ge_None_2; [done|]. rewrite length_app, length_take, length_drop. lia. }
  case_decide as Hr.
  - rewrite (proj2 (Z.leb_le _ _)) by lia.
    rewrite lookup_app_r by (rewrite length_take; lia). rewrite lookup_drop, length_take.
    do 2 f_equal. lia.
  - assert (j < Z.of_nat i ∨ Z.of_nat (length l) ≤ j)%Z as [Hlt|Hge] by lia.
    + rewrite lookup_app_l by (rewrite length_take; lia). by rewrite lookup_take_lt by lia.
    + rewrite !lookup_ge_None_2; [done| |lia]. rewrite length_app, length_take, length_drop. lia.
Qed.

Lemma drun_remove_at_hit name e l i db :
  obs_is db name l → l !! i = Some e →
  ∃ db', drun now (remove_at name e.1 e.2 (Z.of_nat (length l)) (Z.of_nat i)) db = Some (true, db') ∧
    obs_is db' name (take i l ++ drop (S i) l) ∧ obs_frame name db db'.
Proof.
  intros Hobs Hi. pose proof Hobs as [Hv Hc Hb He].
  assert (i < length l) as Hlt by (by eapply lookup_lt_Some).
  unfold remove_at. rewrite drun_read_entry by done. rewrite (obs_is_entry _ _ _ _ _ Hobs Hi).
  rewrite decide_True by (by destruct e).
  rewrite wrap64_small by (unfold in_int64, int64_min, int64_max in *; lia).
  replace (Z.to_nat (Z.of_nat (length l) - 1 - Z.of_nat i)) with (length l - 1 - i) by lia.
  destruct (drun_shift name (length l - 1 - i) (Z.of_nat i) db Hv) as (db1 & Hr1 & [Hv1 Hc1 He1 Hf1]);
    [lia|unfold int64_max in *; lia|].
  change (λ j, next ← read_entry name (wrap64 (j + 1)); _) with (shift_round name).
  rewrite (drun_bind_eq _ _ _ _ _ Hr1), drun_delete, drun_set, drun_delete, drun_ret.
  destruct (entry_Delete name (Z.of_nat (length l) - 1) db1 Hv1) as (Hv2 & Hc2 & He2 & Hf2).
  set (db2 := st_DeleteValue (key_entry name _) true db1) in *.
  destruct (count_Set name (Z.of_nat (length l) - 1) db2 Hv2) as (Hv3 & Hc3 & He3 & Hf3).
  { unfold in_int64, int64_min, int64_max in *; lia. }
  set (db3 := st_Set (key_count name) _ db2) in *.
  destruct (byId_Delete name e.1 db3 Hv3) as (Hv4 & Hc4 & He4 & Hf4).
  eexists. split; [reflexivity|]. split.
  - split; [exact Hv4| | |].
    + etransitivity; [exact Hc4|]. rewrite Hc3, length_app, length_take, length_drop. lia.
    + rewrite length_app, length_take, length_drop. unfold int64_max in *. lia.
    + intros j. rewrite <-shifted_entries by done. etransitivity; [apply He4|].
      rewrite He3, He2, He1, !He. rewrite Nat2Z.inj_sub, Nat2Z.inj_sub by lia. done.
  - eapply obs_frame_trans; [exact Hf1|]. eapply obs_frame_trans; [exact Hf2|].
    eapply obs_frame_trans; [exact Hf3|exact Hf4].
Qed.

Lemma drun_search name e l db n :
  obs_is db name l → n ≤ length l → e ∉ drop n l →
  ∃ db', drun now (for_down_break n (remove_at name e.1 e.2 (Z.of_nat (length l)))) db = Some ((), db') ∧
    obs_is db' name (remove_last e l) ∧ obs_frame name db db'.
Proof.
  intros Hobs. induction n as [|n IH]; intros Hn He.
  - exists db. split; [done|]. rewrite remove_last_absent by done. by split.
  - destruct (lookup_lt_is_Some_2 l n ltac:(lia)) as [x Hx]. cbn [for_down_break].
    destruct (decide (x = e)) as [->|Hne].
    + destruct (drun_remove_at_hit name e l n db Hobs Hx) as (db' & Hr & Hobs' & Hf).
      exists db'. split; [by rewrite (drun_bind_eq _ _ _ _ _ Hr)|]. split; [|done].
      rewrite <-(take_drop_middle l n e Hx) at 1. by rewrite remove_last_split.
    + assert (drun now (remove_at name e.1 e.2 (Z.of_nat (length l)) (Z.of_nat n)) db = Some (false, db)) as Hr.
      { unfold remove_at. rewrite drun_read_entry by apply Hobs.
        rewrite (obs_is_entry _ _ _ _ _ Hobs Hx), decide_False by (by destruct e). done. }
      rewrite (drun_bind_eq _ _ _ _ _ Hr). apply IH; [lia|].
      rewrite (drop_S l x n Hx). set_solver.
Qed.

Lemma drun_internalRemove c e l db :
  obs_is db (vh_name c) l →
  ∃ db', drun now (internalRemoveObserving c e.1 e.2) db = Some ((), db') ∧
    obs_is db' (vh_name c) (remove_last e l) ∧ obs_frame (vh_name c) db db'.
Proof.
  intros Hobs. unfold internalRemoveObserving. rewrite drun_read_count by apply Hobs.
  rewrite (obs_count _ _ _ Hobs), Nat2Z.id. apply drun_search; [done|done|].
  rewrite drop_ge by done. set_solver.
Qed.

(** *** The other critical sections *)
Lemma drun_register name cl md l db :
  obs_is db name l → (Z.of_nat (length l) + 1 < int64_max)%Z →
  ∃ db', drun now (cnt ← read_count name;
    db_Set (key_clientId name cnt) (NewDynamicVar cl) ;;
    db_Set (key_metadata name cnt) (NewDynamicVar md) ;;
    db_Set (key_byMetadata name cl md) (NewDynamicVar_int cnt) ;;
    db_Set (key_count name) (NewDynamicVar_int (wrap64 (cnt + 1))) ;;
    mret (Itoa cnt)) db = Some (Itoa (Z.of_nat (length l)), db') ∧
    obs_is db' name (l ++ [(cl, md)]) ∧ obs_frame name db db' ∧
    is_Some (view db' (keypath (key_byMetadata name cl md))).
Proof.
  intros [Hv Hc Hb He] Hlt. rewrite drun_read_count, Hc by done.
  rewrite wrap64_small by (unfold in_int64, int64_min, int64_max in *; lia).
  rewrite !drun_set, drun_ret. set (n := Z.of_nat (length l)) in *.
  destruct (entry_Set name n (cl, md) db Hv) as (Hv1 & Hc1 & He1 & Hf1). cbn [fst snd] in *.
  set (db1 := st_Set (key_metadata name n) _ _) in *.
  destruct (byId_Set name (cl +:+ ".byMetadata." +:+ md) (NewDynamicVar_int n) db1 Hv1) as (Hv2 & Hc2 & He2 & Hf2).
  set (db2 := st_Set (key_byMetadata name cl md) (NewDynamicVar_int n) db1).
  change (st_Set (name +:+ "._observers.byId." +:+ _) _ db1) with db2 in *.
  destruct (count_Set name (n + 1) db2 Hv2) as (Hv3 & Hc3 & He3 & Hf3).
  { unfold in_int64, int64_min, int64_max in *; lia. }
  eexists. split; [reflexivity|]. split_and!.
  - split; [exact Hv3| | |].
    + etransitivity; [exact Hc3|]. rewrite length_app. cbn. lia.
    + rewrite length_app. cbn. lia.
    + intros i. etransitivity; [apply He3|]. rewrite He2, He1. unfold n in *.
      destruct (decide (i = Z.of_nat (length l))) as [->|Hi].
      * rewrite (proj2 (Z.leb_le _ _)) by lia. by rewrite Nat2Z.id, lookup_app_r, Nat.sub_diag by done.
      * rewrite He. destruct (Z.leb_spec 0 i); [|done].
        destruct (decide (i < Z.of_nat (length l))%Z).
        -- by rewrite lookup_app_l by lia.
        -- rewrite !lookup_ge_None_2; [done| |lia]. rewrite length_app. cbn. lia.
  - eapply obs_frame_trans; [exact Hf1|]. eapply obs_frame_trans; [exact Hf2|exact Hf3].
  - rewrite Set_spec by done. apply spec_set_mono. unfold db2. rewrite Set_spec, spec_set_eq by done. done.
Qed.

Lemma drun_remove_client c cl l l2 db :
  obs_is db (vh_name c) (l ++ l2) → Forall (λ e, e.1 ≠ cl) l2 →
  ∃ db', drun now (for_down (length l) (λ i,
      e ← read_entry (vh_name c) i;
      if decide (e.1 = cl) then internalRemoveObserving c e.1 e.2 else mret tt)) db = Some ((), db') ∧
    obs_is db' (vh_name c) (filter (λ e, e.1 ≠ cl) l ++ l2) ∧ obs_frame (vh_name c) db db'.
Proof.
  revert l2 db. induction l as [|e l IH] using rev_ind; intros l2 db Hobs Hl2.
  { exists db. done. }
  rewrite length_app, Nat.add_1_r. cbn [for_down].
  assert (entry db (vh_name c) (Z.of_nat (length l)) = e) as Hee.
  { eapply obs_is_entry; [exact Hobs|]. rewrite <-app_assoc. by apply list_lookup_middle. }
  rewrite drun_bind, drun_read_entry by apply Hobs. rewrite Hee, filter_app.
  destruct (decide (e.1 = cl)) as [Hcl|Hcl].
  - destruct (drun_internalRemove c e _ db Hobs) as (db1 & Hr1 & Hobs1 & Hf1). rewrite Hr1.
    rewrite <-app_assoc in Hobs1. cbn [app] in Hobs1. rewrite remove_last_split in Hobs1.
    2:{ intros Hin. by eapply (proj1 (Forall_forall _ _) Hl2). }
    destruct (IH l2 db1 Hobs1 Hl2) as (db2 & Hr2 & Hobs2 & Hf2).
    exists db2. split; [done|]. rewrite filter_cons_False, filter_nil, app_nil_r by (by intros []).
    split; [done|]. by eapply obs_frame_trans.
  - cbn [drun mret prog_ret]. rewrite <-app_assoc in Hobs.
    destruct (IH (e :: l2) db Hobs) as (db2 & Hr2 & Hobs2 & Hf2); [by constructor|].
    exists db2. split; [exact Hr2|]. rewrite filter_cons_True, filter_nil by done. by rewrite <-app_assoc.
Qed.

Lemma drun_remove_all name l db :
  obs_is db name l →
  ∃ db', drun now (db_DeleteValue (name +:+ "._observers") true ;; db_Set (key_count name) (NewDynamicVar_int 0)) db
    = Some ((), db') ∧ obs_is db' name [] ∧ obs_frame name db db'.
Proof.
  intros Hobs. pose proof (obs_valid _ _ _ Hobs) as Hv.
  set (db1 := st_DeleteValue (name +:+ "._observers") true db).
  assert (keypath (name +:+ "._observers") = p_observers name) as Hk by (by rewrite (keypath_below name "_observers")).
  assert (valid db1) as Hv1 by (by apply Delete_valid).
  assert (∀ r, val db1 (npath name ++ "_observers" :: r) = NewEmptyDynamicVar) as Hall.
  { intros r. unfold db1. rewrite val_Delete_cascade, Hk, decide_True; [done|apply observers_prefix|done]. }
  destruct (count_Set name 0 db1 Hv1 eq_refl) as (Hv2 & Hc2 & He2 & Hf2).
  eexists. split; [reflexivity|]. split.
  - split; [exact Hv2|exact Hc2|done|]. intros i. etransitivity; [apply He2|].
    unfold entry, p_field. rewrite !Hall. by destruct (0 <=? i)%Z.
  - eapply obs_frame_trans; [|exact Hf2]. apply frame_Delete; [done|]. by rewrite Hk.
Qed.
End rep.

(** ** The observation map *)

(** What [GetAllObservingClients] builds from the entries: index to
    [(clientId, metadata)], without the entries that have no client. *)
Fixpoint obs_collect (a : Z) (l : list (string * string)) (res : gmap string (string * string)) :=
  match l with
  | [] => res
  | e :: l => obs_collect (a + 1) l (if decide (e.1 ≠ "") then <[Itoa a := e]> res else res)
  end.
Definition obs_map (l : list (string * string)) : gmap string (string * string) := obs_collect 0 l ∅.

Lemma lookup_obs_collect a l res k e :
  (∀ i, (a ≤ i)%Z → res !! Itoa i = None) →
  obs_collect a l res !! k = Some e ↔
  (∃ i, k = Itoa (a + Z.of_nat i) ∧ l !! i = Some e ∧ e.1 ≠ "") ∨ res !! k = Some e.
Proof.
  revert a res. induction l as [|x l IH]; intros a res Hres; cbn [obs_collect].
  { split; [by right|]. intros [(i & _ & Hi & _)|]; [by rewrite lookup_nil in Hi|done]. }
  rewrite IH.
  2:{ intros i Hi. case_decide; [|apply Hres; lia].
      rewrite lookup_insert_ne, Hres by (rewrite ?Itoa_inj_iff; lia). done. }
  assert ((∃ i, k = Itoa (a + Z.of_nat i) ∧ (x :: l) !! i = Some e ∧ e.1 ≠ "") ↔
    (k = Itoa a ∧ x = e ∧ e.1 ≠ "") ∨ ∃ i, k = Itoa (a + 1 + Z.of_nat i) ∧ l !! i = Some e ∧ e.1 ≠ "") as ->.
  { split.
    - intros ([|i] & -> & Hi & He); cbn in Hi.
      + left. rewrite Z.add_0_r. naive_solver.
      + right. exists i. split; [f_equal; lia|done].
    - intros [(-> & -> & He)|(i & -> & Hi & He)].
      + exists 0. by rewrite Z.add_0_r.
      + exists (S i). split; [f_equal; lia|done]. }
  case_decide as Hx.
  - rewrite lookup_insert_Some. split; [naive_solver|].
    intros [[(-> & -> & He)|?]|Hk]; [naive_solver..|].
    right. destruct (decide (Itoa a = k)) as [<-|]; [|naive_solver].
    rewrite Hres in Hk by lia. done.
  - naive_solver.
Qed.

Lemma lookup_obs_map l k e :
  obs_map l !! k = Some e ↔ ∃ i, k = Itoa (Z.of_nat i) ∧ l !! i = Some e ∧ e.1 ≠ "".
Proof.
  unfold obs_map. rewrite lookup_obs_collect by (intros; by rewrite lookup_empty).
  rewrite lookup_empty. naive_solver.
Qed.

Section refinement.
Context {DB : Type} {HI : IStorage DB} {HS : StorageSpec DB} `{Environment}.
Implicit Types (w : World DB) (l : list (string * string)).

Lemma drun_collect {now} name l n db res :
  obs_is db name l → n ≤ length l →
  drun now (for_up_acc (length l - n) (Z.of_nat n) (λ i (res : gmap string (string * string)),
      e ← read_entry name i;
      mret (if decide (e.1 ≠ "") then <[Itoa i := e]> res else res)) res) db
    = Some (obs_collect (Z.of_nat n) (drop n l) res, db).
Proof.
  intros Hobs. remember (length l - n) as k eqn:Hk. revert n res Hk.
  induction k as [|k IH]; intros n res Hk Hn.
  - by rewrite drop_ge by lia.
  - destruct (lookup_lt_is_Some_2 l n ltac:(lia)) as [e He]. cbn [for_up_acc].
    rewrite drun_bind, drun_read_entry by apply Hobs. rewrite (obs_is_entry _ _ _ _ _ Hobs He).
    cbn [drun mret prog_ret]. replace (Z.of_nat n + 1)%Z with (Z.of_nat (S n)) by lia.
    rewrite IH by lia. rewrite (drop_S l e n He). cbn [obs_collect].
    by replace (Z.of_nat n + 1)%Z with (Z.of_nat (S n)) by lia.
Qed.

(** ** Requests *)
Inductive obs_request :=
  | ReqRegister (clientID metadata : string)
  | ReqRemove (clientID metadata : string)
  | ReqRemoveById (obsID : string)
  | ReqRemoveClient (clientID : string)
  | ReqRemoveAll
  | ReqGetAll.

Inductive obs_answer :=
  | AnsDone
  | AnsId (obsID : string)
  | AnsMap (m : gmap string (string * string)).

(** The code. *)
Definition obs_call (c : ControllerVarHelper) (r : obs_request) : prog obs_answer :=
  match r with
  | ReqRegister cl md => id ← RegisterObservation c cl md; mret (AnsId id)
  | ReqRemove cl md => RemoveObservationByClientAndMetadata c cl md ;; mret AnsDone
  | ReqRemoveById id => RemoveObservationById c id ;; mret AnsDone
  | ReqRemoveClient cl => RemoveAllClientObservations c cl ;; mret AnsDone
  | ReqRemoveAll => RemoveAllObservations c ;; mret AnsDone
  | ReqGetAll => m ← GetAllObservations c; mret (AnsMap m)
  end.

(** The reference: a list. *)
Definition obs_at l (idx : Z) : string * string :=
  if (0 <=? idx)%Z then default ("", "") (l !! Z.to_nat idx) else ("", "").
Definition obs_ref (r : obs_request) l : obs_answer * list (string * string) :=
  match r with
  | ReqRegister cl md => (AnsId (Itoa (Z.of_nat (length l))), l ++ [(cl, md)])
  | ReqRemove cl md => (AnsDone, remove_last (cl, md) l)
  | ReqRemoveById id =>
      (AnsDone, match Atoi id with
                | None => l
                | Some idx => if decide (obs_at l idx = ("", "")) then l else remove_last (obs_at l idx) l
                end)
  | ReqRemoveClient cl => (AnsDone, filter (λ e, e.1 ≠ cl) l)
  | ReqRemoveAll => (AnsDone, [])
  | ReqGetAll => (AnsMap (obs_map l), l)
  end.

(** A critical section that changes the observations. *)
Lemma run_section {X} c l l' w (f : prog X) x :
  quiet w →
  (∃ db', drun (w_now w) f (w_db w) = Some (x, db') ∧ obs_is db' (vh_name c) l' ∧ obs_frame (vh_name c) (w_db w) db') →
  obs_is (w_db w) (vh_name c) l →
  ∃ w', run (runLocked c f) w = Some (Some x, w') ∧ evolves w w' (w_db w') ∧
    obs_is (w_db w') (vh_name c) l' ∧ obs_frame (vh_name c) (w_db w) (w_db w').
Proof.
  intros Hq (db' & Hd & Hobs & Hf) _.
  destruct (run_locked (vh_name c +:+ "._observationLock") (10 * Second) f w x db' Hq Hd) as (w' & Hr & He).
  exists w'. rewrite (evolves_db _ _ _ He). done.
Qed.

Lemma run_ignore {X Y} (p : prog X) (y : Y) w w' x :
  run p w = Some (x, w') → run (p ;; mret y) w = Some (y, w').
Proof. intros Hp. by rewrite (run_bind_eq _ _ _ _ _ Hp). Qed.

Lemma run_read_entry name i w :
  valid (w_db w) → run (read_entry name i) w = Some (entry (w_db w) name i, w).
Proof.
  intros Hv. rewrite <-(set_db_self w) at 3. apply run_drun. unfold read_entry.
  rewrite !drun_get, drun_ret. change (NewDynamicVar "") with NewEmptyDynamicVar.
  by rewrite !Get_empty, keypath_clientId, keypath_metadata.
Qed.

Lemma obs_call_remove c l w cl md :
  quiet w → obs_is (w_db w) (vh_name c) l →
  ∃ w', run (RemoveObservationByClientAndMetadata c cl md) w = Some ((), w') ∧ evolves w w' (w_db w') ∧
    obs_is (w_db w') (vh_name c) (remove_last (cl, md) l) ∧ obs_frame (vh_name c) (w_db w) (w_db w').
Proof.
  intros Hq Hobs.
  destruct (run_section c l (remove_last (cl, md) l) w (internalRemoveObserving c cl md) () Hq) as (w' & Hr & Hw');
    [exact (drun_internalRemove c (cl, md) l (w_db w) Hobs)|done|].
  exists w'. split; [|done]. by eapply run_ignore.
Qed.

(** Reading the observations changes nothing. *)
Lemma run_GetAllObservations c l w :
  quiet w → obs_is (w_db w) (vh_name c) l →
  ∃ w', run (GetAllObservations c) w = Some (obs_map l, w') ∧ evolves w w' (w_db w).
Proof.
  intros Hq Hobs.
  destruct (run_locked (vh_name c +:+ "._observationLock") (10 * Second) (cnt ← read_count (vh_name c);
      for_up_acc (Z.to_nat cnt) 0 (λ i (res : gmap string (string * string)),
        e ← read_entry (vh_name c) i;
        mret (if decide (e.1 ≠ "") then <[Itoa i := e]> res else res)) ∅) w (obs_map l) (w_db w) Hq)
    as (w' & Hr & Hw').
  { rewrite drun_read_count by apply Hobs. rewrite (obs_count _ _ _ Hobs), Nat2Z.id.
    pose proof (drun_collect (now:=w_now w) (vh_name c) l 0 (w_db w) ∅ Hobs ltac:(lia)) as Hd.
    by rewrite Nat.sub_0_r in Hd. }
  exists w'. split; [|done]. unfold GetAllObservations, GetAllObservingClients, runLocked. cbv zeta.
  by rewrite (run_bind_eq _ _ _ _ _ Hr).
Qed.

Lemma obs_call_spec c l w r :
  quiet w → obs_is (w_db w) (vh_name c) l → (Z.of_nat (length l) + 1 < int64_max)%Z →
  ∃ w', run (obs_call c r) w = Some ((obs_ref r l).1, w') ∧ evolves w w' (w_db w') ∧
    obs_is (w_db w') (vh_name c) (obs_ref r l).2 ∧ obs_frame (vh_name c) (w_db w) (w_db w').
Proof.
  intros Hq Hobs Hlen. destruct r as [cl md|cl md|id|cl| |]; cbn [obs_call obs_ref fst snd].
  - destruct (drun_register (now:=w_now w) (vh_name c) cl md l (w_db w) Hobs Hlen) as (db' & Hd & Hobs' & Hf & _).
    destruct (run_section c l (l ++ [(cl, md)]) w _ _ Hq (ex_intro _ db' (conj Hd (conj Hobs' Hf))) Hobs)
      as (w' & Hr & Hw').
    exists w'. split; [|done]. unfold RegisterObservation. rewrite run_bind.
    cbv zeta. by rewrite (run_bind_eq _ _ _ _ _ Hr).
  - destruct (obs_call_remove c l w cl md Hq Hobs) as (w' & Hr & Hw').
    exists w'. split; [|done]. by eapply run_ignore.
  - unfold RemoveObservationById. destruct (Atoi id) as [idx|]; cycle 1.
    { exists w. split; [done|]. split; [by apply evolves_refl|done]. }
    assert (entry (w_db w) (vh_name c) idx = obs_at l idx) as He by apply (obs_entry _ _ _ Hobs).
    set (f := λ e : string * string, if decide (e = ("", "")) then mret ()
                else RemoveObservationByClientAndMetadata c e.1 e.2).
    assert (run (read_entry (vh_name c) idx ≫= f) w = run (f (obs_at l idx)) w) as Hread.
    { apply run_bind_eq. rewrite <-He. apply run_read_entry, Hobs. }
    rewrite run_bind, Hread. unfold f. case_decide as Hz.
    + exists w. split; [done|]. split; [by apply evolves_refl|done].
    + destruct (obs_call_remove c l w (obs_at l idx).1 (obs_at l idx).2 Hq Hobs) as (w' & Hr & Hw').
      exists w'. rewrite Hr. split; [done|]. by destruct (obs_at l idx).
  - destruct (run_section c l (filter (λ e, e.1 ≠ cl) l) w (cnt ← read_count (vh_name c);
        for_down (Z.to_nat cnt) (λ i, e ← read_entry (vh_name c) i;
          if decide (e.1 = cl) then internalRemoveObserving c e.1 e.2 else mret tt)) () Hq) as (w' & Hr & Hw');
      [|done|].
    { rewrite drun_read_count by apply Hobs. rewrite (obs_count _ _ _ Hobs), Nat2Z.id.
      destruct (drun_remove_client (now:=w_now w) c cl l [] (w_db w)) as (db' & Hd & Hobs' & Hf); [by rewrite app_nil_r|done|].
      rewrite app_nil_r in Hobs'. by exists db'. }
    exists w'. split; [|done]. eapply run_ignore, run_ignore. exact Hr.
  - destruct (run_section c l [] w _ () Hq (drun_remove_all (vh_name c) l (w_db w) Hobs) Hobs) as (w' & Hr & Hw').
    exists w'. split; [|done]. eapply run_ignore, run_ignore. exact Hr.
  - destruct (run_GetAllObservations c l w Hq Hobs) as (w' & Hr & He).
    exists w'. rewrite (run_bind_eq _ _ _ _ _ Hr), (evolves_db _ _ _ He). done.
Qed.

(** Sequences of requests. *)
Fixpoint obs_calls (c : ControllerVarHelper) (rs : list obs_request) : prog (list obs_answer) :=
  match rs with
  | [] => mret []
  | r :: rs => a ← obs_call c r; l ← obs_calls c rs; mret (a :: l)
  end.
Fixpoint obs_refs (rs : list obs_request) l : list obs_answer * list (string * string) :=
  match rs with
  | [] => ([], l)
  | r :: rs => let '(a, l) := obs_ref r l in let '(al, l) := obs_refs rs l in (a :: al, l)
  end.

Lemma obs_ref_length r l : length (obs_ref r l).2 ≤ S (length l).
Proof.
  assert (∀ e l, length (remove_last e l) ≤ length l) as Hrem.
  { intros e l0. induction l0 as [|x l0 IH]; cbn; [done|]. repeat case_decide; cbn; lia. }
  destruct r; cbn; rewrite ?length_app; cbn; try lia.
  - pose proof (Hrem (clientID, metadata) l). lia.
  - destruct (Atoi obsID) as [i|]; [|lia]. case_decide; [lia|]. pose proof (Hrem (obs_at l i) l). lia.
  - pose proof (length_filter (λ e : string * string, e.1 ≠ clientID) l). lia.
Qed.

(** C18.  The observation registry of a variable refines a list: any sequence of
    [RegisterObservation], [RemoveObservationByClientAndMetadata],
    [RemoveObservationById], [RemoveAllClientObservations],
    [RemoveAllObservations] and [GetAllObservations] calls returns (all the
    loops end, no lock is left held), gives the answers of the list operations
    append, remove the last occurrence, filter, clear, and leaves every other
    entry of the database, and the rest of the world, as it was. *)
Theorem observations_refine_list c l w rs :
  quiet w → obs_is (w_db w) (vh_name c) l → (Z.of_nat (length l + length rs) < int64_max)%Z →
  ∃ w', run (obs_calls c rs) w = Some ((obs_refs rs l).1, w') ∧ evolves w w' (w_db w') ∧
    obs_is (w_db w') (vh_name c) (obs_refs rs l).2 ∧ obs_frame (vh_name c) (w_db w) (w_db w').
Proof.
  revert l w. induction rs as [|r rs IH]; intros l w Hq Hobs Hlen; cbn [obs_calls obs_refs length] in *.
  - exists w. split; [done|]. split; [by apply evolves_refl|done].
  - destruct (obs_call_spec c l w r Hq Hobs) as (w1 & Hr1 & He1 & Hobs1 & Hf1); [lia|].
    pose proof (obs_ref_length r l). destruct (obs_ref r l) as [a l1]. cbn [fst snd] in *.
    destruct (IH l1 w1) as (w2 & Hr2 & He2 & Hobs2 & Hf2); [apply He1|done|lia|].
    destruct (obs_refs rs l1) as [al l2]. cbn [fst snd] in *.
    exists w2. rewrite (run_bind_eq _ _ _ _ _ Hr1), (run_bind_eq _ _ _ _ _ Hr2). split; [done|].
    split; [by eapply evolves_trans|]. split; [done|]. by eapply obs_frame_trans.
Qed.
End refinement.

(** ** The metadata of a client *)
Section metadata.
Context {DB : Type} {HI : IStorage DB} {HS : StorageSpec DB} `{Environment}.

Lemma after_dot_lacks s : lacks dot s → after_dot s = None.
Proof. intros Hs. unfold after_dot. by rewrite (proj2 (Contains_byte_false s dot)). Qed.

Lemma GetChilds_lack key db k : valid db → k ∈ st_GetChilds key db → lacks dot k.
Proof.
  intros Hv Hk%GetChilds_spec; [|done]. apply view_names in Hk; [|done].
  apply Forall_app in Hk as [_ Hk]. by inversion Hk.
Qed.

(** [GetMetadatasOfAClient] keeps the part after the dot of the children of
    [byMetadata], but [GetChilds] returns immediate names, which have none: for
    every database, variable and client the answer is empty. *)
Theorem metadatas_never_found c clientID (w : World DB) :
  valid (w_db w) → run (GetMetadatasOfAClient c clientID) w = Some ([], w).
Proof.
  intros Hv. cbn. do 2 f_equal. pose proof (GetChilds_lack (key_byId (vh_name c) clientID +:+ ".byMetadata") (w_db w)) as Hl.
  induction (st_GetChilds _ (w_db w)) as [|k l IH]; [done|]. cbn.
  rewrite after_dot_lacks by (apply Hl; [done|by left]). apply IH. intros k' ? ?. apply Hl; [done|by right].
Qed.
End metadata.

(** ** On a fresh database *)
Section fresh.
Existing Instance canonical_order.
Existing Instance online.

Lemma fresh_obs name : obs_is fresh_db name [].
Proof.
  split; [apply fresh_valid| |done|].
  - unfold count. by rewrite fresh_val.
  - intros i. unfold entry. rewrite !fresh_val. by destruct (0 <=? i)%Z.
Qed.

Definition sample_obs_requests : list obs_request :=
  [ReqRegister "cl.1" "m"; ReqRegister "cl2" ""; ReqRegister "cl.1" "n"; ReqRemove "cl.1" "m";
   ReqGetAll; ReqRemoveById "1"; ReqRemoveClient "cl2"; ReqGetAll].

Lemma observations_refine_list_witness :
  let c := var_helper false "kitchen.lamp" in
  quiet fresh_world ∧ obs_is (w_db fresh_world) (vh_name c) [] ∧
  ∃ w', run (obs_calls c sample_obs_requests) fresh_world = Some ((obs_refs sample_obs_requests []).1, w') ∧
    evolves fresh_world w' (w_db w') ∧
    obs_is (w_db w') (vh_name c) (obs_refs sample_obs_requests []).2 ∧
    obs_frame (vh_name c) (w_db fresh_world) (w_db w').
Proof.
  intros c. split; [apply quiet_world_of|]. split; [apply fresh_obs|].
  apply (observations_refine_list c [] fresh_world sample_obs_requests).
  - apply quiet_world_of.
  - apply fresh_obs.
  - reflexivity.
Defined.

Lemma metadatas_never_found_witness :
  let c := var_helper false "lamp" in
  let w := world_of (st_Set (key_byMetadata (vh_name c) "cl" "m1") (NewDynamicVar "0") fresh_db) in
  valid (w_db w) ∧ run (GetMetadatasOfAClient c "cl") w = Some ([], w).
Proof.
  intros c w. assert (valid (w_db w)) as Hv by (apply Set_valid, fresh_valid).
  split; [exact Hv|]. exact (metadatas_never_found c "cl" w Hv).
Defined.

(** ** The index [byId] is not the list *)

(** The index by client disagrees with the list.  Unregistering one of two
    observations of a client deletes its whole index subtree, so
    [IsClientObserving] denies the one that is left; and it affirms an
    observation with empty metadata that was never made, because the key then
    ends in a dot and denotes the node of all the client's metadata. *)
Theorem index_disagrees_with_list :
  let c := var_helper false "lamp" in
  let prg :=
    RegisterObservation c "cl" "m1" ;; RegisterObservation c "cl" "m2" ;;
    b0 ← IsClientObserving c "cl" "";
    RemoveObservationByClientAndMetadata c "cl" "m1" ;;
    obs ← GetAllObservingClients c;
    b2 ← IsClientObserving c "cl" "m2";
    mret (b0, obs, b2) in
  fst <$> run prg fresh_world = Some (true, {["0" := ("cl", "m2")]}, false).
Proof. by vm_compute. Qed.

End fresh.
