(* ===== verification/VarLock.v ===== *)
(** * Flags and the lock of a variable

    The methods of [ControllerVarHelper] on the [_lock] flag, one goroutine at a
    time: the flag on the database, the retry loop of [Lock] and its time-out.
    The lock among concurrent goroutines is in [LockProtocol.v]. *)
From S2P Require Import Prelude GoStrings GoStrconv Misc NamedLock Storage RamCacheDB Reference Runtime Samples VarHelper Observations.

Section lock.
Context {DB : Type} {HI : IStorage DB} {HS : StorageSpec DB} `{Environment}.
Implicit Types (w : World DB) (db : DB) (c : ControllerVarHelper).

Definition key_lock (name : string) : string := name +:+ "." +:+ "_lock".
Definition p_lock (name : string) : list string := npath name ++ ["_lock"].

Lemma keypath_lock name : keypath (key_lock name) = p_lock name.
Proof. unfold key_lock. change (name +:+ "." +:+ "_lock") with (name +:+ String dot "_lock"). by rewrite keypath_below. Qed.

(** The flag of [name] is up. *)
Definition lock_flag (v : string) : bool := negb (bool_decide (v = "0")) && negb (bool_decide (v = "")).
Definition locked (db : DB) (name : string) : bool := lock_flag (GetString (val db (p_lock name))).

Lemma drun_IsLocked {now} c db : valid db → drun now (IsLocked c) db = Some (locked db (vh_name c), db).
Proof.
  intros Hv. unfold IsLocked, GetFlag. cbn [flag_key]. rewrite decide_False by done. rewrite drun_get, drun_ret.
  change (_ +:+ "." +:+ ("_" +:+ "lock")) with (key_lock (vh_name c)).
  rewrite Get_spec, keypath_lock by done. unfold locked, val, value_at.
  by destruct (view db (p_lock (vh_name c))) as [v|].
Qed.

Lemma drun_SetLock {now} c v db :
  drun now (SetFlag c "lock" v) db = Some ((), st_Set (key_lock (vh_name c)) v db).
Proof. unfold SetFlag. cbn [flag_key]. by rewrite decide_False. Qed.

Lemma locked_Set db name v :
  valid db → locked (st_Set (key_lock name) v db) name = lock_flag (GetString v).
Proof. intros Hv. unfold locked. by rewrite val_Set, keypath_lock, decide_True. Qed.

Lemma run_IsLocked c w : valid (w_db w) → run (IsLocked c) w = Some (locked (w_db w) (vh_name c), w).
Proof. intros Hv. rewrite <-(set_db_self w) at 3. by apply run_drun, drun_IsLocked. Qed.

(** The critical section of [Lock]: test and set. *)
Lemma run_tryLock c w :
  quiet w → valid (w_db w) →
  let free := negb (locked (w_db w) (vh_name c)) in
  ∃ w', run (tryLock c) w = Some (free, w') ∧
    evolves w w' (if free then st_Set (key_lock (vh_name c)) (NewDynamicVar "1") (w_db w) else w_db w).
Proof.
  intros Hq Hv free.
  destruct (run_locked "varLockerSystem" 0 (b ← IsLocked c;
      if b : bool then mret false else SetFlag c "lock" (NewDynamicVar "1") ;; IsLocked c) w free
      (if free then st_Set (key_lock (vh_name c)) (NewDynamicVar "1") (w_db w) else w_db w) Hq) as (w' & Hr & He).
  { rewrite (drun_bind_eq _ _ _ _ _ (drun_IsLocked c (w_db w) Hv)). subst free.
    destruct (locked (w_db w) (vh_name c)); [done|]. cbn [negb].
    rewrite (drun_bind_eq _ _ _ _ _ (drun_SetLock c _ (w_db w))).
    rewrite drun_IsLocked by (by apply Set_valid). by rewrite locked_Set. }
  exists w'. split; [|done]. unfold tryLock. by rewrite (run_bind_eq _ _ _ _ _ Hr).
Qed.

(** A goroutine that finds the variable locked waits for its time-out. *)
Lemma run_Lock_loop_busy fuel c w start maxTimeout :
  quiet w → valid (w_db w) → locked (w_db w) (vh_name c) = true → (start ≤ w_now w)%Z →
  (maxTimeout - (w_now w - start) ≤ (Z.of_nat fuel - 1) * Millisecond)%Z → fuel ≠ 0 →
  ∃ w', run (Lock_loop fuel c start maxTimeout) w = Some (Some (Err "timeout reached"), w') ∧
    quiet w' ∧ w_db w' = w_db w ∧ (start + maxTimeout ≤ w_now w')%Z ∧
    (w_now w' < Z.max (w_now w + Millisecond) (start + maxTimeout + 10 * Millisecond))%Z.
Proof.
  revert w. induction fuel as [|fuel IH]; intros w Hq Hv Hl Hs Hfuel Hne; [done|].
  destruct (run_tryLock c w Hq Hv) as (w1 & Hr1 & He1). rewrite Hl in Hr1, He1. cbn [negb] in *.
  cbn [Lock_loop]. rewrite (run_bind_eq _ _ _ _ _ Hr1). cbn [run do_ mbind prog_bind exec].
  assert (w_now w1 = w_now w ∧ w_db w1 = w_db w) as [Hn1 Hd1] by (by destruct He1 as [-> _]).
  destruct (Z.leb_spec maxTimeout (w_now w1 - start)) as [Hto|Hto].
  { exists w1. split; [done|]. split; [apply He1|]. split; [done|]. unfold Millisecond. lia. }
  cbn [run do_ mbind prog_bind exec]. set (r := env_rand (w_calls w1) 9).
  assert (0 ≤ r < 9)%Z as Hrand by (by apply env_rand_bounds).
  set (w2 := set_now _ _). destruct (IH w2) as (w' & Hr & Hq' & Hd' & Hlo & Hhi).
  - intros n. apply He1.
  - cbn. by rewrite Hd1.
  - cbn. by rewrite Hd1.
  - cbn. unfold Millisecond. lia.
  - cbn. unfold Millisecond in *. rewrite Nat2Z.inj_succ in Hfuel. lia.
  - intros ->. unfold Millisecond in *. lia.
  - exists w'. split; [exact Hr|]. split; [done|]. split; [rewrite Hd'; cbn; by rewrite Hd1|]. split; [done|].
    cbn in Hhi. unfold Millisecond in *. lia.
Qed.

Lemma lock_timeout_ne ms : lock_timeout ms ≠ 0%Z.
Proof. unfold lock_timeout. case_decide; [done|done]. Qed.

Lemma lock_fuel_enough t : (t ≤ (Z.of_nat (lock_fuel t) - 1) * Millisecond)%Z.
Proof.
  unfold lock_fuel, Millisecond. pose proof (Z.div_mod t 1000000 ltac:(lia)).
  pose proof (Z.mod_pos_bound t 1000000 ltac:(lia)). lia.
Qed.

(** [Lock], alone. *)
Lemma run_Lock c ms w :
  quiet w → valid (w_db w) →
  ∃ r w', run (Lock c ms) w = Some (Some r, w') ∧ quiet w' ∧
    if locked (w_db w) (vh_name c) then
      r = Err "timeout reached" ∧ w_db w' = w_db w ∧
      (w_now w + lock_timeout ms ≤ w_now w' < w_now w + Z.max 0 (lock_timeout ms) + 10 * Millisecond)%Z
    else
      r = Ok () ∧ evolves w w' (st_Set (key_lock (vh_name c)) (NewDynamicVar "1") (w_db w)) ∧
      locked (w_db w') (vh_name c) = true.
Proof.
  intros Hq Hv. unfold Lock. cbn [run do_ mbind prog_bind exec].
  destruct (locked (w_db w) (vh_name c)) eqn:Hl.
  - destruct (run_Lock_loop_busy (lock_fuel (lock_timeout ms)) c w (w_now w) (lock_timeout ms))
      as (w' & Hr & Hq' & Hd & Hlo & Hhi); try done.
    + pose proof (lock_fuel_enough (lock_timeout ms)). lia.
    + unfold lock_fuel. lia.
    + eexists _, w'. split; [exact Hr|]. split_and!; [done..| |]; unfold Millisecond in *; lia.
  - destruct (run_tryLock c w Hq Hv) as (w' & Hr & He). rewrite Hl in Hr, He. cbn [negb] in *.
    exists (Ok ()), w'. replace (lock_fuel (lock_timeout ms)) with (S (Z.to_nat (lock_timeout ms / Millisecond) + 1))
      by (unfold lock_fuel; lia).
    cbn [Lock_loop]. rewrite (run_bind_eq _ _ _ _ _ Hr). split; [done|]. split; [apply He|].
    split; [done|]. split; [done|]. rewrite (evolves_db _ _ _ He). by rewrite locked_Set.
Qed.

(** C23.  [Lock] by a goroutine that runs alone always returns: on an unlocked
    variable it raises the flag and succeeds at once; on a locked one it fails
    with the time-out error, changing nothing, no earlier than the time-out
    (30 seconds for [0]) and less than ten milliseconds after it. *)
Theorem Lock_spec c ms w :
  quiet w → valid (w_db w) →
  ∃ r w', run (Lock c ms) w = Some (Some r, w') ∧ quiet w' ∧
    if locked (w_db w) (vh_name c) then
      r = Err "timeout reached" ∧ w_db w' = w_db w ∧
      (w_now w + lock_timeout ms ≤ w_now w' < w_now w + Z.max 0 (lock_timeout ms) + 10 * Millisecond)%Z
    else
      r = Ok () ∧ evolves w w' (st_Set (key_lock (vh_name c)) (NewDynamicVar "1") (w_db w)) ∧
      locked (w_db w') (vh_name c) = true.
Proof. apply run_Lock. Qed.

(** A time-out that is not positive allows one attempt. *)
Lemma run_Lock_once c ms w :
  quiet w → valid (w_db w) → (lock_timeout ms ≤ 0)%Z →
  let free := negb (locked (w_db w) (vh_name c)) in
  ∃ w', run (Lock c ms) w = Some (Some (if free then Ok () else Err "timeout reached"), w') ∧
    evolves w w' (if free then st_Set (key_lock (vh_name c)) (NewDynamicVar "1") (w_db w) else w_db w).
Proof.
  intros Hq Hv Ht free. destruct (run_tryLock c w Hq Hv) as (w' & Hr & He). exists w'. split; [|exact He].
  unfold Lock. cbn [run do_ mbind prog_bind exec].
  replace (lock_fuel (lock_timeout ms)) with (S (Z.to_nat (lock_timeout ms / Millisecond) + 1)) by (unfold lock_fuel; lia).
  cbn [Lock_loop]. rewrite (run_bind_eq _ _ _ _ _ Hr). fold free. destruct free; [done|].
  cbn [run do_ mbind prog_bind exec]. replace (w_now w') with (w_now w) by (by destruct He as [-> _]).
  destruct (Z.leb_spec (lock_timeout ms) (w_now w - w_now w)); [done|lia].
Qed.

(** [Unlock] lowers the flag, whoever raised it. *)
Lemma run_Unlock c w :
  quiet w → valid (w_db w) →
  ∃ w', run (Unlock c) w = Some (Ok (), w') ∧
    evolves w w' (st_Set (key_lock (vh_name c)) (NewDynamicVar "0") (w_db w)) ∧
    locked (w_db w') (vh_name c) = false.
Proof.
  intros Hq Hv.
  destruct (run_locked "varLockerSystem" 0 _ w _ _ Hq (drun_SetLock c (NewDynamicVar "0") (w_db w))) as (w' & Hr & He).
  exists w'. split; [unfold Unlock; by rewrite (run_bind_eq _ _ _ _ _ Hr)|]. split; [done|].
  rewrite (evolves_db _ _ _ He). by rewrite locked_Set.
Qed.
End lock.

Section witness.
Existing Instance canonical_order.
Existing Instance online.

Lemma Lock_spec_witness :
  let c := var_helper false "lamp" in
  let w := world_of (st_Set "vars.lamp._lock" (NewDynamicVar "1") fresh_db) in
  quiet w ∧ valid (w_db w) ∧
  ∃ r w', run (Lock c 100) w = Some (Some r, w') ∧ quiet w' ∧
    if locked (w_db w) (vh_name c) then
      r = Err "timeout reached" ∧ w_db w' = w_db w ∧
      (w_now w + lock_timeout 100 ≤ w_now w' < w_now w + Z.max 0 (lock_timeout 100) + 10 * Millisecond)%Z
    else
      r = Ok () ∧ evolves w w' (st_Set (key_lock (vh_name c)) (NewDynamicVar "1") (w_db w)) ∧
      locked (w_db w') (vh_name c) = true.
Proof.
  intros c w. assert (quiet w) as Hq by apply quiet_world_of.
  assert (valid (w_db w)) as Hv by (apply Set_valid, fresh_valid).
  split; [exact Hq|]. split; [exact Hv|]. exact (Lock_spec c 100 w Hq Hv).
Defined.
End witness.
