(* ===== verification/ClientHelper.v ===== *)
(** * The client helper ([sources/controller/controller_clienthelper.go])

    [ControllerClientHelper] keeps the record of a client in the database: its
    index in the list of clients, the API it is connected through, the time it
    was last seen, and the array of the variables it observes. *)
From S2P Require Import Prelude GoStrings GoStrconv Misc NamedLock Storage Runtime.

(** ** Definitions *)

(** An API is known by its [GetApiId]; [None] is a nil [api]. *)
Record ControllerClientHelper := mkCH { ch_clientId : string; ch_api : option string }.

Definition ErrAPIIdNotFound : string := "API_NOT_FOUND".

(** Keys. *)
Definition key_client (id : string) : string := "internal.clients.byId." +:+ id.
Definition key_apiId (id : string) : string := key_client id +:+ ".apiId".
Definition key_lastLiveTime (id : string) : string := key_client id +:+ ".lastLiveTime".
Definition base_observing (id : string) : string := key_client id +:+ ".observing".
Definition base_clients : string := "internal.clients.list".

Definition currentTimeSeconds : prog Z := now ← do_ Time_Now; mret (now / Second)%Z.

Definition UpdateLiveTime (h : ControllerClientHelper) : prog unit :=
  t ← currentTimeSeconds; db_Set (key_lastLiveTime (ch_clientId h)) (NewDynamicVar_int t).

Definition GetLastLiveTime (h : ControllerClientHelper) : prog Z :=
  t ← db_Get (key_lastLiveTime (ch_clientId h)) (NewDynamicVar_int 0); mret (GetInt64 t).

Definition TimeSinceLastLiveTime (h : ControllerClientHelper) : prog Z :=
  now ← currentTimeSeconds; t ← GetLastLiveTime h; mret (wrap64 (now - t)).

(** The body of [initialize], under the lock ["db.intenal.clients"]. *)
Definition initialize_body (h : ControllerClientHelper) : prog unit :=
  known ← db_HasValue (key_client (ch_clientId h));
  when (negb known) (
    tcnt ← db_Get (base_clients +:+ ".count") (NewDynamicVar_int 0);
    let cnt := GetInt64 tcnt in
    db_Set (base_clients +:+ ".count") (NewDynamicVar_int (wrap64 (cnt + 1))) ;;
    db_Set (base_clients +:+ "." +:+ Itoa cnt) (NewDynamicVar (ch_clientId h)) ;;
    db_Set (key_client (ch_clientId h)) (NewDynamicVar_int cnt)) ;;
  match ch_api h with
  | Some api => db_Set (key_apiId (ch_clientId h)) (NewDynamicVar api)
  | None => mret tt
  end ;;
  UpdateLiveTime h.

Definition initialize (h : ControllerClientHelper) : prog unit :=
  NamedLockRun "db.intenal.clients" (2 * Second) (initialize_body h) ;; mret tt.

Definition NewControllerClientHelper (clientId : string) (api : option string) : prog ControllerClientHelper :=
  let h := mkCH clientId api in initialize h ;; mret h.

Definition NewControllerClientHelperWithApis (clientId : string) : prog (result string ControllerClientHelper) :=
  t ← db_Get (key_apiId clientId) (NewDynamicVar "");
  let apiId := GetString t in
  if decide (apiId = "") then mret (Err ErrAPIIdNotFound)
  else
    ok ← do_ (Apis_lookup apiId);
    if ok : bool then h ← NewControllerClientHelper clientId (Some apiId); mret (Ok h)
    else mret (Err ErrAPIIdNotFound).

Definition SetControlledClientId (clientId apiId : string) (h : ControllerClientHelper) : prog ControllerClientHelper :=
  let h := mkCH clientId (ch_api h) in
  match ch_api h with
  | Some api => db_Set (key_apiId clientId) (NewDynamicVar api)
  | None => if decide (apiId ≠ "") then db_Set (key_apiId clientId) (NewDynamicVar apiId) else mret tt
  end ;;
  mret h.

Definition IsConnected (h : ControllerClientHelper) : prog bool :=
  match ch_api h with
  | None => mret false
  | Some api =>
      ret ← do_ (Api_CheckAlive api (ch_clientId h));
      when ret (UpdateLiveTime h) ;;
      mret ret
  end.

Definition GetObservingVarsCount (h : ControllerClientHelper) : prog Z :=
  t ← db_Get (base_observing (ch_clientId h) +:+ ".count") (NewDynamicVar_int 0); mret (GetInt64 t).

(** [curr] without its ["vars."] *)
Definition strip_vars (curr : string) : string :=
  if (5 <? len curr) && HasPrefix curr "vars." then curr.[5:] else curr.

(** [mapM] over the children, in order. *)
Fixpoint prog_mapM {X Y} (f : X → prog Y) (l : list X) : prog (list Y) :=
  match l with
  | [] => mret []
  | x :: l => y ← f x; ys ← prog_mapM f l; mret (y :: ys)
  end.

Definition is_counter (c : string) : bool := Contains c "count" || Contains c "size".
Definition GetObservingVars (h : ControllerClientHelper) : prog (list string) :=
  childs ← db_GetChilds (base_observing (ch_clientId h));
  prog_mapM (λ c,
    tcurr ← db_Get (base_observing (ch_clientId h) +:+ "." +:+ c) (NewDynamicVar "");
    mret (strip_vars (GetString tcurr)))
    (filter (λ c, is_counter c = false) childs).

(** [true] for the answer ["LIVE"]. *)
Definition Notify (h : ControllerClientHelper) (varsAndValues : payload) : prog DynamicVar :=
  match ch_api h with
  | None => mret (NewDynamicVar "DISCONNECTED")
  | Some api =>
      ok ← do_ (Api_NotifyClient api (ch_clientId h) varsAndValues);
      if ok : bool then UpdateLiveTime h ;; mret (NewDynamicVar "LIVE")
      else mret (NewDynamicVar "DISCONNECTED")
  end.

Definition RegisterNewObservation (h : ControllerClientHelper) (varName : string) : prog unit :=
  let varName := "vars." +:+ varName in
  NamedLockRun "db.intenal.clients" (2 * Second) (
    UpdateLiveTime h ;;
    tcurr ← db_Get (base_observing (ch_clientId h) +:+ ".count") (NewDynamicVar_int 0);
    let curr := GetInt64 tcurr in
    db_Set (base_observing (ch_clientId h) +:+ ".count") (NewDynamicVar_int (wrap64 (curr + 1))) ;;
    db_Set (base_observing (ch_clientId h) +:+ "." +:+ Itoa curr) (NewDynamicVar varName)) ;;
  mret tt.

(** The index of the first entry that is [varName], from [i] on; [-1] if none. *)
Fixpoint find_from (n : nat) (i : Z) (base varName : string) : prog Z :=
  match n with
  | O => mret (-1)%Z
  | S n =>
      tv ← db_Get (base +:+ "." +:+ Itoa i) (NewDynamicVar "");
      if decide (GetString tv = varName) then mret i else find_from n (i + 1) base varName
  end.
Definition findVarIndexOnObservingVars (h : ControllerClientHelper) (varName : string) : prog Z :=
  cnt ← GetObservingVarsCount h;
  find_from (Z.to_nat cnt) 0 (base_observing (ch_clientId h)) varName.

(** [for c := idx; c < n-1; c++ { base.c = base.(c+1) }] *)
Definition shift_down (base : string) (idx n : Z) : prog unit :=
  for_up (Z.to_nat (wrap64 (n - 1) - idx)) idx (λ c,
    next ← db_Get (base +:+ "." +:+ Itoa (wrap64 (c + 1))) (NewDynamicVar "");
    db_Set (base +:+ "." +:+ Itoa c) next).

Definition UnregisterObservation (h : ControllerClientHelper) (varName : string) : prog unit :=
  let varName := "vars." +:+ varName in
  let base := base_observing (ch_clientId h) in
  NamedLockRun "db.intenal.clients" (5 * Second) (
    UpdateLiveTime h ;;
    curr ← GetObservingVarsCount h;
    idx ← findVarIndexOnObservingVars h varName;
    when (bool_decide (-1 < idx)%Z) (
      shift_down base idx curr ;;
      db_DeleteValue (base +:+ "." +:+ Itoa (wrap64 (curr - 1))) false ;;
      db_Set (base +:+ ".count") (NewDynamicVar_int (wrap64 (curr - 1))))) ;;
  mret tt.

Definition GetClientId (h : ControllerClientHelper) : string := ch_clientId h.

Definition GetAPIId (h : ControllerClientHelper) : prog string :=
  ta ← db_Get (key_apiId (ch_clientId h)) (NewDynamicVar ""); mret (GetString ta).

(** The entry of the client in the list of clients, at the index stored with it. *)
Definition remove_from_list (clientIndex : Z) : prog unit :=
  when (bool_decide (-1 < clientIndex)%Z) (
    tcc ← db_Get (base_clients +:+ ".count") (NewDynamicVar_int 0);
    let currentCount := GetInt64 tcc in
    shift_down base_clients clientIndex currentCount ;;
    let currentCount := wrap64 (currentCount - 1) in
    db_DeleteValue (base_clients +:+ "." +:+ Itoa currentCount) false ;;
    db_Set (base_clients +:+ ".count") (NewDynamicVar_int currentCount)).

Definition remove_client_body (h : ControllerClientHelper) : prog unit :=
  tci ← db_Get (key_client (ch_clientId h)) (NewDynamicVar_int (-1));
  remove_from_list (GetInt64 tci) ;;
  db_DeleteValue (key_client (ch_clientId h)) true.

Definition RemoveClientFromObservationSystem (h : ControllerClientHelper) : prog unit :=
  NamedLockRun "db.intenal.clients" (5 * Second) (remove_client_body h) ;; mret tt.
