(* ===== verification/DbList.v ===== *)
(** * Arrays in the database

    The client helper stores two lists, the clients and the variables of a
    client, each as the entries [base.0], [base.1], ... and [base.count].  This
    file gives their representation as lists of strings and what appending and
    deleting by shifting do to it. *)
From S2P Require Import Prelude GoStrings GoStrconv Misc NamedLock Storage Runtime ClientHelper.

Section dblist.
Context {DB : Type} {HI : IStorage DB} {HS : StorageSpec DB} {now : Z}.
Implicit Types (db : DB) (l : list string) (q : list string).

(** ** Writes below a path *)

Lemma view_Set_below q db key v k0 k r :
  valid db → keypath key = q ++ [k0] →
  view (st_Set key v db) (q ++ k :: r) = if decide (k :: r = [k0]) then Some v else view db (q ++ k :: r).
Proof.
  intros Hv Hk. rewrite Set_spec by done. unfold spec_set. rewrite Hk.
  destruct (decide (k :: r = [k0])) as [->|Hne]; [by rewrite decide_True|].
  rewrite decide_False by (by rewrite app_inv_prefix).
  rewrite decide_False; [done|]. intros Hp. apply prefix_app_inv in Hp.
  destruct Hp as [s Hs]. destruct r; [|done]. cbn in Hs. injection Hs as -> Hs. by destruct s.
Qed.

(** A write elsewhere. *)
Lemma view_Set_apart q db key v k r :
  valid db → ¬ q `prefix_of` keypath key → view (st_Set key v db) (q ++ k :: r) = view db (q ++ k :: r).
Proof.
  intros Hv Hq. rewrite Set_spec by done. unfold spec_set. rewrite !decide_False; [done| |].
  - intros [s Hs]. apply Hq. exists ((k :: r) ++ s). by rewrite app_assoc.
  - intros He. apply Hq. rewrite <-He. by exists (k :: r).
Qed.

Lemma view_Delete_below q db key k0 k r :
  valid db → keypath key = q ++ [k0] → ¬ has_child (view db) (q ++ [k0]) →
  view (st_DeleteValue key false db) (q ++ k :: r) = if decide (k :: r = [k0]) then None else view db (q ++ k :: r).
Proof.
  intros Hv Hk Hc. destruct (decide (k :: r = [k0])) as [->|Hne].
  - rewrite <-Hk. apply Delete_leaf; [done|by rewrite Hk].
  - apply Delete_other; [done|]. rewrite Hk. by rewrite app_inv_prefix.
Qed.

(** Values not below [q] are as they were. *)
Definition frame_at q db db' : Prop := ∀ p, ¬ q `prefix_of` p → val db' p = val db p.

Lemma frame_at_trans q db1 db2 db3 : frame_at q db1 db2 → frame_at q db2 db3 → frame_at q db1 db3.
Proof. intros H1 H2 p Hp. rewrite H2 by done. by apply H1. Qed.

Lemma frame_at_Set q db key v : valid db → q `prefix_of` keypath key → frame_at q db (st_Set key v db).
Proof. intros Hv Hk p Hp. rewrite val_Set by done. by rewrite decide_False by congruence. Qed.

Lemma frame_at_Delete q db key : valid db → q `prefix_of` keypath key → frame_at q db (st_DeleteValue key false db).
Proof. intros Hv Hk p Hp. rewrite val_Delete_value by done. by rewrite decide_False by congruence. Qed.

(** ** The representation *)
Definition idx (i : nat) : string := Itoa (Z.of_nat i).

Lemma idx_inj i j : idx i = idx j ↔ i = j.
Proof. unfold idx. rewrite Itoa_inj_iff. lia. Qed.

Lemma idx_ne_count i : idx i ≠ "count".
Proof. by apply Itoa_ne_letter. Qed.

Record list_is db q l : Prop := {
  li_valid : valid db;
  li_count : GetInt64 (val db (q ++ ["count"])) = Z.of_nat (length l);
  li_bound : (Z.of_nat (length l) < int64_max)%Z;
  li_some : ∀ i x, l !! i = Some x → view db (q ++ [idx i]) = Some (NewDynamicVar x);
  li_none : ∀ k, is_Some (view db (q ++ [k])) → k = "count" ∨ ∃ i, i < length l ∧ k = idx i;
  li_leaf : ∀ k, ¬ has_child (view db) (q ++ [k])
}.

(** The representation only depends on what is below [q]. *)
Lemma list_is_ext db db' q l :
  valid db' → (∀ k r, view db' (q ++ k :: r) = view db (q ++ k :: r)) → list_is db q l → list_is db' q l.
Proof.
  intros Hv Heq [_ Hc Hb Hs Hn Hl]. split; [done| |done| | |].
  - rewrite <-Hc. unfold val, value_at. by rewrite Heq.
  - intros i x Hi. rewrite Heq. by apply Hs.
  - intros k. rewrite Heq. apply Hn.
  - intros k [k' Hk]. apply (Hl k). exists k'. rewrite <-app_assoc in *. cbn [app] in *. by rewrite Heq in Hk.
Qed.

(** No entry at all. *)
Lemma list_is_empty db q : valid db → (∀ k r, view db (q ++ k :: r) = None) → list_is db q [].
Proof.
  intros Hv Hn. split; [done| |done|done| |].
  - unfold val, value_at. by rewrite Hn.
  - intros k. rewrite Hn. by intros [].
  - intros k [k' Hk]. rewrite <-app_assoc in Hk. cbn [app] in Hk. rewrite Hn in Hk. by destruct Hk.
Qed.

(** ** Intermediate states: [n] cells with contents [f], the rest as in [db0] *)
Record cells db0 q (n : nat) (f : nat → string) db : Prop := {
  ce_valid : valid db;
  ce_in : ∀ i, i < n → view db (q ++ [idx i]) = Some (NewDynamicVar (f i));
  ce_out : ∀ k r, (∀ i, i < n → k :: r ≠ [idx i]) → view db (q ++ k :: r) = view db0 (q ++ k :: r);
  ce_frame : frame_at q db0 db
}.

Lemma list_is_cells db q l : list_is db q l → cells db q (length l) (λ i, default "" (l !! i)) db.
Proof.
  intros [Hv Hc Hb Hs Hn Hl]. split; [done| |done|done].
  intros i Hi. destruct (lookup_lt_is_Some_2 l i Hi) as [x Hx]. rewrite Hx. by apply Hs.
Qed.

Context (base : string).
Abbreviation bq := (npath base).

Lemma keypath_cell k : lacks dot k → k ≠ "" → keypath (base +:+ "." +:+ k) = bq ++ [k].
Proof.
  intros Hk Hne. change (base +:+ "." +:+ k) with (base +:+ String dot k).
  rewrite keypath_below; rewrite SplitByte_lacks by done; [done|]. cbn. congruence.
Qed.

Lemma keypath_idx z : keypath (base +:+ "." +:+ Itoa z) = bq ++ [Itoa z].
Proof. apply keypath_cell; auto with vss. Qed.

Lemma keypath_len : keypath (base +:+ ".count") = bq ++ ["count"].
Proof. exact (keypath_cell "count" eq_refl ltac:(done)). Qed.

Definition shift_body (c : Z) : prog unit :=
  next ← db_Get (base +:+ "." +:+ Itoa (wrap64 (c + 1))) (NewDynamicVar "");
  db_Set (base +:+ "." +:+ Itoa c) next.

Lemma drun_shift_body db0 n f db j :
  cells db0 bq n f db → S j < n → (Z.of_nat n < int64_max)%Z →
  ∃ db', drun now (shift_body (Z.of_nat j)) db = Some ((), db') ∧
    cells db0 bq n (λ i, if decide (i = j) then f (S j) else f i) db'.
Proof.
  intros [Hv Hin Hout Hf] Hj Hb. unfold shift_body.
  rewrite wrap64_small by (unfold in_int64, int64_min, int64_max in *; lia). rewrite drun_get.
  assert (st_Get (base +:+ "." +:+ Itoa (Z.of_nat j + 1)) (NewDynamicVar "") db = NewDynamicVar (f (S j))) as ->.
  { rewrite Get_spec, keypath_idx by done. replace (Z.of_nat j + 1)%Z with (Z.of_nat (S j)) by lia.
    change (Itoa (Z.of_nat (S j))) with (idx (S j)). by rewrite Hin. }
  eexists. split; [reflexivity|]. split.
  - by apply Set_valid.
  - intros i Hi. rewrite (view_Set_below bq _ _ _ (idx j)) by (done || apply keypath_idx).
    destruct (decide (i = j)) as [->|Hij]; [by rewrite decide_True|].
    rewrite decide_False; [by apply Hin|]. intros [= He]. by apply idx_inj in He.
  - intros k r Hk. rewrite (view_Set_below bq _ _ _ (idx j)) by (done || apply keypath_idx).
    rewrite decide_False by (apply Hk; lia). by apply Hout.
  - eapply frame_at_trans; [exact Hf|]. apply frame_at_Set; [done|]. rewrite keypath_idx. by apply prefix_app_r.
Qed.

Lemma drun_shift_cells db0 n m f db j :
  cells db0 bq n f db → j + m < n → (Z.of_nat n < int64_max)%Z →
  ∃ db', drun now (for_up m (Z.of_nat j) shift_body) db = Some ((), db') ∧
    cells db0 bq n (λ i, if decide (j ≤ i < j + m) then f (S i) else f i) db'.
Proof.
  revert j f db. induction m as [|m IH]; intros j f db Hc Hj Hb.
  - exists db. split; [done|]. destruct Hc as [Hv Hin Hout Hf]. split; [done| |done|done].
    intros i Hi. rewrite decide_False by lia. by apply Hin.
  - destruct (drun_shift_body db0 n f db j Hc) as (db1 & Hr1 & Hc1); [lia|done|].
    destruct (IH (S j) _ db1 Hc1) as (db2 & Hr2 & [Hv Hin Hout Hf]); [lia|done|].
    exists db2. split.
    { cbn [for_up]. rewrite (drun_bind_eq _ _ _ _ _ Hr1).
      by replace (Z.of_nat j + 1)%Z with (Z.of_nat (S j)) by lia. }
    split; [done| |done|done]. intros i Hi. rewrite Hin by done.
    repeat case_decide; try lia; try done. by replace j with i by lia.
Qed.

(** ** The operations on the list *)

(** Appending, the length first. *)
Lemma list_append db l x :
  list_is db bq l → (Z.of_nat (length l) + 1 < int64_max)%Z →
  let db' := st_Set (base +:+ "." +:+ Itoa (Z.of_nat (length l))) (NewDynamicVar x)
               (st_Set (base +:+ ".count") (NewDynamicVar_int (Z.of_nat (length l) + 1)) db) in
  list_is db' bq (l ++ [x]) ∧ frame_at bq db db'.
Proof.
  intros [Hv Hc Hb Hs Hn Hl] Hlt db'.
  set (db1 := st_Set (base +:+ ".count") (NewDynamicVar_int (Z.of_nat (length l) + 1)) db). assert (valid db1) as Hv1 by (by apply Set_valid).
  assert (valid db') as Hv' by (by apply Set_valid).
  assert (∀ k r, view db' (bq ++ k :: r) =
    if decide (k :: r = [idx (length l)]) then Some (NewDynamicVar x)
    else if decide (k :: r = ["count"]) then Some (NewDynamicVar_int (Z.of_nat (length l) + 1))
    else view db (bq ++ k :: r)) as Hview.
  { intros k r. unfold db'. rewrite (view_Set_below bq _ _ _ (idx (length l))) by (done || apply keypath_idx).
    case_decide; [done|]. unfold db1. by rewrite (view_Set_below bq _ _ _ "count") by (done || apply keypath_len). }
  split; [split|].
  - done.
  - unfold val, value_at. rewrite Hview, decide_False, decide_True by (done || (intros [= He]; by eapply idx_ne_count)).
    cbn. rewrite GetInt64_int by (unfold in_int64, int64_min, int64_max in *; lia). rewrite length_app. cbn. lia.
  - rewrite length_app. cbn. lia.
  - intros i y Hi. rewrite Hview. apply lookup_snoc_Some in Hi as [[Hi Hy]|[-> <-]].
    + rewrite decide_False by (intros [= He]; apply idx_inj in He; lia).
      rewrite decide_False by (intros [= He]; by apply idx_ne_count in He). by apply Hs.
    + by rewrite decide_True.
  - intros k. rewrite Hview, length_app. cbn. repeat case_decide; simplify_eq/=.
    + intros _. right. exists (length l). split; [lia|done].
    + by left.
    + intros [->|(i & Hi & ->)]%Hn; [by left|]. right. exists i. split; [lia|done].
  - intros k [k' Hk]. rewrite <-app_assoc in Hk. cbn [app] in Hk. rewrite Hview in Hk.
    rewrite !decide_False in Hk by done. apply (Hl k). exists k'. by rewrite <-app_assoc.
  - eapply frame_at_trans; apply frame_at_Set; try done; rewrite ?keypath_idx, ?keypath_len; by apply prefix_app_r.
Qed.

(** Deleting entry [i]: shift, drop the last cell, write the length. *)
Lemma list_delete db l i :
  list_is db bq l → i < length l →
  let n := Z.of_nat (length l) in
  ∃ db', drun now (shift_down base (Z.of_nat i) n ;;
      db_DeleteValue (base +:+ "." +:+ Itoa (wrap64 (n - 1))) false ;;
      db_Set (base +:+ ".count") (NewDynamicVar_int (wrap64 (n - 1)))) db = Some ((), db') ∧
    list_is db' bq (delete i l) ∧ frame_at bq db db'.
Proof.
  intros Hli Hi n. pose proof Hli as [Hv Hc Hb Hs Hn Hl].
  assert (wrap64 (n - 1) = Z.of_nat (length l - 1)) as Hw.
  { rewrite wrap64_small by (unfold in_int64, int64_min, int64_max, n in *; lia). unfold n. lia. }
  unfold shift_down. rewrite Hw. replace (Z.to_nat (Z.of_nat (length l - 1) - Z.of_nat i)) with (length l - 1 - i) by lia.
  destruct (drun_shift_cells db (length l) (length l - 1 - i) _ db i (list_is_cells _ _ _ Hli))
    as (db1 & Hr1 & [Hv1 Hin1 Hout1 Hf1]); [lia|lia|].
  change (λ c, next ← db_Get (base +:+ "." +:+ Itoa (wrap64 (c + 1))) (NewDynamicVar ""); _) with shift_body.
  rewrite (drun_bind_eq _ _ _ _ _ Hr1), drun_delete.
  set (db2 := st_DeleteValue (base +:+ "." +:+ Itoa (Z.of_nat (length l - 1))) false db1). set (db3 := st_Set (base +:+ ".count") (NewDynamicVar_int (Z.of_nat (length l - 1))) db2).
  assert (valid db2) as Hv2 by (by apply Delete_valid). assert (valid db3) as Hv3 by (by apply Set_valid).
  assert (∀ k k' : string, view db1 (bq ++ [k; k']) = view db (bq ++ [k; k'])) as Hdeep by (intros; by apply Hout1).
  assert (∀ k r, view db3 (bq ++ k :: r) =
    if decide (k :: r = ["count"]) then Some (NewDynamicVar_int (Z.of_nat (length l - 1)))
    else if decide (k :: r = [idx (length l - 1)]) then None else view db1 (bq ++ k :: r)) as Hview.
  { intros k r. unfold db3. rewrite (view_Set_below bq _ _ _ "count") by (done || apply keypath_len).
    case_decide; [done|]. unfold db2. apply view_Delete_below; [done|apply keypath_idx|].
    intros [k' Hk]. rewrite <-app_assoc in Hk. cbn [app] in Hk. rewrite Hdeep in Hk.
    apply (Hl (idx (length l - 1))). exists k'. by rewrite <-app_assoc. }
  assert (length (delete i l) = length l - 1) as Hlen by (rewrite length_delete; [lia|by apply lookup_lt_is_Some_2]).
  exists db3. split; [reflexivity|]. split; [split|].
  - done.
  - unfold val, value_at. rewrite Hview, decide_True by done. cbn.
    rewrite GetInt64_int; [by rewrite Hlen|]. clear - Hb Hi. apply in_int64_spec. unfold int64_min, int64_max in *. lia.
  - rewrite Hlen. lia.
  - intros j x Hj. assert (j < length l - 1) as Hlt by (rewrite <-Hlen; by eapply lookup_lt_Some).
    rewrite Hview. rewrite decide_False by (intros [= He]; by apply idx_ne_count in He).
    rewrite decide_False by (intros [= He]; apply idx_inj in He; lia). rewrite Hin1 by lia.
    destruct (decide (j < i)) as [Hji|Hji].
    + rewrite decide_False by lia. rewrite list_lookup_delete_lt in Hj by done. by rewrite Hj.
    + rewrite decide_True by lia. rewrite list_lookup_delete_ge in Hj by lia. by rewrite Hj.
  - intros k. rewrite Hview, Hlen. repeat case_decide; simplify_eq/=; [by left|by intros []|].
    intros Hk. destruct (decide (Exists (λ j, k = idx j) (seq 0 (length l)))) as [(j & Hj & ->)%Exists_exists|Hno].
    + right. apply elem_of_seq in Hj. exists j. split; [|done]. assert (j ≠ length l - 1) by congruence. lia.
    + rewrite Hout1 in Hk; [apply Hn in Hk as [|(j & Hj & ->)]; [by left|]|].
      * destruct Hno. apply Exists_exists. exists j. split; [apply elem_of_seq; lia|done].
      * intros j Hj [= ->]. destruct Hno. apply Exists_exists. exists j. split; [apply elem_of_seq; lia|done].
  - intros k [k' Hk]. rewrite <-app_assoc in Hk. cbn [app] in Hk. rewrite Hview, !decide_False, Hdeep in Hk by done.
    apply (Hl k). exists k'. by rewrite <-app_assoc.
  - eapply frame_at_trans; [exact Hf1|]. eapply frame_at_trans;
      [apply frame_at_Delete|apply frame_at_Set]; try done; rewrite ?keypath_idx, ?keypath_len; by apply prefix_app_r.
Qed.
End dblist.
