(* ===== verification/ClientState.v ===== *)
(** * The record of a client

    The variables a client observes are a list, kept by the methods of
    [ControllerClientHelper]; the list of all clients is kept by [initialize]
    and [RemoveClientFromObservationSystem]. *)
From S2P Require Import Prelude GoStrings GoStrconv Misc NamedLock Storage RamCacheDB Reference Runtime Samples ClientHelper DbList.

(** ** Paths of a client *)
Lemma npath_dot s k : lacks dot k → npath (s +:+ String dot k) = npath s ++ [k].
Proof. intros Hk. unfold npath. by rewrite SplitByte_app, (SplitByte_lacks k). Qed.

Definition p_client (id : string) : list string := npath (key_client id).
Definition p_observing (id : string) : list string := p_client id ++ ["observing"].

Lemma npath_observing id : npath (base_observing id) = p_observing id.
Proof. unfold base_observing. by rewrite (npath_dot (key_client id) "observing"). Qed.

Lemma keypath_lastLiveTime id : keypath (key_lastLiveTime id) = p_client id ++ ["lastLiveTime"].
Proof. unfold key_lastLiveTime. by rewrite (keypath_below (key_client id) "lastLiveTime"). Qed.

Lemma keypath_apiId id : keypath (key_apiId id) = p_client id ++ ["apiId"].
Proof. unfold key_apiId. by rewrite (keypath_below (key_client id) "apiId"). Qed.

(** ** Removing the first occurrence *)
Fixpoint remove_first (v : string) (l : list string) : list string :=
  match l with
  | [] => []
  | x :: l => if decide (x = v) then l else x :: remove_first v l
  end.

Lemma remove_first_absent v l : v ∉ l → remove_first v l = l.
Proof. induction l as [|x l IH]; [done|]. cbn. intros Hv. rewrite decide_False by set_solver. f_equal. set_solver. Qed.

Lemma remove_first_at v l j :
  l !! j = Some v → v ∉ take j l → remove_first v l = delete j l.
Proof.
  revert j. induction l as [|x l IH]; intros [|j]; cbn; [done..| |].
  - intros [= ->]. by rewrite decide_True.
  - intros Hj Hn. rewrite decide_False by set_solver. f_equal. apply IH; [done|set_solver].
Qed.

Lemma remove_first_fmap v l (f : string → string) :
  Inj (=) (=) f → remove_first (f v) (f <$> l) = f <$> remove_first v l.
Proof.
  intros Hf. induction l as [|x l IH]; [done|]. cbn. destruct (decide (x = v)) as [->|Hne].
  - by rewrite decide_True.
  - rewrite decide_False by (by intros ?%Hf). cbn. by rewrite IH.
Qed.

Lemma Contains_lacks s c t : lacks c s → Contains s (String c t) = false.
Proof.
  intros Hs. unfold Contains. apply bool_decide_eq_false.
  induction s as [|a s IH]; cbn [Index HasPrefix]; [by intros []|].
  apply lacks_cons in Hs as [Ha Hs]. rewrite bool_decide_false by congruence. cbn.
  destruct (Index s (String c t)); [|by intros []]. destruct (IH Hs). by eexists.
Qed.

Lemma is_counter_idx i : is_counter (idx i) = false.
Proof.
  unfold is_counter, idx. rewrite !Contains_lacks; [done|..]; by apply Itoa_lacks.
Qed.

Section client.
Context {DB : Type} {HI : IStorage DB} {HS : StorageSpec DB} `{Environment}.
Implicit Types (db : DB) (w : World DB) (l : list string) (h : ControllerClientHelper).

(** The array of [h] holds the variables [l], each under its name in the
    database. *)
Definition observing db (id : string) l : Prop := list_is db (p_observing id) ((λ v, "vars." +:+ v) <$> l).

(** Only the array and the time of the last contact of client [id] changed. *)
Definition client_frame (id : string) db db' : Prop :=
  ∀ p, ¬ p_observing id `prefix_of` p → p ≠ p_client id ++ ["lastLiveTime"] → val db' p = val db p.

Lemma client_frame_trans id db1 db2 db3 :
  client_frame id db1 db2 → client_frame id db2 db3 → client_frame id db1 db3.
Proof. intros H1 H2 p Hp Hp'. rewrite H2 by done. by apply H1. Qed.

Lemma client_frame_of id db db' : frame_at (p_observing id) db db' → client_frame id db db'.
Proof. intros Hf p Hp _. by apply Hf. Qed.

Lemma observing_not_live id : ¬ p_observing id `prefix_of` p_client id ++ ["lastLiveTime"].
Proof. unfold p_observing. intros Hp%prefix_app_inv. by apply prefix_cons_iff in Hp as [? _]. Qed.

(** [UpdateLiveTime] *)
Definition touch_db (now : Z) h db : DB :=
  st_Set (key_lastLiveTime (ch_clientId h)) (NewDynamicVar_int (now / Second)%Z) db.

Lemma drun_UpdateLiveTime now h db : drun now (UpdateLiveTime h) db = Some ((), touch_db now h db).
Proof. done. Qed.

Lemma touch_spec now h db l :
  list_is db (p_observing (ch_clientId h)) l →
  list_is (touch_db now h db) (p_observing (ch_clientId h)) l ∧ client_frame (ch_clientId h) db (touch_db now h db).
Proof.
  intros Hl. pose proof (li_valid _ _ _ Hl) as Hv. split.
  - eapply list_is_ext; [by apply Set_valid| |done]. intros k r. apply view_Set_apart; [done|].
    rewrite keypath_lastLiveTime. apply observing_not_live.
  - intros p _ Hp. unfold touch_db. rewrite val_Set, keypath_lastLiveTime by done. by rewrite decide_False.
Qed.

Lemma Get_count db base l :
  list_is db (npath base) l → GetInt64 (st_Get (base +:+ ".count") (NewDynamicVar_int 0) db) = Z.of_nat (length l).
Proof.
  intros Hl. rewrite Get_int0, keypath_len by apply Hl. apply Hl.
Qed.

Lemma Get_idx db base l i :
  list_is db (npath base) l → i < length l →
  l !! i = Some (GetString (st_Get (base +:+ "." +:+ Itoa (Z.of_nat i)) (NewDynamicVar "") db)).
Proof.
  intros Hl Hi. destruct (lookup_lt_is_Some_2 l i Hi) as [x Hx]. rewrite Hx.
  rewrite Get_spec, keypath_idx by apply Hl. change (Itoa (Z.of_nat i)) with (idx i).
  by rewrite (li_some _ _ _ Hl i x Hx).
Qed.

(** The search. *)
Lemma drun_find now db base l v n i :
  list_is db (npath base) l → i + n = length l → v ∉ take i l →
  ∃ z, drun now (find_from n (Z.of_nat i) base v) db = Some (z, db) ∧
    ((z = (-1)%Z ∧ v ∉ l) ∨ ∃ j, z = Z.of_nat j ∧ l !! j = Some v ∧ v ∉ take j l).
Proof.
  intros Hl. revert i. induction n as [|n IH]; intros i Hi Hv; cbn [find_from].
  - exists (-1)%Z. split; [done|]. left. split; [done|]. by rewrite take_ge in Hv by lia.
  - rewrite drun_get. pose proof (Get_idx db base l i Hl ltac:(lia)) as Hx. case_decide as Hd.
    + exists (Z.of_nat i). split; [done|]. right. exists i. by rewrite Hx, Hd.
    + destruct (IH (S i)) as (z & Hr & Hz); [lia| |].
      { rewrite (take_S_r l i _ Hx). set_solver. }
      exists z. split; [|done]. by replace (Z.of_nat i + 1)%Z with (Z.of_nat (S i)) by lia.
Qed.

(** ** The critical sections *)
Lemma drun_register_var now h v l db :
  observing db (ch_clientId h) l → (Z.of_nat (length l) + 1 < int64_max)%Z →
  ∃ db', drun now (UpdateLiveTime h ;;
    tcurr ← db_Get (base_observing (ch_clientId h) +:+ ".count") (NewDynamicVar_int 0);
    let curr := GetInt64 tcurr in
    db_Set (base_observing (ch_clientId h) +:+ ".count") (NewDynamicVar_int (wrap64 (curr + 1))) ;;
    db_Set (base_observing (ch_clientId h) +:+ "." +:+ Itoa curr) (NewDynamicVar ("vars." +:+ v))) db = Some ((), db') ∧
    observing db' (ch_clientId h) (l ++ [v]) ∧ client_frame (ch_clientId h) db db'.
Proof.
  intros Hl Hlen. set (id := ch_clientId h) in *.
  destruct (touch_spec now h db _ Hl) as [Hl1 Hf1].
  rewrite (drun_bind_eq _ _ _ _ _ (drun_UpdateLiveTime now h db)), drun_get.
  fold id in Hl1. rewrite <-npath_observing in Hl1. rewrite (Get_count _ _ _ Hl1). cbv zeta. rewrite drun_set.
  rewrite wrap64_small by (apply in_int64_spec; rewrite length_fmap; unfold int64_min, int64_max in *; lia).
  destruct (list_append (base_observing id) _ _ ("vars." +:+ v) Hl1) as [Hl2 Hf2]; [by rewrite length_fmap|].
  eexists. split; [reflexivity|]. rewrite npath_observing in Hl2, Hf2. split.
  - unfold observing. by rewrite fmap_app.
  - eapply client_frame_trans; [exact Hf1|]. by apply client_frame_of.
Qed.

Lemma drun_unregister_var now h v l db :
  observing db (ch_clientId h) l →
  let base := base_observing (ch_clientId h) in
  ∃ db', drun now (UpdateLiveTime h ;;
    curr ← GetObservingVarsCount h;
    idx ← findVarIndexOnObservingVars h ("vars." +:+ v);
    when (bool_decide (-1 < idx)%Z) (
      shift_down base idx curr ;;
      db_DeleteValue (base +:+ "." +:+ Itoa (wrap64 (curr - 1))) false ;;
      db_Set (base +:+ ".count") (NewDynamicVar_int (wrap64 (curr - 1))))) db = Some ((), db') ∧
    observing db' (ch_clientId h) (remove_first v l) ∧ client_frame (ch_clientId h) db db'.
Proof.
  intros Hl base. set (id := ch_clientId h) in *.
  destruct (touch_spec now h db _ Hl) as [Hl1 Hf1].
  rewrite (drun_bind_eq _ _ _ _ _ (drun_UpdateLiveTime now h db)).
  set (db1 := touch_db now h db) in *. fold id in Hl1. rewrite <-npath_observing in Hl1.
  unfold GetObservingVarsCount. fold id. fold base. rewrite drun_bind, drun_get, drun_ret, (Get_count _ base _ Hl1).
  unfold findVarIndexOnObservingVars, GetObservingVarsCount. fold id. fold base.
  rewrite drun_bind, drun_bind, drun_get, drun_ret, (Get_count _ base _ Hl1), Nat2Z.id.
  destruct (drun_find now db1 base _ ("vars." +:+ v) (length ((λ v, "vars." +:+ v) <$> l)) 0 Hl1) as (z & Hfind & Hz);
    [done|by rewrite take_0; set_solver|].
  change (Z.of_nat 0) with 0%Z in Hfind. rewrite Hfind.
  assert (remove_first ("vars." +:+ v) ((λ v, "vars." +:+ v) <$> l) = (λ v, "vars." +:+ v) <$> remove_first v l) as Hrf.
  { apply remove_first_fmap. intros a b Hab. by injection Hab. }
  destruct Hz as [[-> Hno]|(j & -> & Hj & Hno)].
  - rewrite bool_decide_false by lia. exists db1. split; [done|]. split; [|done].
    unfold observing. rewrite <-Hrf, remove_first_absent by done. by rewrite npath_observing in Hl1.
  - rewrite bool_decide_true by lia. cbn [when].
    destruct (list_delete (now:=now) base db1 _ j Hl1) as (db2 & Hr2 & Hl2 & Hf2); [by eapply lookup_lt_Some|].
    exists db2. split; [exact Hr2|]. unfold base in Hl2, Hf2. rewrite npath_observing in Hl2, Hf2. split.
    + unfold observing. by rewrite <-Hrf, (remove_first_at _ _ j).
    + eapply client_frame_trans; [exact Hf1|]. by apply client_frame_of.
Qed.

Lemma drun_mapM {X Y} now (f : X → prog Y) (g : X → Y) (xs : list X) db :
  (∀ x, drun now (f x) db = Some (g x, db)) → drun now (prog_mapM f xs) db = Some (g <$> xs, db).
Proof.
  intros Hf. induction xs as [|x xs IH]; [done|]. cbn [prog_mapM].
  by rewrite (drun_bind_eq _ _ _ _ _ (Hf x)), (drun_bind_eq _ _ _ _ _ IH).
Qed.

Lemma GetChilds_list db base l :
  base ≠ "" → last (SplitByte base dot) ≠ Some "" → list_is db (npath base) l →
  filter (λ c, is_counter c = false) (st_GetChilds base db) ≡ₚ idx <$> seq 0 (length l).
Proof.
  intros Hb Hlast Hl. assert (keypath base = npath base) as Hkp.
  { rewrite <-keypath_trim by done. by apply last_ne_trim. }
  apply NoDup_Permutation.
  - apply NoDup_filter, GetChilds_NoDup, Hl.
  - apply NoDup_fmap_2; [intros i j; apply idx_inj|apply NoDup_seq].
  - intros k. rewrite list_elem_of_filter, list_elem_of_fmap, GetChilds_spec by apply Hl.
    rewrite decide_False, Hkp by done. split.
    + intros [Hc [->|(i & Hi & ->)]%(li_none _ _ _ Hl)]; [done|]. exists i. split; [done|]. apply elem_of_seq. lia.
    + intros (i & -> & Hi%elem_of_seq). split; [apply is_counter_idx|].
      destruct (lookup_lt_is_Some_2 l i ltac:(lia)) as [x Hx]. rewrite (li_some _ _ _ Hl i x Hx). by eexists.
Qed.

(** What the client sees of a stored name. *)
Definition shown (v : string) : string := strip_vars ("vars." +:+ v).

Lemma shown_ne v : v ≠ "" → shown v = v.
Proof.
  intros Hv. unfold shown, strip_vars. rewrite HasPrefix_app, andb_true_r, len_app.
  destruct v as [|a v]; [done|]. reflexivity.
Qed.

Lemma drun_GetObservingVars now h l db :
  observing db (ch_clientId h) l →
  ∃ names, drun now (GetObservingVars h) db = Some (names, db) ∧ names ≡ₚ shown <$> l.
Proof.
  intros Hl. unfold GetObservingVars. set (base := base_observing (ch_clientId h)).
  rewrite drun_childs. eexists. split.
  { apply (drun_mapM now _ (λ c, strip_vars (GetString (st_Get (base +:+ "." +:+ c) (NewDynamicVar "") db)))). done. }
  unfold observing in Hl. rewrite <-npath_observing in Hl. fold base in Hl.
  rewrite GetChilds_list; [|done| |exact Hl].
  2:{ change (SplitByte base dot) with (npath base). unfold base. rewrite npath_observing. unfold p_observing.
      by rewrite last_snoc. }
  rewrite <-list_fmap_compose. apply reflexive_eq, list_eq. intros i. rewrite !list_lookup_fmap, length_fmap.
  destruct (decide (i < length l)) as [Hi|Hi].
  - rewrite lookup_seq_lt by done. cbn. pose proof (Get_idx db base _ i Hl) as Hx. rewrite length_fmap in Hx.
    specialize (Hx Hi). rewrite list_lookup_fmap in Hx. unfold idx.
    destruct (l !! i) as [v|]; [|done]. cbn in Hx |- *. injection Hx as Hx. by rewrite <-Hx.
  - rewrite lookup_seq_ge by lia. by rewrite (lookup_ge_None_2 l i) by lia.
Qed.

(** ** Requests *)
Inductive client_request := CRegister (varName : string) | CUnregister (varName : string) | CCount | CVars.
Inductive client_answer := CDone | CNum (n : Z) | CNames (l : list string).

(** The code. *)
Definition client_call h (r : client_request) : prog client_answer :=
  match r with
  | CRegister v => RegisterNewObservation h v ;; mret CDone
  | CUnregister v => UnregisterObservation h v ;; mret CDone
  | CCount => n ← GetObservingVarsCount h; mret (CNum n)
  | CVars => l ← GetObservingVars h; mret (CNames l)
  end.
Fixpoint client_calls h (rs : list client_request) : prog (list client_answer) :=
  match rs with
  | [] => mret []
  | r :: rs => a ← client_call h r; l ← client_calls h rs; mret (a :: l)
  end.

(** The reference: a list of names; [CVars] lists them in some order. *)
Definition client_ref (r : client_request) l (a : client_answer) l' : Prop :=
  match r with
  | CRegister v => a = CDone ∧ l' = l ++ [v]
  | CUnregister v => a = CDone ∧ l' = remove_first v l
  | CCount => a = CNum (Z.of_nat (length l)) ∧ l' = l
  | CVars => (∃ names, a = CNames names ∧ names ≡ₚ shown <$> l) ∧ l' = l
  end.
Fixpoint client_refs (rs : list client_request) l (al : list client_answer) l' : Prop :=
  match rs, al with
  | [], [] => l' = l
  | r :: rs, a :: al => ∃ l1, client_ref r l a l1 ∧ client_refs rs l1 al l'
  | _, _ => False
  end.

Lemma run_client_section timeout h f l l' w :
  quiet w →
  (∃ db', drun (w_now w) f (w_db w) = Some ((), db') ∧ observing db' (ch_clientId h) l' ∧
     client_frame (ch_clientId h) (w_db w) db') →
  observing (w_db w) (ch_clientId h) l →
  ∃ w', run (NamedLockRun "db.intenal.clients" timeout f ;; mret tt) w = Some ((), w') ∧
    evolves w w' (w_db w') ∧ observing (w_db w') (ch_clientId h) l' ∧
    client_frame (ch_clientId h) (w_db w) (w_db w').
Proof.
  intros Hq (db' & Hd & Hobs & Hf) _.
  destruct (run_locked "db.intenal.clients" timeout f w () db' Hq Hd) as (w' & Hr & He).
  exists w'. rewrite (run_bind_eq _ _ _ _ _ Hr), (evolves_db _ _ _ He). done.
Qed.

Lemma client_call_spec h l w r :
  quiet w → observing (w_db w) (ch_clientId h) l → (Z.of_nat (length l) + 1 < int64_max)%Z →
  ∃ a w' l', run (client_call h r) w = Some (a, w') ∧ client_ref r l a l' ∧ length l' ≤ S (length l) ∧
    evolves w w' (w_db w') ∧ observing (w_db w') (ch_clientId h) l' ∧
    client_frame (ch_clientId h) (w_db w) (w_db w').
Proof.
  intros Hq Hobs Hlen. destruct r as [v|v| |]; cbn [client_call client_ref].
  - destruct (run_client_section (2 * Second) h _ l (l ++ [v]) w Hq
      (drun_register_var (w_now w) h v l (w_db w) Hobs Hlen) Hobs) as (w' & Hr & Hw').
    exists CDone, w', (l ++ [v]). unfold RegisterNewObservation. cbv zeta. rewrite (run_bind_eq _ _ _ _ _ Hr).
    split; [done|]. split; [done|]. split; [rewrite length_app; cbn; lia|done].
  - destruct (run_client_section (5 * Second) h _ l (remove_first v l) w Hq
      (drun_unregister_var (w_now w) h v l (w_db w) Hobs) Hobs) as (w' & Hr & Hw').
    exists CDone, w', (remove_first v l). unfold UnregisterObservation. cbv zeta. rewrite (run_bind_eq _ _ _ _ _ Hr).
    split; [done|]. split; [done|]. split; [|done].
    clear. induction l as [|x l IH]; cbn; [lia|]. case_decide; cbn; lia.
  - exists (CNum (Z.of_nat (length l))), w, l. split; [|split_and!; [done..|lia|by apply evolves_refl|done|done]].
    cbn. do 2 f_equal. pose proof Hobs as Hl. unfold observing in Hl. rewrite <-npath_observing in Hl.
    rewrite <-(length_fmap (λ v, "vars." +:+ v) l), <-(Get_count _ _ _ Hl). done.
  - destruct (drun_GetObservingVars (w_now w) h l (w_db w) Hobs) as (names & Hd & Hp).
    exists (CNames names), w, l. split; [|split_and!; [by exists names|done|lia|by apply evolves_refl|done|done]].
    apply run_drun in Hd. rewrite set_db_self in Hd. by rewrite (run_bind_eq _ _ _ _ _ Hd).
Qed.

(** C19.  The observed variables of a client refine a list: any sequence of
    [RegisterNewObservation], [UnregisterObservation], [GetObservingVarsCount]
    and [GetObservingVars] calls returns, with the answers of append, removal of
    the first occurrence, length and contents (in the order of the map), leaves
    no lock held, and changes nothing else but the client's [lastLiveTime]. *)
Theorem client_observations_refine_list h l w rs :
  quiet w → observing (w_db w) (ch_clientId h) l → (Z.of_nat (length l + length rs) < int64_max)%Z →
  ∃ al w' l', run (client_calls h rs) w = Some (al, w') ∧ client_refs rs l al l' ∧
    evolves w w' (w_db w') ∧ observing (w_db w') (ch_clientId h) l' ∧
    client_frame (ch_clientId h) (w_db w) (w_db w').
Proof.
  revert l w. induction rs as [|r rs IH]; intros l w Hq Hobs Hlen; cbn [client_calls client_refs length] in *.
  - exists [], w, l. split; [done|]. split; [done|]. split; [by apply evolves_refl|done].
  - destruct (client_call_spec h l w r Hq Hobs) as (a & w1 & l1 & Hr1 & Hc1 & Hl1 & He1 & Hobs1 & Hf1); [lia|].
    destruct (IH l1 w1) as (al & w2 & l2 & Hr2 & Hc2 & He2 & Hobs2 & Hf2); [apply He1|done|lia|].
    exists (a :: al), w2, l2. rewrite (run_bind_eq _ _ _ _ _ Hr1), (run_bind_eq _ _ _ _ _ Hr2).
    split; [done|]. split; [by exists l1|]. split; [by eapply evolves_trans|]. split; [done|].
    by eapply client_frame_trans.
Qed.

(** ** The list of clients *)
Definition p_clients : list string := ["internal"; "clients"; "list"].

Lemma npath_clients : npath base_clients = p_clients.
Proof. done. Qed.

(** The node of a client; for ids without a dot at the end, [p_client]. *)
Lemma keypath_client id :
  ∃ r, keypath (key_client id) = ["internal"; "clients"; "byId"] ++ r ∧ keypath (key_client id) `prefix_of` p_client id.
Proof.
  change (key_client id) with ("internal.clients.byId" +:+ String dot id). rewrite keypath_app.
  change (SplitByte "internal.clients.byId" dot) with ["internal"; "clients"; "byId"].
  exists (trim_last (SplitByte id dot)). split; [done|]. unfold p_client, npath.
  change (key_client id) with ("internal.clients.byId" +:+ String dot id). rewrite SplitByte_app.
  apply prefix_app. unfold trim_last. pose proof (SplitByte_ne id dot) as Hne.
  destruct (SplitByte id dot) as [|x l _] using rev_ind; [done|]. rewrite last_snoc.
  destruct x; [|done]. rewrite removelast_snoc. by apply prefix_app_r.
Qed.

Lemma p_client_shape id : ∃ r, p_client id = ["internal"; "clients"; "byId"] ++ r.
Proof. exists (npath id). exact (SplitByte_app "internal.clients.byId" id dot). Qed.

(** Keys below [byId] are apart from the list. *)
Lemma clients_not_byId r : ¬ p_clients `prefix_of` ["internal"; "clients"; "byId"] ++ r.
Proof. intros [s Hs]. done. Qed.

Lemma list_is_Set_byId db key v ids r :
  keypath key = ["internal"; "clients"; "byId"] ++ r →
  list_is db p_clients ids → list_is (st_Set key v db) p_clients ids.
Proof.
  intros Hk Hl. eapply list_is_ext; [apply Set_valid, Hl| |exact Hl]. intros k r'.
  apply view_Set_apart; [apply Hl|]. rewrite Hk. apply clients_not_byId.
Qed.

(** Nothing outside [internal] changed. *)
Definition internal_frame db db' : Prop := ∀ p, ¬ ["internal"] `prefix_of` p → val db' p = val db p.

Lemma internal_frame_Set db key v r :
  valid db → keypath key = "internal" :: r → internal_frame db (st_Set key v db).
Proof.
  intros Hv Hk p Hp. rewrite val_Set by done. rewrite decide_False; [done|].
  intros ->. apply Hp. rewrite Hk. by exists r.
Qed.

Lemma internal_frame_trans db1 db2 db3 : internal_frame db1 db2 → internal_frame db2 db3 → internal_frame db1 db3.
Proof. intros H1 H2 p Hp. rewrite H2 by done. by apply H1. Qed.

(** The record of a client after [initialize]. *)
Record registered db h (now : Z) : Prop := {
  reg_known : is_Some (view db (keypath (key_client (ch_clientId h))));
  reg_live : val db (p_client (ch_clientId h) ++ ["lastLiveTime"]) = NewDynamicVar_int (now / Second)%Z;
  reg_api : ∀ api, ch_api h = Some api → val db (p_client (ch_clientId h) ++ ["apiId"]) = NewDynamicVar api
}.

(** The tail of [initialize]: the API and the time. *)
Lemma drun_stamp now h db ids :
  is_Some (view db (keypath (key_client (ch_clientId h)))) → list_is db p_clients ids →
  ∃ db', drun now (match ch_api h with
                   | Some api => db_Set (key_apiId (ch_clientId h)) (NewDynamicVar api)
                   | None => mret tt
                   end ;; UpdateLiveTime h) db = Some ((), db') ∧
    list_is db' p_clients ids ∧ registered db' h now ∧ internal_frame db db'.
Proof.
  intros Hk Hl. set (id := ch_clientId h) in *. destruct (p_client_shape id) as [r Hr].
  set (db1 := match ch_api h with Some api => st_Set (key_apiId id) (NewDynamicVar api) db | None => db end).
  exists (touch_db now h db1). split; [by unfold db1; destruct (ch_api h)|].
  assert (list_is db1 p_clients ids ∧ internal_frame db db1 ∧ is_Some (view db1 (keypath (key_client id))))
    as (Hl1 & Hf1 & Hk1).
  { unfold db1. destruct (ch_api h); [|done]. split_and!.
    - eapply list_is_Set_byId; [|done]. by rewrite keypath_apiId, Hr, <-app_assoc.
    - eapply internal_frame_Set; [apply Hl|]. by rewrite keypath_apiId, Hr.
    - rewrite Set_spec by apply Hl. by apply spec_set_mono. }
  pose proof (li_valid _ _ _ Hl1) as Hv1. split_and!.
  - unfold touch_db. fold id. eapply list_is_Set_byId; [|done]. by rewrite keypath_lastLiveTime, Hr, <-app_assoc.
  - split.
    + unfold touch_db. rewrite Set_spec by done. by apply spec_set_mono.
    + unfold touch_db. fold id. by rewrite val_Set, keypath_lastLiveTime, decide_True.
    + intros api Hapi. unfold touch_db. fold id.
      rewrite val_Set, keypath_lastLiveTime, decide_False by (done || by intros [= ?]%app_inv_prefix).
      unfold db1. rewrite Hapi. by rewrite val_Set, keypath_apiId, decide_True by (done || apply Hl).
  - eapply internal_frame_trans; [exact Hf1|]. unfold touch_db. fold id. eapply internal_frame_Set; [done|].
    by rewrite keypath_lastLiveTime, Hr.
Qed.

Lemma drun_initialize now h db ids :
  list_is db p_clients ids → (Z.of_nat (length ids) + 1 < int64_max)%Z →
  let known := st_HasValue (key_client (ch_clientId h)) db in
  ∃ db', drun now (initialize_body h) db = Some ((), db') ∧
    list_is db' p_clients (if known then ids else ids ++ [ch_clientId h]) ∧
    registered db' h now ∧ internal_frame db db'.
Proof.
  intros Hl Hlen known. pose proof (li_valid _ _ _ Hl) as Hv. set (id := ch_clientId h) in *.
  unfold initialize_body. fold id. rewrite drun_has. fold known. destruct known eqn:Hk.
  - assert (is_Some (view db (keypath (key_client id)))) as Hs.
    { unfold known in Hk. rewrite HasValue_spec in Hk by done. by apply bool_decide_eq_true in Hk. }
    exact (drun_stamp now h db ids Hs Hl).
  - cbn [negb when]. rewrite drun_bind, drun_get, (Get_count _ base_clients _ Hl). cbv zeta.
    rewrite wrap64_small by (apply in_int64_spec; unfold int64_min, int64_max in *; lia).
    rewrite !drun_set. destruct (list_append base_clients db ids id Hl Hlen) as [Hl2 Hf2].
    set (db2 := st_Set (base_clients +:+ "." +:+ Itoa _) _ _) in *. rewrite npath_clients in Hl2, Hf2.
    destruct (keypath_client id) as (r & Hr & _).
    set (db3 := st_Set (key_client id) (NewDynamicVar_int (Z.of_nat (length ids))) db2).
    change (drun now (db_Set _ _) db2) with (Some ((), db3)). cbv iota beta.
    destruct (drun_stamp now h db3 (ids ++ [id])) as (db4 & Hr4 & Hl4 & Hreg & Hf4).
    { unfold db3. rewrite Set_spec by apply Hl2. fold id. by rewrite spec_set_eq. }
    { by eapply list_is_Set_byId. }
    exists db4. split; [exact Hr4|]. split; [done|]. split; [done|].
    eapply internal_frame_trans; [|exact Hf4]. eapply internal_frame_trans.
    { intros p Hp. apply Hf2. intros Hp2. apply Hp. etrans; [|exact Hp2]. by exists ["clients"; "list"]. }
    by eapply internal_frame_Set; [apply Hl2|].
Qed.

Lemma run_NewClient id api ids w :
  quiet w → list_is (w_db w) p_clients ids → (Z.of_nat (length ids) + 1 < int64_max)%Z →
  let known := st_HasValue (key_client id) (w_db w) in
  ∃ w', run (NewControllerClientHelper id api) w = Some (mkCH id api, w') ∧ evolves w w' (w_db w') ∧
    list_is (w_db w') p_clients (if known then ids else ids ++ [id]) ∧
    registered (w_db w') (mkCH id api) (w_now w) ∧ internal_frame (w_db w) (w_db w').
Proof.
  intros Hq Hl Hlen known. destruct (drun_initialize (w_now w) (mkCH id api) (w_db w) ids Hl Hlen) as (db' & Hd & Hres).
  destruct (run_locked "db.intenal.clients" (2 * Second) _ w () db' Hq Hd) as (w' & Hr & He).
  exists w'. rewrite (evolves_db _ _ _ He). split; [|done].
  unfold NewControllerClientHelper, initialize. cbv zeta. rewrite run_bind, run_bind, Hr. done.
Qed.

(** Building a client helper registers the client: it appears in the list
    of clients exactly once however often it connects, with the API it is
    connected through and the current time; the variables are not touched. *)
Theorem NewControllerClientHelper_registers id api ids w :
  quiet w → list_is (w_db w) p_clients ids → (Z.of_nat (length ids) + 1 < int64_max)%Z →
  let known := st_HasValue (key_client id) (w_db w) in
  ∃ w', run (NewControllerClientHelper id api) w = Some (mkCH id api, w') ∧ evolves w w' (w_db w') ∧
    list_is (w_db w') p_clients (if known then ids else ids ++ [id]) ∧
    registered (w_db w') (mkCH id api) (w_now w) ∧ internal_frame (w_db w) (w_db w').
Proof. apply run_NewClient. Qed.

(** ** Removing a client *)

(** The shift runs on any database. *)
Lemma drun_for_up_valid now n i (f : Z → prog unit) db :
  (∀ j db, valid db → ∃ db', drun now (f j) db = Some ((), db') ∧ valid db') → valid db →
  ∃ db', drun now (for_up n i f) db = Some ((), db') ∧ valid db'.
Proof.
  intros Hf. revert i db. induction n as [|n IH]; intros i db Hv; [by exists db|].
  destruct (Hf i db Hv) as (db1 & Hr1 & Hv1). destruct (IH (i + 1)%Z db1 Hv1) as (db2 & Hr2 & Hv2).
  exists db2. cbn [for_up]. by rewrite (drun_bind_eq _ _ _ _ _ Hr1).
Qed.

Lemma drun_remove_client_entry now idx db :
  valid db →
  ∃ db', drun now (remove_from_list idx) db = Some ((), db') ∧ valid db'.
Proof.
  intros Hv. unfold remove_from_list. destruct (bool_decide (-1 < idx)%Z); cbn [when]; [|by exists db].
  rewrite drun_get. cbv zeta.
  destruct (drun_for_up_valid now (Z.to_nat (wrap64 (GetInt64 (st_Get (base_clients +:+ ".count") (NewDynamicVar_int 0) db) - 1) - idx))
    idx (shift_body base_clients) db) as (db1 & Hr1 & Hv1); [|done|].
  { intros j db0 Hv0. eexists. split; [reflexivity|]. by apply Set_valid. }
  unfold shift_down. change (λ c, next ← db_Get (base_clients +:+ "." +:+ Itoa (wrap64 (c + 1))) (NewDynamicVar ""); _)
    with (shift_body base_clients).
  rewrite (drun_bind_eq _ _ _ _ _ Hr1), drun_delete. eexists. split; [reflexivity|].
  by apply Set_valid, Delete_valid.
Qed.

(** [RemoveClientFromObservationSystem] always returns and leaves no trace of
    the client's record: no entry at its key or below. *)
Theorem RemoveClient_forgets h w :
  quiet w → valid (w_db w) →
  ∃ w', run (RemoveClientFromObservationSystem h) w = Some ((), w') ∧ evolves w w' (w_db w') ∧
    ∀ p, keypath (key_client (ch_clientId h)) `prefix_of` p → view (w_db w') p = None.
Proof.
  intros Hq Hv. set (id := ch_clientId h).
  destruct (drun_remove_client_entry (w_now w)
    (GetInt64 (st_Get (key_client id) (NewDynamicVar_int (-1)) (w_db w))) (w_db w) Hv) as (db1 & Hr1 & Hv1).
  destruct (run_locked "db.intenal.clients" (5 * Second) (remove_client_body h) w ()
    (st_DeleteValue (key_client id) true db1) Hq) as (w' & Hr & He).
  { unfold remove_client_body. fold id. rewrite drun_get. cbv zeta. rewrite (drun_bind_eq _ _ _ _ _ Hr1). reflexivity. }
  exists w'. rewrite (evolves_db _ _ _ He). split; [|split; [done|]].
  - unfold RemoveClientFromObservationSystem. by rewrite (run_bind_eq _ _ _ _ _ Hr).
  - intros p Hp. by rewrite Delete_cascade, decide_True.
Qed.

(** While the index stored with a client is its position in the list of
    clients, removing the client removes exactly that entry. *)
Theorem RemoveClient_removes_entry h i ids w :
  quiet w → list_is (w_db w) p_clients ids → i < length ids →
  val (w_db w) (keypath (key_client (ch_clientId h))) = NewDynamicVar_int (Z.of_nat i) →
  ∃ w', run (RemoveClientFromObservationSystem h) w = Some ((), w') ∧ evolves w w' (w_db w') ∧
    list_is (w_db w') p_clients (delete i ids).
Proof.
  intros Hq Hl Hi Hidx. set (id := ch_clientId h) in *. pose proof (li_valid _ _ _ Hl) as Hv.
  assert (GetInt64 (st_Get (key_client id) (NewDynamicVar_int (-1)) (w_db w)) = Z.of_nat i) as Hget.
  { assert (GetInt64 (NewDynamicVar_int (Z.of_nat i)) = Z.of_nat i) as Hi64.
    { apply GetInt64_int, in_int64_spec. pose proof (li_bound _ _ _ Hl). unfold int64_min. lia. }
    rewrite Get_spec by done. unfold val, value_at in Hidx. destruct (view (w_db w) (keypath (key_client id))).
    - cbn in *. by subst.
    - cbn in Hidx. exfalso. injection Hidx as Hidx. by apply (Itoa_ne_empty (Z.of_nat i)). }
  destruct (list_delete (now:=w_now w) base_clients (w_db w) ids i Hl Hi) as (db1 & Hr1 & Hl1 & _).
  rewrite npath_clients in Hl1. destruct (keypath_client id) as (r & Hr & _).
  destruct (run_locked "db.intenal.clients" (5 * Second) (remove_client_body h) w ()
    (st_DeleteValue (key_client id) true db1) Hq) as (w' & Hrun & He).
  { unfold remove_client_body, remove_from_list. fold id. rewrite drun_get, Hget, bool_decide_true by lia. cbn [when].
    rewrite drun_bind, drun_get, (Get_count _ base_clients _ Hl). cbv zeta. rewrite Hr1. reflexivity. }
  exists w'. rewrite (evolves_db _ _ _ He). split; [|split; [done|]].
  - unfold RemoveClientFromObservationSystem. by rewrite (run_bind_eq _ _ _ _ _ Hrun).
  - eapply list_is_ext; [apply Delete_valid, Hl1| |exact Hl1]. intros k r'.
    rewrite Delete_cascade, decide_False; [done| |apply Hl1]. rewrite Hr. by intros [s Hs].
Qed.
End client.

(** ** On a fresh database *)
Section fresh.
Existing Instance canonical_order.
Existing Instance online.

Lemma fresh_list q : q ≠ [] → list_is fresh_db q [].
Proof.
  intros Hq. apply list_is_empty; [apply fresh_valid|]. intros k r. rewrite fresh_view.
  rewrite decide_False; [done|]. by destruct q.
Qed.

Lemma fresh_observing id : observing fresh_db id [].
Proof. apply fresh_list. unfold p_observing. by destruct (p_client id). Qed.

Definition sample_client_requests : list client_request :=
  [CRegister "a.b"; CRegister "count"; CRegister "a.b"; CCount; CUnregister "a.b"; CVars].

Lemma client_observations_refine_list_witness :
  let h := mkCH "cl.1" (Some "VSTP") in
  quiet fresh_world ∧ observing (w_db fresh_world) (ch_clientId h) [] ∧
  ∃ al w' l', run (client_calls h sample_client_requests) fresh_world = Some (al, w') ∧
    client_refs sample_client_requests [] al l' ∧
    evolves fresh_world w' (w_db w') ∧ observing (w_db w') (ch_clientId h) l' ∧
    client_frame (ch_clientId h) (w_db fresh_world) (w_db w').
Proof.
  intros h. assert (quiet fresh_world) as Hq by apply quiet_world_of.
  assert (observing (w_db fresh_world) (ch_clientId h) []) as Ho by apply fresh_observing.
  split; [exact Hq|]. split; [exact Ho|].
  exact (client_observations_refine_list h [] fresh_world sample_client_requests Hq Ho eq_refl).
Defined.

Lemma NewControllerClientHelper_registers_witness :
  quiet fresh_world ∧ list_is (w_db fresh_world) p_clients [] ∧
  let known := st_HasValue (key_client "cl") (w_db fresh_world) in
  ∃ w', run (NewControllerClientHelper "cl" (Some "VSTP")) fresh_world = Some (mkCH "cl" (Some "VSTP"), w') ∧
    evolves fresh_world w' (w_db w') ∧
    list_is (w_db w') p_clients (if known then [] else [] ++ ["cl"]) ∧
    registered (w_db w') (mkCH "cl" (Some "VSTP")) (w_now fresh_world) ∧
    internal_frame (w_db fresh_world) (w_db w').
Proof.
  assert (quiet fresh_world) as Hq by apply quiet_world_of.
  assert (list_is (w_db fresh_world) p_clients []) as Hl by (by apply fresh_list).
  split; [exact Hq|]. split; [exact Hl|].
  exact (NewControllerClientHelper_registers "cl" (Some "VSTP") [] fresh_world Hq Hl eq_refl).
Defined.

Lemma RemoveClient_forgets_witness :
  let h := mkCH "cl" (Some "VSTP") in
  quiet fresh_world ∧ valid (w_db fresh_world) ∧
  ∃ w', run (RemoveClientFromObservationSystem h) fresh_world = Some ((), w') ∧ evolves fresh_world w' (w_db w') ∧
    ∀ p, keypath (key_client (ch_clientId h)) `prefix_of` p → view (w_db w') p = None.
Proof.
  intros h. assert (quiet fresh_world) as Hq by apply quiet_world_of.
  assert (valid (w_db fresh_world)) as Hv by apply fresh_valid.
  split; [exact Hq|]. split; [exact Hv|]. exact (RemoveClient_forgets h fresh_world Hq Hv).
Defined.

(** A database with one client, as [initialize] leaves it. *)
Definition one_client : RamCacheDB :=
  st_Set (key_client "cl") (NewDynamicVar_int 0)
    (st_Set (base_clients +:+ "." +:+ Itoa 0) (NewDynamicVar "cl")
      (st_Set (base_clients +:+ ".count") (NewDynamicVar_int (0 + 1)) fresh_db)).

Lemma one_client_list : list_is one_client p_clients ["cl"].
Proof.
  destruct (list_append base_clients fresh_db [] "cl") as [Hl _]; [by apply fresh_list|done|].
  apply (list_is_Set_byId _ _ _ _ ["cl"]); [done|exact Hl].
Qed.

Lemma RemoveClient_removes_entry_witness :
  let h := mkCH "cl" (Some "VSTP") in
  let w := world_of one_client in
  quiet w ∧ list_is (w_db w) p_clients ["cl"] ∧
  ∃ w', run (RemoveClientFromObservationSystem h) w = Some ((), w') ∧ evolves w w' (w_db w') ∧
    list_is (w_db w') p_clients (delete 0 ["cl"]).
Proof.
  intros h w. assert (quiet w) as Hq by apply quiet_world_of.
  assert (list_is (w_db w) p_clients ["cl"]) as Hl by apply one_client_list.
  split; [exact Hq|]. split; [exact Hl|].
  assert (val (w_db w) (keypath (key_client (ch_clientId h))) = NewDynamicVar_int (Z.of_nat 0)) as Hi by (by vm_compute).
  exact (RemoveClient_removes_entry h 0 ["cl"] w Hq Hl (le_n 1) Hi).
Defined.

(** The indices go stale: removing a client shifts the list, but the index
    stored with the clients that move is not updated.  Of three clients, after
    the first two are removed in turn, the list names the second, which is gone,
    and not the third, which is connected. *)
Theorem client_index_goes_stale :
  fst <$> run (
    a ← NewControllerClientHelper "a" (Some "VSTP"); b ← NewControllerClientHelper "b" (Some "VSTP");
    NewControllerClientHelper "c" (Some "VSTP") ;;
    RemoveClientFromObservationSystem a ;; RemoveClientFromObservationSystem b ;;
    n ← db_Get (base_clients +:+ ".count") NewEmptyDynamicVar;
    e ← db_Get (base_clients +:+ "." +:+ Itoa 0) NewEmptyDynamicVar;
    known_b ← db_HasValue (key_client "b"); known_c ← db_HasValue (key_client "c");
    mret (GetString n, GetString e, known_b, known_c)) fresh_world
  = Some ("1", "b", false, true).
Proof. by vm_compute. Qed.
End fresh.
