(* ===== verification/Controller.v ===== *)
(** * The controller ([sources/controller/controller.go])

    [TheController] coordinates the variables and the clients.  Its methods that
    return a channel run in a goroutine and send one value: they are programs
    that return that value.  [go f()] is [go (f)].

    The controller keeps one piece of state of its own, the map of the APIs; it
    is [w_apis], reached by [Apis_lookup] and [Apis_insert].  Everything else is
    in the database. *)
From S2P Require Import Prelude GoStrings GoStrconv Misc NamedLock Storage Runtime VarHelper ClientHelper.

Record TheController := mkController {
  maxTimeWaitingClientSecond : Z;
  systemVersion : string;
  maxKeyLength : Z;
  maxKeyWordLength : Z;
  maxValueSize : Z;
  allowRawDbAccess : bool
}.

(** [confs] gives the value of a configuration item. *)
Definition NewController `{UnicodeCase} (confs : string → DynamicVar) (systemVersion : string) : TheController :=
  let confMaxTimeWaitingClient := confs "maxTimeWaitingClient_seconds" in
  mkController
    (if (0 <? GetInt64 confMaxTimeWaitingClient)%Z then GetInt64 confMaxTimeWaitingClient else (12 * 60 * 60)%Z)
    systemVersion
    (GetInt64 (confs "maxKeyLength"))
    (GetInt64 (confs "maxKeyWordLength"))
    (GetInt64 (confs "maxValueSize"))
    (GetBool (confs "allowRawDbAccess")).

Definition GetSystemVersion (c : TheController) : string := systemVersion c.

(** The helper of a variable, as every method builds it. *)
Definition helper (c : TheController) (vname : string) : ControllerVarHelper :=
  var_helper (allowRawDbAccess c) vname.

(** ** Reading *)

(** [getVarInternal]: a variable and its immediate children. *)
Definition getVarInternal (c : TheController) (name : string) : prog (list (string * string)) :=
  let vh := helper c name in
  dv ← GetValue vh;
  let res := if decide (GetString dv ≠ "") then [(name, GetString dv)] else [] in
  childs ← GetChildNames vh;
  below ← prog_mapM (λ ch,
    let full := if decide (name ≠ "") then name +:+ "." +:+ ch else ch in
    dv2 ← GetValue (helper c full);
    mret (full, GetString dv2)) childs;
  mret (res ++ below).

Abbreviation values := (list (DynamicVar * DynamicVar)).

(** The loop over the children: the result of each goes before what was read so
    far. *)
Fixpoint read_childs (read : string → prog (option values)) (prefix : string) (childs : list string) (res : values)
    : prog (option values) :=
  match childs with
  | [] => mret (Some res)
  | curr :: childs =>
      tmp ← read (prefix +:+ curr);
      match tmp with
      | Some tmp => read_childs read prefix childs (tmp ++ res)
      | None => mret None
      end
  end.

(** The closure [readFromDb] of [GetVars]; [None] when the fuel runs out. *)
Fixpoint readFromDb (fuel : nat) (c : TheController) (nname : string) (childsToo : bool) : prog (option values) :=
  match fuel with
  | O => mret None
  | S fuel =>
      let vh := helper c nname in
      dv ← GetValue vh;
      let res := if decide (GetString dv ≠ "") then [(NewDynamicVar nname, dv)] else [] in
      if childsToo then
        let prefix := if decide (nname ≠ "") then nname +:+ "." else nname in
        childs ← GetChildNames vh;
        read_childs (λ n, readFromDb fuel c n childsToo) prefix childs res
      else mret (Some res)
  end.

(** The name to read and whether its children are read too. *)
Definition parse_wildcard (name : string) : result string (string * bool) :=
  if decide (name = "") then Err "variable name cannot be empty"
  else if Contains name "*" then
    if HasSuffix name "*" then
      let namep := if HasSuffix name ".*" then name.[:len name - 2] else name.[:len name - 1] in
      Ok (TrimSuffix namep ".", true)
    else Err "wildcard can only be used at the end of the var name"
  else Ok (name, false).

Definition GetVarsResult : Type := result string (list (DynamicVar * DynamicVar)).

Definition GetVars (fuel : nat) (c : TheController) (name : string) (defaultValue : DynamicVar)
    : prog (option GetVarsResult) :=
  match parse_wildcard name with
  | Err e => mret (Some (Err e))
  | Ok (namep, childsToo) =>
      values ← readFromDb fuel c namep childsToo;
      mret (match values with
            | None => None
            | Some [] => Some (Ok [(NewDynamicVar namep, defaultValue)])
            | Some values => Some (Ok values)
            end)
  end.

Definition GetChildsOfVar (c : TheController) (parentName : string) : prog (list string) :=
  if Contains parentName "*" then mret [] else GetChildNames (helper c parentName).

(** ** Clients that went away *)

Definition deleteClient (c : TheController) (ch : ControllerClientHelper) : prog unit :=
  vars ← GetObservingVars ch;
  RemoveClientFromObservationSystem ch ;;
  for_each vars (λ currVar, RemoveAllClientObservations (helper c currVar) (GetClientId ch)).

Definition checkClientLiveTime (c : TheController) (ch : ControllerClientHelper) : prog unit :=
  connected ← IsConnected ch;
  when (negb connected) (
    t ← TimeSinceLastLiveTime ch;
    when (maxTimeWaitingClientSecond c <=? t)%Z (deleteClient c ch)).

(** [if dv.GetString() != "LIVE" { p }] *)
Definition unless_live (dv : DynamicVar) (p : prog unit) : prog unit :=
  when (negb (bool_decide (GetString dv = "LIVE"))) p.

(** ** Notifications *)

(** The goroutine spawned for one observation. *)
Definition notify_client (c : TheController) (changedVarName : string) (value : DynamicVar) (clientId metadata : string)
    : prog unit :=
  r ← NewControllerClientHelperWithApis clientId;
  match r with
  | Err err =>
      if decide (err = ErrAPIIdNotFound) then
        do_ (Log_Error ("Client notification failed: API not found for client " +:+ clientId)) ;;
        ch2 ← NewControllerClientHelper clientId None;
        deleteClient c ch2
      else do_ (Log_Error "Client notification failed: unknown error")
  | Ok ch =>
      res ← Notify ch [(changedVarName, metadata, GetString value)];
      unless_live res (checkClientLiveTime c ch)
  end.

Section with_order.
Context `{RangeOrder}.

Definition notifyClientsAboutVarChange (c : TheController) (observations : gmap string (string * string))
    (changedVarName : string) (value : DynamicVar) : prog unit :=
  for_each (range observations) (λ '(key, tup), go (notify_client c changedVarName value tup.1 tup.2)).

(** [lastDotIndex]: [-1] is [None]. *)
Definition lastDotIndex (s : string) : option nat := LastIndexByte s dot.

(** One recursive call per dot of [varName]. *)
Fixpoint notifyParents_fuel (fuel : nat) (c : TheController) (varName changedVarName : string) (value : DynamicVar)
    : prog unit :=
  match fuel with
  | O => mret tt
  | S fuel =>
      match lastDotIndex varName with
      | Some idx =>
          let parent := varName.[:idx] in
          obs ← GetAllObservations (helper c (parent +:+ ".*"));
          notifyClientsAboutVarChange c obs changedVarName value ;;
          notifyParents_fuel fuel c parent changedVarName value
      | None => mret tt
      end
  end.
(** The parent is shorter. *)
Definition notifyParentGenericObservers (c : TheController) (varName changedVarName : string) (value : DynamicVar)
    : prog unit :=
  notifyParents_fuel (S (len varName)) c varName changedVarName value.

(** The body of the goroutine [notifyVarModification] starts. *)
Definition notify_body (c : TheController) (varName : string) (value : DynamicVar) : prog unit :=
  obs ← GetAllObservations (helper c varName);
  notifyClientsAboutVarChange c obs varName value ;;
  notifyParentGenericObservers c varName varName value ;;
  obs2 ← GetAllObservations (helper c (varName +:+ ".*"));
  notifyClientsAboutVarChange c obs2 varName value.

Definition notifyVarModification (c : TheController) (varName : string) (value : DynamicVar) : prog unit :=
  go (notify_body c varName value).

(** ** Writing *)

Definition valid_name_chars : string :=
  "abcdefghijklmnopqrstuvwxyzABCDEFGHIJKLMNOPQRSTUVWXYZ0123456789._/\,.-*".

(** [containsUnderscoreDot]: the pattern ["._"]. *)
Fixpoint containsUnderscoreDot (name : string) : bool :=
  match name with
  | String a ((String b _) as rest) =>
      if decide (a = "."%char ∧ b = "_"%char) then true else containsUnderscoreDot rest
  | _ => false
  end.

Definition starts_with_underscore (name : string) : bool :=
  if name is String a _ then bool_decide (a = "_"%char) else false.

(** The checks of [SetVar] on the filtered name, in order; [None] when all pass. *)
Definition set_var_error (c : TheController) (name : string) (value : DynamicVar) : option string :=
  if decide (name = "") then Some "variable name cannot be empty"
  else if (negb (allowRawDbAccess c) && starts_with_underscore name) || containsUnderscoreDot name then
    Some "variables started with underscore are for internal use only"
  else if (maxKeyLength c <? Z.of_nat (len name))%Z then
    Some ("variable name exceeds maximum length of " +:+ Itoa (maxKeyLength c))
  else if (maxValueSize c <? Z.of_nat (len (GetString value)))%Z then
    Some ("variable value exceeds maximum size of " +:+ Itoa (maxValueSize c))
  else if (0 <? maxKeyWordLength c)%Z && existsb (λ p, (maxKeyWordLength c <? Z.of_nat (len p))%Z)
                                           (if Contains name "." then SplitByte name dot else [name]) then
    Some ("a part of the variable name exceeds maximum length of " +:+ Itoa (maxKeyWordLength c))
  else None.

Definition SetVar (c : TheController) (name : string) (value : DynamicVar) : prog (result string unit) :=
  let name := GetOnly name valid_name_chars in
  match set_var_error c name value with
  | Some e => mret (Err e)
  | None =>
      let vh := helper c name in
      b ← IsLocked vh;
      if b : bool then mret (Err "variable is locked")
      else
        let strValue := GetString value in
        let value := SetString value strValue in
        SetValue vh value ;;
        go (notifyVarModification c name value) ;;
        mret (Ok ())
  end.

(** [None] when the fuel of [GetVars] runs out. *)
Definition DelVar (fuel : nat) (c : TheController) (varname : string) : prog (option (result string unit)) :=
  valRes ← GetVars fuel c varname (NewDynamicVar "");
  match valRes with
  | None => mret None
  | Some (Err e) => mret (Some (Err e))
  | Some (Ok vals) =>
      if decide (vals = []) then mret (Some (Err "error deleting variable: maybe it doesn't exist"))
      else
        when (1 <? length vals) (do_ (Println ("Warning: Deleting multiple variables matching pattern '" +:+ varname +:+ "'"))) ;;
        for_each vals (λ t,
          let nameStr := GetString t.1 in
          vh_DeleteValue (helper c nameStr) ;;
          go (notifyVarModification c nameStr (NewDynamicVar ""))) ;;
        mret (Some (Ok ()))
  end.

(** ** Locks *)
Definition LockVar (c : TheController) (varName : string) (timeoutMs : Z) : prog (option (result string unit)) :=
  Lock (helper c varName) timeoutMs.
Definition UnlockVar (c : TheController) (varName : string) : prog (result string unit) := Unlock (helper c varName).
Definition IsVarLocked (c : TheController) (varName : string) : prog bool := IsLocked (helper c varName).

(** ** Observations *)
Definition ObserveVar (c : TheController) (varName clientId customIdsAndMetainfo api : string) : prog unit :=
  let vh := helper c varName in
  observing ← IsClientObserving vh clientId customIdsAndMetainfo;
  when (negb observing) (
    client ← NewControllerClientHelper clientId (Some api);
    RegisterObservation vh clientId customIdsAndMetainfo ;;
    RegisterNewObservation client varName ;;
    vals ← getVarInternal c varName;
    dv ← Notify client ((λ dv, (dv.1, customIdsAndMetainfo, dv.2)) <$> vals);
    unless_live dv (checkClientLiveTime c client)).

Definition StopObservingVar (c : TheController) (varName clientId customIdsAndMetainfo api : string) : prog unit :=
  RemoveObservationByClientAndMetadata (helper c varName) clientId customIdsAndMetainfo ;;
  ch ← NewControllerClientHelper clientId (Some api);
  UnregisterObservation ch varName.

Definition ApiStarted (api : string) : prog unit := do_ (Apis_insert api).

(** The entries of the notification of one observed variable. *)
Definition client_payload (c : TheController) (ch : ControllerClientHelper) (v : string) : prog payload :=
  vals ← getVarInternal c v;
  ls ← prog_mapM (λ dv : string * string,
    metadatas ← GetMetadatasOfAClient (helper c dv.1) (GetClientId ch);
    mret (match metadatas with
          | [] => [(dv.1, "", dv.2)]
          | _ => (λ metadata, (dv.1, metadata, dv.2)) <$> metadatas
          end)) vals;
  mret (concat ls).

(** [return]s at the first variable the client does not take. *)
Fixpoint update_vars (c : TheController) (ch : ControllerClientHelper) (vars : list string) : prog unit :=
  match vars with
  | [] => mret tt
  | v :: vars =>
      p ← client_payload c ch v;
      dv ← Notify ch p;
      if decide (GetString dv ≠ "LIVE") then checkClientLiveTime c ch else update_vars c ch vars
  end.
Definition updateClientAboutObservatingVars (c : TheController) (ch : ControllerClientHelper) : prog unit :=
  observingVars ← GetObservingVars ch;
  update_vars c ch observingVars.

(** The id of a client without one is the time in nanoseconds. *)
Definition ClientConnected (c : TheController) (clientId api : string) : prog (string * Z) :=
  clientId ← (if decide (clientId = "") then now ← do_ Time_Now; mret (Itoa now) else mret clientId);
  client ← NewControllerClientHelper clientId (Some api);
  observing ← GetObservingVarsCount client;
  go (updateClientAboutObservatingVars c client) ;;
  mret (clientId, observing).
End with_order.
