(* ===== verification/Variables.v ===== *)
(** * Setting variables

    What [SetVar] does to the database, on every branch, and what it can never
    do: without raw access, a client that sets variables reaches the values of
    the user's variables and nothing else. *)
From S2P Require Import Prelude GoStrings GoStrconv Misc NamedLock Storage RamCacheDB Reference Runtime Samples VarHelper Observations VarLock ClientHelper Controller.

(** ** Keys of variables *)

(** The key of variable [n] in the database. *)
Definition var_key (raw : bool) (n : string) : string := vh_name (var_helper raw n).

Lemma var_key_raw n : var_key true n = n.
Proof. done. Qed.

Lemma var_key_user n :
  ∃ m, var_key false n = "vars." +:+ m ∧ (n = m ∨ n = "vars." +:+ m).
Proof.
  unfold var_key, var_helper, SetControlledVarName. cbn. destruct (HasPrefix n "vars.") eqn:Hp; cbn.
  - apply HasPrefix_spec in Hp as [m ->]. exists m. auto.
  - exists n. auto.
Qed.

Lemma var_key_ne n : var_key false n ≠ "".
Proof. by destruct (var_key_user n) as (m & -> & _). Qed.

(** Every user variable is below the node [vars]. *)
Lemma keypath_user n :
  ∃ m, keypath (var_key false n) = "vars" :: trim_last (SplitByte m dot) ∧ (n = m ∨ n = "vars." +:+ m).
Proof.
  destruct (var_key_user n) as (m & -> & Hm). exists m. split; [|done].
  change ("vars." +:+ m) with ("vars" +:+ String dot m). by rewrite keypath_app.
Qed.

(** ** Underscores *)
Lemma first_segment_underscore s w ws :
  SplitByte s dot = w :: ws → starts_with_underscore w = starts_with_underscore s.
Proof.
  destruct s as [|a s]; cbn [SplitByte]; [by intros [= <- <-]|]. case_decide as Ha.
  - intros [= <- <-]. by rewrite Ha.
  - destruct (SplitByte s dot); by intros [= <- <-].
Qed.

Lemma later_segments_underscore s :
  containsUnderscoreDot s = false → Forall (λ w, starts_with_underscore w = false) (tail (SplitByte s dot)).
Proof.
  induction s as [|a s IH]; [done|]. cbn [SplitByte]. intros Hc.
  assert (containsUnderscoreDot s = false ∧ (a = dot → starts_with_underscore s = false)) as [Hc' Hs].
  { destruct s as [|b s]; [done|]. cbn [containsUnderscoreDot] in Hc. case_decide as Hd; [done|].
    split; [done|]. intros ->. cbn. apply bool_decide_eq_false. naive_solver. }
  specialize (IH Hc'). pose proof (first_segment_underscore s) as Hf.
  case_decide as Ha; cbn [tail].
  - destruct (SplitByte s dot) as [|w ws]; [done|]. constructor; [|done]. rewrite (Hf w ws eq_refl). by apply Hs.
  - by destruct (SplitByte s dot).
Qed.

Lemma no_underscore_segments s :
  containsUnderscoreDot s = false → starts_with_underscore s = false →
  Forall (λ w, starts_with_underscore w = false) (SplitByte s dot).
Proof.
  intros Hc Hs. pose proof (later_segments_underscore s Hc) as Ht. pose proof (first_segment_underscore s) as Hf.
  destruct (SplitByte s dot) as [|w ws]; [done|]. constructor; [|done]. by rewrite (Hf w ws eq_refl).
Qed.

(** The path of a name the checks let through. *)
Lemma keypath_accepted n :
  containsUnderscoreDot n = false → starts_with_underscore n = false →
  ∃ r, keypath (var_key false n) = "vars" :: r ∧ Forall (λ w, starts_with_underscore w = false) ("vars" :: r).
Proof.
  intros Hc Hs. destruct (keypath_user n) as (m & Hk & Hm). exists (trim_last (SplitByte m dot)).
  split; [done|]. constructor; [done|]. apply trim_last_Forall.
  pose proof (no_underscore_segments n Hc Hs) as Hn. destruct Hm as [-> | ->]; [done|].
  change ("vars." +:+ m) with ("vars" +:+ String dot m) in Hn. rewrite SplitByte_app in Hn.
  by apply Forall_app in Hn as [_ Hn].
Qed.

(** ** [SetVar] *)
Section setvar.
Context {DB : Type} {HI : IStorage DB} {HS : StorageSpec DB} `{Environment, RangeOrder}.
Implicit Types (w : World DB) (c : TheController).

(** The four outcomes. *)
Lemma run_SetVar c name value w :
  valid (w_db w) →
  let n := GetOnly name valid_name_chars in
  let key := var_key (allowRawDbAccess c) n in
  run (SetVar c name value) w = Some
    (match set_var_error c n value with
     | Some e => (Err e, w)
     | None =>
         if locked (w_db w) key then (Err "variable is locked", w)
         else (Ok (), set_tasks (w_tasks w ++ [notifyVarModification c n value])
                        (if Contains key "*" then w else set_db (st_Set key value (w_db w)) w))
     end).
Proof.
  intros Hv n key. unfold SetVar. fold n. destruct (set_var_error c n value) as [e|]; [done|].
  cbv zeta. rewrite (run_bind_eq _ _ _ _ _ (run_IsLocked (helper c n) w Hv)).
  change (vh_name (helper c n)) with key. destruct (locked (w_db w) key); [done|].
  unfold SetValue. change (vh_name (helper c n)) with key.
  assert (SetString value (GetString value) = value) as -> by (by destruct value).
  by destruct (Contains key "*").
Qed.

(** C13.  [SetVar] returns, and without raw access it is confined: whatever the
    name, the value and the outcome, nothing changes outside the subtree [vars]
    nor at any path with a segment that starts with an underscore, that is no
    flag, lock or observation of any variable and no record of any client. *)
Theorem SetVar_confined c name value w :
  allowRawDbAccess c = false → valid (w_db w) →
  ∃ r w', run (SetVar c name value) w = Some (r, w') ∧
    ∀ p, ¬ ["vars"] `prefix_of` p ∨ Exists (λ s, starts_with_underscore s = true) p →
      val (w_db w') p = val (w_db w) p.
Proof.
  intros Hraw Hv. rewrite (run_SetVar c name value w Hv). cbv zeta. rewrite Hraw.
  set (n := GetOnly name valid_name_chars).
  destruct (set_var_error c n value) as [e|] eqn:He; [eexists _, _; split; [done|done]|].
  destruct (locked _ _); [eexists _, _; split; [done|done]|].
  eexists _, _. split; [done|]. intros p Hp. destruct (Contains _ "*"); [done|]. cbn.
  assert (containsUnderscoreDot n = false ∧ starts_with_underscore n = false) as [Hc Hs].
  { unfold set_var_error in He. rewrite Hraw in He. cbn [negb andb] in He. case_decide; [done|].
    destruct (starts_with_underscore n), (containsUnderscoreDot n); done. }
  destruct (keypath_accepted n Hc Hs) as (r & Hk & Hr).
  rewrite val_Set by done. rewrite decide_False; [done|]. intros ->. rewrite Hk in Hp.
  destruct Hp as [Hp|Hp]; [apply Hp; by exists r|].
  apply Exists_exists in Hp as (s & Hin & Hu). rewrite Forall_forall in Hr. specialize (Hr s Hin). congruence.
Qed.

(** Some segment is too long, in terms of the segments themselves. *)
Lemma some_word_too_long c n :
  existsb (λ p, (maxKeyWordLength c <? Z.of_nat (len p))%Z) (if Contains n "." then SplitByte n dot else [n]) = true ↔
  Exists (λ p, (maxKeyWordLength c < Z.of_nat (len p))%Z) (SplitByte n dot).
Proof.
  assert ((if Contains n "." then SplitByte n dot else [n]) = SplitByte n dot) as ->.
  { destruct (Contains n ".") eqn:E; [done|]. apply Contains_byte_false in E. by rewrite SplitByte_lacks. }
  rewrite existsb_exists, Exists_exists. setoid_rewrite Z.ltb_lt. setoid_rewrite list_elem_of_In. naive_solver.
Qed.

Lemma set_var_error_iff c n value :
  is_Some (set_var_error c n value) ↔
    n = "" ∨ (allowRawDbAccess c = false ∧ starts_with_underscore n = true) ∨ containsUnderscoreDot n = true ∨
    (maxKeyLength c < Z.of_nat (len n))%Z ∨ (maxValueSize c < Z.of_nat (len (GetString value)))%Z ∨
    ((0 < maxKeyWordLength c)%Z ∧ Exists (λ p, (maxKeyWordLength c < Z.of_nat (len p))%Z) (SplitByte n dot)).
Proof.
  rewrite <-(some_word_too_long c n), <-!Z.ltb_lt, <-(negb_true_iff (allowRawDbAccess c)), <-!andb_true_iff.
  unfold set_var_error. case_decide as Hn; [naive_solver|].
  set (long := existsb _ _).
  destruct (negb (allowRawDbAccess c) && starts_with_underscore n), (containsUnderscoreDot n); cbn [orb];
    try (split; [tauto|by eexists]).
  destruct (maxKeyLength c <? _)%Z; [split; [tauto|by eexists]|].
  destruct (maxValueSize c <? _)%Z; [split; [tauto|by eexists]|].
  destruct ((0 <? maxKeyWordLength c)%Z && long); [split; [tauto|by eexists]|].
  split; [by intros []|]. intros Hor. exfalso. naive_solver.
Qed.


(** A variable whose filtered name has a wildcard is accepted: the caller
    gets success and the observers are notified, but nothing is stored. *)
Theorem SetVar_wildcard_ignored c name value w :
  valid (w_db w) →
  let n := GetOnly name valid_name_chars in
  let key := var_key (allowRawDbAccess c) n in
  Contains key "*" = true → set_var_error c n value = None → locked (w_db w) key = false →
  run (SetVar c name value) w = Some (Ok (), set_tasks (w_tasks w ++ [notifyVarModification c n value]) w).
Proof. intros Hv n key Hstar He Hl. rewrite (run_SetVar c name value w Hv). cbv zeta. fold n. fold key. by rewrite He, Hl, Hstar. Qed.
End setvar.

(** [SetVar] does not depend on the network. *)
Lemma SetVar_any_env {DB : Type} {HI : IStorage DB} {HS : StorageSpec DB} {HO : RangeOrder} (E : Environment)
    c n v (w : World DB) r w' :
  valid (w_db w) → run (H := E) (SetVar c n v) w = Some (r, w') →
  w_calls w' = w_calls w ∧ w_sent w' = w_sent w ∧ ∀ E', run (H := E') (SetVar c n v) w = Some (r, w').
Proof.
  intros Hv Hr. rewrite (run_SetVar (H := E)) in Hr by done. split_and!.
  1,2: cbv zeta in Hr; repeat case_match; by simplify_eq.
  - intros E'. by rewrite run_SetVar.
Qed.

(** ** Witnesses *)
Section witnesses.
Existing Instance canonical_order.
Existing Instance online.

(** The default configuration. *)
Definition default_controller : TheController := mkController 43200 "" 255 64 65535 false.

Lemma SetVar_confined_witness :
  allowRawDbAccess default_controller = false ∧ valid (w_db fresh_world) ∧
  ∃ r w', run (SetVar default_controller "vars.home.lamp" (NewDynamicVar "on")) fresh_world = Some (r, w') ∧
    ∀ p, ¬ ["vars"] `prefix_of` p ∨ Exists (λ s, starts_with_underscore s = true) p →
      val (w_db w') p = val (w_db fresh_world) p.
Proof.
  assert (valid (w_db fresh_world)) as Hv by apply fresh_valid. split; [reflexivity|]. split; [exact Hv|].
  exact (SetVar_confined default_controller "vars.home.lamp" (NewDynamicVar "on") fresh_world eq_refl Hv).
Defined.


Lemma SetVar_wildcard_ignored_witness :
  valid (w_db fresh_world) ∧
  run (SetVar default_controller "a.*" (NewDynamicVar "1")) fresh_world
  = Some (Ok (), set_tasks [notifyVarModification default_controller "a.*" (NewDynamicVar "1")] fresh_world).
Proof.
  assert (valid (w_db fresh_world)) as Hv by apply fresh_valid. split; [exact Hv|].
  exact (SetVar_wildcard_ignored default_controller "a.*" (NewDynamicVar "1") fresh_world Hv
           eq_refl eq_refl eq_refl).
Defined.
End witnesses.
