(* ===== verification/Subtree.v ===== *)
(** * Reading and deleting variables

    [GetVars] with a wildcard walks a subtree of the database by building names
    and looking each of them up.  This file shows that the walk ends and that
    it reports exactly the visible variables of the subtree, each once, and what
    [DelVar] removes. *)
From S2P Require Import Prelude GoStrings GoStrconv Misc NamedLock Storage RamCacheDB Reference Runtime Samples VarHelper Observations VarLock ClientHelper ClientState Controller Variables.

(** ** Names of a subtree *)

(** [prefix + curr] *)
Definition below (n k : string) : string := (if decide (n ≠ "") then n +:+ "." else n) +:+ k.

(** The name the walk builds for the node [r] below [n]. *)
Fixpoint name_of (n : string) (r : list string) : string :=
  match r with
  | [] => n
  | k :: r => name_of (below n k) r
  end.

Lemma below_ne n k : n ≠ "" → below n k = n +:+ String dot k.
Proof. intros Hn. unfold below. rewrite decide_True by done. by rewrite str_app_assoc. Qed.

Lemma below_not_empty n k : n ≠ "" → below n k ≠ "".
Proof. intros Hn. rewrite below_ne by done. by destruct n. Qed.

Lemma SplitByte_name_of n r :
  n ≠ "" → Forall (lacks dot) r → SplitByte (name_of n r) dot = SplitByte n dot ++ r.
Proof.
  revert n. induction r as [|k r IH]; intros n Hn Hr; cbn; [by rewrite app_nil_r|].
  apply Forall_cons in Hr as [Hk Hr]. rewrite IH by (done || by apply below_not_empty).
  by rewrite below_ne, SplitByte_app, (SplitByte_lacks k), <-app_assoc by done.
Qed.

(** ** Names whose subtree the walk can reach *)

(** The name is not empty, has no trailing dot, and is not the word [vars], which
    the user's names may start with. *)
Definition readable (raw : bool) (n : string) : Prop :=
  n ≠ "" ∧ last (SplitByte n dot) ≠ Some "" ∧ (raw = true ∨ n ≠ "vars").

Lemma vars_prefix_below n k :
  n ≠ "vars" → HasPrefix (n +:+ String dot k) "vars." = HasPrefix n "vars.".
Proof.
  intros Hn. destruct n as [|a [|b [|c [|d [|e n]]]]]; str_simpl; rewrite ?andb_false_r; try done.
  all: repeat match goal with |- context [bool_decide (?x = ?y)] =>
    destruct (decide (x = y)) as [?|?];
      [rewrite (bool_decide_true (x = y)) by done|rewrite (bool_decide_false (x = y)) by done]; cbn [andb]; try done
  end.
  - by destruct Hn; subst.
  - by destruct n, (_ +:+ _).
Qed.

Lemma var_key_below raw n k : readable raw n → var_key raw (below n k) = var_key raw n +:+ String dot k.
Proof.
  intros (Hne & _ & Hraw). rewrite below_ne by done. destruct raw; [done|].
  unfold var_key, var_helper, SetControlledVarName. cbn.
  rewrite vars_prefix_below by (by destruct Hraw). destruct (HasPrefix n "vars."); cbn; [done|].
  by rewrite str_app_assoc.
Qed.

Lemma readable_below raw n k : readable raw n → lacks dot k → k ≠ "" → readable raw (below n k).
Proof.
  intros (Hne & _ & _) Hk Hk'. rewrite below_ne by done. split_and!.
  - by destruct n.
  - rewrite SplitByte_app, (SplitByte_lacks k), last_snoc by done. by intros [= ->].
  - right. intros He. apply (f_equal (λ s, Contains s ".")) in He. cbn in He.
    assert (Contains (n +:+ String dot k) (String dot "") = true) as Hc.
    { apply Contains_byte. rewrite lacks_app, lacks_cons. naive_solver. }
    change (Contains "vars" ".") with false in He. congruence.
Qed.

Lemma keypath_var_key_last raw n :
  n ≠ "" → last (SplitByte n dot) ≠ Some "" → keypath (var_key raw n) = SplitByte (var_key raw n) dot ∧ var_key raw n ≠ "".
Proof.
  intros Hne Hl. assert (last (SplitByte (var_key raw n) dot) ≠ Some "" ∧ var_key raw n ≠ "") as [Hl' Hne'].
  { destruct raw; [done|]. destruct (var_key_user n) as (m & -> & Hm). split; [|done].
    change ("vars." +:+ m) with ("vars" +:+ String dot m) in *. rewrite SplitByte_app.
    pose proof (SplitByte_ne m dot) as Hsm. destruct Hm as [<- | ->].
    - destruct (SplitByte n dot) as [|x l _] using rev_ind; [done|]. by rewrite app_assoc, !last_snoc in *.
    - rewrite SplitByte_app in Hl. done. }
  split; [|done]. rewrite <-keypath_trim by done. by apply last_ne_trim.
Qed.

(** The node of a child, for the walk and in the database. *)
Lemma keypath_below_child raw n k :
  readable raw n → lacks dot k → k ≠ "" →
  keypath (var_key raw (below n k)) = keypath (var_key raw n) ++ [k].
Proof.
  intros Hr Hk Hk'. pose proof (readable_below raw n k Hr Hk Hk') as (Hn' & Hl' & _).
  destruct Hr as (Hn & Hl & Hraw). rewrite (proj1 (keypath_var_key_last raw (below n k) Hn' Hl')).
  rewrite (proj1 (keypath_var_key_last raw n Hn Hl)).
  rewrite var_key_below by (by split_and!). by rewrite SplitByte_app, (SplitByte_lacks k).
Qed.

(** ** The walk *)
Section walk.
Context {DB : Type} {HI : IStorage DB} {HS : StorageSpec DB} {now : Z}.
Implicit Types (db : DB) (c : TheController) (q : list string).

Definition visible_path (raw : bool) (r : list string) : Prop := Forall (λ k, visible_child raw k = true) r.

Lemma visible_ne raw k : visible_child raw k = true → k ≠ "".
Proof. by destruct k. Qed.

Lemma view_prefix db p r : valid db → is_Some (view db (p ++ r)) → is_Some (view db p).
Proof.
  intros Hv. induction r as [|k r IH] using rev_ind; [by rewrite app_nil_r|].
  rewrite app_assoc. intros Hs. by eapply IH, view_closed.
Qed.

(** [n] stands for the node [q], and each of its visible children has a name the
    walk can go on with. *)
Record node_ok (raw : bool) db (n : string) q : Prop := {
  node_path : keypath (var_key raw n) = q;
  node_key : var_key raw n ≠ "";
  node_child : ∀ k, visible_child raw k = true → is_Some (view db (q ++ [k])) →
    readable raw (below n k) ∧ keypath (var_key raw (below n k)) = q ++ [k]
}.

Lemma readable_node_ok raw db n :
  valid db → readable raw n → node_ok raw db n (keypath (var_key raw n)).
Proof.
  intros Hv Hr. split; [done|by apply keypath_var_key_last; apply Hr|].
  intros k Hk Hs. pose proof (visible_ne raw k Hk) as Hne. apply view_names in Hs; [|done].
  apply Forall_app in Hs as [_ Hs]. inversion_clear Hs as [|? ? Hd _].
  split; [by apply readable_below|by apply keypath_below_child].
Qed.

(** The root of the user's variables, when no variable is named [vars.vars]. *)
Lemma root_node_ok db : valid db → view db ["vars"; "vars"] = None → node_ok false db "" ["vars"].
Proof.
  intros Hv Hn. split; [done|done|]. intros k Hk Hs. pose proof (visible_ne false k Hk) as Hne.
  assert (lacks dot k) as Hd.
  { apply view_names in Hs; [|done]. apply Forall_app in Hs as [_ Hs]. by inversion_clear Hs. }
  change (below "" k) with k. split.
  - split_and!; [done|by rewrite SplitByte_lacks; [cbn; congruence|]|]. right. intros ->. change (is_Some (view db ["vars"; "vars"])) in Hs. rewrite Hn in Hs. by destruct Hs.
  - assert (HasPrefix k "vars." = false) as Hp.
    { apply not_true_iff_false. intros [t ->]%HasPrefix_spec. apply lacks_app in Hd as [Hd _]. done. }
    unfold var_key, var_helper, SetControlledVarName. cbn [vh_raw NewControllerVarHelper]. rewrite Hp. cbn [vh_name].
    change ("vars." +:+ k) with ("vars" +:+ String dot k). rewrite keypath_below; rewrite SplitByte_lacks by done; [done|].
    cbn. congruence.
Qed.

(** The variables of the subtree of [n]: all of them and each once. *)
Record listing (raw : bool) db (n : string) q (l : values) : Prop := {
  listing_nodup : NoDup l.*1;
  listing_spec : ∀ a v, (a, v) ∈ l ↔ ∃ r, a = NewDynamicVar (name_of n r) ∧ visible_path raw r ∧
    view db (q ++ r) = Some v ∧ GetString v ≠ ""
}.

(** The children read so far. *)
Record partial (raw : bool) db (n : string) q (done : list string) (l : values) : Prop := {
  partial_nodup : NoDup l.*1;
  partial_spec : ∀ a v, (a, v) ∈ l ↔
    (a = NewDynamicVar n ∧ view db q = Some v ∧ GetString v ≠ "") ∨
    ∃ k r, k ∈ done ∧ a = NewDynamicVar (name_of (below n k) r) ∧ visible_path raw r ∧
      view db (q ++ k :: r) = Some v ∧ GetString v ≠ ""
}.

Lemma listing_names raw db n q l a :
  listing raw db n q l → a ∈ l.*1 → ∃ r v, a = NewDynamicVar (name_of n r) ∧ view db (q ++ r) = Some v.
Proof.
  intros [_ Hl] ([a' v] & -> & Hin)%list_elem_of_fmap. apply Hl in Hin as (r & -> & _ & Hv & _). by exists r, v.
Qed.

(** Names below different children are different, and not the name of the node. *)
Lemma child_name_inj db n q k k' r r' v v' :
  valid db → below n k ≠ "" → below n k' ≠ "" →
  view db (q ++ k :: r) = Some v → view db (q ++ k' :: r') = Some v' →
  name_of (below n k) r = name_of (below n k') r' → k = k'.
Proof.
  intros Hv Hk Hk' H1 H2 He.
  assert (∀ k r v, view db (q ++ k :: r) = Some v → lacks dot k ∧ Forall (lacks dot) r) as Hl.
  { intros k0 r0 v0 H0. assert (is_Some (view db (q ++ k0 :: r0))) as Hs by (by eexists).
    apply view_names in Hs; [|done]. apply Forall_app in Hs as [_ Hs]. by apply Forall_cons in Hs. }
  destruct (Hl _ _ _ H1) as [Hd Hr]. destruct (Hl _ _ _ H2) as [Hd' Hr'].
  apply (f_equal (λ s, SplitByte s dot)) in He. rewrite !SplitByte_name_of in He by done.
  destruct (decide (n = "")) as [->|Hn].
  - change (below "" k) with k in He. change (below "" k') with k' in He.
    rewrite !SplitByte_lacks in He by done. by injection He.
  - rewrite !below_ne, !SplitByte_app, !(SplitByte_lacks k), !(SplitByte_lacks k'), <-!app_assoc in He by done.
    apply app_inv_prefix in He. by injection He.
Qed.

Lemma child_name_ne db n q k r v :
  valid db → below n k ≠ "" → view db (q ++ k :: r) = Some v → name_of (below n k) r ≠ n.
Proof.
  intros Hv Hk H1 He. assert (is_Some (view db (q ++ k :: r))) as Hs by (by eexists).
  apply view_names in Hs; [|done]. apply Forall_app in Hs as [_ Hs]. apply Forall_cons in Hs as [Hd Hr].
  destruct (decide (n = "")) as [->|Hn].
  - change (below "" k) with k in *. apply (f_equal (λ s, SplitByte s dot)) in He.
    rewrite SplitByte_name_of, SplitByte_lacks in He by done. cbn in He. by injection He as -> _.
  - apply (f_equal (λ s, SplitByte s dot)) in He. rewrite SplitByte_name_of, below_ne, SplitByte_app, <-app_assoc in He by done.
    apply (f_equal length) in He. rewrite !length_app in He.
    pose proof (SplitByte_ne k dot). destruct (SplitByte k dot); [done|]. cbn in He. lia.
Qed.

(** No child yet. *)
Lemma partial_root raw db n q :
  partial raw db n q [] (if decide (GetString (val db q) ≠ "") then [(NewDynamicVar n, val db q)] else []).
Proof.
  assert (∀ a v, (a, v) ∈ (if decide (GetString (val db q) ≠ "") then [(NewDynamicVar n, val db q)] else []) ↔
    a = NewDynamicVar n ∧ view db q = Some v ∧ GetString v ≠ "") as Hroot.
  { intros a v. unfold val, value_at. destruct (view db q) as [v0|]; cbn [default from_option].
    - case_decide; rewrite ?list_elem_of_singleton, ?elem_of_nil; naive_solver.
    - rewrite decide_False by (intros Hx; by apply Hx). rewrite elem_of_nil. naive_solver. }
  split.
  - case_decide; [apply NoDup_singleton|constructor].
  - intros a v. rewrite Hroot. split; [by left|].
    intros [?|(k & r & Hk & _)]; [done|by apply elem_of_nil in Hk].
Qed.

(** One more child. *)
Lemma partial_step raw db n q done k l tmp :
  valid db → below n k ≠ "" → (∀ k', k' ∈ done → below n k' ≠ "") → k ∉ done →
  listing raw db (below n k) (q ++ [k]) tmp → partial raw db n q done l →
  partial raw db n q (k :: done) (tmp ++ l).
Proof.
  intros Hv Hk Hdone Hnew Hl [Hnd Hp]. split.
  - rewrite fmap_app. apply NoDup_app. split_and!; [apply Hl| |done].
    intros a Hin Hin'. destruct (listing_names _ _ _ _ _ _ Hl Hin) as (r & v & -> & Hview).
    rewrite <-app_assoc in Hview. cbn [app] in Hview.
    apply list_elem_of_fmap in Hin' as ([a' v'] & Ha & Hin'). cbn in Ha. subst a'.
    apply Hp in Hin' as [(Ha & _)|(k' & r' & Hk' & Ha & _ & Hview' & _)]; injection Ha as Ha.
    + by eapply child_name_ne in Ha.
    + apply (child_name_inj db n q k k' r r' v v') in Ha; [by subst|done|done|by apply Hdone|done|done].
  - intros a v. rewrite elem_of_app, Hp, (listing_spec _ _ _ _ _ Hl). split.
    + intros [(r & -> & Hr & Hview & Hne)|[?|(k' & r & Hk' & ?)]]; [|by left|].
      * right. exists k, r. rewrite <-app_assoc in Hview. split; [by left|done].
      * right. exists k', r. split; [by right|done].
    + intros [?|(k' & r & [->|Hk']%elem_of_cons & Ha & Hr & Hview & Hne)]; [by right; left| |].
      * left. exists r. by rewrite <-app_assoc.
      * right. right. by exists k', r.
Qed.

Context (raw : bool) (c : TheController) (Hraw : allowRawDbAccess c = raw).

Lemma drun_GetValue n db :
  valid db → drun now (GetValue (helper c n)) db = Some (val db (keypath (var_key raw n)), db).
Proof.
  intros Hv. unfold GetValue, helper. rewrite Hraw. cbn. by rewrite Get_empty.
Qed.

Lemma drun_GetChildNames n db :
  drun now (GetChildNames (helper c n)) db
  = Some (filter (λ ch, visible_child raw ch = true) (st_GetChilds (var_key raw n) db), db).
Proof.
  unfold GetChildNames, helper. rewrite Hraw, drun_childs, drun_ret.
  unfold var_key, var_helper, SetControlledVarName. cbn [vh_raw vh_name NewControllerVarHelper].
  destruct raw; [done|]. by destruct (HasPrefix n "vars.").
Qed.

Lemma drun_read_childs read pre n q db childs don res :
  valid db → pre = (if decide (n ≠ "") then n +:+ "." else n) →
  (∀ k, k ∈ childs → below n k ≠ "" ∧ ∃ l, drun now (read (below n k)) db = Some (Some l, db) ∧
     listing raw db (below n k) (q ++ [k]) l) →
  (∀ k, k ∈ don → below n k ≠ "") → NoDup childs → (∀ k, k ∈ childs → k ∉ don) →
  partial raw db n q don res →
  ∃ l, drun now (read_childs read pre childs res) db = Some (Some l, db) ∧
    partial raw db n q (reverse childs ++ don) l.
Proof.
  intros Hv ->. revert don res. induction childs as [|k childs IH]; intros don res Hread Hdon Hnd Hdis Hp.
  - by exists res.
  - destruct (Hread k) as (Hk & l & Hr & Hl); [by left|]. apply NoDup_cons in Hnd as [Hk' Hnd].
    destruct (IH (k :: don) (l ++ res)) as (l' & Hr' & Hp').
    + intros k' Hin. apply Hread. by right.
    + intros k' [->|Hin]%elem_of_cons; [done|by apply Hdon].
    + done.
    + intros k' Hin [->|Hin']%elem_of_cons; [done|]. eapply Hdis; [by right|done].
    + apply partial_step; [done..| |done|done]. apply Hdis. by left.
    + exists l'. split.
      { cbn [read_childs]. fold (below n k). by rewrite (drun_bind_eq _ _ _ _ _ Hr). }
      by rewrite reverse_cons, <-app_assoc.
Qed.

Lemma drun_walk N fuel n q db :
  valid db → (∀ p, is_Some (view db p) → length p ≤ N) → node_ok raw db n q →
  fuel ≠ 0 → N < fuel + length q →
  ∃ l, drun now (readFromDb fuel c n true) db = Some (Some l, db) ∧ listing raw db n q l.
Proof.
  intros Hv HN. revert n q. induction fuel as [|fuel IH]; intros n q Hok Hf HNf; [done|].
  cbn [readFromDb]. rewrite (drun_bind_eq _ _ _ _ _ (drun_GetValue n db Hv)), (node_path _ _ _ _ Hok).
  cbv zeta. rewrite (drun_bind_eq _ _ _ _ _ (drun_GetChildNames n db)).
  set (childs := filter _ _). set (res := if decide (GetString (val db q) ≠ "") then [(NewDynamicVar n, val db q)] else []).
  assert (∀ k, k ∈ childs ↔ visible_child raw k = true ∧ is_Some (view db (q ++ [k]))) as Hchilds.
  { intros k. unfold childs. rewrite list_elem_of_filter, GetChilds_spec by done.
    by rewrite decide_False, (node_path _ _ _ _ Hok) by apply Hok. }
  pose proof (partial_root raw db n q : partial raw db n q [] res) as Hres.
  destruct (drun_read_childs (λ n, readFromDb fuel c n true) _ n q db childs [] res Hv eq_refl) as (l & Hr & Hp).
  - intros k [Hvis Hs]%Hchilds. destruct (node_child _ _ _ _ Hok k Hvis Hs) as [Hread Hpath].
    split; [apply Hread|]. apply IH.
    + rewrite <-Hpath. by apply readable_node_ok.
    + apply HN in Hs. rewrite length_app in Hs. cbn in Hs. lia.
    + rewrite length_app. cbn. lia.
  - intros k Hk. by apply elem_of_nil in Hk.
  - apply NoDup_filter. by apply GetChilds_NoDup.
  - intros k _ Hk. by apply elem_of_nil in Hk.
  - exact Hres.
  - exists l. split; [exact Hr|]. destruct Hp as [Hnd Hp]. split; [done|]. intros a v. rewrite Hp, app_nil_r. split.
    + intros [(-> & Hview & Hne)|(k & r & Hk & -> & Hvis & Hview & Hne)].
      * exists []. rewrite app_nil_r. by repeat split; [constructor|..].
      * apply elem_of_reverse, Hchilds in Hk as [Hk _]. exists (k :: r). by repeat split; [constructor|..].
    + intros ([|k r] & -> & Hvis & Hview & Hne).
      * left. by rewrite app_nil_r in Hview.
      * right. apply Forall_cons in Hvis as [Hk Hvis]. exists k, r. split; [|done].
        apply elem_of_reverse, Hchilds. split; [done|]. eapply (view_prefix db _ r); [done|].
        rewrite <-app_assoc. by eexists.
Qed.
End walk.

(** ** Patterns *)
Lemma Contains_byte_app n c s : Contains (n +:+ String c s) (String c "") = true.
Proof. apply Contains_byte. rewrite lacks_app, lacks_cons. naive_solver. Qed.

Lemma no_trailing_dot n : last (SplitByte n dot) ≠ Some "" → TrimSuffix n "." = n.
Proof.
  intros Hl. unfold TrimSuffix. destruct (HasSuffix n ".") eqn:Hs; [|done].
  apply HasSuffix_spec in Hs as [t ->]. destruct Hl.
  change (t +:+ ".") with (t +:+ String dot ""). rewrite SplitByte_app. change (SplitByte "" dot) with [""]. by rewrite last_snoc.
Qed.

Lemma parse_wildcard_below n :
  last (SplitByte n dot) ≠ Some "" → parse_wildcard (n +:+ ".*") = Ok (n, true).
Proof.
  intros Hl. unfold parse_wildcard.
  assert (n +:+ ".*" = (n +:+ ".") +:+ "*") as Hstar by (by rewrite str_app_assoc).
  rewrite decide_False by (by destruct n).
  assert (Contains (n +:+ ".*") "*" = true) as ->.
  { rewrite Hstar. exact (Contains_byte_app (n +:+ ".") "*" ""). }
  rewrite (proj2 (HasSuffix_spec _ "*")) by (exists (n +:+ "."); done).
  rewrite (proj2 (HasSuffix_spec _ ".*")) by (by exists n).
  rewrite len_app. change (len ".*") with 2. replace (len n + 2 - 2) with (len n) by lia.
  by rewrite str_take_app, no_trailing_dot.
Qed.

Lemma var_key_star raw n : Contains n "*" = false → Contains (var_key raw n) "*" = false.
Proof.
  destruct raw; [done|]. unfold var_key, var_helper, SetControlledVarName. cbn.
  destruct (HasPrefix n "vars."); [done|]. cbn [vh_name]. rewrite !Contains_byte_false, lacks_app. done.
Qed.

Section getvars.
Context {DB : Type} {HI : IStorage DB} {HS : StorageSpec DB} `{Environment}.
Implicit Types (w : World DB) (c : TheController).

(** What [GetVars] answers for the values it read. *)
Definition answer_of (n : string) (d : DynamicVar) (l : values) : values :=
  match l with [] => [(NewDynamicVar n, d)] | _ => l end.

(** [GetVars] of a pattern whose walk is known. *)
Lemma run_GetVars_walk c name n q d w :
  valid (w_db w) → parse_wildcard name = Ok (n, true) → node_ok (allowRawDbAccess c) (w_db w) n q →
  ∃ fuel0, ∀ fuel, fuel0 ≤ fuel → ∃ l, listing (allowRawDbAccess c) (w_db w) n q l ∧
    run (GetVars fuel c name d) w = Some (Some (Ok (answer_of n d l)), w).
Proof.
  intros Hv Hp Hok. destruct (view_bounded (w_db w) Hv) as [N HN]. exists (S N). intros fuel Hfuel.
  destruct (drun_walk (now:=w_now w) (allowRawDbAccess c) c eq_refl N fuel n q (w_db w) Hv HN Hok)
    as (l & Hd & Hl); [lia|lia|].
  exists l. split; [done|]. unfold GetVars. rewrite Hp. apply run_drun in Hd. rewrite set_db_self in Hd.
  rewrite (run_bind_eq _ _ _ _ _ Hd). by destruct l.
Qed.

(** C7.  [GetVars] of the pattern [n.*] terminates and answers with exactly the
    variables of the subtree of [n] that a client may see, each once: the name
    built from the segments and the stored value, for every path of non-internal
    segments below [n] ([n] included) that holds a value; the default alone when
    there is none.  Nothing changes.  ([n] has no trailing dot and is not the
    bare word [vars].) *)
Theorem GetVars_subtree c n d w :
  let raw := allowRawDbAccess c in
  valid (w_db w) → readable raw n →
  ∃ fuel0, ∀ fuel, fuel0 ≤ fuel → ∃ l,
    run (GetVars fuel c (n +:+ ".*") d) w = Some (Some (Ok (answer_of n d l)), w) ∧
    NoDup l.*1 ∧
    ∀ a v, (a, v) ∈ l ↔ ∃ r, a = NewDynamicVar (name_of n r) ∧ visible_path raw r ∧
      view (w_db w) (keypath (var_key raw n) ++ r) = Some v ∧ GetString v ≠ "".
Proof.
  intros raw Hv Hr. destruct (run_GetVars_walk c (n +:+ ".*") n (keypath (var_key raw n)) d w Hv) as [fuel0 Hf].
  - apply parse_wildcard_below, Hr.
  - by apply readable_node_ok.
  - exists fuel0. intros fuel Hle. destruct (Hf fuel Hle) as (l & [Hnd Hl] & Hrun). by exists l.
Qed.

(** [GetVars] of ["*"] answers with exactly the variables of the user, when
    none of them is called [vars.vars]. *)
Theorem GetVars_everything c d w :
  allowRawDbAccess c = false → valid (w_db w) → view (w_db w) ["vars"; "vars"] = None →
  ∃ fuel0, ∀ fuel, fuel0 ≤ fuel → ∃ l,
    run (GetVars fuel c "*" d) w = Some (Some (Ok (answer_of "" d l)), w) ∧ NoDup l.*1 ∧
    ∀ a v, (a, v) ∈ l ↔ ∃ r, a = NewDynamicVar (name_of "" r) ∧ visible_path false r ∧
      view (w_db w) ("vars" :: r) = Some v ∧ GetString v ≠ "".
Proof.
  intros Hraw Hv Hn. destruct (run_GetVars_walk c "*" "" ["vars"] d w Hv) as [fuel0 Hf].
  - done.
  - rewrite Hraw. by apply root_node_ok.
  - exists fuel0. intros fuel Hle. destruct (Hf fuel Hle) as (l & Hl & Hrun). rewrite Hraw in Hl.
    destruct Hl as [Hnd Hl]. by exists l.
Qed.

(** Without a wildcard. *)
Lemma run_GetVars_plain fuel c n d w :
  valid (w_db w) → n ≠ "" → Contains n "*" = false →
  let v := val (w_db w) (keypath (var_key (allowRawDbAccess c) n)) in
  run (GetVars (S fuel) c n d) w
  = Some (Some (Ok [(NewDynamicVar n, if decide (GetString v ≠ "") then v else d)]), w).
Proof.
  intros Hv Hn Hc v. unfold GetVars, parse_wildcard. rewrite decide_False, Hc by done. cbn [readFromDb].
  pose proof (drun_GetValue (now:=w_now w) (allowRawDbAccess c) c eq_refl n (w_db w) Hv) as Hd.
  apply run_drun in Hd. rewrite set_db_self in Hd. rewrite run_bind, (run_bind_eq _ _ _ _ _ Hd). fold v.
  by case_decide.
Qed.

(** C2.  A variable that was set is read back: after a [SetVar] that passed the
    checks, on a variable without lock and wildcard, [GetVars] of the name
    answers with the value (the default, if the value is empty), and every other
    path holds what it held. *)
Theorem SetVar_then_GetVars `{RangeOrder} c name value d fuel w :
  let raw := allowRawDbAccess c in
  let n := GetOnly name valid_name_chars in
  valid (w_db w) → set_var_error c n value = None → Contains n "*" = false →
  locked (w_db w) (var_key raw n) = false →
  ∃ w', run (SetVar c name value) w = Some (Ok (), w') ∧ valid (w_db w') ∧
    run (GetVars (S fuel) c n d) w'
      = Some (Some (Ok [(NewDynamicVar n, if decide (GetString value ≠ "") then value else d)]), w') ∧
    ∀ p, p ≠ keypath (var_key raw n) → val (w_db w') p = val (w_db w) p.
Proof.
  intros raw n Hv He Hstar' Hl. pose proof (var_key_star raw n Hstar') as Hstar. rewrite (run_SetVar c name value w Hv). cbv zeta. fold n raw.
  rewrite He, Hl, Hstar. eexists. split; [done|]. cbn [w_db set_db set_tasks].
  assert (n ≠ "") as Hn. { intros Hn. unfold set_var_error in He. by rewrite decide_True in He. }
  split; [by apply Set_valid|]. split.
  - rewrite run_GetVars_plain by (done || by apply Set_valid). cbv zeta. cbn [w_db set_db set_tasks].
    fold raw. assert (val (st_Set (var_key raw n) value (w_db w)) (keypath (var_key raw n)) = value) as Hval
      by (by rewrite val_Set, decide_True).
    by rewrite Hval.
  - intros p Hp. rewrite val_Set by done. by rewrite decide_False.
Qed.

(** [GetVars] fails exactly on the empty name and on a wildcard that is not
    at the end, whatever the fuel (and reads nothing then). *)
Theorem GetVars_error_iff c name d fuel w :
  valid (w_db w) →
  (∃ e, run (GetVars fuel c name d) w = Some (Some (Err e), w)) ↔
  name = "" ∨ (Contains name "*" = true ∧ HasSuffix name "*" = false).
Proof.
  intros Hv. unfold GetVars, parse_wildcard. case_decide as Hn; [split; [by left|by eexists]|].
  destruct (Contains name "*"); cycle 1.
  { split; [|naive_solver]. intros [e He]. rewrite run_bind in He.
    destruct (run _ w) as [[[[|? ?]|] ?]|] in He; done. }
  destruct (HasSuffix name "*"); cycle 1.
  { split; [by right|]. by eexists. }
  split; [|naive_solver]. intros [e He]. rewrite run_bind in He.
  destruct (run _ w) as [[[[|? ?]|] ?]|] in He; done.
Qed.
End getvars.

(** ** [DelVar] *)
Section delvar.
Context {DB : Type} {HI : IStorage DB} {HS : StorageSpec DB} `{Environment, RangeOrder}.
Implicit Types (w : World DB) (c : TheController).

Definition path_of_value (raw : bool) (t : DynamicVar * DynamicVar) : list string :=
  keypath (var_key raw (GetString t.1)).
Definition del_values (raw : bool) (vals : values) (db : DB) : DB :=
  fold_left (λ db t, st_DeleteValue (var_key raw (GetString t.1)) false db) vals db.

Lemma del_values_valid raw vals db : valid db → valid (del_values raw vals db).
Proof. revert db. induction vals as [|t vals IH]; intros db Hv; [done|]. by apply IH, Delete_valid. Qed.

Lemma val_del_values raw vals db p :
  valid db →
  val (del_values raw vals db) p = if decide (p ∈ path_of_value raw <$> vals) then NewEmptyDynamicVar else val db p.
Proof.
  revert db. induction vals as [|t vals IH]; intros db Hv; cbn [del_values fold_left fmap list_fmap].
  - by rewrite decide_False by (by intros ?%elem_of_nil).
  - fold (del_values raw vals). unfold del_values in IH. rewrite IH by (by apply Delete_valid).
    rewrite val_Delete_value by done. unfold path_of_value at 2.
    destruct (decide (p ∈ path_of_value raw <$> vals)) as [Hin|Hin].
    + by rewrite decide_True by (by right).
    + case_decide as Hp; [rewrite decide_True; [done|apply elem_of_cons; by left]|].
      rewrite decide_False; [done|]. by intros [?|?]%elem_of_cons.
Qed.

(** The goroutines started for the deleted variables. *)
Definition del_tasks c (vals : values) : list (prog unit) :=
  (λ t, notifyVarModification c (GetString t.1) (NewDynamicVar "")) <$> vals.

Lemma run_delete_loop c vals w :
  ∃ w', run (for_each vals (λ t,
      let nameStr := GetString t.1 in
      vh_DeleteValue (helper c nameStr) ;;
      go (notifyVarModification c nameStr (NewDynamicVar "")))) w = Some ((), w') ∧
    w_db w' = del_values (allowRawDbAccess c) vals (w_db w) ∧ w_tasks w' = w_tasks w ++ del_tasks c vals ∧
    w_locks w' = w_locks w.
Proof.
  revert w. induction vals as [|t vals IH]; intros w; cbn [for_each].
  - exists w. cbn. by rewrite app_nil_r.
  - cbv zeta. rewrite run_bind. cbn [run vh_DeleteValue mbind prog_bind do_ exec go db_DeleteValue w_tasks set_db set_out].
    edestruct IH as (w' & Hr & Hd & Ht & HL). exists w'. rewrite Hr. split; [done|].
    rewrite Hd, Ht, HL. cbn. by rewrite <-app_assoc.
Qed.

Lemma run_DelVar fuel c name vals w :
  run (GetVars fuel c name (NewDynamicVar "")) w = Some (Some (Ok vals), w) → vals ≠ [] →
  ∃ w', run (DelVar fuel c name) w = Some (Some (Ok ()), w') ∧
    w_db w' = del_values (allowRawDbAccess c) vals (w_db w) ∧ w_tasks w' = w_tasks w ++ del_tasks c vals ∧
    w_locks w' = w_locks w.
Proof.
  intros Hg Hne. unfold DelVar. rewrite (run_bind_eq _ _ _ _ _ Hg), decide_False by done.
  assert (∃ w1, run (when (1 <? length vals)
      (do_ (Println ("Warning: Deleting multiple variables matching pattern '" +:+ name +:+ "'")))) w = Some ((), w1) ∧
      w_db w1 = w_db w ∧ w_tasks w1 = w_tasks w ∧ w_locks w1 = w_locks w) as (w1 & Hr1 & Hd1 & Ht1 & HL1).
  { destruct (1 <? length vals); cbn; eexists; done. }
  rewrite (run_bind_eq _ _ _ _ _ Hr1). destruct (run_delete_loop c vals w1) as (w' & Hr & Hd & Ht & HL).
  exists w'. rewrite (run_bind_eq _ _ _ _ _ Hr), Hd, Ht, HL, Hd1, Ht1, HL1. done.
Qed.

(** [DelVar] of a name without wildcard clears that variable and no other:
    its value becomes empty, every other path holds what it held, one notification is started, and reading the
    variable gives the default. *)
Theorem DelVar_deletes_variable fuel c n w :
  let raw := allowRawDbAccess c in
  valid (w_db w) → n ≠ "" → Contains n "*" = false →
  ∃ w', run (DelVar (S fuel) c n) w = Some (Some (Ok ()), w') ∧ valid (w_db w') ∧
    (∀ p, val (w_db w') p = if decide (p = keypath (var_key raw n)) then NewEmptyDynamicVar else val (w_db w) p) ∧
    w_tasks w' = w_tasks w ++ [notifyVarModification c n (NewDynamicVar "")] ∧
    ∀ d, run (GetVars (S fuel) c n d) w' = Some (Some (Ok [(NewDynamicVar n, d)]), w').
Proof.
  intros raw Hv Hn Hc. pose proof (run_GetVars_plain fuel c n (NewDynamicVar "") w Hv Hn Hc) as Hg. cbv zeta in Hg.
  destruct (run_DelVar _ _ _ _ _ Hg) as (w' & Hr & Hd & Ht & _); [done|]. exists w'. split; [done|].
  assert (valid (w_db w')) as Hv' by (rewrite Hd; by apply del_values_valid).
  assert (∀ p, val (w_db w') p = if decide (p = keypath (var_key raw n)) then NewEmptyDynamicVar else val (w_db w) p) as Hval.
  { intros p. rewrite Hd, val_del_values by done. cbn [fmap list_fmap]. unfold path_of_value. cbn.
    apply decide_ext. by rewrite list_elem_of_singleton. }
  split; [exact Hv'|]. split; [exact Hval|]. split; [exact Ht|].
  intros d. rewrite run_GetVars_plain by done. cbv zeta. fold raw.
  assert (val (w_db w') (keypath (var_key raw n)) = NewEmptyDynamicVar) as -> by (by rewrite Hval, decide_True).
  by rewrite decide_False by (intros Hx; by apply Hx).
Qed.

(** The path of a name the walk builds. *)
Lemma keypath_name_of raw n r :
  readable raw n → Forall (lacks dot) r → Forall (λ k, k ≠ "") r →
  keypath (var_key raw (name_of n r)) = keypath (var_key raw n) ++ r.
Proof.
  revert n. induction r as [|k r IH]; intros n Hr Hl Hne; cbn [name_of]; [by rewrite app_nil_r|].
  apply Forall_cons in Hl as [Hk Hl]. apply Forall_cons in Hne as [Hk' Hne].
  rewrite IH by (done || by apply readable_below). rewrite keypath_below_child by done. by rewrite <-app_assoc.
Qed.

Lemma listing_paths raw (db : DB) n l p :
  valid db → readable raw n → listing raw db n (keypath (var_key raw n)) l →
  p ∈ path_of_value raw <$> l ↔
  ∃ r, p = keypath (var_key raw n) ++ r ∧ visible_path raw r ∧ val db p ≠ NewEmptyDynamicVar.
Proof.
  intros Hv Hr [_ Hl].
  assert (∀ r v, visible_path raw r → view db (keypath (var_key raw n) ++ r) = Some v →
    keypath (var_key raw (name_of n r)) = keypath (var_key raw n) ++ r) as Hpath.
  { intros r v Hvis Hview. apply keypath_name_of; [done| |].
    - assert (is_Some (view db (keypath (var_key raw n) ++ r))) as Hs by (by eexists).
      apply view_names in Hs; [|done]. by apply Forall_app in Hs as [_ Hs].
    - eapply Forall_impl; [exact Hvis|]. intros k. apply visible_ne. }
  rewrite list_elem_of_fmap. split.
  - intros ([a v] & -> & Hin). apply Hl in Hin as (r & -> & Hvis & Hview & Hne). exists r.
    unfold path_of_value. cbn [fst]. change (GetString (NewDynamicVar (name_of n r))) with (name_of n r).
    rewrite (Hpath r v) by done. split; [done|]. split; [done|]. unfold val, value_at. rewrite Hview. cbn.
    intros ->. by apply Hne.
  - intros (r & -> & Hvis & Hval). unfold val, value_at in Hval.
    destruct (view db (keypath (var_key raw n) ++ r)) as [v|] eqn:Hview; [|done]. cbn in Hval.
    exists (NewDynamicVar (name_of n r), v). split; [symmetry; by apply (Hpath r v)|].
    apply Hl. exists r. split_and!; [done..|]. intros Hz. apply Hval. destruct v as [s]. cbn in Hz. by subst.
Qed.

(** C25.  [DelVar] of [n.*] clears every variable of the subtree of [n] that a
    client may see, [n] included, and nothing else: internal entries (flags,
    locks, observations) below [n] and everything outside keep their values. *)
Theorem DelVar_deletes_subtree c n w :
  let raw := allowRawDbAccess c in
  let q := keypath (var_key raw n) in
  valid (w_db w) → readable raw n →
  ∃ fuel0, ∀ fuel, fuel0 ≤ fuel → ∃ w',
    run (DelVar fuel c (n +:+ ".*")) w = Some (Some (Ok ()), w') ∧ valid (w_db w') ∧
    (∀ r, visible_path raw r → val (w_db w') (q ++ r) = NewEmptyDynamicVar) ∧
    (∀ p, (∀ r, p = q ++ r → ¬ visible_path raw r) → val (w_db w') p = val (w_db w) p).
Proof.
  intros raw q Hv Hr.
  destruct (run_GetVars_walk c (n +:+ ".*") n q (NewDynamicVar "") w Hv) as [fuel0 Hf].
  { apply parse_wildcard_below, Hr. } { by apply readable_node_ok. }
  exists fuel0. intros fuel Hle. destruct (Hf fuel Hle) as (l & Hl & Hg). fold raw in Hl.
  destruct (run_DelVar _ _ _ _ _ Hg) as (w' & Hrun & Hd & _ & _); [by destruct l|].
  exists w'. split; [done|]. fold raw in Hd.
  assert (valid (w_db w')) as Hv' by (rewrite Hd; by apply del_values_valid). split; [done|].
  assert (∀ p, val (w_db w') p = if decide (p ∈ path_of_value raw <$> answer_of n (NewDynamicVar "") l)
    then NewEmptyDynamicVar else val (w_db w) p) as Hval.
  { intros p. by rewrite Hd, val_del_values. }
  assert (∀ p, p ∈ path_of_value raw <$> answer_of n (NewDynamicVar "") l →
    ∃ r, p = q ++ r ∧ visible_path raw r) as Hin.
  { intros p Hp. destruct l as [|t l]; cbn [answer_of] in Hp.
    - apply list_elem_of_singleton in Hp as ->. exists []. rewrite app_nil_r. by split; [|constructor].
    - rewrite (listing_paths raw (w_db w) n (t :: l)) in Hp by done. destruct Hp as (r & -> & Hvis & _). by exists r. }
  split.
  - intros r Hvis. rewrite Hval. case_decide as Hp; [done|].
    destruct (decide (val (w_db w) (q ++ r) = NewEmptyDynamicVar)) as [|Hne]; [done|]. destruct Hp.
    assert (q ++ r ∈ path_of_value raw <$> l) as Hin'.
    { rewrite (listing_paths raw (w_db w) n l) by done. by exists r. }
    by destruct l; [apply elem_of_nil in Hin'|].
  - intros p Hp. rewrite Hval, decide_False; [done|]. intros (r & Heq & Hvis)%Hin. by eapply Hp.
Qed.
End delvar.

(** ** Witnesses *)
Section witnesses.
Existing Instance canonical_order.
Existing Instance online.

(** A database with the variables [a.b], [a.c.d] and a lock on [a.b]. *)
Definition sample_db : RamCacheDB :=
  st_Set "vars.a.b._lock" (NewDynamicVar "1")
    (st_Set "vars.a.c.d" (NewDynamicVar "2") (st_Set "vars.a.b" (NewDynamicVar "1") fresh_db)).
Definition sample_world : World RamCacheDB := world_of sample_db.

Lemma sample_valid : valid (w_db sample_world).
Proof. repeat apply Set_valid. apply fresh_valid. Qed.

Lemma readable_a : readable (allowRawDbAccess default_controller) "a".
Proof. split_and!; [done|done|by right]. Qed.

Lemma GetVars_subtree_witness :
  valid (w_db sample_world) ∧ readable false "a" ∧
  ∃ fuel0, ∀ fuel, fuel0 ≤ fuel → ∃ l,
    run (GetVars fuel default_controller ("a" +:+ ".*") (NewDynamicVar "")) sample_world
      = Some (Some (Ok (answer_of "a" (NewDynamicVar "") l)), sample_world) ∧
    NoDup l.*1 ∧
    ∀ a v, (a, v) ∈ l ↔ ∃ r, a = NewDynamicVar (name_of "a" r) ∧ visible_path false r ∧
      view (w_db sample_world) (keypath (var_key false "a") ++ r) = Some v ∧ GetString v ≠ "".
Proof.
  split; [exact sample_valid|]. split; [exact readable_a|].
  exact (GetVars_subtree default_controller "a" (NewDynamicVar "") sample_world sample_valid readable_a).
Defined.

Lemma GetVars_everything_witness :
  valid (w_db sample_world) ∧ view (w_db sample_world) ["vars"; "vars"] = None ∧
  ∃ fuel0, ∀ fuel, fuel0 ≤ fuel → ∃ l,
    run (GetVars fuel default_controller "*" (NewDynamicVar "")) sample_world
      = Some (Some (Ok (answer_of "" (NewDynamicVar "") l)), sample_world) ∧ NoDup l.*1 ∧
    ∀ a v, (a, v) ∈ l ↔ ∃ r, a = NewDynamicVar (name_of "" r) ∧ visible_path false r ∧
      view (w_db sample_world) ("vars" :: r) = Some v ∧ GetString v ≠ "".
Proof.
  assert (view (w_db sample_world) ["vars"; "vars"] = None) as Hn by (by vm_compute).
  split; [exact sample_valid|]. split; [exact Hn|].
  exact (GetVars_everything default_controller (NewDynamicVar "") sample_world eq_refl sample_valid Hn).
Defined.

Lemma SetVar_then_GetVars_witness :
  valid (w_db sample_world) ∧
  ∃ w', run (SetVar default_controller "a.new" (NewDynamicVar "7")) sample_world = Some (Ok (), w') ∧ valid (w_db w') ∧
    run (GetVars 1 default_controller "a.new" (NewDynamicVar "")) w'
      = Some (Some (Ok [(NewDynamicVar "a.new", NewDynamicVar "7")]), w') ∧
    ∀ p, p ≠ keypath (var_key false "a.new") → val (w_db w') p = val (w_db sample_world) p.
Proof.
  assert (locked (w_db sample_world) (var_key false "a.new") = false) as Hl by (by vm_compute).
  split; [exact sample_valid|].
  exact (SetVar_then_GetVars default_controller "a.new" (NewDynamicVar "7") (NewDynamicVar "") 0 sample_world
           sample_valid eq_refl eq_refl Hl).
Defined.

Lemma GetVars_error_iff_witness :
  valid (w_db sample_world) ∧
  ((∃ e, run (GetVars 5 default_controller "a*b" (NewDynamicVar "")) sample_world = Some (Some (Err e), sample_world)) ↔
   "a*b" = "" ∨ (Contains "a*b" "*" = true ∧ HasSuffix "a*b" "*" = false)).
Proof.
  split; [exact sample_valid|].
  exact (GetVars_error_iff default_controller "a*b" (NewDynamicVar "") 5 sample_world sample_valid).
Defined.

Lemma DelVar_deletes_variable_witness :
  valid (w_db sample_world) ∧
  ∃ w', run (DelVar 1 default_controller "a.b") sample_world = Some (Some (Ok ()), w') ∧ valid (w_db w') ∧
    (∀ p, val (w_db w') p
       = if decide (p = keypath (var_key false "a.b")) then NewEmptyDynamicVar else val (w_db sample_world) p) ∧
    w_tasks w' = w_tasks sample_world ++ [notifyVarModification default_controller "a.b" (NewDynamicVar "")] ∧
    ∀ d, run (GetVars 1 default_controller "a.b" d) w' = Some (Some (Ok [(NewDynamicVar "a.b", d)]), w').
Proof.
  split; [exact sample_valid|].
  exact (DelVar_deletes_variable 0 default_controller "a.b" sample_world sample_valid ltac:(done) eq_refl).
Defined.

Lemma DelVar_deletes_subtree_witness :
  let q := keypath (var_key false "a") in
  valid (w_db sample_world) ∧ readable false "a" ∧
  ∃ fuel0, ∀ fuel, fuel0 ≤ fuel → ∃ w',
    run (DelVar fuel default_controller ("a" +:+ ".*")) sample_world = Some (Some (Ok ()), w') ∧ valid (w_db w') ∧
    (∀ r, visible_path false r → val (w_db w') (q ++ r) = NewEmptyDynamicVar) ∧
    (∀ p, (∀ r, p = q ++ r → ¬ visible_path false r) → val (w_db w') p = val (w_db sample_world) p).
Proof.
  split; [exact sample_valid|]. split; [exact readable_a|].
  exact (DelVar_deletes_subtree default_controller "a" sample_world sample_valid readable_a).
Defined.

(** Unlike [SetVar], [DelVar] and [GetVars] do not check the name: without
    raw access a client lists the observers of a variable, and lifts the lock
    another client holds by deleting its flag. *)
Theorem DelVar_reaches_internal_entries :
  let c := default_controller in
  fst <$> run (
    r0 ← SetVar c "a.b" (NewDynamicVar "9");
    b0 ← IsVarLocked c "a.b";
    r1 ← DelVar 5 c "a.b._lock";
    b1 ← IsVarLocked c "a.b";
    r2 ← SetVar c "a.b" (NewDynamicVar "9");
    RegisterObservation (helper c "a.b") "cl" "m" ;;
    r3 ← GetVars 5 c "a.b._observers.list.0.clientId" (NewDynamicVar "");
    mret (r0, b0, r1, b1, r2, r3)) sample_world
  = Some (Err "variable is locked", true, Some (Ok ()), false, Ok (),
          Some (Ok [(NewDynamicVar "a.b._observers.list.0.clientId", NewDynamicVar "cl")])).
Proof. by vm_compute. Qed.

(** A deleted subtree stays visible: after [DelVar] of [a.*] no variable is
    left below [a], but the node of [a.c], which held no value, is still a child
    of [a]. *)
Theorem DelVar_leaves_empty_nodes :
  let c := default_controller in
  fst <$> run (
    DelVar 5 c "a.*" ;;
    vals ← GetVars 5 c "a.*" (NewDynamicVar "none"); ch ← GetChildsOfVar c "a"; mret (vals, ch))
    (world_of (st_Set "vars.a.c.d" (NewDynamicVar "2") fresh_db))
  = Some (Some (Ok [(NewDynamicVar "a", NewDynamicVar "none")]), ["c"]).
Proof. by vm_compute. Qed.
End witnesses.
