(* ===== verification/Notify.v ===== *)
(** * Notifying the observers

    Who is told about a change, how often, and what happens to the clients that
    do not answer. *)
From S2P Require Import Prelude GoStrings GoStrconv Misc NamedLock Storage RamCacheDB Reference Runtime Samples VarHelper Observations VarLock ClientHelper DbList ClientState Controller Variables.

(** ** The patterns under which a change is announced *)

(** The ancestors of a name, the nearest first. *)
Definition parents (v : string) : list string :=
  let ws := SplitByte v dot in (λ i, Join (take i ws) ".") <$> reverse (seq 1 (length ws - 1)).

(** The name, [p.*] for every ancestor [p], and [name.*]. *)
Definition patterns (v : string) : list string :=
  v :: ((λ p, p +:+ ".*") <$> parents v) ++ [v +:+ ".*"].

(** ** Lemmas on the last dot *)
Lemma LastIndexByte_lacks c s : lacks c s → LastIndexByte s c = None.
Proof.
  induction s as [|a s IH]; [done|]. rewrite lacks_cons. intros [Ha Hs]. cbn. by rewrite IH, decide_False.
Qed.

Lemma LastIndexByte_app c a b : lacks c b → LastIndexByte (a +:+ String c b) c = Some (len a).
Proof.
  intros Hb. induction a as [|x a IH]; str_simpl.
  - by rewrite LastIndexByte_lacks, decide_True.
  - by rewrite IH.
Qed.

Lemma Join_snoc ws w sep : ws ≠ [] → Join (ws ++ [w]) sep = Join ws sep +:+ sep +:+ w.
Proof.
  induction ws as [|x ws IH]; [done|]. intros _. destruct ws as [|y ws]; [done|].
  rewrite <-app_comm_cons, !(Join_cons x) by done. rewrite IH by done. by rewrite !str_app_assoc.
Qed.

Lemma length_SplitByte s : length (SplitByte s dot) ≤ S (len s).
Proof.
  induction s as [|a s IH]; cbn; [done|]. case_decide; cbn; [lia|].
  destruct (SplitByte s dot); cbn in *; lia.
Qed.

Lemma seq_1_snoc n : seq 1 (S n) = seq 1 n ++ [S n].
Proof. by rewrite seq_S. Qed.

Lemma parents_snoc ws w :
  ws ≠ [] → Forall (lacks dot) (ws ++ [w]) →
  parents (Join (ws ++ [w]) ".") = Join ws "." :: parents (Join ws ".").
Proof.
  intros Hws Hl. unfold parents. pose proof (Forall_app (lacks dot) ws [w]) as Hfa. apply Hfa in Hl as Hl'.
  destruct Hl' as [Hl1 _]. rewrite !SplitByte_Join by (done || by destruct ws).
  rewrite length_app. cbn [length]. destruct ws as [|x ws]; [done|]. cbn [length].
  replace (S (length ws) + 1 - 1) with (S (length ws)) by lia. replace (S (length ws) - 1) with (length ws) by lia.
  rewrite seq_1_snoc, reverse_app. cbn [reverse rev_append app fmap list_fmap]. f_equal.
  - f_equal. exact (take_app_length (x :: ws) [w]).
  - apply list_fmap_ext. intros i j Hj. apply list_elem_of_lookup_2 in Hj.
    rewrite elem_of_reverse, elem_of_seq in Hj.
    f_equal. apply (take_app_le (x :: ws) [w]). cbn. lia.
Qed.

(** ** The observation map as a multiset *)
Lemma obs_collect_perm a l res :
  (∀ i, (a ≤ i)%Z → res !! Itoa i = None) →
  (map_to_list (obs_collect a l res)).*2 ≡ₚ filter (λ e, e.1 ≠ "") l ++ (map_to_list res).*2.
Proof.
  revert a res. induction l as [|e l IH]; intros a res Hres; [done|]. cbn [obs_collect].
  destruct (decide (e.1 ≠ "")) as [He|He].
  - rewrite filter_cons_True, IH by (done || intros i Hi; rewrite lookup_insert_ne, Hres by (rewrite ?Itoa_inj_iff; lia); done).
    rewrite map_to_list_insert by (apply Hres; lia). cbn. by rewrite Permutation_middle.
  - rewrite filter_cons_False by done. apply IH. intros i Hi. apply Hres. lia.
Qed.

Lemma range_obs_map `{RangeOrder} l : (range (obs_map l)).*2 ≡ₚ filter (λ e, e.1 ≠ "") l.
Proof.
  rewrite range_perm. unfold obs_map. rewrite obs_collect_perm by (intros; by rewrite lookup_empty).
  by rewrite map_to_list_empty, app_nil_r.
Qed.

Section notify.
Context {DB : Type} {HI : IStorage DB} {HS : StorageSpec DB} `{Environment, RangeOrder}.
Implicit Types (w : World DB) (c : TheController).

(** [w'] is [w] with more goroutines to run, and no lock held. *)
Record spawned w w' (ts : list (prog unit)) : Prop := {
  spawned_eq : w' = set_locks (w_locks w') (set_tasks (w_tasks w ++ ts) w);
  spawned_quiet : quiet w'
}.

Lemma spawned_refl w : quiet w → spawned w w [].
Proof. intros Hq. split; [|done]. rewrite app_nil_r. by destruct w. Qed.

Lemma spawned_trans w w1 w2 ts1 ts2 : spawned w w1 ts1 → spawned w1 w2 ts2 → spawned w w2 (ts1 ++ ts2).
Proof. intros [H1 _] [H2 Hq]. split; [|done]. rewrite H2, H1. cbn. by rewrite app_assoc. Qed.

Lemma spawned_db w w' ts : spawned w w' ts → w_db w' = w_db w.
Proof. intros [-> _]. done. Qed.

Lemma spawned_evolves w w' : evolves w w' (w_db w) → spawned w w' [].
Proof. intros [He Hq]. split; [|done]. rewrite app_nil_r, He. by destruct w. Qed.

(** The goroutines for the targets [(clientId, metadata)]. *)
Definition notifications c (v : string) (value : DynamicVar) (targets : list (string * string)) : list (prog unit) :=
  (λ e, notify_client c v value e.1 e.2) <$> targets.

Lemma run_notifyClients c obs v value w :
  quiet w →
  ∃ w', run (notifyClientsAboutVarChange c obs v value) w = Some ((), w') ∧
    spawned w w' (notifications c v value (range obs).*2).
Proof.
  unfold notifyClientsAboutVarChange. revert w. induction (range obs) as [|[k e] l IH]; intros w Hq; cbn [for_each].
  - exists w. split; [done|]. by apply spawned_refl.
  - destruct (IH (set_tasks (w_tasks w ++ [notify_client c v value e.1 e.2]) w) Hq) as (w' & Hr & Hs).
    exists w'. split; [exact Hr|].
    assert (spawned w (set_tasks (w_tasks w ++ [notify_client c v value e.1 e.2]) w) [notify_client c v value e.1 e.2]) as H1.
    { split; [by destruct w|exact Hq]. }
    exact (spawned_trans _ _ _ _ _ H1 Hs).
Qed.

(** One pattern: the observers of its key are read and told. *)
Lemma run_announce c p l v value w :
  quiet w → obs_is (w_db w) (var_key (allowRawDbAccess c) p) l →
  ∃ w' targets, run (obs ← GetAllObservations (helper c p); notifyClientsAboutVarChange c obs v value) w = Some ((), w') ∧
    targets ≡ₚ filter (λ e, e.1 ≠ "") l ∧ spawned w w' (notifications c v value targets).
Proof.
  intros Hq Hobs. destruct (run_GetAllObservations (helper c p) l w Hq Hobs) as (w1 & Hr1 & He1).
  destruct (run_notifyClients c (obs_map l) v value w1) as (w2 & Hr2 & Hs2); [apply He1|].
  exists w2, (range (obs_map l)).*2. split; [by rewrite (run_bind_eq _ _ _ _ _ Hr1)|].
  split; [apply range_obs_map|]. exact (spawned_trans _ _ _ [] _ (spawned_evolves _ _ He1) Hs2).
Qed.

(** A list of patterns, in order. *)
Definition all_targets (L : string → list (string * string)) (ps : list string) : list (string * string) :=
  concat ((λ p, filter (λ e, e.1 ≠ "") (L p)) <$> ps).

Lemma run_parents fuel c ws L v value w :
  quiet w → ws ≠ [] → Forall (lacks dot) ws → length ws ≤ fuel →
  (∀ p, p ∈ parents (Join ws ".") → obs_is (w_db w) (var_key (allowRawDbAccess c) (p +:+ ".*")) (L (p +:+ ".*"))) →
  ∃ w' targets, run (notifyParents_fuel fuel c (Join ws ".") v value) w = Some ((), w') ∧
    targets ≡ₚ all_targets L ((λ p, p +:+ ".*") <$> parents (Join ws ".")) ∧
    spawned w w' (notifications c v value targets).
Proof.
  revert ws w. induction fuel as [|fuel IH]; intros ws w Hq Hne Hl Hlen HL.
  { destruct ws; [done|cbn in Hlen; lia]. }
  destruct ws as [|x ws _] using rev_ind; [done|]. cbn [notifyParents_fuel]. unfold lastDotIndex.
  destruct (decide (ws = [])) as [->|Hws].
  - cbn [app] in *. change (Join [x] ".") with x in *.
    rewrite LastIndexByte_lacks by (by inversion Hl).
    exists w, []. split; [done|]. split; [|by apply spawned_refl].
    unfold parents. rewrite SplitByte_lacks by (by inversion Hl). done.
  - apply Forall_app in Hl as Hl'. destruct Hl' as [Hl1 Hl2]. inversion_clear Hl2 as [|? ? Hx _].
    rewrite parents_snoc in * by done. rewrite Join_snoc by done.
    change (Join ws "." +:+ "." +:+ x) with (Join ws "." +:+ String dot x).
    rewrite LastIndexByte_app, str_take_app by done. cbv zeta.
    destruct (run_announce c (Join ws "." +:+ ".*") (L (Join ws "." +:+ ".*")) v value w Hq)
      as (w1 & t1 & Hr1 & Hp1 & Hs1); [apply HL; by left|].
    destruct (IH ws w1) as (w2 & t2 & Hr2 & Hp2 & Hs2); [apply Hs1|done|done| | |].
    { rewrite length_app in Hlen. cbn in Hlen. lia. }
    { intros p Hp. rewrite (spawned_db _ _ _ Hs1). apply HL. by right. }
    exists w2, (t1 ++ t2). split; [|split].
    + rewrite run_bind in Hr1. rewrite run_bind.
      destruct (run (GetAllObservations _) w) as [[obs w0]|]; [|done].
      by rewrite (run_bind_eq _ _ _ _ _ Hr1).
    + cbn [fmap list_fmap]. unfold all_targets. cbn [fmap list_fmap concat]. by rewrite Hp1, Hp2.
    + unfold notifications. rewrite fmap_app. by eapply spawned_trans.
Qed.

(** The observers of every pattern, in the order in which they are told. *)
Lemma notify_targets c v value L w :
  quiet w → (∀ p, p ∈ patterns v → obs_is (w_db w) (var_key (allowRawDbAccess c) p) (L p)) →
  ∃ w' targets, run (notify_body c v value) w = Some ((), w') ∧ spawned w w' (notifications c v value targets) ∧
    targets ≡ₚ concat ((λ p, filter (λ e, e.1 ≠ "") (L p)) <$> patterns v).
Proof.
  intros Hq HL. unfold notify_body, notifyParentGenericObservers, patterns in *.
  destruct (run_announce c v (L v) v value w Hq) as (w1 & t1 & Hr1 & Hp1 & Hs1); [apply HL; by left|].
  destruct (run_parents (S (len v)) c (SplitByte v dot) L v value w1) as (w2 & t2 & Hr2 & Hp2 & Hs2).
  { apply Hs1. } { apply SplitByte_ne. } { apply SplitByte_all_lack. } { apply length_SplitByte. }
  { change "." with (String dot "") at 1. rewrite Join_SplitByte. intros p Hp. rewrite (spawned_db _ _ _ Hs1).
    apply HL, elem_of_cons. right. apply elem_of_app. left. apply list_elem_of_fmap. by exists p. }
  change "." with (String dot "") in Hr2, Hp2. rewrite Join_SplitByte in Hr2, Hp2.
  destruct (run_announce c (v +:+ ".*") (L (v +:+ ".*")) v value w2) as (w3 & t3 & Hr3 & Hp3 & Hs3).
  { apply Hs2. }
  { rewrite (spawned_db _ _ _ Hs2), (spawned_db _ _ _ Hs1). apply HL, elem_of_cons. right.
    apply elem_of_app. right. by left. }
  exists w3, (t1 ++ t2 ++ t3). split; [|split].
  - rewrite run_bind in Hr1. rewrite run_bind.
    destruct (run (GetAllObservations (helper c v)) w) as [[obs w0]|]; [|done].
    rewrite (run_bind_eq _ _ _ _ _ Hr1), (run_bind_eq _ _ _ _ _ Hr2). exact Hr3.
  - unfold notifications. rewrite !fmap_app. eapply spawned_trans; [done|]. by eapply spawned_trans.
  - cbn [fmap list_fmap concat]. rewrite fmap_app, concat_app. cbn [fmap list_fmap concat].
    rewrite app_nil_r. rewrite Hp1, Hp2, Hp3. done.
Qed.

(** A change is announced to each observation exactly once: the goroutine
    [notifyVarModification] starts returns, changes nothing in the database, and
    starts exactly one notification for every observation, by a client, of the
    variable, of [p.*] for any ancestor [p], and of [v.*], and for no other. *)
Theorem notify_each_observation_once c v value L w :
  quiet w → (∀ p, p ∈ patterns v → obs_is (w_db w) (var_key (allowRawDbAccess c) p) (L p)) →
  ∃ w' targets, run (notify_body c v value) w = Some ((), w') ∧ spawned w w' (notifications c v value targets) ∧
    targets ≡ₚ concat ((λ p, filter (λ e, e.1 ≠ "") (L p)) <$> patterns v).
Proof. apply notify_targets. Qed.

(** ** One notification *)

Lemma run_UpdateLiveTime h w : run (UpdateLiveTime h) w = Some ((), set_db (touch_db (w_now w) h (w_db w)) w).
Proof. done. Qed.

(** Touching a client that is registered. *)
Lemma registered_touch (db : DB) h now :
  valid db → registered db h now →
  valid (touch_db now h db) ∧ registered (touch_db now h db) h now ∧ internal_frame db (touch_db now h db).
Proof.
  intros Hv [Hk Hl Ha]. destruct (p_client_shape (ch_clientId h)) as [r Hr]. unfold touch_db.
  split; [by apply Set_valid|]. split; [split|].
  - rewrite Set_spec by done. by apply spec_set_mono.
  - by rewrite val_Set, keypath_lastLiveTime, decide_True.
  - intros api Hapi. rewrite val_Set, keypath_lastLiveTime, decide_False; [by apply Ha| |done].
    by intros [= ?]%app_inv_prefix.
  - eapply internal_frame_Set; [done|]. by rewrite keypath_lastLiveTime, Hr.
Qed.

Lemma GetLastLiveTime_registered (db : DB) h now :
  valid db → registered db h now → in_int64 (now / Second) = true →
  GetInt64 (st_Get (key_lastLiveTime (ch_clientId h)) (NewDynamicVar_int 0) db) = (now / Second)%Z.
Proof.
  intros Hv [_ Hl _] Hn. rewrite Get_int0, keypath_lastLiveTime, Hl by done. by apply GetInt64_int.
Qed.

(** A client that was registered at the present time is kept, connected or not. *)
Lemma run_checkClientLiveTime c h w :
  quiet w → valid (w_db w) → registered (w_db w) h (w_now w) →
  (0 < maxTimeWaitingClientSecond c)%Z → in_int64 (w_now w / Second) = true →
  ∃ w', run (checkClientLiveTime c h) w = Some ((), w') ∧ quiet w' ∧ w_sent w' = w_sent w ∧ w_tasks w' = w_tasks w ∧
    registered (w_db w') h (w_now w) ∧ internal_frame (w_db w) (w_db w').
Proof.
  intros Hq Hv Hreg Hmax Hnow. unfold checkClientLiveTime.
  assert (∀ w1, w_db w1 = w_db w → w_now w1 = w_now w → run (t ← TimeSinceLastLiveTime h;
    when (maxTimeWaitingClientSecond c <=? t)%Z (deleteClient c h)) w1 = Some ((), w1)) as Hkeep.
  { intros w1 Hd Hn. cbn [run TimeSinceLastLiveTime currentTimeSeconds GetLastLiveTime do_ db_Get exec mbind prog_bind mret prog_ret].
    rewrite Hd, Hn, (GetLastLiveTime_registered _ _ _ Hv Hreg Hnow), Z.sub_diag.
    change (wrap64 0) with 0%Z. by rewrite (proj2 (Z.leb_gt _ _)). }
  destruct h as [id [api|]]; unfold IsConnected; cbn [ch_api ch_clientId].
  - rewrite run_bind. cbn [run do_ mbind prog_bind exec].
    destruct (env_reachable (w_calls w) api id); cbn [when].
    + rewrite run_bind. rewrite run_UpdateLiveTime. cbn [run mret prog_ret negb when].
      destruct (registered_touch _ _ _ Hv Hreg) as (Hv' & Hreg' & Hf).
      eexists. split; [reflexivity|]. cbn [w_db set_db set_calls w_now]. split_and!; [exact Hq|done|done|done|done].
    + cbn [run mret prog_ret mbind prog_bind negb when]. rewrite Hkeep by done.
      eexists. split; [reflexivity|]. split_and!; [exact Hq|done|done|done|done].
  - rewrite run_bind. cbn [run mret prog_ret negb when]. rewrite Hkeep by done.
    eexists. split; [reflexivity|]. split_and!; [exact Hq|done|done|done|done].
Qed.

(** A client whose API is known gets a helper. *)
Lemma run_NewWithApis id api ids w :
  quiet w → list_is (w_db w) p_clients ids → (Z.of_nat (length ids) + 1 < int64_max)%Z →
  val (w_db w) (p_client id ++ ["apiId"]) = NewDynamicVar api → api ≠ "" → api ∈ w_apis w →
  ∃ w', run (NewControllerClientHelperWithApis id) w = Some (Ok (mkCH id (Some api)), w') ∧
    evolves w w' (w_db w') ∧ valid (w_db w') ∧ registered (w_db w') (mkCH id (Some api)) (w_now w) ∧
    internal_frame (w_db w) (w_db w').
Proof.
  intros Hq Hl Hlen Hapi Hne Hin. pose proof (li_valid _ _ _ Hl) as Hv.
  unfold NewControllerClientHelperWithApis. rewrite run_bind. cbn [run db_Get do_ exec].
  change (NewDynamicVar "") with NewEmptyDynamicVar. rewrite Get_empty, keypath_apiId, Hapi by done.
  cbv zeta. change (GetString (NewDynamicVar api)) with api. rewrite decide_False by done.
  rewrite run_bind. cbn [run do_ exec]. rewrite bool_decide_true by done.
  destruct (run_NewClient id (Some api) ids w Hq Hl Hlen) as (w' & Hr & He & Hl' & Hreg & Hf).
  exists w'. rewrite (run_bind_eq _ _ _ _ _ Hr). split_and!; [done|done|apply Hl'|done|done].
Qed.

(** A notification is delivered: when the API stored with the client is
    running and the client answers, exactly one message goes out, through that
    API to that client, with the changed name, the metadata of the observation
    and the value; the client counts as seen now and no variable changes. *)
Theorem notify_client_delivers c v value id md api ids w :
  quiet w → list_is (w_db w) p_clients ids → (Z.of_nat (length ids) + 1 < int64_max)%Z →
  val (w_db w) (p_client id ++ ["apiId"]) = NewDynamicVar api → api ≠ "" → api ∈ w_apis w →
  env_reachable (w_calls w) api id = true →
  ∃ w', run (notify_client c v value id md) w = Some ((), w') ∧ quiet w' ∧
    w_sent w' = w_sent w ++ [(api, id, [(v, md, GetString value)])] ∧
    registered (w_db w') (mkCH id (Some api)) (w_now w) ∧ internal_frame (w_db w) (w_db w').
Proof.
  intros Hq Hl Hlen Hapi Hne Hin Hon.
  destruct (run_NewWithApis id api ids w Hq Hl Hlen Hapi Hne Hin) as (w1 & Hr1 & He1 & Hv1 & Hreg1 & Hf1).
  destruct He1 as [He1 Hq1]. set (db1 := w_db w1) in *. unfold notify_client.
  rewrite (run_bind_eq _ _ _ _ _ Hr1). unfold Notify. cbn [ch_api ch_clientId].
  rewrite run_bind, run_bind. cbn [run do_ exec].
  assert (w_calls w1 = w_calls w ∧ w_sent w1 = w_sent w ∧ w_now w1 = w_now w) as (Hcalls & Hsent & Hnow) by (by rewrite He1).
  rewrite Hcalls, Hon. cbn [run]. rewrite run_bind, run_UpdateLiveTime. cbn [run mret prog_ret unless_live when].
  destruct (registered_touch _ _ _ Hv1 Hreg1) as (Hv2 & Hreg2 & Hf2).
  eexists. split; [reflexivity|]. cbn [w_db set_db set_sent set_calls w_sent w_now]. rewrite Hnow, Hsent.
  split_and!; [exact Hq1|done|exact Hreg2|]. by eapply internal_frame_trans.
Qed.

(** A client that does not answer never expires.  Every notification builds
    the helper of the client first, and that stamps the client as seen now;
    so, whatever the time since its last sign of life, the time-out
    [maxTimeWaitingClient_seconds] is compared with the duration of the failed
    notification: nothing is sent and the client stays registered. *)
Theorem unreachable_client_never_expires c v value id md api ids w :
  quiet w → list_is (w_db w) p_clients ids → (Z.of_nat (length ids) + 1 < int64_max)%Z →
  val (w_db w) (p_client id ++ ["apiId"]) = NewDynamicVar api → api ≠ "" → api ∈ w_apis w →
  env_reachable (w_calls w) api id = false →
  (0 < maxTimeWaitingClientSecond c)%Z → in_int64 (w_now w / Second) = true →
  ∃ w', run (notify_client c v value id md) w = Some ((), w') ∧ quiet w' ∧ w_sent w' = w_sent w ∧
    registered (w_db w') (mkCH id (Some api)) (w_now w) ∧ internal_frame (w_db w) (w_db w').
Proof.
  intros Hq Hl Hlen Hapi Hne Hin Hoff Hmax Htime.
  destruct (run_NewWithApis id api ids w Hq Hl Hlen Hapi Hne Hin) as (w1 & Hr1 & He1 & Hv1 & Hreg1 & Hf1).
  destruct He1 as [He1 Hq1]. set (db1 := w_db w1) in *. unfold notify_client.
  rewrite (run_bind_eq _ _ _ _ _ Hr1). unfold Notify. cbn [ch_api ch_clientId].
  rewrite run_bind, run_bind. cbn [run do_ exec].
  assert (w_calls w1 = w_calls w ∧ w_sent w1 = w_sent w ∧ w_now w1 = w_now w) as (Hcalls & Hsent & Hnow) by (by rewrite He1).
  rewrite Hcalls, Hoff. cbn [run mret prog_ret]. unfold unless_live. rewrite bool_decide_false by done. cbn [negb when].
  destruct (run_checkClientLiveTime c (mkCH id (Some api)) (set_calls (S (w_calls w)) w1)) as (w2 & Hr2 & Hq2 & Hs2 & _ & Hreg2 & Hf2).
  { exact Hq1. } { exact Hv1. } { cbn. by rewrite Hnow. } { done. } { cbn. by rewrite Hnow. }
  exists w2. split; [exact Hr2|]. cbn in Hs2, Hreg2, Hf2. rewrite Hnow in Hreg2.
  split_and!; [done|by rewrite Hs2|done|]. by eapply internal_frame_trans.
Qed.
End notify.

(** ** Witnesses *)

(** The observations of another name are not touched. *)
Lemma obs_is_frame {DB} {HI : IStorage DB} {HS : StorageSpec DB} (db db' : DB) n1 n2 l :
  obs_frame n1 db db' → valid db' → (∀ r, ¬ p_observers n1 `prefix_of` npath n2 ++ "_observers" :: r) →
  obs_is db n2 l → obs_is db' n2 l.
Proof.
  intros [Hf _] Hv Hp [_ Hc Hb He]. split; [done| |done|].
  - unfold count, p_count. by rewrite Hf.
  - intros i. unfold entry, p_field. rewrite !Hf by done. apply He.
Qed.

Section witnesses.
Existing Instance canonical_order.

Section with_network.
Existing Instance online.

(** Client [cl] observes [a.*]. *)
Definition observed_world : World RamCacheDB :=
  default fresh_world (snd <$> run (RegisterObservation (var_helper false "a.*") "cl" "m") fresh_world).

Lemma observed_world_spec :
  quiet observed_world ∧ obs_is (w_db observed_world) "vars.a.*" [("cl", "m")] ∧
  obs_frame "vars.a.*" fresh_db (w_db observed_world).
Proof.
  destruct (obs_call_spec (var_helper false "a.*") [] fresh_world (ReqRegister "cl" "m")) as (w' & Hr & He & Ho & Hf);
    [apply quiet_world_of|apply fresh_obs|done|].
  assert (observed_world = w') as ->.
  { unfold observed_world. cbn [obs_call] in Hr. rewrite run_bind in Hr.
    destruct (run (RegisterObservation (var_helper false "a.*") "cl" "m") fresh_world) as [[id w1]|]; [|done].
    cbn in Hr |- *. by injection Hr. }
  split; [apply He|]. by split.
Qed.

Definition observers_of (p : string) : list (string * string) := if decide (p = "a.*") then [("cl", "m")] else [].

Lemma observed_patterns p : p ∈ patterns "a.b" → obs_is (w_db observed_world) (var_key false p) (observers_of p).
Proof.
  destruct observed_world_spec as (_ & Ho & Hf). intros Hp.
  assert (patterns "a.b" = ["a.b"; "a.*"; "a.b.*"]) as Heq by reflexivity. rewrite Heq in Hp. clear Heq.
  rewrite !elem_of_cons, elem_of_nil in Hp. destruct Hp as [->|[->|[->|[]]]].
  - apply (obs_is_frame fresh_db _ "vars.a.*"); [done|apply Ho|by intros r [x Hx]|apply fresh_obs].
  - exact Ho.
  - apply (obs_is_frame fresh_db _ "vars.a.*"); [done|apply Ho|by intros r [x Hx]|apply fresh_obs].
Qed.

Lemma notify_each_observation_once_witness :
  quiet observed_world ∧ (∀ p, p ∈ patterns "a.b" → obs_is (w_db observed_world) (var_key false p) (observers_of p)) ∧
  ∃ w' targets, run (notify_body default_controller "a.b" (NewDynamicVar "1")) observed_world = Some ((), w') ∧
    spawned observed_world w' (notifications default_controller "a.b" (NewDynamicVar "1") targets) ∧
    targets ≡ₚ concat ((λ p, filter (λ e, e.1 ≠ "") (observers_of p)) <$> patterns "a.b").
Proof.
  assert (quiet observed_world) as Hq by apply observed_world_spec.
  split; [exact Hq|]. split; [exact observed_patterns|].
  exact (notify_each_observation_once default_controller "a.b" (NewDynamicVar "1") observers_of observed_world
           Hq observed_patterns).
Defined.

(** A client that is registered through the API [VSTP]. *)
Definition client_world : World RamCacheDB := world_of (st_Set (key_apiId "cl") (NewDynamicVar "VSTP") one_client).

Lemma client_world_list : list_is (w_db client_world) p_clients ["cl"].
Proof. apply (list_is_Set_byId _ _ _ _ ["cl"; "apiId"]); [done|apply one_client_list]. Qed.

Lemma client_world_api : val (w_db client_world) (p_client "cl" ++ ["apiId"]) = NewDynamicVar "VSTP".
Proof. by vm_compute. Qed.

Lemma vstp_running : "VSTP" ∈ w_apis client_world.
Proof. apply elem_of_singleton. done. Qed.

Lemma notify_client_delivers_witness :
  quiet client_world ∧ list_is (w_db client_world) p_clients ["cl"] ∧
  ∃ w', run (notify_client default_controller "a.b" (NewDynamicVar "1") "cl" "m") client_world = Some ((), w') ∧
    quiet w' ∧ w_sent w' = w_sent client_world ++ [("VSTP", "cl", [("a.b", "m", "1")])] ∧
    registered (w_db w') (mkCH "cl" (Some "VSTP")) (w_now client_world) ∧
    internal_frame (w_db client_world) (w_db w').
Proof.
  assert (quiet client_world) as Hq by apply quiet_world_of.
  split; [exact Hq|]. split; [exact client_world_list|].
  exact (notify_client_delivers default_controller "a.b" (NewDynamicVar "1") "cl" "m" "VSTP" ["cl"] client_world
           Hq client_world_list eq_refl client_world_api ltac:(done) vstp_running eq_refl).
Defined.

(** An observer of ["*"] hears of no change: the observation is accepted and
    the variables of [*] can be read, but no change of a variable looks up the
    observers of ["*"]; a client that observes [a.*] and ["*"] is told of a
    change of [a.b] once, for [a.*]. *)
Theorem star_observers_are_not_notified :
  let c := default_controller in
  w_sent <$> (
    '(_, w) ← run (ObserveVar c "*" "cl" "every" "VSTP" ;; ObserveVar c "a.*" "cl" "some" "VSTP" ;;
                   SetVar c "a.b" (NewDynamicVar "1")) fresh_world;
    run_tasks 10 w)
  = Some [("VSTP", "cl", []); ("VSTP", "cl", []); ("VSTP", "cl", [("a.b", "some", "1")])].
Proof. by vm_compute. Qed.
End with_network.

Lemma unreachable_client_never_expires_witness :
  let _ := offline in
  quiet client_world ∧ list_is (w_db client_world) p_clients ["cl"] ∧
  ∃ w', run (notify_client default_controller "a.b" (NewDynamicVar "1") "cl" "m") client_world = Some ((), w') ∧
    quiet w' ∧ w_sent w' = w_sent client_world ∧
    registered (w_db w') (mkCH "cl" (Some "VSTP")) (w_now client_world) ∧
    internal_frame (w_db client_world) (w_db w').
Proof.
  intros env. assert (quiet client_world) as Hq by apply quiet_world_of.
  split; [exact Hq|]. split; [exact client_world_list|].
  exact (unreachable_client_never_expires default_controller "a.b" (NewDynamicVar "1") "cl" "m" "VSTP" ["cl"] client_world
           Hq client_world_list eq_refl client_world_api ltac:(done) vstp_running eq_refl eq_refl eq_refl).
Defined.
End witnesses.
