(* ===== verification/Delivery.v ===== *)
(** * From a change to its observers

    The pieces of the other files put together: a client sets a variable, the
    goroutines that [SetVar] starts run to their end, and every observer of the
    variable is told once. *)
From S2P Require Import Prelude GoStrings GoStrconv Misc NamedLock Storage RamCacheDB Reference Runtime Samples VarHelper Observations VarLock ClientHelper DbList ClientState Controller Variables Notify.

Section delivery.
Context {DB : Type} {HI : IStorage DB} {HS : StorageSpec DB} `{Environment, RangeOrder}.
Implicit Types (w : World DB) (c : TheController).

(** ** Clients that can be told *)

(** A client with a record, connected through a running API, that answers. *)
Record connected w (id api : string) : Prop := {
  cn_known : is_Some (view (w_db w) (keypath (key_client id)));
  cn_api : val (w_db w) (p_client id ++ ["apiId"]) = NewDynamicVar api;
  cn_ne : api ≠ "";
  cn_running : api ∈ w_apis w;
  cn_answers n : env_reachable n api id = true
}.

(** A change that keeps what [connected] looks at. *)
Lemma connected_ext w w' id api :
  connected w id api → w_apis w' = w_apis w →
  (∀ p, is_Some (view (w_db w) p) → is_Some (view (w_db w') p)) →
  val (w_db w') (p_client id ++ ["apiId"]) = val (w_db w) (p_client id ++ ["apiId"]) →
  connected w' id api.
Proof. intros [H1 H2 H3 H4 H5] Ha Hv Hval. split; [by apply Hv|by rewrite Hval|done|by rewrite Ha|done]. Qed.

(** The record of a known client is stamped with its API and the time. *)
Definition stamped (now : Z) (id api : string) (db : DB) : DB :=
  touch_db now (mkCH id (Some api)) (st_Set (key_apiId id) (NewDynamicVar api) db).

Lemma stamped_spec now id api db :
  valid db → valid (stamped now id api db) ∧ internal_frame db (stamped now id api db) ∧
  (∀ p, is_Some (view db p) → is_Some (view (stamped now id api db) p)) ∧
  (∀ id', val (stamped now id api db) (p_client id' ++ ["apiId"]) =
    if decide (p_client id' = p_client id) then NewDynamicVar api else val db (p_client id' ++ ["apiId"])).
Proof.
  intros Hv. destruct (p_client_shape id) as [r Hr]. unfold stamped, touch_db. cbn [ch_clientId].
  assert (valid (st_Set (key_apiId id) (NewDynamicVar api) db)) as Hv1 by by apply Set_valid. split_and!.
  - by apply Set_valid.
  - eapply internal_frame_trans; eapply internal_frame_Set; try done.
    + by rewrite keypath_apiId, Hr.
    + by rewrite keypath_lastLiveTime, Hr.
  - intros p Hp. rewrite Set_spec by done. apply spec_set_mono. rewrite Set_spec by done. by apply spec_set_mono.
  - intros id'. rewrite val_Set, keypath_lastLiveTime, decide_False by (done || by intros [_ [=]]%app_inj_tail).
    rewrite val_Set, keypath_apiId by done. destruct (decide (p_client id' = p_client id)) as [->|Hne].
    + by rewrite decide_True.
    + rewrite decide_False; [done|]. by intros [? _]%app_inj_tail.
Qed.

Lemma run_NewKnown id api w :
  quiet w → is_Some (view (w_db w) (keypath (key_client id))) → valid (w_db w) →
  ∃ w', run (NewControllerClientHelper id (Some api)) w = Some (mkCH id (Some api), w') ∧
    evolves w w' (stamped (w_now w) id api (w_db w)).
Proof.
  intros Hq Hk Hv.
  assert (drun (w_now w) (initialize_body (mkCH id (Some api))) (w_db w) = Some ((), stamped (w_now w) id api (w_db w))) as Hd.
  { unfold initialize_body. cbn [ch_clientId ch_api]. rewrite drun_has.
    rewrite HasValue_spec by done. rewrite bool_decide_true by done. done. }
  destruct (run_locked "db.intenal.clients" (2 * Second) _ w () _ Hq Hd) as (w' & Hr & He).
  exists w'. split; [|done]. unfold NewControllerClientHelper, initialize. cbv zeta. rewrite run_bind, run_bind, Hr. done.
Qed.

(** ** One notification *)

(** [w'] is [w] after messages were sent to clients. *)
Record sent_in w w' (l : list (string * string * payload)) : Prop := {
  si_sent : w_sent w' = w_sent w ++ l;
  si_quiet : quiet w';
  si_valid : valid (w_db w');
  si_tasks : w_tasks w' = w_tasks w;
  si_vars : internal_frame (w_db w) (w_db w');
  si_connected id api : connected w id api → connected w' id api
}.

Definition message_for (v : string) (value : DynamicVar) (api_of : string → string) (e : string * string) : string * string * payload :=
  (api_of e.1, e.1, [(v, e.2, GetString value)]).

Lemma sent_in_trans w w1 w2 l1 l2 : sent_in w w1 l1 → sent_in w1 w2 l2 → sent_in w w2 (l1 ++ l2).
Proof.
  intros [H1 H2 H3 H4 H5 H6] [G1 G2 G3 G4 G5 G6]. split; try done.
  - by rewrite G1, H1, app_assoc.
  - by rewrite G4.
  - by eapply internal_frame_trans.
  - eauto.
Qed.

(** The record of [id] is stamped: the others stay connected, and so does [id]. *)
Lemma connected_stamped w w' id api :
  valid (w_db w) → connected w id api → w_apis w' = w_apis w → w_db w' = stamped (w_now w) id api (w_db w) →
  ∀ id' api', connected w id' api' → connected w' id' api'.
Proof.
  intros Hv Hc Ha Hd id' api' Hc'. destruct (stamped_spec (w_now w) id api (w_db w) Hv) as (_ & _ & Hview & Hval).
  eapply connected_ext; [done|done|by rewrite Hd|]. rewrite Hd, Hval. case_decide as Heq; [|done].
  rewrite Heq, (cn_api _ _ _ Hc). done.
Qed.

Lemma run_notify_connected c v value id md api w :
  quiet w → valid (w_db w) → connected w id api →
  ∃ w', run (notify_client c v value id md) w = Some ((), w') ∧
    sent_in w w' [(api, id, [(v, md, GetString value)])].
Proof.
  intros Hq Hv Hc. pose proof Hc as [Hk Hapi Hne Hin Hon].
  destruct (run_NewKnown id api w Hq Hk Hv) as (w1 & Hr1 & He1).
  destruct (stamped_spec (w_now w) id api (w_db w) Hv) as (Hv1 & Hf1 & Hview1 & Hval1).
  set (db1 := stamped (w_now w) id api (w_db w)) in *. destruct He1 as [He1 Hq1].
  unfold notify_client, NewControllerClientHelperWithApis. rewrite run_bind, run_bind. cbn [run db_Get do_ exec].
  change (NewDynamicVar "") with NewEmptyDynamicVar. rewrite Get_empty, keypath_apiId, Hapi by done.
  cbv zeta. change (GetString (NewDynamicVar api)) with api. rewrite decide_False by done.
  rewrite run_bind. cbn [run do_ exec]. rewrite bool_decide_true by done. rewrite (run_bind_eq _ _ _ _ _ Hr1).
  cbn [run mret prog_ret]. unfold Notify. cbn [ch_api ch_clientId]. rewrite run_bind, run_bind. cbn [run do_ exec].
  rewrite Hon. cbn [run]. rewrite run_bind, run_UpdateLiveTime. cbn [run mret prog_ret unless_live when].
  eexists. split; [reflexivity|].
  assert (valid (touch_db (w_now w1) (mkCH id (Some api)) (w_db w1)) ∧ w_db w1 = db1 ∧ w_now w1 = w_now w ∧
    w_sent w1 = w_sent w ∧ w_tasks w1 = w_tasks w ∧ w_apis w1 = w_apis w) as (Hv2 & Hd1 & Hn1 & Hs1 & Ht1 & Ha1).
  { rewrite He1. split; [by apply Set_valid|done]. }
  split; cbn [w_db set_db set_sent set_calls w_sent w_tasks].
  - by rewrite Hs1.
  - exact Hq1.
  - cbn. rewrite Hd1. by apply Set_valid.
  - done.
  - cbn. rewrite Hd1. eapply internal_frame_trans; [exact Hf1|]. destruct (p_client_shape id) as [r Hr].
    eapply internal_frame_Set; [done|]. cbn [ch_clientId]. by rewrite keypath_lastLiveTime, Hr.
  - intros id' api' Hc'. pose proof (connected_stamped w w1 id api Hv Hc Ha1 Hd1 id' api' Hc') as Hc1.
    eapply connected_ext; [exact Hc1|done| |].
    + cbn. intros p Hp. unfold touch_db. rewrite Set_spec by (by rewrite Hd1). by apply spec_set_mono.
    + cbn. unfold touch_db. rewrite val_Set, keypath_lastLiveTime, decide_False by (by rewrite ?Hd1 || by intros [_ [=]]%app_inj_tail).
      done.
Qed.

(** ** All of them *)
Lemma run_deliveries fuel c v value api_of targets w :
  quiet w → valid (w_db w) → Forall (λ e, connected w e.1 (api_of e.1)) targets →
  w_tasks w = notifications c v value targets → length targets ≤ fuel →
  ∃ w', run_tasks fuel w = Some w' ∧ w_tasks w' = [] ∧
    w_sent w' = w_sent w ++ (message_for v value api_of <$> targets) ∧ internal_frame (w_db w) (w_db w').
Proof.
  revert fuel w. induction targets as [|e targets IH]; intros fuel w Hq Hv Hall Ht Hlen.
  - exists w. destruct fuel; cbn [run_tasks]; rewrite Ht; rewrite app_nil_r; done.
  - destruct fuel as [|fuel]; [cbn in Hlen; lia|]. apply Forall_cons in Hall as [He Hall].
    cbn [run_tasks]. rewrite Ht. cbn [notifications fmap list_fmap].
    destruct (run_notify_connected c v value e.1 e.2 (api_of e.1) (set_tasks (notifications c v value targets) w))
      as (w1 & Hr1 & Hs1); [exact Hq|exact Hv|by destruct He|].
    fold (notifications c v value targets). rewrite Hr1.
    destruct (IH fuel w1) as (w2 & Hr2 & Ht2 & Hs2 & Hf2).
    + apply Hs1.
    + apply Hs1.
    + eapply Forall_impl; [exact Hall|]. intros e' He'. apply (si_connected _ _ _ Hs1). by destruct He'.
    + apply (si_tasks _ _ _ Hs1).
    + cbn in Hlen. lia.
    + exists w2. split; [exact Hr2|]. split; [done|]. split.
      * rewrite Hs2, (si_sent _ _ _ Hs1). cbn. by rewrite <-app_assoc.
      * eapply internal_frame_trans; [|exact Hf2]. apply Hs1.
Qed.

(** ** [SetVar] and what follows *)

(** A variable that is set is no entry of an observation, of any variable. *)
Lemma obs_is_Set_user (db : DB) key v name l :
  valid db → Forall (λ s, starts_with_underscore s = false) (keypath key) → obs_is db name l → obs_is (st_Set key v db) name l.
Proof.
  intros Hv Hk [_ Hc Hb He].
  assert (∀ r, keypath key ≠ npath name ++ "_observers" :: r) as Hne.
  { intros r Heq. rewrite Heq in Hk. apply Forall_app in Hk as [_ Hk]. by apply Forall_cons in Hk as [[=] _]. }
  split; [by apply Set_valid| |done|].
  - unfold count, p_count. rewrite val_Set, decide_False by (done || apply not_eq_sym, Hne). exact Hc.
  - intros i. rewrite <-He. unfold entry, p_field. by rewrite !val_Set, !decide_False by (done || apply not_eq_sym, Hne).
Qed.

Lemma connected_Set_user w key v id api r ts :
  valid (w_db w) → keypath key = "vars" :: r → connected w id api → connected (set_tasks ts (set_db (st_Set key v (w_db w)) w)) id api.
Proof.
  intros Hv Hk Hc. eapply connected_ext; [exact Hc|done| |].
  - intros p Hp. cbn. rewrite Set_spec by done. by apply spec_set_mono.
  - cbn. rewrite val_Set, decide_False; [done| |done]. destruct (p_client_shape id) as [r' ->]. by rewrite Hk.
Qed.

Lemma deliver_change c name value L api_of w fuel :
  let n := GetOnly name valid_name_chars in
  let key := var_key false n in
  let observers := concat ((λ p, filter (λ e, e.1 ≠ "") (L p)) <$> patterns n) in
  quiet w → valid (w_db w) → w_tasks w = [] → allowRawDbAccess c = false →
  set_var_error c n value = None → locked (w_db w) key = false → Contains key "*" = false →
  (∀ p, p ∈ patterns n → obs_is (w_db w) (var_key false p) (L p)) →
  Forall (λ e, connected w e.1 (api_of e.1)) observers →
  2 + length observers ≤ fuel →
  ∃ w1 w2 sent, run (SetVar c name value) w = Some (Ok (), w1) ∧ run_tasks fuel w1 = Some w2 ∧ w_tasks w2 = [] ∧
    w_sent w2 = w_sent w ++ sent ∧ sent ≡ₚ (message_for n value api_of <$> observers) ∧
    ∀ p, ¬ ["internal"] `prefix_of` p → val (w_db w2) p = if decide (p = keypath key) then value else val (w_db w) p.
Proof.
  intros n key observers Hq Hv Ht Hraw He Hl Hstar Hobs Hconn Hfuel.
  pose proof (run_SetVar c name value w Hv) as Hr. cbv zeta in Hr. fold n in Hr. rewrite Hraw in Hr. fold key in Hr.
  rewrite He, Hl, Hstar, Ht in Hr. cbn [app] in Hr.
  set (w1 := set_tasks [notifyVarModification c n value] (set_db (st_Set key value (w_db w)) w)) in *.
  assert (is_Some (set_var_error c n value) → False) as Hacc by (rewrite He; by intros []).
  assert (containsUnderscoreDot n = false ∧ starts_with_underscore n = false) as [Hc Hs].
  { rewrite set_var_error_iff in Hacc. destruct (containsUnderscoreDot n), (starts_with_underscore n); naive_solver. }
  destruct (keypath_accepted n Hc Hs) as (r & Hk & Hr'). fold key in Hk.
  assert (valid (st_Set key value (w_db w))) as Hv1 by by apply Set_valid.
  (* the goroutine that looks for the observers *)
  set (w1' := set_tasks [] (set_db (st_Set key value (w_db w)) w)).
  destruct (notify_targets c n value L w1') as (w2 & targets & Hr2 & Hs2 & Hp2); [exact Hq| |].
  { rewrite Hraw. intros p Hp. cbn. apply obs_is_Set_user; [done|by rewrite Hk|by apply Hobs]. }
  fold observers in Hp2. destruct Hs2 as [He2 Hq2].
  (* the deliveries *)
  destruct fuel as [|[|fuel]]; [lia|lia|].
  destruct (run_deliveries fuel c n value api_of targets w2) as (w3 & Hr3 & Ht3 & Hs3 & Hf3).
  - exact Hq2.
  - rewrite He2. exact Hv1.
  - rewrite Hp2. eapply Forall_impl; [exact Hconn|]. intros e Hce.
    pose proof (connected_Set_user w key value e.1 (api_of e.1) r [] Hv Hk Hce) as Hc1. fold w1' in Hc1.
    eapply connected_ext; [exact Hc1|by rewrite He2|by rewrite He2|by rewrite He2].
  - by rewrite He2.
  - rewrite (Permutation_length Hp2). lia.
  - exists w1, w3, (message_for n value api_of <$> targets). split; [exact Hr|]. split.
    { change (run_tasks (S (S fuel)) w1) with (run_tasks (S fuel) (set_tasks [notify_body c n value] w1')).
      cbn [run_tasks w_tasks set_tasks]. change (set_tasks [] (set_tasks [notify_body c n value] w1')) with w1'.
      by rewrite Hr2. }
    split; [done|]. split; [by rewrite Hs3, He2|]. split; [by rewrite Hp2|].
    intros p Hp. rewrite Hf3 by done. rewrite He2. cbn. by rewrite val_Set.
Qed.

(** C4.  When a client sets a variable, the goroutines that follow come to an end,
    and then every observation of the variable, of [p.*] for each ancestor [p],
    and of [v.*], has been told exactly once, through the API of its client and
    with its metadata, and nobody else; and of the variables only the one that
    was set has changed. *)
Theorem set_reaches_every_observer c name value L api_of w fuel :
  let n := GetOnly name valid_name_chars in
  let key := var_key false n in
  let observers := concat ((λ p, filter (λ e, e.1 ≠ "") (L p)) <$> patterns n) in
  quiet w → valid (w_db w) → w_tasks w = [] → allowRawDbAccess c = false →
  set_var_error c n value = None → locked (w_db w) key = false → Contains key "*" = false →
  (∀ p, p ∈ patterns n → obs_is (w_db w) (var_key false p) (L p)) →
  Forall (λ e, connected w e.1 (api_of e.1)) observers →
  2 + length observers ≤ fuel →
  ∃ w1 w2 sent, run (SetVar c name value) w = Some (Ok (), w1) ∧ run_tasks fuel w1 = Some w2 ∧ w_tasks w2 = [] ∧
    w_sent w2 = w_sent w ++ sent ∧ sent ≡ₚ (message_for n value api_of <$> observers) ∧
    ∀ p, ¬ ["internal"] `prefix_of` p → val (w_db w2) p = if decide (p = keypath key) then value else val (w_db w) p.
Proof. apply deliver_change. Qed.
End delivery.

(** ** Witness *)

(** The observations of a variable are outside [internal]. *)
Lemma obs_is_internal {DB} {HI : IStorage DB} {HS : StorageSpec DB} (db db' : DB) name l :
  internal_frame db db' → valid db' → (∀ r, ¬ ["internal"] `prefix_of` npath name ++ "_observers" :: r) →
  obs_is db name l → obs_is db' name l.
Proof.
  intros Hf Hv Hn [_ Hc Hb He]. split; [done| |done|].
  - unfold count, p_count. by rewrite Hf.
  - intros i. rewrite <-He. unfold entry, p_field. by rewrite !Hf.
Qed.

Section witness.
Existing Instance canonical_order.
Existing Instance online.

(** The client [cl], connected through [VSTP], observes [a.*]. *)
Definition watched_world : World RamCacheDB :=
  default fresh_world (snd <$> run (RegisterObservation (var_helper false "a.*") "cl" "m") client_world).

Lemma client_world_frame : internal_frame fresh_db (w_db client_world).
Proof.
  assert (valid one_client) as Hv by apply one_client_list.
  eapply internal_frame_trans; [|eapply (internal_frame_Set _ _ _ ["clients"; "byId"; "cl"; "apiId"]); [exact Hv|done]].
  unfold one_client. repeat (eapply internal_frame_trans; [|by eapply internal_frame_Set; [repeat apply Set_valid; apply fresh_valid|done]]).
  done.
Qed.

Lemma client_world_obs p : obs_is (w_db client_world) (var_key false p) [].
Proof.
  apply (obs_is_internal fresh_db); [apply client_world_frame|apply client_world_list| |apply fresh_obs].
  intros r [x Hx]. destruct (var_key_user p) as (m & Hm & _). rewrite Hm in Hx.
  change ("vars." +:+ m) with ("vars" +:+ String dot m) in Hx. unfold npath in Hx. rewrite SplitByte_app in Hx. done.
Qed.

Lemma watched_world_spec :
  evolves client_world watched_world (w_db watched_world) ∧ obs_is (w_db watched_world) "vars.a.*" [("cl", "m")] ∧
  obs_frame "vars.a.*" (w_db client_world) (w_db watched_world).
Proof.
  destruct (obs_call_spec (var_helper false "a.*") [] client_world (ReqRegister "cl" "m")) as (w' & Hr & He & Ho & Hf);
    [apply quiet_world_of|apply (client_world_obs "a.*")|done|].
  assert (watched_world = w') as ->.
  { unfold watched_world. cbn [obs_call] in Hr. rewrite run_bind in Hr.
    destruct (run (RegisterObservation (var_helper false "a.*") "cl" "m") client_world) as [[id w1]|]; [|done].
    cbn in Hr |- *. by injection Hr. }
  split; [exact He|]. split; [exact Ho|exact Hf].
Qed.

Lemma watched_connected : connected watched_world "cl" "VSTP".
Proof.
  destruct watched_world_spec as (He & _ & Hf). split.
  - rewrite (frame_view _ _ _ Hf) by (by intros [x Hx]). apply (bool_decide_unpack (is_Some _)). by vm_compute.
  - rewrite (frame_val _ _ _ Hf) by (by intros [x Hx]). exact client_world_api.
  - done.
  - rewrite (evolves_eq _ _ _ He). exact vstp_running.
  - done.
Qed.

Lemma watched_patterns p : p ∈ patterns "a.b" → obs_is (w_db watched_world) (var_key false p) (observers_of p).
Proof.
  destruct watched_world_spec as (_ & Ho & Hf). intros Hp.
  assert (patterns "a.b" = ["a.b"; "a.*"; "a.b.*"]) as Heq by reflexivity. rewrite Heq in Hp. clear Heq.
  rewrite !elem_of_cons, elem_of_nil in Hp. destruct Hp as [->|[->|[->|[]]]].
  - apply (obs_is_frame (w_db client_world) _ "vars.a.*"); [done|apply Ho|by intros r [x Hx]|apply client_world_obs].
  - exact Ho.
  - apply (obs_is_frame (w_db client_world) _ "vars.a.*"); [done|apply Ho|by intros r [x Hx]|apply client_world_obs].
Qed.

Lemma watched_locked : locked (w_db watched_world) "vars.a.b" = false.
Proof.
  destruct watched_world_spec as (_ & _ & Hf). unfold locked. rewrite (frame_val _ _ _ Hf) by (by intros [x Hx]).
  by vm_compute.
Qed.

Lemma set_reaches_every_observer_witness :
  ∃ w1 w2 sent, run (SetVar default_controller "a.b" (NewDynamicVar "1")) watched_world = Some (Ok (), w1) ∧
    run_tasks 3 w1 = Some w2 ∧ sent ≡ₚ [("VSTP", "cl", [("a.b", "m", "1")])] ∧ w_sent w2 = w_sent watched_world ++ sent.
Proof.
  assert (evolves client_world watched_world (w_db watched_world)) as He by apply watched_world_spec.
  destruct (set_reaches_every_observer default_controller "a.b" (NewDynamicVar "1") observers_of (λ _, "VSTP") watched_world 3)
    as (w1 & w2 & sent & H1 & H2 & _ & H4 & H5 & _).
  - apply He.
  - apply watched_world_spec.
  - by rewrite (evolves_eq _ _ _ He).
  - done.
  - by vm_compute.
  - exact watched_locked.
  - done.
  - exact watched_patterns.
  - apply Forall_cons_2; [exact watched_connected|apply Forall_nil_2].
  - reflexivity || (cbn; lia).
  - exists w1, w2, sent. split; [exact H1|]. split; [exact H2|]. split; [exact H5|exact H4].
Defined.
End witness.
