(* ===== verification/Subscribe.v ===== *)
(** * Observing a variable

    What [ObserveVar] leaves behind: an entry in the observers of the variable,
    one in the variables of the client, a client that later changes can reach,
    and one message with the current values; and that a change made afterwards
    is delivered to the new observer with the others. *)
From S2P Require Import Prelude GoStrings GoStrconv Misc NamedLock Storage RamCacheDB Reference Runtime Samples VarHelper Observations VarLock ClientHelper DbList ClientState Controller Variables Subtree Notify Delivery.

(** ** What a program may write *)

(** The program deletes nothing and sets only keys of [K]. *)
Fixpoint sets_only (K : string → Prop) {A} (p : prog A) : Prop :=
  match p with
  | Ret _ => True
  | Vis o k => match o with Db_Set key _ => K key | Db_DeleteValue _ _ => False | _ => True end ∧
               ∀ x, sets_only K (k x)
  | Go _ k => sets_only K k
  end.

Lemma sets_only_bind K {A B} (p : prog A) (f : A → prog B) :
  sets_only K p → (∀ a, sets_only K (f a)) → sets_only K (p ≫= f).
Proof.
  intros Hp Hf. revert Hp. induction p as [A a|A o k IH|A t _ k IH]; cbn; [by intros _| |by auto].
  intros [Ho Hk]. split; [exact Ho|]. intros x. by apply IH.
Qed.

Lemma sets_only_mono (K K' : string → Prop) {A} (p : prog A) : (∀ key, K key → K' key) → sets_only K p → sets_only K' p.
Proof.
  intros HK. induction p as [A a|A o k IH|A t _ k IH]; cbn; [done| |by auto]. intros [Ho Hk]. split; [|by intros x; apply IH].
  destruct o; auto.
Qed.

Lemma sets_only_mapM K {X Y} (f : X → prog Y) l : (∀ x, sets_only K (f x)) → sets_only K (prog_mapM f l).
Proof.
  intros Hf. induction l as [|x l IH]; cbn [prog_mapM]; [done|]. apply sets_only_bind; [apply Hf|]. intros y.
  by apply sets_only_bind.
Qed.

Lemma sets_only_lock K {A} name timeout (f : prog A) : sets_only K f → sets_only K (NamedLockRun name timeout f).
Proof.
  intros Hf. unfold NamedLockRun. apply sets_only_bind; [done|]. intros [|]; [|done].
  by apply sets_only_bind.
Qed.

Section writes.
Context {DB : Type} {HI : IStorage DB} {HS : StorageSpec DB} `{Environment}.
Implicit Types (db : DB) (w : World DB).

(** What is left alone, and what stays. *)
Record set_frame (K : string → Prop) db db' : Prop := {
  sf_valid : valid db';
  sf_val p : (∀ key, K key → keypath key ≠ p) → val db' p = val db p;
  sf_below q k r : (∀ key, K key → ¬ q `prefix_of` keypath key) → view db' (q ++ k :: r) = view db (q ++ k :: r);
  sf_known p : is_Some (view db p) → is_Some (view db' p)
}.

Lemma set_frame_refl K db : valid db → set_frame K db db.
Proof. by split. Qed.
Lemma set_frame_trans K db1 db2 db3 : set_frame K db1 db2 → set_frame K db2 db3 → set_frame K db1 db3.
Proof.
  intros [V1 F1 B1 M1] [V2 F2 B2 M2]. split; [done| | |by auto].
  - intros p Hp. rewrite F2 by done. by apply F1.
  - intros q k r Hq. rewrite B2 by done. by apply B1.
Qed.
Lemma set_frame_Set (K : string → Prop) db key v : valid db → K key → set_frame K db (st_Set key v db).
Proof.
  intros Hv Hk. split; [by apply Set_valid| | |].
  - intros p Hp. rewrite val_Set by done. rewrite decide_False; [done|]. intros ->. by apply (Hp key).
  - intros q k r Hq. apply view_Set_apart; [done|]. by apply Hq.
  - intros p Hp. rewrite Set_spec by done. by apply spec_set_mono.
Qed.

Lemma exec_frame K o w a w' :
  match o with Db_Set key _ => K key | Db_DeleteValue _ _ => False | _ => True end →
  valid (w_db w) → exec o w = Some (a, w') → set_frame K (w_db w) (w_db w').
Proof.
  intros Ho Hv He. destruct o; cbn in He; repeat case_match; simplify_eq/=;
    try (by apply set_frame_refl); [by apply set_frame_Set|done].
Qed.

Lemma run_frame K {A} (p : prog A) w a w' :
  sets_only K p → valid (w_db w) → run p w = Some (a, w') → set_frame K (w_db w) (w_db w').
Proof.
  revert w. induction p as [A x|A o k IH|A t _ k IH]; intros w Hp Hv; cbn.
  - intros [= _ <-]. by apply set_frame_refl.
  - destruct Hp as [Ho Hk]. destruct (exec o w) as [[x w1]|] eqn:He; [|done]. intros Hr.
    apply (exec_frame K) in He; [|done|done]. eapply set_frame_trans; [exact He|].
    eapply IH; [apply Hk|apply He|exact Hr].
  - intros Hr. exact (IH a (set_tasks (w_tasks w ++ [t]) w) Hp Hv Hr).
Qed.
End writes.

(** ** What the programs of a subscription write *)

Definition internal_key (key : string) : Prop := ["internal"] `prefix_of` keypath key.
(** Keys of the clients, but not of the variables [id] observes. *)
Definition client_key (id key : string) : Prop := internal_key key ∧ ¬ p_observing id `prefix_of` keypath key.

Lemma client_key_list id s : client_key id (base_clients +:+ "." +:+ s).
Proof.
  assert (∃ r, keypath (base_clients +:+ "." +:+ s) = "internal" :: "clients" :: "list" :: r) as [r Hr].
  { eexists. exact (keypath_app "internal.clients.list" s). }
  unfold client_key, internal_key. rewrite Hr. split; [by eexists|]. destruct (p_client_shape id) as [r' Hr'].
  unfold p_observing. rewrite Hr'. by intros [t Ht].
Qed.

Lemma internal_p_client id r : ["internal"] `prefix_of` p_client id ++ r.
Proof. destruct (p_client_shape id) as [r' ->]. by eexists. Qed.

Lemma client_key_record id key s : keypath key = p_client id ++ [s] → s ≠ "observing" → client_key id key.
Proof.
  intros Hk Hs. unfold client_key, internal_key. rewrite Hk. split; [apply internal_p_client|].
  unfold p_observing. intros Hp%prefix_app_inv. by apply prefix_cons_iff in Hp as [? _].
Qed.

Lemma client_key_client id : client_key id (key_client id).
Proof.
  destruct (keypath_client id) as (r & Hr & Hp). unfold client_key, internal_key. split; [rewrite Hr; by eexists|].
  intros Hq. apply prefix_length in Hq. apply prefix_length in Hp. unfold p_observing in Hq. rewrite length_app in Hq.
  cbn in Hq. lia.
Qed.

Lemma sets_only_UpdateLiveTime h : sets_only (client_key (ch_clientId h)) (UpdateLiveTime h).
Proof. cbn. split; [done|]. intros x. split; [|done]. eapply client_key_record; [apply keypath_lastLiveTime|done]. Qed.

Lemma sets_only_New id api : sets_only (client_key id) (NewControllerClientHelper id api).
Proof.
  unfold NewControllerClientHelper, initialize. cbv zeta. apply sets_only_bind; [|done].
  apply sets_only_bind; [|done]. apply sets_only_lock. unfold initialize_body. cbn [ch_clientId ch_api].
  apply sets_only_bind; [done|]. intros known. apply sets_only_bind.
  { destruct known; [done|]. cbn [negb when]. cbn. repeat first [exact I | apply (client_key_list id "count") | apply client_key_list |
      apply client_key_client | intros ? | split]. }
  intros _. apply sets_only_bind; [|intros _; apply (sets_only_UpdateLiveTime (mkCH id api))].
  destruct api as [api|]; [|done]. cbn. split; [|done]. eapply client_key_record; [apply keypath_apiId|done].
Qed.

Lemma internal_base_observing id s : internal_key (base_observing id +:+ "." +:+ s).
Proof.
  unfold internal_key. change (base_observing id +:+ "." +:+ s) with (base_observing id +:+ String dot s).
  rewrite keypath_app. change (SplitByte (base_observing id) dot) with (npath (base_observing id)).
  rewrite npath_observing. unfold p_observing. rewrite <-app_assoc. apply internal_p_client.
Qed.

Lemma sets_only_RegisterNew h v : sets_only internal_key (RegisterNewObservation h v).
Proof.
  unfold RegisterNewObservation. cbv zeta. apply sets_only_bind; [|done]. apply sets_only_lock.
  apply sets_only_bind.
  { eapply sets_only_mono; [|apply sets_only_UpdateLiveTime]. by intros key [? _]. }
  intros _. cbn. repeat first [exact I | apply (internal_base_observing _ "count") | apply internal_base_observing |
    intros ? | split].
Qed.

Section observe.
Context {DB : Type} {HI : IStorage DB} {HS : StorageSpec DB} `{Environment, RangeOrder}.
Implicit Types (db : DB) (w : World DB) (c : TheController).

Lemma set_frame_internal db db' : set_frame internal_key db db' → internal_frame db db'.
Proof. intros Hf p Hp. apply (sf_val _ _ _ Hf). intros key Hk <-. by apply Hp. Qed.

(** ** The current values *)

(** The value of a variable, unless it is empty, and those of its visible
    children. *)
Definition own_value db v : list (string * string) :=
  let s := GetString (val db (keypath (var_key false v))) in if decide (s ≠ "") then [(v, s)] else [].
Definition child_value db v k : string * string := (below v k, GetString (val db (keypath (var_key false (below v k))))).
Definition current db v : list (string * string) :=
  own_value db v ++ (child_value db v <$> filter (λ k, visible_child false k = true) (st_GetChilds (var_key false v) db)).

Lemma drun_getVarInternal c v db now :
  allowRawDbAccess c = false → valid db → drun now (getVarInternal c v) db = Some (current db v, db).
Proof.
  intros Hraw Hv. unfold getVarInternal. rewrite (drun_bind_eq _ _ _ _ _ (drun_GetValue false c Hraw v db Hv)). cbv zeta.
  rewrite (drun_bind_eq _ _ _ _ _ (drun_GetChildNames false c Hraw v db)).
  erewrite drun_bind_eq; [reflexivity|]. apply (drun_mapM now _ (child_value db v)). intros k.
  assert ((if decide (v ≠ "") then v +:+ "." +:+ k else k) = below v k) as ->.
  { unfold below. case_decide as Hd; [by rewrite str_app_assoc|by subst]. }
  by rewrite (drun_bind_eq _ _ _ _ _ (drun_GetValue false c Hraw (below v k) db Hv)).
Qed.

Lemma current_ext db db' v :
  readable false v → valid db → valid db' →
  val db' (keypath (var_key false v)) = val db (keypath (var_key false v)) →
  (∀ k, visible_child false k = true →
    view db' (keypath (var_key false v) ++ [k]) = view db (keypath (var_key false v) ++ [k])) →
  current db' v ≡ₚ current db v.
Proof.
  intros Hr Hv Hv' Hown Hk. destruct (keypath_var_key_last false v) as [_ Hkey]; [apply Hr..|].
  unfold current, own_value. rewrite Hown. apply Permutation_app_head.
  assert (∀ l : list string, Forall (λ k, visible_child false k = true ∧ lacks dot k) l →
    child_value db' v <$> l = child_value db v <$> l) as Hf.
  { intros l Hl. apply list_fmap_ext. intros i k Hik. eapply Forall_lookup in Hl as [Hvis Hd]; [|exact Hik].
    unfold child_value, val, value_at. rewrite (keypath_below_child false v k Hr Hd (visible_ne false k Hvis)). by rewrite Hk. }
  rewrite Hf.
  - apply fmap_Permutation, NoDup_Permutation; try by apply NoDup_filter, GetChilds_NoDup.
    intros k. rewrite !list_elem_of_filter, !GetChilds_spec by done. rewrite !decide_False by done.
    split; intros [Hvis Hs]; (split; [done|]); [by rewrite <-Hk|by rewrite Hk].
  - apply Forall_forall. intros k. rewrite list_elem_of_filter, GetChilds_spec, decide_False by done.
    intros [Hvis Hs]. split; [done|]. apply view_names in Hs; [|done]. apply Forall_app in Hs as [_ Hs].
    by inversion_clear Hs.
Qed.

(** Writes to the records of clients do not change the variables. *)
Lemma current_internal db db' v :
  readable false v → valid db → set_frame internal_key db db' → current db' v ≡ₚ current db v.
Proof.
  intros Hr Hv Hf. destruct (keypath_user v) as (m & Hm & _). apply current_ext; [done|done|apply Hf| |].
  - apply (set_frame_internal _ _ Hf). rewrite Hm. by intros [x Hx].
  - intros k Hk. apply (sf_below _ _ _ Hf). unfold internal_key. intros key [x ->]. rewrite Hm. by intros [y Hy].
Qed.

(** ** The steps of a subscription *)
Lemma npath_user v : ∃ r, npath (var_key false v) = "vars" :: r.
Proof.
  destruct (var_key_user v) as (m & -> & _). exists (npath m). exact (SplitByte_app "vars" m dot).
Qed.

(** The observers of a variable and the records of the clients are apart. *)
Lemma observers_not_internal v p : ["internal"] `prefix_of` p → ¬ p_observers (var_key false v) `prefix_of` p ∧ ¬ p `prefix_of` p_observers (var_key false v).
Proof.
  destruct (npath_user v) as [r Hr]. unfold p_observers. rewrite Hr. intros [p' ->]. by split; intros [s Hs].
Qed.
Lemma internal_not_observers v r : ¬ ["internal"] `prefix_of` npath (var_key false v) ++ "_observers" :: r.
Proof. destruct (npath_user v) as [r' ->]. by intros [s Hs]. Qed.

Lemma observing_obs_frame v db db' id lv :
  obs_frame (var_key false v) db db' → valid db' → observing db id lv → observing db' id lv.
Proof.
  intros [_ Hf] Hv. apply list_is_ext; [done|]. intros k r.
  apply Hf; apply observers_not_internal; unfold p_observing; rewrite <-app_assoc; apply internal_p_client.
Qed.

Lemma run_RegisterObservation (c : ControllerVarHelper) v id md L w :
  quiet w → vh_name c = var_key false v → obs_is (w_db w) (vh_name c) L → (Z.of_nat (length L) + 1 < int64_max)%Z →
  ∃ s w', run (RegisterObservation c id md) w = Some (s, w') ∧ evolves w w' (w_db w') ∧
    obs_is (w_db w') (vh_name c) (L ++ [(id, md)]) ∧ obs_frame (vh_name c) (w_db w) (w_db w').
Proof.
  intros Hq Hc Hobs Hlen.
  destruct (drun_register (now:=w_now w) (vh_name c) id md L (w_db w) Hobs Hlen) as (db' & Hd & Hobs' & Hf & _).
  destruct (run_section c L (L ++ [(id, md)]) w _ _ Hq (ex_intro _ db' (conj Hd (conj Hobs' Hf))) Hobs) as (w' & Hr & Hw').
  eexists _, w'. split; [|exact Hw']. unfold RegisterObservation. cbv zeta. by rewrite (run_bind_eq _ _ _ _ _ Hr).
Qed.

Lemma run_RegisterNew h v lv w :
  quiet w → observing (w_db w) (ch_clientId h) lv → (Z.of_nat (length lv) + 1 < int64_max)%Z →
  ∃ w', run (RegisterNewObservation h v) w = Some ((), w') ∧ evolves w w' (w_db w') ∧
    observing (w_db w') (ch_clientId h) (lv ++ [v]) ∧ client_frame (ch_clientId h) (w_db w) (w_db w') ∧
    set_frame internal_key (w_db w) (w_db w').
Proof.
  intros Hq Hobs Hlen. assert (valid (w_db w)) as Hv by apply Hobs.
  destruct (run_client_section (2 * Second) h _ lv (lv ++ [v]) w Hq
      (drun_register_var (w_now w) h v lv (w_db w) Hobs Hlen) Hobs) as (w' & Hr & He & Ho & Hf).
  exists w'. split; [exact Hr|]. split; [done|]. split; [done|]. split; [done|].
  exact (run_frame internal_key (RegisterNewObservation h v) w () w' (sets_only_RegisterNew h v) Hv Hr).
Qed.

Lemma run_NewObserver id api ids lv w :
  quiet w → list_is (w_db w) p_clients ids → (Z.of_nat (length ids) + 1 < int64_max)%Z → observing (w_db w) id lv →
  ∃ w', run (NewControllerClientHelper id (Some api)) w = Some (mkCH id (Some api), w') ∧ evolves w w' (w_db w') ∧
    observing (w_db w') id lv ∧ set_frame internal_key (w_db w) (w_db w') ∧
    is_Some (view (w_db w') (keypath (key_client id))) ∧
    val (w_db w') (p_client id ++ ["apiId"]) = NewDynamicVar api ∧
    ∃ ids', list_is (w_db w') p_clients ids' ∧ length ids' ≤ S (length ids).
Proof.
  intros Hq Hl Hlen Ho. destruct (run_NewClient id (Some api) ids w Hq Hl Hlen) as (w' & Hr & He & Hl' & Hreg & _).
  pose proof (run_frame _ _ _ _ _ (sets_only_New id (Some api)) (li_valid _ _ _ Hl) Hr) as Hf.
  exists w'. split; [exact Hr|]. split; [done|]. split.
  { eapply list_is_ext; [apply Hf| |exact Ho]. intros k r. apply (sf_below _ _ _ Hf). by intros key [_ Hk]. }
  split.
  { eapply (run_frame internal_key); [|apply Hl|exact Hr]. eapply sets_only_mono; [|apply sets_only_New].
    by intros key [Hk _]. }
  split; [apply Hreg|]. split; [by apply (reg_api _ _ _ Hreg)|].
  eexists. split; [exact Hl'|]. case_match; [lia|rewrite length_app; cbn; lia].
Qed.

(** What a subscription leaves behind. *)
Record subscribed w w' (v id md api : string) (L : list (string * string)) (lv : list string) : Prop := {
  sub_message : ∃ vals, vals ≡ₚ current (w_db w) v ∧
    w_sent w' = w_sent w ++ [(api, id, (λ e, (e.1, md, e.2)) <$> vals)];
  sub_current : current (w_db w') v ≡ₚ current (w_db w) v;
  sub_observers : obs_is (w_db w') (var_key false v) (L ++ [(id, md)]);
  sub_observing : observing (w_db w') id (lv ++ [v]);
  sub_connected : connected w' id api;
  sub_quiet : quiet w';
  sub_tasks : w_tasks w' = w_tasks w;
  sub_frame p : ¬ ["internal"] `prefix_of` p → ¬ p_observers (var_key false v) `prefix_of` p →
    val (w_db w') p = val (w_db w) p
}.

Lemma observers_not_keypath v : readable false v → ¬ p_observers (var_key false v) `prefix_of` keypath (var_key false v).
Proof.
  intros Hr. destruct (keypath_var_key_last false v) as [-> _]; [apply Hr..|]. unfold p_observers, npath.
  intros Hp%prefix_length. rewrite length_app in Hp. cbn in Hp. lia.
Qed.
Lemma observers_not_child v k :
  readable false v → visible_child false k = true →
  ¬ p_observers (var_key false v) `prefix_of` keypath (var_key false v) ++ [k] ∧
  ¬ keypath (var_key false v) ++ [k] `prefix_of` p_observers (var_key false v).
Proof.
  intros Hr Hk. destruct (keypath_var_key_last false v) as [-> _]; [apply Hr..|]. unfold p_observers, npath.
  split; intros Hp%prefix_app_inv; apply prefix_cons_iff in Hp as [Hp _]; [subst k|subst k]; done.
Qed.

(** The same once the observer is written down, before it is told anything. *)
Record enrolled w w' (v id md api : string) (L : list (string * string)) (lv : list string) : Prop := {
  en_evolves : evolves w w' (w_db w');
  en_observers : obs_is (w_db w') (var_key false v) (L ++ [(id, md)]);
  en_observing : observing (w_db w') id (lv ++ [v]);
  en_known : is_Some (view (w_db w') (keypath (key_client id)));
  en_api : val (w_db w') (p_client id ++ ["apiId"]) = NewDynamicVar api;
  en_frame p : ¬ ["internal"] `prefix_of` p → ¬ p_observers (var_key false v) `prefix_of` p →
    val (w_db w') p = val (w_db w) p;
  en_current : current (w_db w') v ≡ₚ current (w_db w) v
}.

(** Three writers in a row: the record of the client, the observers of the
    variable, the variables of the client. *)
Lemma writers_frame v p db db1 db2 db3 :
  set_frame internal_key db db1 → obs_frame (var_key false v) db1 db2 → set_frame internal_key db2 db3 →
  ¬ ["internal"] `prefix_of` p → ¬ p_observers (var_key false v) `prefix_of` p → val db3 p = val db p.
Proof.
  intros F1 F2 F3 Hi Ho. rewrite (set_frame_internal _ _ F3) by done. rewrite (frame_val _ _ _ F2) by done.
  by apply set_frame_internal.
Qed.

Lemma writers_current v db db1 db2 db3 :
  readable false v → valid db →
  set_frame internal_key db db1 → obs_frame (var_key false v) db1 db2 → set_frame internal_key db2 db3 →
  current db3 v ≡ₚ current db v.
Proof.
  intros Hr Hv F1 F2 F3. destruct (keypath_user v) as (m & Hm & _). apply current_ext; [done|done|apply F3| |].
  - apply (writers_frame v _ db db1 db2 db3); try done; [|by apply observers_not_keypath]. rewrite Hm. by intros [x Hx].
  - intros k Hk.
    assert (∀ key', internal_key key' → ¬ keypath (var_key false v) `prefix_of` keypath key') as Hi.
    { unfold internal_key. intros key' [x ->]. rewrite Hm. by intros [y Hy]. }
    destruct (observers_not_child v k Hr Hk) as [Hn1 Hn2].
    rewrite (sf_below _ _ _ F3) by done. rewrite (frame_view _ _ _ F2) by done. by rewrite (sf_below _ _ _ F1).
Qed.

(** What is in the observed variables of a client is not its API. *)
Lemma api_not_observing id : ¬ p_observing id `prefix_of` p_client id ++ ["apiId"] ∧
  p_client id ++ ["apiId"] ≠ p_client id ++ ["lastLiveTime"].
Proof.
  unfold p_observing. split; [|by intros [_ ?]%app_inj_tail].
  intros Hp%prefix_app_inv. by apply prefix_cons_iff in Hp as [? _].
Qed.

Lemma run_enroll c v id md api L lv ids w :
  let key := var_key false v in
  allowRawDbAccess c = false → readable false v → quiet w →
  obs_is (w_db w) key L → (Z.of_nat (length L) + 1 < int64_max)%Z →
  observing (w_db w) id lv → (Z.of_nat (length lv) + 1 < int64_max)%Z →
  list_is (w_db w) p_clients ids → (Z.of_nat (length ids) + 1 < int64_max)%Z →
  ∃ s w1 w2 w3, run (NewControllerClientHelper id (Some api)) w = Some (mkCH id (Some api), w1) ∧
    run (RegisterObservation (helper c v) id md) w1 = Some (s, w2) ∧
    run (RegisterNewObservation (mkCH id (Some api)) v) w2 = Some ((), w3) ∧
    enrolled w w3 v id md api L lv.
Proof.
  intros key Hraw Hr Hq Hobs HL Hlv Hlenv Hl Hlen.
  assert (vh_name (helper c v) = key) as Hname by (unfold helper; by rewrite Hraw).
  assert (valid (w_db w)) as Hv by apply Hobs.
  destruct (run_NewObserver id api ids lv w Hq Hl Hlen Hlv) as (w1 & H1 & E1 & O1 & F1 & K1 & A1 & _).
  assert (obs_is (w_db w1) key L) as Hobs1.
  { apply (obs_is_internal (w_db w)); [by apply set_frame_internal|apply F1|intros r; apply internal_not_observers|done]. }
  destruct (run_RegisterObservation (helper c v) v id md L w1) as (s & w2 & H2 & E2 & Obs2 & F2);
    [apply E1|exact Hname|by rewrite Hname|done|]. rewrite Hname in Obs2, F2.
  assert (valid (w_db w2)) as Hv2 by apply Obs2.
  pose proof (observing_obs_frame v _ _ id lv F2 Hv2 O1) as O2.
  destruct (run_RegisterNew (mkCH id (Some api)) v lv w2) as (w3 & H3 & E3 & O3 & C3 & F3); [apply E2|done|done|].
  cbn [ch_clientId] in *. exists s, w1, w2, w3. do 3 (split; [done|]). split.
  - exact (evolves_trans _ _ _ _ _ (evolves_trans _ _ _ _ _ E1 E2) E3).
  - apply (obs_is_internal (w_db w2)); [by apply set_frame_internal|apply F3|intros r; apply internal_not_observers|done].
  - exact O3.
  - apply (sf_known _ _ _ F3). rewrite (frame_view _ _ _ F2); [exact K1|..]; apply observers_not_internal;
      destruct (keypath_client id) as (r & -> & _); by eexists.
  - destruct (api_not_observing id) as [Hn1 Hn2]. rewrite (C3 _ Hn1 Hn2).
    rewrite (frame_val _ _ _ F2); [exact A1|]. apply observers_not_internal, internal_p_client.
  - intros p. by apply (writers_frame v p _ (w_db w1) (w_db w2)).
  - by apply (writers_current v _ (w_db w1) (w_db w2)).
Qed.

(** The message to a client that is enrolled. *)
Lemma run_first_message v id md api L lv w w3 (p : list (string * string * string)) :
  readable false v → enrolled w w3 v id md api L lv → api ≠ "" → api ∈ w_apis w →
  (∀ n, env_reachable n api id = true) →
  p = (λ e, (e.1, md, e.2)) <$> current (w_db w3) v →
  ∃ w', run (Notify (mkCH id (Some api)) p) w3 = Some (NewDynamicVar "LIVE", w') ∧ subscribed w w' v id md api L lv.
Proof.
  intros Hr [Ev Obs3 O3 K3 A3 Hf3 Hcur] Hne Hin Hon ->. assert (valid (w_db w3)) as Hv3 by apply Obs3.
  destruct Ev as [E Hq3]. set (p := _ <$> _). set (h := mkCH id (Some api)).
  set (w4 := set_sent (w_sent w3 ++ [(api, id, p)]) (set_calls (S (w_calls w3)) w3)).
  set (w5 := set_db (touch_db (w_now w4) h (w_db w4)) w4). exists w5. split.
  { unfold Notify. cbn [ch_api ch_clientId h]. rewrite run_bind. cbn [run do_ exec]. by rewrite Hon. }
  destruct (touch_spec (w_now w4) h (w_db w4) _ O3) as [O5 C5]. cbn [h ch_clientId] in O5, C5.
  assert (set_frame internal_key (w_db w3) (w_db w5)) as F5.
  { exact (run_frame internal_key (UpdateLiveTime h) w4 () w5
      (sets_only_mono _ _ _ (λ key Hk, proj1 Hk) (sets_only_UpdateLiveTime h)) Hv3 eq_refl). }
  split.
  - exists (current (w_db w3) v). split; [done|cbn; by rewrite E].
  - by rewrite (current_internal _ _ _ Hr Hv3 F5).
  - apply (obs_is_internal (w_db w3)); [by apply set_frame_internal|apply F5|intros r; apply internal_not_observers|done].
  - exact O5.
  - split; [by apply (sf_known _ _ _ F5)| |done|cbn; by rewrite E|done].
    destruct (api_not_observing id) as [Hn1 Hn2]. exact (eq_trans (C5 _ Hn1 Hn2) A3).
  - apply Hq3.
  - cbn. by rewrite E.
  - intros q Hi Ho. rewrite (set_frame_internal _ _ F5) by done. by apply Hf3.
Qed.

Lemma observe_var c v id md api L lv ids w :
  let key := var_key false v in
  allowRawDbAccess c = false → readable false v → quiet w →
  obs_is (w_db w) key L → (Z.of_nat (length L) + 1 < int64_max)%Z →
  observing (w_db w) id lv → (Z.of_nat (length lv) + 1 < int64_max)%Z →
  list_is (w_db w) p_clients ids → (Z.of_nat (length ids) + 1 < int64_max)%Z →
  st_HasValue (key_byMetadata key id md) (w_db w) = false →
  api ≠ "" → api ∈ w_apis w → (∀ n, env_reachable n api id = true) →
  ∃ w', run (ObserveVar c v id md api) w = Some ((), w') ∧ subscribed w w' v id md api L lv.
Proof.
  intros key Hraw Hr Hq Hobs HL Hlv Hlenv Hl Hlen Hnew Hne Hin Hon.
  destruct (run_enroll c v id md api L lv ids w Hraw Hr Hq Hobs HL Hlv Hlenv Hl Hlen) as (s & w1 & w2 & w3 & H1 & H2 & H3 & He).
  assert (valid (w_db w3)) as Hv3 by apply He.
  pose proof (run_drun _ w3 _ _ (drun_getVarInternal c v (w_db w3) (w_now w3) Hraw Hv3)) as H4. rewrite set_db_self in H4.
  destruct (run_first_message v id md api L lv w w3 _ Hr He Hne Hin Hon eq_refl) as (w' & H5 & Hs).
  exists w'. split; [|exact Hs]. unfold ObserveVar. cbv zeta. rewrite run_bind. unfold IsClientObserving.
  assert (vh_name (helper c v) = key) as -> by (unfold helper; by rewrite Hraw). cbn [run db_HasValue do_ exec].
  rewrite Hnew. cbn [negb when].
  rewrite (run_bind_eq _ _ _ _ _ H1), (run_bind_eq _ _ _ _ _ H2), (run_bind_eq _ _ _ _ _ H3), (run_bind_eq _ _ _ _ _ H4).
  by rewrite (run_bind_eq _ _ _ _ _ H5).
Qed.

(** C15.  Observing a variable: a client that does not observe it yet, connected
    through an API that answers, is told the current values of the variable and
    its visible children in one message, is the last of the observers of the
    variable, has it as the last of its own variables, and can be reached by later
    notifications; no lock stays held, no goroutine is started, and of the
    variables only the observers of this one have changed. *)
Theorem ObserveVar_registers c v id md api L lv ids w :
  let key := var_key false v in
  allowRawDbAccess c = false → readable false v → quiet w →
  obs_is (w_db w) key L → (Z.of_nat (length L) + 1 < int64_max)%Z →
  observing (w_db w) id lv → (Z.of_nat (length lv) + 1 < int64_max)%Z →
  list_is (w_db w) p_clients ids → (Z.of_nat (length ids) + 1 < int64_max)%Z →
  st_HasValue (key_byMetadata key id md) (w_db w) = false →
  api ≠ "" → api ∈ w_apis w → (∀ n, env_reachable n api id = true) →
  ∃ w', run (ObserveVar c v id md api) w = Some ((), w') ∧ subscribed w w' v id md api L lv.
Proof. apply observe_var. Qed.

(** ** Stopping *)
Lemma remove_first_snoc v lv : v ∉ lv → remove_first v (lv ++ [v]) = lv.
Proof.
  induction lv as [|x lv IH]; cbn; [by rewrite decide_True|]. intros [Hx Hn]%not_elem_of_cons.
  rewrite decide_False by congruence. by rewrite IH.
Qed.

Lemma run_Unregister h v lv w :
  quiet w → observing (w_db w) (ch_clientId h) lv →
  ∃ w', run (UnregisterObservation h v) w = Some ((), w') ∧ evolves w w' (w_db w') ∧
    observing (w_db w') (ch_clientId h) (remove_first v lv) ∧ client_frame (ch_clientId h) (w_db w) (w_db w').
Proof.
  intros Hq Hobs. exact (run_client_section (5 * Second) h _ lv (remove_first v lv) w Hq
    (drun_unregister_var (w_now w) h v lv (w_db w) Hobs) Hobs).
Qed.

Lemma client_frame_internal id db db' : client_frame id db db' → internal_frame db db'.
Proof.
  intros Hf p Hp. apply Hf.
  - intros [x ->]. apply Hp. unfold p_observing. rewrite <-!app_assoc. apply internal_p_client.
  - intros ->. apply Hp, internal_p_client.
Qed.

(** A client that is known stops observing. *)
Lemma stop_observing c v id md api L lv w :
  let key := var_key false v in
  allowRawDbAccess c = false → quiet w → obs_is (w_db w) key L → observing (w_db w) id lv →
  is_Some (view (w_db w) (keypath (key_client id))) →
  ∃ w', run (StopObservingVar c v id md api) w = Some ((), w') ∧
    obs_is (w_db w') key (remove_last (id, md) L) ∧ observing (w_db w') id (remove_first v lv) ∧
    quiet w' ∧ w_sent w' = w_sent w ∧ w_tasks w' = w_tasks w ∧
    ∀ p, ¬ ["internal"] `prefix_of` p → ¬ p_observers key `prefix_of` p → val (w_db w') p = val (w_db w) p.
Proof.
  intros key Hraw Hq Hobs Hlv Hk.
  assert (vh_name (helper c v) = key) as Hname by (unfold helper; by rewrite Hraw).
  destruct (obs_call_remove (helper c v) L w id md Hq) as (w1 & H1 & E1 & Obs1 & F1); [by rewrite Hname|].
  rewrite Hname in Obs1, F1. assert (valid (w_db w1)) as Hv1 by apply Obs1.
  pose proof (observing_obs_frame v _ _ id lv F1 Hv1 Hlv) as O1.
  assert (is_Some (view (w_db w1) (keypath (key_client id)))) as K1.
  { rewrite (frame_view _ _ _ F1); [exact Hk|..]; apply observers_not_internal;
      destruct (keypath_client id) as (r & -> & _); by eexists. }
  destruct (run_NewKnown id api w1 (evolves_quiet _ _ _ E1) K1 Hv1) as (w2 & H2 & E2).
  pose proof (run_frame _ _ _ _ _ (sets_only_New id (Some api)) Hv1 H2) as F2.
  assert (observing (w_db w2) id lv) as O2.
  { eapply list_is_ext; [apply F2| |exact O1]. intros k r. apply (sf_below _ _ _ F2). by intros k' [_ Hk']. }
  destruct (run_Unregister (mkCH id (Some api)) v lv w2 (evolves_quiet _ _ _ E2) O2) as (w3 & H3 & E3 & O3 & C3).
  cbn [ch_clientId] in *.
  assert (internal_frame (w_db w1) (w_db w3)) as F3.
  { eapply internal_frame_trans; [|by eapply client_frame_internal]. apply set_frame_internal.
    eapply (run_frame internal_key); [|exact Hv1|exact H2]. eapply sets_only_mono; [|apply sets_only_New].
    by intros k [Hk' _]. }
  pose proof (evolves_trans _ _ _ _ _ (evolves_trans _ _ _ _ _ E1 E2) E3) as [E Hq3].
  exists w3. split_and!.
  - unfold StopObservingVar. by rewrite (run_bind_eq _ _ _ _ _ H1), (run_bind_eq _ _ _ _ _ H2).
  - apply (obs_is_internal (w_db w1)); [done|apply O3|intros r; apply internal_not_observers|done].
  - exact O3.
  - exact Hq3.
  - by rewrite E.
  - by rewrite E.
  - intros p Hi Ho. rewrite F3 by done. by apply (frame_val _ _ _ F1).
Qed.

(** C16.  Round trip: a client that observes a variable and stops leaves the
    observers of the variable and its own variables as they were, no lock held,
    and every value of a variable unchanged; it has been sent the current values. *)
Theorem observe_then_stop c v id md api L lv ids w :
  let key := var_key false v in
  allowRawDbAccess c = false → readable false v → quiet w →
  obs_is (w_db w) key L → (Z.of_nat (length L) + 1 < int64_max)%Z →
  observing (w_db w) id lv → (Z.of_nat (length lv) + 1 < int64_max)%Z → v ∉ lv →
  list_is (w_db w) p_clients ids → (Z.of_nat (length ids) + 1 < int64_max)%Z →
  st_HasValue (key_byMetadata key id md) (w_db w) = false →
  api ≠ "" → api ∈ w_apis w → (∀ n, env_reachable n api id = true) →
  ∃ w' vals, run (ObserveVar c v id md api ;; StopObservingVar c v id md api) w = Some ((), w') ∧
    obs_is (w_db w') key L ∧ observing (w_db w') id lv ∧ quiet w' ∧
    vals ≡ₚ current (w_db w) v ∧ w_sent w' = w_sent w ++ [(api, id, (λ e, (e.1, md, e.2)) <$> vals)] ∧
    ∀ p, ¬ ["internal"] `prefix_of` p → ¬ p_observers key `prefix_of` p → val (w_db w') p = val (w_db w) p.
Proof.
  intros key Hraw Hr Hq Hobs HL Hlv Hlenv Hnin Hl Hlen Hnew Hne Hin Hon.
  destruct (observe_var c v id md api L lv ids w Hraw Hr Hq Hobs HL Hlv Hlenv Hl Hlen Hnew Hne Hin Hon)
    as (w1 & H1 & [(vals & Hvals & Hsent) _ Ho1 Hv1 Hcn Hq1 _ Hf1]).
  destruct (stop_observing c v id md api (L ++ [(id, md)]) (lv ++ [v]) w1 Hraw Hq1 Ho1 Hv1 (cn_known _ _ _ Hcn))
    as (w2 & H2 & Ho2 & Hv2 & Hq2 & Hs2 & _ & Hf2).
  exists w2, vals. rewrite (run_bind_eq _ _ _ _ _ H1). split; [exact H2|].
  rewrite (remove_last_split (id, md) L []), app_nil_r in Ho2 by by apply not_elem_of_nil.
  rewrite remove_first_snoc in Hv2 by done. split_and!; [done..|by rewrite Hs2|].
  intros p Hi Hp. rewrite Hf2 by done. by apply Hf1.
Qed.

(** ** A change after a subscription *)
Lemma segments_inj (a b r : list string) :
  Forall (λ s, starts_with_underscore s = false) a → Forall (λ s, starts_with_underscore s = false) b →
  a ++ ["_observers"] `prefix_of` b ++ "_observers" :: r → a = b.
Proof.
  revert b. induction a as [|x a IH]; intros [|y b] Ha Hb Hp; cbn [app] in Hp; [done| | |].
  - apply prefix_cons_iff in Hp as [<- _]. by apply Forall_cons in Hb as [Hb _].
  - apply prefix_cons_iff in Hp as [-> _]. by apply Forall_cons in Ha as [Ha _].
  - apply prefix_cons_iff in Hp as [<- Hp]. apply Forall_cons in Ha as [_ Ha]. apply Forall_cons in Hb as [_ Hb].
    f_equal. by apply (IH b).
Qed.

(** The segments of a key, from those of its name. *)
Lemma npath_var_key (P : string → Prop) n :
  P "vars" → Forall P (SplitByte n dot) → Forall P (npath (var_key false n)).
Proof.
  intros Hv Hn. destruct (var_key_user n) as (m & -> & Hm). unfold npath.
  change ("vars." +:+ m) with ("vars" +:+ String dot m) in *. rewrite SplitByte_app. apply Forall_cons. split; [done|].
  destruct Hm as [<- | ->]; [done|]. rewrite SplitByte_app in Hn. by apply Forall_app in Hn as [_ Hn].
Qed.

(** The patterns of a change, but the name: wildcards with the segments of the
    name. *)
Lemma pattern_shape v p :
  p ∈ patterns v → p = v ∨ ∃ q, p = q +:+ String dot "*" ∧ ∀ P : string → Prop, Forall P (SplitByte v dot) → Forall P (SplitByte q dot).
Proof.
  unfold patterns. rewrite elem_of_cons, elem_of_app, list_elem_of_fmap, list_elem_of_singleton.
  intros [Hp|[(q & -> & Hq)|Hp]]; [by left|right; exists q|right; by exists v]. split; [done|]. intros P HP.
  unfold parents in Hq. apply list_elem_of_fmap in Hq as (i & -> & Hi). rewrite elem_of_reverse, elem_of_seq in Hi.
  pose proof (SplitByte_ne v dot) as Hne. rewrite SplitByte_Join.
  - by apply Forall_take.
  - destruct (SplitByte v dot); [done|]. by destruct i; [lia|].
  - apply Forall_take, SplitByte_all_lack.
Qed.

Lemma pattern_observers v p r :
  containsUnderscoreDot v = false → starts_with_underscore v = false → Contains (var_key false v) "*" = false →
  p ∈ patterns v → p ≠ v → ¬ p_observers (var_key false v) `prefix_of` npath (var_key false p) ++ "_observers" :: r.
Proof.
  intros Hc Hs Hstar Hp Hne Hpre. pose proof (no_underscore_segments v Hc Hs) as Hv.
  destruct (pattern_shape v p Hp) as [?|(q & -> & Hq)]; [done|].
  assert (npath (var_key false v) = npath (var_key false (q +:+ String dot "*"))) as He.
  { eapply segments_inj; [by apply npath_var_key|apply npath_var_key; [done|]|exact Hpre].
    rewrite SplitByte_app. apply Forall_app. split; [by apply Hq|by repeat constructor]. }
  unfold npath in He. apply (f_equal (λ l, Join l ".")) in He. rewrite !(Join_SplitByte _ dot) in He.
  rewrite He in Hstar. apply Contains_byte_false in Hstar.
  destruct (var_key_user (q +:+ String dot "*")) as (m & Hk & Hm). rewrite Hk, lacks_app in Hstar. destruct Hstar as [_ Hl].
  assert (lacks "*"%char (q +:+ String dot "*")) as Hl' by (destruct Hm as [-> | ->]; [done|by rewrite lacks_app]).
  apply lacks_app in Hl' as [_ Hl']. apply lacks_cons in Hl' as [_ Hl']. by apply lacks_cons in Hl' as [? _].
Qed.

(** The only observer of the variable. *)
Definition only_observer (v id md p : string) : list (string * string) := if decide (p = v) then [(id, md)] else [].

Lemma only_observer_targets v id md :
  Contains v "*" = false → id ≠ "" →
  concat ((λ p, filter (λ e : string * string, e.1 ≠ "") (only_observer v id md p)) <$> patterns v) = [(id, md)].
Proof.
  intros Hstar%Contains_byte_false Hid. unfold patterns. cbn [fmap list_fmap concat]. unfold only_observer at 1.
  rewrite decide_True by done. cbn [filter list_filter]. rewrite decide_True by done. cbn [app]. f_equal.
  assert (∀ q, q +:+ ".*" ≠ v) as Hne.
  { intros q <-. rewrite lacks_app in Hstar. destruct Hstar as [_ Hl]. apply lacks_cons in Hl as [_ Hl].
    by apply lacks_cons in Hl as [? _]. }
  rewrite fmap_app. cbn [fmap list_fmap]. rewrite <-list_fmap_compose. unfold compose, only_observer.
  rewrite decide_False by apply Hne. generalize (parents v). intros l.
  induction l as [|q l IH]; cbn [fmap list_fmap app concat]; [done|]. by rewrite decide_False by apply Hne.
Qed.

(** Once a client alone observes a variable, it is told of the next change,
    whatever else happened to the records of the clients meanwhile. *)
Lemma subscriber_is_told c v id md api value lv w w0 w1 :
  let key := var_key false v in
  allowRawDbAccess c = false → Contains v "*" = false →
  GetOnly v valid_name_chars = v → set_var_error c v value = None → locked (w_db w) key = false →
  (∀ p, p ∈ patterns v → obs_is (w_db w) (var_key false p) []) → id ≠ "" →
  subscribed w w0 v id md api [] lv → set_frame internal_key (w_db w0) (w_db w1) → connected w1 id api →
  quiet w1 → w_tasks w1 = [] →
  ∃ w2 w3, run (SetVar c v value) w1 = Some (Ok (), w2) ∧ run_tasks 3 w2 = Some w3 ∧ w_tasks w3 = [] ∧
    w_sent w3 = w_sent w1 ++ [(api, id, [(v, md, GetString value)])] ∧ val (w_db w3) (keypath key) = value.
Proof.
  intros key Hraw Hstar Honly Hacc Hlock Hobs Hid [_ _ Ho _ _ _ _ Hf] Hframe Hcn Hq1 Ht1.
  assert (is_Some (set_var_error c v value) → False) as Hno by (rewrite Hacc; by intros []).
  assert (containsUnderscoreDot v = false ∧ starts_with_underscore v = false) as [Hcu Hsu].
  { rewrite set_var_error_iff, Hraw in Hno. destruct (containsUnderscoreDot v), (starts_with_underscore v); naive_solver. }
  assert (Contains key "*" = false) as Hkstar by by apply var_key_star.
  pose proof (sf_valid _ _ _ Hframe) as Hv1.
  assert (∀ p, ¬ ["internal"] `prefix_of` p → ¬ p_observers key `prefix_of` p → val (w_db w1) p = val (w_db w) p) as Hf1.
  { intros p Hi Hp. rewrite (set_frame_internal _ _ Hframe) by done. by apply Hf. }
  assert (∀ p, p ∈ patterns v → obs_is (w_db w1) (var_key false p) (only_observer v id md p)) as Hobs1.
  { intros p Hp. unfold only_observer. destruct (decide (p = v)) as [->|Hpv].
    { by apply (obs_is_internal (w_db w0)); [apply set_frame_internal|done|intros r; apply internal_not_observers|]. }
    destruct (Hobs p Hp) as [_ Hc Hb He].
    assert (∀ r, val (w_db w1) (npath (var_key false p) ++ "_observers" :: r) =
                 val (w_db w) (npath (var_key false p) ++ "_observers" :: r)) as Hsame.
    { intros r. apply Hf1; [apply internal_not_observers|by apply pattern_observers]. }
    split; [done| |done|].
    - unfold count, p_count. by rewrite Hsame.
    - intros i. rewrite <-He. unfold entry, p_field. by rewrite !Hsame. }
  assert (locked (w_db w1) key = false) as Hlock1.
  { rewrite <-Hlock. unfold locked. rewrite Hf1; [done|..]; unfold p_lock.
    - unfold key. destruct (npath_user v) as [r ->]. by intros [x Hx].
    - unfold p_observers. fold key. intros Hp%prefix_app_inv. by apply prefix_cons_iff in Hp as [? _]. }
  pose proof (deliver_change c v value (only_observer v id md) (λ _, api) w1 3) as Hd. cbv zeta in Hd.
  rewrite Honly, only_observer_targets in Hd by done.
  destruct Hd as (w2 & w3 & sent & H2 & H3 & Ht3 & Hs3 & Hp3 & Hv3); try done; [by constructor|].
  exists w2, w3. split_and!; try done.
  - rewrite Hs3. f_equal. by apply Permutation_singleton_r in Hp3 as ->.
  - rewrite Hv3; [by rewrite decide_True|]. unfold key. destruct (keypath_user v) as (m & -> & _). by intros [x Hx].
Qed.

(** Observing and then changing, step by step. *)
Lemma observe_and_change c v id md api value lv ids w :
  let key := var_key false v in
  allowRawDbAccess c = false → readable false v → Contains v "*" = false →
  GetOnly v valid_name_chars = v → set_var_error c v value = None → locked (w_db w) key = false →
  quiet w → w_tasks w = [] →
  (∀ p, p ∈ patterns v → obs_is (w_db w) (var_key false p) []) →
  observing (w_db w) id lv → (Z.of_nat (length lv) + 1 < int64_max)%Z →
  list_is (w_db w) p_clients ids → (Z.of_nat (length ids) + 1 < int64_max)%Z →
  st_HasValue (key_byMetadata key id md) (w_db w) = false →
  id ≠ "" → api ≠ "" → api ∈ w_apis w → (∀ n, env_reachable n api id = true) →
  ∃ w0 w1 w2 vals,
    run (ObserveVar c v id md api) w = Some ((), w0) ∧ quiet w0 ∧ valid (w_db w0) ∧
    vals ≡ₚ current (w_db w) v ∧ w_sent w0 = w_sent w ++ [(api, id, (λ e, (e.1, md, e.2)) <$> vals)] ∧
    run (SetVar c v value) w0 = Some (Ok (), w1) ∧ run_tasks 3 w1 = Some w2 ∧ w_tasks w2 = [] ∧
    w_sent w2 = w_sent w0 ++ [(api, id, [(v, md, GetString value)])] ∧ val (w_db w2) (keypath key) = value.
Proof.
  intros key Hraw Hr Hstar Honly Hacc Hlock Hq Ht Hobs Hlv Hlenv Hl Hlen Hnew Hid Hne Hin Hon.
  assert (v ∈ patterns v) as Hvp by by left.
  destruct (observe_var c v id md api [] lv ids w Hraw Hr Hq (Hobs v Hvp) ltac:(unfold int64_max; cbn; lia) Hlv Hlenv Hl Hlen
              Hnew Hne Hin Hon) as (w1 & H1 & Hsub).
  pose proof Hsub as [(vals & Hvals & Hsent) _ Ho _ Hcn Hq1 Ht1 _]. assert (valid (w_db w1)) as Hv1 by apply Ho.
  destruct (subscriber_is_told c v id md api value lv w w1 w1 Hraw Hstar Honly Hacc Hlock Hobs Hid Hsub
              (set_frame_refl _ _ Hv1) Hcn Hq1) as (w2 & w3 & H2 & H3 & Ht3 & Hs3 & Hval); [by rewrite Ht1|].
  by exists w1, w2, w3, vals.
Qed.

(** Observing and then changing: a client observes a variable nobody else
    observes, and some client sets it.  When the goroutines have run, the
    observer has been sent two messages and nobody else any: the values the
    variable and its children had, and the new value. *)
Theorem observed_change_arrives c v id md api value lv ids w :
  let key := var_key false v in
  allowRawDbAccess c = false → readable false v → Contains v "*" = false →
  GetOnly v valid_name_chars = v → set_var_error c v value = None → locked (w_db w) key = false →
  quiet w → w_tasks w = [] →
  (∀ p, p ∈ patterns v → obs_is (w_db w) (var_key false p) []) →
  observing (w_db w) id lv → (Z.of_nat (length lv) + 1 < int64_max)%Z →
  list_is (w_db w) p_clients ids → (Z.of_nat (length ids) + 1 < int64_max)%Z →
  st_HasValue (key_byMetadata key id md) (w_db w) = false →
  id ≠ "" → api ≠ "" → api ∈ w_apis w → (∀ n, env_reachable n api id = true) →
  ∃ w1 w2 vals, run (ObserveVar c v id md api ;; SetVar c v value) w = Some (Ok (), w1) ∧ run_tasks 3 w1 = Some w2 ∧
    w_tasks w2 = [] ∧ vals ≡ₚ current (w_db w) v ∧
    w_sent w2 = w_sent w ++ [(api, id, (λ e, (e.1, md, e.2)) <$> vals); (api, id, [(v, md, GetString value)])] ∧
    val (w_db w2) (keypath key) = value.
Proof.
  intros key Hraw Hr Hstar Honly Hacc Hlock Hq Ht Hobs Hlv Hlenv Hl Hlen Hnew Hid Hne Hin Hon.
  destruct (observe_and_change c v id md api value lv ids w Hraw Hr Hstar Honly Hacc Hlock Hq Ht Hobs Hlv Hlenv Hl Hlen
              Hnew Hid Hne Hin Hon) as (w0 & w1 & w2 & vals & Hobserve & _ & _ & Hvals & Hs0 & H1 & H2 & Ht2 & Hs2 & Hval).
  exists w1, w2, vals. rewrite (run_bind_eq _ _ _ _ _ Hobserve). split_and!; try done. by rewrite Hs2, Hs0, <-app_assoc.
Qed.
End observe.

(** ** Witnesses *)
Section witnesses.
Existing Instance canonical_order.
Existing Instance online.

Lemma readable_lamp : readable false "lamp".
Proof. split_and!; [done|done|by right]. Qed.

Lemma fresh_vstp : "VSTP" ∈ w_apis fresh_world.
Proof. by apply elem_of_singleton. Qed.

Lemma ObserveVar_registers_witness :
  readable false "lamp" ∧ quiet fresh_world ∧ obs_is (w_db fresh_world) (var_key false "lamp") [] ∧
  observing (w_db fresh_world) "cl" [] ∧ list_is (w_db fresh_world) p_clients [] ∧
  ∃ w', run (ObserveVar default_controller "lamp" "cl" "m" "VSTP") fresh_world = Some ((), w') ∧
    subscribed fresh_world w' "lamp" "cl" "m" "VSTP" [] [].
Proof.
  assert (quiet fresh_world) as Hq by apply quiet_world_of.
  assert (obs_is (w_db fresh_world) (var_key false "lamp") []) as Ho by apply fresh_obs.
  assert (observing (w_db fresh_world) "cl" []) as Hv by apply fresh_observing.
  assert (list_is (w_db fresh_world) p_clients []) as Hl by (by apply fresh_list).
  assert (Z.of_nat 0 + 1 < int64_max)%Z as Hlt by (unfold int64_max; lia).
  assert (st_HasValue (key_byMetadata (var_key false "lamp") "cl" "m") (w_db fresh_world) = false) as Hn by (by vm_compute).
  split; [exact readable_lamp|]. split; [exact Hq|]. split; [exact Ho|]. split; [exact Hv|]. split; [exact Hl|].
  exact (ObserveVar_registers default_controller "lamp" "cl" "m" "VSTP" [] [] [] fresh_world eq_refl readable_lamp Hq Ho Hlt
           Hv Hlt Hl Hlt Hn ltac:(discriminate) fresh_vstp (λ _, eq_refl)).
Defined.

Lemma observe_then_stop_witness :
  readable false "lamp" ∧ quiet fresh_world ∧ observing (w_db fresh_world) "cl" [] ∧ "lamp" ∉ ([] : list string) ∧
  ∃ w' vals, run (ObserveVar default_controller "lamp" "cl" "m" "VSTP" ;;
      StopObservingVar default_controller "lamp" "cl" "m" "VSTP") fresh_world = Some ((), w') ∧
    obs_is (w_db w') (var_key false "lamp") [] ∧ observing (w_db w') "cl" [] ∧ quiet w' ∧
    vals ≡ₚ current (w_db fresh_world) "lamp" ∧
    w_sent w' = w_sent fresh_world ++ [("VSTP", "cl", (λ e, (e.1, "m", e.2)) <$> vals)] ∧
    ∀ p, ¬ ["internal"] `prefix_of` p → ¬ p_observers (var_key false "lamp") `prefix_of` p →
      val (w_db w') p = val (w_db fresh_world) p.
Proof.
  assert (quiet fresh_world) as Hq by apply quiet_world_of.
  assert (obs_is (w_db fresh_world) (var_key false "lamp") []) as Ho by apply fresh_obs.
  assert (observing (w_db fresh_world) "cl" []) as Hv by apply fresh_observing.
  assert (list_is (w_db fresh_world) p_clients []) as Hl by (by apply fresh_list).
  assert (Z.of_nat 0 + 1 < int64_max)%Z as Hlt by (unfold int64_max; lia).
  assert (st_HasValue (key_byMetadata (var_key false "lamp") "cl" "m") (w_db fresh_world) = false) as Hn by (by vm_compute).
  assert ("lamp" ∉ ([] : list string)) as Hnin by apply not_elem_of_nil.
  split; [exact readable_lamp|]. split; [exact Hq|]. split; [exact Hv|]. split; [exact Hnin|].
  exact (observe_then_stop default_controller "lamp" "cl" "m" "VSTP" [] [] [] fresh_world eq_refl readable_lamp Hq Ho Hlt
           Hv Hlt Hnin Hl Hlt Hn ltac:(discriminate) fresh_vstp (λ _, eq_refl)).
Defined.

Lemma observed_change_arrives_witness :
  readable false "lamp" ∧ quiet fresh_world ∧ observing (w_db fresh_world) "cl" [] ∧
  ∃ w1 w2 vals, run (ObserveVar default_controller "lamp" "cl" "m" "VSTP" ;;
      SetVar default_controller "lamp" (NewDynamicVar "on")) fresh_world = Some (Ok (), w1) ∧
    run_tasks 3 w1 = Some w2 ∧ w_tasks w2 = [] ∧ vals ≡ₚ current (w_db fresh_world) "lamp" ∧
    w_sent w2 = w_sent fresh_world ++
      [("VSTP", "cl", (λ e, (e.1, "m", e.2)) <$> vals); ("VSTP", "cl", [("lamp", "m", "on")])] ∧
    val (w_db w2) (keypath (var_key false "lamp")) = NewDynamicVar "on".
Proof.
  assert (quiet fresh_world) as Hq by apply quiet_world_of.
  assert (∀ p, p ∈ patterns "lamp" → obs_is (w_db fresh_world) (var_key false p) []) as Ho by (intros p _; apply fresh_obs).
  assert (observing (w_db fresh_world) "cl" []) as Hv by apply fresh_observing.
  assert (list_is (w_db fresh_world) p_clients []) as Hl by (by apply fresh_list).
  assert (Z.of_nat 0 + 1 < int64_max)%Z as Hlt by (unfold int64_max; lia).
  assert (st_HasValue (key_byMetadata (var_key false "lamp") "cl" "m") (w_db fresh_world) = false) as Hn by (by vm_compute).
  assert (locked (w_db fresh_world) (var_key false "lamp") = false) as Hk by (by vm_compute).
  assert (set_var_error default_controller "lamp" (NewDynamicVar "on") = None) as He by (by vm_compute).
  split; [exact readable_lamp|]. split; [exact Hq|]. split; [exact Hv|].
  exact (observed_change_arrives default_controller "lamp" "cl" "m" "VSTP" (NewDynamicVar "on") [] [] fresh_world eq_refl
           readable_lamp eq_refl eq_refl He Hk Hq eq_refl Ho Hv Hlt Hl Hlt Hn ltac:(discriminate) ltac:(discriminate) fresh_vstp
           (λ _, eq_refl)).
Defined.
End witnesses.
