(* ===== verification/LockProtocol.v ===== *)
(** * The lock of a variable, among goroutines

    [VarLock] describes [Lock] and [Unlock] of a goroutine that runs alone.
    Here any number of goroutines are interleaved effect by effect
    ([pool_step]): clients that lock a variable, work and unlock it never
    overlap, and what the lock does not protect against.

    The proof follows a goroutine through its program.  A [phase] records what
    it owns: the lock of the variable, and the mutex [varLockerSystem] under
    which the flag is read and written.  [proto] is a Hoare triple over the
    phases; [Inv] ties the phases of all goroutines to the world. *)
From S2P Require Import Prelude GoStrings GoStrconv Misc NamedLock Storage RamCacheDB Reference Runtime Samples VarHelper Observations VarLock ClientHelper Controller Variables.

(** ** Phases *)

(** The lock of the variable: not held, held, held and announced. *)
Inductive owning := Free | Mine | Announced.
(** The mutex: not held, held, held and the flag is known to be down. *)
Inductive mutex := NoMutex | Mutex | MutexDown.
#[export] Instance owning_eq_dec : EqDecision owning.
Proof. solve_decision. Defined.
#[export] Instance mutex_eq_dec : EqDecision mutex.
Proof. solve_decision. Defined.
Record phase := mkPhase { own : owning; mtx : mutex }.

Definition outside : phase := mkPhase Free NoMutex.
Definition holding : phase := mkPhase Mine NoMutex.
Definition working : phase := mkPhase Announced NoMutex.

(** The messages a client prints when its work starts and ends. *)
Definition enter (l : string) : string := "enter " +:+ l.
Definition leave (l : string) : string := "leave " +:+ l.
Definition is_marker (m : string) : bool := HasPrefix m "enter " || HasPrefix m "leave ".

(** ** Programs that obey the protocol *)
Section proto.
Context (name : string).  (** the key of the variable *)
Abbreviation the_flag := (key_lock name).
Abbreviation mutex_name := "varLockerSystem".

(** Effects that concern neither the flag nor the mutex. *)
Definition harmless (o : op) : Prop :=
  match o with
  | Db_Set k _ => keypath k ≠ p_lock name
  | Db_DeleteValue k true => ¬ keypath k `prefix_of` p_lock name
  | Db_DeleteValue k false => keypath k ≠ p_lock name
  | Lock_acquire n _ => n ≠ mutex_name
  | Lock_release n => n ≠ mutex_name
  | Println m => is_marker m = false
  | _ => True
  end.

(** What the effect does to the phase of the goroutine [l]: [None] when the
    protocol does not let it happen, or when it cannot have this answer. *)
Inductive permits (l : string) : ∀ o : op, answer o → phase → phase → Prop :=
  | permits_harmless o a ph : harmless o → permits l o a ph ph
  | permits_acquire t a ow : (t ≤ 0)%Z → permits l (Lock_acquire mutex_name t) a (mkPhase ow NoMutex) (mkPhase ow Mutex)
  | permits_release a ow m : m ≠ NoMutex → permits l (Lock_release mutex_name) a (mkPhase ow m) (mkPhase ow NoMutex)
  | permits_down (a : DynamicVar) :
      lock_flag (GetString a) = false →
      permits l (Db_Get the_flag (NewDynamicVar "0")) a (mkPhase Free Mutex) (mkPhase Free MutexDown)
  | permits_raise v a :
      lock_flag (GetString v) = true → permits l (Db_Set the_flag v) a (mkPhase Free MutexDown) (mkPhase Mine Mutex)
  | permits_lower v a :
      lock_flag (GetString v) = false → permits l (Db_Set the_flag v) a (mkPhase Mine Mutex) (mkPhase Free Mutex)
  | permits_enter a : permits l (Println (enter l)) a holding working
  | permits_leave a : permits l (Println (leave l)) a working holding.

(** An owner that reads the flag finds it raised. *)
Definition possible (o : op) (a : answer o) (ph : phase) : Prop :=
  match o return answer o → Prop with
  | Db_Get k d => λ a, k = the_flag → d = NewDynamicVar "0" → own ph ≠ Free → lock_flag (GetString a) = true
  | Lock_acquire _ t => λ a, (t ≤ 0)%Z → a = true
  | _ => λ _, True
  end a.

(** Every answer that is possible is permitted, up to the end, where [Q] holds.
    The goroutines it starts obey the protocol too. *)
Fixpoint proto {A : Type} (l : string) (p : prog A) (ph : phase) (Q : A → phase → Prop) : Prop :=
  match p with
  | Ret a => Q a ph
  | Vis o k => ∀ a, possible o a ph → ∃ ph', permits l o a ph ph' ∧ proto l (k a) ph' Q
  | Go t k => proto l t outside (λ _ _, True) ∧ proto l k ph Q
  end.

Lemma proto_mono {A} l (p : prog A) ph (Q R : A → phase → Prop) :
  (∀ a ph', Q a ph' → R a ph') → proto l p ph Q → proto l p ph R.
Proof.
  revert Q R ph. induction p as [? a|? o k IH|? t _ k IH]; intros Q R ph HQ; cbn; [auto| |].
  - intros Hk a Ha. destruct (Hk a Ha) as (ph' & Hp & Hr). exists ph'. split; [done|by eapply IH].
  - intros [Ht Hk]. split; [done|by eapply IH].
Qed.

Lemma proto_bind {A B} l (p : prog A) (f : A → prog B) ph Q R :
  proto l p ph Q → (∀ a ph', Q a ph' → proto l (f a) ph' R) → proto l (p ≫= f) ph R.
Proof.
  revert f Q ph. induction p as [? a|? o k IH|? t _ k IH]; intros f Q ph Hp Hf; [by apply Hf| |].
  - intros a Ha. destruct (Hp a Ha) as (ph' & Hpm & Hr). exists ph'. split; [done|]. by eapply IH.
  - destruct Hp as [Ht Hk]. split; [done|]. by eapply IH.
Qed.

Lemma proto_op {A} l o (k : answer o → prog A) ph Q :
  harmless o → (∀ a, possible o a ph → proto l (k a) ph Q) → proto l (do_ o ≫= k) ph Q.
Proof. intros Ho Hk a Ha. exists ph. split; [by constructor|]. by apply Hk. Qed.

(** ** [Lock], [Unlock] *)
Context (c : ControllerVarHelper) (Hname : vh_name c = name).

(** [IsLocked] under the mutex: the answer is the state of the flag. *)
Lemma proto_IsLocked {A} l ow (k : bool → prog A) Q :
  (ow ≠ Free → proto l (k true) (mkPhase ow Mutex) Q) →
  (ow = Free → proto l (k true) (mkPhase ow Mutex) Q ∧ proto l (k false) (mkPhase ow MutexDown) Q) →
  proto l (IsLocked c ≫= k) (mkPhase ow Mutex) Q.
Proof.
  intros Hown Hfree. unfold IsLocked, GetFlag. cbn [flag_key]. rewrite decide_False by done. rewrite Hname.
  change (name +:+ "." +:+ ("_" +:+ "lock")) with the_flag. cbn. intros a Ha.
  fold (lock_flag (GetString a)). destruct (decide (ow = Free)) as [->|Hne].
  - destruct (Hfree eq_refl) as [Ht Hf]. destruct (lock_flag (GetString a)) eqn:E.
    + eexists. split; [by apply permits_harmless|done].
    + eexists. split; [by apply permits_down|done].
  - rewrite Ha by done. eexists. split; [by apply permits_harmless|]. by apply Hown.
Qed.

(** The same at the end of a critical section. *)
Lemma proto_IsLocked_end l ow (Q : bool → phase → Prop) :
  (ow ≠ Free → Q true (mkPhase ow Mutex)) →
  (ow = Free → Q true (mkPhase ow Mutex) ∧ Q false (mkPhase ow MutexDown)) →
  proto l (IsLocked c) (mkPhase ow Mutex) Q.
Proof.
  intros Hown Hfree. pose proof (proto_IsLocked l ow (λ b, mret b) Q) as H.
  unfold IsLocked, GetFlag in *. cbn [flag_key] in *. rewrite decide_False in * by done. by apply H.
Qed.

Lemma proto_SetFlag l v ph ph' (k : unit → prog bool) Q :
  permits l (Db_Set the_flag v) () ph ph' → proto l (k ()) ph' Q →
  proto l (SetFlag c "lock" v ≫= k) ph Q.
Proof.
  intros Hp Hk. unfold SetFlag. cbn [flag_key]. rewrite decide_False by done. rewrite Hname. cbn. intros [] _. by exists ph'.
Qed.

Lemma proto_tryLock l : proto l (tryLock c) outside (λ b ph, ph = if b : bool then holding else outside).
Proof.
  unfold tryLock, NamedLockRun. cbn [mbind prog_bind do_]. intros a Ha. cbn in Ha. rewrite Ha by done.
  eexists. split; [by apply permits_acquire|]. eapply proto_bind with (Q := λ r ph,
    r = Some true ∧ ph = holding ∨ r = Some false ∧ ph = outside).
  2:{ intros r ph [[-> ->]|[-> ->]]; done. }
  eapply proto_bind with (Q := λ b ph, b = true ∧ ph = mkPhase Mine Mutex ∨ b = false ∧ ph = mkPhase Free Mutex).
  - apply proto_IsLocked; [done|]. intros _. split; [by right|].
    eapply proto_SetFlag; [by apply permits_raise|]. apply proto_IsLocked_end; [by left|done].
  - intros b ph [[-> ->]|[-> ->]] [] _; (eexists; split; [by apply permits_release|]); [by left|by right].
Qed.

Lemma proto_Lock_loop l fuel start maxTimeout :
  proto l (Lock_loop fuel c start maxTimeout) outside
    (λ r ph, ph = match r with Some (Ok _) => holding | _ => outside end).
Proof.
  induction fuel as [|fuel IH]; [done|]. cbn [Lock_loop].
  eapply proto_bind; [apply proto_tryLock|]. intros [] ph ->; [done|].
  apply proto_op; [done|]. intros now _. case_match; [done|].
  apply proto_op; [done|]. intros r _. apply proto_op; [done|]. intros [] _. apply IH.
Qed.

Lemma proto_Lock l ms :
  proto l (Lock c ms) outside (λ r ph, ph = match r with Some (Ok _) => holding | _ => outside end).
Proof. apply proto_op; [done|]. intros start _. apply proto_Lock_loop. Qed.

Lemma proto_Unlock l : proto l (Unlock c) holding (λ _ ph, ph = outside).
Proof.
  unfold Unlock, NamedLockRun. cbn [mbind prog_bind do_]. intros a Ha. cbn in Ha. rewrite Ha by done.
  eexists. split; [by apply permits_acquire|].
  unfold SetFlag. cbn [flag_key]. rewrite decide_False by done. rewrite Hname. cbn. intros [] _.
  eexists. split; [by apply permits_lower|]. intros [] _. eexists. split; [by apply permits_release|done].
Qed.
End proto.

(** ** What an effect does to the world *)

(** Inversion of [op_step]: the new world as an expression. *)
Ltac inv_op Hs :=
  cbn in Hs;
  lazymatch type of Hs with
  | if ?a then _ else _ => destruct a; inv_op Hs
  | ∃ _, _ => let x := fresh "x" in destruct Hs as [x Hs]; inv_op Hs
  | _ ∧ _ => let H := fresh "H" in destruct Hs as [H Hs]; inv_op Hs
  | _ = (if ?b then _ else _) => destruct b; inv_op Hs
  | _ = _ => first [subst|idtac]
  end.

(** The messages of the clients, in order. *)
Definition markers {DB} (w : World DB) : list string := filter (λ m, is_marker m = true) (w_out w).

(** The clients work one after the other; the second argument is the one at
    work. *)
Inductive turns : list string → option string → Prop :=
  | turns_start : turns [] None
  | turns_enter ms l : turns ms None → turns (ms ++ [enter l]) (Some l)
  | turns_leave ms l : turns ms (Some l) → turns (ms ++ [leave l]) None.

Section world.
Context {DB : Type} {HI : IStorage DB} {HS : StorageSpec DB} (name : string).
Implicit Types w : World DB.

Abbreviation flag_up w := (locked (w_db w) name).
Abbreviation taken w := (w_locks w !! "varLockerSystem" = Some false).

Lemma Get_flag (db : DB) : valid db → lock_flag (GetString (st_Get (key_lock name) (NewDynamicVar "0") db)) = locked db name.
Proof.
  intros Hv. rewrite Get_spec, keypath_lock by done. unfold locked, val, value_at.
  by destruct (view db (p_lock name)) as [v|].
Qed.

Lemma locked_Set_other (db : DB) k v : valid db → keypath k ≠ p_lock name → locked (st_Set k v db) name = locked db name.
Proof. intros Hv Hk. unfold locked. by rewrite val_Set, decide_False. Qed.

Lemma locked_Delete_other (db : DB) k b :
  valid db → harmless name (Db_DeleteValue k b) → locked (st_DeleteValue k b db) name = locked db name.
Proof.
  intros Hv Hk. unfold locked. destruct b; [rewrite val_Delete_cascade by done|rewrite val_Delete_value by done];
    rewrite decide_False; done.
Qed.

(** The mutex stays taken unless somebody releases it. *)
Lemma op_step_taken o (a : answer o) w w' : op_step o w a w' → harmless name o → taken w → taken w'.
Proof.
  intros Hs Hh Hk. destruct o; cbn in Hh; inv_op Hs; cbn; try exact Hk.
  - unfold take_token, get_or_create in *. repeat case_match; simplify_eq; by rewrite !lookup_insert_ne.
  - unfold get_or_create. case_match; [done|]. by rewrite lookup_insert_ne.
  - unfold releaseNamedLock. repeat case_match; cbn; [done| |done]. by rewrite lookup_insert_ne.
Qed.

Lemma op_step_flag o (a : answer o) w w' :
  op_step o w a w' → harmless name o → valid (w_db w) → valid (w_db w') ∧ flag_up w' = flag_up w.
Proof.
  intros Hs Hh Hv. destruct o; cbn in Hh; inv_op Hs; cbn; try done.
  - split; [by apply Set_valid|by apply locked_Set_other].
  - split; [by apply Delete_valid|by apply locked_Delete_other].
Qed.

Lemma op_step_markers o (a : answer o) w w' : op_step o w a w' → harmless name o → markers w' = markers w.
Proof.
  intros Hs Hh. unfold markers. destruct o; cbn in Hh; inv_op Hs; cbn; try done.
  rewrite filter_app, filter_cons_False, filter_nil, app_nil_r; [done|]. congruence.
Qed.

(** The mutex. *)
Lemma permits_mutex l o a ph ph' w w' :
  permits name l o a ph ph' → op_step o w a w' →
  (mtx ph = NoMutex ∧ mtx ph' = NoMutex ∧ (taken w → taken w')) ∨
  (mtx ph = NoMutex ∧ mtx ph' ≠ NoMutex ∧ ¬ taken w ∧ taken w') ∨
  (mtx ph ≠ NoMutex ∧ mtx ph' ≠ NoMutex ∧ (taken w → taken w')) ∨
  (mtx ph ≠ NoMutex ∧ mtx ph' = NoMutex).
Proof.
  intros Hp Hs. destruct Hp as [o a ph Hh|t a ow Ht|a ow m Hm|a Ha|v a Hv|v a Hv|a|a].
  - pose proof (op_step_taken o a w w' Hs Hh) as Hk. destruct (decide (mtx ph = NoMutex)); [left|right; right; left]; done.
  - right. left. cbn in Hs. destruct a; [|lia]. destruct Hs as (L' & HL & ->). cbn. split_and!; [done|done| |].
    + intros Hk. unfold take_token, get_or_create in HL. by rewrite !Hk in HL.
    + unfold take_token in HL. repeat case_match; simplify_eq. by rewrite lookup_insert_eq.
  - right. right. right. done.
  - right. right. left. cbn in Hs. destruct Hs as [_ ->]. done.
  - right. right. left. cbn in Hs. by subst w'.
  - right. right. left. cbn in Hs. by subst w'.
  - left. cbn in Hs. by subst w'.
  - left. cbn in Hs. by subst w'.
Qed.

(** The flag of the variable. *)
Lemma permits_flag l o a ph ph' w w' :
  permits name l o a ph ph' → op_step o w a w' → valid (w_db w) →
  valid (w_db w') ∧
  ((own ph = Free ↔ own ph' = Free) ∧ flag_up w' = flag_up w ∧ (mtx ph' = MutexDown → mtx ph = MutexDown ∨ flag_up w = false) ∨
   mtx ph = MutexDown ∧ own ph = Free ∧ flag_up w' = true ∧ mtx ph' = Mutex ∨
   mtx ph = Mutex ∧ own ph ≠ Free ∧ own ph' = Free ∧ mtx ph' = Mutex).
Proof.
  intros Hp Hs Hv. destruct Hp as [o a ph Hh|t a ow Ht|a ow m Hm|a Ha|v a Hf|v a Hf|a|a].
  - destruct (op_step_flag o a w w' Hs Hh Hv) as [Hv' Hf]. split; [done|]. left. split; [done|]. split; [done|by left].
  - cbn in Hs. destruct a; [|lia]. destruct Hs as (L' & _ & ->). split; [done|]. by left.
  - cbn in Hs. subst w'. split; [done|]. by left.
  - cbn in Hs. destruct Hs as [-> ->]. split; [done|]. left. split; [done|]. split; [done|]. intros _. right.
    by rewrite <-Get_flag.
  - cbn in Hs. subst w'. cbn. split; [by apply Set_valid|]. right. left. split_and!; [done|done| |done]. by rewrite locked_Set.
  - cbn in Hs. subst w'. cbn. split; [by apply Set_valid|]. by right; right.
  - cbn in Hs. subst w'. split; [done|]. by left.
  - cbn in Hs. subst w'. split; [done|]. by left.
Qed.

(** The messages. *)
Lemma is_marker_enter l : is_marker (enter l) = true.
Proof. unfold is_marker, enter. by rewrite HasPrefix_app. Qed.
Lemma is_marker_leave l : is_marker (leave l) = true.
Proof. unfold is_marker, leave. by rewrite HasPrefix_app, orb_true_r. Qed.
Lemma markers_print m w : is_marker m = true → markers (set_out (w_out w ++ [m]) w) = markers w ++ [m].
Proof. intros Hm. unfold markers. cbn. by rewrite filter_app, filter_cons_True, filter_nil. Qed.

Lemma permits_markers l o a ph ph' w w' :
  permits name l o a ph ph' → op_step o w a w' →
  (markers w' = markers w ∧ (own ph = Announced ↔ own ph' = Announced)) ∨
  (ph = holding ∧ ph' = working ∧ markers w' = markers w ++ [enter l]) ∨
  (ph = working ∧ ph' = holding ∧ markers w' = markers w ++ [leave l]).
Proof.
  intros Hp Hs. unfold markers. destruct Hp as [o a ph Hh|t a ow Ht|a ow m Hm|a Ha|v a Hf|v a Hf|a|a].
  - left. split; [by eapply op_step_markers|done].
  - left. cbn in Hs. destruct a; [|lia]. by destruct Hs as (L' & _ & ->).
  - left. cbn in Hs. by subst w'.
  - left. cbn in Hs. by destruct Hs as [_ ->].
  - left. cbn in Hs. by subst w'.
  - left. cbn in Hs. by subst w'.
  - right. left. cbn in Hs. subst w'. split_and!; [done..|]. apply markers_print, is_marker_enter.
  - right. right. cbn in Hs. subst w'. split_and!; [done..|]. apply markers_print, is_marker_leave.
Qed.

(** ** The invariant of a pool *)

(** The phase of each goroutine, with its label. *)
Implicit Types gs : list (string * phase).

Definition unique {X} (P : X → Prop) (l : list X) : Prop :=
  ∀ i j x y, l !! i = Some x → l !! j = Some y → P x → P y → i = j.

Lemma unique_insert {X} (P : X → Prop) l i x :
  unique P l → (P x → (∃ y, l !! i = Some y ∧ P y) ∨ ∀ j y, l !! j = Some y → ¬ P y) → unique P (<[i:=x]> l).
Proof.
  intros Hu Hx j k y z Hj Hk Py Pz.
  apply list_lookup_insert_Some in Hj as [(-> & <- & _)|[Hij Hj]], Hk as [(<- & <- & _)|[Hik Hk]]; [done| | |by eapply Hu].
  - destruct (Hx Py) as [(y & Hy & Py')|Hno]; [by eapply Hu|by destruct (Hno _ _ Hk)].
  - destruct (Hx Pz) as [(y' & Hy & Py')|Hno]; [by eapply Hu|by destruct (Hno _ _ Hj)].
Qed.

Lemma unique_snoc {X} (P : X → Prop) l x : unique P l → ¬ P x → unique P (l ++ [x]).
Proof.
  intros Hu Hx i j y z Hi Hj Py Pz.
  apply lookup_app_Some in Hi as [Hi|[_ Hi]], Hj as [Hj|[_ Hj]];
    [by eapply Hu| | |]; apply list_lookup_singleton_Some in Hj as [_ <-] || apply list_lookup_singleton_Some in Hi as [_ <-]; done.
Qed.

Definition holder (g : string * phase) : Prop := mtx g.2 ≠ NoMutex.
Definition owner (g : string * phase) : Prop := own g.2 ≠ Free.

Record Inv w (ts : list (prog unit)) gs : Prop := {
  inv_threads : Forall2 (λ t g, proto name g.1 t g.2 (λ _ _, True)) ts gs;
  inv_valid : valid (w_db w);
  inv_holder : unique holder gs;
  inv_taken i g : gs !! i = Some g → holder g → taken w;
  inv_owner : unique owner gs;
  inv_up i g : gs !! i = Some g → owner g → flag_up w = true;
  inv_down i g : gs !! i = Some g → mtx g.2 = MutexDown → flag_up w = false;
  inv_turns : ∃ cur, turns (markers w) cur ∧ ∀ l, cur = Some l ↔ ∃ i ph, gs !! i = Some (l, ph) ∧ own ph = Announced
}.

(** A goroutine that is started owns nothing. *)
Lemma Inv_go w ts gs i t k : Inv w ts gs → ts !! i = Some (Go t k) → ∃ gs', Inv w (<[i:=k]> ts ++ [t]) gs'.
Proof.
  intros [Ht Hv Hh Htk Ho Hup Hdn (cur & Hcur & Hann)] Hi.
  destruct (Forall2_lookup_l _ _ _ _ _ Ht Hi) as ([l ph] & Hg & Hp). cbn in Hp. destruct Hp as [Hpt Hpk].
  exists (gs ++ [(l, outside)]).
  assert (∀ j g, (gs ++ [(l, outside)]) !! j = Some g → gs !! j = Some g ∨ g = (l, outside)) as Hsplit.
  { intros j g Hj. apply lookup_app_Some in Hj as [Hj|[_ Hj]]; [by left|]. apply list_lookup_singleton_Some in Hj as [_ <-]. by right. }
  split; [|done| | | | | |].
  - apply Forall2_app; [|by repeat constructor].
    rewrite <-(list_insert_id gs i (l, ph)) by done. by apply Forall2_insert.
  - by apply unique_snoc; [|intros []].
  - intros j g Hj Hg'. destruct (Hsplit j g Hj) as [Hj'| ->]; [by eapply Htk|by destruct Hg'].
  - by apply unique_snoc; [|intros []].
  - intros j g Hj Hg'. destruct (Hsplit j g Hj) as [Hj'| ->]; [by eapply Hup|by destruct Hg'].
  - intros j g Hj Hg'. destruct (Hsplit j g Hj) as [Hj'| ->]; [by eapply Hdn|done].
  - exists cur. split; [done|]. intros l'. rewrite Hann. split; intros (j & ph' & Hj & Hph).
    + exists j, ph'. split; [by apply lookup_app_l_Some|done].
    + destruct (Hsplit _ _ Hj) as [Hj'|[= -> ->]]; [by exists j, ph'|done].
Qed.

(** The answers of the world are possible. *)
Lemma op_step_possible o (a : answer o) w w' ts gs i l ph :
  Inv w ts gs → gs !! i = Some (l, ph) → op_step o w a w' → possible name o a ph.
Proof.
  intros HI' Hg Hs. destruct o; cbn in *; try done.
  - intros -> -> Hown. destruct Hs as [-> _]. rewrite Get_flag by apply HI'. by eapply inv_up.
  - intros Ht. destruct a; [done|lia].
Qed.

Lemma lookup_insert_cases {X} (l : list X) i j x y :
  <[i:=x]> l !! j = Some y → (j = i ∧ y = x) ∨ (j ≠ i ∧ l !! j = Some y).
Proof. intros [(-> & <- & _)|[? ?]]%list_lookup_insert_Some; [by left|by right]. Qed.

(** Preservation, for an effect of goroutine [i]. *)
Section effect.
Context (w w' : World DB) (ts : list (prog unit)) (gs : list (string * phase)) (i : nat).
Context (l : string) (o : op) (a : answer o) (ph ph' : phase).
Context (HI' : Inv w ts gs) (Hg : gs !! i = Some (l, ph)).
Context (Hp : permits name l o a ph ph') (Hs : op_step o w a w').
Abbreviation gs' := (<[i:=(l, ph')]> gs).

(** Either [g] is a goroutine other than [i], or it is [i] in its new phase. *)
Ltac which Hj :=
  first [destruct (lookup_insert_cases _ _ _ _ _ Hj) as [[-> [= -> ->]]|[? ?]]
        |destruct (lookup_insert_cases _ _ _ _ _ Hj) as [[-> ->]|[? ?]]].

Lemma effect_mutex : unique holder gs' ∧ ∀ j g, gs' !! j = Some g → holder g → taken w'.
Proof.
  pose proof (inv_holder _ _ _ HI') as Hu. pose proof (inv_taken _ _ _ HI') as Ht.
  destruct (permits_mutex l o a ph ph' w w' Hp Hs) as [(H1 & H2 & H3)|[(H1 & H2 & H3 & H4)|[(H1 & H2 & H3)|(H1 & H2)]]].
  - split; [by apply unique_insert|]. intros j g Hj Hh. which Hj; [done|]. eauto.
  - split; [|done]. apply unique_insert; [done|]. intros _. right. intros j y Hj Hy. eauto.
  - split; [apply unique_insert; [done|]; intros _; left; by exists (l, ph)|].
    intros j g Hj Hh. apply H3. which Hj; eauto.
  - split; [by apply unique_insert|]. intros j g Hj Hh. which Hj; [done|].
    by destruct (Hu j i g (l, ph)).
Qed.

(** Nobody else holds the mutex, or the lock. *)
Lemma effect_alone_holder j g : j ≠ i → gs !! j = Some g → mtx ph ≠ NoMutex → ¬ holder g.
Proof. intros Hne Hj Hm Hh. apply Hne. by eapply (inv_holder _ _ _ HI'). Qed.
Lemma effect_alone_owner j g : j ≠ i → gs !! j = Some g → own ph ≠ Free → ¬ owner g.
Proof. intros Hne Hj Hm Hh. apply Hne. by eapply (inv_owner _ _ _ HI'). Qed.

Lemma effect_flag :
  valid (w_db w') ∧ unique owner gs' ∧ (∀ j g, gs' !! j = Some g → owner g → flag_up w' = true) ∧
  ∀ j g, gs' !! j = Some g → mtx g.2 = MutexDown → flag_up w' = false.
Proof.
  pose proof (inv_owner _ _ _ HI') as Hu. pose proof (inv_up _ _ _ HI') as Hup. pose proof (inv_down _ _ _ HI') as Hdn.
  pose proof effect_alone_holder as Hah. pose proof effect_alone_owner as Hao. unfold holder, owner in *.
  destruct (permits_flag l o a ph ph' w w' Hp Hs (inv_valid _ _ _ HI')) as [Hv [(H1 & H2 & H3)|[(H1 & H2 & H3 & H4)|(H1 & H2 & H3 & H4)]]].
  - split_and!; [done| | |].
    + apply unique_insert; [done|]. cbn. intros Hne. left. exists (l, ph). cbn. naive_solver.
    + intros j g Hj Hh. rewrite H2. which Hj; [|by eauto]. apply (Hup i (l, ph)); [done|]. cbn in *. naive_solver.
    + intros j g Hj Hm. rewrite H2. which Hj; [|by eauto]. destruct (H3 Hm); [|done]. by apply (Hdn i (l, ph)).
  - assert (∀ j g, gs !! j = Some g → own g.2 = Free) as Hno.
    { intros j g Hj. destruct (decide (own g.2 = Free)) as [|Hne]; [done|].
      pose proof (Hup j g Hj Hne). pose proof (Hdn i (l, ph) Hg H1). congruence. }
    split_and!; [done| |done|].
    + apply unique_insert; [done|]. intros _. right. intros j y Hj Hy. naive_solver.
    + intros j g Hj Hm. which Hj; [cbn in Hm; congruence|]. exfalso. apply (Hah j g); [done..|congruence|congruence].
  - split_and!; [done| | |].
    + by apply unique_insert.
    + intros j g Hj Hh. which Hj; [done|]. exfalso. by apply (Hao j g).
    + intros j g Hj Hm. which Hj; [cbn in Hm; congruence|]. exfalso. apply (Hah j g); [done..|congruence|congruence].
Qed.

Lemma effect_turns :
  ∃ cur, turns (markers w') cur ∧ ∀ l', cur = Some l' ↔ ∃ j ph1, gs' !! j = Some (l', ph1) ∧ own ph1 = Announced.
Proof.
  destruct (inv_turns _ _ _ HI') as (cur & Hcur & Hann). pose proof effect_alone_owner as Hao. unfold owner in Hao.
  assert (i < length gs) as Hlt by (by eapply lookup_lt_Some).
  destruct (permits_markers l o a ph ph' w w' Hp Hs) as [(-> & H1)|[(H1 & H2 & ->)|(H1 & H2 & ->)]].
  - exists cur. split; [done|]. intros l'. rewrite Hann. split; intros (j & ph1 & Hj & Hph).
    + destruct (decide (j = i)) as [->|]; [|exists j, ph1; by rewrite list_lookup_insert_ne].
      exists i, ph'. rewrite list_lookup_insert_eq by done. rewrite Hg in Hj. naive_solver.
    + which Hj; [|by exists j, ph1]. exists i, ph. naive_solver.
  - assert (cur = None) as ->.
    { destruct cur as [l'|]; [|done]. destruct (proj1 (Hann l') eq_refl) as (j & ph1 & Hj & Hph).
      destruct (decide (j = i)) as [->|Hne]; [rewrite Hg in Hj; by simplify_eq|].
      exfalso. apply (Hao j _ Hne Hj); [by subst ph|]. cbn. congruence. }
    exists (Some l). split; [by constructor|]. intros l'. split.
    + intros [= <-]. exists i, ph'. rewrite list_lookup_insert_eq by done. by subst ph'.
    + intros (j & ph1 & Hj & Hph). which Hj; [done|].
      exfalso. assert (None = Some l') as [=]. apply Hann. by exists j, ph1.
  - assert (cur = Some l) as -> by (apply Hann; exists i, ph; by subst ph).
    exists None. split; [by constructor|]. intros l'. split; [done|].
    intros (j & ph1 & Hj & Hph). which Hj; [by subst ph'|].
    exfalso. apply (Hao j (l', ph1)); [done..|by subst ph|]. cbn. congruence.
Qed.
End effect.

Lemma Inv_op w w' ts gs i o k a :
  Inv w ts gs → ts !! i = Some (Vis o k) → op_step o w a w' → ∃ gs', Inv w' (<[i:=k a]> ts) gs'.
Proof.
  intros HI' Hi Hs. destruct (Forall2_lookup_l _ _ _ _ _ (inv_threads _ _ _ HI') Hi) as ([l ph] & Hg & Hp).
  destruct (Hp a) as (ph' & Hpm & Hk); [by eapply op_step_possible|]. exists (<[i:=(l, ph')]> gs).
  destruct (effect_mutex w w' ts gs i l o a ph ph' HI' Hg Hpm Hs) as [Hm1 Hm2].
  destruct (effect_flag w w' ts gs i l o a ph ph' HI' Hg Hpm Hs) as (Hv & Hu & Hup & Hdn).
  split; try done; [|by eapply effect_turns]. apply Forall2_insert; [by apply HI'|done].
Qed.

Lemma Inv_steps w ts w' ts' gs :
  rtc pool_step (mkPool w ts) (mkPool w' ts') → Inv w ts gs → ∃ gs', Inv w' ts' gs'.
Proof.
  intros Hr. remember (mkPool w ts) as P eqn:HP. remember (mkPool w' ts') as P' eqn:HP'.
  revert w ts gs HP. induction Hr as [?|P1 P2 P3 Hstep _ IH]; intros w ts gs -> HI'; [by simplify_eq; exists gs|].
  inversion Hstep; subst; [edestruct Inv_op as [gs1 Hnew]|edestruct Inv_go as [gs1 Hnew]]; eauto.
Qed.
End world.

(** ** Clients that lock a variable to work *)

(** [LockVar], the work, [UnlockVar]; the messages mark when the client works. *)
Definition locked_work (c : TheController) (name : string) (ms : Z) (l : string) (work : prog unit) : prog unit :=
  r ← LockVar c name ms;
  match r with
  | Some (Ok _) =>
      do_ (Println (enter l)) ;; work ;; do_ (Println (leave l)) ;;
      UnlockVar c name ;; mret ()
  | _ => mret ()
  end.

Record job := mkJob { j_label : string; j_timeout : Z; j_work : prog unit }.

Definition start (c : TheController) (name : string) (j : job) : prog unit :=
  locked_work c name (j_timeout j) (j_label j) (j_work j).

(** The work, and whatever else goes on, neither touches the flag nor the mutex
    behind the protocol's back. *)
Definition leaves_lock_alone (k l : string) (p : prog unit) (ph : phase) : Prop := proto k l p ph (λ _ ph', ph' = ph).

Section sessions.
Context {DB : Type} {HI : IStorage DB} {HS : StorageSpec DB} (c : TheController) (name : string).
Abbreviation k := (vh_name (helper c name)).

Lemma proto_start j : leaves_lock_alone k (j_label j) (j_work j) working → proto k (j_label j) (start c name j) outside (λ _ _, True).
Proof.
  intros Hj. eapply proto_bind; [by apply (proto_Lock k (helper c name))|].
  intros [[[]|e]|] ph ->; [|done|done]. intros [] _. exists working. split; [constructor|].
  eapply (proto_bind _ _ (j_work j)); [exact Hj|]. intros [] ph ->. intros [] _. exists holding. split; [constructor|].
  apply (proto_bind k (j_label j) (UnlockVar c name) (λ _, mret ()) holding (λ _ ph, ph = outside)); [by apply proto_Unlock|done].
Qed.

Lemma Inv_start (w : World DB) jobs others :
  valid (w_db w) → w_out w = [] →
  Forall (λ j, leaves_lock_alone k (j_label j) (j_work j) working) jobs →
  Forall (λ p, leaves_lock_alone k "" p outside) others →
  ∃ gs, Inv k w ((start c name <$> jobs) ++ others) gs.
Proof.
  intros Hv Hout Hjobs Hothers. set (gs := ((λ j, (j_label j, outside)) <$> jobs) ++ ((λ _, ("", outside)) <$> others)).
  assert (∀ i g, gs !! i = Some g → g.2 = outside) as Hgs.
  { intros i g Hi%list_elem_of_lookup_2. unfold gs in Hi. set_solver. }
  exists gs. split.
  - apply Forall2_app; apply Forall2_fmap_r || apply Forall2_fmap; [apply Forall2_fmap_l|];
      (eapply Forall_Forall2_diag || apply Forall_Forall2_diag); (eapply Forall_impl; [eassumption|]); cbn.
    + intros j Hj. by apply proto_start.
    + intros p Hp. by eapply proto_mono.
  - done.
  - intros i j x y Hx _ Hh. unfold holder in Hh. by rewrite (Hgs _ _ Hx) in Hh.
  - intros i g Hi Hh. unfold holder in Hh. by rewrite (Hgs _ _ Hi) in Hh.
  - intros i j x y Hx _ Hh. unfold owner in Hh. by rewrite (Hgs _ _ Hx) in Hh.
  - intros i g Hi Hh. unfold owner in Hh. by rewrite (Hgs _ _ Hi) in Hh.
  - intros i g Hi Hm. by rewrite (Hgs _ _ Hi) in Hm.
  - exists None. unfold markers. rewrite Hout. split; [constructor|]. intros l. split; [done|].
    intros (i & ph & Hi & Ho). apply Hgs in Hi. cbn in Hi. by subst ph.
Qed.

(** C10.  Mutual exclusion: clients that take the lock of a variable, work and
    release it never overlap, whatever the interleaving of their goroutines,
    of the retries in [Lock] and of anything else that goes on. *)
Theorem locked_work_is_exclusive (w w' : World DB) jobs others ts' :
  valid (w_db w) → w_out w = [] →
  Forall (λ j, leaves_lock_alone k (j_label j) (j_work j) working) jobs →
  Forall (λ p, leaves_lock_alone k "" p outside) others →
  rtc pool_step (mkPool w ((start c name <$> jobs) ++ others)) (mkPool w' ts') →
  ∃ cur, turns (markers w') cur.
Proof.
  intros Hv Hout Hjobs Hothers Hsteps. destruct (Inv_start w jobs others Hv Hout Hjobs Hothers) as [gs HI0].
  destruct (Inv_steps _ _ _ _ _ _ Hsteps HI0) as [gs' HI']. destruct (inv_turns _ _ _ _ HI') as (cur & Hcur & _). by exists cur.
Qed.
End sessions.

(** ** Schedules *)

(** The goroutines named by [is_], in this order, perform an effect each, on an
    idle machine. *)
Fixpoint schedule {DB} {HI : IStorage DB} {E : Environment} (is_ : list nat) (P : pool DB) : option (pool DB) :=
  match is_ with
  | [] => Some P
  | i :: is_ =>
      match p_threads P !! i with
      | Some (Vis o k) =>
          '(a, w') ← exec o (p_world P); schedule is_ (mkPool w' (<[i := k a]> (p_threads P)))
      | Some (Go t k) => schedule is_ (mkPool (p_world P) (<[i := k]> (p_threads P) ++ [t]))
      | _ => None
      end
  end.

Lemma schedule_steps {DB} {HI : IStorage DB} {E : Environment} is_ (P P' : pool DB) :
  schedule is_ P = Some P' → rtc pool_step P P'.
Proof.
  revert P. induction is_ as [|i is_ IH]; intros [w ts]; [by intros [= ->]|]. cbn.
  destruct (ts !! i) as [[a|o k|t k]|] eqn:Hi; [done| | |done].
  - destruct (exec o w) as [[a w1]|] eqn:He; [|done]. intros Hr. cbn in Hr.
    eapply rtc_l; [|by apply IH]. eapply pool_op; [done|]. by apply exec_op_step.
  - intros Hr. eapply rtc_l; [|by apply IH]. by apply pool_go.
Qed.

(** ** [SetVar] does not take the lock *)
Lemma keypath_not_lock key : keypath key ≠ p_lock key.
Proof.
  intros Heq%(f_equal length). unfold p_lock, npath in Heq. rewrite length_app in Heq. cbn in Heq.
  assert (length (keypath key) ≤ length (SplitByte key dot)); [|lia].
  destruct (decide (key = "")) as [->|Hne]; [done|]. rewrite <-keypath_trim by done. unfold trim_last.
  repeat case_match; try done. rewrite removelast_firstn_len, length_take. lia.
Qed.

Section race.
Context {DB : Type} {HI : IStorage DB} {HS : StorageSpec DB} {HR : RangeOrder} {HU : UnicodeCase} {E : Environment}.
Implicit Types w : World DB.

(** [SetVar] tests the flag and writes in two steps, without the mutex: from
    any state in which it may set an unlocked variable, another client can take
    the lock in between and be at work on the old value when the variable
    changes under it. *)
Theorem SetVar_overtakes_a_lock (c : TheController) (name : string) (value : DynamicVar) (j : job) w :
  let n := GetOnly name valid_name_chars in
  let key := var_key (allowRawDbAccess c) n in
  quiet w → valid (w_db w) → w_tasks w = [] →
  set_var_error c n value = None → Contains key "*" = false → locked (w_db w) key = false →
  ∃ w1 ts1 w2 ts2,
    rtc pool_step (mkPool w [SetVar c name value ;; mret (); start c n j]) (mkPool w1 ts1) ∧
    rtc pool_step (mkPool w1 ts1) (mkPool w2 ts2) ∧
    markers w1 = markers w ++ [enter (j_label j)] ∧ markers w2 = markers w1 ∧
    locked (w_db w1) key = true ∧ locked (w_db w2) key = true ∧
    val (w_db w1) (keypath key) = val (w_db w) (keypath key) ∧ val (w_db w2) (keypath key) = value.
Proof.
  intros n key Hq Hv Ht He Hstar Hl.
  assert (SetValue (helper c n) (SetString value (GetString value)) = db_Set key value) as Hset.
  { unfold SetValue. change (vh_name (helper c n)) with key. rewrite Hstar. by destruct value. }
  set (f := λ b : bool, (if b then mret (Err "variable is locked")
    else SetValue (helper c n) (SetString value (GetString value)) ;;
         go (notifyVarModification c n (SetString value (GetString value))) ;; mret (Ok ())) ;; mret () : prog unit).
  set (g := λ r : option (result string unit), match r with
    | Some (Ok _) => do_ (Println (enter (j_label j))) ;; j_work j ;; do_ (Println (leave (j_label j))) ;; UnlockVar c n ;; mret ()
    | _ => mret () end : prog unit).
  assert ([SetVar c name value ;; mret (); start c n j] = [IsLocked (helper c n) ≫= f; LockVar c n (j_timeout j) ≫= g]) as ->.
  { unfold SetVar. fold n. by rewrite He. }
  (* the test, and the lock *)
  assert (run (IsLocked (helper c n)) w = Some (false, w)) as Hr0 by (rewrite run_IsLocked by done; by rewrite <-Hl).
  destruct (run_Lock (helper c n) (j_timeout j) w Hq Hv) as (r & w1 & Hr1 & _ & H1).
  change (vh_name (helper c n)) with key in H1. rewrite Hl in H1. destruct H1 as (-> & He1 & Hl1).
  assert (w_tasks w1 = [] ∧ w_out w1 = w_out w) as [Ht1 Hout1] by (by destruct He1 as [-> _]).
  assert (valid (w_db w1)) as Hv1 by (rewrite (evolves_db _ _ _ He1); by apply Set_valid).
  (* the work, and the write *)
  set (w2 := set_out (w_out w1 ++ [enter (j_label j)]) w1). set (w3 := set_db (st_Set key value (w_db w1)) w2).
  eexists w2, _, w3, _. split_and!.
  - etrans; [by apply (run_alone_steps (i := 0) (IsLocked (helper c n)) f w w false)|].
    etrans; [by apply (run_alone_steps (i := 1) (LockVar c n (j_timeout j)) g w w1 (Some (Ok ())))|].
    apply rtc_once. by eapply (pool_op _ _ _ 1 (Println _) _ ()).
  - apply rtc_once. unfold f. rewrite Hset. by eapply (pool_op _ _ _ 0 (Db_Set _ _) _ ()).
  - unfold w2. rewrite markers_print by apply is_marker_enter. unfold markers. by rewrite Hout1.
  - done.
  - exact Hl1.
  - unfold w3. cbn. rewrite locked_Set_other by (done || apply keypath_not_lock). exact Hl1.
  - unfold w2. cbn. rewrite (evolves_db _ _ _ He1), val_Set, keypath_lock, decide_False by (done || apply keypath_not_lock). done.
  - unfold w3. cbn. by rewrite val_Set, decide_True.
Qed.
End race.

(** ** [Lock] comes back *)
Section returns.
Context {DB : Type} {HI : IStorage DB}.
Implicit Types w : World DB.

(** Whatever the other goroutines do to the world between two effects of [p],
    [p] ends, with a result and at a time that satisfy [Q]. *)
Fixpoint always {A} (p : prog A) (now : Z) (Q : A → Z → Prop) : Prop :=
  match p with
  | Ret a => Q a now
  | Vis o k => ∀ w w' a, (now ≤ w_now w)%Z → op_step o w a w' → always (k a) (w_now w') Q
  | Go t k => always k now Q
  end.

Lemma op_step_now o (a : answer o) w w' : op_step o w a w' → (w_now w ≤ w_now w')%Z.
Proof. intros Hs. destruct o; inv_op Hs; cbn; lia. Qed.

Lemma always_mono {A} (p : prog A) now Q R : (∀ a t, Q a t → R a t) → always p now Q → always p now R.
Proof.
  revert now Q R. induction p as [? a|? o k IH|? t _ k IH]; intros now Q R HQ; cbn; [auto| |by apply IH].
  intros Hk w w' a Hw Hs. eapply IH; [exact HQ|by eapply Hk].
Qed.

Lemma always_bind {A B} (p : prog A) (f : A → prog B) now Q :
  always p now (λ a t, always (f a) t Q) → always (p ≫= f) now Q.
Proof.
  revert f now. induction p as [? a|? o k IH|? t _ k IH]; intros f now Hp; cbn in *; [done| |by apply IH].
  intros w w' a Hw Hs. by eapply IH, Hp.
Qed.

Lemma always_later {A} (p : prog A) now : always p now (λ _ t, (now ≤ t)%Z).
Proof.
  revert now. induction p as [? a|? o k IH|? t _ k IH]; intros now; cbn; [lia| |by apply IH].
  intros w w' a Hw Hs%op_step_now. eapply always_mono; [|apply IH]. cbn. lia.
Qed.

(** What an outcome of [Lock] tells about the time it took. *)
Definition in_time (start maxTimeout : Z) (r : option (result string unit)) (t : Z) : Prop :=
  match r with
  | Some (Ok _) => True
  | Some (Err e) => e = "timeout reached" ∧ (start + maxTimeout ≤ t)%Z
  | None => False
  end.

Lemma always_Lock_loop fuel c start maxTimeout now :
  (start ≤ now)%Z → (start + maxTimeout ≤ now + (Z.of_nat fuel - 1) * Millisecond)%Z → 0 < fuel →
  always (Lock_loop fuel c start maxTimeout) now (in_time start maxTimeout).
Proof.
  revert now. induction fuel as [|fuel IH]; intros now Hnow Hfuel Hpos; [lia|]. cbn [Lock_loop].
  apply always_bind. eapply always_mono; [|apply always_later]. intros ok t1 H1. destruct ok; [done|].
  intros w1 w1' t2 Hw1 [Ht2 ->]. cbn [w_now set_now mbind prog_bind].
  destruct (Z.leb_spec maxTimeout (t2 - start)); [by split; [|lia]|].
  intros w2 w2' r Hw2 [Hr ->]. intros w3 w3' u Hw3 (t4 & Ht4 & ->). cbn in *. unfold Millisecond in *. apply IH; lia.
Qed.

End returns.

(** ** Witnesses *)
Section witnesses.
Existing Instance canonical_order.
Existing Instance ascii_case.
Existing Instance online.

(** Two clients append their letter to the variable [n]. *)
Definition append_letter (l : string) : prog unit :=
  v ← db_Get "vars.n" NewEmptyDynamicVar; db_Set "vars.n" (NewDynamicVar (GetString v +:+ l)).
Definition two_jobs : list job := [mkJob "A" 100 (append_letter "a"); mkJob "B" 100 (append_letter "b")].
Definition two_clients : list (prog unit) := start default_controller "n" <$> two_jobs.

(** A locks, B waits, A finishes, B works. *)
Definition one_after_the_other : list nat := repeat 0 9 ++ repeat 1 7 ++ repeat 0 4 ++ repeat 1 12.
Definition pool_after (is_ : list nat) (P : pool RamCacheDB) : pool RamCacheDB := default P (schedule is_ P).

Lemma pool_after_steps is_ P : rtc pool_step P (pool_after is_ P).
Proof. unfold pool_after. destruct (schedule is_ P) as [P'|] eqn:HP; [by apply (schedule_steps is_)|done]. Qed.

Lemma append_letter_harmless key l l' ph :
  keypath "vars.n" ≠ p_lock key → leaves_lock_alone key l (append_letter l') ph.
Proof. intros Hp v _. exists ph. split; [by constructor|]. intros u _. exists ph. split; [by constructor|done]. Qed.

Lemma locked_work_is_exclusive_witness :
  let P := pool_after one_after_the_other (mkPool fresh_world (two_clients ++ [append_letter "c"])) in
  markers (p_world P) = ["enter A"; "leave A"; "enter B"; "leave B"] ∧ ∃ cur, turns (markers (p_world P)) cur.
Proof.
  intros P. split; [by vm_compute|].
  apply (locked_work_is_exclusive default_controller "n" fresh_world (p_world P) two_jobs [append_letter "c"] (p_threads P)).
  - exact fresh_valid.
  - done.
  - apply Forall_cons_2; [|apply Forall_cons_2; [|apply Forall_nil_2]]; by apply append_letter_harmless.
  - apply Forall_cons_2; [|apply Forall_nil_2]; by apply append_letter_harmless.
  - replace (mkPool (p_world P) (p_threads P)) with P by (by destruct P). apply pool_after_steps.
Defined.

Lemma SetVar_overtakes_a_lock_witness :
  let w := world_of (st_Set "vars.n" (NewDynamicVar "old") fresh_db) in
  let j := mkJob "A" 100 (append_letter "a") in
  ∃ w1 ts1 w2 ts2,
    rtc pool_step (mkPool w [SetVar default_controller "n" (NewDynamicVar "new") ;; mret (); start default_controller "n" j])
      (mkPool w1 ts1) ∧
    rtc pool_step (mkPool w1 ts1) (mkPool w2 ts2) ∧
    markers w1 = markers w ++ ["enter A"] ∧ markers w2 = markers w1 ∧
    locked (w_db w1) "vars.n" = true ∧ locked (w_db w2) "vars.n" = true ∧
    val (w_db w1) (keypath "vars.n") = val (w_db w) (keypath "vars.n") ∧
    val (w_db w2) (keypath "vars.n") = NewDynamicVar "new".
Proof.
  intros w j.
  apply (SetVar_overtakes_a_lock default_controller "n" (NewDynamicVar "new") j w).
  - apply quiet_world_of.
  - apply Set_valid, fresh_valid.
  - done.
  - by vm_compute.
  - done.
  - by vm_compute.
Defined.
End witnesses.
