(* ===== verification/Registry.v ===== *)
(** * The observers of a variable are updated atomically

    [Observations] shows that a goroutine alone finds in the observers of a
    variable a list.  Here any number of goroutines are interleaved effect by
    effect ([pool_step]), and every execution is simulated by one of an abstract
    machine, whose state has the list itself, and where a call is one step on it
    ([registry_is_atomic]).

    The calls hold the lock of the observations while they read and write the
    entries one by one.  A call takes effect, in the abstract machine, when it
    gets the lock; [close] computes from there what its critical section will
    have done when it releases it, whatever the others do meanwhile. *)
From stdpp Require Import relations.
From S2P Require Import Prelude GoStrings GoStrconv Misc NamedLock Storage RamCacheDB Reference Runtime Samples VarHelper Observations ClientHelper Controller LockProtocol.

(** ** Abstract programs

    Programs with one more effect: a call of the registry. *)
Inductive aprog (A : Type) : Type :=
  | ARet (a : A)
  | AVis (o : op) (k : answer o → aprog A)
  | AGo (t : aprog unit) (k : aprog A)
  | AAsk (r : obs_request) (k : obs_answer → aprog A).
Arguments ARet {A} a.
Arguments AVis {A} o k.
Arguments AGo {A} t k.
Arguments AAsk {A} r k.

#[export] Instance aprog_ret : MRet aprog := λ A a, ARet a.
#[export] Instance aprog_bind : MBind aprog :=
  λ A B f, fix bind (p : aprog A) : aprog B :=
    match p with
    | ARet a => f a
    | AVis o k => AVis o (λ x, bind (k x))
    | AGo t k => AGo t (bind k)
    | AAsk r k => AAsk r (λ x, bind (k x))
    end.

(** The answer of a call that did not get the lock in ten seconds. *)
Definition timed_out (r : obs_request) : obs_answer :=
  match r with
  | ReqRegister _ _ => AnsId ""
  | ReqGetAll => AnsMap ∅
  | _ => AnsDone
  end.

Section registry.
Context {DB : Type} {HI : IStorage DB} {HS : StorageSpec DB} (name : string).
Implicit Types (db : DB) (w : World DB) (L : list (string * string)).

(** The lock of [runLocked], and the entries it protects. *)
Definition obs_lock : string := name +:+ "._observationLock".
Abbreviation inside p := (p_observers name `prefix_of` p).

(** ** The abstract machine *)
Record apool := mkAPool { ap_world : World DB; ap_list : list (string * string); ap_threads : list (aprog unit) }.

(** The entries of the registry and its lock are not part of the abstract
    state: whoever looks at them may find anything. *)
Record hidden w w' : Prop := {
  hidden_rest : w' = set_locks (w_locks w') (set_db (w_db w') w);
  hidden_db : obs_frame name (w_db w) (w_db w');
  hidden_locks : ∀ n, n ≠ obs_lock → w_locks w' !! n = w_locks w !! n
}.

Inductive astep : apool → apool → Prop :=
  | a_op w w' L ts i o k a :
      ts !! i = Some (AVis o k) → op_step o w a w' →
      astep (mkAPool w L ts) (mkAPool w' L (<[i:=k a]> ts))
  | a_go w L ts i t k :
      ts !! i = Some (AGo t k) → astep (mkAPool w L ts) (mkAPool w L (<[i:=k]> ts ++ [t]))
  | a_ask w L ts i r k :
      ts !! i = Some (AAsk r k) →
      astep (mkAPool w L ts) (mkAPool w (obs_ref r L).2 (<[i:=k (obs_ref r L).1]> ts))
  | a_timeout w L ts i r k t :
      ts !! i = Some (AAsk r k) → (w_now w ≤ t)%Z →
      astep (mkAPool w L ts) (mkAPool (set_now t w) L (<[i:=k (timed_out r)]> ts))
  | a_hidden w w' L ts : hidden w w' → astep (mkAPool w L ts) (mkAPool w' L ts).

(** ** Critical sections *)

(** The effects of a critical section: the entries are read and written. *)
Definition region_op (o : op) : Prop :=
  match o with
  | Db_Get k _ | Db_Set k _ | Db_DeleteValue k true => inside (keypath k)
  | _ => False
  end.

(** What is left of a critical section, run to the release of the lock: the
    database then, and the rest of the program. *)
Fixpoint close {A} (p : prog A) db : option (DB * prog A) :=
  match p with
  | Vis (Db_Get k d) f => if decide (inside (keypath k)) then close (f (st_Get k d db)) db else None
  | Vis (Db_Set k v) f => if decide (inside (keypath k)) then close (f tt) (st_Set k v db) else None
  | Vis (Db_DeleteValue k true) f =>
      if decide (inside (keypath k)) then close (f tt) (st_DeleteValue k true db) else None
  | Vis (Lock_release n) f => if decide (n = obs_lock) then Some (db, f tt) else None
  | _ => None
  end.

(** A program that only does such effects. *)
Fixpoint confined {A} (p : prog A) : Prop :=
  match p with
  | Ret _ => True
  | Vis o k => region_op o ∧ ∀ a, confined (k a)
  | Go _ _ => False
  end.

(** ** Programs that use the registry *)

(** Names that are no part of a registry.  The server stores the names of
    observed variables below [internal.clients.byId]: all that is there is to be
    plain, for the names are read again. *)
Definition plain (s : string) : Prop := "_observers" ∉ SplitByte s dot.
Definition names : list string := ["internal"; "clients"; "byId"].
Definition plain_names db : Prop := ∀ p, names `prefix_of` p → plain (GetString (val db p)).

(** Effects that write neither the entries nor their lock.  Reading is harmless. *)
Definition spares (o : op) : Prop :=
  match o with
  | Db_Set k v => ¬ inside (keypath k) ∧ (names `prefix_of` keypath k → plain (GetString v))
  | Db_DeleteValue k false => ¬ inside (keypath k)
  | Db_DeleteValue k true => ¬ inside (keypath k) ∧ ¬ keypath k `prefix_of` p_observers name
  | Lock_acquire n _ | Lock_release n => n ≠ obs_lock
  | _ => True
  end.

(** What the answers are known to be. *)
Definition possible (o : op) : answer o → Prop :=
  match o return answer o → Prop with
  | Db_Get k d => λ a, names `prefix_of` keypath k → plain (GetString d) → plain (GetString a)
  | Db_GetChilds _ => λ a, Forall (lacks dot) a
  | _ => λ _, True
  end.

(** The critical section that [k] starts when it gets the lock does on the
    entries what [r] does on the list, and goes on with [after]. *)
Definition section_does {A} (r : obs_request) (k : bool → prog A) (after : obs_answer → prog A) : Prop :=
  ∀ db L, obs_is db name L → (Z.of_nat (length L) + 1 < int64_max)%Z →
    ∃ db', close (k true) db = Some (db', after (obs_ref r L).1) ∧ obs_is db' name (obs_ref r L).2.

(** A program does what an abstract one does, calls of the registry apart, and
    ends with a result for which [Q] holds. *)
Inductive refines : ∀ {A}, (A → Prop) → prog A → aprog A → Prop :=
  | refines_ret {A} (Q : A → Prop) a : Q a → refines Q (Ret a) (ARet a)
  | refines_op {A} (Q : A → Prop) o k k' :
      spares o → (∀ a, possible o a → refines Q (k a) (k' a)) → refines Q (Vis o k) (AVis o k')
  | refines_go {A} (Q : A → Prop) t t' k k' :
      refines (λ _ : unit, True) t t' → refines Q k k' → refines Q (Go t k) (AGo t' k')
  | refines_ask {A} (Q : A → Prop) r timeout k k' after :
      section_does r k after → (∀ a, refines Q (after a) (k' a)) → refines Q (k false) (k' (timed_out r)) →
      refines Q (Vis (Lock_acquire obs_lock timeout) k) (AAsk r k').

Lemma refines_mono {A} (Q R : A → Prop) p q : (∀ a, Q a → R a) → refines Q p q → refines R p q.
Proof.
  intros HQ Hr. revert R HQ. induction Hr; intros R HQ; [by constructor; auto|constructor; auto..|].
  econstructor; eauto.
Qed.

(** ** What the others do *)

(** The same nodes and values in the region of the entries. *)
Definition same_inside db1 db2 : Prop := ∀ p, inside p → view db2 p = view db1 p.

Lemma same_inside_refl db : same_inside db db.
Proof. done. Qed.

Lemma Set_outside db k v : valid db → ¬ inside (keypath k) → same_inside db (st_Set k v db).
Proof.
  intros Hv Hk p Hp. rewrite Set_spec by done. unfold spec_set.
  rewrite decide_False by (intros ->; done). rewrite decide_False; [done|]. intros Hpk. apply Hk. by etrans.
Qed.

Lemma Delete_outside db k b : valid db → spares (Db_DeleteValue k b) → same_inside db (st_DeleteValue k b db).
Proof.
  intros Hv Hk p Hp. destruct b; cbn in Hk.
  - rewrite Delete_cascade by done. rewrite decide_False; [done|]. intros Hkp. destruct Hk as [Hk1 Hk2].
    destruct (prefix_weak_total _ _ _ Hp Hkp); done.
  - apply Delete_other; [done|]. by intros ->.
Qed.

(** An effect that spares the registry. *)
Lemma op_step_spares o (a : answer o) w w' :
  op_step o w a w' → spares o → valid (w_db w) →
  valid (w_db w') ∧ same_inside (w_db w) (w_db w') ∧ w_locks w' !! obs_lock = w_locks w !! obs_lock.
Proof.
  intros Hs Hh Hv. destruct o; cbn in Hh; inv_op Hs; cbn; try done.
  - split; [by apply Set_valid|]. split; [by apply Set_outside; [|apply Hh]|done].
  - split; [by apply Delete_valid|]. split; [by apply Delete_outside|done].
  - split; [done|]. split; [done|]. unfold take_token, get_or_create in *. repeat case_match; simplify_eq; by rewrite !lookup_insert_ne.
  - split; [done|]. split; [done|]. unfold get_or_create. case_match; [done|]. by rewrite lookup_insert_ne.
  - split; [done|]. split; [done|]. unfold releaseNamedLock. repeat case_match; cbn; [done| |done]. by rewrite lookup_insert_ne.
Qed.

Lemma op_step_names o (a : answer o) w w' :
  op_step o w a w' → spares o → valid (w_db w) → plain_names (w_db w) → plain_names (w_db w').
Proof.
  intros Hs Hh Hv Hn. destruct o; cbn in Hh; inv_op Hs; cbn; try done.
  - intros p Hp. rewrite val_Set by done. case_decide; [subst; by apply Hh|by apply Hn].
  - intros p Hp. destruct deleteChildsInACascade; [rewrite val_Delete_cascade by done|rewrite val_Delete_value by done];
      case_decide; [apply not_elem_of_cons; by split; [|apply not_elem_of_nil]|by apply Hn
        |apply not_elem_of_cons; by split; [|apply not_elem_of_nil]|by apply Hn].
Qed.

Lemma op_step_possible_names o (a : answer o) w w' :
  op_step o w a w' → valid (w_db w) → plain_names (w_db w) → possible o a.
Proof.
  intros Hs Hv Hn. destruct o; cbn in *; try done.
  - destruct Hs as [-> _]. intros Hk Hd. rewrite Get_spec by done. specialize (Hn _ Hk). unfold val, value_at in Hn.
    by destruct (view (w_db w) (keypath name0)).
  - destruct Hs as [-> _]. apply Forall_forall. intros k Hk. apply GetChilds_spec in Hk; [|done].
    apply view_names in Hk; [|done]. apply Forall_app in Hk as [_ Hk]. by rewrite Forall_singleton in Hk.
Qed.

Lemma val_inside db1 db2 p : same_inside db1 db2 → inside p → val db2 p = val db1 p.
Proof. intros Hs Hp. unfold val, value_at. by rewrite Hs. Qed.

Lemma obs_is_inside db1 db2 L : obs_is db1 name L → same_inside db1 db2 → valid db2 → obs_is db2 name L.
Proof.
  intros [_ Hc Hb He] Hs Hv. split; [done| |done|].
  - unfold count. rewrite (val_inside db1 db2) by (done || apply observers_prefix). exact Hc.
  - intros i. rewrite <-He. unfold entry. by rewrite !(val_inside db1 db2) by (done || apply observers_prefix).
Qed.

(** What one effect of a section does. *)
Lemma Set_inside db1 db2 k v :
  valid db1 → valid db2 → same_inside db1 db2 → same_inside (st_Set k v db1) (st_Set k v db2).
Proof. intros Hv1 Hv2 Hs p Hp. rewrite !Set_spec by done. unfold spec_set. by rewrite Hs. Qed.
Lemma Delete_inside db1 db2 k :
  valid db1 → valid db2 → same_inside db1 db2 → same_inside (st_DeleteValue k true db1) (st_DeleteValue k true db2).
Proof. intros Hv1 Hv2 Hs p Hp. rewrite !Delete_cascade by done. by rewrite Hs. Qed.
Lemma Get_inside db1 db2 k d :
  valid db1 → valid db2 → same_inside db1 db2 → inside (keypath k) → st_Get k d db2 = st_Get k d db1.
Proof. intros Hv1 Hv2 Hs Hk. rewrite !Get_spec by done. by rewrite Hs. Qed.

(** What a section will have done does not depend on what the others do outside
    of the region. *)
Lemma close_inside {A} (p : prog A) db1 db2 db1' q :
  close p db1 = Some (db1', q) → valid db1 → valid db2 → same_inside db1 db2 →
  ∃ db2', close p db2 = Some (db2', q) ∧ valid db1' ∧ valid db2' ∧ same_inside db1' db2'.
Proof.
  intros Hc. revert db2. revert db1 Hc. induction p as [? a|? o k IH|? t _ k IH]; intros db1 Hc db2 Hv1 Hv2 Hs; [done| |done].
  destruct o; cbn in *; try done.
  - case_decide; [|done]. apply (IH tt _ _ Hc); auto using Set_inside with vss.
  - case_decide; [|done]. rewrite (Get_inside db1 db2) by done. by apply (IH _ _ _ Hc).
  - destruct deleteChildsInACascade; [|done]. case_decide; [|done]. apply (IH tt _ _ Hc); auto using Delete_inside with vss.
  - case_decide; [|done]. injection Hc as <- <-. by exists db2.
Qed.

(** ** Sections of database programs *)
Lemma confined_bind {A B} (p : prog A) (f : A → prog B) : confined p → (∀ a, confined (f a)) → confined (p ≫= f).
Proof.
  induction p as [? a|? o k IH|? t _ k IH]; intros Hp Hf; [by apply Hf| |done]. destruct Hp as [Ho Hk].
  split; [done|]. intros a. by apply IH.
Qed.
Lemma confined_do o : region_op o → confined (do_ o).
Proof. done. Qed.
Lemma confined_for_up n a (f : Z → prog unit) : (∀ i, confined (f i)) → confined (for_up n a f).
Proof. intros Hf. revert a. induction n as [|n IH]; intros a; [done|]. by apply confined_bind. Qed.
Lemma confined_for_up_acc {X} n a (f : Z → X → prog X) x : (∀ i x, confined (f i x)) → confined (for_up_acc n a f x).
Proof. intros Hf. revert a x. induction n as [|n IH]; intros a x; [done|]. by apply confined_bind. Qed.
Lemma confined_for_down n (f : Z → prog unit) : (∀ i, confined (f i)) → confined (for_down n f).
Proof. intros Hf. induction n as [|n IH]; [done|]. by apply confined_bind. Qed.
Lemma confined_for_down_break n (f : Z → prog bool) : (∀ i, confined (f i)) → confined (for_down_break n f).
Proof. intros Hf. induction n as [|n IH]; [done|]. apply confined_bind; [done|]. by intros []. Qed.

(** In a context [E] that lets effects through, such as a chain of binds, the
    section goes on as its context says. *)
Lemma close_context {X A} {now} (E : prog X → prog A) (f : prog X) db x db' :
  (∀ o k, E (Vis o k) = Vis o (λ y, E (k y))) → confined f → drun now f db = Some (x, db') →
  close (E f) db = close (E (Ret x)) db'.
Proof.
  intros HE. revert db. induction f as [? a|? o k IH|? t _ k IH]; intros db Hc Hd; cbn in *; [by simplify_eq| |done].
  rewrite HE. destruct Hc as [Ho Hc]. destruct o; cbn in *; try done.
  - rewrite decide_True by done. by apply IH.
  - rewrite decide_True by done. by apply IH.
  - destruct deleteChildsInACascade; [|done]. rewrite decide_True by done. by apply IH.
Qed.

End registry.

(** ** The methods of the registry *)
Section calls.
Context {DB : Type} {HI : IStorage DB} {HS : StorageSpec DB} (c : ControllerVarHelper).
Abbreviation name := (vh_name c).

Lemma inside_entry r : p_observers name `prefix_of` npath name ++ "_observers" :: r.
Proof. apply observers_prefix. Qed.
Lemma inside_byId s : p_observers name `prefix_of` keypath (name +:+ "._observers.byId." +:+ s).
Proof. destruct (keypath_byId_below name s) as [r ->]. apply observers_prefix. Qed.

(** The keys of the sections. *)
Lemma inside_count : p_observers name `prefix_of` keypath (key_count name).
Proof. rewrite keypath_count. apply inside_entry. Qed.
Lemma inside_clientId i : p_observers name `prefix_of` keypath (key_clientId name i).
Proof. rewrite keypath_clientId. apply inside_entry. Qed.
Lemma inside_metadata i : p_observers name `prefix_of` keypath (key_metadata name i).
Proof. rewrite keypath_metadata. apply inside_entry. Qed.
Lemma inside_key_entry i : p_observers name `prefix_of` keypath (key_entry name i).
Proof. rewrite keypath_entry. apply inside_entry. Qed.
Lemma inside_all : p_observers name `prefix_of` keypath (name +:+ "._observers").
Proof. by rewrite (keypath_below name "_observers"). Qed.

Lemma confined_read_count : confined name (read_count name).
Proof. split; [apply inside_count|done]. Qed.
Lemma confined_read_entry i : confined name (read_entry name i).
Proof. split; [apply inside_clientId|]. intros a. split; [apply inside_metadata|done]. Qed.
Lemma confined_Set k v : p_observers name `prefix_of` keypath k → confined name (db_Set k v).
Proof. done. Qed.
Lemma confined_Delete k : p_observers name `prefix_of` keypath k → confined name (db_DeleteValue k true).
Proof. done. Qed.

Lemma confined_remove cl md : confined name (internalRemoveObserving c cl md).
Proof.
  apply confined_bind; [apply confined_read_count|]. intros cnt. apply confined_for_down_break. intros i.
  apply confined_bind; [apply confined_read_entry|]. intros e. case_decide; [|done].
  apply confined_bind.
  - apply confined_for_up. intros j. apply confined_bind; [apply confined_read_entry|]. intros next.
    apply confined_bind; [apply confined_Set, inside_clientId|]. intros _.
    apply confined_bind; [apply confined_Set, inside_metadata|]. intros _. apply confined_Set, inside_byId.
  - intros _. apply confined_bind; [apply confined_Delete, inside_key_entry|]. intros _.
    apply confined_bind; [apply confined_Set, inside_count|]. intros _.
    apply confined_bind; [apply confined_Delete, inside_byId|done].
Qed.

(** A method: a section under the lock, which does [r] on the entries. *)
Definition method {Y} (p : prog Y) (r : obs_request) (g : obs_answer → Y) : Prop :=
  ∃ X (f : prog X) (h : option X → Y), p = (runLocked c f ≫= λ o, mret (h o)) ∧ confined name f ∧
    (∀ db L, obs_is db name L → (Z.of_nat (length L) + 1 < int64_max)%Z →
       ∃ x db', drun 0 f db = Some (x, db') ∧ h (Some x) = g (obs_ref r L).1 ∧ obs_is db' name (obs_ref r L).2) ∧
    h None = g (timed_out r).

Lemma method_refines {Y} (p : prog Y) r g : method p r g → refines name (λ _, True) p (AAsk r (λ a, ARet (g a))).
Proof.
  intros (X & f & h & -> & Hc & Hf & Ht).
  set (E := λ p : prog X, (p ≫= λ x, do_ (Lock_release (obs_lock name)) ;; mret (Some x)) ≫= λ o, mret (h o)).
  set (k := λ ok : bool, (if ok then f ≫= λ x, do_ (Lock_release (obs_lock name)) ;; mret (Some x) else mret None)
    ≫= λ o, mret (h o)).
  change (refines name (λ _ : Y, True) (Vis (Lock_acquire (obs_lock name) (10 * Second)) k) (AAsk r (λ a, ARet (g a)))).
  apply (refines_ask name (λ _, True) r (10 * Second) k (λ a, ARet (g a)) (λ a, Ret (g a))); [|by constructor|].
  - intros db L Hobs Hlen. destruct (Hf db L Hobs Hlen) as (x & db' & Hd & Ha & Hobs'). exists db'. split; [|done].
    change (k true) with (E f). rewrite (close_context name E f db x db') by done. cbn. by rewrite decide_True, Ha.
  - cbn. rewrite Ht. by constructor.
Qed.

Definition id_of (a : obs_answer) : string := if a is AnsId id then id else "".
Definition map_of (a : obs_answer) : gmap string (string * string) := if a is AnsMap m then m else ∅.
Definition done_of (a : obs_answer) : unit := ().

Lemma method_Register cl md : method (RegisterObservation c cl md) (ReqRegister cl md) id_of.
Proof.
  eexists _, _, (default ""). split; [reflexivity|]. split; [|split; [|done]].
  - apply confined_bind; [apply confined_read_count|]. intros cnt.
    apply confined_bind; [apply confined_Set, inside_clientId|]. intros _.
    apply confined_bind; [apply confined_Set, inside_metadata|]. intros _.
    apply confined_bind; [apply confined_Set, inside_byId|]. intros _.
    by apply confined_bind; [apply confined_Set, inside_count|].
  - intros db L Hobs Hlen. destruct (drun_register (now:=0) name cl md L db Hobs Hlen) as (db' & Hd & Hobs' & _).
    by exists (Itoa (Z.of_nat (length L))), db'.
Qed.

Lemma method_Remove cl md : method (RemoveObservationByClientAndMetadata c cl md) (ReqRemove cl md) done_of.
Proof.
  eexists _, _, (λ _, ()). split; [reflexivity|]. split; [apply confined_remove|split; [|done]].
  intros db L Hobs _. destruct (drun_internalRemove (now:=0) c (cl, md) L db Hobs) as (db' & Hd & Hobs' & _). by exists (), db'.
Qed.

Lemma method_RemoveClient cl : method (RemoveAllClientObservations c cl) (ReqRemoveClient cl) done_of.
Proof.
  eexists _, _, (λ _, ()). split; [reflexivity|]. split; [|split; [|done]].
  - apply confined_bind; [apply confined_read_count|]. intros cnt. apply confined_for_down. intros i.
    apply confined_bind; [apply confined_read_entry|]. intros e. case_decide; [apply confined_remove|done].
  - intros db L Hobs _. rewrite drun_read_count by apply Hobs. rewrite (obs_count _ _ _ Hobs), Nat2Z.id.
    destruct (drun_remove_client (now:=0) c cl L [] db) as (db' & Hd & Hobs' & _); [by rewrite app_nil_r|done|].
    rewrite app_nil_r in Hobs'. by exists (), db'.
Qed.

Lemma method_RemoveAll : method (RemoveAllObservations c) ReqRemoveAll done_of.
Proof.
  eexists _, _, (λ _, ()). split; [reflexivity|]. split; [|split; [|done]].
  - apply confined_bind; [apply confined_Delete, inside_all|]. intros _. apply confined_Set, inside_count.
  - intros db L Hobs _. destruct (drun_remove_all (now:=0) name L db Hobs) as (db' & Hd & Hobs' & _). by exists (), db'.
Qed.

Lemma method_GetAll : method (GetAllObservations c) ReqGetAll map_of.
Proof.
  eexists _, _, (default ∅). split; [reflexivity|]. split; [|split; [|done]].
  - apply confined_bind; [apply confined_read_count|]. intros cnt. apply confined_for_up_acc. intros i m.
    by apply confined_bind; [apply confined_read_entry|].
  - intros db L Hobs _. exists (obs_map L), db. split; [|done].
    rewrite drun_read_count by apply Hobs. rewrite (obs_count _ _ _ Hobs), Nat2Z.id.
    pose proof (drun_collect (now:=0) name L 0 db ∅ Hobs ltac:(lia)) as Hd. by rewrite Nat.sub_0_r in Hd.
Qed.
End calls.

(** ** The simulation *)
Section simulation.
Context {DB : Type} {HI : IStorage DB} {HS : StorageSpec DB} (name : string).
Implicit Types (db : DB) (w : World DB) (L : list (string * string)) (ts : list (prog unit)) (ats : list (aprog unit)).

Abbreviation lock_taken w := (w_locks w !! obs_lock name = Some false).
Abbreviation abstract := (rtc (astep name)).
Abbreviation follows := (refines name (λ _ : unit, True)).
Context (Hname : ¬ ["internal"] `prefix_of` npath name).

(** Either nobody holds the lock, the entries hold the list, and every goroutine
    goes on as its abstract one; or goroutine [j] is in a section, at whose end
    this will be so. *)
Inductive sim w ts L ats : Prop :=
  | sim_free :
      ¬ lock_taken w → plain_names (w_db w) → obs_is (w_db w) name L → Forall2 follows ts ats → sim w ts L ats
  | sim_busy j t db' q :
      lock_taken w → plain_names (w_db w) → valid (w_db w) → ts !! j = Some t → close name t (w_db w) = Some (db', q) →
      obs_is db' name L → Forall2 follows (<[j:=q]> ts) ats → sim w ts L ats.

Lemma names_outside p : names `prefix_of` p → ¬ p_observers name `prefix_of` p.
Proof.
  intros [x ->] [y Hy]. apply Hname. unfold p_observers in Hy. rewrite <-app_assoc in Hy.
  destruct (npath name) as [|h r] eqn:E; [by apply SplitByte_ne in E|]. cbn in Hy. injection Hy as <- _. by exists r.
Qed.

Lemma hidden_names w w' : hidden name w w' → plain_names (w_db w) → plain_names (w_db w').
Proof. intros [_ [Hf _] _] Hn p Hp. rewrite Hf by (by apply names_outside). by apply Hn. Qed.

Lemma hidden_lock w b : hidden name w (set_locks (<[obs_lock name := b]> (w_locks w)) w).
Proof. split; [done..|]. intros n Hn. cbn. by rewrite lookup_insert_ne. Qed.

Lemma hidden_locks_of w M : (∀ n, n ≠ obs_lock name → M !! n = w_locks w !! n) → hidden name w (set_locks M w).
Proof. by split. Qed.

Lemma hidden_set_db w db' : obs_frame name (w_db w) db' → hidden name w (set_db db' w).
Proof. by split. Qed.

Lemma abstract_hidden w w' L ats : hidden name w w' → abstract (mkAPool w L ats) (mkAPool w' L ats).
Proof. intros Hh. by apply rtc_once, a_hidden. Qed.

(** The lock. *)
Lemma acquire_taken w timeout w' : op_step (Lock_acquire (obs_lock name) timeout) w true w' → ¬ lock_taken w ∧ lock_taken w' ∧
  w' = set_locks (w_locks w') w ∧ ∀ n, n ≠ obs_lock name → w_locks w' !! n = w_locks w !! n.
Proof.
  intros (L' & HL & ->). cbn. unfold take_token in HL. destruct (get_or_create _ _ !! _) as [[]|] eqn:Hg; simplify_eq.
  unfold get_or_create in *. destruct (w_locks w !! obs_lock name) as [b|] eqn:Hb.
  - rewrite Hg in Hb. simplify_eq. split; [done|]. rewrite lookup_insert_eq. split; [done|]. split; [done|].
    intros n Hn. by rewrite lookup_insert_ne.
  - split; [done|]. rewrite lookup_insert_eq. split; [done|]. split; [done|]. intros n Hn. by rewrite !lookup_insert_ne.
Qed.

Lemma timeout_lock w timeout w' : op_step (Lock_acquire (obs_lock name) timeout) w false w' →
  ∃ t M, (w_now w ≤ t)%Z ∧ w' = set_locks M (set_now t w) ∧ (∀ n, n ≠ obs_lock name → M !! n = w_locks w !! n) ∧
    (M !! obs_lock name = Some false ↔ lock_taken w).
Proof.
  intros (_ & t & Ht & ->). exists t, (get_or_create (obs_lock name) (w_locks w)). split; [done|]. split; [done|].
  unfold get_or_create. destruct (w_locks w !! obs_lock name) as [b|] eqn:Hb; [by rewrite Hb|].
  rewrite lookup_insert_eq. split; [|done]. intros n Hn. by rewrite lookup_insert_ne.
Qed.

Lemma release_lock w w' : op_step (Lock_release (obs_lock name)) w () w' → lock_taken w →
  ¬ lock_taken w' ∧ hidden name w w' ∧ w_db w' = w_db w.
Proof.
  cbn. unfold releaseNamedLock. intros -> ->. cbn. rewrite lookup_insert_eq. split; [done|]. split; [|done]. apply hidden_lock.
Qed.

(** An effect of a goroutine. *)
Definition effect {A} (t : prog A) w (t' : prog A) w' : Prop :=
  match t with Vis o k => ∃ a, op_step o w a w' ∧ t' = k a | _ => False end.

(** Inversion of [refines] along an effect, and along [go]. *)
Lemma refines_effect {A} (Q : A → Prop) t q t' w w' :
  refines name Q t q → effect t w t' w' → valid (w_db w) → plain_names (w_db w) →
  (∃ o k' a, q = AVis o k' ∧ op_step o w a w' ∧ spares name o ∧ refines name Q t' (k' a)) ∨
  (∃ r k' timeout, q = AAsk r k' ∧ op_step (Lock_acquire (obs_lock name) timeout) w false w' ∧
     refines name Q t' (k' (timed_out r))) ∨
  (∃ r k' timeout k after, q = AAsk r k' ∧ op_step (Lock_acquire (obs_lock name) timeout) w true w' ∧
     t' = k true ∧ section_does name r k after ∧ ∀ a, refines name Q (after a) (k' a)).
Proof.
  intros Hr He Hv Hn. destruct Hr as [A Q a|A Q o k k' Ho Hk|A Q g g' k k' Hg Hk|A Q r timeout k k' after Hsec Hafter Hto];
    cbn in He; [done| |done|].
  - destruct He as (a & Hs & ->). left. exists o, k', a. do 3 (split; [done|]).
    by eapply Hk, op_step_possible_names.
  - destruct He as ([] & Hs & ->); right; [right|left]; [by exists r, k', timeout, k, after|by exists r, k', timeout].
Qed.

Lemma refines_Go {A} (Q : A → Prop) p q :
  refines name Q p q →
  match p with Go t k => ∃ t' k', q = AGo t' k' ∧ follows t t' ∧ refines name Q k k' | _ => True end.
Proof. intros []; [done|done|by eexists _, _|done]. Qed.

(** A goroutine outside of a section: its effect is one of the abstract machine
    that spares the registry, or it gets the lock and starts a section. *)
Lemma effect_outside t at_ t' w w' i L ats :
  follows t at_ → effect t w t' w' → valid (w_db w) → plain_names (w_db w) → ats !! i = Some at_ →
  (∃ at', abstract (mkAPool w L ats) (mkAPool w' L (<[i:=at']> ats)) ∧ follows t' at' ∧ plain_names (w_db w') ∧
     valid (w_db w') ∧ same_inside name (w_db w) (w_db w') ∧ (lock_taken w' ↔ lock_taken w)) ∨
  (∃ r k k' after, t' = k true ∧ section_does name r k after ∧ (∀ a, follows (after a) (k' a)) ∧
     ¬ lock_taken w ∧ lock_taken w' ∧ w_db w' = w_db w ∧
     abstract (mkAPool w L ats) (mkAPool w' (obs_ref r L).2 (<[i:=k' (obs_ref r L).1]> ats))).
Proof.
  intros Hr He Hv Hn Hi.
  destruct (refines_effect _ t at_ t' w w' Hr He Hv Hn) as [(o & k' & a & -> & Hs & Ho & Hk)|[
    (r & k' & timeout & -> & Hs & Hk)|(r & k' & timeout & k & after & -> & Hs & -> & Hsec & Hafter)]].
  - left. destruct (op_step_spares name o a w w' Hs Ho Hv) as (Hv' & Hin & Hl).
    exists (k' a). split; [by apply rtc_once, (a_op _ _ _ _ _ _ o k')|]. split; [done|].
    split; [by eapply op_step_names|]. split; [done|]. split; [done|]. by rewrite Hl.
  - left. destruct (timeout_lock w timeout w' Hs) as (later & M & Ht & -> & HM & Hl). exists (k' (timed_out r)).
    split; [|done]. eapply rtc_l; [by apply (a_timeout _ _ _ _ i r k' later)|]. apply abstract_hidden. by apply hidden_locks_of.
  - right. destruct (acquire_taken w timeout w' Hs) as (Hf & Ht & Hw & Hl). exists r, k, k', after.
    do 5 (split; [done|]). split; [by rewrite Hw|].
    eapply rtc_l; [by apply (a_ask _ _ _ _ i r k')|]. apply abstract_hidden. rewrite Hw. by apply hidden_locks_of.
Qed.

(** A goroutine in a section. *)
Lemma effect_inside (t t' : prog unit) w w' db' q :
  effect t w t' w' → valid (w_db w) → lock_taken w → close name t (w_db w) = Some (db', q) →
  hidden name w w' ∧ valid (w_db w') ∧
  (lock_taken w' ∧ close name t' (w_db w') = Some (db', q) ∨ ¬ lock_taken w' ∧ w_db w' = db' ∧ t' = q).
Proof.
  intros He Hv Hl Hc. destruct t as [?|o k|]; [done| |done]. destruct He as (a & Hs & ->).
  destruct o; cbn in Hc; try done.
  - case_decide as Hin; [|done]. cbn in Hs. subst w'. destruct a. split; [by apply hidden_set_db, frame_Set|].
    cbn. split; [by apply Set_valid|]. by left.
  - case_decide as Hin; [|done]. destruct Hs as [-> ->]. split; [by split; [destruct w|..]|]. split; [done|]. by left.
  - destruct deleteChildsInACascade; [|done]. case_decide as Hin; [|done]. cbn in Hs. subst w'. destruct a.
    split; [by apply hidden_set_db, frame_Delete|]. split; [by apply Delete_valid|]. by left.
  - case_decide as Hn; [|done]. subst. injection Hc as <- <-. destruct a.
    destruct (release_lock w w' Hs Hl) as (Hf & Hh & Hdb). split; [done|]. rewrite Hdb. split; [done|]. by right.
Qed.

(** One effect of one goroutine. *)
Lemma sim_effect w ts L ats i t t' w' :
  sim w ts L ats → (Z.of_nat (length L) + 1 < int64_max)%Z → ts !! i = Some t → effect t w t' w' →
  ∃ L' ats', abstract (mkAPool w L ats) (mkAPool w' L' ats') ∧ sim w' (<[i:=t']> ts) L' ats' ∧ length L' ≤ S (length L).
Proof.
  intros [Hf Hn Hobs Hts|j tj db' q Hl Hn Hv Hj Hc Hobs Hts] Hlen Hi He.
  - destruct (Forall2_lookup_l _ _ _ _ _ Hts Hi) as (at_ & Hai & Hr).
    assert (i < length ts) as Hlt by (by eapply lookup_lt_Some).
    destruct (effect_outside t at_ t' w w' i L ats Hr He (obs_valid _ _ _ Hobs) Hn Hai)
      as [(at' & Ha & Hr' & Hn' & Hv' & Hin & Hl)|(r & k & k' & after & -> & Hsec & Hafter & _ & Hl & Hdb & Ha)].
    + exists L, (<[i:=at']> ats). split; [done|]. split; [|lia]. apply sim_free; [by rewrite Hl|done|by eapply obs_is_inside|].
      by apply Forall2_insert.
    + destruct (Hsec (w_db w) L Hobs Hlen) as (db' & Hc & Hobs'). exists (obs_ref r L).2, (<[i:=k' (obs_ref r L).1]> ats).
      split; [done|]. split; [|apply obs_ref_length].
      apply (sim_busy _ _ _ _ i (k true) db' (after (obs_ref r L).1));
        [done|by rewrite Hdb|by rewrite Hdb; apply Hobs| |by rewrite Hdb|done|].
      * by apply list_lookup_insert_eq.
      * rewrite list_insert_insert_eq. by apply Forall2_insert.
  - assert (i < length ts) as Hlt by (by eapply lookup_lt_Some). destruct (decide (i = j)) as [->|Hij].
    + rewrite Hi in Hj. injection Hj as <-. destruct (effect_inside t t' w w' db' q He Hv Hl Hc) as (Hh & Hv' & [(Hl' & Hc')|(Hl' & <- & ->)]).
      * exists L, ats. split; [by apply abstract_hidden|]. split; [|lia].
        apply (sim_busy _ _ _ _ j t' db' q); [done|by eapply hidden_names|done| |done|done|by rewrite list_insert_insert_eq].
        by apply list_lookup_insert_eq.
      * exists L, ats. split; [by apply abstract_hidden|]. split; [|lia]. apply sim_free; [done|by eapply hidden_names|done..].
    + assert (<[j:=q]> ts !! i = Some t) as Hi' by (by rewrite list_lookup_insert_ne).
      destruct (Forall2_lookup_l _ _ _ _ _ Hts Hi') as (at_ & Hai & Hr).
      destruct (effect_outside t at_ t' w w' i L ats Hr He Hv Hn Hai)
        as [(at' & Ha & Hr' & Hn' & Hv' & Hin & Hl')|(r & k & k' & after & _ & _ & _ & Hno & _)]; [|done].
      destruct (close_inside name tj (w_db w) (w_db w') db' q Hc Hv Hv' Hin) as (db2 & Hc2 & _ & Hv2 & Hin2).
      exists L, (<[i:=at']> ats). split; [done|]. split; [|lia].
      apply (sim_busy _ _ _ _ j tj db2 q); [by apply Hl'|done|done| |done|by eapply obs_is_inside|].
      * by rewrite list_lookup_insert_ne.
      * rewrite list_insert_insert_ne by done. by apply Forall2_insert.
Qed.

(** A goroutine starts another. *)
Lemma sim_go w ts L ats i t k :
  sim w ts L ats → ts !! i = Some (Go t k) →
  ∃ ats', abstract (mkAPool w L ats) (mkAPool w L ats') ∧ sim w (<[i:=k]> ts ++ [t]) L ats'.
Proof.
  assert (∀ ts0, Forall2 follows ts0 ats → ts0 !! i = Some (Go t k) →
    ∃ ats', abstract (mkAPool w L ats) (mkAPool w L ats') ∧ Forall2 follows (<[i:=k]> ts0 ++ [t]) ats') as Hgo.
  { intros ts0 Hts Hi. destruct (Forall2_lookup_l _ _ _ _ _ Hts Hi) as (at_ & Hai & Hr).
    destruct (refines_Go _ _ _ Hr) as (t' & k' & -> & Ht & Hk). exists (<[i:=k']> ats ++ [t']).
    split; [by apply rtc_once, a_go|]. apply Forall2_app; [by apply Forall2_insert|by constructor]. }
  intros [Hf Hn Hobs Hts|j tj db' q Hl Hn Hv Hj Hc Hobs Hts] Hi.
  - destruct (Hgo ts Hts Hi) as (ats' & Ha & Hts'). exists ats'. split; [done|]. by apply sim_free.
  - assert (i ≠ j) as Hij by (intros ->; rewrite Hi in Hj; injection Hj as <-; done).
    assert (i < length ts) as Hlt by (by eapply lookup_lt_Some).
    assert (j < length ts) as Hltj by (by eapply lookup_lt_Some).
    destruct (Hgo (<[j:=q]> ts) Hts) as (ats' & Ha & Hts'); [by rewrite list_lookup_insert_ne|].
    exists ats'. split; [done|]. apply (sim_busy _ _ _ _ j tj db' q); [done..| |done|done|].
    + rewrite lookup_app_l by (by rewrite length_insert). by rewrite list_lookup_insert_ne.
    + rewrite insert_app_l by (by rewrite length_insert). by rewrite list_insert_insert_ne.
Qed.

Lemma sim_step P P' L ats :
  pool_step P P' → sim (p_world P) (p_threads P) L ats → (Z.of_nat (length L) + 1 < int64_max)%Z →
  ∃ L' ats', abstract (mkAPool (p_world P) L ats) (mkAPool (p_world P') L' ats') ∧ sim (p_world P') (p_threads P') L' ats' ∧
    length L' ≤ S (length L).
Proof.
  destruct 1 as [w w' ts i o k a Hi Hs|w ts i t k Hi]; intros Hsim Hlen; cbn in *.
  - apply (sim_effect w ts L ats i (Vis o k)); [done..|by exists a].
  - destruct (sim_go w ts L ats i t k Hsim Hi) as (ats' & Ha & Hs). exists L, ats'. split; [done|]. split; [done|lia].
Qed.

Lemma sim_steps n P P' L ats :
  nsteps pool_step n P P' → sim (p_world P) (p_threads P) L ats → (Z.of_nat (length L + n) < int64_max)%Z →
  ∃ L' ats', abstract (mkAPool (p_world P) L ats) (mkAPool (p_world P') L' ats') ∧ sim (p_world P') (p_threads P') L' ats'.
Proof.
  intros Hn. revert L ats. induction Hn as [P|n P P1 P2 Hs _ IH]; intros L ats Hsim Hlen; [by exists L, ats|].
  destruct (sim_step P P1 L ats Hs Hsim) as (L1 & ats1 & Ha1 & Hsim1 & Hl1); [lia|].
  destruct (IH L1 ats1 Hsim1) as (L2 & ats2 & Ha2 & Hsim2); [lia|].
  exists L2, ats2. split; [by etrans|done].
Qed.
End simulation.
