(* ===== verification/Atomic.v ===== *)
(** * The handlers of the controller use the registry

    Whatever handlers of the controller run at the same time, on whatever
    variables, the observers of a variable change as if each call of
    [RegisterObservation], of the removals and of [GetAllObservations] were one
    step ([observers_are_atomic]): the handlers are programs that [Registry]
    accepts, with the names of variables and APIs free of the segment
    [_observers].  [RemoveObservationById], which no handler calls, is not: it
    reads the entry before it takes the lock ([remove_by_id_is_not_atomic]). *)
From stdpp Require Import relations.
From S2P Require Import Prelude GoStrings GoStrconv Misc NamedLock Storage RamCacheDB Reference Runtime Samples VarHelper Observations VarLock ClientHelper DbList ClientState Controller Variables Subscribe LockProtocol Registry.

(** ** Rules *)
Section rules.
Context {DB : Type} {HI : IStorage DB} {HS : StorageSpec DB} (name : string) (allowed : obs_request → Prop).

Lemma close_bind {A B} (p : prog A) (f : A → prog B) (db db' : DB) q :
  close name p db = Some (db', q) → close name (p ≫= f) db = Some (db', q ≫= f).
Proof.
  revert db. induction p as [? a|? o k IH|? t _ k IH]; intros db Hc; [done| |done].
  destruct o; cbn in *; try done.
  - case_decide; [|done]. by apply IH.
  - case_decide; [|done]. by apply IH.
  - destruct deleteChildsInACascade; [|done]. case_decide; [|done]. by apply IH.
  - case_decide; [|done]. by injection Hc as <- <-.
Qed.

Lemma refines_bind {A B} (Q : A → Prop) (R : B → Prop) p q (f : A → prog B) (g : A → aprog B) :
  refines name Q p q → (∀ a, Q a → refines name R (f a) (g a)) → refines name R (p ≫= f) (q ≫= g).
Proof.
  intros Hr. revert f g. induction Hr as [A Q a Ha|A Q o k k' Ho _ IH|A Q t t' k k' Ht _ _ IH|A Q r timeout k k' after Hsec _ IH _ IHto];
    intros f g Hf; [by apply Hf|constructor; [done|]; intros a Ha; by apply IH|constructor; [done|by apply IH]|].
  cbn. apply (refines_ask name R r timeout (λ b, k b ≫= f) (λ a, k' a ≫= g) (λ a, after a ≫= f)).
  - intros db L Hobs Hlen. destruct (Hsec db L Hobs Hlen) as (db' & Hc & Hobs'). exists db'. split; [|done].
    by apply close_bind.
  - intros a. by apply IH.
  - by apply IHto.
Qed.

(** A program as an abstract one that never calls the registry. *)
Fixpoint embed {A : Type} (p : prog A) : aprog A :=
  match p with
  | Ret a => ARet a
  | Vis o k => AVis o (λ a, embed (k a))
  | Go t k => AGo (embed t) (embed k)
  end.

(** A program that never calls the registry. *)
Fixpoint sparing {A : Type} (p : prog A) : Prop :=
  match p with
  | Ret _ => True
  | Vis o k => spares name o ∧ ∀ a, sparing (k a)
  | Go t k => sparing t ∧ sparing k
  end.

Lemma sparing_refines {A} (p : prog A) : sparing p → refines name (λ _, True) p (embed p).
Proof.
  induction p as [? a|? o k IH|? t IHt k IH]; [by constructor|intros [Ho Hk]|intros [Ht Hk]]; constructor; auto.
Qed.

Lemma sparing_bind {A B} (p : prog A) (f : A → prog B) : sparing p → (∀ a, sparing (f a)) → sparing (p ≫= f).
Proof.
  intros Hp Hf. revert f Hf Hp. induction p as [? a|? o k IH|? t _ k IH]; intros f Hf; [intros _; apply Hf|intros [Ho Hk]|intros [Ht Hk]].
  - split; [done|]. intros a. apply (IH a f Hf (Hk a)).
  - split; [done|]. apply (IH f Hf Hk).
Qed.

(** The requests of an abstract program are allowed ones. *)
Fixpoint asks_only {A : Type} (q : aprog A) : Prop :=
  match q with
  | ARet _ => True
  | AVis o k => ∀ a, asks_only (k a)
  | AGo t k => asks_only t ∧ asks_only k
  | AAsk r k => allowed r ∧ ∀ a, asks_only (k a)
  end.

Lemma asks_only_bind {A B} (q : aprog A) (g : A → aprog B) : asks_only q → (∀ a, asks_only (g a)) → asks_only (q ≫= g).
Proof.
  intros Hq Hg. revert g Hg Hq. induction q as [? a|? o k IH|? t _ k IH|? r k IH]; intros g Hg.
  - intros _. apply Hg.
  - intros Hk a. apply (IH a g Hg (Hk a)).
  - intros [Ht Hk]. split; [done|]. apply (IH g Hg Hk).
  - intros [Hr Hk]. split; [done|]. intros a. apply (IH a g Hg (Hk a)).
Qed.

Lemma asks_only_embed {A} (p : prog A) : asks_only (embed p).
Proof. induction p as [? a|? o k IH|? t IHt k IH]; [done|exact IH|by split]. Qed.

(** The program does for the registry what some abstract one does, which makes
    only allowed requests. *)
Definition tame {A} (Q : A → Prop) (p : prog A) : Type := { q | refines name Q p q ∧ asks_only q }.

Lemma tame_mono {A} (Q R : A → Prop) p : (∀ a, Q a → R a) → tame Q p → tame R p.
Proof. intros HQ (q & Hq & Ha). exists q. split; [by eapply refines_mono|done]. Qed.

Lemma tame_any {A} (Q : A → Prop) p : tame Q p → tame (λ _, True) p.
Proof. by apply tame_mono. Qed.

Lemma tame_ret {A} (Q : A → Prop) a : Q a → tame Q (mret a).
Proof. exists (ARet a). split; [by constructor|done]. Qed.

Lemma tame_bind {A B} (Q : A → Prop) (R : B → Prop) p (f : A → prog B) :
  (∀ a, Decision (Q a)) → tame Q p → (∀ a, Q a → tame R (f a)) → tame R (p ≫= f).
Proof.
  intros HQ (q & Hq & Hask) Hf.
  exists (q ≫= λ a, match decide (Q a) with left Ha => proj1_sig (Hf a Ha) | right _ => embed (f a) end). split.
  - apply (refines_bind Q); [done|]. intros a Ha. destruct (decide (Q a)) as [Ha'|]; [|done].
    exact (proj1 (proj2_sig (Hf a Ha'))).
  - apply asks_only_bind; [done|]. intros a. destruct (decide (Q a)) as [Ha'|]; [|apply asks_only_embed].
    exact (proj2 (proj2_sig (Hf a Ha'))).
Qed.

Lemma tame_seq {A B} (R : B → Prop) (p : prog A) (f : A → prog B) :
  tame (λ _, True) p → (∀ a, tame R (f a)) → tame R (p ≫= f).
Proof. intros Hp Hf. apply (tame_bind (λ _, True)); [apply _|done|]. intros a _. apply Hf. Qed.

Lemma tame_go t : tame (λ _, True) t → tame (λ _, True) (go t).
Proof. intros (q & Hq & Ha). exists (AGo q (ARet ())). split; [constructor; [done|by constructor]|done]. Qed.

#[export] Instance possible_dec o (a : answer o) : Decision (possible o a).
Proof. destruct o; cbn; unfold plain; apply _. Defined.

Lemma tame_do o : spares name o → tame (possible o) (do_ o).
Proof. intros Ho. exists (AVis o ARet). split; [|done]. constructor; [done|]. intros a Ha. by constructor. Qed.

Lemma tame_op {B} (R : B → Prop) o (f : answer o → prog B) :
  spares name o → (∀ a, possible o a → tame R (f a)) → tame R (do_ o ≫= f).
Proof. intros Ho Hf. apply (tame_bind (possible o)); [apply _|by apply tame_do|done]. Qed.

Lemma tame_do_any o : spares name o → tame (λ _, True) (do_ o).
Proof. intros Ho. by apply (tame_any (possible o)), tame_do. Qed.

(** The methods of the storage. *)
Lemma tame_get {B} (R : B → Prop) k d (f : DynamicVar → prog B) :
  (∀ a, (names `prefix_of` keypath k → plain (GetString d) → plain (GetString a)) → tame R (f a)) → tame R (db_Get k d ≫= f).
Proof. intros Hf. by apply (tame_op R (Db_Get k d)). Qed.
Lemma tame_get_any {B} (R : B → Prop) k d (f : DynamicVar → prog B) : (∀ a, tame R (f a)) → tame R (db_Get k d ≫= f).
Proof. intros Hf. apply tame_get. auto. Qed.
Lemma tame_childs {B} (R : B → Prop) k (f : list string → prog B) :
  (∀ a, Forall (lacks dot) a → tame R (f a)) → tame R (db_GetChilds k ≫= f).
Proof. intros Hf. by apply (tame_op R (Db_GetChilds k)). Qed.
Lemma tame_has {B} (R : B → Prop) k (f : bool → prog B) : (∀ a, tame R (f a)) → tame R (db_HasValue k ≫= f).
Proof. intros Hf. apply (tame_op R (Db_HasValue k)); [done|]. intros a _. apply Hf. Qed.
Lemma tame_set k v : spares name (Db_Set k v) → tame (λ _, True) (db_Set k v).
Proof. apply (tame_do_any (Db_Set k v)). Qed.
Lemma tame_delete k b : spares name (Db_DeleteValue k b) → tame (λ _, True) (db_DeleteValue k b).
Proof. apply (tame_do_any (Db_DeleteValue k b)). Qed.
Lemma tame_effect {B} (R : B → Prop) o (f : answer o → prog B) : spares name o → (∀ a, tame R (f a)) → tame R (do_ o ≫= f).
Proof. intros Ho Hf. by apply tame_op. Qed.

Lemma tame_when b p : tame (λ _, True) p → tame (λ _, True) (when b p).
Proof. intros Hp. destruct b; [done|]. by apply tame_ret. Qed.

Lemma tame_for_each {X} (Q : X → Prop) (l : list X) f : Forall Q l → (∀ x, Q x → tame (λ _, True) (f x)) → tame (λ _, True) (for_each l f).
Proof.
  intros Hl Hf. induction l as [|x l IH]; [by apply tame_ret|]. cbn [for_each]. apply Forall_cons in Hl as [Hx Hl].
  apply tame_seq; [by apply Hf|]. intros _. by apply IH.
Qed.
Lemma tame_for_each_any {X} (l : list X) f : (∀ x, tame (λ _, True) (f x)) → tame (λ _, True) (for_each l f).
Proof. intros Hf. apply (tame_for_each (λ _, True)); [by apply Forall_true|auto]. Qed.

Lemma tame_for_up n a f : (∀ i, tame (λ _, True) (f i)) → tame (λ _, True) (for_up n a f).
Proof.
  intros Hf. revert a. induction n as [|n IH]; intros a; [by apply tame_ret|]. cbn [for_up].
  apply tame_seq; [apply Hf|]. intros _. apply IH.
Qed.

Lemma tame_mapM {X Y} (Q : Y → Prop) (f : X → prog Y) l :
  (∀ y, Decision (Q y)) → (∀ x, tame Q (f x)) → tame (Forall Q) (prog_mapM f l).
Proof.
  intros HQ Hf. induction l as [|x l IH]; [by apply tame_ret|]. cbn [prog_mapM].
  apply (tame_bind Q); [apply _|apply Hf|]. intros y Hy. apply (tame_bind (Forall Q)); [apply _|apply IH|].
  intros ys Hys. apply tame_ret. by constructor.
Qed.

(** A named lock that is not the one of the registry. *)
Lemma tame_lock {X} n timeout (f : prog X) :
  n ≠ obs_lock name → tame (λ _, True) f → tame (λ _, True) (NamedLockRun n timeout f).
Proof.
  intros Hn Hf. unfold NamedLockRun. apply tame_op; [done|]. intros [] _; [|by apply tame_ret].
  apply tame_seq; [done|]. intros x. apply tame_op; [done|]. intros _ _. by apply tame_ret.
Qed.
End rules.

(** ** Names *)
Lemma plain_segments s : plain s ↔ "_observers" ∉ npath s.
Proof. done. Qed.

Lemma plain_app a b : plain (a +:+ String dot b) ↔ plain a ∧ plain b.
Proof. unfold plain. rewrite SplitByte_app, not_elem_of_app. done. Qed.

Lemma plain_empty : plain "".
Proof. apply not_elem_of_cons. by split; [|apply not_elem_of_nil]. Qed.

Lemma plain_word s : lacks dot s → s ≠ "_observers" → plain s.
Proof. intros Hl Hs. unfold plain. rewrite SplitByte_lacks by done. apply not_elem_of_cons. split; [done|apply not_elem_of_nil]. Qed.

Lemma plain_Itoa z : plain (Itoa z).
Proof. apply plain_word; [apply Itoa_lacks_dot|]. by apply Itoa_ne_letter. Qed.

Lemma plain_var_key n : plain n → plain (var_key false n).
Proof.
  intros Hn. destruct (var_key_user n) as (m & -> & [-> | ->]); [|done].
  change ("vars." +:+ m) with ("vars" +:+ String dot m). apply plain_app. split; [|done]. by apply plain_word.
Qed.

Lemma plain_strip s : plain s → plain (strip_vars s).
Proof.
  intros Hs. unfold strip_vars. destruct (_ && _) eqn:E; [|done]. apply andb_true_iff in E as [_ Hp].
  apply HasPrefix_spec in Hp as [r ->]. change ("vars." +:+ r) with ("vars" +:+ String dot r) in Hs.
  apply plain_app in Hs as [_ Hs]. exact Hs.
Qed.

(** Names the checks of [SetVar] let through. *)
Lemma plain_accepted n : containsUnderscoreDot n = false → starts_with_underscore n = false → plain n.
Proof.
  intros Hc Hs. pose proof (no_underscore_segments n Hc Hs) as Hn. unfold plain. intros Hin.
  by apply (proj1 (Forall_forall _ _) Hn) in Hin.
Qed.

(** The registries of two names are apart. *)
Lemma registries_apart n n' p :
  plain n → plain n' → n ≠ n' → p_observers n `prefix_of` p →
  ¬ p_observers n' `prefix_of` p ∧ ¬ p `prefix_of` p_observers n'.
Proof.
  intros Hn Hn' Hne Hp.
  assert (∀ a b, plain a → plain b → p_observers a `prefix_of` p_observers b → a = b) as Hcmp.
  { intros a b Ha Hb Hab. unfold p_observers in Hab. apply prefix_snoc_inv in Hab as [Hab|Hab].
    - apply app_inj_tail in Hab as [Hab _]. unfold npath in Hab.
      by rewrite <-(Join_SplitByte a dot), Hab, Join_SplitByte.
    - destruct Hb. destruct Hab as [x Hx]. unfold npath in Hx. rewrite Hx. set_solver. }
  split; intros Hp'.
  - destruct (prefix_weak_total _ _ _ Hp Hp') as [H|H]; apply Hcmp in H; congruence.
  - apply Hne, Hcmp; [done..|]. by etrans.
Qed.

(** ** The registries of other names *)
Section others.
Context {DB : Type} {HI : IStorage DB} {HS : StorageSpec DB} (name : string) (allowed : obs_request → Prop) (Hname : plain name).

Lemma obs_lock_inj n : obs_lock n = obs_lock name → n = name.
Proof. apply str_app_inj_r. Qed.

(** A section of another registry. *)
Lemma confined_other {A} n (p : prog A) :
  plain n → n ≠ name → ¬ ["internal"] `prefix_of` npath n → confined n p → sparing name p.
Proof.
  intros Hn Hne Hi. induction p as [? a|? o k IH|? t _ k IH]; intros Hc; [done| |done].
  destruct Hc as [Ho Hc]. split; [|intros a; by apply IH].
  destruct o; cbn in *; try done.
  - destruct (registries_apart n name _ Hn Hname Hne Ho) as [H1 H2]. split; [done|].
    intros Hk. by destruct (names_outside n Hi _ Hk).
  - destruct deleteChildsInACascade; [|done]. by apply (registries_apart n name).
Qed.

Lemma sparing_runLocked {X Y} (c : ControllerVarHelper) (f : prog X) (h : option X → Y) :
  vh_name c ≠ name → sparing name f → sparing name (runLocked c f ≫= λ o, mret (h o)).
Proof.
  intros Hne Hf. assert (obs_lock (vh_name c) ≠ obs_lock name) as Hl by (intros He; by apply obs_lock_inj in He).
  apply sparing_bind; [|done]. unfold runLocked, NamedLockRun. split; [done|]. intros []; [|done]. cbn.
  by apply sparing_bind.
Qed.

(** A method of the registry of any name. *)
Lemma tame_method {Y} (c : ControllerVarHelper) (p : prog Y) r g :
  plain (vh_name c) → ¬ ["internal"] `prefix_of` npath (vh_name c) → (vh_name c = name → allowed r) →
  method (DB:=DB) c p r g → tame name allowed (λ _, True) p.
Proof.
  intros Hc Hi Hr Hp. destruct (decide (vh_name c = name)) as [He|Hne].
  - exists (AAsk r (λ a, ARet (g a))). split; [|split; [by apply Hr|done]]. rewrite <-He. by apply method_refines.
  - exists (embed p). split; [|apply asks_only_embed]. apply sparing_refines. destruct Hp as (X & f & h & -> & Hf & _).
    apply sparing_runLocked; [done|]. by apply (confined_other (vh_name c)).
Qed.
End others.

(** ** The client helper *)
Section clients.
Context {DB : Type} {HI : IStorage DB} {HS : StorageSpec DB} (name : string) (allowed : obs_request → Prop).
Context (Hplain : plain name) (Hname : ¬ ["internal"] `prefix_of` npath name).
Abbreviation harmless p := (tame name allowed (λ _, True) p).

Lemma internal_outside p : ["internal"] `prefix_of` p → ¬ p_observers name `prefix_of` p ∧ ¬ p `prefix_of` p_observers name.
Proof.
  intros [x ->]. split.
  - intros [y Hy]. apply Hname. unfold p_observers in Hy. rewrite <-app_assoc in Hy.
    destruct (npath name) as [|h r] eqn:E; [by apply SplitByte_ne in E|]. cbn in Hy. injection Hy as <- _. by exists r.
  - intros [y Hy]. apply Hname. unfold p_observers in Hy.
    destruct (npath name) as [|h r] eqn:E; [by apply SplitByte_ne in E|]. cbn in Hy. injection Hy as -> _. by exists r.
Qed.

Lemma spares_Set_internal key v :
  internal_key key → (names `prefix_of` keypath key → plain (GetString v)) → spares name (Db_Set key v).
Proof. intros Hk Hv. split; [|done]. by apply internal_outside. Qed.

Lemma spares_Delete_internal key b : internal_key key → spares name (Db_DeleteValue key b).
Proof. intros Hk. destruct b; by apply internal_outside. Qed.

(** The keys of a client. *)
Lemma internal_lastLiveTime id : internal_key (key_lastLiveTime id).
Proof. unfold internal_key. rewrite keypath_lastLiveTime. apply internal_p_client. Qed.
Lemma internal_apiId id : internal_key (key_apiId id).
Proof. unfold internal_key. rewrite keypath_apiId. apply internal_p_client. Qed.
Lemma internal_client id : internal_key (key_client id).
Proof. unfold internal_key. destruct (keypath_client id) as (r & -> & _). by eexists. Qed.
Lemma keypath_list s : ∃ r, keypath (base_clients +:+ "." +:+ s) = "internal" :: "clients" :: "list" :: r.
Proof. eexists. exact (keypath_app "internal.clients.list" s). Qed.
Lemma internal_list s : internal_key (base_clients +:+ "." +:+ s).
Proof. unfold internal_key. destruct (keypath_list s) as [r ->]. by eexists. Qed.
Lemma list_no_name s : ¬ names `prefix_of` keypath (base_clients +:+ "." +:+ s).
Proof. destruct (keypath_list s) as [r ->]. by intros [x Hx]. Qed.
Lemma names_apiId id : names `prefix_of` keypath (key_apiId id).
Proof. rewrite keypath_apiId. destruct (p_client_shape id) as [r ->]. by eexists. Qed.
Lemma names_observing id s : names `prefix_of` keypath (base_observing id +:+ "." +:+ s).
Proof.
  change (base_observing id +:+ "." +:+ s) with (base_observing id +:+ String dot s). rewrite keypath_app.
  change (SplitByte (base_observing id) dot) with (npath (base_observing id)). rewrite npath_observing. unfold p_observing.
  destruct (p_client_shape id) as [r ->]. rewrite <-!app_assoc. by eexists.
Qed.

Lemma spares_Set_int key z : internal_key key → spares name (Db_Set key (NewDynamicVar_int z)).
Proof. intros Hk. apply spares_Set_internal; [done|]. intros _. apply plain_Itoa. Qed.
Lemma spares_Set_list s v : spares name (Db_Set (base_clients +:+ "." +:+ s) v).
Proof. apply spares_Set_internal; [apply internal_list|]. intros Hk. by apply list_no_name in Hk. Qed.

Lemma tame_currentTime : harmless currentTimeSeconds.
Proof. apply tame_effect; [done|]. intros now. by apply tame_ret. Qed.

Lemma tame_UpdateLiveTime h : harmless (UpdateLiveTime h).
Proof. apply tame_seq; [apply tame_currentTime|]. intros t. apply tame_set, spares_Set_int, internal_lastLiveTime. Qed.

(** Another lock. *)
Lemma other_lock n : HasSuffix n "._observationLock" = false → n ≠ obs_lock name.
Proof.
  intros Hn ->. assert (HasSuffix (obs_lock name) "._observationLock" = true) as Ht; [|congruence].
  apply HasSuffix_spec. by exists name.
Qed.

Definition plain_api (h : ControllerClientHelper) : Prop := match ch_api h with Some api => plain api | None => True end.

Lemma tame_initialize h : plain_api h → harmless (initialize h).
Proof.
  intros Hapi. apply tame_seq; [|intros _; by apply tame_ret]. apply tame_lock; [by apply other_lock|].
  apply tame_has. intros known. apply tame_seq.
  - apply tame_when, tame_get_any. intros tcnt. apply tame_seq; [apply tame_set, (spares_Set_list "count")|]. intros _.
    apply tame_seq; [apply tame_set, spares_Set_list|]. intros _. apply tame_set, spares_Set_int, internal_client.
  - intros _. apply tame_seq; [|intros _; apply tame_UpdateLiveTime]. unfold plain_api in Hapi.
    destruct (ch_api h); [|by apply tame_ret]. apply tame_set, spares_Set_internal; [apply internal_apiId|done].
Qed.

Lemma tame_New id api : match api with Some api => plain api | None => True end →
  tame name allowed (λ h, h = mkCH id api) (NewControllerClientHelper id api).
Proof. intros Hapi. apply tame_seq; [by apply tame_initialize|]. intros _. by apply tame_ret. Qed.

#[local] Instance helper_eq_dec (h h' : ControllerClientHelper) : Decision (h = h').
Proof. solve_decision. Defined.

(** The helper of a program that goes on with it. *)
Lemma tame_New_then {B} (R : B → Prop) id api (f : ControllerClientHelper → prog B) :
  match api with Some api => plain api | None => True end → tame name allowed R (f (mkCH id api)) →
  tame name allowed R (NewControllerClientHelper id api ≫= f).
Proof. intros Hapi Hf. apply (tame_bind name allowed (λ h, h = mkCH id api)); [apply _|by apply tame_New|by intros h ->]. Qed.

Definition known_api (r : result string ControllerClientHelper) : Prop := match r with Ok h => plain_api h | Err _ => True end.
#[local] Instance known_api_dec r : Decision (known_api r).
Proof. unfold known_api, plain_api, plain. repeat case_match; apply _. Defined.

Lemma tame_NewWithApis id : tame name allowed known_api (NewControllerClientHelperWithApis id).
Proof.
  apply tame_get. intros t Ht. specialize (Ht (names_apiId id) plain_empty). cbv zeta.
  case_decide; [by apply tame_ret|]. apply tame_effect; [done|]. intros []; [|by apply tame_ret].
  apply tame_New_then; [done|]. by apply tame_ret.
Qed.

Lemma tame_IsConnected h : harmless (IsConnected h).
Proof.
  unfold IsConnected. destruct (ch_api h) as [api|]; [|by apply tame_ret]. apply tame_effect; [done|]. intros ret.
  apply tame_seq; [apply tame_when, tame_UpdateLiveTime|]. intros _. by apply tame_ret.
Qed.

Lemma tame_TimeSince h : harmless (TimeSinceLastLiveTime h).
Proof.
  apply tame_seq; [apply tame_currentTime|]. intros now. apply tame_seq; [|intros t; by apply tame_ret].
  apply tame_get_any. intros t. by apply tame_ret.
Qed.

Lemma tame_Count h : harmless (GetObservingVarsCount h).
Proof. apply tame_get_any. intros t. by apply tame_ret. Qed.

(** The names of the observed variables are plain. *)
Lemma tame_GetObservingVars h : tame name allowed (Forall plain) (GetObservingVars h).
Proof.
  apply tame_childs. intros childs _. apply tame_mapM; [unfold plain; apply _|]. intros c. apply tame_get. intros t Ht.
  apply tame_ret, plain_strip, Ht; [apply names_observing|apply plain_empty].
Qed.

Lemma tame_Notify h p : harmless (Notify h p).
Proof.
  unfold Notify. destruct (ch_api h) as [api|]; [|by apply tame_ret]. apply tame_effect; [done|]. intros []; [|by apply tame_ret].
  apply tame_seq; [apply tame_UpdateLiveTime|]. intros _. by apply tame_ret.
Qed.

Lemma tame_RegisterNew h v : plain v → harmless (RegisterNewObservation h v).
Proof.
  intros Hv. apply tame_seq; [|intros _; by apply tame_ret]. apply tame_lock; [by apply other_lock|].
  apply tame_seq; [apply tame_UpdateLiveTime|]. intros _. apply tame_get_any. intros tcurr.
  apply tame_seq; [apply tame_set, spares_Set_int, (internal_base_observing _ "count")|]. intros _.
  apply tame_set, spares_Set_internal; [apply internal_base_observing|]. intros _.
  apply (plain_app "vars" v). split; [by apply plain_word|done].
Qed.

Lemma tame_find n i base v : harmless (find_from n i base v).
Proof.
  revert i. induction n as [|n IH]; intros i; [by apply tame_ret|]. cbn [find_from]. apply tame_get_any. intros t.
  case_decide; [by apply tame_ret|apply IH].
Qed.

(** The shift of a list of names moves plain names. *)
Lemma tame_shift_observing id i n : harmless (shift_down (base_observing id) i n).
Proof.
  apply tame_for_up. intros j. apply tame_get. intros next Hnext. apply tame_set, spares_Set_internal; [apply internal_base_observing|].
  intros _. apply Hnext; [apply names_observing|apply plain_empty].
Qed.
Lemma tame_shift_list i n : harmless (shift_down base_clients i n).
Proof. apply tame_for_up. intros j. apply tame_get_any. intros next. apply tame_set, spares_Set_list. Qed.

Lemma tame_Unregister h v : harmless (UnregisterObservation h v).
Proof.
  apply tame_seq; [|intros _; by apply tame_ret]. apply tame_lock; [by apply other_lock|].
  apply tame_seq; [apply tame_UpdateLiveTime|]. intros _. apply tame_seq; [apply tame_Count|]. intros curr.
  apply tame_seq; [apply tame_seq; [apply tame_Count|]; intros cnt; apply tame_find|]. intros idx. apply tame_when.
  apply tame_seq; [apply tame_shift_observing|]. intros _.
  apply tame_seq; [apply tame_delete, spares_Delete_internal, internal_base_observing|]. intros _.
  apply tame_set, spares_Set_int, (internal_base_observing _ "count").
Qed.

Lemma tame_RemoveClient h : harmless (RemoveClientFromObservationSystem h).
Proof.
  apply tame_seq; [|intros _; by apply tame_ret]. apply tame_lock; [by apply other_lock|].
  apply tame_get_any. intros tci. apply tame_seq; [|intros _; apply tame_delete, spares_Delete_internal, internal_client].
  apply tame_when. apply tame_get_any. intros tcc. apply tame_seq; [apply tame_shift_list|]. intros _.
  apply tame_seq; [apply tame_delete, spares_Delete_internal, internal_list|]. intros _. apply tame_set, (spares_Set_list "count").
Qed.
End clients.

(** ** The controller *)
Section controller.
Context {DB : Type} {HI : IStorage DB} {HS : StorageSpec DB} `{RangeOrder} (name : string) (allowed : obs_request → Prop).
(** Whatever is not a registration may be asked for. *)
Context (Hallowed : ∀ r, (∀ cl md, r ≠ ReqRegister cl md) → allowed r).
Context (Hplain : plain name) (Hname : ¬ ["internal"] `prefix_of` npath name).
Context (c : TheController) (Hraw : allowRawDbAccess c = false).
Abbreviation harmless p := (tame name allowed (λ _, True) p).

Lemma helper_name n : vh_name (helper c n) = var_key false n.
Proof. unfold helper, var_key. by rewrite Hraw. Qed.
Lemma helper_plain n : plain n → plain (vh_name (helper c n)).
Proof. rewrite helper_name. apply plain_var_key. Qed.
Lemma helper_vars n : ["vars"] `prefix_of` npath (vh_name (helper c n)).
Proof. rewrite helper_name. destruct (npath_user n) as [r ->]. by exists r. Qed.
Lemma helper_not_internal n : ¬ ["internal"] `prefix_of` npath (vh_name (helper c n)).
Proof. destruct (helper_vars n) as [x ->]. by intros [y Hy]. Qed.

(** A method of the registry of a variable with a plain name. *)
Lemma tame_registry {Y} n (p : prog Y) r g :
  plain n → (vh_name (helper c n) = name → allowed r) → method (DB:=DB) (helper c n) p r g → harmless p.
Proof. intros Hn Hr Hp. eapply (tame_method name allowed Hplain); [by apply helper_plain|apply helper_not_internal|exact Hr|exact Hp]. Qed.

(** Reading the registry of any name. *)
Lemma tame_GetAll n : harmless (GetAllObservations (helper c n)).
Proof.
  destruct (decide (vh_name (helper c n) = name)) as [He|Hne].
  - exists (AAsk ReqGetAll (λ a, ARet (map_of a))). split; [rewrite <-He; apply method_refines, method_GetAll|].
    split; [by apply Hallowed|done].
  - eexists. split; [|apply asks_only_embed]. apply sparing_refines, sparing_runLocked; [done|]. apply sparing_bind; [by repeat split|]. intros cnt.
    generalize 0%Z, (∅ : gmap string (string * string)). induction (Z.to_nat cnt) as [|m IH]; intros i res; [done|].
    cbn [for_up_acc]. apply sparing_bind; [by repeat split|]. intros res'. apply IH.
Qed.

(** *** Clients that went away *)
Lemma tame_deleteClient h : harmless (deleteClient c h).
Proof.
  apply (tame_bind name allowed (Forall plain)); [unfold plain; apply _|by apply tame_GetObservingVars|]. intros vars Hvars.
  apply tame_seq; [by apply tame_RemoveClient|]. intros _. apply (tame_for_each name allowed plain); [done|]. intros v Hv.
  eapply tame_registry; [exact Hv| |apply method_RemoveClient]. intros _. by apply Hallowed.
Qed.

Lemma tame_check h : harmless (checkClientLiveTime c h).
Proof.
  apply tame_seq; [by apply tame_IsConnected|]. intros b. apply tame_when. apply tame_seq; [by apply tame_TimeSince|].
  intros t. apply tame_when, tame_deleteClient.
Qed.

Lemma tame_unless_live dv p : harmless p → harmless (unless_live dv p).
Proof. apply tame_when. Qed.

(** *** Notifications *)
Lemma tame_notify_client n v cl md : harmless (notify_client c n v cl md).
Proof.
  apply (tame_bind name allowed known_api); [intros r; unfold known_api, plain_api, plain; repeat case_match; apply _|by apply tame_NewWithApis|].
  intros [h|e] Hr.
  - apply tame_seq; [by apply tame_Notify|]. intros res. apply tame_unless_live, tame_check.
  - case_decide; [|by apply (tame_do_any name allowed (Log_Error _))]. apply tame_effect; [done|]. intros _.
    apply tame_New_then; [done..|]. apply tame_deleteClient.
Qed.

Lemma tame_notifyClients obs n v : harmless (notifyClientsAboutVarChange c obs n v).
Proof. apply tame_for_each_any. intros [key tup]. apply tame_go, tame_notify_client. Qed.

Lemma tame_notifyParents fuel v n value : harmless (notifyParents_fuel fuel c v n value).
Proof.
  revert v. induction fuel as [|fuel IH]; intros v; [by apply tame_ret|]. cbn [notifyParents_fuel].
  destruct (lastDotIndex v); [|by apply tame_ret]. apply tame_seq; [apply tame_GetAll|]. intros obs.
  apply tame_seq; [apply tame_notifyClients|]. intros _. apply IH.
Qed.

Lemma tame_notifyVar n value : harmless (notifyVarModification c n value).
Proof.
  apply tame_go. apply tame_seq; [apply tame_GetAll|]. intros obs. apply tame_seq; [apply tame_notifyClients|]. intros _.
  apply tame_seq; [apply tame_notifyParents|]. intros _. apply tame_seq; [apply tame_GetAll|]. intros obs2. apply tame_notifyClients.
Qed.

(** *** Values and flags *)

(** Keys of a variable outside of its registry. *)
Lemma var_not_names n : ¬ names `prefix_of` keypath (vh_name (helper c n)).
Proof.
  rewrite helper_name. destruct (keypath_user n) as (m & -> & _). by intros [x Hx].
Qed.
Lemma elem_of_trim_last x l : x ∈ trim_last l → x ∈ l.
Proof.
  destruct l as [|y l _] using rev_ind; [done|]. unfold trim_last. rewrite last_snoc. destruct y; [|done].
  rewrite removelast_snoc. set_solver.
Qed.
Lemma keypath_plain n : plain n → "_observers" ∉ keypath n.
Proof.
  intros Hn Hin. apply Hn. unfold keypath in Hin. destruct (SplitByte n dot) as [|w [|w' ws]] eqn:E; [| done|].
  - by apply elem_of_trim_last in Hin.
  - by apply elem_of_trim_last in Hin.
Qed.
Lemma spares_value n v : plain n → spares name (Db_Set (vh_name (helper c n)) v).
Proof.
  intros Hn. split; [|intros Hk; by apply var_not_names in Hk]. intros [x Hx].
  apply (keypath_plain _ (helper_plain n Hn)). rewrite Hx. unfold p_observers. set_solver.
Qed.

Lemma keypath_flag n : keypath (vh_name (helper c n) +:+ "." +:+ "_lock") = npath (vh_name (helper c n)) ++ ["_lock"].
Proof. by rewrite (keypath_below _ "_lock"). Qed.
Lemma spares_flag n v : plain n → spares name (Db_Set (vh_name (helper c n) +:+ "." +:+ "_lock") v).
Proof.
  intros Hn. unfold spares. rewrite keypath_flag. split.
  - intros [x Hx]. assert ("_observers" ∈ npath (vh_name (helper c n)) ++ ["_lock"]) as Hin by (rewrite Hx; unfold p_observers; set_solver).
    apply elem_of_app in Hin as [Hin|Hin]; [by apply (helper_plain n Hn)|]. by apply list_elem_of_singleton in Hin.
  - destruct (helper_vars n) as [x ->]. by intros [y Hy].
Qed.

Lemma tame_IsLocked n : harmless (IsLocked (helper c n)).
Proof. apply tame_get_any. intros t. by apply tame_ret. Qed.
Lemma tame_SetFlag n v : plain n → harmless (SetFlag (helper c n) "lock" v).
Proof. intros Hn. unfold SetFlag. cbn [flag_key]. rewrite decide_False by done. by apply tame_set, spares_flag. Qed.

Lemma tame_Lock n ms : plain n → harmless (Lock (helper c n) ms).
Proof.
  intros Hn. apply tame_effect; [done|]. intros start. generalize (lock_fuel (lock_timeout ms)). intros fuel.
  induction fuel as [|fuel IH]; [by apply tame_ret|]. cbn [Lock_loop]. apply tame_seq.
  - apply tame_seq; [|intros r; by apply tame_ret]. apply tame_lock; [by apply other_lock|].
    apply tame_seq; [apply tame_IsLocked|]. intros []; [by apply tame_ret|].
    apply tame_seq; [by apply tame_SetFlag|]. intros _. apply tame_IsLocked.
  - intros []; [by apply tame_ret|]. apply tame_effect; [done|]. intros now.
    destruct (lock_timeout ms <=? now - start)%Z; [by apply tame_ret|]. apply tame_effect; [done|]. intros r.
    apply tame_effect; [done|]. intros _. exact IH.
Qed.

Lemma tame_Unlock n : plain n → harmless (Unlock (helper c n)).
Proof.
  intros Hn. apply tame_seq; [|intros _; by apply tame_ret]. apply tame_lock; [by apply other_lock|]. by apply tame_SetFlag.
Qed.

Lemma tame_SetVar n v : harmless (SetVar c n v).
Proof.
  unfold SetVar. cbv zeta. set (f := GetOnly n valid_name_chars).
  destruct (set_var_error c f v) as [e|] eqn:He; [by apply tame_ret|].
  assert (plain f) as Hf.
  { apply eq_None_not_Some in He. rewrite set_var_error_iff, Hraw in He.
    apply plain_accepted; destruct (containsUnderscoreDot f), (starts_with_underscore f); naive_solver. }
  apply tame_seq; [apply tame_IsLocked|]. intros []; [by apply tame_ret|].
  apply tame_seq; [unfold SetValue; destruct (Contains _ _); [by apply tame_ret|by apply tame_set, spares_value]|]. intros _.
  apply tame_seq; [apply tame_go, tame_notifyVar|]. intros _. by apply tame_ret.
Qed.

(** *** Reading and deleting *)
Definition plain_values (r : option values) : Prop := match r with Some vals => Forall (λ t, plain (GetString t.1)) vals | None => True end.
#[local] Instance plain_values_dec r : Decision (plain_values r).
Proof. unfold plain_values, plain. case_match; apply _. Defined.
#[local] Instance plain_dec s : Decision (plain s).
Proof. unfold plain. apply _. Defined.

(** The children a client sees have plain names. *)
Lemma tame_GetChildNames n : tame name allowed (Forall plain) (GetChildNames (helper c n)).
Proof.
  apply tame_childs. intros childs Hch. apply tame_ret. apply Forall_forall. intros ch [Hv Hin]%list_elem_of_filter.
  apply (proj1 (Forall_forall _ _) Hch) in Hin. apply plain_word; [done|]. intros ->.
  unfold helper, var_helper, SetControlledVarName in Hv. rewrite Hraw in Hv. cbn in Hv. by destruct (HasPrefix n "vars.").
Qed.

(** [P] says that the names read are plain; reading others does no harm either. *)
Lemma tame_read_childs (P : bool) read prefix childs res :
  (P → ∀ s, plain s → plain (prefix +:+ s)) → Forall plain childs → (P → plain_values (Some res)) →
  (∀ n, (P → plain n) → tame name allowed (λ r, P → plain_values r) (read n)) →
  tame name allowed (λ r, P → plain_values r) (read_childs read prefix childs res).
Proof.
  intros Hpre Hch Hres Hread. revert res Hres. induction childs as [|ch childs IH]; intros res Hres; [by apply tame_ret|].
  apply Forall_cons in Hch as [Hc Hch]. cbn [read_childs].
  apply (tame_bind name allowed (λ r, P → plain_values r)); [apply _|apply Hread; intros HP; by apply Hpre|].
  intros [tmp|] Htmp; [|by apply tame_ret]. apply IH; [done|]. intros HP. apply Forall_app. split; [by apply Htmp|by apply Hres].
Qed.

Lemma tame_readFromDb (P : bool) fuel n b :
  (P → plain n) → tame name allowed (λ r, P → plain_values r) (readFromDb fuel c n b).
Proof.
  revert n. induction fuel as [|fuel IH]; intros n Hn; [by apply tame_ret|]. cbn [readFromDb]. apply tame_get_any. intros dv.
  assert (P → plain_values (Some (if decide (GetString dv ≠ "") then [(NewDynamicVar n, dv)] else []))) as Hres.
  { intros HP. cbn. case_decide; [constructor; [by apply Hn|done]|constructor]. }
  destruct b; [|by apply tame_ret]. apply (tame_bind name allowed (Forall plain)); [apply _|apply tame_GetChildNames|].
  intros childs Hch. apply tame_read_childs; [|done|done|intros m Hm; by apply IH].
  intros HP s Hs. destruct (decide (n ≠ "")) as [Hne|He%dec_stable]; [|by subst n].
  rewrite (str_app_assoc n "." s). apply (plain_app n s). auto.
Qed.

(** The name a request for [n] reads. *)
Definition plain_target (n : string) : Prop := match parse_wildcard n with Ok (m, _) => plain m | Err _ => True end.
#[export] Instance plain_target_dec n : Decision (plain_target n).
Proof. unfold plain_target, plain. repeat case_match; apply _. Defined.

Definition plain_result (r : option GetVarsResult) : Prop :=
  match r with Some (Ok vals) => Forall (λ t, plain (GetString t.1)) vals | _ => True end.
#[local] Instance plain_result_dec r : Decision (plain_result r).
Proof. unfold plain_result, plain. repeat case_match; apply _. Defined.

Lemma tame_GetVars fuel n d : tame name allowed (λ r, plain_target n → plain_result r) (GetVars fuel c n d).
Proof.
  unfold GetVars, plain_target. destruct (parse_wildcard n) as [[m b]|e]; [|by apply tame_ret].
  apply (tame_bind name allowed (λ r, bool_decide (plain m) → plain_values r)); [apply _|apply tame_readFromDb; apply bool_decide_unpack|].
  intros r Hr. apply tame_ret. intros Hm. specialize (Hr (bool_decide_pack _ Hm)).
  destruct r as [[|v vals]|]; [|done|done]. cbn. by constructor.
Qed.

Lemma tame_delete_var n : plain n → harmless (vh_DeleteValue (helper c n)).
Proof.
  intros Hn. apply tame_effect; [done|]. intros _. apply tame_delete. cbn.
  destruct (spares_value n NewEmptyDynamicVar Hn) as [Hs _]. exact Hs.
Qed.

Lemma tame_DelVar fuel n : plain_target n → harmless (DelVar fuel c n).
Proof.
  intros Hn. apply (tame_bind name allowed (λ r, plain_target n → plain_result r)); [apply _|apply tame_GetVars|].
  intros [[vals|e]|] Hr; [|by apply tame_ret..]. specialize (Hr Hn). cbn in Hr. case_decide; [by apply tame_ret|].
  apply tame_seq; [apply tame_when, (tame_do_any name allowed (Println _)); done|]. intros _.
  apply tame_seq; [|intros _; by apply tame_ret]. apply (tame_for_each name allowed (λ t, plain (GetString t.1))); [done|]. intros t Ht.
  apply tame_seq; [by apply tame_delete_var|]. intros _. apply tame_go, tame_notifyVar.
Qed.

(** *** Observing *)
Lemma tame_mapM_any {X Y} (f : X → prog Y) l : (∀ x, harmless (f x)) → harmless (prog_mapM f l).
Proof. intros Hf. apply (tame_any name allowed (Forall (λ _, True))), tame_mapM; [apply _|done]. Qed.

Lemma tame_getVarInternal n : harmless (getVarInternal c n).
Proof.
  apply tame_get_any. intros dv. cbv zeta. apply tame_seq; [apply (tame_any name allowed (Forall plain)), tame_GetChildNames|]. intros childs.
  apply tame_seq; [|intros below; by apply tame_ret]. apply tame_mapM_any. intros ch. apply tame_get_any. intros dv2. by apply tame_ret.
Qed.

Lemma tame_ObserveVar n cl md api :
  plain n → plain api → (vh_name (helper c n) = name → allowed (ReqRegister cl md)) → harmless (ObserveVar c n cl md api).
Proof.
  intros Hn Hapi Hr. apply tame_has. intros b. apply tame_when. apply tame_New_then; [done..|].
  apply tame_seq; [eapply tame_registry; [exact Hn|exact Hr|apply method_Register]|]. intros _.
  apply tame_seq; [by apply tame_RegisterNew|]. intros _. apply tame_seq; [apply tame_getVarInternal|]. intros vals.
  apply tame_seq; [by apply tame_Notify|]. intros dv. apply tame_unless_live, tame_check.
Qed.

Lemma tame_StopObservingVar n cl md api : plain n → plain api → harmless (StopObservingVar c n cl md api).
Proof.
  intros Hn Hapi. apply tame_seq.
  { eapply tame_registry; [exact Hn| |apply method_Remove]. intros _. by apply Hallowed. }
  intros _.
  apply tame_New_then; [done..|]. by apply tame_Unregister.
Qed.

Lemma tame_ClientConnected cl api : plain api → harmless (ClientConnected c cl api).
Proof.
  intros Hapi. apply tame_seq.
  { case_decide; [|by apply tame_ret]. apply tame_effect; [done|]. intros now. by apply tame_ret. }
  intros id. apply tame_New_then; [done..|]. apply tame_seq; [apply tame_Count|]. intros observing.
  apply tame_seq; [|intros _; by apply tame_ret]. apply tame_go.
  apply tame_seq; [apply (tame_any name allowed (Forall plain)), tame_GetObservingVars|]. intros vars.
  induction vars as [|v vars IH]; [by apply tame_ret|]. cbn [update_vars]. apply tame_seq.
  - apply tame_seq; [apply tame_getVarInternal|]. intros vals. apply tame_seq; [|intros ls; by apply tame_ret].
    apply tame_mapM_any. intros dv. apply tame_seq; [|intros ms; by apply tame_ret].
    apply tame_childs. intros childs _. by apply tame_ret.
  - intros p. apply tame_seq; [by apply tame_Notify|]. intros dv. case_decide; [apply tame_check|exact IH].
Qed.
End controller.

(** ** Any number of handlers at once *)

(** The methods of [IController]: what the APIs ask for, for a client or for
    themselves. *)
Inductive handler :=
  | HandleSet (n : string) (v : DynamicVar)
  | HandleGet (fuel : nat) (n : string) (d : DynamicVar)
  | HandleDel (fuel : nat) (n : string)
  | HandleChilds (n : string)
  | HandleLock (n : string) (ms : Z)
  | HandleUnlock (n : string)
  | HandleIsLocked (n : string)
  | HandleObserve (n clientId metadata api : string)
  | HandleStop (n clientId metadata api : string)
  | HandleApiStarted (api : string)
  | HandleConnected (clientId api : string)
  | HandleVersion.

Definition handle `{RangeOrder} (c : TheController) (h : handler) : prog unit :=
  match h with
  | HandleSet n v => SetVar c n v ;; mret ()
  | HandleGet fuel n d => GetVars fuel c n d ;; mret ()
  | HandleDel fuel n => DelVar fuel c n ;; mret ()
  | HandleChilds n => GetChildsOfVar c n ;; mret ()
  | HandleLock n ms => LockVar c n ms ;; mret ()
  | HandleUnlock n => UnlockVar c n ;; mret ()
  | HandleIsLocked n => IsVarLocked c n ;; mret ()
  | HandleObserve n clientId metadata api => ObserveVar c n clientId metadata api
  | HandleStop n clientId metadata api => StopObservingVar c n clientId metadata api
  | HandleApiStarted api => ApiStarted api
  | HandleConnected clientId api => ClientConnected c clientId api ;; mret ()
  | HandleVersion => let _ := GetSystemVersion c in mret ()
  end.

(** No segment of the names is [_observers].  [SetVar] sees to that itself, and
    reading does no harm. *)
Definition well_named (h : handler) : Prop :=
  match h with
  | HandleDel _ n => plain_target n
  | HandleLock n _ | HandleUnlock n => plain n
  | HandleObserve n _ _ api | HandleStop n _ _ api => plain n ∧ plain api
  | HandleConnected _ api => plain api
  | _ => True
  end.

Section handlers.
Context {DB : Type} {HI : IStorage DB} {HS : StorageSpec DB} `{RangeOrder}.
Implicit Types (w : World DB) (L : list (string * string)).

(** The registrations that the handlers ask for. *)
Definition registered (c : TheController) (name : string) (hs : list handler) (e : string * string) : Prop :=
  ∃ n api, HandleObserve n e.1 e.2 api ∈ hs ∧ vh_name (helper c n) = name.
Definition requested (c : TheController) (name : string) (hs : list handler) (r : obs_request) : Prop :=
  match r with ReqRegister cl md => registered c name hs (cl, md) | _ => True end.

Lemma tame_handle name (c : TheController) hs h :
  plain name → ¬ ["internal"] `prefix_of` npath name → allowRawDbAccess c = false → well_named h → h ∈ hs →
  tame (DB:=DB) name (requested c name hs) (λ _, True) (handle c h).
Proof.
  intros Hp Hi Hraw Hh Hin.
  assert (∀ r, (∀ cl md, r ≠ ReqRegister cl md) → requested c name hs r) as Hall.
  { intros [cl md| | | | |] Hr; try done. by destruct (Hr cl md). }
  destruct h as [n v|fuel n d|fuel n|n|n ms|n|n|n cl md api|n cl md api|api|cl api|]; cbn [handle well_named] in *.
  - apply tame_seq; [by apply tame_SetVar|]. intros _. by apply tame_ret.
  - apply tame_seq; [|intros _; by apply tame_ret]. by eapply tame_any, tame_GetVars.
  - apply tame_seq; [by apply tame_DelVar|]. intros _. by apply tame_ret.
  - apply tame_seq; [|intros _; by apply tame_ret]. unfold GetChildsOfVar. destruct (Contains n "*"); [by apply tame_ret|].
    by eapply tame_any, tame_GetChildNames.
  - apply tame_seq; [by apply tame_Lock|]. intros _. by apply tame_ret.
  - apply tame_seq; [by apply tame_Unlock|]. intros _. by apply tame_ret.
  - apply tame_seq; [by apply tame_IsLocked|]. intros _. by apply tame_ret.
  - destruct Hh. apply tame_ObserveVar; [done..|]. intros Hn. by exists n, api.
  - destruct Hh. by apply tame_StopObservingVar.
  - by apply (tame_do_any name _ (Apis_insert api)).
  - apply tame_seq; [by apply tame_ClientConnected|]. intros _. by apply tame_ret.
  - by apply tame_ret.
Qed.

Lemma handlers_refine name (c : TheController) hs0 hs :
  plain name → ¬ ["internal"] `prefix_of` npath name → allowRawDbAccess c = false → Forall well_named hs → hs ⊆ hs0 →
  ∃ ats, Forall2 (refines (DB:=DB) name (λ _, True)) (handle c <$> hs) ats ∧ Forall (asks_only (requested c name hs0)) ats.
Proof.
  intros Hp Hi Hraw. induction 1 as [|h hs Hh _ IH]; intros Hsub; [by exists []|].
  destruct IH as (ats & IH1 & IH2); [set_solver|].
  destruct (tame_handle name c hs0 h Hp Hi Hraw Hh) as (q & Hq & Ha); [set_solver|]. exists (q :: ats).
  split; by constructor.
Qed.

(** What the abstract machine has in its list was there or has been registered. *)
Lemma elem_of_obs_ref r L e : e ∈ (obs_ref r L).2 → e ∈ L ∨ ∃ cl md, r = ReqRegister cl md ∧ e = (cl, md).
Proof.
  destruct r as [cl md|cl md|id|cl| |]; cbn; try (by left).
  - intros [He|He]%elem_of_app; [by left|]. apply list_elem_of_singleton in He. right. by exists cl, md.
  - intros He. left. by eapply elem_of_remove_last.
  - destruct (Atoi id); [|by left]. case_decide; [by left|]. intros He. left. by eapply elem_of_remove_last.
  - intros [_ He]%list_elem_of_filter. by left.
  - intros []%elem_of_nil.
Qed.

Lemma astep_registered name (allowed : obs_request → Prop) (P P' : apool) (K : string * string → Prop) :
  (∀ cl md, allowed (ReqRegister cl md) → K (cl, md)) →
  rtc (astep (DB:=DB) name) P P' → Forall (asks_only allowed) (ap_threads P) → (∀ e, e ∈ ap_list P → K e) →
  ∀ e, e ∈ ap_list P' → K e.
Proof.
  intros HK. induction 1 as [|P P1 P2 Hs _ IH]; [done|]. intros Ht HL.
  assert (∀ i q, ap_threads P !! i = Some q → asks_only allowed q) as Hget by (intros i q; by apply Forall_lookup_1).
  destruct Hs as [w w' L ts i o k a Hi _|w L ts i t k Hi|w L ts i r k Hi|w L ts i r k t Hi _|w w' L ts _]; cbn in *;
    [specialize (Hget _ _ Hi) as Hk; apply IH..|by apply IH]; try done.
  - apply Forall_insert; [done|]. apply Hk.
  - destruct Hk as [Hk1 Hk2]. apply Forall_app. split; [by apply Forall_insert|by constructor].
  - destruct Hk as [_ Hk]. apply Forall_insert; [done|]. apply Hk.
  - intros e [He|(cl & md & -> & ->)]%elem_of_obs_ref; [by apply HL|]. apply HK, Hk.
  - destruct Hk as [_ Hk]. apply Forall_insert; [done|]. apply Hk.
Qed.

(** C3.  The observers of a variable change atomically.  Whatever handlers run at
    the same time, interleaved effect by effect with the goroutines they start,
    the execution is one of the abstract machine, where each call of the
    registry is one step on a list, or a time-out that changes nothing.  When
    nobody is in a critical section, the entries in the database hold the list of
    the abstract machine, and the goroutines go on as the abstract ones; in the
    list is only what was there or what a handler has registered. *)
Theorem observers_are_atomic (c : TheController) v w w' L hs n ts' :
  let name := vh_name (helper c v) in
  allowRawDbAccess c = false → plain v → plain_names (w_db w) →
  obs_is (w_db w) name L → w_locks w !! obs_lock name ≠ Some false →
  Forall well_named hs → (Z.of_nat (length L + n) < int64_max)%Z →
  nsteps pool_step n (mkPool w (handle c <$> hs)) (mkPool w' ts') →
  ∃ ats L' ats',
    Forall2 (refines name (λ _, True)) (handle c <$> hs) ats ∧
    rtc (astep name) (mkAPool w L ats) (mkAPool w' L' ats') ∧
    (w_locks w' !! obs_lock name ≠ Some false → obs_is (w_db w') name L' ∧ Forall2 (refines name (λ _, True)) ts' ats') ∧
    ∀ e, e ∈ L' → e ∈ L ∨ registered c name hs e.
Proof.
  intros name Hraw Hv Hnames Hobs Hfree Hhs Hlen Hsteps.
  assert (plain name) as Hp by (by apply helper_plain).
  assert (¬ ["internal"] `prefix_of` npath name) as Hi by (by apply helper_not_internal).
  destruct (handlers_refine name c hs hs Hp Hi Hraw Hhs) as (ats & Hats & Hask); [done|].
  destruct (sim_steps name Hi n _ _ L ats Hsteps) as (L' & ats' & Ha & Hsim); [by apply sim_free|done|].
  exists ats, L', ats'. do 2 (split; [done|]). split.
  - intros Hl. cbn in Hsim. by destruct Hsim as [_ _ ? ?|].
  - apply (astep_registered name (requested c name hs) (mkAPool w L ats) (mkAPool w' L' ats') (λ e, e ∈ L ∨ registered c name hs e));
      [by right|exact Ha|exact Hask|by left].
Qed.
End handlers.

(** ** Witness, and what is not atomic *)

Lemma schedule_nsteps {DB} {HI : IStorage DB} {E : Environment} is_ (P P' : pool DB) :
  schedule is_ P = Some P' → nsteps pool_step (length is_) P P'.
Proof.
  revert P. induction is_ as [|i is_ IH]; intros [w ts]; [intros [= ->]; constructor|]. cbn.
  destruct (ts !! i) as [[a|o k|t k]|] eqn:Hi; [done| | |done].
  - destruct (exec o w) as [[a w1]|] eqn:He; [|done]. intros Hr. cbn in Hr.
    eapply nsteps_l; [|by apply IH]. eapply pool_op; [done|]. by apply exec_op_step.
  - intros Hr. eapply nsteps_l; [|by apply IH]. by apply pool_go.
Qed.

Section witnesses.
Existing Instance canonical_order.
Existing Instance ascii_case.
Existing Instance online.

(** [bob] gets as far as the lock while [ann] is in her section; the lamp is set
    meanwhile. *)
Definition two_observe : list handler :=
  [HandleObserve "lamp" "ann" "m" "VSTP"; HandleObserve "lamp" "bob" "m" "VSTP"; HandleSet "lamp" (NewDynamicVar "on")].
Definition in_turns : list nat :=
  repeat 0 14 ++ repeat 1 11 ++ repeat 2 2 ++ repeat 0 4 ++ repeat 1 7 ++ repeat 0 5 ++ repeat 1 5.
Definition in_turns_end : pool RamCacheDB := pool_after in_turns (mkPool fresh_world (handle default_controller <$> two_observe)).

Lemma fresh_plain : plain_names fresh_db.
Proof. intros p _. rewrite fresh_val. apply plain_empty. Qed.

Lemma observers_are_atomic_witness :
  let w' := p_world in_turns_end in
  plain "lamp" ∧ plain_names (w_db fresh_world) ∧ Forall well_named two_observe ∧
  count (w_db w') "vars.lamp" = 2%Z ∧ entry (w_db w') "vars.lamp" 0 = ("ann", "m") ∧ entry (w_db w') "vars.lamp" 1 = ("bob", "m") ∧
  ∃ L', obs_is (w_db w') "vars.lamp" L' ∧ ∀ e, e ∈ L' → e ∈ [] ∨ registered default_controller "vars.lamp" two_observe e.
Proof.
  intros w'. assert (plain "lamp") as Hl by (apply plain_word; by vm_compute).
  assert (plain "VSTP") as Ha by (apply plain_word; by vm_compute).
  assert (Forall well_named two_observe) as Hh.
  { apply Forall_cons_2; [by split|]. apply Forall_cons_2; [by split|]. by apply Forall_cons_2, Forall_nil_2. }
  split; [exact Hl|]. split; [exact fresh_plain|]. split; [exact Hh|]. split; [by vm_compute|]. split; [by vm_compute|].
  split; [by vm_compute|].
  destruct (observers_are_atomic default_controller "lamp" fresh_world w' [] two_observe (length in_turns) (p_threads in_turns_end))
    as (ats & L' & ats' & _ & _ & Hend & Hreg).
  - reflexivity.
  - exact Hl.
  - exact fresh_plain.
  - apply fresh_obs.
  - by vm_compute.
  - exact Hh.
  - by vm_compute.
  - replace (mkPool w' (p_threads in_turns_end)) with in_turns_end by (unfold w'; by destruct in_turns_end).
    apply schedule_nsteps. unfold in_turns_end, pool_after.
    assert (bool_decide (is_Some (schedule in_turns (mkPool fresh_world (handle default_controller <$> two_observe)))) = true) as Hs
      by (vm_compute; reflexivity).
    apply bool_decide_eq_true in Hs as [P HP]. by rewrite HP.
  - exists L'. split; [|exact Hreg]. apply Hend. by vm_compute.
Defined.

(** [RemoveObservationById] reads the entry without the lock.  While another
    goroutine removes the first of three observations, it reads the client of
    the second, already shifted, with the metadata of the first, and removes the
    third: no order of the two calls has this result. *)
Definition lamp : ControllerVarHelper := helper default_controller "lamp".
Definition three : list (string * string) := [("ann", "1"); ("bob", "2"); ("bob", "1")].
Definition three_observe : World RamCacheDB :=
  default fresh_world (snd <$> run (for_each three (λ e, RegisterObservation lamp e.1 e.2 ;; mret ())) fresh_world).
Definition remove_two : list obs_request := [ReqRemoveById "0"; ReqRemove "ann" "1"].
Definition observers_of (P : pool RamCacheDB) : list (string * string) :=
  entry (w_db (p_world P)) "vars.lamp" <$> seqZ 0 (count (w_db (p_world P)) "vars.lamp").

Example remove_by_id_is_not_atomic :
  let start := mkPool three_observe ((λ r, obs_call lamp r ;; mret ()) <$> remove_two) in
  observers_of start = three ∧
  observers_of (pool_after (repeat 1 11 ++ repeat 0 2 ++ repeat 1 11 ++ repeat 0 8) start) = [("bob", "2")] ∧
  (obs_refs remove_two three).2 = [("bob", "2"); ("bob", "1")] ∧
  (obs_refs (reverse remove_two) three).2 = [("bob", "1")].
Proof. split_and!; by vm_compute. Qed.

(** [ObserveVar] asks whether the client observes the variable, and registers it,
    in two steps: a client that subscribes twice at once is registered, and
    told, twice, and one unsubscription leaves the other. *)
Definition subscribe_twice : list handler := replicate 2 (HandleObserve "lamp" "ann" "m" "VSTP").
Example observed_twice :
  let start := mkPool fresh_world (handle default_controller <$> subscribe_twice) in
  observers_of (pool_after ([0; 1] ++ repeat 0 28 ++ repeat 1 16) start) = [("ann", "m"); ("ann", "m")] ∧
  observers_of (pool_after (repeat 0 29 ++ [1]) start) = [("ann", "m")].
Proof. split; by vm_compute. Qed.
End witnesses.
