(* ===== verification/Vstp.v ===== *)
(** * The VSTP API ([sources/services/apis/vstp/vstp.go])

    A text protocol over TCP: lines [command:payload].  The state of the API is
    the two maps between client ids and connections, the buffers of incomplete
    lines and a counter; the handlers run on a [Server], the world of the
    controller together with that state and the wire.

    A handler is a function [Server → option (A * Server)]: [None] when it
    blocks for ever.  The calls of the controller are its programs, which
    [serve] executes; the callbacks [CheckAlive] and [NotifyClient] the
    controller makes are those of this file. *)
From S2P Require Import Prelude GoStrings GoStrconv Misc NamedLock Storage Runtime VarHelper ClientHelper Controller Namer TcpServer.

(** ** State *)

(** The identity of an [ITCPClient]. *)
Abbreviation conn := nat (only parsing).

Record VSTP := mkVSTP {
  ctrl : option TheController;
  apiId : string;
  clientsById : gmap string conn;
  clientsByTcpCli : gmap conn string;
  clientsLock : bool;  (** taken *)
  incomingDataBuffer : gmap conn string;
  cliIdCount : Z
}.

Definition set_maps (byId : gmap string conn) (byTcp : gmap conn string) (v : VSTP) : VSTP :=
  mkVSTP (ctrl v) (apiId v) byId byTcp (clientsLock v) (incomingDataBuffer v) (cliIdCount v).
Definition set_mutex (b : bool) (v : VSTP) : VSTP :=
  mkVSTP (ctrl v) (apiId v) (clientsById v) (clientsByTcpCli v) b (incomingDataBuffer v) (cliIdCount v).
Definition set_buffers (b : gmap conn string) (v : VSTP) : VSTP :=
  mkVSTP (ctrl v) (apiId v) (clientsById v) (clientsByTcpCli v) (clientsLock v) b (cliIdCount v).
Definition set_count (n : Z) (v : VSTP) : VSTP :=
  mkVSTP (ctrl v) (apiId v) (clientsById v) (clientsByTcpCli v) (clientsLock v) (incomingDataBuffer v) n.

(** The state [NewVSTP] starts from. *)
Definition initial_vstp (c : option TheController) : VSTP := mkVSTP c "VSTPAPI" ∅ ∅ false ∅ 0.

(** Whether the [n]th write of the server reaches connection [cli]. *)
Class Network := net_send : nat → conn → bool.

Record Server (DB : Type) := mkServer {
  s_world : World DB;
  s_vstp : VSTP;
  s_wire : list (conn * string);        (** what was sent, in order *)
  s_writes : nat;                       (** writes so far *)
  s_log : list string;
  s_messages : list (conn * string)     (** goroutines [processReceivedMessage] not started yet *)
}.
Arguments mkServer {DB} _ _ _ _ _ _.
Arguments s_world {DB} _.
Arguments s_vstp {DB} _.
Arguments s_wire {DB} _.
Arguments s_writes {DB} _.
Arguments s_log {DB} _.
Arguments s_messages {DB} _.

Section updates.
Context {DB : Type}.
Implicit Types s : Server DB.
Definition set_world (x : World DB) s : Server DB :=
  mkServer x (s_vstp s) (s_wire s) (s_writes s) (s_log s) (s_messages s).
Definition set_vstp (x : VSTP) s : Server DB :=
  mkServer (s_world s) x (s_wire s) (s_writes s) (s_log s) (s_messages s).
Definition set_wire (x : list (conn * string)) s : Server DB :=
  mkServer (s_world s) (s_vstp s) x (s_writes s) (s_log s) (s_messages s).
Definition set_writes (x : nat) s : Server DB :=
  mkServer (s_world s) (s_vstp s) (s_wire s) x (s_log s) (s_messages s).
Definition set_slog (x : list string) s : Server DB :=
  mkServer (s_world s) (s_vstp s) (s_wire s) (s_writes s) x (s_messages s).
Definition set_messages (x : list (conn * string)) s : Server DB :=
  mkServer (s_world s) (s_vstp s) (s_wire s) (s_writes s) (s_log s) x.
End updates.

(** ** The monad of the handlers *)
Definition M (DB A : Type) : Type := Server DB → option (A * Server DB).

#[export] Instance M_ret DB : MRet (M DB) := λ A a s, Some (a, s).
#[export] Instance M_bind DB : MBind (M DB) :=
  λ A B f p s, match p s with Some (a, s) => f a s | None => None end.

(** ** Parsing *)
Abbreviation carriage_return := "013"%char.

(** The first of the separators [=;:] ends the key. *)
Definition is_separator (c : ascii) : bool :=
  bool_decide (c = "="%char) || bool_decide (c = ";"%char) || bool_decide (c = ":"%char).
Fixpoint separateKeyAndValue (s : string) : string * string :=
  match s with
  | "" => ("", "")
  | String c rest =>
      if is_separator c then ("", rest)
      else let '(k, v) := separateKeyAndValue rest in (String c k, v)
  end.

Definition separateNameAndMetadata (original : string) : string * string :=
  match IndexByte original "("%char with
  | Some p => (original.[:p], TrimSuffix (original.[S p:]) ")")
  | None => (original, "")
  end.

(** ** Handlers *)
Section handlers.
Context {DB : Type} `{!IStorage DB} `{Environment} `{RangeOrder} `{Network}.
Abbreviation M := (M DB).

(** [None]: the goroutine does not return. *)
Definition stuck {A} : M A := λ _, None.
Definition get_v : M VSTP := λ s, Some (s_vstp s, s).
Definition put_v (v : VSTP) : M unit := λ s, Some ((), set_vstp v s).
Definition log (msg : string) : M unit := λ s, Some ((), set_slog (s_log s ++ [msg]) s).

(** [clientsLock.Lock()]: a goroutine that runs alone waits for ever for a lock
    that is taken, its own included.  [RLock] likewise. *)
Definition Lock_clients : M unit :=
  v ← get_v; if clientsLock v then stuck else put_v (set_mutex true v).
Definition Unlock_clients : M unit := v ← get_v; put_v (set_mutex false v).

(** [cli.SendString(data)]: [true] when there is no error. *)
Definition SendString (cli : conn) (data : string) : M bool :=
  λ s, let s' := set_writes (S (s_writes s)) s in
       if net_send (s_writes s) cli then Some (true, set_wire (s_wire s ++ [(cli, data)]) s')
       else Some (false, s').

Definition protocolWrite (cli : conn) (cmd data : string) : M bool :=
  SendString cli (cmd +:+ ":" +:+ data +:+ nl).
(** A write whose error is dropped. *)
Definition write (cli : conn) (cmd data : string) : M unit := protocolWrite cli cmd data ;; mret ().

Definition GetApiId : M string := v ← get_v; mret (apiId v).

Definition CheckAlive (clientId : string) : M bool :=
  Lock_clients ;; v ← get_v; Unlock_clients ;; mret (bool_decide (is_Some (clientsById v !! clientId))).

(** The line of one [(name, metadata, value)]. *)
Definition changed_line (t : string * string * string) : string :=
  let '(name, meta, val) := t in
  let metaStr := if decide (meta ≠ "") then "(" +:+ meta +:+ ")" else "" in
  name +:+ metaStr +:+ "=" +:+ val.

(** The tuples of the controller all have three elements. *)
Fixpoint send_changes (cli : conn) (varsAndValues : payload) : M bool :=
  match varsAndValues with
  | [] => mret true
  | t :: rest =>
      ok ← protocolWrite cli "varchanged" (changed_line t);
      if ok : bool then send_changes cli rest
      else log "Failed to send VAR_CHANGED to client:" ;; mret false
  end.

Definition NotifyClient (clientId : string) (varsAndValues : payload) : M bool :=
  Lock_clients ;; v ← get_v; Unlock_clients ;;
  match clientsById v !! clientId with
  | None => mret false
  | Some cli => send_changes cli varsAndValues
  end.

(** ** Calls of the controller *)

(** The effects of the world, without an API. *)
Definition lift_exec (o : op) : M (answer o) :=
  λ s, match exec o (s_world s) with Some (a, w) => Some (a, set_world w s) | None => None end.

(** The call is counted, and what was delivered is recorded. *)
Definition count_call : M unit :=
  λ s, Some ((), set_world (set_calls (S (w_calls (s_world s))) (s_world s)) s).
Definition record_sent (api c : string) (p : payload) (delivered : bool) : M unit :=
  λ s, Some ((), if delivered then set_world (set_sent (w_sent (s_world s) ++ [(api, c, p)]) (s_world s)) s else s).

Definition serve_op (o : op) : M (answer o) :=
  match o return M (answer o) with
  | Api_CheckAlive a c =>
      λ s, if decide (a = apiId (s_vstp s)) then (b ← CheckAlive c; count_call ;; mret b) s
           else lift_exec (Api_CheckAlive a c) s
  | Api_NotifyClient a c p =>
      λ s, if decide (a = apiId (s_vstp s)) then (b ← NotifyClient c p; count_call ;; record_sent a c p b ;; mret b) s
           else lift_exec (Api_NotifyClient a c p) s
  | o => lift_exec o
  end.

Fixpoint serve {A} (p : prog A) : M A :=
  λ s, match p with
       | Ret a => Some (a, s)
       | Vis o k => match serve_op o s with Some (x, s) => serve (k x) s | None => None end
       | Go t k => serve k (set_world (set_tasks (w_tasks (s_world s) ++ [t]) (s_world s)) s)
       end.

(** A program that may run out of fuel. *)
Definition serve_fuel {A} (p : prog (option A)) : M A :=
  r ← serve p; match r with Some a => mret a | None => stuck end.
Definition with_ctrl (f : TheController → M unit) : M unit :=
  v ← get_v; match ctrl v with Some c => f c | None => mret () end.

(** ** Connections *)

Definition sendInfoAndConfToClient (cli : conn) : M unit :=
  write cli "serverinfo" "PROTOCOL VERSION=1.2.0" ;;
  with_ctrl (λ c, write cli "serverinfo" ("VSS VERSION=" +:+ GetSystemVersion c)).

(** The critical section of a new connection. *)
Definition register_conn (cli : conn) (uid : string) : M unit :=
  Lock_clients ;;
  v ← get_v;
  put_v (set_buffers (<[cli := ""]> (incomingDataBuffer v))
          (set_maps (<[uid := cli]> (clientsById v)) (<[cli := uid]> (clientsByTcpCli v)) v)) ;;
  Unlock_clients.

(** The callback of [SetOnCLientConnect]. *)
Definition on_connect (cli : conn) : M unit :=
  name ← serve (CreateFunName 1 1);
  v ← get_v;
  let uid := Itoa (cliIdCount v) +:+ "-" +:+ name in
  put_v (set_count (wrap64 (cliIdCount v + 1)) v) ;;
  register_conn cli uid ;;
  write cli "beginserverheaders" "" ;;
  sendInfoAndConfToClient cli ;;
  write cli "sugestednewid" uid ;;
  write cli "endserverheaders" "" ;;
  log ("New VSTP client connected, assigned id: " +:+ uid).

(** The first entry of the connection, in the order of [range]. *)
Definition find_id (cli : conn) (byId : gmap string conn) : option string :=
  fst <$> head (filter (λ e : string * conn, e.2 = cli) (range byId)).

(** The callback of [SetOnClientDisconnect]. *)
Definition on_disconnect (cli : conn) : M unit :=
  Lock_clients ;;
  v ← get_v;
  (match clientsByTcpCli v !! cli with
   | Some id =>
       log ("VSTP client " +:+ id +:+ " disconnected") ;;
       put_v (set_maps (delete id (clientsById v)) (delete cli (clientsByTcpCli v)) v)
   | None =>
       match find_id cli (clientsById v) with
       | Some id =>
           log ("VSTP client " +:+ id +:+ " disconnected") ;;
           put_v (set_maps (delete id (clientsById v)) (clientsByTcpCli v) v)
       | None => mret ()
       end
   end) ;;
  v ← get_v;
  put_v (set_buffers (delete cli (incomingDataBuffer v)) v) ;;
  Unlock_clients.

(** The complete lines of [buf], without their ends, and what is left. *)
Fixpoint take_lines (fuel : nat) (buf : string) : list string * string :=
  match fuel with
  | O => ([], buf)
  | S fuel =>
      match IndexByte buf newline with
      | Some idx =>
          let '(ls, rest) := take_lines fuel (buf.[S idx:]) in
          (TrimRightByte (buf.[:idx]) carriage_return :: ls, rest)
      | None => ([], buf)
      end
  end.

(** [go v.processReceivedMessage(cli, line)] *)
Definition spawn_message (cli : conn) (line : string) : M unit :=
  λ s, Some ((), set_messages (s_messages s ++ [(cli, line)]) s).
Fixpoint spawn_messages (cli : conn) (ls : list string) : M unit :=
  match ls with
  | [] => mret ()
  | l :: ls => spawn_message cli l ;; spawn_messages cli ls
  end.

(** The callback of [SetOnClientData]. *)
Definition on_data (cli : conn) (data : string) : M unit :=
  Lock_clients ;;
  v ← get_v;
  (if decide (incomingDataBuffer v !! cli = None) then
     log "Received data from unknown client. The buffer will be initialized, but errors may occur because client was not properly initialized." ;;
     put_v (set_buffers (<[cli := ""]> (incomingDataBuffer v)) v) ;;
     name ← serve (CreateFunName 1 1);
     let uid := "problematic " +:+ name in
     Lock_clients ;;
     v ← get_v;
     put_v (set_maps (<[uid := cli]> (clientsById v)) (<[cli := uid]> (clientsByTcpCli v)) v) ;;
     Unlock_clients
   else mret ()) ;;
  v ← get_v;
  let buf := default "" (incomingDataBuffer v !! cli) in
  Unlock_clients ;;
  let buf := buf +:+ data in
  let '(lines, buf) := take_lines (S (len buf)) buf in
  spawn_messages cli lines ;;
  Lock_clients ;;
  v ← get_v;
  put_v (set_buffers (<[cli := buf]> (incomingDataBuffer v)) v) ;;
  Unlock_clients.

(** The handlers [NewVSTP] sets, and what they do at a call of [handleClient]. *)
Definition handlers : Handlers M :=
  SetOnClientData on_data (SetOnClientDisconnect on_disconnect (SetOnCLientConnect on_connect no_handlers)).
Definition on_event (cli : conn) (e : event) : M unit := fire stuck handlers cli e.

(** [NewVSTP]: the state, registered at the controller, or the error of the TCP
    server. *)
Definition NewVSTP (Listen : string → string → option string) (port : Z) (c : option TheController)
    : M (result string unit) :=
  match New (cert := unit) Listen [WithPort port] with
  | Err err => mret (Err err)
  | Ok _ =>
      put_v (initial_vstp c) ;;
      with_ctrl (λ _, serve (ApiStarted (apiId (initial_vstp c)))) ;;
      mret (Ok ())
  end.

(** ** Commands *)

(** The payload of the lines that frame a reply. *)
Definition begin_ (cli : conn) (cmd payload : string) : M unit := write cli "beginresponse" (cmd +:+ ":" +:+ payload).
Definition end_ (cli : conn) (cmd payload : string) : M unit := write cli "endresponse" (cmd +:+ ":" +:+ payload).

Definition do_set (cli : conn) (payload : string) : M unit :=
  let '(name, val) := separateKeyAndValue payload in
  if decide (name ≠ "") then
    with_ctrl (λ c,
      r ← serve (SetVar c name (NewDynamicVar val));
      begin_ cli "set" payload ;;
      (match r with
       | Err err => write cli "error" ("set error: " +:+ err)
       | Ok _ => mret ()
       end) ;;
      end_ cli "set" payload)
  else
    begin_ cli "set" payload ;;
    write cli "error" "set error: invalid variable name" ;;
    end_ cli "set" payload.

Definition do_delete (fuel : nat) (cli : conn) (payload : string) : M unit :=
  let name := (separateKeyAndValue payload).1 in
  with_ctrl (λ c,
    r ← serve_fuel (DelVar fuel c name);
    begin_ cli "delete" payload ;;
    (match r with
     | Err err => write cli "deleteresult" (name +:+ "=failure:" +:+ err)
     | Ok _ => write cli "deleteresult" (name +:+ "=success")
     end) ;;
    end_ cli "delete" payload).

Fixpoint write_values (cli : conn) (vals : values) : M unit :=
  match vals with
  | [] => mret ()
  | tup :: vals => write cli "varvalue" (GetString tup.1 +:+ "=" +:+ GetString tup.2) ;; write_values cli vals
  end.

Definition do_get (fuel : nat) (cli : conn) (payload : string) : M unit :=
  let name := (separateKeyAndValue payload).1 in
  with_ctrl (λ c,
    res ← serve_fuel (GetVars fuel c name (NewDynamicVar ""));
    begin_ cli "get" name ;;
    (match res with
     | Err err => write cli "error" ("get error: " +:+ err)
     | Ok vals => write_values cli vals
     end) ;;
    end_ cli "get" name).

(** The id of the connection; one is made up when it has none. *)
Definition client_id (cli : conn) : M string :=
  Lock_clients ;;
  v ← get_v;
  let cid := default "" (clientsByTcpCli v !! cli) in
  cid ← (if decide (cid = "") then
           now ← serve (do_ Time_Now);
           let cid := Itoa now in
           put_v (set_maps (<[cid := cli]> (clientsById v)) (<[cli := cid]> (clientsByTcpCli v)) v) ;;
           mret cid
         else mret cid);
  Unlock_clients ;;
  mret cid.

Definition do_subscribe (cli : conn) (payload : string) : M unit :=
  let '(name, meta) := separateNameAndMetadata payload in
  with_ctrl (λ c,
    cid ← client_id cli;
    begin_ cli "subscribe" payload ;;
    v ← get_v;
    serve (ObserveVar c name cid meta (apiId v)) ;;
    end_ cli "subscribe" payload ;;
    log ("Client subscribed to variable: " +:+ name +:+ " (meta: " +:+ meta +:+ ")")).

Definition do_unsubscribe (cli : conn) (payload : string) : M unit :=
  let '(name, meta) := separateNameAndMetadata payload in
  with_ctrl (λ c,
    Lock_clients ;; v ← get_v; Unlock_clients ;;
    let cid := default "" (clientsByTcpCli v !! cli) in
    if decide (cid ≠ "") then
      begin_ cli "unsubscribe" payload ;;
      serve (StopObservingVar c name cid meta (apiId v)) ;;
      end_ cli "unsubscribe" payload
    else mret ()).

(** [uint] of an [int]; without a number the time-out is the greatest [uint]. *)
Definition to_uint (z : Z) : Z := (z mod 2 ^ 64)%Z.
Definition lock_timeout_of (val : string) : Z :=
  if decide (val ≠ "") then match Atoi val with Some t => to_uint t | None => (2 ^ 64 - 1)%Z end
  else (2 ^ 64 - 1)%Z.

Definition do_lock (cli : conn) (payload : string) : M unit :=
  let '(name, val) := separateKeyAndValue payload in
  let timeout := lock_timeout_of val in
  v ← get_v;
  (match ctrl v with
   | Some c =>
       r ← serve_fuel (LockVar c name timeout);
       begin_ cli "lock" payload ;;
       (match r with
        | Err err => write cli "lockresult" (name +:+ "=failure:" +:+ err)
        | Ok _ => write cli "lockresult" (name +:+ "=success")
        end)
   | None =>
       begin_ cli "lock" payload ;;
       write cli "lockresult" (name +:+ "=success")
   end) ;;
  end_ cli "lock" payload.

Definition do_unlock (cli : conn) (payload : string) : M unit :=
  let name := (separateKeyAndValue payload).1 in
  with_ctrl (λ c, serve (UnlockVar c name) ;; mret ()) ;;
  begin_ cli "unlock" payload ;;
  write cli "unlockdone" name ;;
  end_ cli "unlock" payload.

Definition do_ping (cli : conn) (payload : string) : M unit :=
  begin_ cli "ping" payload ;; write cli "pong" "" ;; end_ cli "ping" payload.

(** The connection takes the id [newId]. *)
Definition change_id (cli : conn) (newId : string) : M unit :=
  Lock_clients ;;
  v ← get_v;
  let oldId := default "" (clientsByTcpCli v !! cli) in
  let byId := if decide (oldId ≠ "") then delete oldId (clientsById v) else clientsById v in
  log ("Client requested id change: " +:+ oldId +:+ " -> " +:+ newId) ;;
  put_v (set_maps (<[newId := cli]> byId) (<[cli := newId]> (clientsByTcpCli v)) v) ;;
  Unlock_clients.

Definition do_setid (cli : conn) (payload : string) : M unit :=
  let newId := payload in
  change_id cli newId ;;
  with_ctrl (λ c,
    v ← get_v;
    r ← serve (ClientConnected c newId (apiId v));
    begin_ cli "setid" payload ;;
    write cli "aoc" (Itoa r.2) ;;
    end_ cli "setid" payload).

Definition do_getchilds (cli : conn) (payload : string) : M unit :=
  with_ctrl (λ c,
    childs ← serve (GetChildsOfVar c payload);
    begin_ cli "getchilds" payload ;;
    write cli "childs" (Join childs ",") ;;
    end_ cli "getchilds" payload).

Definition do_lockstatus (cli : conn) (payload : string) : M unit :=
  with_ctrl (λ c,
    locked ← serve (IsVarLocked c payload);
    write cli "lockstatusresult" (payload +:+ "=" +:+ (if locked : bool then "locked" else "unlocked"))).

Definition dispatch (fuel : nat) (cli : conn) (cmd payload : string) : M unit :=
  if decide (cmd = "set") then do_set cli payload
  else if decide (cmd = "delete") then do_delete fuel cli payload
  else if decide (cmd = "get") then do_get fuel cli payload
  else if decide (cmd = "subscribe") then do_subscribe cli payload
  else if decide (cmd = "unsubscribe") then do_unsubscribe cli payload
  else if decide (cmd = "lock") then do_lock cli payload
  else if decide (cmd = "unlock") then do_unlock cli payload
  else if decide (cmd = "ping") then do_ping cli payload
  else if decide (cmd = "setid") then do_setid cli payload
  else if decide (cmd = "getchilds") then do_getchilds cli payload
  else if decide (cmd = "lockstatus") then do_lockstatus cli payload
  else log ("Unknown VSTP command received: " +:+ cmd).

(** [fuel] bounds the depth of the database that [get] and [delete] walk. *)
Definition processReceivedMessage (fuel : nat) (cli : conn) (message : string) : M unit :=
  let '(cmd, payload) := separateKeyAndValue message in
  dispatch fuel cli (TrimSpace cmd) (TrimSpace payload).
End handlers.
