(* ===== verification/VstpRun.v ===== *)
(** * Calls of the controller from the VSTP API

    [serve] executes a program of the controller with the callbacks of
    [Vstp]; it agrees with [run] for the environment that gives the answers the
    callbacks give.  So what is proved of [run] for all environments holds in
    the server ([serve_quiet]). *)
From S2P Require Import Prelude GoStrings GoStrconv Misc NamedLock Storage Runtime VarHelper ClientHelper Controller Namer TcpServer Vstp.

(** ** Environments *)

(** [E] with another answer at call [n]. *)
Definition answer_at (E : Environment) (n : nat) (b : bool) : Environment.
Proof.
  refine {| env_reachable i a c := if decide (i = n) then b else @env_reachable E i a c;
            env_rand := @env_rand E |}.
  apply env_rand_bounds.
Defined.

Section ext.
Context `{!IStorage DB}.
Implicit Types w : World DB.

(** The same environment from call [n] on. *)
Definition agree_from (n : nat) (E1 E2 : Environment) : Prop :=
  (∀ i a c, n ≤ i → @env_reachable E1 i a c = @env_reachable E2 i a c) ∧
  (∀ i k, @env_rand E1 i k = @env_rand E2 i k).

Lemma exec_agree E1 E2 o w : agree_from (w_calls w) E1 E2 → exec (H := E1) o w = exec (H := E2) o w.
Proof.
  intros [Hr Hd]. destruct o; cbn; rewrite ?Hr, ?Hd by done; done.
Qed.

Lemma exec_calls E o w a w' : exec (H := E) o w = Some (a, w') → w_calls w ≤ w_calls w'.
Proof. destruct o; cbn; intros He; repeat case_match; simplify_eq/=; lia. Qed.

Lemma run_agree {A} E1 E2 (p : prog A) w :
  agree_from (w_calls w) E1 E2 → run (H := E1) p w = run (H := E2) p w.
Proof.
  revert w. induction p as [? a|? o k IH|? t _ k IH]; intros w Ha; cbn; [done| |by apply IH].
  rewrite (exec_agree E1 E2 o w Ha). destruct (exec o w) as [[x w']|] eqn:He; [|done].
  apply IH. apply exec_calls in He. destruct Ha as [Hr Hd]. split; [|done]. intros i a c Hi. apply Hr. lia.
Qed.

(** Only calls of an API read the answers of the environment. *)
Lemma exec_rand E1 E2 o w :
  (∀ i k, @env_rand E1 i k = @env_rand E2 i k) →
  (∀ a c, o ≠ Api_CheckAlive a c) → (∀ a c p, o ≠ Api_NotifyClient a c p) →
  exec (H := E1) o w = exec (H := E2) o w.
Proof.
  intros Hd Hc Hn. destruct o; cbn; rewrite ?Hd; try done; exfalso; naive_solver.
Qed.
End ext.

Lemma M_bind_eq {DB A B} (m : M DB A) (f : A → M DB B) (s s' : Server DB) a :
  m s = Some (a, s') → (m ≫= f) s = f a s'.
Proof. intros Hm. unfold mbind, M_bind. by rewrite Hm. Qed.

(** Unfolds the monad of the handlers. *)
Ltac m_simpl := unfold mbind, mret, M_bind, M_ret in *; cbn.

(** ** The callbacks *)
Section serve.
Context {DB : Type} `{!IStorage DB} {ENV : Environment} `{RangeOrder} `{Network}.
Implicit Types (s : Server DB) (w : World DB).

(** The mutex of the maps is free. *)
Definition unlocked s : Prop := clientsLock (s_vstp s) = false.

(** [s'] is [s] up to the wire, the log and the world. *)
Record same_vstp s s' : Prop := {
  same_state : s_vstp s' = s_vstp s;
  same_messages : s_messages s' = s_messages s
}.

Lemma same_refl s : same_vstp s s.
Proof. done. Qed.
Lemma same_trans s s1 s2 : same_vstp s s1 → same_vstp s1 s2 → same_vstp s s2.
Proof. intros [] []. split; congruence. Qed.
Lemma same_unlocked s s' : same_vstp s s' → unlocked s → unlocked s'.
Proof. intros [Hs _]. unfold unlocked. by rewrite Hs. Qed.

Lemma set_mutex_twice b v : clientsLock v = b → set_mutex b (set_mutex (negb b) v) = v.
Proof. destruct v. cbn. by intros ->. Qed.

(** A critical section that only reads. *)
Lemma read_maps {A} (f : VSTP → M DB A) s :
  unlocked s →
  (Lock_clients ;; v ← get_v; Unlock_clients ;; f v) s = f (set_mutex true (s_vstp s)) s.
Proof.
  intros Hu. unfold unlocked in Hu. unfold Lock_clients, Unlock_clients, get_v, put_v.
  m_simpl. rewrite Hu. cbn. rewrite (set_mutex_twice false) by done. by destruct s.
Qed.

Lemma CheckAlive_eq c s :
  unlocked s → CheckAlive c s = Some (bool_decide (is_Some (clientsById (s_vstp s) !! c)), s).
Proof. intros Hu. unfold CheckAlive. by rewrite read_maps. Qed.

Lemma NotifyClient_eq c p s :
  unlocked s → NotifyClient c p s = match clientsById (s_vstp s) !! c with
                                    | Some cli => send_changes cli p s
                                    | None => Some (false, s)
                                    end.
Proof. intros Hu. unfold NotifyClient. rewrite read_maps by done. cbn. by destruct (_ !! c). Qed.

(** Sending always returns and touches nothing but the wire and the log. *)
Lemma send_changes_returns cli p s :
  ∃ b s', send_changes cli p s = Some (b, s') ∧ same_vstp s s' ∧ s_world s' = s_world s.
Proof.
  revert s. induction p as [|t p IH]; intros s; cbn; [by eexists _, s|].
  destruct (net_send (s_writes s) cli) eqn:Hn; unfold mbind, M_bind, protocolWrite, SendString; rewrite Hn.
  - match goal with |- context [send_changes cli p ?s1] => destruct (IH s1) as (b & s' & -> & Hs & Hw) end.
    eexists _, s'. split; [done|]. split; [|by rewrite Hw]. eapply same_trans; [|exact Hs]. done.
  - eexists _, _. split; [done|]. done.
Qed.

Lemma NotifyClient_returns c p s :
  unlocked s → ∃ b s', NotifyClient c p s = Some (b, s') ∧ same_vstp s s' ∧ s_world s' = s_world s.
Proof.
  intros Hu. rewrite NotifyClient_eq by done. destruct (_ !! c); [apply send_changes_returns|].
  by eexists _, s.
Qed.

(** ** [serve] is [run] *)

(** What [serve] and [run] return agree, and [serve] changed nothing else when
    no API was called. *)
Definition agrees {A} s (served : option (A * Server DB)) (ran : option (A * World DB)) : Prop :=
  match served with
  | None => ran = None
  | Some (a, s') =>
      ran = Some (a, s_world s') ∧ same_vstp s s' ∧ w_calls (s_world s) ≤ w_calls (s_world s') ∧
      (w_calls (s_world s') = w_calls (s_world s) → s' = set_world (s_world s') s)
  end.

Lemma lift_agrees E o s :
  (∀ i k, @env_rand E i k = @env_rand ENV i k) → exec (H := E) o (s_world s) = exec (H := ENV) o (s_world s) →
  agrees s (lift_exec (H := ENV) o s) (exec (H := E) o (s_world s)).
Proof.
  intros Hd He. unfold lift_exec. rewrite He. destruct (exec (H := ENV) o (s_world s)) as [[a w]|] eqn:Hx; [|done].
  cbn. split_and!; [done|done| |done]. by eapply exec_calls.
Qed.

Lemma exec_answer_CheckAlive E a c b w :
  exec (H := answer_at E (w_calls w) b) (Api_CheckAlive a c) w = Some (b, set_calls (S (w_calls w)) w).
Proof. cbn. by rewrite decide_True. Qed.
Lemma exec_answer_NotifyClient E a c p b w :
  exec (H := answer_at E (w_calls w) b) (Api_NotifyClient a c p) w =
    Some (b, if b then set_sent (w_sent w ++ [(a, c, p)]) (set_calls (S (w_calls w)) w)
             else set_calls (S (w_calls w)) w).
Proof. cbn. rewrite decide_True by done. by destruct b. Qed.

(** One effect: for any answers to the later calls there is an environment that
    also gives those of this effect. *)
Lemma serve_op_agrees o s :
  unlocked s → ∃ F : Environment → Environment, ∀ E, (∀ i k, @env_rand E i k = @env_rand ENV i k) →
    (∀ i k, @env_rand (F E) i k = @env_rand ENV i k) ∧
    agrees s (serve_op (H := ENV) o s) (exec (H := F E) o (s_world s)) ∧
    ∀ x s', serve_op (H := ENV) o s = Some (x, s') → agree_from (w_calls (s_world s')) (F E) E.
Proof.
  intros Hu.
  assert (∀ o, (∀ E, (∀ i k, @env_rand E i k = @env_rand ENV i k) → exec (H := E) o (s_world s) = exec (H := ENV) o (s_world s)) →
    serve_op (H := ENV) o s = lift_exec (H := ENV) o s →
    ∃ F : Environment → Environment, ∀ E, (∀ i k, @env_rand E i k = @env_rand ENV i k) →
    (∀ i k, @env_rand (F E) i k = @env_rand ENV i k) ∧
    agrees s (serve_op (H := ENV) o s) (exec (H := F E) o (s_world s)) ∧
    ∀ x s', serve_op (H := ENV) o s = Some (x, s') → agree_from (w_calls (s_world s')) (F E) E) as Hlift.
  { intros o' He Hs. exists (λ E, E). intros E Hd. rewrite Hs. split; [done|]. split; [|done].
    apply lift_agrees; [done|by apply He]. }
  assert (∀ E b w, w_calls w = S (w_calls (s_world s)) → agree_from (w_calls w) (answer_at E (w_calls (s_world s)) b) E) as Hagree.
  { intros E b w ->. split; [|done]. intros i a c Hi. cbn. rewrite decide_False; [done|lia]. }
  destruct o; try (apply Hlift; [intros E Hd; by apply exec_rand|done]).
  - exists (λ E, answer_at E (w_calls (s_world s)) (if decide (api = apiId (s_vstp s))
      then bool_decide (is_Some (clientsById (s_vstp s) !! clientId)) else @env_reachable ENV (w_calls (s_world s)) api clientId)).
    intros E Hd. split; [done|]. rewrite exec_answer_CheckAlive. unfold serve_op. case_decide as Ha.
    + m_simpl. rewrite CheckAlive_eq by done. cbn. split; [split_and!; [done|done|lia|lia]|].
      intros x s' [= <- <-]. by apply Hagree.
    + split; [unfold lift_exec; cbn; split_and!; [done|done|lia|lia]|].
      intros x s' [= <- <-]. by apply Hagree.
  - destruct (NotifyClient_returns clientId varsAndValues s Hu) as (b & s1 & Hs & Hv & Hw).
    exists (λ E, answer_at E (w_calls (s_world s)) (if decide (api = apiId (s_vstp s))
      then b else @env_reachable ENV (w_calls (s_world s)) api clientId)).
    intros E Hd. split; [done|]. rewrite exec_answer_NotifyClient. unfold serve_op. case_decide as Ha.
    + m_simpl. rewrite Hs. cbn. destruct Hv as [Hv1 Hv2].
      split; [destruct b; cbn; rewrite Hw; split_and!; try done; lia|].
      intros x s' [= <- <-]. apply Hagree. destruct b; cbn; by rewrite Hw.
    + unfold lift_exec. cbn. destruct (env_reachable _ _ _); cbn; (split; [split_and!; [done|done|lia|lia]|]);
        intros x s' [= <- <-]; by apply Hagree.
Qed.

Lemma serve_agrees {A} (p : prog A) s :
  unlocked s →
  ∃ E, (∀ i k, @env_rand E i k = @env_rand ENV i k) ∧ agrees s (serve (H := ENV) p s) (run (H := E) p (s_world s)).
Proof.
  revert s. induction p as [? a|? o k IH|? t _ k IH]; intros s Hu.
  - exists ENV. split; [done|]. cbn. split_and!; [done|done|lia|by destruct s].
  - destruct (serve_op_agrees o s Hu) as [F HF]. cbn [serve].
    destruct (serve_op (H := ENV) o s) as [[x s1]|] eqn:Hs1; cycle 1.
    { destruct (HF ENV) as (Hd & He & _); [done|]. exists (F ENV). split; [done|]. cbn [agrees run] in *. by rewrite He. }
    assert (unlocked s1) as Hu1.
    { destruct (HF ENV) as (_ & (_ & Hv & _) & _); [done|]. by eapply same_unlocked. }
    destruct (IH x s1 Hu1) as (E & Hd & HE). destruct (HF E Hd) as (Hd' & (He & Hv & Hc & Hsame) & Ha).
    exists (F E). split; [done|]. cbn [run]. rewrite He.
    rewrite (run_agree (F E) E) by (by eapply Ha). unfold agrees in *.
    destruct (serve (k x) s1) as [[a s']|]; [|done]. destruct HE as (HE & Hv' & Hc' & Hsame').
    split; [done|]. split; [by eapply same_trans|]. split; [lia|].
    intros Hcc. rewrite Hsame' by lia. rewrite Hsame by lia. done.
  - cbn [serve run]. destruct (IH (set_world (set_tasks (w_tasks (s_world s) ++ [t]) (s_world s)) s)) as (E & Hd & HE); [done|].
    exists E. split; [done|]. cbn [s_world set_world] in HE. unfold agrees in *.
    destruct (serve k _) as [[a s']|]; [|done]. destruct HE as (HE & [Hv Hm] & Hc & Hsame).
    split; [done|]. split; [done|]. split; [done|]. intros Hcc. by rewrite Hsame.
Qed.

(** A program that calls no API does in the server what it does alone. *)
Lemma serve_quiet {A} (p : prog A) s a w' :
  unlocked s → (∀ E, run (H := E) p (s_world s) = Some (a, w')) → w_calls w' = w_calls (s_world s) →
  serve (H := ENV) p s = Some (a, set_world w' s).
Proof.
  intros Hu Hr Hc. destruct (serve_agrees p s Hu) as (E & _ & HE). rewrite Hr in HE.
  destruct (serve (H := ENV) p s) as [[a' s']|]; [|done]. destruct HE as ([= -> ->] & _ & _ & Hsame). by rewrite <-Hsame.
Qed.

Lemma serve_fuel_eq {A} (p : prog (option A)) s s' a :
  serve (H := ENV) p s = Some (Some a, s') → serve_fuel (H := ENV) p s = Some (a, s').
Proof. intros Hp. unfold serve_fuel. by rewrite (M_bind_eq _ _ _ _ _ Hp). Qed.

(** The same, when the final world depends on the environment. *)
Lemma serve_quiet_ex {A} (p : prog A) s (P : A → World DB → Prop) :
  unlocked s →
  (∀ E, ∃ a w', run (H := E) p (s_world s) = Some (a, w') ∧ w_calls w' = w_calls (s_world s) ∧ P a w') →
  ∃ a w', serve (H := ENV) p s = Some (a, set_world w' s) ∧ P a w'.
Proof.
  intros Hu Hr. destruct (serve_agrees p s Hu) as (E & _ & HE). destruct (Hr E) as (a & w' & HrE & Hc & HP).
  rewrite HrE in HE. destruct (serve (H := ENV) p s) as [[a' s']|]; [|done]. destruct HE as ([= -> ->] & _ & _ & Hsame).
  exists a', (s_world s'). split; [|done]. by rewrite <-Hsame.
Qed.

(** The state of the API survives every call. *)
Lemma serve_same {A} (p : prog A) s a s' : unlocked s → serve (H := ENV) p s = Some (a, s') → same_vstp s s'.
Proof.
  intros Hu Hs. destruct (serve_agrees p s Hu) as (E & _ & HE). rewrite Hs in HE. by destruct HE as (_ & Hv & _).
Qed.

Lemma serve_bind {A B} (p : prog A) (f : A → prog B) s :
  serve (p ≫= f) s = match serve (H := ENV) p s with Some (a, s') => serve (f a) s' | None => None end.
Proof.
  revert s. induction p as [? a|? o k IH|? t _ k IH]; intros s; [done| |apply IH].
  cbn. destruct (serve_op (H := ENV) o s) as [[x s']|]; [apply IH|done].
Qed.
End serve.
