(* ===== verification/Connections.v ===== *)
(** * Connections of the VSTP API

    How bytes become commands and how client ids are routed to connections:
    the lines a connection sends do not depend on how TCP cuts them, an id leads
    to the connection that claims it in every reachable state of the server, and
    what happens when a second connection claims an id. *)
From S2P Require Import Prelude GoStrings GoStrconv Misc NamedLock Storage RamCacheDB Reference Runtime Samples VarHelper ClientHelper Controller Variables Namer TcpServer Vstp VstpRun.

(** ** Lines *)

(** The lines of a text: all but the last piece, without the carriage returns,
    and the incomplete last one. *)
Definition lines_of (buf : string) : list string * string :=
  ((λ l, TrimRightByte l carriage_return) <$> removelast (SplitByte buf newline),
   List.last (SplitByte buf newline) "").

Lemma lines_of_line (a b : string) :
  lacks newline a →
  lines_of (a +:+ String newline b) = (TrimRightByte a carriage_return :: (lines_of b).1, (lines_of b).2).
Proof.
  intros Ha. unfold lines_of. rewrite SplitByte_app, (SplitByte_lacks a) by done.
  pose proof (SplitByte_ne b newline). cbn [app]. by destruct (SplitByte b newline).
Qed.

Lemma lines_of_rest b : lacks newline b → lines_of b = ([], b).
Proof. intros Hb. unfold lines_of. by rewrite SplitByte_lacks. Qed.

Lemma lines_of_last buf : lacks newline (lines_of buf).2.
Proof.
  cbn. pose proof (SplitByte_all_lack buf newline) as Hl. pose proof (SplitByte_ne buf newline) as Hne.
  destruct (SplitByte buf newline) as [|x l _] using rev_ind; [done|]. rewrite last_last.
  apply Forall_app in Hl as [_ Hl]. by inversion Hl.
Qed.

(** A round for each line end is enough. *)
Lemma take_lines_eq fuel buf : len buf < fuel → take_lines fuel buf = lines_of buf.
Proof.
  revert buf. induction fuel as [|fuel IH]; intros buf Hf; [lia|]. cbn [take_lines].
  destruct (IndexByte buf newline) as [i|] eqn:Hi; [|by rewrite lines_of_rest].
  apply IndexByte_Some in Hi as (Hb & Ha & Hlen). rewrite IH by (rewrite len_str_drop; lia).
  transitivity (lines_of (str_take i buf +:+ String newline (str_drop (S i) buf))); [|by rewrite <-Hb].
  rewrite lines_of_line by done. by destruct (lines_of (str_drop (S i) buf)).
Qed.

(** Cutting a text anywhere: the rest of the first part is completed by the
    second. *)
Lemma lines_of_app (a b : string) :
  lines_of (a +:+ b) = ((lines_of a).1 ++ (lines_of ((lines_of a).2 +:+ b)).1, (lines_of ((lines_of a).2 +:+ b)).2).
Proof.
  remember (len a) as n eqn:Hn. revert a Hn. induction n as [n IH] using lt_wf_ind. intros a ->.
  destruct (IndexByte a newline) as [i|] eqn:Hi.
  - apply IndexByte_Some in Hi as (Ha & Hl & Hlen). rewrite Ha, str_app_assoc, app_cons, !lines_of_line by done. cbn [fst snd].
    rewrite (IH (len (str_drop (S i) a))) by (rewrite ?len_str_drop; done || lia). done.
  - rewrite (lines_of_rest a) by done. cbn [fst snd app]. by destruct (lines_of (a +:+ b)).
Qed.

#[local] Arguments take_lines : simpl never.
#[local] Arguments lines_of : simpl never.

Section connections.
Context {DB : Type} `{!IStorage DB} {ENV : Environment} `{RangeOrder} `{Network}.
Implicit Types (s : Server DB) (v : VSTP).

(** [on_data] of a known connection. *)
Lemma on_data_eq cli d b s :
  unlocked s → incomingDataBuffer (s_vstp s) !! cli = Some b →
  on_data cli d s = Some ((),
    set_messages (s_messages s ++ (pair cli <$> (lines_of (b +:+ d)).1))
      (set_vstp (set_buffers (<[cli := (lines_of (b +:+ d)).2]> (incomingDataBuffer (s_vstp s))) (s_vstp s)) s)).
Proof.
  intros Hu Hb. unfold unlocked in Hu. unfold on_data, Lock_clients, Unlock_clients, get_v, put_v. m_simpl.
  rewrite Hu. cbn. rewrite decide_False by (by rewrite Hb). cbn. rewrite Hb. cbn [default from_option id].
  rewrite take_lines_eq by lia. set (L := lines_of (b +:+ d)). destruct L as [ls rest] eqn:HL. cbn [fst snd].
  assert (∀ s', spawn_messages cli ls s' = Some ((), set_messages (s_messages s' ++ (pair cli <$> ls)) s')) as Hspawn.
  { clear. induction ls as [|l ls IH]; intros s'; cbn.
    - rewrite app_nil_r. by destruct s'.
    - m_simpl. rewrite IH. cbn. by rewrite <-app_assoc. }
  rewrite Hspawn. cbn. unfold set_messages, set_vstp, set_buffers, set_mutex. cbn. by rewrite <-Hu.
Qed.

(** The chunks [con.Read] returned, one after the other. *)
Fixpoint receive (cli : conn) (chunks : list string) : M DB unit :=
  match chunks with
  | [] => mret ()
  | d :: chunks => on_data cli d ;; receive cli chunks
  end.

Definition concat_str (l : list string) : string := foldr String.append "" l.

Lemma run_receive cli chunks b s :
  unlocked s → incomingDataBuffer (s_vstp s) !! cli = Some b → lacks newline b →
  receive cli chunks s = Some ((),
    set_messages (s_messages s ++ (pair cli <$> (lines_of (b +:+ concat_str chunks)).1))
      (set_vstp (set_buffers (<[cli := (lines_of (b +:+ concat_str chunks)).2]> (incomingDataBuffer (s_vstp s)))
         (s_vstp s)) s)).
Proof.
  revert b s. induction chunks as [|d chunks IH]; intros b s Hu Hb Hl; cbn [receive concat_str foldr].
  - rewrite app_empty_r, lines_of_rest by done. cbn. rewrite app_nil_r, insert_id by done. by destruct s as [? []].
  - unfold mbind, M_bind. rewrite (on_data_eq _ _ _ _ Hu Hb).
    rewrite (IH (lines_of (b +:+ d)).2); [|exact Hu|cbn; by rewrite lookup_insert_eq|apply lines_of_last].
    rewrite <-(str_app_assoc b d), (lines_of_app (b +:+ d)). cbn [fst snd].
    unfold set_messages, set_vstp, set_buffers. cbn. by rewrite insert_insert_eq, fmap_app, app_assoc.
Qed.

(** C14.  The commands of a connection do not depend on how TCP cuts its bytes
    into chunks: every complete line, less its trailing carriage returns, is
    handed to one goroutine, the incomplete last line waits in the buffer, and
    nothing else changes. *)
Theorem chunks_do_not_matter cli chunks b s :
  unlocked s → incomingDataBuffer (s_vstp s) !! cli = Some b → lacks newline b →
  let pieces := SplitByte (b +:+ concat_str chunks) newline in
  receive cli chunks s = Some ((),
    set_messages (s_messages s ++ ((λ l, (cli, TrimRightByte l carriage_return)) <$> removelast pieces))
      (set_vstp (set_buffers (<[cli := List.last pieces ""]> (incomingDataBuffer (s_vstp s))) (s_vstp s)) s)).
Proof.
  intros Hu Hb Hl pieces. rewrite (run_receive cli chunks b s Hu Hb Hl). unfold lines_of. cbn [fst snd].
  by rewrite <-list_fmap_compose.
Qed.

(** ** The critical sections on the maps *)
Lemma change_id_eq cli newId s :
  unlocked s →
  let v := s_vstp s in
  let oldId := default "" (clientsByTcpCli v !! cli) in
  change_id cli newId s = Some ((),
    set_slog (s_log s ++ ["Client requested id change: " +:+ oldId +:+ " -> " +:+ newId])
      (set_vstp (set_maps
        (<[newId := cli]> (if decide (oldId ≠ "") then delete oldId (clientsById v) else clientsById v))
        (<[cli := newId]> (clientsByTcpCli v)) v) s)).
Proof.
  intros Hu v oldId. unfold unlocked in Hu. unfold change_id, Lock_clients, Unlock_clients, get_v, put_v, log. m_simpl.
  rewrite Hu. cbn. unfold set_slog, set_vstp, set_maps, set_mutex. cbn. by rewrite <-Hu.
Qed.

Lemma on_disconnect_known cli id s :
  unlocked s → clientsByTcpCli (s_vstp s) !! cli = Some id →
  let v := s_vstp s in
  on_disconnect cli s = Some ((),
    set_slog (s_log s ++ ["VSTP client " +:+ id +:+ " disconnected"])
      (set_vstp (set_buffers (delete cli (incomingDataBuffer v))
        (set_maps (delete id (clientsById v)) (delete cli (clientsByTcpCli v)) v)) s)).
Proof.
  intros Hu Hid v. unfold unlocked in Hu. unfold on_disconnect, Lock_clients, Unlock_clients, get_v, put_v, log. m_simpl.
  rewrite Hu. cbn. rewrite Hid. cbn. unfold set_slog, set_vstp, set_maps, set_buffers, set_mutex. cbn. by rewrite <-Hu.
Qed.

(** The id a connection claims with [setid] leads to that connection at
    once, and the id it had before leads nowhere. *)
Theorem setid_routes cli newId s :
  unlocked s →
  ∃ s', change_id cli newId s = Some ((), s') ∧ unlocked s' ∧
    clientsById (s_vstp s') !! newId = Some cli ∧ clientsByTcpCli (s_vstp s') !! cli = Some newId ∧
    (∀ oldId, clientsByTcpCli (s_vstp s) !! cli = Some oldId → oldId ≠ "" → oldId ≠ newId →
       CheckAlive oldId s' = Some (false, s')) ∧
    CheckAlive newId s' = Some (true, s').
Proof.
  intros Hu. rewrite change_id_eq by done. eexists. split; [done|]. split; [exact Hu|]. cbn [s_vstp set_slog set_vstp].
  split; [by apply lookup_insert_eq|]. split; [by apply lookup_insert_eq|]. split.
  - intros oldId Ho Hne Hne'. rewrite CheckAlive_eq by exact Hu. cbn. rewrite Ho. cbn [default from_option id].
    rewrite decide_True by done. rewrite lookup_insert_ne, lookup_delete_eq by done. done.
  - rewrite CheckAlive_eq by exact Hu. cbn. by rewrite lookup_insert_eq.
Qed.

(** A client that resumes its session on a new connection [b] while the
    old one [a] is still open loses it when [a] closes: the id then leads
    nowhere, so that [CheckAlive] denies the client and no notification reaches
    [b], although [b] holds the id. *)
Theorem resumed_session_is_lost a b id p s :
  unlocked s → a ≠ b → clientsByTcpCli (s_vstp s) !! a = Some id →
  ∃ s', (change_id b id ;; on_disconnect a) s = Some ((), s') ∧
    clientsByTcpCli (s_vstp s') !! b = Some id ∧
    CheckAlive id s' = Some (false, s') ∧ NotifyClient id p s' = Some (false, s').
Proof.
  intros Hu Hab Hid. unfold mbind, M_bind. rewrite change_id_eq by done.
  rewrite (on_disconnect_known a id) by (exact Hu || (cbn; by rewrite lookup_insert_ne)).
  eexists. split; [done|]. split; [cbn; by rewrite lookup_delete_ne, lookup_insert_eq|].
  rewrite CheckAlive_eq, NotifyClient_eq by exact Hu. cbn. by rewrite lookup_delete_eq.
Qed.

(** ** The invariant of the maps *)

(** The lock is free, and an id leads to the connection that claims it. *)
Record routed v : Prop := {
  routed_lock : clientsLock v = false;
  routed_ids : ∀ id cli, id ≠ "" → clientsById v !! id = Some cli → clientsByTcpCli v !! cli = Some id
}.

(** A handler that returns keeps the invariant. *)
Definition preserves {A} (m : M DB A) : Prop :=
  ∀ s a s', routed (s_vstp s) → m s = Some (a, s') → routed (s_vstp s').

Lemma preserves_bind {A B} (m : M DB A) (f : A → M DB B) :
  preserves m → (∀ a, preserves (f a)) → preserves (m ≫= f).
Proof.
  intros Hm Hf s b s' Hs. unfold mbind, M_bind. destruct (m s) as [[a s1]|] eqn:E; [|done].
  intros Hr. eapply Hf; [by eapply Hm|exact Hr].
Qed.
Lemma preserves_ret {A} (a : A) : preserves (mret a).
Proof. by intros s ? s' Hs [= <- <-]. Qed.
Lemma preserves_stuck {A} : preserves (stuck (A := A)).
Proof. done. Qed.
Lemma preserves_get : preserves get_v.
Proof. by intros s ? s' Hs [= <- <-]. Qed.
Lemma preserves_log msg : preserves (log msg).
Proof. intros s a s' Hs Hr. unfold log in Hr. by simplify_eq/=. Qed.
Lemma preserves_write cli cmd data : preserves (write cli cmd data).
Proof.
  intros s ? s' Hs. unfold write, protocolWrite, SendString. m_simpl.
  destruct (net_send _ cli); intros Hr; by simplify_eq/=.
Qed.
Lemma preserves_serve {A} (p : prog A) : preserves (serve p).
Proof. intros s a s' Hs Hr. destruct (serve_same p s a s' (routed_lock _ Hs) Hr) as [-> _]. done. Qed.

(** ** The critical sections keep it *)
Lemma routed_set_maps v byId byTcp :
  routed v → (∀ id cli, id ≠ "" → byId !! id = Some cli → byTcp !! cli = Some id) → routed (set_maps byId byTcp v).
Proof. intros [Hl _] Hm. split; done. Qed.

(** Taking an id; the former id of the connection is dropped first. *)
Lemma routed_claim v id cli :
  routed v → (∀ old, clientsByTcpCli v !! cli = Some old → old = "" ∨ old = id ∨ clientsById v !! old ≠ Some cli) →
  routed (set_maps (<[id := cli]> (clientsById v)) (<[cli := id]> (clientsByTcpCli v)) v).
Proof.
  intros Hv Hold. apply routed_set_maps; [done|]. intros i c Hi. rewrite lookup_insert. case_decide as Hd.
  - intros [= <-]. subst. by rewrite lookup_insert_eq.
  - intros Hl. destruct Hv as [_ Hr]. specialize (Hr i c Hi Hl). rewrite lookup_insert_ne; [done|].
    intros ->. destruct (Hold i Hr) as [?|[?|?]]; congruence.
Qed.

Lemma preserves_change_id cli newId : preserves (change_id cli newId).
Proof.
  intros s [] s' Hs. rewrite change_id_eq by apply Hs. intros Hr; simplify_eq/=. destruct Hs as [Hl Hr].
  split; [done|]. cbn. intros i c Hi. rewrite lookup_insert. case_decide as Hd.
  - intros [= <-]. subst. by rewrite lookup_insert_eq.
  - intros Hc. assert (clientsById (s_vstp s) !! i = Some c) as Hc'.
    { case_decide; [by apply lookup_delete_Some in Hc as [_ Hc]|done]. }
    rewrite lookup_insert_ne; [by apply Hr|]. intros ->. specialize (Hr i c Hi Hc').
    rewrite Hr in Hc. cbn in Hc. rewrite decide_True in Hc by done. by rewrite lookup_delete_eq in Hc.
Qed.

Lemma preserves_on_disconnect cli : preserves (on_disconnect cli).
Proof.
  intros s [] s' Hs. pose proof (routed_lock _ Hs) as Hu. destruct Hs as [_ Hr].
  destruct (clientsByTcpCli (s_vstp s) !! cli) as [id|] eqn:Hid.
  - rewrite (on_disconnect_known _ id) by done. intros [= <-]. split; [done|]. cbn. intros i c Hi.
    rewrite lookup_delete_Some. intros [Hne Hc]. specialize (Hr i c Hi Hc).
    rewrite lookup_delete_ne; [done|]. intros ->. congruence.
  - unfold on_disconnect, Lock_clients, Unlock_clients, get_v, put_v, log. m_simpl. rewrite Hu. cbn. rewrite Hid. cbn.
    destruct (find_id cli _) as [id|]; intros Hs'; simplify_eq/=; (split; [done|]); cbn; intros i c Hi;
      [rewrite lookup_delete_Some; intros [_ Hc]|intros Hc]; by apply Hr.
Qed.

Lemma preserves_client_id cli : preserves (client_id cli).
Proof.
  intros s a s' Hs. pose proof (routed_lock _ Hs) as Hu.
  unfold client_id, Lock_clients, Unlock_clients, get_v, put_v. m_simpl. rewrite Hu. cbn. case_decide as Hd.
  - unfold lift_exec. cbn. intros Hr; simplify_eq/=. apply (routed_claim (s_vstp s) (Itoa (w_now (s_world s))) cli) in Hs.
    + destruct Hs as [_ Hs]. by split.
    + intros old Ho. left. by rewrite Ho in Hd.
  - intros Hr; simplify_eq/=. destruct Hs as [_ Hs]. by split.
Qed.

Lemma register_conn_eq cli uid s :
  unlocked s →
  let v := s_vstp s in
  register_conn cli uid s = Some ((),
    set_vstp (set_buffers (<[cli := ""]> (incomingDataBuffer v))
      (set_maps (<[uid := cli]> (clientsById v)) (<[cli := uid]> (clientsByTcpCli v)) v)) s).
Proof.
  intros Hu v. unfold unlocked in Hu. unfold register_conn, Lock_clients, Unlock_clients, get_v, put_v. m_simpl.
  rewrite Hu. cbn. unfold set_vstp, set_maps, set_buffers, set_mutex. cbn. by rewrite <-Hu.
Qed.

Lemma preserves_with_ctrl (f : TheController → M DB unit) : (∀ c, preserves (f c)) → preserves (with_ctrl f).
Proof.
  intros Hf. unfold with_ctrl. apply preserves_bind; [apply preserves_get|]. intros v.
  destruct (ctrl v); [apply Hf|apply preserves_ret].
Qed.

Lemma preserves_serve_fuel {A} (p : prog (option A)) : preserves (serve_fuel p).
Proof.
  apply preserves_bind; [apply preserves_serve|]. intros [a|]; [apply preserves_ret|apply preserves_stuck].
Qed.

Lemma preserves_read_maps {A} (f : VSTP → M DB A) :
  (∀ v, preserves (f v)) → preserves (Lock_clients ;; v ← get_v; Unlock_clients ;; f v).
Proof.
  intros Hf s a s' Hs. rewrite read_maps by apply Hs. intros Hr. by eapply Hf.
Qed.
End connections.

(** ** Every handler keeps it *)
Create HintDb preserves.
#[export] Hint Resolve preserves_bind preserves_ret preserves_stuck preserves_get preserves_log preserves_write
  preserves_serve preserves_serve_fuel preserves_with_ctrl preserves_change_id preserves_client_id
  preserves_on_disconnect : preserves.

(** Splits a handler into its actions. *)
Ltac preserve :=
  repeat (intros || apply preserves_write || apply preserves_read_maps || apply preserves_change_id ||
          apply preserves_client_id || apply preserves_serve_fuel || apply preserves_with_ctrl ||
          solve [auto 1 with preserves nocore] || apply preserves_bind || case_match).

Section handlers.
Context {DB : Type} `{!IStorage DB} {ENV : Environment} `{RangeOrder} `{Network}.
Implicit Types (s : Server DB) (v : VSTP).

Lemma preserves_write_values cli vals : preserves (write_values (DB := DB) cli vals).
Proof. induction vals; cbn [write_values]; preserve. Qed.

Lemma preserves_dispatch fuel cli cmd payload : preserves (dispatch (DB := DB) fuel cli cmd payload).
Proof.
  pose proof (preserves_write_values cli) as Hvals. unfold dispatch.
  repeat case_decide; unfold do_set, do_delete, do_get, do_subscribe, do_unsubscribe, do_lock, do_unlock, do_ping,
    do_setid, do_getchilds, do_lockstatus, begin_, end_.
  all: preserve.
Qed.
End handlers.

(** ** Reachable states *)
Section reachable.
Context {DB : Type} `{!IStorage DB} {ENV : Environment} `{RangeOrder} `{Network}.
Implicit Types (s : Server DB) (v : VSTP).

(** A connection is accepted, sends or closes; a goroutine for a line runs; a
    goroutine of the controller runs. *)
Inductive server_step : Server DB → Server DB → Prop :=
  | step_connect cli s s' :
      clientsByTcpCli (s_vstp s) !! cli = None → on_event cli OnClientConnect s = Some ((), s') → server_step s s'
  | step_data cli d s s' : on_event cli (OnClientData d) s = Some ((), s') → server_step s s'
  | step_disconnect cli s s' : on_event cli OnClientDisconnect s = Some ((), s') → server_step s s'
  | step_message i cli line fuel s s' :
      s_messages s !! i = Some (cli, line) →
      processReceivedMessage fuel cli line (set_messages (delete i (s_messages s)) s) = Some ((), s') →
      server_step s s'
  | step_task i t s s' :
      w_tasks (s_world s) !! i = Some t →
      serve t (set_world (set_tasks (delete i (w_tasks (s_world s))) (s_world s)) s) = Some ((), s') →
      server_step s s'.

(** Drawing a name touches only the world. *)
Lemma serve_draw_words words n l s : ∃ l' w, serve (draw_words words n l) s = Some (l', set_world w s).
Proof.
  revert l s. induction n as [|n IH]; intros l s; [by exists l, (s_world s); destruct s|].
  cbn. unfold lift_exec. cbn.
  match goal with |- context [serve (draw_words words n ?l1) ?s1] => destruct (IH l1 s1) as (l' & w & ->) end.
  by exists l', w.
Qed.

Lemma serve_CreateFunName s : ∃ name w, serve (CreateFunName 1 1) s = Some (name, set_world w s).
Proof.
  unfold CreateFunName. rewrite serve_bind. destruct (serve_draw_words adjectives (Z.to_nat 1) [] s) as (l & w & ->).
  rewrite serve_bind. destruct (serve_draw_words funwords (Z.to_nat 1) l (set_world w s)) as (l' & w' & ->).
  by exists (Join l' " "), w'.
Qed.

(** Data of an unknown connection: the goroutine takes the mutex it holds. *)
Lemma on_data_unknown cli d s :
  unlocked s → incomingDataBuffer (s_vstp s) !! cli = None → on_data cli d s = None.
Proof.
  intros Hu Hb. unfold unlocked in Hu. unfold on_data, log, Lock_clients, Unlock_clients, get_v, put_v.
  unfold mbind, M_bind. rewrite Hu. cbn [s_vstp set_vstp set_mutex incomingDataBuffer]. rewrite decide_True by done.
  cbn [s_vstp set_vstp set_mutex set_slog incomingDataBuffer].
  match goal with |- context [serve (CreateFunName 1 1) ?s1] =>
    destruct (serve_CreateFunName s1) as (name & w & ->)
  end.
  done.
Qed.

Lemma preserves_on_data cli d : preserves (on_data (DB := DB) cli d).
Proof.
  intros s [] s' Hs. destruct (incomingDataBuffer (s_vstp s) !! cli) as [b|] eqn:Hb.
  - rewrite (on_data_eq _ _ b) by (done || apply Hs). intros [= <-]. by destruct Hs.
  - by rewrite on_data_unknown by (done || apply Hs).
Qed.

Lemma on_connect_routed cli s s' :
  routed (s_vstp s) → clientsByTcpCli (s_vstp s) !! cli = None →
  on_connect cli s = Some ((), s') → routed (s_vstp s').
Proof.
  intros Hs Hnew. unfold on_connect. destruct (serve_CreateFunName s) as (name & w & E).
  unfold mbind, M_bind. rewrite E. unfold get_v, put_v. cbn [s_vstp set_world set_vstp].
  set (uid := Itoa _ +:+ "-" +:+ name).
  match goal with |- context [register_conn cli uid ?s1] =>
    rewrite (register_conn_eq cli uid s1) by apply Hs; set (s2 := set_vstp _ s1)
  end.
  assert (routed (s_vstp s2)) as Hs2.
  { apply (routed_claim (s_vstp s) uid cli) in Hs; [|naive_solver]. destruct Hs as [Hl Hr]. by split. }
  clearbody s2 uid. clear -Hs2. intros Hr.
  assert (preserves (DB := DB) (write cli "beginserverheaders" "" ;; sendInfoAndConfToClient cli ;;
    write cli "sugestednewid" uid ;; write cli "endserverheaders" "" ;;
    log ("New VSTP client connected, assigned id: " +:+ uid))) as Hp by (unfold sendInfoAndConfToClient; preserve).
  by apply (Hp s2 () s').
Qed.

Lemma server_step_routed s s' : server_step s s' → routed (s_vstp s) → routed (s_vstp s').
Proof.
  intros [cli s1 s1' Hnew Hr|cli d s1 s1' Hr|cli s1 s1' Hr|i cli line fuel s1 s1' _ Hr|i t s1 s1' _ Hr] Hs.
  - exact (on_connect_routed cli s1 s1' Hs Hnew Hr).
  - exact (preserves_on_data cli d s1 () s1' Hs Hr).
  - exact (preserves_on_disconnect cli s1 () s1' Hs Hr).
  - unfold processReceivedMessage in Hr. destruct (separateKeyAndValue line) as [cmd payload].
    by eapply preserves_dispatch; [|exact Hr].
  - by eapply preserves_serve; [|exact Hr].
Qed.

(** The lines of a notification all go to one connection. *)
Lemma send_changes_wire cli p s b s' :
  send_changes cli p s = Some (b, s') → ∃ lines, s_wire s' = s_wire s ++ (pair cli <$> lines).
Proof.
  revert s. induction p as [|t p IH]; intros s; cbn [send_changes].
  - intros [= _ <-]. exists []. by rewrite app_nil_r.
  - unfold mbind, M_bind, protocolWrite, SendString. destruct (net_send _ cli).
    + intros (lines & ->)%IH. cbn. rewrite <-app_assoc. by eexists (_ :: lines).
    + unfold log. intros [= _ <-]. exists []. by rewrite app_nil_r.
Qed.

End reachable.

(** ** Witnesses *)
Section witnesses.
Existing Instance canonical_order.
Existing Instance online.

(** Every write succeeds. *)
Definition wired : Network := λ _ _, true.
Existing Instance wired.

(** A server that has just started, and after two connections. *)
Definition fresh_server : Server RamCacheDB := mkServer fresh_world (initial_vstp (Some default_controller)) [] 0 [] [].
Definition after (m : M RamCacheDB unit) (s : Server RamCacheDB) : Server RamCacheDB :=
  match m s with Some (_, s) => s | None => s end.
Definition one_connection : Server RamCacheDB := after (on_connect 1) fresh_server.
Definition two_connections : Server RamCacheDB := after (on_connect 2) one_connection.

Lemma two_connections_unlocked : unlocked two_connections.
Proof. by vm_compute. Qed.

Lemma chunks_do_not_matter_witness :
  unlocked two_connections ∧ incomingDataBuffer (s_vstp two_connections) !! 1 = Some "" ∧ lacks newline "" ∧
  ∃ s', receive 1 ["se"; "t:a=1" +:+ nl +:+ "get:a" +:+ nl; "pi"] two_connections = Some ((), s') ∧
    s_messages s' = [(1, "set:a=1"); (1, "get:a")].
Proof.
  assert (incomingDataBuffer (s_vstp two_connections) !! 1 = Some "") as Hb by (by vm_compute).
  assert (lacks newline "") as Hl by reflexivity.
  split; [exact two_connections_unlocked|]. split; [exact Hb|]. split; [exact Hl|].
  eexists. split;
    [exact (chunks_do_not_matter 1 ["se"; "t:a=1" +:+ nl +:+ "get:a" +:+ nl; "pi"] "" two_connections
              two_connections_unlocked Hb Hl)|by vm_compute].
Defined.

Lemma setid_routes_witness :
  unlocked two_connections ∧
  ∃ s', change_id 2 "me" two_connections = Some ((), s') ∧ unlocked s' ∧
    clientsById (s_vstp s') !! "me" = Some 2 ∧ clientsByTcpCli (s_vstp s') !! 2 = Some "me" ∧
    (∀ oldId, clientsByTcpCli (s_vstp two_connections) !! 2 = Some oldId → oldId ≠ "" → oldId ≠ "me" →
       CheckAlive oldId s' = Some (false, s')) ∧
    CheckAlive "me" s' = Some (true, s').
Proof. split; [exact two_connections_unlocked|exact (setid_routes 2 "me" two_connections two_connections_unlocked)]. Defined.

Lemma resumed_session_is_lost_witness :
  let id := "0-adorable fluffy" in
  let p := [("a", "", "1")] in
  unlocked two_connections ∧ 1 ≠ 2 ∧ clientsByTcpCli (s_vstp two_connections) !! 1 = Some id ∧
  ∃ s', (change_id 2 id ;; on_disconnect 1) two_connections = Some ((), s') ∧
    clientsByTcpCli (s_vstp s') !! 2 = Some id ∧
    CheckAlive id s' = Some (false, s') ∧ NotifyClient id p s' = Some (false, s').
Proof.
  intros id p. assert (1 ≠ 2) as Hne by discriminate.
  assert (clientsByTcpCli (s_vstp two_connections) !! 1 = Some id) as Hid by (by vm_compute).
  split; [exact two_connections_unlocked|]. split; [exact Hne|]. split; [exact Hid|].
  exact (resumed_session_is_lost 1 2 id p two_connections two_connections_unlocked Hne Hid).
Defined.

Lemma one_connection_reachable : rtc server_step fresh_server one_connection.
Proof. apply rtc_once. apply (step_connect 1); by vm_compute. Qed.

End witnesses.
