(* ===== verification/Lifecycle.v ===== *)
(** * The life of a VSTP connection

    The TCP server drives the VSTP server: [handleClient] calls the handlers of
    [NewVSTP] for what [con.Read] returns.  Here the two are composed: whatever
    the reads, a connection hands its complete lines to goroutines and leaves no
    trace in the maps when it closes. *)
From S2P Require Import Prelude GoStrings GoStrconv Misc NamedLock Storage RamCacheDB Reference Runtime Samples VarHelper ClientHelper Controller Variables Namer TcpServer Vstp VstpRun Connections.

Section lifecycle.
Context {DB : Type} `{!IStorage DB} {ENV : Environment} `{RangeOrder} `{Network}.
Implicit Types (s : Server DB) (v : VSTP).

(** The handlers of the events of a connection, in order. *)
Fixpoint on_events (cli : conn) (es : list event) : M DB unit :=
  match es with
  | [] => mret ()
  | e :: es => on_event cli e ;; on_events cli es
  end.

(** ** Actions that only write and log *)
Definition writes_only {A} (m : M DB A) : Prop := ∀ s, ∃ a s', m s = Some (a, s') ∧ same_vstp s s'.

Lemma writes_only_bind {A B} (m : M DB A) (f : A → M DB B) :
  writes_only m → (∀ a, writes_only (f a)) → writes_only (m ≫= f).
Proof.
  intros Hm Hf s. destruct (Hm s) as (a & s1 & H1 & Hs1). destruct (Hf a s1) as (b & s2 & H2 & Hs2).
  exists b, s2. rewrite (M_bind_eq _ _ _ _ _ H1). split; [exact H2|by eapply same_trans].
Qed.
Lemma writes_only_write cli cmd data : writes_only (write cli cmd data).
Proof.
  intros s. unfold write, protocolWrite, SendString. m_simpl. destruct (net_send _ cli); by eexists _, _.
Qed.
Lemma writes_only_log msg : writes_only (log msg).
Proof. intros s. by eexists _, _. Qed.
Lemma writes_only_info cli : writes_only (sendInfoAndConfToClient cli).
Proof.
  apply writes_only_bind; [apply writes_only_write|]. intros _ s. unfold with_ctrl, get_v. m_simpl.
  destruct (ctrl (s_vstp s)); [apply writes_only_write|]. by eexists _, _.
Qed.

(** ** Opening *)
Lemma on_connect_eq cli s :
  unlocked s →
  ∃ uid s', on_connect cli s = Some ((), s') ∧ s_messages s' = s_messages s ∧
    clientsLock (s_vstp s') = false ∧
    clientsById (s_vstp s') = <[uid := cli]> (clientsById (s_vstp s)) ∧
    clientsByTcpCli (s_vstp s') = <[cli := uid]> (clientsByTcpCli (s_vstp s)) ∧
    incomingDataBuffer (s_vstp s') = <[cli := ""]> (incomingDataBuffer (s_vstp s)).
Proof.
  intros Hu. unfold on_connect. destruct (serve_CreateFunName s) as (name & w & E).
  rewrite (M_bind_eq _ _ _ _ _ E). unfold get_v, put_v.
  unfold mbind at 1, M_bind at 1. cbn [s_vstp set_world].
  unfold mbind at 1, M_bind at 1. cbn [s_vstp set_world].
  set (uid := Itoa _ +:+ "-" +:+ name). exists uid.
  match goal with |- context [(register_conn cli uid ≫= _) ?s1] => set (s2 := s1) end.
  assert (unlocked s2) as Hu2 by exact Hu.
  rewrite (M_bind_eq _ _ _ _ _ (register_conn_eq cli uid s2 Hu2)).
  match goal with |- ∃ s', ?m ?s3 = _ ∧ _ =>
    assert (writes_only m) as Hw; [|destruct (Hw s3) as ([] & s4 & Hr & Hs)]
  end.
  { apply writes_only_bind; [apply writes_only_write|]. intros _.
    apply writes_only_bind; [apply writes_only_info|]. intros _.
    apply writes_only_bind; [apply writes_only_write|]. intros _.
    apply writes_only_bind; [apply writes_only_write|]. intros _. apply writes_only_log. }
  exists s4. split; [exact Hr|]. destruct Hs as [Hv Hm]. rewrite Hv, Hm. clear -Hu. by subst s2.
Qed.

(** ** Reading *)
Lemma on_events_reads cli reads b s :
  unlocked s → incomingDataBuffer (s_vstp s) !! cli = Some b → lacks newline b → None ∈ reads →
  on_events cli (read_loop reads) s =
    on_disconnect cli
      (set_messages (s_messages s ++ (pair cli <$> (lines_of (b +:+ bytes_read reads)).1))
        (set_vstp (set_buffers (<[cli := (lines_of (b +:+ bytes_read reads)).2]> (incomingDataBuffer (s_vstp s)))
           (s_vstp s)) s)).
Proof.
  revert b s. induction reads as [|[d|] reads IH]; intros b s Hu Hb Hl Hin.
  - by apply elem_of_nil in Hin.
  - apply elem_of_cons in Hin as [?|Hin]; [done|]. cbn [read_loop bytes_read]. destruct d as [|c d].
    { exact (IH b s Hu Hb Hl Hin). }
    cbn [len Nat.ltb Nat.leb processReceivedData app on_events on_event fire handlers SetOnClientData SetOnClientDisconnect SetOnCLientConnect no_handlers h_connect h_disconnect h_data h_data_string].
    rewrite (M_bind_eq _ _ _ _ _ (on_data_eq _ _ _ _ Hu Hb)).
    unfold mbind at 1, M_bind at 1. cbn [mret M_ret].
    rewrite (IH (lines_of (b +:+ String c d)).2);
      [|exact Hu|cbn; by rewrite lookup_insert_eq|apply lines_of_last|exact Hin].
    rewrite <-(str_app_assoc b), (lines_of_app (b +:+ String c d)). cbn [fst snd].
    unfold set_messages, set_vstp, set_buffers. cbn. by rewrite insert_insert_eq, fmap_app, app_assoc.
  - cbn [read_loop bytes_read on_events on_event fire handlers SetOnClientData SetOnClientDisconnect SetOnCLientConnect no_handlers h_connect h_disconnect h_data h_data_string]. rewrite app_empty_r, lines_of_rest by done. cbn [fst snd].
    rewrite app_nil_r, insert_id by done.
    assert ((on_disconnect cli ;; mret ()) s = on_disconnect cli s) as ->.
    { unfold mbind, M_bind. by destruct (on_disconnect cli s) as [[[] s']|]. }
    by destruct s as [? []].
Qed.

End lifecycle.

(** ** Witness *)
Section witness.
Existing Instance canonical_order.
Existing Instance online.
Existing Instance wired.

(** A command in two pieces, an empty read, and an unfinished line. *)
Definition sample_reads : list read := [Some "set:a"; Some ""; Some ("=1" +:+ nl +:+ "ping"); None].

End witness.
