(* ===== verification/Session.v ===== *)
(** * Sessions over the VSTP API

    Whole exchanges, from the line a client sends to the lines it gets back,
    through the API, the controller and the storage. *)
From S2P Require Import Prelude GoStrings GoStrconv Misc NamedLock Storage RamCacheDB Reference Runtime Samples VarHelper Observations VarLock ClientHelper Controller Variables Subtree Namer TcpServer Vstp VstpRun Connections.

(** ** Requests *)

(** No separator. *)
Definition plain_key (s : string) : Prop := all_bytes (λ c, negb (is_separator c)) s = true.

Lemma separateKeyAndValue_app k sep v :
  plain_key k → is_separator sep = true → separateKeyAndValue (k +:+ String sep "" +:+ v) = (k, v).
Proof.
  change (String sep "" +:+ v) with (String sep v). unfold plain_key. induction k as [|c k IH]; intros Hk Hs.
  - change ("" +:+ String sep v) with (String sep v). cbn. by rewrite Hs.
  - rewrite app_cons. cbn in Hk |- *. apply andb_true_iff in Hk as [Hc Hk]. destruct (is_separator c); [done|].
    by rewrite IH.
Qed.

Lemma separateKeyAndValue_plain k : plain_key k → separateKeyAndValue k = (k, "").
Proof.
  unfold plain_key. induction k as [|c k IH]; [done|]. cbn. intros [Hc Hk]%andb_true_iff.
  destruct (is_separator c); [done|]. by rewrite IH.
Qed.

(** Names of variables have no separator. *)
Lemma filter_bytes_plain chars s :
  all_bytes (λ c, negb (is_separator c)) chars = true → plain_key (filter_bytes (byte_in chars) s).
Proof.
  intros Hc. unfold plain_key. induction s as [|a s IH]; [done|]. cbn. destruct (byte_in chars a) eqn:Ha; [|done].
  cbn. rewrite IH, andb_true_r. unfold byte_in in Ha. apply bool_decide_eq_true in Ha as [i Hi].
  apply IndexByte_Some in Hi as (He & _ & _). rewrite He in Hc. clear -Hc.
  induction (str_take i chars) as [|x l IH].
  - change ("" +:+ String a (str_drop (S i) chars)) with (String a (str_drop (S i) chars)) in Hc.
    cbn in Hc. by apply andb_true_iff in Hc as [Hc _].
  - rewrite app_cons in Hc. cbn in Hc. apply andb_true_iff in Hc as [_ Hc]. by apply IH.
Qed.

(** ** Replies *)

(** A line of the protocol. *)
Definition line (cmd data : string) : string := cmd +:+ ":" +:+ data +:+ nl.

Section session.
Context {DB : Type} {HI : IStorage DB} {HS : StorageSpec DB} {ENV : Environment} `{RangeOrder} `{Network}.
Implicit Types (s : Server DB) (c : TheController).

(** Every write reaches its connection. *)
Context (reliable : ∀ n cli, net_send n cli = true).

Definition sent (cli : nat) (ls : list string) s : Server DB :=
  set_wire (s_wire s ++ (pair cli <$> ls)) (set_writes (length ls + s_writes s) s).

Lemma sent_sent cli l1 l2 s : sent cli l2 (sent cli l1 s) = sent cli (l1 ++ l2) s.
Proof.
  unfold sent, set_wire, set_writes. cbn. rewrite fmap_app, length_app, app_assoc.
  f_equal. lia.
Qed.

Lemma write_eq cli cmd data s : write cli cmd data s = Some ((), sent cli [line cmd data] s).
Proof. unfold write, protocolWrite, SendString. m_simpl. by rewrite reliable. Qed.

(** A request of a client of controller [c]. *)
Lemma with_ctrl_eq c (f : TheController → M DB unit) s : ctrl (s_vstp s) = Some c → with_ctrl f s = f c s.
Proof. intros Hc. unfold with_ctrl, get_v. m_simpl. by rewrite Hc. Qed.

(** The state in which a client is served. *)
Record ready c s : Prop := {
  ready_unlocked : unlocked s;
  ready_ctrl : ctrl (s_vstp s) = Some c;
  ready_quiet : quiet (s_world s);
  ready_valid : valid (w_db (s_world s))
}.

Lemma ready_sent c s cli ls : ready c s → ready c (sent cli ls s).
Proof. by intros []. Qed.
Lemma ready_world c s w : ready c s → quiet w → valid (w_db w) → ready c (set_world w s).
Proof. by intros []. Qed.

Lemma message_eq fuel cli cmd payload s :
  plain_key cmd →
  processReceivedMessage fuel cli (cmd +:+ ":" +:+ payload) s = dispatch fuel cli (TrimSpace cmd) (TrimSpace payload) s.
Proof.
  intros Hk. unfold processReceivedMessage.
  by rewrite separateKeyAndValue_app.
Qed.

(** The lines that frame a reply. *)
Definition framed (cmd payload : string) (ls : list string) : list string :=
  line "beginresponse" (cmd +:+ ":" +:+ payload) :: ls ++ [line "endresponse" (cmd +:+ ":" +:+ payload)].

(** Unfolds a handler into its writes. *)
Ltac writes := unfold begin_, end_, mbind, mret, M_bind, M_ret; rewrite ?write_eq, ?sent_sent; cbn [app].

(** [set:name=value] *)
Lemma do_set_eq c cli n v r w s :
  ready c s → plain_key n → n ≠ "" →
  (∀ E, run (H := E) (SetVar c n (NewDynamicVar v)) (s_world s) = Some (r, w)) → w_calls w = w_calls (s_world s) →
  do_set cli (n +:+ "=" +:+ v) s = Some ((),
    sent cli (framed "set" (n +:+ "=" +:+ v) (match r with Err e => [line "error" ("set error: " +:+ e)] | Ok _ => [] end))
      (set_world w s)).
Proof.
  intros [Hu Hc _ _] Hk Hn Hr Hw. unfold do_set. rewrite separateKeyAndValue_app by done.
  rewrite decide_True by done. rewrite (with_ctrl_eq c) by done. unfold mbind at 1, M_bind at 1.
  rewrite (serve_quiet _ _ _ _ Hu Hr Hw). destruct r; by writes.
Qed.

(** [get:name] of one variable *)
Lemma do_get_eq c cli n fuel w s :
  ready c s → plain_key n → n ≠ "" → Contains n "*" = false → w = s_world s →
  do_get (S fuel) cli n s = Some ((),
    sent cli (framed "get" n [line "varvalue" (n +:+ "=" +:+
      GetString (val (w_db w) (keypath (var_key (allowRawDbAccess c) n))))]) s).
Proof.
  intros [Hu Hc _ Hv] Hk Hn Hstar ->. unfold do_get. rewrite separateKeyAndValue_plain by done. cbn [fst].
  rewrite (with_ctrl_eq c) by done.
  pose proof (serve_quiet _ s _ _ Hu
    (λ E, run_GetVars_plain (H := E) fuel c n (NewDynamicVar "") (s_world s) Hv Hn Hstar) eq_refl) as Hr.
  rewrite (M_bind_eq _ _ _ _ _ (serve_fuel_eq _ _ _ _ Hr)).
  replace (set_world (s_world s) s) with s by (by destruct s). cbn [write_values].
  writes. cbn [fst snd GetString]. unfold framed. cbn [app]. do 6 f_equal.
  case_decide as Hz; [done|]. destruct (val _ _) as [x]. cbn in *. by destruct (decide (x = "")) as [->|].
Qed.

(** Without a number the time-out is the greatest [uint], which is negative as a
    duration. *)
Lemma lock_timeout_default : lock_timeout (lock_timeout_of "") = (-1000000)%Z.
Proof. by vm_compute. Qed.

(** [lock:name] without a time-out *)
Lemma do_lock_eq c cli n s :
  ready c s → plain_key n →
  let key := var_key (allowRawDbAccess c) n in
  let free := negb (locked (w_db (s_world s)) key) in
  ∃ w, do_lock cli n s = Some ((),
      sent cli (framed "lock" n [line "lockresult" (n +:+ (if free then "=success" else "=failure:timeout reached"))])
        (set_world w s)) ∧
    evolves (s_world s) w
      (if free then st_Set (key_lock key) (NewDynamicVar "1") (w_db (s_world s)) else w_db (s_world s)).
Proof.
  intros [Hu Hc Hq Hv] Hk key free. unfold do_lock. rewrite separateKeyAndValue_plain by done.
  unfold get_v. erewrite (M_bind_eq (λ s, Some (s_vstp s, s))) by done. rewrite Hc.
  destruct (serve_quiet_ex (LockVar c n (lock_timeout_of "")) s (λ r w,
      r = Some (if free then Ok () else Err "timeout reached") ∧
      evolves (s_world s) w
        (if free then st_Set (key_lock key) (NewDynamicVar "1") (w_db (s_world s)) else w_db (s_world s))) Hu)
    as (r & w & Hr & -> & He).
  { intros E. destruct (run_Lock_once (helper c n) (lock_timeout_of "") (s_world s) Hq Hv) as (w & Hr & He);
      [by rewrite lock_timeout_default|].
    eexists _, w. split; [exact Hr|]. split; [by destruct He as [-> _]|]. done. }
  exists w. split; [|exact He].
  unfold mbind at 1, M_bind at 1. rewrite (M_bind_eq _ _ _ _ _ (serve_fuel_eq _ _ _ _ Hr)).
  destruct free; by writes.
Qed.

(** [unlock:name] *)
Lemma do_unlock_eq c cli n s :
  ready c s → plain_key n →
  let key := var_key (allowRawDbAccess c) n in
  ∃ w, do_unlock cli n s = Some ((), sent cli (framed "unlock" n [line "unlockdone" n]) (set_world w s)) ∧
    evolves (s_world s) w (st_Set (key_lock key) (NewDynamicVar "0") (w_db (s_world s))).
Proof.
  intros [Hu Hc Hq Hv] Hk key. unfold do_unlock. rewrite separateKeyAndValue_plain by done. cbn [fst].
  destruct (serve_quiet_ex (UnlockVar c n) s (λ r w,
      evolves (s_world s) w (st_Set (key_lock key) (NewDynamicVar "0") (w_db (s_world s)))) Hu) as (r & w & Hr & He).
  { intros E. destruct (run_Unlock (helper c n) (s_world s) Hq Hv) as (w & Hr & He & _).
    eexists _, w. split; [exact Hr|]. split; [by destruct He as [-> _]|]. done. }
  exists w. split; [|exact He].
  erewrite (M_bind_eq (with_ctrl _)); cycle 1.
  { rewrite (with_ctrl_eq c) by done. rewrite (M_bind_eq _ _ _ _ _ Hr). done. }
  by writes.
Qed.

(** ** Exchanges *)

(** What is left of the payload of a request. *)
Definition trimmed (s : string) : Prop := TrimSpace s = s.

Definition request (fuel : nat) (cli : nat) (cmd payload : string) : M DB unit :=
  processReceivedMessage fuel cli (cmd +:+ ":" +:+ payload).

Lemma request_eq fuel cli cmd payload s :
  cmd ∈ ["set"; "get"; "lock"; "unlock"]%string → trimmed payload →
  request fuel cli cmd payload s = dispatch fuel cli cmd payload s.
Proof.
  intros Hcmd Ht. unfold request. rewrite message_eq.
  - rewrite Ht. by repeat (apply elem_of_cons in Hcmd as [-> | Hcmd]); [..|apply elem_of_nil in Hcmd].
  - by repeat (apply elem_of_cons in Hcmd as [-> | Hcmd]); [..|apply elem_of_nil in Hcmd].
Qed.

(** A name of a variable that can be set, as the client writes it. *)
Record variable_name c (n v : string) : Prop := {
  vn_filtered : GetOnly n valid_name_chars = n;
  vn_accepted : set_var_error c n (NewDynamicVar v) = None;
  vn_no_star : Contains n "*" = false;
  vn_trimmed : trimmed n;
  vn_value : trimmed (n +:+ "=" +:+ v)
}.

Lemma variable_name_plain c n v : variable_name c n v → plain_key n ∧ n ≠ "".
Proof.
  intros [Hf He _ _ _]. split.
  - rewrite <-Hf, GetOnly_filter by (by vm_compute). apply filter_bytes_plain. by vm_compute.
  - intros ->. by vm_compute in He.
Qed.

(** [set] of a variable that is free, and of one that is locked. *)
Lemma set_free c cli n v fuel s :
  ready c s → variable_name c n v → locked (w_db (s_world s)) (var_key (allowRawDbAccess c) n) = false →
  ∃ w, request fuel cli "set" (n +:+ "=" +:+ v) s = Some ((), sent cli (framed "set" (n +:+ "=" +:+ v) []) (set_world w s)) ∧
    ready c (set_world w s) ∧ w_db w = st_Set (var_key (allowRawDbAccess c) n) (NewDynamicVar v) (w_db (s_world s)).
Proof.
  intros Hs Hn Hl. destruct (variable_name_plain _ _ _ Hn) as [Hk Hne]. destruct Hn as [Hf He Hstar _ Ht].
  set (w := set_tasks (w_tasks (s_world s) ++ [notifyVarModification c n (NewDynamicVar v)])
    (set_db (st_Set (var_key (allowRawDbAccess c) n) (NewDynamicVar v) (w_db (s_world s))) (s_world s))).
  assert (∀ E, run (H := E) (SetVar c n (NewDynamicVar v)) (s_world s) = Some (Ok (), w)) as Hr.
  { intros E. rewrite (run_SetVar (H := E) c n (NewDynamicVar v) (s_world s)) by apply Hs. cbv zeta.
    by rewrite Hf, He, Hl, var_key_star by done. }
  exists w. rewrite request_eq by (done || set_solver).
  split; [exact (do_set_eq c cli n v _ w s Hs Hk Hne Hr eq_refl)|]. split; [|done].
  apply ready_world; [done|apply Hs|by apply Set_valid; apply Hs].
Qed.

Lemma set_locked c cli n v fuel s :
  ready c s → variable_name c n v → locked (w_db (s_world s)) (var_key (allowRawDbAccess c) n) = true →
  request fuel cli "set" (n +:+ "=" +:+ v) s
  = Some ((), sent cli (framed "set" (n +:+ "=" +:+ v) [line "error" "set error: variable is locked"]) s).
Proof.
  intros Hs Hn Hl. destruct (variable_name_plain _ _ _ Hn) as [Hk Hne]. destruct Hn as [Hf He Hstar _ Ht].
  assert (∀ E, run (H := E) (SetVar c n (NewDynamicVar v)) (s_world s) = Some (Err "variable is locked", s_world s)) as Hr.
  { intros E. rewrite (run_SetVar (H := E) c n (NewDynamicVar v) (s_world s)) by apply Hs. cbv zeta. by rewrite Hf, He, Hl. }
  rewrite request_eq by (done || set_solver).
  pose proof (do_set_eq c cli n v _ _ s Hs Hk Hne Hr eq_refl) as Hd. cbn in Hd.
  replace (set_world (s_world s) s) with s in Hd by (by destruct s). exact Hd.
Qed.

Lemma length_trim_last l : length (trim_last l) ≤ length l.
Proof.
  unfold trim_last. destruct l as [|x l _] using rev_ind; [done|]. rewrite last_snoc, removelast_last, length_app.
  case_match; [lia|]. rewrite length_app. lia.
Qed.

(** The lock of a variable is no part of its value. *)
Lemma val_lock_other (db : DB) key v :
  valid db → val (st_Set (key_lock key) v db) (keypath key) = val db (keypath key).
Proof.
  intros Hv. rewrite val_Set, keypath_lock by done. rewrite decide_False; [done|]. unfold p_lock, keypath, npath.
  intros He%(f_equal length). rewrite length_app in He. cbn in He.
  pose proof (length_trim_last (SplitByte key dot)).
  destruct (SplitByte key dot) as [|x [|y l]]; cbn [length] in *; lia.
Qed.

(** C8.  A client that sets a variable and asks for it gets its value back, over
    the wire: for a name and a value the checks let through, on a variable that
    is not locked, the replies are these five lines, to that connection. *)
Theorem set_then_get c cli n v fuel s :
  ready c s → variable_name c n v → locked (w_db (s_world s)) (var_key (allowRawDbAccess c) n) = false →
  ∃ s', (request fuel cli "set" (n +:+ "=" +:+ v) ;; request (S fuel) cli "get" n) s = Some ((), s') ∧ ready c s' ∧
    s_wire s' = s_wire s ++ (pair cli <$>
      [line "beginresponse" ("set:" +:+ n +:+ "=" +:+ v); line "endresponse" ("set:" +:+ n +:+ "=" +:+ v);
       line "beginresponse" ("get:" +:+ n); line "varvalue" (n +:+ "=" +:+ v); line "endresponse" ("get:" +:+ n)]).
Proof.
  assert ("get"%string ∈ ["set"; "get"; "lock"; "unlock"]%string) as Hget by set_solver.
  intros Hs Hn Hl. destruct (variable_name_plain _ _ _ Hn) as [Hk Hne]. destruct Hn as [Hf He Hstar Ht Htv].
  destruct (set_free c cli n v fuel s) as (w & Hset & Hw & Hdb); [done|by split|done|].
  rewrite (M_bind_eq _ _ _ _ _ Hset).
  rewrite (request_eq (S fuel) cli "get" n _ Hget Ht).
  change (dispatch (S fuel) cli "get" n) with (do_get (DB := DB) (S fuel) cli n).
  rewrite (do_get_eq c cli n fuel w) by (exact Hk || exact Hne || exact Hstar || reflexivity || by apply ready_sent). rewrite Hdb, val_Set by apply Hs. rewrite decide_True by reflexivity.
  rewrite sent_sent. eexists. split; [done|]. split; [by apply ready_sent|]. done.
Qed.

(** [lock] of a free variable, and [unlock]. *)
Lemma lock_free c cli n fuel s :
  ready c s → plain_key n → trimmed n →
  let key := var_key (allowRawDbAccess c) n in
  locked (w_db (s_world s)) key = false →
  ∃ w, request fuel cli "lock" n s = Some ((), sent cli (framed "lock" n [line "lockresult" (n +:+ "=success")]) (set_world w s)) ∧
    ready c (set_world w s) ∧ locked (w_db w) key = true ∧
    val (w_db w) (keypath key) = val (w_db (s_world s)) (keypath key).
Proof.
  intros Hs Hk Ht key Hl. destruct (do_lock_eq c cli n s Hs Hk) as (w & Hr & He). fold key in Hr, He.
  rewrite Hl in Hr, He. cbn [negb] in Hr, He. pose proof (evolves_db _ _ _ He) as Hdb. exists w.
  assert (valid (w_db (s_world s))) as Hv by apply Hs.
  split; [rewrite request_eq by (done || set_solver); exact Hr|].
  split; [apply ready_world; [done|apply He|rewrite Hdb; by apply Set_valid]|].
  rewrite Hdb, locked_Set by done. split; [done|by apply val_lock_other].
Qed.

Lemma unlock_any c cli n fuel s :
  ready c s → plain_key n → trimmed n →
  let key := var_key (allowRawDbAccess c) n in
  ∃ w, request fuel cli "unlock" n s = Some ((), sent cli (framed "unlock" n [line "unlockdone" n]) (set_world w s)) ∧
    ready c (set_world w s) ∧ locked (w_db w) key = false.
Proof.
  intros Hs Hk Ht key. destruct (do_unlock_eq c cli n s Hs Hk) as (w & Hr & He). fold key in He.
  pose proof (evolves_db _ _ _ He) as Hdb. exists w. assert (valid (w_db (s_world s))) as Hv by apply Hs.
  split; [rewrite request_eq by (done || set_solver); exact Hr|].
  split; [apply ready_world; [done|apply He|rewrite Hdb; by apply Set_valid]|]. by rewrite Hdb, locked_Set.
Qed.


(** The time-out of a [lock] request that names none is the greatest
    [uint], which is a negative duration: the request does not wait at all for
    a variable that is locked. *)
Theorem lock_without_timeout_gives_up c cli n fuel s :
  ready c s → plain_key n → trimmed n →
  locked (w_db (s_world s)) (var_key (allowRawDbAccess c) n) = true →
  ∃ s', request fuel cli "lock" n s = Some ((), s') ∧ w_now (s_world s') = w_now (s_world s) ∧
    s_wire s' = s_wire s ++ (pair cli <$> framed "lock" n [line "lockresult" (n +:+ "=failure:timeout reached")]).
Proof.
  intros Hs Hk Ht Hl. destruct (do_lock_eq c cli n s Hs Hk) as (w & Hr & He). rewrite Hl in Hr, He. cbn [negb] in Hr, He.
  eexists. split; [rewrite request_eq by (done || set_solver); exact Hr|].
  split; [by destruct He as [-> _]|done].
Qed.
End session.

(** ** Witnesses *)
Section witnesses.
Existing Instance canonical_order.
Existing Instance online.
Existing Instance wired.

Lemma wired_reliable (n cli : nat) : net_send n cli = true.
Proof. reflexivity. Defined.

Lemma two_connections_ready : ready default_controller two_connections.
Proof.
  split; [by vm_compute|by vm_compute| |].
  - intros name. assert (w_locks (s_world two_connections) = ∅) as -> by (by vm_compute). by rewrite lookup_empty.
  - assert (w_db (s_world two_connections) = fresh_db) as -> by (by vm_compute). apply fresh_valid.
Qed.

Lemma lamp_name : variable_name default_controller "home.lamp" "on=1".
Proof. by split; vm_compute. Qed.

Lemma lamp_free : locked (w_db (s_world two_connections)) (var_key (allowRawDbAccess default_controller) "home.lamp") = false.
Proof. by vm_compute. Qed.

Lemma set_then_get_witness :
  ready default_controller two_connections ∧ variable_name default_controller "home.lamp" "on=1" ∧
  locked (w_db (s_world two_connections)) (var_key (allowRawDbAccess default_controller) "home.lamp") = false ∧
  ∃ s', (request 3 1 "set" ("home.lamp" +:+ "=" +:+ "on=1") ;; request (S 3) 1 "get" "home.lamp") two_connections
      = Some ((), s') ∧ ready default_controller s' ∧
    s_wire s' = s_wire two_connections ++ (pair 1 <$>
      [line "beginresponse" ("set:" +:+ "home.lamp" +:+ "=" +:+ "on=1");
       line "endresponse" ("set:" +:+ "home.lamp" +:+ "=" +:+ "on=1");
       line "beginresponse" ("get:" +:+ "home.lamp"); line "varvalue" ("home.lamp" +:+ "=" +:+ "on=1");
       line "endresponse" ("get:" +:+ "home.lamp")]).
Proof.
  split; [exact two_connections_ready|]. split; [exact lamp_name|]. split; [exact lamp_free|].
  exact (set_then_get wired_reliable default_controller 1 "home.lamp" "on=1" 3 two_connections
           two_connections_ready lamp_name lamp_free).
Defined.


(** The server after a client locked the lamp. *)
Definition lamp_locked : Server RamCacheDB := after (request 0 1 "lock" "home.lamp") two_connections.

Lemma lock_without_timeout_gives_up_witness :
  ready default_controller lamp_locked ∧ plain_key "home.lamp" ∧ trimmed "home.lamp" ∧
  locked (w_db (s_world lamp_locked)) (var_key (allowRawDbAccess default_controller) "home.lamp") = true ∧
  ∃ s', request 0 2 "lock" "home.lamp" lamp_locked = Some ((), s') ∧
    w_now (s_world s') = w_now (s_world lamp_locked) ∧
    s_wire s' = s_wire lamp_locked ++ (pair 2 <$> framed "lock" "home.lamp"
      [line "lockresult" ("home.lamp" +:+ "=failure:timeout reached")]).
Proof.
  assert (plain_key "home.lamp") as Hk by reflexivity.
  assert (trimmed "home.lamp") as Ht by (by vm_compute).
  assert (ready default_controller lamp_locked) as Hs.
  { destruct (lock_free wired_reliable default_controller 1 "home.lamp" 0 two_connections two_connections_ready Hk Ht
      lamp_free) as (w & Hr & Hw & _).
    unfold lamp_locked, after. rewrite Hr. by apply ready_sent. }
  assert (locked (w_db (s_world lamp_locked)) (var_key (allowRawDbAccess default_controller) "home.lamp") = true) as Hl
    by (by vm_compute).
  split; [exact Hs|]. split; [exact Hk|]. split; [exact Ht|]. split; [exact Hl|].
  exact (lock_without_timeout_gives_up wired_reliable default_controller 2 "home.lamp" 0 lamp_locked Hs Hk Ht Hl).
Defined.
End witnesses.
