(* ===== verification/Push.v ===== *)
(** * What the VSTP server sends on its own

    [VstpRun] relates [serve] to [run] up to the wire.  On a network that
    delivers, [serve] is [run] in the environment in which exactly the clients
    of [clientsById] answer, and the wire gets the lines of what was sent
    ([serve_reliable]).  So the theorems on notifications become theorems on
    the bytes that arrive: here for a client that subscribes and another that
    sets the variable, and for a client that comes back. *)
From S2P Require Import Prelude GoStrings GoStrconv Misc NamedLock Storage RamCacheDB Reference Runtime Samples VarHelper Observations VarLock ClientHelper DbList ClientState Controller Variables Subtree Notify Delivery Subscribe Namer TcpServer Vstp VstpRun Connections Session.

(** ** The environment of the server *)

(** Through the API of the server, the clients it knows answer. *)
Definition env_of (E : Environment) (v : VSTP) : Environment.
Proof.
  refine {| env_reachable i a c := if decide (a = apiId v) then bool_decide (is_Some (clientsById v !! c))
                                   else @env_reachable E i a c;
            env_rand := @env_rand E |}.
  apply env_rand_bounds.
Defined.

(** The lines of a message that was delivered, and the connection they go to. *)
Definition pushed_lines (v : VSTP) (m : string * string * payload) : list (nat * string) :=
  let '(a, id, p) := m in
  if decide (a = apiId v) then
    match clientsById v !! id with
    | Some cli => (λ t, (cli, line "varchanged" (changed_line t))) <$> p
    | None => []
    end
  else [].

(** The goroutines the controller has started: each runs to its end, those it
    starts come last. *)
Fixpoint serve_tasks {DB} `{!IStorage DB, Environment, Network} (fuel : nat) (s : Server DB) : option (unit * Server DB) :=
  match w_tasks (s_world s) with
  | [] => Some ((), s)
  | t :: ts =>
      match fuel with
      | O => None
      | S fuel => match serve t (set_world (set_tasks ts (s_world s)) s) with
                  | Some (_, s) => serve_tasks fuel s
                  | None => None
                  end
      end
  end.

Section reliable.
Context {DB : Type} {HI : IStorage DB} {ENV : Environment} {HN : Network}.
Context (reliable : ∀ n cli, net_send n cli = true).
Implicit Types (s : Server DB) (w : World DB).

Definition push (ms : list (string * string * payload)) s : Server DB :=
  let l := concat (pushed_lines (s_vstp s) <$> ms) in
  set_wire (s_wire s ++ l) (set_writes (length l + s_writes s) s).

Lemma push_nil s : push [] s = s.
Proof. unfold push. cbn. rewrite app_nil_r. by destruct s. Qed.

Lemma push_push ms ms' w w' s : push ms' (set_world w' (push ms (set_world w s))) = push (ms ++ ms') (set_world w' s).
Proof.
  unfold push, set_wire, set_writes, set_world. cbn. rewrite fmap_app, concat_app, length_app, app_assoc. f_equal. lia.
Qed.

Lemma send_changes_reliable cli p s :
  send_changes cli p s = Some (true, set_wire (s_wire s ++ ((λ t, (cli, line "varchanged" (changed_line t))) <$> p))
    (set_writes (length p + s_writes s) s)).
Proof.
  revert s. induction p as [|t p IH]; intros s; cbn [send_changes].
  - cbn. rewrite app_nil_r. by destruct s.
  - unfold mbind, M_bind, protocolWrite, SendString. rewrite reliable, IH. unfold set_wire, set_writes. cbn.
    rewrite <-app_assoc. do 3 f_equal. lia.
Qed.

(** An effect of a goroutine of the server. *)
Lemma serve_op_reliable o s a w :
  unlocked s → exec (H := env_of ENV (s_vstp s)) o (s_world s) = Some (a, w) →
  ∃ new, w_sent w = w_sent (s_world s) ++ new ∧ serve_op o s = Some (a, push new (set_world w s)).
Proof.
  intros Hu He.
  assert (serve_op o s = lift_exec o s → exec (H := ENV) o (s_world s) = Some (a, w) → w_sent w = w_sent (s_world s) →
    ∃ new, w_sent w = w_sent (s_world s) ++ new ∧ serve_op o s = Some (a, push new (set_world w s))) as Hquiet.
  { intros Hl Hx Hs. exists []. rewrite app_nil_r, push_nil, Hl. split; [done|]. unfold lift_exec. by rewrite Hx. }
  destruct o; try (apply Hquiet; [done|done|cbn in He; by repeat case_match; simplify_eq]).
  - (* CheckAlive *) cbn in He. injection He as <- <-. exists []. rewrite app_nil_r, push_nil. split; [done|].
    unfold serve_op. case_decide; [|done]. m_simpl. by rewrite CheckAlive_eq.
  - (* NotifyClient *) unfold serve_op. cbn in He. case_decide as Ha.
    + m_simpl. rewrite NotifyClient_eq by done. destruct (clientsById (s_vstp s) !! clientId) as [cli|] eqn:Hc; cbn in He.
      * rewrite send_changes_reliable. injection He as <- <-. exists [(api, clientId, varsAndValues)]. split; [done|].
        unfold push. cbn. rewrite decide_True by done. rewrite Hc, app_nil_r, length_fmap. done.
      * injection He as <- <-. exists []. rewrite app_nil_r, push_nil. done.
    + unfold lift_exec. cbn. destruct (env_reachable _ api clientId); injection He as <- <-.
      * exists [(api, clientId, varsAndValues)]. split; [done|]. unfold push. cbn. rewrite decide_False by done. cbn.
        rewrite app_nil_r. done.
      * exists []. rewrite app_nil_r, push_nil. done.
Qed.

(** A program of the controller. *)
Lemma serve_reliable {A} (p : prog A) s a w :
  unlocked s → run (H := env_of ENV (s_vstp s)) p (s_world s) = Some (a, w) →
  ∃ new, w_sent w = w_sent (s_world s) ++ new ∧ serve p s = Some (a, push new (set_world w s)).
Proof.
  revert s. induction p as [? x|? o k IH|? t _ k IH]; intros s Hu; cbn [run serve].
  - intros [= -> <-]. exists []. rewrite app_nil_r, push_nil. split; [done|]. by destruct s.
  - destruct (exec o (s_world s)) as [[x w1]|] eqn:He; [|done]. intros Hr.
    destruct (serve_op_reliable o s x w1 Hu He) as (new1 & Hs1 & ->).
    destruct (IH x a (push new1 (set_world w1 s)) Hu Hr) as (new2 & Hs2 & ->).
    exists (new1 ++ new2). rewrite push_push. split; [|done]. rewrite Hs2. cbn. by rewrite Hs1, app_assoc.
  - intros Hr. destruct (IH a (set_world (set_tasks (w_tasks (s_world s) ++ [t]) (s_world s)) s) Hu Hr) as (new & Hs & ->).
    by exists new.
Qed.

Lemma serve_tasks_reliable fuel s w :
  unlocked s → run_tasks (H := env_of ENV (s_vstp s)) fuel (s_world s) = Some w →
  ∃ new, w_sent w = w_sent (s_world s) ++ new ∧ serve_tasks fuel s = Some ((), push new (set_world w s)).
Proof.
  revert s. induction fuel as [|fuel IH]; intros s Hu; cbn [run_tasks serve_tasks];
    destruct (w_tasks (s_world s)) as [|t ts]; try done.
  1,2: intros [= <-]; exists []; rewrite app_nil_r, push_nil; split; [done|]; by destruct s.
  destruct (run t _) as [[x w1]|] eqn:He; [|done]. intros Hr.
  destruct (serve_reliable t (set_world (set_tasks ts (s_world s)) s) x w1 Hu He) as (new1 & Hs1 & ->).
  destruct (IH (push new1 (set_world w1 s)) Hu Hr) as (new2 & Hs2 & Hrun).
  exists (new1 ++ new2). split; [rewrite Hs2; cbn in *; by rewrite Hs1, app_assoc|].
  rewrite <-(push_push new1 new2 w1 w s). exact Hrun.
Qed.
End reliable.

(** ** A subscription, over the wire *)
Section subscription.
Context {DB : Type} {HI : IStorage DB} {HS : StorageSpec DB} {ENV : Environment} {HO : RangeOrder} {HN : Network}.
Context (reliable : ∀ n cli, net_send n cli = true).
Implicit Types (s : Server DB) (c : TheController).

(** Connection [cli] has the id [id], and is the one the id leads to. *)
Record known_as (cli : nat) (id : string) s : Prop := {
  ka_id : clientsByTcpCli (s_vstp s) !! cli = Some id;
  ka_conn : clientsById (s_vstp s) !! id = Some cli;
  ka_ne : id ≠ ""
}.

Lemma client_id_known cli id s : unlocked s → known_as cli id s → client_id cli s = Some (id, s).
Proof.
  intros Hu [H1 _ Hne]. unfold unlocked in Hu. unfold client_id, Lock_clients, Unlock_clients, get_v, put_v.
  m_simpl. rewrite Hu. cbn. rewrite H1. cbn. rewrite decide_False by done. cbn.
  rewrite (set_mutex_twice false) by done. by destruct s.
Qed.

(** Through the API of the server, the clients it knows answer. *)
Lemma answers_known cli id s m : known_as cli id s →
  env_reachable (Environment := env_of ENV (s_vstp s)) m (apiId (s_vstp s)) id = true.
Proof. intros [_ Hc _]. cbn. rewrite decide_True by done. apply bool_decide_eq_true. by eexists. Qed.

(** [name(metadata)] *)
Definition with_metadata (n md : string) : string := n +:+ String "("%char (md +:+ ")").

Lemma separate_with_metadata n md : lacks "("%char n → separateNameAndMetadata (with_metadata n md) = (n, md).
Proof.
  intros Hn. unfold separateNameAndMetadata, with_metadata. rewrite IndexByte_app by done.
  by rewrite str_take_app, str_drop_S_app, TrimSuffix_app.
Qed.

(** [subscribe:name(metadata)] of a known client: whatever [ObserveVar] sends
    arrives between the lines of the reply. *)
Lemma do_subscribe_eq c a id n md s w :
  unlocked s → ctrl (s_vstp s) = Some c → known_as a id s → lacks "("%char n →
  run (H := env_of ENV (s_vstp s)) (ObserveVar c n id md (apiId (s_vstp s))) (s_world s) = Some ((), w) →
  ∃ new l, w_sent w = w_sent (s_world s) ++ new ∧
    do_subscribe a (with_metadata n md) s = Some ((),
      set_slog l (sent a [line "endresponse" ("subscribe:" +:+ with_metadata n md)]
        (push new (set_world w (sent a [line "beginresponse" ("subscribe:" +:+ with_metadata n md)] s))))).
Proof.
  intros Hu Hc Hk Hn Hr. unfold do_subscribe. rewrite separate_with_metadata by done. rewrite (with_ctrl_eq c) by done.
  rewrite (M_bind_eq _ _ _ _ _ (client_id_known a id s Hu Hk)).
  rewrite (M_bind_eq _ _ _ _ _ (write_eq reliable a "beginresponse" ("subscribe:" +:+ with_metadata n md) s)).
  set (s1 := sent a _ s).
  destruct (serve_reliable reliable (ObserveVar c n id md (apiId (s_vstp s1))) s1 () w Hu Hr) as (new & Hs & Hrun).
  exists new. eexists. split; [exact Hs|].
  unfold get_v. erewrite (M_bind_eq (λ s, Some (s_vstp s, s))) by done. rewrite (M_bind_eq _ _ _ _ _ Hrun).
  set (s2 := push new _).
  rewrite (M_bind_eq _ _ _ _ _ (write_eq reliable a "endresponse" ("subscribe:" +:+ with_metadata n md) s2)). done.
Qed.

Lemma request_subscribe fuel a payload s :
  trimmed payload → request fuel a "subscribe" payload s = do_subscribe a payload s.
Proof. intros Ht. unfold request. rewrite message_eq by done. by rewrite Ht. Qed.

(** [set:name=value] of a free variable, with the world [SetVar] leaves. *)
Lemma request_set c b n v fuel s w :
  ready c s → variable_name c n v →
  (∀ E, run (H := E) (SetVar c n (NewDynamicVar v)) (s_world s) = Some (Ok (), w)) → w_calls w = w_calls (s_world s) →
  request fuel b "set" (n +:+ "=" +:+ v) s = Some ((), sent b (framed "set" (n +:+ "=" +:+ v) []) (set_world w s)).
Proof.
  intros Hs Hn Hr Hc. destruct (variable_name_plain _ _ _ Hn) as [Hk Hne]. rewrite request_eq by (set_solver || apply Hn).
  exact (do_set_eq reliable c b n v _ w s Hs Hk Hne Hr Hc).
Qed.

(** The lines a subscriber is sent for values. *)
Definition change_lines (a : nat) (md : string) (vals : list (string * string)) : list (nat * string) :=
  (λ e, (a, line "varchanged" (changed_line (e.1, md, e.2)))) <$> vals.

Lemma pushed_known a id s md vals :
  known_as a id s → pushed_lines (s_vstp s) (apiId (s_vstp s), id, (λ e, (e.1, md, e.2)) <$> vals) = change_lines a md vals.
Proof.
  intros [_ Hc _]. unfold pushed_lines. rewrite decide_True, Hc by done. by rewrite <-list_fmap_compose.
Qed.

(** C5.  Over the wire: a client subscribes to a variable nobody observes, and then
    another client sets it.  The subscriber gets, between the lines of the
    reply, the current values of the variable and its children; the other one its
    reply; and when the goroutines have run, the subscriber gets the line with
    the new value and its metadata, and nobody gets anything else. *)
Theorem subscription_pushes_changes c a b id n md v lv ids fuel s :
  let key := var_key false n in
  let payload := with_metadata n md in
  ready c s → allowRawDbAccess c = false → known_as a id s → apiId (s_vstp s) ≠ "" →
  apiId (s_vstp s) ∈ w_apis (s_world s) → w_tasks (s_world s) = [] →
  variable_name c n v → readable false n → lacks "("%char n → trimmed payload →
  locked (w_db (s_world s)) key = false →
  (∀ p, p ∈ patterns n → obs_is (w_db (s_world s)) (var_key false p) []) →
  observing (w_db (s_world s)) id lv → (Z.of_nat (length lv) + 1 < int64_max)%Z →
  list_is (w_db (s_world s)) p_clients ids → (Z.of_nat (length ids) + 1 < int64_max)%Z →
  st_HasValue (key_byMetadata key id md) (w_db (s_world s)) = false →
  ∃ s' vals,
    (request fuel a "subscribe" payload ;; request fuel b "set" (n +:+ "=" +:+ v) ;; serve_tasks 3) s = Some ((), s') ∧
    vals ≡ₚ current (w_db (s_world s)) n ∧
    s_wire s' = s_wire s ++
      (a, line "beginresponse" ("subscribe:" +:+ payload)) :: change_lines a md vals ++
      (a, line "endresponse" ("subscribe:" +:+ payload)) ::
      (pair b <$> framed "set" (n +:+ "=" +:+ v) []) ++ change_lines a md [(n, v)] ∧
    w_tasks (s_world s') = [] ∧ val (w_db (s_world s')) (keypath key) = NewDynamicVar v.
Proof.
  intros key payload Hs Hraw Hk Hne Hin Ht Hn Hr Hp Htr Hlock Hobs Hlv Hlenv Hl Hlen Hnew.
  destruct (observe_and_change (H := env_of ENV (s_vstp s)) c n id md (apiId (s_vstp s)) (NewDynamicVar v) lv ids (s_world s))
    as (w0 & w1 & w2 & vals & H0 & Hq0 & Hv0 & Hvals & Hs0 & H1 & H2 & Ht2 & Hs2 & Hval);
    try done; try apply Hs; try apply Hn; try apply Hk.
  { intros m. exact (answers_known a id s m Hk). }
  destruct (do_subscribe_eq c a id n md s w0) as (new & l & Hnew0 & Hsub); [apply Hs..|done|done|exact H0|].
  rewrite Hs0 in Hnew0. apply app_inv_head in Hnew0 as <-.
  rewrite <-(request_subscribe fuel) in Hsub by done. fold payload in Hsub.
  set (s1 := set_slog l _) in Hsub. rewrite (M_bind_eq _ _ _ _ _ Hsub).
  destruct (SetVar_any_env (env_of ENV (s_vstp s)) c n (NewDynamicVar v) w0 (Ok ()) w1 Hv0 H1) as (Hc1 & Hsame & Hall).
  assert (ready c s1) as Hs1 by (split; [apply Hs|apply Hs|exact Hq0|exact Hv0]).
  rewrite (M_bind_eq _ _ _ _ _ (request_set c b n v fuel s1 w1 Hs1 Hn Hall Hc1)). set (s2 := sent b _ _).
  destruct (serve_tasks_reliable reliable 3 s2 w2) as (new & Hnew2 & Hrun); [apply Hs|exact H2|].
  cbn [s2 sent s_world set_wire set_writes set_world] in Hnew2. rewrite Hs2, Hsame in Hnew2.
  apply app_inv_head in Hnew2 as <-.
  eexists _, vals. split; [exact Hrun|]. split; [done|]. split; [|by split].
  cbn [push s_wire set_wire set_writes set_world s2 sent s1 set_slog s_vstp fmap list_fmap concat].
  rewrite (pushed_known a id s md vals Hk).
  pose proof (pushed_known a id s md [(n, v)] Hk) as Hlast. cbn [fmap list_fmap fst snd] in Hlast.
  change (GetString (NewDynamicVar v)) with v. rewrite Hlast.
  rewrite !app_nil_r, <-!app_assoc. done.
Qed.
End subscription.

(** ** Witness *)
Section witness.
Existing Instance canonical_order.
Existing Instance online.
Existing Instance wired.

(** A server that [NewVSTP] has started, after two connections. *)
Definition open_server : Server RamCacheDB :=
  after (NewVSTP (λ _ _, None) 5032 (Some default_controller) ;; on_connect 1 ;; on_connect 2) fresh_server.

Lemma open_server_db : w_db (s_world open_server) = fresh_db.
Proof. by vm_compute. Qed.

Lemma open_server_ready : ready default_controller open_server.
Proof.
  split; [by vm_compute|by vm_compute| |rewrite open_server_db; apply fresh_valid].
  intros name. assert (w_locks (s_world open_server) = ∅) as -> by (by vm_compute). by rewrite lookup_empty.
Qed.

(** The id of the first connection. *)
Definition first_id : string := "0-adorable fluffy".

Lemma first_known : known_as 1 first_id open_server.
Proof. by split; vm_compute. Qed.

Lemma lamp_variable : variable_name default_controller "lamp" "on".
Proof. by split; vm_compute. Qed.

Lemma subscription_pushes_changes_witness :
  ready default_controller open_server ∧ known_as 1 first_id open_server ∧
  variable_name default_controller "lamp" "on" ∧ readable false "lamp" ∧ trimmed (with_metadata "lamp" "m") ∧
  observing (w_db (s_world open_server)) first_id [] ∧
  ∃ s' vals,
    (request 0 1 "subscribe" (with_metadata "lamp" "m") ;; request 0 2 "set" ("lamp" +:+ "=" +:+ "on") ;; serve_tasks 3) open_server = Some ((), s') ∧
    vals ≡ₚ current (w_db (s_world open_server)) "lamp" ∧
    s_wire s' = s_wire open_server ++
      (1, line "beginresponse" ("subscribe:" +:+ with_metadata "lamp" "m")) :: change_lines 1 "m" vals ++
      (1, line "endresponse" ("subscribe:" +:+ with_metadata "lamp" "m")) ::
      (pair 2 <$> framed "set" ("lamp" +:+ "=" +:+ "on") []) ++ change_lines 1 "m" [("lamp", "on")] ∧
    w_tasks (s_world s') = [] ∧ val (w_db (s_world s')) (keypath (var_key false "lamp")) = NewDynamicVar "on".
Proof.
  assert (trimmed (with_metadata "lamp" "m")) as Ht by (by vm_compute).
  assert (∀ p, p ∈ patterns "lamp" → obs_is (w_db (s_world open_server)) (var_key false p) []) as Ho
    by (intros p _; rewrite open_server_db; apply fresh_obs).
  assert (observing (w_db (s_world open_server)) first_id []) as Hv by (rewrite open_server_db; apply fresh_observing).
  assert (list_is (w_db (s_world open_server)) p_clients []) as Hl by (rewrite open_server_db; by apply fresh_list).
  assert (Z.of_nat 0 + 1 < int64_max)%Z as Hlt by (unfold int64_max; lia).
  assert (st_HasValue (key_byMetadata (var_key false "lamp") first_id "m") (w_db (s_world open_server)) = false) as Hn
    by (by vm_compute).
  assert (locked (w_db (s_world open_server)) (var_key false "lamp") = false) as Hk by (by vm_compute).
  assert (apiId (s_vstp open_server) ∈ w_apis (s_world open_server)) as Ha.
  { assert (w_apis (s_world open_server) = {["VSTPAPI"; "VSTP"]}) as -> by (by vm_compute). set_solver. }
  assert (w_tasks (s_world open_server) = []) as Htk by (by vm_compute).
  assert (lacks "("%char "lamp") as Hp by reflexivity.
  assert (apiId (s_vstp open_server) ≠ "") as Hne.
  { assert (apiId (s_vstp open_server) = "VSTPAPI") as -> by (by vm_compute). done. }
  split; [exact open_server_ready|]. split; [exact first_known|]. split; [exact lamp_variable|].
  split; [exact readable_lamp|]. split; [exact Ht|]. split; [exact Hv|].
  exact (subscription_pushes_changes wired_reliable default_controller 1 2 first_id "lamp" "m" "on" [] [] 0 open_server
    open_server_ready eq_refl first_known Hne Ha Htk lamp_variable readable_lamp Hp Ht Hk Ho Hv Hlt Hl Hlt Hn).
Defined.
End witness.
