(* ===== verification/Resume.v ===== *)
(** * A client that comes back

    A client that reconnects names its old id ([setid]); [ClientConnected]
    tells it how many variables it observes and starts a goroutine that sends it
    their current values.  The metadata it subscribed with is lost on the way:
    [GetMetadatasOfAClient] finds none. *)
From S2P Require Import Prelude GoStrings GoStrconv Misc NamedLock Storage RamCacheDB Reference Runtime Samples VarHelper Observations VarLock ClientHelper DbList ClientState Controller Variables Subtree Notify Delivery Subscribe Namer TcpServer Vstp VstpRun Connections Session Push.

Section resume.
Context {DB : Type} {HI : IStorage DB} {HS : StorageSpec DB} `{Environment}.
Implicit Types (db : DB) (w : World DB) (c : TheController) (h : ControllerClientHelper).

(** The tuples of the values, with no metadata. *)
Definition bare (vals : list (string * string)) : payload := (λ e, (e.1, "", e.2)) <$> vals.

Lemma run_mapM {X Y} (f : X → prog Y) (g : X → Y) (xs : list X) w :
  (∀ x, run (f x) w = Some (g x, w)) → run (prog_mapM f xs) w = Some (g <$> xs, w).
Proof.
  intros Hf. induction xs as [|x xs IH]; [done|]. cbn [prog_mapM].
  by rewrite (run_bind_eq _ _ _ _ _ (Hf x)), (run_bind_eq _ _ _ _ _ IH).
Qed.

Lemma run_client_payload c h v w :
  allowRawDbAccess c = false → valid (w_db w) → run (client_payload c h v) w = Some (bare (current (w_db w) v), w).
Proof.
  intros Hraw Hv. unfold client_payload.
  pose proof (run_drun _ w _ _ (drun_getVarInternal c v (w_db w) (w_now w) Hraw Hv)) as Hg. rewrite set_db_self in Hg.
  rewrite (run_bind_eq _ _ _ _ _ Hg). erewrite run_bind_eq; cycle 1.
  { apply (run_mapM _ (λ dv, [(dv.1, "", dv.2)])). intros dv.
    by rewrite (run_bind_eq _ _ _ _ _ (metadatas_never_found (helper c dv.1) (GetClientId h) w Hv)). }
  cbn [run mret prog_ret]. do 2 f_equal. unfold bare. generalize (current (w_db w) v). intros l.
  induction l as [|e l IH]; [done|]. cbn [fmap list_fmap concat app] in *. by rewrite IH.
Qed.

(** Writing the time of the last contact of [id]. *)
Definition live_key (id key : string) : Prop := key = key_lastLiveTime id.

Lemma set_frame_mono (K K' : string → Prop) db db' : (∀ key, K key → K' key) → set_frame K db db' → set_frame K' db db'.
Proof. intros HK [V F B M]. split; [done| | |done]; eauto. Qed.

Lemma live_internal id key : live_key id key → internal_key key.
Proof.
  intros ->. unfold internal_key. rewrite keypath_lastLiveTime. destruct (p_client_shape id) as [r ->]. by eexists.
Qed.

Lemma connected_live w w' id api :
  connected w id api → set_frame (live_key id) (w_db w) (w_db w') → w_apis w' = w_apis w → connected w' id api.
Proof.
  intros Hc Hf Ha. eapply connected_ext; [exact Hc|exact Ha|apply Hf|]. apply (sf_val _ _ _ Hf). intros key ->.
  rewrite keypath_lastLiveTime. by intros [_ [=]]%app_inj_tail.
Qed.

(** A message to a client that answers. *)
Lemma run_Notify_live id api p w :
  env_reachable (w_calls w) api id = true → valid (w_db w) →
  ∃ w', run (Notify (mkCH id (Some api)) p) w = Some (NewDynamicVar "LIVE", w') ∧
    w_sent w' = w_sent w ++ [(api, id, p)] ∧ w_tasks w' = w_tasks w ∧ w_locks w' = w_locks w ∧
    w_apis w' = w_apis w ∧ set_frame (live_key id) (w_db w) (w_db w').
Proof.
  intros Ha Hv. set (w1 := set_sent (w_sent w ++ [(api, id, p)]) (set_calls (S (w_calls w)) w)).
  exists (set_db (touch_db (w_now w1) (mkCH id (Some api)) (w_db w1)) w1). split.
  { unfold Notify. cbn [ch_api ch_clientId]. rewrite run_bind. cbn [run do_ exec]. by rewrite Ha. }
  split; [done|]. split; [done|]. split; [done|]. split; [done|]. by apply set_frame_Set.
Qed.

(** What [updateClientAboutObservatingVars] sends: one message for each
    variable, with the values at the start. *)
Definition updates id api db (vars : list string) (msgs : list (string * string * payload)) : Prop :=
  Forall2 (λ v m, ∃ vals, vals ≡ₚ current db v ∧ m = (api, id, bare vals)) vars msgs.

Lemma updates_internal id api db db' vars msgs :
  Forall (readable false) vars → valid db → set_frame internal_key db db' →
  updates id api db' vars msgs → updates id api db vars msgs.
Proof.
  intros Hr Hv Hf Hm. unfold updates in *. induction Hm as [|v m vars msgs (vals & Hp & ->) _ IH]; [by constructor|].
  apply Forall_cons in Hr as [Hr Hrs]. constructor; [|by apply IH]. exists vals. split; [|done].
  by rewrite Hp, (current_internal _ _ _ Hr Hv Hf).
Qed.

Lemma run_update_vars c id api vars w :
  allowRawDbAccess c = false → valid (w_db w) → Forall (readable false) vars → (∀ n, env_reachable n api id = true) →
  ∃ msgs w', run (update_vars c (mkCH id (Some api)) vars) w = Some ((), w') ∧
    w_sent w' = w_sent w ++ msgs ∧ updates id api (w_db w) vars msgs ∧
    w_tasks w' = w_tasks w ∧ w_locks w' = w_locks w ∧ w_apis w' = w_apis w ∧ set_frame (live_key id) (w_db w) (w_db w').
Proof.
  intros Hraw Hv Hr Ha. revert w Hv. induction Hr as [|v vars Hr Hrs IH]; intros w Hv; cbn [update_vars].
  - exists [], w. rewrite app_nil_r. split_and!; [done|done|by constructor|done|done|done|by apply set_frame_refl].
  - destruct (run_Notify_live id api (bare (current (w_db w) v)) w (Ha _) Hv) as (w1 & H1 & Hs1 & Ht1 & Hl1 & Ha1 & F1).
    destruct (IH w1 (sf_valid _ _ _ F1)) as (msgs & w2 & H2 & Hs2 & Hm & Ht2 & Hl2 & Ha2 & F2).
    exists ((api, id, bare (current (w_db w) v)) :: msgs), w2.
    rewrite (run_bind_eq _ _ _ _ _ (run_client_payload c _ v w Hraw Hv)), (run_bind_eq _ _ _ _ _ H1).
    split; [exact H2|]. split; [by rewrite Hs2, Hs1, <-app_assoc|]. split.
    { constructor; [by eexists|]. exact (updates_internal _ _ _ _ _ _ Hrs Hv (set_frame_mono _ _ _ _ (live_internal id) F1) Hm). }
    split; [by rewrite Ht2|]. split; [by rewrite Hl2|]. split; [by rewrite Ha2|]. by eapply set_frame_trans.
Qed.

(** [ClientConnected] of a client with an id; the goroutine comes last. *)
Lemma run_ClientConnected c id api lv ids w :
  quiet w → observing (w_db w) id lv →
  list_is (w_db w) p_clients ids → (Z.of_nat (length ids) + 1 < int64_max)%Z → id ≠ "" →
  ∃ w', run (ClientConnected c id api) w = Some ((id, Z.of_nat (length lv)), w') ∧ quiet w' ∧
    w_sent w' = w_sent w ∧ w_calls w' = w_calls w ∧ observing (w_db w') id lv ∧ set_frame internal_key (w_db w) (w_db w') ∧
    w_apis w' = w_apis w ∧ (∃ ids', list_is (w_db w') p_clients ids' ∧ length ids' ≤ S (length ids)) ∧
    w_tasks w' = w_tasks w ++ [updateClientAboutObservatingVars c (mkCH id (Some api))].
Proof.
  intros Hq Hlv Hl Hlen Hne.
  destruct (run_NewObserver id api ids lv w Hq Hl Hlen Hlv) as (w1 & H1 & [E1 Hq1] & O1 & F1 & K1 & A1 & L1).
  exists (set_tasks (w_tasks w1 ++ [updateClientAboutObservatingVars c (mkCH id (Some api))]) w1). split.
  { unfold ClientConnected. rewrite decide_False by done. cbn [mbind prog_bind mret prog_ret].
    fold (@mbind prog _). rewrite (run_bind_eq _ _ _ _ _ H1).
    pose proof O1 as Hc. unfold observing in Hc. rewrite <-npath_observing in Hc.
    unfold GetObservingVarsCount. cbn [ch_clientId]. cbn. do 3 f_equal. rewrite (Get_count _ _ _ Hc). by rewrite length_fmap. }
  split; [exact Hq1|]. rewrite E1. done.
Qed.
End resume.

(** ** [setid], over the wire *)
Section wire.
Context {DB : Type} {HI : IStorage DB} {HS : StorageSpec DB} {ENV : Environment} {HO : RangeOrder} {HN : Network}.
Context (reliable : ∀ n cli, net_send n cli = true).
Implicit Types (s : Server DB) (c : TheController).

Lemma shown_readable lv : Forall (readable false) lv → shown <$> lv = lv.
Proof.
  induction 1 as [|v lv [Hv _] _ IH]; [done|]. cbn. by rewrite shown_ne, IH.
Qed.

(** The goroutine of [ClientConnected]. *)
Lemma run_update (E : Environment) c id api lv (w : World DB) :
  allowRawDbAccess c = false → observing (w_db w) id lv → Forall (readable false) lv →
  (∀ n, env_reachable n api id = true) →
  ∃ names msgs w', run (updateClientAboutObservatingVars c (mkCH id (Some api))) w = Some ((), w') ∧
    names ≡ₚ lv ∧ updates id api (w_db w) names msgs ∧ w_sent w' = w_sent w ++ msgs ∧ w_tasks w' = w_tasks w ∧
    w_locks w' = w_locks w ∧ w_apis w' = w_apis w ∧ set_frame (live_key id) (w_db w) (w_db w').
Proof.
  intros Hraw Ho Hr Ha.
  destruct (drun_GetObservingVars (w_now w) (mkCH id (Some api)) lv (w_db w) Ho) as (names & Hd & Hp).
  rewrite shown_readable in Hp by done.
  destruct (run_update_vars c id api names w Hraw) as (msgs & w' & Hrun & Hs & Hm & Ht & Hrest); [apply Ho|by rewrite Hp|done|].
  exists names, msgs, w'. unfold updateClientAboutObservatingVars. apply run_drun in Hd. rewrite set_db_self in Hd.
  by rewrite (run_bind_eq _ _ _ _ _ Hd).
Qed.

(** The lines of the messages. *)
Lemma pushed_updates a id db (names : list string) msgs s :
  known_as a id s → updates id (apiId (s_vstp s)) (db : DB) names msgs →
  ∃ chunks, Forall2 (λ n vals, vals ≡ₚ current db n) names chunks ∧
    concat (pushed_lines (s_vstp s) <$> msgs) = concat (change_lines a "" <$> chunks).
Proof.
  intros Hk Hm. induction Hm as [|n m names msgs (vals & Hp & ->) _ (chunks & Hf & IH)]; [by exists []|].
  exists (vals :: chunks). split; [by constructor|]. cbn [fmap list_fmap concat]. rewrite <-IH. f_equal.
  exact (pushed_known a id s "" vals Hk).
Qed.

(** [setid]: the connection takes the id, then the controller is told. *)
Lemma do_setid_eq c a id s n (P : World DB → Prop) :
  unlocked s → ctrl (s_vstp s) = Some c → id ≠ "" →
  (∀ E, ∃ w, run (H := E) (ClientConnected c id (apiId (s_vstp s))) (s_world s) = Some ((id, n), w) ∧
    w_calls w = w_calls (s_world s) ∧ P w) →
  ∃ s1 w, unlocked s1 ∧ apiId (s_vstp s1) = apiId (s_vstp s) ∧ s_wire s1 = s_wire s ∧ known_as a id s1 ∧ P w ∧
    do_setid a id s = Some ((), sent a (framed "setid" id [line "aoc" (Itoa n)]) (set_world w s1)).
Proof.
  intros Hu Hc Hne Hr. unfold do_setid. rewrite (M_bind_eq _ _ _ _ _ (change_id_eq a id s Hu)). set (s1 := set_slog _ _).
  destruct (serve_quiet_ex (ClientConnected c id (apiId (s_vstp s1))) s1 (λ r w, r = (id, n) ∧ P w) Hu)
    as (r & w & Hserve & -> & Hw).
  { intros E. destruct (Hr E) as (w & Hrun & Hcalls & Hw). by exists (id, n), w. }
  exists s1, w. split; [exact Hu|]. split; [done|]. split; [done|]. split.
  { split; [cbn; by rewrite lookup_insert_eq|cbn; by rewrite lookup_insert_eq|done]. }
  split; [done|]. rewrite (with_ctrl_eq c) by exact Hc. unfold get_v. erewrite (M_bind_eq (λ s, Some (s_vstp s, s))) by done.
  rewrite (M_bind_eq _ _ _ _ _ Hserve). unfold begin_, end_, mbind, M_bind. rewrite !(write_eq reliable), !sent_sent. done.
Qed.

Lemma request_setid fuel a payload s :
  trimmed payload → request fuel a "setid" payload s = do_setid a payload s.
Proof. intros Ht. unfold request. rewrite message_eq by done. by rewrite Ht. Qed.

(** C17.  A client comes back: a connection that takes an id with [setid] is told how
    many variables the id observes and, by the goroutine that follows, the
    current values of each of them and its children, in one message for each
    variable and in the order the database lists them; the id then leads to
    this connection.  The lines have no metadata. *)
Theorem setid_resends_values c a id lv ids fuel s :
  ready c s → allowRawDbAccess c = false → id ≠ "" → trimmed id →
  w_tasks (s_world s) = [] →
  observing (w_db (s_world s)) id lv → Forall (readable false) lv →
  list_is (w_db (s_world s)) p_clients ids → (Z.of_nat (length ids) + 1 < int64_max)%Z →
  ∃ s' names chunks,
    (request fuel a "setid" id ;; serve_tasks 1) s = Some ((), s') ∧ known_as a id s' ∧
    names ≡ₚ lv ∧ Forall2 (λ n vals, vals ≡ₚ current (w_db (s_world s)) n) names chunks ∧
    s_wire s' = s_wire s ++ (pair a <$> framed "setid" id [line "aoc" (Itoa (Z.of_nat (length lv)))]) ++
      concat (change_lines a "" <$> chunks) ∧
    w_tasks (s_world s') = [].
Proof.
  intros Hs Hraw Hne Htr Ht Hlv Hr Hl Hlen.
  destruct (do_setid_eq c a id s (Z.of_nat (length lv)) (λ w, w_sent w = w_sent (s_world s) ∧
      observing (w_db w) id lv ∧ set_frame internal_key (w_db (s_world s)) (w_db w) ∧
      w_tasks w = [updateClientAboutObservatingVars c (mkCH id (Some (apiId (s_vstp s))))]))
    as (s1 & w & Hu1 & Ha1 & Hw1 & Hk1 & (Hsent & Ho & Hf & Htasks) & Hset); [apply Hs..|done| |].
  { intros E. destruct (run_ClientConnected (H := E) c id (apiId (s_vstp s)) lv ids (s_world s))
      as (w & Hrun & _ & H1 & H2 & H3 & H4 & _ & _ & H5); [apply Hs|done..|].
    exists w. split; [exact Hrun|]. split; [done|]. by rewrite H5, Ht. }
  rewrite <-(request_setid fuel) in Hset by done. rewrite (M_bind_eq _ _ _ _ _ Hset). set (s2 := sent a _ _).
  assert (known_as a id s2) as Hk2 by by destruct Hk1.
  destruct (run_update (env_of ENV (s_vstp s2)) c id (apiId (s_vstp s)) lv (set_tasks [] w) Hraw Ho Hr)
    as (names & msgs & w' & Hrun & Hp & Hm & Hs' & Ht' & _).
  { intros n. rewrite <-Ha1. exact (answers_known a id s2 n Hk2). }
  destruct (serve_tasks_reliable reliable 1 s2 w') as (new & Hnew & Hserve); [exact Hu1| |].
  { cbn [run_tasks s2 sent s_world set_wire set_writes set_world]. rewrite Htasks.
    fold s2. rewrite Hrun. by rewrite Ht'. }
  cbn [s2 sent s_world set_wire set_writes set_world] in Hnew. rewrite Hs' in Hnew. apply app_inv_head in Hnew as <-.
  assert (updates id (apiId (s_vstp s2)) (w_db (s_world s)) names msgs) as Hm2.
  { change (apiId (s_vstp s2)) with (apiId (s_vstp s1)). rewrite Ha1.
    eapply updates_internal; [by rewrite Hp|apply Hs|exact Hf|exact Hm]. }
  destruct (pushed_updates a id _ names msgs s2 Hk2 Hm2) as (chunks & Hch & Hlines).
  exists (push msgs (set_world w' s2)), names, chunks. split; [exact Hserve|]. split; [by destruct Hk2|]. split; [done|].
  split; [done|]. split; [|exact Ht'].
  unfold push. cbn [s_wire set_wire]. change (s_vstp (set_world w' s2)) with (s_vstp s2). rewrite Hlines.
  cbn [s2 s_wire sent set_wire set_writes set_world]. by rewrite Hw1, <-app_assoc.
Qed.
End wire.

(** ** Witness *)
Section witness.
Existing Instance canonical_order.
Existing Instance online.
Existing Instance wired.

(** The lamp is on, and the client [me] observes it. *)
Definition me_observes : RamCacheDB :=
  st_Set (base_observing "me" +:+ "." +:+ Itoa 0) (NewDynamicVar "vars.lamp")
    (st_Set (base_observing "me" +:+ ".count") (NewDynamicVar_int (0 + 1))
      (st_Set "vars.lamp" (NewDynamicVar "on") fresh_db)).
Definition me_away : Server RamCacheDB := set_world (world_of me_observes) open_server.

Lemma lamp_on_list q : ["internal"] `prefix_of` q → list_is (st_Set "vars.lamp" (NewDynamicVar "on") fresh_db) q [].
Proof.
  intros [r ->]. eapply list_is_ext; [apply Set_valid, fresh_valid| |by apply fresh_list]. intros k r'.
  apply view_Set_apart; [apply fresh_valid|]. by intros [x [=]].
Qed.

Lemma me_observing : observing me_observes "me" ["lamp"].
Proof.
  destruct (list_append (base_observing "me") (st_Set "vars.lamp" (NewDynamicVar "on") fresh_db) [] "vars.lamp") as [Hl _].
  - rewrite npath_observing. apply lamp_on_list. by eexists.
  - done.
  - unfold observing. rewrite <-npath_observing. exact Hl.
Qed.

Lemma me_clients : list_is me_observes p_clients [].
Proof.
  apply (list_is_Set_byId _ _ _ _ ["me"; "observing"; "0"]); [by vm_compute|].
  apply (list_is_Set_byId _ _ _ _ ["me"; "observing"; "count"]); [by vm_compute|].
  apply lamp_on_list. by eexists.
Qed.

Lemma me_away_ready : ready default_controller me_away.
Proof.
  split; [by vm_compute|by vm_compute|apply quiet_world_of|]. by repeat apply Set_valid; apply fresh_valid.
Qed.

Lemma setid_resends_values_witness :
  ready default_controller me_away ∧ trimmed "me" ∧ observing (w_db (s_world me_away)) "me" ["lamp"] ∧
  Forall (readable false) ["lamp"] ∧ list_is (w_db (s_world me_away)) p_clients [] ∧
  ∃ s' names chunks,
    (request 0 2 "setid" "me" ;; serve_tasks 1) me_away = Some ((), s') ∧ known_as 2 "me" s' ∧
    names ≡ₚ ["lamp"] ∧ Forall2 (λ n vals, vals ≡ₚ current (w_db (s_world me_away)) n) names chunks ∧
    s_wire s' = s_wire me_away ++ (pair 2 <$> framed "setid" "me" [line "aoc" (Itoa (Z.of_nat (length ["lamp"])))]) ++
      concat (change_lines 2 "" <$> chunks) ∧
    w_tasks (s_world s') = [].
Proof.
  assert (trimmed "me") as Ht by (by vm_compute).
  assert (Forall (readable false) ["lamp"]) as Hr by (constructor; [apply readable_lamp|done]).
  assert (Z.of_nat 0 + 1 < int64_max)%Z as Hlt by (unfold int64_max; lia).
  split; [exact me_away_ready|]. split; [exact Ht|]. split; [exact me_observing|]. split; [exact Hr|].
  split; [exact me_clients|].
  exact (setid_resends_values wired_reliable default_controller 2 "me" ["lamp"] [] 0 me_away me_away_ready eq_refl
    ltac:(discriminate) Ht eq_refl me_observing Hr me_clients Hlt).
Defined.

(** The line the client [me] gets for the lamp. *)
Example me_is_told :
  s_wire (after (request 0 2 "setid" "me" ;; serve_tasks 1) me_away) =
    s_wire me_away ++ (pair 2 <$> framed "setid" "me" [line "aoc" "1"]) ++ [(2, line "varchanged" "lamp=on")].
Proof. by vm_compute. Qed.
End witness.
