(* ===== verification/HttpApi.v ===== *)
(** * The HTTP API ([sources/services/apis/httpapi/httpapi.go])

    A path of the server is a variable: [/a/b/c] is [a.b.c].  [GET] reads it (or
    the variables below it), [POST] sets it, [DELETE] deletes it, and a
    WebSocket on it observes it.  The handlers of the methods are programs of
    the controller that return a response; the WebSocket is a state of its own.

    Numbers of JSON documents are floating-point numbers: their type, and the
    functions of [encoding/json] and [strconv] that read and print them, are the
    parameter [Codec].  A document is a [json]; Go's maps and slices of [any]
    are trees here, since no handler keeps two references to one. *)
From S2P Require Import Prelude GoStrings GoStrconv Misc NamedLock Storage Runtime VarHelper ClientHelper Controller.

(** ** JSON values: the dynamic types of an [any] *)
Inductive json (num : Type) :=
  | JNull
  | JBool (b : bool)
  | JNum (n : num)
  | JString (s : string)
  | JArray (l : list (json num))
  | JObject (m : gmap string (json num)).
Arguments JNull {num}.
Arguments JBool {num} b.
Arguments JNum {num} n.
Arguments JString {num} s.
Arguments JArray {num} l.
Arguments JObject {num} m.

(** [encoding/json] and the floats of [strconv]; [None] is an error.  [Decode]
    reads the first value of a body, an object or null. *)
Class Codec (num : Type) := {
  Unmarshal : string → option (json num);
  Decode : string → option (gmap string (json num));
  Marshal : json num → option string;
  MarshalIndent : json num → option string;
  ParseFloat : string → option num;
  FormatFloat : num → string
}.

(** ** Names *)

Definition path_to_var (urlPath : string) : string := ReplaceAll (TrimPrefix urlPath "/") "/" ".".

Definition trimWildcardBase (name : string) : string :=
  if decide (name = "") then ""
  else if HasSuffix name "*" then TrimSuffix (TrimSuffix name "*") "."
  else name.

Definition is_separator (c : ascii) : bool := bool_decide (c = ":"%char) || bool_decide (c = "="%char).
Fixpoint separateKeyAndValue (s : string) : string * string :=
  match s with
  | "" => ("", "")
  | String c rest =>
      if is_separator c then ("", rest)
      else let '(k, v) := separateKeyAndValue rest in (String c k, v)
  end.
Definition separateNameAndMetadata (original : string) : string * string :=
  match IndexByte original "("%char with
  | Some p =>
      let meta := original.[S p:] in
      (original.[:p], if HasSuffix meta ")" then meta.[:len meta - 1] else meta)
  | None => (original, "")
  end.

Section documents.
Context {num : Type}.
Abbreviation json := (json num).
Abbreviation object := (gmap string json).

(** ** Building documents *)

(** [insertNested], one part at a time: [node] is the map the loop has reached.
    [strings.Split] gives one part at least. *)
Fixpoint insertNested (node : object) (parts : list string) (value : json) : object :=
  match parts with
  | [] => node
  | [last] =>
      if decide (last = "") then node
      else match node !! last with
           | Some (JObject m) => <[last := JObject (<["_value" := value]> m)]> node
           | _ => <[last := value]> node
           end
  | key :: parts =>
      if decide (key = "") then insertNested node parts value
      else match node !! key with
           | None => <[key := JObject (insertNested ∅ parts value)]> node
           | Some (JObject typed) => <[key := JObject (insertNested typed parts value)]> node
           | Some typed => <[key := JObject (insertNested {["_value" := typed]} parts value)]> node
           end
  end.

Section order.
Context `{RangeOrder}.

(** The keys [0], [1], ... in the order of [range]; [None] when a key breaks the
    sequence. *)
Fixpoint consecutive (previusNum : Z) (keys : list string) : option Z :=
  match keys with
  | [] => Some previusNum
  | k :: keys =>
      match Atoi k with
      | Some idx => if decide (idx < 0 ∨ idx ≠ previusNum + 1)%Z then None else consecutive idx keys
      | None => None
      end
  end.

(** [arr[idx] = child] for every entry. *)
Definition fill (maxIdx : Z) (t : list (string * json)) : list json :=
  fold_left (λ arr e, <[Z.to_nat (default 0%Z (Atoi e.1)) := e.2]> arr) t (replicate (Z.to_nat (maxIdx + 1)) JNull).

Fixpoint normalizeArrays (v : json) : json :=
  match v with
  | JObject t =>
      let t := normalizeArrays <$> t in
      if decide (t = ∅) then JObject t
      else match consecutive (-1) (range t).*1 with
           | Some maxIdx => JArray (fill maxIdx (range t))
           | None => JObject t
           end
  | JArray t => JArray (normalizeArrays <$> t)
  | _ => v
  end.
End order.
End documents.

(** ** Requests and responses *)

(** The parts of the request the handlers read; [query] gives the first value
    of a parameter, or nothing. *)
Record Request := mkRequest {
  Method : string;
  URL_Path : string;
  query : string → string;
  header : string → string;
  Body : string
}.
Record Response := mkResponse { status : Z; contentType : string; body : string }.

(** [http.Error], and [w.WriteHeader] alone. *)
Definition http_Error (msg : string) (code : Z) : Response :=
  mkResponse code "text/plain; charset=utf-8" (msg +:+ nl).
Definition no_body (code : Z) : Response := mkResponse code "" "".

(** What becomes of a request; the panic of a handler aborts the connection. *)
Inductive outcome :=
  | Reply (r : Response)
  | WebSocket (varName : string)
  | Panic.

Section handlers.
Context {num : Type} `{!Codec num} `{UnicodeCase} `{RangeOrder}.

Definition parseDynamicVar (dv : DynamicVar) : json num :=
  let s := GetString dv in
  if decide (s = "") then JString ""
  else match Unmarshal s with Some out => out | None => JString s end.

(** [InferType] of [sources/misc/dynamicvar.go] *)
Inductive Kind := Kind_Int | Kind_Float64 | Kind_Bool | Kind_String.
Definition InferType (v : DynamicVar) : Kind :=
  let lowerData := ToLower (data v) in
  if decide (is_Some (Atoi (data v))) then Kind_Int
  else if decide (is_Some (ParseFloat (data v))) then Kind_Float64
  else if decide (lowerData ∈ ["1"; "0"; "true"; "false"; "yes"; "no"]%string) then Kind_Bool
  else Kind_String.

(** The accessors of floats of [sources/misc/dynamicvar.go]; [zero] is [0.0]. *)
Definition SetFloat64 (v : num) (dVar : DynamicVar) : DynamicVar := SetString dVar (FormatFloat v).
Definition WithFloat (v : num) (dn : DynamicVar) : DynamicVar := SetFloat64 v dn.
Definition GetFloat64e (zero : num) (dVar : DynamicVar) : num * bool :=
  match ParseFloat (data dVar) with Some r => (r, true) | None => (zero, false) end.
Definition GetFloat64 (zero : num) (dVar : DynamicVar) : num := (GetFloat64e zero dVar).1.

(** The text of a single value. *)
Definition plain_value (valDV : DynamicVar) : string :=
  match InferType valDV with
  | Kind_Int => Itoa (GetInt64 valDV)
  | Kind_Float64 => from_option FormatFloat "" (ParseFloat (data valDV))
  | Kind_Bool => if GetBool valDV then "trye" else "false"
  | Kind_String => String "034" (GetString valDV +:+ String "034" "")
  end.

(** The line of a variable in the plain export. *)
Definition plain_line (full : bool) (base : string) (t : DynamicVar * DynamicVar) : string :=
  let nameStr := GetString t.1 in
  let nameStr := if negb full && negb (bool_decide (base = "")) && HasPrefix nameStr (base +:+ ".")
                 then TrimPrefix nameStr (base +:+ ".") else nameStr in
  nameStr +:+ "=" +:+ GetString t.2.

(** The name of a variable in the document. *)
Definition document_name (full : bool) (base : string) (vals : values) (fullName : string) : string :=
  if full then fullName
  else if decide (base = fullName) then if decide (length vals = 1) then fullName else "_value"
  else if negb (bool_decide (base = "")) && HasPrefix fullName (base +:+ ".") then TrimPrefix fullName (base +:+ ".")
  else fullName.

(** A document that is one value and no object. *)
Definition single_value (full : bool) (base : string) (vals : values) : option DynamicVar :=
  match vals with
  | [t] =>
      if negb full && bool_decide (base = GetString t.1) && Contains (GetString t.1) "." then Some t.2 else None
  | _ => None
  end.

(** The loop that builds the document. *)
Definition build_document (full : bool) (base : string) (vals : values) : gmap string (json num) :=
  fold_left (λ root t, insertNested root (SplitByte (document_name full base vals (GetString t.1)) dot)
                         (parseDynamicVar t.2)) vals ∅.

Definition render (pretty : bool) (final : json num) : Response :=
  match (if pretty then MarshalIndent final else Marshal final) with
  | None => http_Error "encoding error" 500
  | Some out => mkResponse 200 "application/json" out
  end.

Definition export_values (exporter : string) (pretty full : bool) (name : string) (vals : values) : Response :=
  let base := trimWildcardBase name in
  if decide (exporter = "plain") then
    mkResponse 200 "text/plain; charset=utf-8" (Join (plain_line full base <$> vals) nl)
  else match single_value full base vals with
       | Some valDV => mkResponse 200 "application/json" (plain_value valDV)
       | None => render pretty (normalizeArrays (JObject (build_document full base vals)))
       end.

(** [None] when the fuel runs out, here and below. *)
Definition handleGetByName (fuel : nat) (c : TheController) (r : Request) (name : string) : prog (option outcome) :=
  let exporter := ToLower (query r "export") in
  let exporter := if decide (exporter = "") then "json" else exporter in
  let pretty := bool_decide (ToLower (query r "pretty") = "true") in
  let full := bool_decide (ToLower (query r "fullnames") = "true") in
  res ← GetVars fuel c name (NewDynamicVar "");
  mret (match res with
        | None => None
        | Some (Err err) => Some (Reply (http_Error err 500))
        | Some (Ok vals) => Some (Reply (export_values exporter pretty full name vals))
        end).

(** The [any] of a decoded value, as [NewDynamicVar] takes it. *)
Definition any_of_json (v : json num) : any :=
  match v with
  | JNull => AnyNil
  | JString s => AnyString s
  | JBool b => AnyBool b
  | v => AnyOther (default "" (Marshal v)) (default "" (MarshalIndent v))
  end.

(** What [setJson] returns: an error stops it, and so does a panic. *)
Inductive set_outcome := SetOk | SetErr (e : string) | SetPanic.

(** The entries in the order of [range], until one does not go well. *)
Fixpoint set_entries (f : string → json num → prog (option set_outcome)) (l : list (string * json num))
    : prog (option set_outcome) :=
  match l with
  | [] => mret (Some SetOk)
  | (key, value) :: l =>
      r ← f key value;
      match r with Some SetOk => set_entries f l | _ => mret r end
  end.

(** One level of the document per unit of fuel. *)
Fixpoint setJson (fuel : nat) (c : TheController) (parent : string) (obj : gmap string (json num))
    : prog (option set_outcome) :=
  match fuel with
  | O => mret None
  | S fuel =>
      let parent := if decide (parent ≠ "") then parent +:+ "." else parent in
      set_entries (λ key value,
        match value with
        | JObject t =>
            ret ← setJson fuel c (parent +:+ key) t;
            mret (match ret with
                  | Some (SetErr e) =>
                      Some (SetErr ("error setting var (with json content) " +:+ parent +:+ key +:+ ": " +:+ e))
                  | ret => ret
                  end)
        | value =>
            match NewDynamicVar_any (any_of_json value) with
            | None => mret (Some SetPanic)
            | Some dv =>
                err ← SetVar c (parent +:+ key) dv;
                mret (Some (match err with
                            | Err e => SetErr ("error setting var " +:+ parent +:+ key +:+ ": " +:+ e)
                            | Ok _ => SetOk
                            end))
            end
        end) (range obj)
  end.

Definition handlePostByName (fuel : nat) (c : TheController) (r : Request) (name : string) : prog (option outcome) :=
  if Contains (header r "Content-Type") "application/json" then
    match Decode (Body r) with
    | None => mret (Some (Reply (http_Error "invalid json" 400)))
    | Some obj =>
        ret ← setJson fuel c "" obj;
        mret (match ret with
              | None => None
              | Some SetPanic => Some Panic
              | Some _ => Some (Reply (no_body 204))
              end)
    end
  else
    err ← SetVar c name (NewDynamicVar (Body r));
    mret (Some (Reply (match err with Err e => http_Error e 403 | Ok _ => no_body 204 end))).

Definition handleDeleteByName (fuel : nat) (c : TheController) (name : string) : prog (option outcome) :=
  err ← DelVar fuel c name;
  mret (match err with
        | None => None
        | Some (Err e) => Some (Reply (http_Error e 500))
        | Some (Ok _) => Some (Reply (no_body 204))
        end).

Definition handlePath (fuel : nat) (c : TheController) (r : Request) : prog (option outcome) :=
  let varName := path_to_var (URL_Path r) in
  if decide (varName = "") then mret (Some (Reply (http_Error "variable path required" 404)))
  else if decide (ToLower (header r "Connection") = "upgrade" ∧ ToLower (header r "Upgrade") = "websocket") then
    mret (Some (WebSocket varName))
  else if decide (Method r = "GET") then handleGetByName fuel c r varName
  else if decide (Method r = "POST") then handlePostByName fuel c r varName
  else if decide (Method r = "DELETE") then handleDeleteByName fuel c varName
  else mret (Some (Reply (no_body 405))).
End handlers.

(** ** WebSockets *)

(** A connection is identified by a number. *)
Record HttpAPI := mkHttpAPI {
  clients : gmap string nat;
  connToId : gmap nat string
}.

Definition http_apiId : string := "HTTPAPI".
Definition CheckAlive (h : HttpAPI) (clientId : string) : bool := bool_decide (is_Some (clients h !! clientId)).

(** [write] tells whether the message was written: a connection that fails is
    forgotten. *)
Definition NotifyClient (write : nat → payload → bool) (h : HttpAPI) (clientId : string) (varsAndValues : payload)
    : bool * HttpAPI :=
  match clients h !! clientId with
  | None => (false, h)
  | Some conn =>
      if write conn varsAndValues then (true, h)
      else match connToId h !! conn with
           | Some cid => (false, mkHttpAPI (delete cid (clients h)) (delete conn (connToId h)))
           | None => (false, h)
           end
  end.

Definition ws_open (cid : string) (conn : nat) (h : HttpAPI) : HttpAPI :=
  mkHttpAPI (<[cid := conn]> (clients h)) (<[conn := cid]> (connToId h)).
Definition ws_close (cid : string) (conn : nat) (h : HttpAPI) : HttpAPI :=
  mkHttpAPI (delete cid (clients h)) (delete conn (connToId h)).

Section websocket.
Context `{RangeOrder}.

(** After the upgrade: the client is connected and observes the variable. *)
Definition ws_connect (c : TheController) (cid varName : string) : prog unit :=
  ClientConnected c cid http_apiId ;; ObserveVar c varName cid "" http_apiId.

(** A text message. *)
Definition ws_message (c : TheController) (cid msg : string) : prog unit :=
  let s := TrimSpace msg in
  if HasPrefix s "subscribe:" then
    let '(name, meta) := separateNameAndMetadata (separateKeyAndValue s).2 in
    ObserveVar c name cid meta http_apiId
  else if HasPrefix s "unsubscribe:" then
    let '(name, meta) := separateNameAndMetadata (separateKeyAndValue s).2 in
    StopObservingVar c name cid meta http_apiId
  else mret tt.
End websocket.
