(* ===== verification/WebSocket.v ===== *)
(** * WebSockets of the HTTP API ([sources/services/apis/httpapi/httpapi.go])

    The handler of an upgraded request registers the connection, observes the
    variable of the path and then obeys the messages of the client until a read
    fails.  The handlers of several connections interleave with each other and
    with the goroutines of the controller, whose notifications remove a
    connection that cannot be written: [http_step] is the relation of those
    steps.  [clientsMtx] is taken and released within single steps. *)
From stdpp Require Import relations.
From S2P Require Import Prelude GoStrings GoStrconv Misc NamedLock Storage RamCacheDB Reference Runtime Samples VarHelper ClientHelper Controller Variables HttpApi.

(** ** State *)

(** Whether the [n]th message written reaches the connection. *)
Class Peers := peer_writes : nat → nat → bool.

Record HttpServer (DB : Type) := mkHttpServer {
  h_world : World DB;
  h_api : HttpAPI;
  h_handlers : gmap nat string;       (** the handlers that run, each with its [cid] *)
  h_wire : list (nat * payload);      (** the messages written, in order *)
  h_writes : nat                      (** writes so far *)
}.
Arguments mkHttpServer {DB} _ _ _ _ _.
Arguments h_world {DB} _.
Arguments h_api {DB} _.
Arguments h_handlers {DB} _.
Arguments h_wire {DB} _.
Arguments h_writes {DB} _.

Section updates.
Context {DB : Type}.
Implicit Types s : HttpServer DB.
Definition set_hworld (x : World DB) s : HttpServer DB := mkHttpServer x (h_api s) (h_handlers s) (h_wire s) (h_writes s).
Definition set_api (x : HttpAPI) s : HttpServer DB := mkHttpServer (h_world s) x (h_handlers s) (h_wire s) (h_writes s).
Definition set_handlers (x : gmap nat string) s : HttpServer DB :=
  mkHttpServer (h_world s) (h_api s) x (h_wire s) (h_writes s).
Definition set_written (x : list (nat * payload)) (n : nat) s : HttpServer DB :=
  mkHttpServer (h_world s) (h_api s) (h_handlers s) x n.
End updates.

(** A program that returns and a state, or one that waits for ever. *)
Definition HM (DB A : Type) : Type := HttpServer DB → option (A * HttpServer DB).
#[export] Instance HM_ret DB : MRet (HM DB) := λ A a s, Some (a, s).
#[export] Instance HM_bind DB : MBind (HM DB) :=
  λ A B f p s, match p s with Some (a, s) => f a s | None => None end.

(** [ReadMessage] returns a text message or one of another type. *)
Inductive frame := TextMessage (msg : string) | OtherMessage (data : string).

Section server.
Context {DB : Type} `{!IStorage DB} {ENV : Environment} `{RangeOrder} `{Peers}.
Implicit Types s : HttpServer DB.
Abbreviation HM := (HM DB).

(** [New]: the API registered at the controller.  The error of
    [ListenAndServe] is dropped: [New] never fails. *)
Definition New : prog (result string HttpAPI) :=
  ApiStarted http_apiId ;; mret (Ok (mkHttpAPI ∅ ∅)).

(** [NotifyClient] on the state: one write, when the client is known. *)
Definition notify (clientId : string) (p : payload) : HM bool :=
  λ s, let '(ok, h) := NotifyClient (λ conn _, peer_writes (h_writes s) conn) (h_api s) clientId p in
       let s := set_api h s in
       match clients (h_api s) !! clientId with
       | Some conn =>
           Some (ok, set_written (if ok then h_wire s ++ [(conn, p)] else h_wire s) (S (h_writes s)) s)
       | None => Some (ok, s)
       end.

(** ** Calls of the controller *)
Definition lift_op (o : op) : HM (answer o) :=
  λ s, match exec o (h_world s) with Some (a, w) => Some (a, set_hworld w s) | None => None end.

(** The callbacks of this API are those of this file. *)
Definition serve_op (o : op) : HM (answer o) :=
  match o return HM (answer o) with
  | Api_CheckAlive a c =>
      λ s, if decide (a = http_apiId) then
             Some (CheckAlive (h_api s) c, set_hworld (set_calls (S (w_calls (h_world s))) (h_world s)) s)
           else lift_op (Api_CheckAlive a c) s
  | Api_NotifyClient a c p =>
      λ s, if decide (a = http_apiId) then
             match notify c p s with
             | Some (b, s) =>
                 let w := set_calls (S (w_calls (h_world s))) (h_world s) in
                 Some (b, set_hworld (if b then set_sent (w_sent w ++ [(a, c, p)]) w else w) s)
             | None => None
             end
           else lift_op (Api_NotifyClient a c p) s
  | o => lift_op o
  end.

Fixpoint serve {A} (p : prog A) : HM A :=
  λ s, match p with
       | Ret a => Some (a, s)
       | Vis o k => match serve_op o s with Some (x, s) => serve (k x) s | None => None end
       | Go t k => serve k (set_hworld (set_tasks (w_tasks (h_world s) ++ [t]) (h_world s)) s)
       end.

(** ** The handler *)

(** The connection is registered under the time, and its variable observed. *)
Definition open_socket (c : TheController) (conn : nat) (varName : string) : HM string :=
  λ s, let cid := Itoa (w_now (h_world s)) in
       let s := set_handlers (<[conn := cid]> (h_handlers s)) (set_api (ws_open cid conn (h_api s)) s) in
       match serve (ws_connect c cid varName) s with Some (_, s) => Some (cid, s) | None => None end.

(** A message. *)
Definition on_frame (c : TheController) (cid : string) (f : frame) : HM unit :=
  match f with TextMessage msg => serve (ws_message c cid msg) | OtherMessage _ => mret tt end.

(** The end of the handler. *)
Definition close_socket (conn : nat) (cid : string) : HM unit :=
  λ s, Some (tt, set_handlers (delete conn (h_handlers s)) (set_api (ws_close cid conn (h_api s)) s)).

(** The messages up to the first error of [ReadMessage]. *)
Fixpoint on_frames (c : TheController) (cid : string) (frames : list frame) : HM unit :=
  match frames with
  | [] => mret tt
  | f :: frames => on_frame c cid f ;; on_frames c cid frames
  end.

(** [upgraded] is the connection, unless the upgrade fails. *)
Definition handleWSForVar (c : TheController) (upgraded : option nat) (varName : string) (frames : list frame) : HM unit :=
  match upgraded with
  | None => mret tt
  | Some conn =>
      cid ← open_socket c conn varName;
      on_frames c cid frames ;;
      close_socket conn cid
  end.

(** ** Several handlers *)

(** A connection that no handler serves is opened (it is a new pointer), a
    handler obeys a message or ends, a goroutine of the controller runs, time
    passes. *)
Inductive http_step (c : TheController) : HttpServer DB → HttpServer DB → Prop :=
  | step_open conn varName cid s s' :
      h_handlers s !! conn = None → open_socket c conn varName s = Some (cid, s') → http_step c s s'
  | step_frame conn cid f s s' :
      h_handlers s !! conn = Some cid → on_frame c cid f s = Some (tt, s') → http_step c s s'
  | step_close conn cid s s' :
      h_handlers s !! conn = Some cid → close_socket conn cid s = Some (tt, s') → http_step c s s'
  | step_task i t s s' :
      w_tasks (h_world s) !! i = Some t →
      serve t (set_hworld (set_tasks (delete i (w_tasks (h_world s))) (h_world s)) s) = Some (tt, s') →
      http_step c s s'
  | step_time t s : (w_now (h_world s) ≤ t)%Z → http_step c s (set_hworld (set_now t (h_world s)) s).

(** ** The invariant *)

(** An id leads to the connection that has it, and a connection that is
    registered has a handler. *)
Record registered s : Prop := {
  reg_ids cid conn : clients (h_api s) !! cid = Some conn → connToId (h_api s) !! conn = Some cid;
  reg_handlers conn cid : connToId (h_api s) !! conn = Some cid → h_handlers s !! conn = Some cid
}.

(** Every handler is registered. *)
Definition complete s : Prop := ∀ conn cid, h_handlers s !! conn = Some cid → clients (h_api s) !! cid = Some conn.

(** What a call of the controller may do to the registry. *)
Record call_keeps s s' : Prop := {
  keeps_handlers : h_handlers s' = h_handlers s;
  keeps_registered : registered s → registered s';
  keeps_complete : (∀ n conn, peer_writes n conn = true) → h_api s' = h_api s
}.
Lemma call_keeps_refl s s' : h_handlers s' = h_handlers s → h_api s' = h_api s → call_keeps s s'.
Proof. intros Hh Ha. split; [done| |done]. intros [Hi Hr]. split; rewrite ?Ha, ?Hh; done. Qed.
Lemma call_keeps_trans s s1 s2 : call_keeps s s1 → call_keeps s1 s2 → call_keeps s s2.
Proof. intros [H1 H2 H3] [H4 H5 H6]. split; [congruence|auto|]. intros Hn. by rewrite H6, H3. Qed.

Lemma forget_registered s conn cid :
  registered s → connToId (h_api s) !! conn = Some cid →
  registered (set_api (ws_close cid conn (h_api s)) s).
Proof.
  intros [Hi Hr] Hc. split; cbn.
  - intros cid' conn' [Hne Hl]%lookup_delete_Some. apply Hi in Hl. rewrite lookup_delete_ne; [done|]. congruence.
  - intros conn' cid' [_ Hl]%lookup_delete_Some. by apply Hr.
Qed.

Lemma notify_keeps c p s b s' : notify c p s = Some (b, s') → call_keeps s s'.
Proof.
  unfold notify, NotifyClient. destruct (clients (h_api s) !! c) as [conn|] eqn:Hc; cbn.
  2: { rewrite Hc. intros [= _ <-]. by apply call_keeps_refl. }
  destruct (peer_writes (h_writes s) conn) eqn:Hw; cbn.
  { rewrite Hc. intros [= _ <-]. by apply call_keeps_refl. }
  destruct (connToId (h_api s) !! conn) as [cid|] eqn:Hid; cbn.
  2: { rewrite Hc. intros [= _ <-]. by apply call_keeps_refl. }
  intros Hs. assert (h_handlers s' = h_handlers s ∧ h_api s' = ws_close cid conn (h_api s)) as [Hh Ha].
  { by case_match; simplify_eq. }
  split; [done| |].
  - intros Hreg. apply (forget_registered _ _ _ Hreg) in Hid. destruct Hid as [Hi Hr].
    split; rewrite ?Ha, ?Hh; [exact Hi|exact Hr].
  - intros Hn. by rewrite Hn in Hw.
Qed.

Lemma lift_op_keeps o s a s' : lift_op o s = Some (a, s') → call_keeps s s'.
Proof. unfold lift_op. destruct (exec o _) as [[x w]|]; [|done]. intros [= _ <-]. by apply call_keeps_refl. Qed.

Lemma serve_op_keeps o s a s' : serve_op o s = Some (a, s') → call_keeps s s'.
Proof.
  unfold serve_op. destruct o; try apply lift_op_keeps; (case_decide; [|apply lift_op_keeps]).
  - intros [= _ <-]. by apply call_keeps_refl.
  - destruct (notify _ _ s) as [[b s1]|] eqn:Hn; [|done]. apply notify_keeps in Hn. intros [= _ <-].
    eapply call_keeps_trans; [exact Hn|]. by apply call_keeps_refl.
Qed.

Lemma serve_keeps {A} (p : prog A) s a s' : serve p s = Some (a, s') → call_keeps s s'.
Proof.
  revert s. induction p as [A x|A o k IH|A t _ k IH]; intros s; cbn.
  - intros [= _ <-]. by apply call_keeps_refl.
  - destruct (serve_op o s) as [[x s1]|] eqn:Ho; [|done]. intros Hs. apply serve_op_keeps in Ho.
    eapply call_keeps_trans; [exact Ho|]. by eapply IH.
  - intros Hs. eapply call_keeps_trans; [|by eapply IH]. by apply call_keeps_refl.
Qed.

Lemma frame_keeps c cid f s u s' : on_frame c cid f s = Some (u, s') → call_keeps s s'.
Proof. destruct f; [apply serve_keeps|]. intros [= _ <-]. by apply call_keeps_refl. Qed.

Lemma open_keeps c conn varName s cid s' :
  open_socket c conn varName s = Some (cid, s') →
  ∃ s1, s1 = set_handlers (<[conn := cid]> (h_handlers s)) (set_api (ws_open cid conn (h_api s)) s) ∧ call_keeps s1 s'.
Proof.
  unfold open_socket. destruct (serve _ _) as [[x s2]|] eqn:Hs; [|done]. intros [= <- <-].
  apply serve_keeps in Hs. eexists. by split.
Qed.

Lemma opened_registered s conn cid :
  h_handlers s !! conn = None → registered s →
  registered (set_handlers (<[conn := cid]> (h_handlers s)) (set_api (ws_open cid conn (h_api s)) s)).
Proof.
  intros Hnew [Hi Hr]. split; cbn.
  - intros cid' conn'. rewrite lookup_insert. case_decide as Hd; [intros [= <-]; subst; by rewrite lookup_insert_eq|].
    intros Hl%Hi. rewrite lookup_insert_ne; [done|]. intros <-. apply Hr in Hl. congruence.
  - intros conn' cid'. rewrite !lookup_insert. case_decide; [done|]. apply Hr.
Qed.

Lemma step_registered c s s' : http_step c s s' → registered s → registered s'.
Proof.
  intros [conn varName cid s1 s1' Hnew Ho|conn cid f s1 s1' _ Hf|conn cid s1 s1' Hc Hs|i t s1 s1' _ Ht|t s1 _] Hreg.
  - apply open_keeps in Ho as (s2 & -> & Hk). by apply Hk, opened_registered.
  - by apply (frame_keeps _ _ _ _ _ _ Hf).
  - unfold close_socket in Hs. injection Hs as <-. destruct Hreg as [Hi Hr]. split; cbn.
    + intros cid' conn' [Hne Hl]%lookup_delete_Some. apply Hi in Hl. rewrite lookup_delete_ne; [done|].
      intros <-. apply Hr in Hl. congruence.
    + intros conn' cid' [Hne Hl]%lookup_delete_Some. rewrite lookup_delete_ne by done. by apply Hr.
  - apply (serve_keeps _ _ _ _ Ht). by destruct Hreg.
  - by destruct Hreg.
Qed.

Lemma reachable_registered c s0 s : registered s0 → rtc (http_step c) s0 s → registered s.
Proof. intros Hr Hs. induction Hs; [done|]. eauto using step_registered. Qed.

(** C30.  In every state the API can reach from its start, a notification for a
    client is written to one connection at most: to the one whose handler still
    runs under that id.  A connection whose handler has ended is never written
    to again, and a failed write forgets the client. *)
Theorem messages_reach_a_running_handler c s0 s id p :
  h_api s0 = mkHttpAPI ∅ ∅ → rtc (http_step c) s0 s →
  ∃ b s', notify id p s = Some (b, s') ∧ CheckAlive (h_api s') id = b ∧
    (if b then ∃ conn, h_handlers s !! conn = Some id ∧ h_wire s' = h_wire s ++ [(conn, p)]
     else h_wire s' = h_wire s).
Proof.
  intros Hinit Hsteps. assert (registered s) as [Hi Hr].
  { eapply reachable_registered; [|exact Hsteps]. split; by rewrite Hinit. }
  unfold notify, NotifyClient, CheckAlive. destruct (clients (h_api s) !! id) as [conn|] eqn:Hc.
  - pose proof (Hi _ _ Hc) as Hid. rewrite Hid. destruct (peer_writes (h_writes s) conn) eqn:Hw; cbn.
    + rewrite Hc. eexists _, _. split; [reflexivity|]. cbn. rewrite Hc. split; [done|]. exists conn. split; [by apply Hr|done].
    + rewrite lookup_delete_eq. eexists _, _. split; [reflexivity|]. cbn. by rewrite lookup_delete_eq.
  - cbn. rewrite Hc. eexists _, _. split; [reflexivity|]. cbn. by rewrite Hc.
Qed.

(** ** Distinct ids *)

(** A step after which no two handlers share an id. *)
Definition distinct_step c s s' : Prop :=
  http_step c s s' ∧ ∀ conn conn' cid, h_handlers s' !! conn = Some cid → h_handlers s' !! conn' = Some cid → conn = conn'.

Lemma distinct_step_complete c s s' :
  (∀ n conn, peer_writes n conn = true) → distinct_step c s s' → registered s → complete s → complete s'.
Proof.
  intros Hn [Hstep Hd] Hreg Hcomp.
  destruct Hstep as [conn varName cid s1 s1' Hnew Ho|conn cid f s1 s1' _ Hf|conn cid s1 s1' Hc Hs|i t s1 s1' _ Ht|t s1 _].
  - apply open_keeps in Ho as (s2 & -> & Hk). intros conn' cid' Hh. rewrite (keeps_complete _ _ Hk Hn). cbn.
    pose proof Hh as Hh'. rewrite (keeps_handlers _ _ Hk) in Hh'. cbn in Hh'.
    assert (h_handlers s1' !! conn = Some cid) as Hconn by (rewrite (keeps_handlers _ _ Hk); apply lookup_insert_eq).
    rewrite lookup_insert in Hh'. case_decide as Hcc; [simplify_eq; apply lookup_insert_eq|].
    rewrite lookup_insert_ne; [by apply Hcomp|]. intros ->. by destruct Hcc; apply (Hd _ _ cid').
  - apply frame_keeps in Hf. intros conn' cid'.
    rewrite (keeps_complete _ _ Hf Hn), (keeps_handlers _ _ Hf). apply Hcomp.
  - unfold close_socket in Hs. injection Hs as <-. intros conn' cid'. cbn. intros [Hne Hl]%lookup_delete_Some.
    rewrite lookup_delete_ne; [by apply Hcomp|]. intros ->. apply Hcomp in Hl. apply Hcomp in Hc. congruence.
  - apply serve_keeps in Ht. intros conn' cid'. rewrite (keeps_complete _ _ Ht Hn), (keeps_handlers _ _ Ht). apply Hcomp.
  - exact Hcomp.
Qed.

(** While every write succeeds and no two handlers share an id, the clients
    the API knows are exactly the connections whose handlers run. *)
Theorem clients_are_the_running_handlers c s0 s :
  h_api s0 = mkHttpAPI ∅ ∅ → h_handlers s0 = ∅ → (∀ n conn, peer_writes n conn = true) → rtc (distinct_step c) s0 s →
  ∀ conn cid, clients (h_api s) !! cid = Some conn ↔ h_handlers s !! conn = Some cid.
Proof.
  intros Ha Hh Hn Hsteps.
  assert (registered s0) as Hr0 by (split; by rewrite Ha).
  assert (complete s0) as Hc0 by (intros conn cid; by rewrite Hh).
  assert (registered s ∧ complete s) as [[Hi Hr] Hc].
  { clear Ha Hh. induction Hsteps as [|s1 s2 s3 Hstep _ IH]; [done|]. apply IH.
    - by eapply step_registered; [apply Hstep|].
    - by eapply distinct_step_complete. }
  intros conn cid. split; [|apply Hc]. intros Hl. by apply Hr, Hi.
Qed.
End server.

(** ** Witnesses *)
Section witnesses.
Existing Instance canonical_order.
Existing Instance online.

Definition reliable : Peers := λ _ _, true.
Existing Instance reliable.

(** The API has started; a socket on [/home/lamp]; then a second one. *)
Definition fresh_http : HttpServer RamCacheDB := mkHttpServer fresh_world (mkHttpAPI ∅ ∅) ∅ [] 0.
Definition then_ {A} (m : HM RamCacheDB A) (s : HttpServer RamCacheDB) : HttpServer RamCacheDB :=
  match m s with Some (_, s) => s | None => s end.
Definition one_socket : HttpServer RamCacheDB := then_ (open_socket default_controller 1 "home.lamp") fresh_http.

Lemma then_returns {A} (m : HM RamCacheDB A) s :
  (if m s is Some _ then true else false) = true → ∃ a, m s = Some (a, then_ m s).
Proof. unfold then_. destruct (m s) as [[a s']|]; [by exists a|done]. Qed.

Lemma one_socket_opens : ∃ cid, open_socket default_controller 1 "home.lamp" fresh_http = Some (cid, one_socket).
Proof. unfold one_socket. apply (then_returns (open_socket default_controller 1 "home.lamp") fresh_http). vm_compute. reflexivity. Qed.

Lemma one_socket_step : distinct_step default_controller fresh_http one_socket.
Proof.
  destruct one_socket_opens as [cid Ho]. split; [by eapply (step_open _ 1 "home.lamp" cid); [|exact Ho]|].
  destruct (open_keeps _ _ _ _ _ _ Ho) as (s1 & -> & Hk). rewrite (keeps_handlers _ _ Hk).
  intros conn conn' id. cbn [h_handlers set_handlers fresh_http]. rewrite !lookup_insert.
  case_decide as H1; [|by rewrite lookup_empty]. case_decide as H2; [|by rewrite lookup_empty]. congruence.
Qed.

Lemma messages_reach_a_running_handler_witness :
  let p := [("home.lamp", "", "on")] in
  h_api fresh_http = mkHttpAPI ∅ ∅ ∧ rtc (http_step default_controller) fresh_http one_socket ∧
  ∃ b s', notify "1000000000" p one_socket = Some (b, s') ∧ CheckAlive (h_api s') "1000000000" = b ∧
    (if b then ∃ conn, h_handlers one_socket !! conn = Some "1000000000" ∧ h_wire s' = h_wire one_socket ++ [(conn, p)]
     else h_wire s' = h_wire one_socket).
Proof.
  intros p. assert (rtc (http_step default_controller) fresh_http one_socket) as Hs by apply rtc_once, one_socket_step.
  split; [reflexivity|]. split; [exact Hs|].
  exact (messages_reach_a_running_handler default_controller fresh_http one_socket "1000000000" p eq_refl Hs).
Defined.

Lemma clients_are_the_running_handlers_witness :
  rtc (distinct_step default_controller) fresh_http one_socket ∧
  ∀ conn cid, clients (h_api one_socket) !! cid = Some conn ↔ h_handlers one_socket !! conn = Some cid.
Proof.
  assert (rtc (distinct_step default_controller) fresh_http one_socket) as Hs by apply rtc_once, one_socket_step.
  split; [exact Hs|].
  exact (clients_are_the_running_handlers default_controller fresh_http one_socket eq_refl eq_refl (λ _ _, eq_refl) Hs).
Defined.

(** Two sockets opened at the same instant share an id; when the first closes,
    the second still runs but the API denies its client. *)
Definition same_instant : HttpServer RamCacheDB :=
  then_ (close_socket 1 "1000000000") (then_ (open_socket default_controller 2 "home.lamp") one_socket).

Example same_instant_sockets_collide :
  h_handlers same_instant !! 2 = Some "1000000000" ∧ CheckAlive (h_api same_instant) "1000000000" = false.
Proof. split; vm_compute; reflexivity. Qed.

(** A message of a socket: [subscribe:name(meta)] is another observation. *)
Example subscribe_message :
  let s := then_ (on_frame default_controller "1000000000" (TextMessage " subscribe:home.door(m) ")) one_socket in
  (λ s, run (GetAllObservations (var_helper false "home.door")) (h_world s) ≫= λ r, Some (map_to_list r.1)) s
    = Some [("0", ("1000000000", "m"))].
Proof. vm_compute. reflexivity. Qed.
End witnesses.
