(* ===== verification/Documents.v ===== *)
(** * Documents of the HTTP API

    What a client of the HTTP API reads: the JSON document of a subtree holds
    every variable at its path and nothing else, and what a [POST] stores a
    [GET] gives back. *)
From S2P Require Import Prelude GoStrings GoStrconv Misc NamedLock Storage RamCacheDB Reference Runtime Samples VarHelper Observations VarLock ClientHelper Controller Variables Subtree HttpApi.

(** ** Reading a document *)
Section documents.
Context {num : Type}.
Implicit Types (j v : json num) (m : gmap string (json num)) (p q : list string).

Definition is_object j : bool := if j is JObject _ then true else false.

(** The value at a path: a node that has children keeps its own under [_value]. *)
Fixpoint value_of j q : option (json num) :=
  match q, j with
  | [], JObject m => m !! "_value"
  | [], j => Some j
  | k :: q, JObject m => match m !! k with Some j => value_of j q | None => None end
  | _ :: _, _ => None
  end.

(** The segments of a variable a document can tell from the [_value] entries. *)
Definition doc_segment (k : string) : Prop := k ≠ "" ∧ k ≠ "_value".

Lemma value_of_scalar v q : is_object v = false → value_of v q = if decide (q = []) then Some v else None.
Proof. by destruct v, q. Qed.

Lemma value_of_empty q : value_of (JObject ∅) q = None.
Proof. by destruct q. Qed.

(** A value that becomes a node with children. *)
Lemma value_of_promoted v q :
  is_object v = false → Forall doc_segment q → value_of (JObject {["_value" := v]}) q = value_of v q.
Proof.
  intros Hv Hq. rewrite (value_of_scalar v) by done. destruct q as [|k q]; cbn.
  - by rewrite lookup_singleton_eq.
  - inversion_clear Hq as [|? ? [_ Hk] _]. by rewrite lookup_singleton_ne.
Qed.

Lemma value_of_insert_ne m k j k' q : k' ≠ k → value_of (JObject (<[k := j]> m)) (k' :: q) = value_of (JObject m) (k' :: q).
Proof. intros Hk. cbn. by rewrite lookup_insert_ne. Qed.
Lemma value_of_insert_eq m k j q : value_of (JObject (<[k := j]> m)) (k :: q) = value_of j q.
Proof. cbn. by rewrite lookup_insert_eq. Qed.
Lemma value_of_insert_nil m k j : k ≠ "_value" → value_of (JObject (<[k := j]> m)) [] = value_of (JObject m) [].
Proof. intros Hk. cbn. by rewrite lookup_insert_ne. Qed.

(** The node a part leads to, and what the loop goes on with. *)
Definition child_of (o : option (json num)) : gmap string (json num) :=
  match o with
  | None => ∅
  | Some (JObject typed) => typed
  | Some typed => {["_value" := typed]}
  end.

Lemma insertNested_cons m k k2 p v :
  k ≠ "" → insertNested m (k :: k2 :: p) v = <[k := JObject (insertNested (child_of (m !! k)) (k2 :: p) v)]> m.
Proof. intros Hk. cbn [insertNested]. rewrite decide_False by done. by destruct (m !! k) as [[]|]. Qed.

Lemma value_of_child (o : option (json num)) q :
  Forall doc_segment q → value_of (JObject (child_of o)) q = match o with Some j => value_of j q | None => None end.
Proof. intros Hq. destruct o as [j|]; [|apply value_of_empty]. by destruct j; [..|]; try apply value_of_promoted. Qed.

(** Inserting a value at a path changes the value of that path only. *)
Lemma insertNested_value m p v q :
  is_object v = false → p ≠ [] → Forall doc_segment p → Forall doc_segment q →
  value_of (JObject (insertNested m p v)) q = if decide (q = p) then Some v else value_of (JObject m) q.
Proof.
  intros Hv. revert m q. induction p as [|k p IH]; intros m q Hne Hp Hq; [done|].
  inversion_clear Hp as [|? ? [Hk Hk'] Hp']. destruct p as [|k2 p].
  - cbn [insertNested]. rewrite decide_False by done.
    assert (∃ j, match m !! k with Some (JObject m0) => <[k := JObject (<["_value" := v]> m0)]> m | _ => <[k := v]> m end
      = <[k := j]> m ∧ ∀ q, Forall doc_segment q →
        value_of j q = if decide (q = []) then Some v else match m !! k with Some j => value_of j q | None => None end)
      as (j & -> & Hj).
    { destruct (m !! k) as [j|] eqn:Hm; [|exists v; split; [done|intros; by rewrite value_of_scalar by done]].
      destruct j as [| | | | |m0]; try (exists v; split; [done|intros q0 _; rewrite value_of_scalar by done; by destruct q0]).
      eexists. split; [done|]. intros [|k0 q0] Hq0; cbn; [by rewrite lookup_insert_eq|].
      inversion_clear Hq0 as [|? ? [_ Hk0] _]. by rewrite lookup_insert_ne. }
    destruct q as [|k' q]; [by rewrite value_of_insert_nil|]. inversion_clear Hq as [|? ? _ Hq'].
    destruct (decide (k' = k)) as [->|Hkk].
    + rewrite value_of_insert_eq, Hj by done. by repeat case_decide; simplify_eq.
    + rewrite value_of_insert_ne by done. rewrite decide_False; [done|congruence].
  - rewrite insertNested_cons by done. destruct q as [|k' q]; [by rewrite value_of_insert_nil|].
    inversion_clear Hq as [|? ? _ Hq']. destruct (decide (k' = k)) as [->|Hkk].
    + rewrite value_of_insert_eq, IH, value_of_child by done. by repeat case_decide; simplify_eq.
    + rewrite value_of_insert_ne by done. rewrite decide_False; [done|congruence].
Qed.

Lemma insertNested_root m p v :
  p ≠ [] → Forall doc_segment p → insertNested m p v !! "_value" = m !! "_value".
Proof.
  intros Hne Hp. destruct p as [|k [|k2 p]]; [done| |]; inversion_clear Hp as [|? ? [Hk Hk'] _].
  - cbn [insertNested]. rewrite decide_False by done.
    destruct (m !! k) as [[]|]; by rewrite lookup_insert_ne.
  - rewrite insertNested_cons by done. by rewrite lookup_insert_ne.
Qed.

(** ** Documents of several variables *)

(** The parts of the name of the variable at path [q] below the base. *)
Definition doc_parts q : list string := match q with [] => ["_value"] | _ => q end.

(** The root has no object of its own. *)
Definition plain_root m : Prop := ∀ m', m !! "_value" ≠ Some (JObject m').

Lemma insert_doc m p v q :
  is_object v = false → Forall doc_segment p → Forall doc_segment q → plain_root m →
  plain_root (insertNested m (doc_parts p) v) ∧
  value_of (JObject (insertNested m (doc_parts p) v)) q = if decide (q = p) then Some v else value_of (JObject m) q.
Proof.
  intros Hv Hp Hq Hm. destruct p as [|k p].
  - assert (insertNested m (doc_parts []) v = <["_value" := v]> m) as ->.
    { cbn. destruct (m !! "_value") as [[]|] eqn:E; try done. by destruct (Hm m0). }
    split; [intros m'; rewrite lookup_insert_eq; intros [= ->]; done|]. destruct q as [|k q].
    + cbn. by rewrite lookup_insert_eq.
    + inversion_clear Hq as [|? ? [_ Hk] _]. by rewrite value_of_insert_ne.
  - split; [intros m'; cbn [doc_parts]; by rewrite insertNested_root|]. by apply insertNested_value.
Qed.

Lemma build_doc (l : list (list string * json num)) m q :
  NoDup l.*1 → Forall (λ e, Forall doc_segment e.1 ∧ is_object e.2 = false) l → Forall doc_segment q → plain_root m →
  let doc := fold_left (λ root e, insertNested root (doc_parts e.1) e.2) l m in
  (∀ v, (q, v) ∈ l → value_of (JObject doc) q = Some v) ∧
  (q ∉ l.*1 → value_of (JObject doc) q = value_of (JObject m) q).
Proof.
  revert m. induction l as [|[p v] l IH]; intros m Hnd Hl Hq Hm doc; [split; [by intros ? ?%elem_of_nil|done]|].
  apply NoDup_cons in Hnd as [Hp Hnd]. apply Forall_cons in Hl as [[Hps Hv] Hl]. cbn [fst snd] in Hps, Hv.
  destruct (insert_doc m p v q Hv Hps Hq Hm) as [Hm' Hval].
  destruct (IH (insertNested m (doc_parts p) v) Hnd Hl Hq Hm') as [IH1 IH2]. split.
  - intros v' [Heq|Hin]%elem_of_cons.
    + injection Heq as -> ->. subst doc. cbn [fold_left fst snd]. rewrite IH2 by done. by rewrite Hval, decide_True.
    + by apply IH1.
  - cbn [fmap list_fmap fst]. intros [Hqp Hql]%not_elem_of_cons. subst doc. cbn [fold_left fst snd].
    rewrite IH2 by done. by rewrite Hval, decide_False.
Qed.
End documents.

(** ** The document of a subtree *)
Lemma name_of_join n r :
  n ≠ "" → r ≠ [] → Forall (lacks dot) r → name_of n r = (n +:+ ".") +:+ Join r ".".
Proof.
  intros Hn Hr Hl. rewrite <-(Join_SplitByte (name_of n r) dot), <-(Join_SplitByte (_ +:+ Join r ".") dot).
  f_equal. rewrite SplitByte_name_of by done. rewrite str_app_assoc.
  change ("." +:+ Join r ".") with (String dot (Join r ".")). by rewrite SplitByte_app, SplitByte_Join.
Qed.

Lemma name_of_inj n r r' :
  n ≠ "" → Forall (lacks dot) r → Forall (lacks dot) r' → name_of n r = name_of n r' → r = r'.
Proof.
  intros Hn Hr Hr' He. apply (f_equal (λ s, SplitByte s dot)) in He. rewrite !SplitByte_name_of in He by done.
  by apply app_inv_prefix in He.
Qed.

Lemma document_name_of n r vals :
  n ≠ "" → Forall (lacks dot) r → (length vals = 1 → r ≠ []) →
  SplitByte (document_name false n vals (name_of n r)) dot = doc_parts r.
Proof.
  intros Hn Hr Hlen. unfold document_name. destruct r as [|k r].
  - cbn [name_of]. rewrite decide_True by done. rewrite decide_False by naive_solver. done.
  - rewrite decide_False by (intros He; apply (name_of_inj n [] (k :: r)) in He; done).
    rewrite bool_decide_false by done. rewrite name_of_join by done. rewrite HasPrefix_app, TrimPrefix_app. cbn [negb andb].
    by apply SplitByte_Join.
Qed.

Lemma trimWildcardBase_below n : last (SplitByte n dot) ≠ Some "" → trimWildcardBase (n +:+ ".*") = n.
Proof.
  intros Hl. assert (n +:+ ".*" = (n +:+ ".") +:+ "*") as Hs by (by rewrite str_app_assoc).
  unfold trimWildcardBase. rewrite decide_False by (by destruct n). rewrite Hs.
  rewrite (proj2 (HasSuffix_spec _ "*")) by (by exists (n +:+ ".")). by rewrite !TrimSuffix_app.
Qed.

(** The elements of a list in another form. *)
Lemma list_preimage {A B} (f : A → B) (P : A → Prop) (l : list B) :
  (∀ b, b ∈ l → ∃ a, b = f a ∧ P a) → ∃ l', l = f <$> l' ∧ Forall P l'.
Proof.
  induction l as [|b l IH]; intros Hl; [by exists []|].
  destruct (Hl b) as (a & -> & Ha); [by left|]. destruct IH as (l' & -> & Hl').
  { intros b' Hb. apply Hl. by right. }
  exists (a :: l'). split; [done|by constructor].
Qed.

Lemma fold_left_fmap_Forall {A B C D} (f : A → B → A) (h : A → C → A) (g : D → B) (k : D → C) (l : list D) (a : A) :
  Forall (λ e, ∀ a, f a (g e) = h a (k e)) l → fold_left f (g <$> l) a = fold_left h (k <$> l) a.
Proof. intros Hl. revert a. induction Hl as [|e l He _ IH]; intros a; [done|]. cbn. by rewrite He. Qed.

(** Names strictly below [n] are longer. *)
Lemma name_of_not_base n r : n ≠ "" → r ≠ [] → name_of n r ≠ n.
Proof.
  intros Hn. revert n Hn. assert (∀ r n, n ≠ "" → len n ≤ len (name_of n r)) as Hlen.
  { clear. induction r as [|k r IH]; intros n Hn; cbn; [done|]. specialize (IH _ (below_not_empty n k Hn)).
    rewrite below_ne in IH |- * by done. rewrite len_app in IH. lia. }
  intros n Hn Hr He. destruct r as [|k r]; [done|]. cbn in He.
  pose proof (Hlen r (below n k) (below_not_empty n k Hn)) as Hl. rewrite He in Hl. rewrite below_ne, len_app in Hl by done. cbn in Hl. lia.
Qed.

Lemma single_value_none n l : (∀ v, l ≠ [(NewDynamicVar n, v)]) → single_value false n l = None.
Proof.
  intros Hl. unfold single_value. destruct l as [|[[a] v] [|]]; try done. cbn.
  rewrite bool_decide_false; [done|]. intros ->. by apply (Hl v).
Qed.

Section get.
Context {DB : Type} {HI : IStorage DB} {HS : StorageSpec DB} `{Environment, RangeOrder}.
Context {num : Type} `{!Codec num} `{UnicodeCase}.
Implicit Types (w : World DB) (c : TheController) (q : list string).

(** A listing, by its paths. *)
Lemma listing_as_paths db n p l :
  valid db → n ≠ "" → listing false db n p l →
  ∃ rs : list (list string * DynamicVar), l = (λ e, (NewDynamicVar (name_of n e.1), e.2)) <$> rs ∧ NoDup rs.*1 ∧
    Forall (λ e, visible_path false e.1 ∧ Forall (lacks dot) e.1 ∧ view db (p ++ e.1) = Some e.2 ∧ GetString e.2 ≠ "") rs ∧
    ∀ q v, visible_path false q → view db (p ++ q) = Some v → GetString v ≠ "" → (q, v) ∈ rs.
Proof.
  intros Hv Hn [Hnd Hl].
  assert (∀ q v, view db (p ++ q) = Some v → Forall (lacks dot) q) as Hlack.
  { intros q v Hq. assert (is_Some (view db (p ++ q))) as Hs by (by eexists). apply view_names in Hs; [|done].
    by apply Forall_app in Hs as [_ Hs]. }
  destruct (list_preimage (λ e : list string * DynamicVar, (NewDynamicVar (name_of n e.1), e.2))
    (λ e, visible_path false e.1 ∧ Forall (lacks dot) e.1 ∧ view db (p ++ e.1) = Some e.2 ∧ GetString e.2 ≠ "") l) as (rs & -> & Hrs).
  { intros [a v] Hin. apply Hl in Hin as (r & -> & Hvis & Hview & Hne). exists (r, v). split; [done|].
    split_and!; [done|by eapply Hlack|done|done]. }
  exists rs. split; [done|]. split.
  { rewrite <-list_fmap_compose in Hnd. apply (NoDup_fmap_1 (λ r, NewDynamicVar (name_of n r))).
    by rewrite <-list_fmap_compose. }
  split; [done|]. intros q v Hq Hview Hne.
  assert ((NewDynamicVar (name_of n q), v) ∈ ((λ e : list string * DynamicVar, (NewDynamicVar (name_of n e.1), e.2)) <$> rs)) as Hin
    by (apply Hl; by exists q).
  apply list_elem_of_fmap in Hin as ([r v'] & [= Heq ->] & Hin). cbn in Heq.
  rewrite Forall_forall in Hrs. destruct (Hrs _ Hin) as (_ & Hr & _). cbn in Hr.
  apply name_of_inj in Heq as ->; [done|done|by eapply Hlack|done].
Qed.

(** What the database stores at a path below [p], as the document shows it. *)
Definition stored db (p q : list string) : option (json num) :=
  match view db (p ++ q) with
  | Some v => if decide (GetString v ≠ "") then Some (parseDynamicVar v) else None
  | None => None
  end.

Lemma visible_doc_segments q : visible_path false q → Forall doc_segment q.
Proof.
  intros Hq. eapply Forall_impl; [exact Hq|]. intros [|a k] Hk; [done|]. cbn in Hk. split; [done|]. intros [= -> ->]. done.
Qed.

Lemma document_of_listing db n p l q :
  valid db → n ≠ "" → listing false db n p l → (∀ v, l ≠ [(NewDynamicVar n, v)]) →
  (∀ q j, visible_path false q → stored db p q = Some j → is_object j = false) →
  visible_path false q →
  value_of (JObject (build_document false n l)) q = stored db p q.
Proof.
  intros Hv Hn Hl Hone Hobj Hq. destruct (listing_as_paths db n p l Hv Hn Hl) as (rs & -> & Hnd & Hrs & Hall).
  assert (∀ e, e ∈ rs → stored db p e.1 = Some (parseDynamicVar e.2)) as Hstored.
  { intros e Hin. rewrite Forall_forall in Hrs. destruct (Hrs e Hin) as (_ & _ & Hview & Hne).
    unfold stored. by rewrite Hview, decide_True. }
  set (vals := _ <$> rs) in *.
  assert (build_document false n vals
    = fold_left (λ root e, insertNested root (doc_parts e.1) e.2) (prod_map id parseDynamicVar <$> rs) ∅) as ->.
  { unfold build_document, vals at 2. apply fold_left_fmap_Forall. apply Forall_forall. intros e Hin m. cbn.
    rewrite Forall_forall in Hrs. destruct (Hrs e Hin) as (_ & Hlack & _). f_equal. apply document_name_of; [done|done|].
    intros Hlen He. apply (Hone e.2). subst vals. rewrite length_fmap in Hlen.
    destruct rs as [|e' [|]]; [done| |done]. apply list_elem_of_singleton in Hin as ->. change (e'.1 = []) in He. cbn. by rewrite He. }
  destruct (build_doc (prod_map id parseDynamicVar <$> rs) ∅ q) as [Hin Hout].
  - rewrite <-list_fmap_compose. done.
  - apply Forall_fmap. apply Forall_forall. intros e He. rewrite Forall_forall in Hrs.
    destruct (Hrs e He) as (Hvis & _). split; [by apply visible_doc_segments|]. eapply Hobj; [exact Hvis|by apply Hstored].
  - by apply visible_doc_segments.
  - intros m'. by rewrite lookup_empty.
  - unfold stored at 1. destruct (view db (p ++ q)) as [v|] eqn:Hview; [destruct (decide (GetString v ≠ "")) as [Hne|Hne]|].
    + apply Hin. apply list_elem_of_fmap. exists (q, v). split; [done|by apply Hall].
    + rewrite Hout; [apply value_of_empty|]. rewrite <-list_fmap_compose. intros (e & -> & He)%list_elem_of_fmap.
      apply Hstored in He. unfold stored in He. change (view db (p ++ e.1) = Some v) in Hview.
      by rewrite Hview, decide_False in He.
    + rewrite Hout; [apply value_of_empty|]. rewrite <-list_fmap_compose. intros (e & -> & He)%list_elem_of_fmap.
      apply Hstored in He. unfold stored in He. change (view db (p ++ e.1) = None) in Hview. by rewrite Hview in He.
Qed.


(** The line of a variable that is read by its own name. *)
Lemma plain_line_self full n v :
  n ≠ "" → Contains n "*" = false → plain_line full (trimWildcardBase n) (NewDynamicVar n, v) = n +:+ "=" +:+ GetString v.
Proof.
  intros Hn Hstar. unfold plain_line, trimWildcardBase. rewrite decide_False by done.
  assert (HasSuffix n "*" = false) as ->.
  { apply not_true_iff_false. intros [t Ht]%HasSuffix_spec. rewrite Ht in Hstar.
    assert (Contains (t +:+ String "*" "") "*" = true) as Hc by apply Contains_byte_app. congruence. }
  assert (HasPrefix n (n +:+ ".") = false) as Hp.
  { apply not_true_iff_false. intros [t Ht]%HasPrefix_spec. apply (f_equal len) in Ht. rewrite !len_app in Ht. cbn in Ht. lia. }
  change (GetString (NewDynamicVar n, v).1) with n. by rewrite Hp, andb_false_r.
Qed.


(** A JSON body is stored at the names it holds: the path of the request plays
    no part, and an error of [SetVar] is not reported. *)
Lemma json_post_ignores_path fuel c r n n' :
  Contains (header r "Content-Type") "application/json" = true →
  handlePostByName fuel c r n = handlePostByName fuel c r n'.
Proof. intros Hct. unfold handlePostByName. by rewrite Hct. Qed.
End get.

(** ** Arrays *)
Section arrays.
Context `{RangeOrder} {num : Type}.
Implicit Types (j v : json num).

(** The value at a path of a document with arrays: their keys are the indices. *)
Fixpoint get_at j (p : list string) : option (json num) :=
  match p, j with
  | [], j => Some j
  | k :: p, JObject m => match m !! k with Some j => get_at j p | None => None end
  | k :: p, JArray l =>
      match Atoi k with
      | Some i => if decide (0 ≤ i)%Z then match l !! Z.to_nat i with Some j => get_at j p | None => None end else None
      | None => None
      end
  | _ :: _, _ => None
  end.

Lemma consecutive_spec prev keys m :
  consecutive prev keys = Some m → (-1 ≤ prev)%Z →
  m = (prev + Z.of_nat (length keys))%Z ∧
  ∀ i k, keys !! i = Some k → Atoi k = Some (prev + 1 + Z.of_nat i)%Z.
Proof.
  revert prev. induction keys as [|k keys IH]; intros prev; cbn [consecutive].
  - intros [= <-] _. split; [cbn; lia|done].
  - destruct (Atoi k) as [idx|] eqn:Hk; [|done]. case_decide as Hd; [done|]. intros Hc Hp.
    destruct (IH idx Hc) as [-> Hi]; [lia|]. split; [cbn; lia|]. intros [|i] k'; cbn.
    + intros [= <-]. rewrite Hk. f_equal. lia.
    + intros ->%Hi. f_equal. lia.
Qed.

(** The loop over the entries from position [a] on. *)
Lemma fill_from (t : list (string * json num)) a arr :
  (∀ i k c, t !! i = Some (k, c) → Atoi k = Some (Z.of_nat a + Z.of_nat i)%Z) → a + length t ≤ length arr →
  ∀ i, fold_left (λ arr e, <[Z.to_nat (default 0%Z (Atoi e.1)) := e.2]> arr) t arr !! i
    = if decide (a ≤ i < a + length t) then snd <$> t !! (i - a) else arr !! i.
Proof.
  revert a arr. induction t as [|[k c] t IH]; intros a arr Ht Hlen i; cbn [fold_left length].
  - rewrite decide_False by (cbn; lia). done.
  - cbn [fst snd]. rewrite (Ht 0 k c) by done. cbn [default from_option id length] in Hlen |- *.
    rewrite (IH (S a)); [| |rewrite length_insert; lia].
    2:{ intros i' k' c' Hi'. rewrite (Ht (S i') k' c') by done. f_equal. lia. }
    replace (Z.to_nat (Z.of_nat a + Z.of_nat 0)) with a by lia.
    destruct (decide (i = a)) as [->|Hia].
    + rewrite decide_False by lia. rewrite decide_True by lia. rewrite Nat.sub_diag. cbn.
      apply list_lookup_insert_eq. lia.
    + rewrite list_lookup_insert_ne by done. destruct (decide (S a ≤ i < S a + length t)).
      * rewrite decide_True by lia. replace (i - a) with (S (i - S a)) by lia. done.
      * by rewrite decide_False by lia.
Qed.

(** C35.  Turning maps with numeric keys into arrays loses nothing: whatever the
    order in which the maps are ranged over, what a document has at a path its
    normal form has there, with the indices of an array for keys. *)
Theorem normalizeArrays_keeps_values j p v :
  get_at j p = Some v → get_at (normalizeArrays j) p = Some (normalizeArrays v).
Proof.
  revert j. induction p as [|k p IH]; intros j; [by intros [= ->]|].
  destruct j as [| | | |l|m]; try done; cbn [get_at].
  - destruct (Atoi k) as [i|] eqn:Hk; [|done]. case_decide; [|done].
    destruct (l !! Z.to_nat i) as [j|] eqn:Hj; [|done]. intros Hv.
    change (normalizeArrays (JArray l)) with (JArray (normalizeArrays <$> l)). cbn [get_at].
    rewrite ?Hk, ?decide_True by done. rewrite list_lookup_fmap, Hj. by apply IH.
  - destruct (m !! k) as [j|] eqn:Hj; [|done]. intros Hv%IH.
    set (t := normalizeArrays <$> m). assert (t !! k = Some (normalizeArrays j)) as Ht by (by unfold t; rewrite lookup_fmap, Hj).
    change (normalizeArrays (JObject m)) with (if decide (t = ∅) then JObject t
      else match consecutive (-1) (range t).*1 with Some maxIdx => JArray (fill maxIdx (range t)) | None => JObject t end).
    rewrite decide_False by (intros ->; by rewrite lookup_empty in Ht).
    destruct (consecutive (-1) (range t).*1) as [mx|] eqn:Hc; cbn [get_at]; [|by rewrite Ht].
    destruct (consecutive_spec _ _ _ Hc) as [Hmx Hkeys]; [done|].
    apply elem_of_range, list_elem_of_lookup in Ht as [i Hi].
    assert ((range t).*1 !! i = Some k) as Hki by (by rewrite list_lookup_fmap, Hi).
    rewrite (Hkeys _ _ Hki), decide_True by lia. unfold fill. rewrite (fill_from _ 0).
    + replace (Z.to_nat (-1 + 1 + Z.of_nat i)) with i by lia. pose proof (lookup_lt_Some _ _ _ Hi).
      rewrite decide_True by lia. by rewrite Nat.sub_0_r, Hi.
    + intros i' k' c' Hi'. by rewrite (Hkeys i' k') by (by rewrite list_lookup_fmap, Hi').
    + rewrite length_replicate. rewrite length_fmap in Hmx. lia.
Qed.
End arrays.

(** Whether a map with the keys [0] and [1] becomes an array depends on the
    order in which the map is ranged over, which the language leaves open. *)
Theorem normalizeArrays_depends_on_order :
  let m : gmap string (json Z) := {["0" := JString "a"; "1" := JString "b"]} in
  ∃ o1 o2 : RangeOrder,
    normalizeArrays (H := o1) (JObject m) = JArray [JString "a"; JString "b"] ∧
    normalizeArrays (H := o2) (JObject m) = JObject m.
Proof.
  intros m. first [exists canonical_order, reverse_order; by vm_compute|exists reverse_order, canonical_order; by vm_compute].
Qed.

(** ** Witnesses *)
Section witnesses.
Existing Instance canonical_order.
Existing Instance online.
Existing Instance ascii_case.

(** A codec whose documents are integers and strings. *)
Definition small_codec : Codec Z := {|
  Unmarshal s := match Atoi s with Some z => Some (JNum z) | None => None end;
  Decode _ := None;
  Marshal _ := Some "{}";
  MarshalIndent _ := Some "{ }";
  ParseFloat := Atoi;
  FormatFloat := Itoa
|}.
Existing Instance small_codec.

Definition get_request (path export : string) : Request :=
  mkRequest "GET" path (λ k, if decide (k = "export") then export else "") (λ _, "") "".
Definition post_request (path body : string) : Request := mkRequest "POST" path (λ _, "") (λ _, "") body.

Lemma small_codec_no_object (db : RamCacheDB) p q j : stored db p q = Some j → is_object j = false.
Proof.
  unfold stored. destruct (view db (p ++ q)) as [v|]; [|done]. case_decide; [|done]. intros [= <-].
  unfold parseDynamicVar. case_decide; [done|]. cbn. by destruct (Atoi (GetString v)).
Qed.

Lemma sample_variable :
  ["b"] ≠ [] ∧ visible_path false ["b"] ∧ is_Some (stored (w_db sample_world) (keypath (var_key false "a")) ["b"]).
Proof. split; [done|]. split; [by repeat constructor|]. eexists. by vm_compute. Qed.



Lemma normalizeArrays_keeps_values_witness :
  let j : json Z := JObject {["x" := JObject {["0" := JString "a"]}]} in
  get_at j ["x"; "0"] = Some (JString "a") ∧
  get_at (normalizeArrays j) ["x"; "0"] = Some (normalizeArrays (JString "a")).
Proof.
  intros j. assert (get_at j ["x"; "0"] = Some (JString "a")) as Hj by (by vm_compute).
  split; [exact Hj|exact (normalizeArrays_keeps_values j ["x"; "0"] (JString "a") Hj)].
Defined.
End witnesses.
