(* ===== verification/WebPush.v ===== *)
(** * What the HTTP server sends to its sockets

    On connections that can be written, [serve] is [run] in the environment in
    which exactly the clients of the map [clients] answer, and the wire gets
    what was sent ([hserve_reliable]).  So a socket opened on a variable and a
    [POST] to the variable are followed to the messages that arrive. *)
From S2P Require Import Prelude GoStrings GoStrconv Misc NamedLock Storage RamCacheDB Reference Runtime Samples VarHelper Observations VarLock ClientHelper DbList ClientState Controller Variables Subtree Notify Delivery Subscribe Resume HttpApi WebSocket Documents.

(** Through this API, the clients it knows answer. *)
Definition http_env (E : Environment) (h : HttpAPI) : Environment.
Proof.
  refine {| env_reachable i a c := if decide (a = http_apiId) then CheckAlive h c else @env_reachable E i a c;
            env_rand := @env_rand E |}.
  apply env_rand_bounds.
Defined.

(** What is written of a message that was delivered. *)
Definition http_lines (h : HttpAPI) (m : string * string * payload) : list (nat * payload) :=
  let '(a, id, p) := m in
  if decide (a = http_apiId) then match clients h !! id with Some conn => [(conn, p)] | None => [] end else [].

(** The goroutines the controller has started. *)
Fixpoint hserve_tasks {DB} `{!IStorage DB, Environment, Peers} (fuel : nat) (s : HttpServer DB) : option (unit * HttpServer DB) :=
  match w_tasks (h_world s) with
  | [] => Some ((), s)
  | t :: ts =>
      match fuel with
      | O => None
      | S fuel => match serve t (set_hworld (set_tasks ts (h_world s)) s) with
                  | Some (_, s) => hserve_tasks fuel s
                  | None => None
                  end
      end
  end.

Lemma HM_bind_eq {DB A B} (m : HM DB A) (f : A → HM DB B) (s s' : HttpServer DB) a :
  m s = Some (a, s') → (m ≫= f) s = f a s'.
Proof. intros Hm. unfold mbind, HM_bind. by rewrite Hm. Qed.

Section reliable.
Context {DB : Type} {HI : IStorage DB} {ENV : Environment} {HP : Peers}.
Context (reliable : ∀ n conn, peer_writes n conn = true).
Implicit Types (s : HttpServer DB) (w : World DB).

Definition hpush (ms : list (string * string * payload)) s : HttpServer DB :=
  let l := concat (http_lines (h_api s) <$> ms) in set_written (h_wire s ++ l) (length l + h_writes s) s.

Lemma hpush_nil s : hpush [] s = s.
Proof. unfold hpush. cbn. rewrite app_nil_r. by destruct s. Qed.

Lemma hpush_hpush ms ms' w w' s : hpush ms' (set_hworld w' (hpush ms (set_hworld w s))) = hpush (ms ++ ms') (set_hworld w' s).
Proof.
  unfold hpush, set_written, set_hworld. cbn. rewrite fmap_app, concat_app, length_app, app_assoc. f_equal. lia.
Qed.

Lemma hserve_op_reliable o s a w :
  exec (H := http_env ENV (h_api s)) o (h_world s) = Some (a, w) →
  ∃ new, w_sent w = w_sent (h_world s) ++ new ∧ serve_op o s = Some (a, hpush new (set_hworld w s)).
Proof.
  intros He.
  assert (serve_op o s = lift_op o s → exec (H := ENV) o (h_world s) = Some (a, w) → w_sent w = w_sent (h_world s) →
    ∃ new, w_sent w = w_sent (h_world s) ++ new ∧ serve_op o s = Some (a, hpush new (set_hworld w s))) as Hquiet.
  { intros Hl Hx Hs. exists []. rewrite app_nil_r, hpush_nil, Hl. split; [done|]. unfold lift_op. by rewrite Hx. }
  destruct o; try (apply Hquiet; [done|done|cbn in He; by repeat case_match; simplify_eq]).
  - (* CheckAlive *) cbn in He. injection He as <- <-. exists []. rewrite app_nil_r, hpush_nil. split; [done|].
    unfold serve_op. by case_decide.
  - (* NotifyClient *) unfold serve_op. cbn in He. case_decide as Ha.
    + unfold notify, NotifyClient. unfold CheckAlive in He.
      destruct (clients (h_api s) !! clientId) as [conn|] eqn:Hc; cbn in He.
      * rewrite reliable. cbn. rewrite Hc. injection He as <- <-. exists [(api, clientId, varsAndValues)]. split; [done|].
        unfold hpush. cbn. rewrite decide_True by done. by rewrite Hc.
      * cbn. rewrite Hc. injection He as <- <-. exists []. rewrite app_nil_r, hpush_nil. by destruct s.
    + unfold lift_op. cbn. destruct (env_reachable _ api clientId); injection He as <- <-.
      * exists [(api, clientId, varsAndValues)]. split; [done|]. unfold hpush. cbn. rewrite decide_False by done. cbn.
        rewrite app_nil_r. done.
      * exists []. rewrite app_nil_r, hpush_nil. done.
Qed.

Lemma hserve_reliable {A} (p : prog A) s a w :
  run (H := http_env ENV (h_api s)) p (h_world s) = Some (a, w) →
  ∃ new, w_sent w = w_sent (h_world s) ++ new ∧ serve p s = Some (a, hpush new (set_hworld w s)).
Proof.
  revert s. induction p as [? x|? o k IH|? t _ k IH]; intros s; cbn [run serve].
  - intros [= -> <-]. exists []. rewrite app_nil_r, hpush_nil. split; [done|]. by destruct s.
  - destruct (exec o (h_world s)) as [[x w1]|] eqn:He; [|done]. intros Hr.
    destruct (hserve_op_reliable o s x w1 He) as (new1 & Hs1 & ->).
    destruct (IH x a (hpush new1 (set_hworld w1 s)) Hr) as (new2 & Hs2 & ->).
    exists (new1 ++ new2). rewrite hpush_hpush. split; [|done]. rewrite Hs2. cbn. by rewrite Hs1, app_assoc.
  - intros Hr. destruct (IH a (set_hworld (set_tasks (w_tasks (h_world s) ++ [t]) (h_world s)) s) Hr) as (new & Hs & ->).
    by exists new.
Qed.

Lemma hserve_tasks_reliable fuel s w :
  run_tasks (H := http_env ENV (h_api s)) fuel (h_world s) = Some w →
  ∃ new, w_sent w = w_sent (h_world s) ++ new ∧ hserve_tasks fuel s = Some ((), hpush new (set_hworld w s)).
Proof.
  revert s. induction fuel as [|fuel IH]; intros s; cbn [run_tasks hserve_tasks];
    destruct (w_tasks (h_world s)) as [|t ts]; try done.
  1,2: intros [= <-]; exists []; rewrite app_nil_r, hpush_nil; split; [done|]; by destruct s.
  destruct (run t _) as [[x w1]|] eqn:He; [|done]. intros Hr.
  destruct (hserve_reliable t (set_hworld (set_tasks ts (h_world s)) s) x w1 He) as (new1 & Hs1 & ->).
  destruct (IH (hpush new1 (set_hworld w1 s)) Hr) as (new2 & Hs2 & Hrun).
  exists (new1 ++ new2). split; [rewrite Hs2; cbn in *; by rewrite Hs1, app_assoc|].
  rewrite <-(hpush_hpush new1 new2 w1 w s). exact Hrun.
Qed.
End reliable.

(** ** From a [POST] to a socket *)
Section socket.
Context {DB : Type} {HI : IStorage DB} {HS : StorageSpec DB} {ENV : Environment} {HO : RangeOrder} {HP : Peers}.
Context {num : Type} {HC : Codec num} {HU : UnicodeCase}.
Context (reliable : ∀ n conn, peer_writes n conn = true).
Implicit Types (s : HttpServer DB) (w : World DB) (c : TheController).

(** The entry of a client in the index of a variable is not among the clients. *)
Lemma byMetadata_below v id md : ∃ k r, keypath (key_byMetadata (var_key false v) id md) = "vars" :: k :: r.
Proof.
  destruct (var_key_user v) as (m & -> & _). unfold key_byMetadata.
  set (rest := "_observers.byId." +:+ id +:+ ".byMetadata." +:+ md).
  assert (("vars." +:+ m) +:+ "._observers.byId." +:+ id +:+ ".byMetadata." +:+ md
          = "vars" +:+ String dot (m +:+ String dot rest)) as -> by (unfold rest; by rewrite !str_app_assoc).
  rewrite keypath_app. change (SplitByte "vars" dot) with ["vars"].
  rewrite SplitByte_app. pose proof (SplitByte_ne m dot) as Hm. destruct (SplitByte m dot) as [|k l]; [done|].
  rewrite trim_last_app by apply SplitByte_ne. by exists k, (l ++ trim_last (SplitByte rest dot)).
Qed.

Lemma HasValue_internal (db db' : DB) v id md :
  valid db → set_frame internal_key db db' →
  st_HasValue (key_byMetadata (var_key false v) id md) db' = st_HasValue (key_byMetadata (var_key false v) id md) db.
Proof.
  intros Hv Hf. rewrite !HasValue_spec by (done || apply Hf). destruct (byMetadata_below v id md) as (k & r & ->).
  pose proof (sf_below _ _ _ Hf ["vars"] k r) as Hsame. cbn [app] in Hsame. rewrite Hsame; [done|].
  intros key [x Hk] [y Hy]. by rewrite Hk in Hy.
Qed.

Lemma locked_internal (db db' : DB) v : internal_frame db db' → locked db' (var_key false v) = locked db (var_key false v).
Proof.
  intros Hf. unfold locked. rewrite Hf; [done|]. unfold p_lock. destruct (npath_user v) as [r ->]. by intros [x Hx].
Qed.

(** The controller's part of a new socket: [wa] is the world after
    [ClientConnected], [wb] the one after [ObserveVar]. *)
Lemma run_ws_connect (E : Environment) c n id ids w :
  let key := var_key false n in
  allowRawDbAccess c = false → readable false n → quiet w → w_tasks w = [] → obs_is (w_db w) key [] →
  observing (w_db w) id [] → list_is (w_db w) p_clients ids → (Z.of_nat (length ids) + 2 < int64_max)%Z →
  st_HasValue (key_byMetadata key id "") (w_db w) = false → id ≠ "" → http_apiId ∈ w_apis w →
  (∀ m, env_reachable m http_apiId id = true) →
  ∃ wa wb, run (ws_connect c id n) w = Some ((), wb) ∧ set_frame internal_key (w_db w) (w_db wa) ∧ w_sent wa = w_sent w ∧
    subscribed wa wb n id "" http_apiId [] [] ∧ w_tasks wb = [updateClientAboutObservatingVars c (mkCH id (Some http_apiId))].
Proof.
  intros key Hraw Hr Hq Ht Hobs Hlv Hl Hlen Hnew Hid Hin Hon.
  destruct (run_ClientConnected c id http_apiId [] ids w Hq Hlv Hl ltac:(lia) Hid)
    as (wa & Ha & Hqa & Hsa & _ & Hlva & Fa & Aa & (ids' & Hla & Hlen') & Hta).
  destruct (observe_var c n id "" http_apiId [] [] ids' wa) as (wb & Hb & Hsub); try done.
  - apply (obs_is_internal (w_db w)); [by apply set_frame_internal|apply Fa|intros r; apply internal_not_observers|done].
  - lia.
  - rewrite (HasValue_internal (w_db w)); [exact Hnew|apply Hlv|exact Fa].
  - by rewrite Aa.
  - exists wa, wb. unfold ws_connect. rewrite (run_bind_eq _ _ _ _ _ Ha). split; [exact Hb|]. split; [done|]. split; [done|].
    split; [done|]. by rewrite (sub_tasks _ _ _ _ _ _ _ _ Hsub), Hta, Ht.
Qed.

(** A [POST] of a plain body. *)
Lemma run_POST (E : Environment) fuel c post w w' :
  let n := path_to_var (URL_Path post) in
  n ≠ "" → Method post = "POST" → ToLower (header post "Connection") ≠ "upgrade" →
  Contains (header post "Content-Type") "application/json" = false →
  run (SetVar c n (NewDynamicVar (Body post))) w = Some (Ok (), w') →
  run (handlePath fuel c post) w = Some (Some (Reply (no_body 204)), w').
Proof.
  intros n Hn Hm Hc Hct Hr. unfold handlePath. fold n. rewrite decide_False by done. rewrite decide_False by naive_solver.
  rewrite Hm, decide_False, decide_True by done. unfold handlePostByName. rewrite Hct.
  by rewrite (run_bind_eq _ _ _ _ _ Hr).
Qed.

(** What the controller sends of it: the two copies of the current values and
    the new one, while [ws_connect], its goroutine, [SetVar] and the goroutines
    of that run one after the other. *)
Lemma run_socket_and_post (E : Environment) c n (d : DynamicVar) id ids w :
  let key := var_key false n in
  allowRawDbAccess c = false → readable false n → Contains n "*" = false → GetOnly n valid_name_chars = n →
  set_var_error c n d = None → locked (w_db w) key = false →
  quiet w → w_tasks w = [] → (∀ p, p ∈ patterns n → obs_is (w_db w) (var_key false p) []) →
  observing (w_db w) id [] → list_is (w_db w) p_clients ids → (Z.of_nat (length ids) + 2 < int64_max)%Z →
  st_HasValue (key_byMetadata key id "") (w_db w) = false → id ≠ "" → http_apiId ∈ w_apis w →
  (∀ m, env_reachable m http_apiId id = true) →
  ∃ wb wc wd we vals vals',
    run (ws_connect c id n) w = Some ((), wb) ∧ run_tasks 1 wb = Some wc ∧
    run (SetVar c n d) wc = Some (Ok (), wd) ∧ run_tasks 3 wd = Some we ∧
    vals ≡ₚ current (w_db w) n ∧ vals' ≡ₚ current (w_db w) n ∧
    w_sent wb = w_sent w ++ [(http_apiId, id, bare vals)] ∧ w_sent wc = w_sent wb ++ [(http_apiId, id, bare vals')] ∧
    w_sent wd = w_sent wc ∧ w_sent we = w_sent wd ++ [(http_apiId, id, [(n, "", GetString d)])] ∧
    w_tasks we = [] ∧ val (w_db we) (keypath key) = d.
Proof.
  intros key Hraw Hr Hstar Honly Hacc Hlock Hq Ht Hobs Hlv Hl Hlen Hnew Hid Hin Hon.
  assert (valid (w_db w)) as Hv by apply Hlv.
  destruct (run_ws_connect E c n id ids w Hraw Hr Hq Ht (Hobs n ltac:(by left)) Hlv Hl Hlen Hnew Hid Hin Hon)
    as (wa & wb & Hb & Fa & Hsa & Hsub & Htb).
  pose proof Hsub as [(vals & Hvals & Hsb) Hcur _ Hlvb Hcn Hqb _ _].
  destruct (run_update E c id http_apiId [n] (set_tasks [] wb) Hraw Hlvb) as
    (names & msgs & wc & Hu & Hnames & Hmsgs & Hsc & Htc & Hlc & Hac & Fc); [by apply Forall_singleton|exact Hon|].
  apply Permutation_singleton_r in Hnames as ->.
  apply Forall2_cons_inv_l in Hmsgs as (? & ? & (vals' & Hvals' & ->) & ->%Forall2_nil_inv_l & ->).
  cbn [set_tasks w_sent w_tasks w_locks w_apis w_db] in *.
  destruct (subscriber_is_told (H := E) c n id "" http_apiId d [] wa wb wc) as (wd & we & Hd & He & Hte & Hse & Hval); try done.
  { rewrite (locked_internal (w_db w)); [exact Hlock|by apply set_frame_internal]. }
  { intros p Hp. apply (obs_is_internal (w_db w)); [by apply set_frame_internal|apply Fa|intros r; apply internal_not_observers|].
    by apply Hobs. }
  { eapply set_frame_mono; [|exact Fc]. apply live_internal. }
  { apply (connected_live (H := E) (set_tasks [] wb)); [by destruct Hcn|done|done]. }
  { intros name. rewrite Hlc. apply Hqb. }
  assert (w_sent wd = w_sent wc) as Hsd by (apply (SetVar_any_env E c n d wc (Ok ())); [apply Fc|exact Hd]).
  pose proof (current_internal _ _ _ Hr Hv Fa) as Hca.
  exists wb, wc, wd, we, vals, vals'. split_and!; try done.
  - cbn [run_tasks]. rewrite Htb, Hu. by rewrite Htc.
  - by rewrite Hvals.
  - by rewrite Hvals', Hcur.
  - by rewrite Hsb, Hsa.
  - by rewrite Hse, Hsd.
Qed.

(** C6.  From a request to a socket: a client opens a WebSocket on a variable
    nobody observes, and then another client posts a value to it.  The [POST]
    answers 204, and the socket has been written three messages, and no other
    socket any: the values the variable and its children had, the same once
    more (the goroutine of [ClientConnected] finds the variable observed), and
    the value of the [POST]. *)
Theorem socket_gets_posted_value c conn post ids fuel s :
  let w := h_world s in
  let n := path_to_var (URL_Path post) in
  let key := var_key false n in
  let id := Itoa (w_now w) in
  allowRawDbAccess c = false → readable false n → Contains n "*" = false → GetOnly n valid_name_chars = n →
  set_var_error c n (NewDynamicVar (Body post)) = None → locked (w_db w) key = false →
  Method post = "POST" → ToLower (header post "Connection") ≠ "upgrade" →
  Contains (header post "Content-Type") "application/json" = false →
  quiet w → w_tasks w = [] → (∀ p, p ∈ patterns n → obs_is (w_db w) (var_key false p) []) →
  observing (w_db w) id [] → list_is (w_db w) p_clients ids → (Z.of_nat (length ids) + 2 < int64_max)%Z →
  st_HasValue (key_byMetadata key id "") (w_db w) = false → http_apiId ∈ w_apis w →
  ∃ s' vals vals',
    (open_socket c conn n ;; hserve_tasks 1 ;; r ← serve (handlePath fuel c post); hserve_tasks 3 ;; mret r) s
      = Some (Some (Reply (no_body 204)), s') ∧
    vals ≡ₚ current (w_db w) n ∧ vals' ≡ₚ current (w_db w) n ∧
    h_wire s' = h_wire s ++ [(conn, bare vals); (conn, bare vals'); (conn, [(n, "", Body post)])] ∧
    w_tasks (h_world s') = [] ∧ val (w_db (h_world s')) (keypath key) = NewDynamicVar (Body post).
Proof.
  intros w n key id Hraw Hr Hstar Honly Hacc Hlock Hm Hc Hct Hq Ht Hobs Hlv Hl Hlen Hnew Hin.
  assert (id ≠ "") as Hid by apply Itoa_ne_empty.
  set (s1 := set_handlers (<[conn:=id]> (h_handlers s)) (set_api (ws_open id conn (h_api s)) s)).
  assert (∀ m, env_reachable (Environment := http_env ENV (h_api s1)) m http_apiId id = true) as Hon.
  { intros m. cbn. apply bool_decide_eq_true. unfold ws_open. cbn [clients]. rewrite lookup_insert_eq. by eexists. }
  destruct (run_socket_and_post (http_env ENV (h_api s1)) c n (NewDynamicVar (Body post)) id ids w) as
    (wb & wc & wd & we & vals & vals' & Hb & Htb & Hd & He & Hvals & Hvals' & Hsb & Hsc & Hsd & Hse & Hte & Hval); [done..|].
  destruct (hserve_reliable reliable (ws_connect c id n) s1 () wb Hb) as (new1 & Hn1 & Hserve1).
  change (h_world s1) with w in *. rewrite Hsb in Hn1. apply app_inv_head in Hn1 as <-. set (s2 := hpush _ _) in Hserve1.
  assert (open_socket c conn n s = Some (id, s2)) as Hopen.
  { unfold open_socket. fold w id. fold s1. by rewrite Hserve1. }
  destruct (hserve_tasks_reliable reliable 1 s2 wc Htb) as (new2 & Hn2 & Hserve2).
  change (h_world s2) with wb in Hn2. rewrite Hsc in Hn2. apply app_inv_head in Hn2 as <-. set (s3 := hpush _ _) in Hserve2.
  destruct (hserve_reliable reliable (handlePath fuel c post) s3 (Some (Reply (no_body 204))) wd) as (new3 & Hn3 & Hserve3).
  { apply (run_POST (http_env ENV (h_api s1))); [apply Hr|done..]. }
  change (h_world s3) with wc in Hn3. rewrite Hsd, <-(app_nil_r (w_sent wc)) in Hn3 at 1.
  apply app_inv_head in Hn3 as <-. rewrite hpush_nil in Hserve3. set (s4 := set_hworld wd s3) in Hserve3.
  destruct (hserve_tasks_reliable reliable 3 s4 we He) as (new4 & Hn4 & Hserve4).
  change (h_world s4) with wd in Hn4. rewrite Hse in Hn4. apply app_inv_head in Hn4 as <-.
  exists (hpush [(http_apiId, id, [(n, "", GetString (NewDynamicVar (Body post)))])] (set_hworld we s4)), vals, vals'.
  split.
  { rewrite (HM_bind_eq _ _ _ _ _ Hopen), (HM_bind_eq _ _ _ _ _ Hserve2), (HM_bind_eq _ _ _ _ _ Hserve3).
    by rewrite (HM_bind_eq _ _ _ _ _ Hserve4). }
  do 2 (split; [done|]). split; [|by split].
  assert (∀ p, http_lines (h_api s1) (http_apiId, id, p) = [(conn, p)]) as Hlines.
  { intros p. unfold http_lines. rewrite decide_True by done. unfold s1, ws_open. cbn. by rewrite lookup_insert_eq. }
  unfold hpush. cbn [h_wire set_written set_hworld h_api s4 s3 s2 hpush fmap list_fmap concat].
  rewrite !Hlines. cbn [app]. rewrite <-!app_assoc. done.
Qed.
End socket.

(** ** Witness *)
Section witness.
Existing Instance canonical_order.
Existing Instance online.
Existing Instance ascii_case.
Existing Instance small_codec.
Existing Instance WebSocket.reliable.

Lemma sockets_reliable (n conn : nat) : peer_writes n conn = true.
Proof. reflexivity. Defined.

(** The API has registered itself at the controller. *)
Definition open_http : HttpServer RamCacheDB := then_ (serve New) fresh_http.
Definition on_request : Request := post_request "/lamp" "on".

Lemma open_http_world : h_world open_http = set_apis {[http_apiId; "VSTP"]} fresh_world.
Proof. by vm_compute. Qed.

Lemma socket_gets_posted_value_witness :
  let w := h_world open_http in
  readable false "lamp" ∧ quiet w ∧ observing (w_db w) (Itoa (w_now w)) [] ∧ list_is (w_db w) p_clients [] ∧
  ∃ s' vals vals',
    (open_socket default_controller 1 "lamp" ;; hserve_tasks 1 ;;
     r ← serve (handlePath 0 default_controller on_request); hserve_tasks 3 ;; mret r) open_http
      = Some (Some (Reply (no_body 204)), s') ∧
    vals ≡ₚ current (w_db w) "lamp" ∧ vals' ≡ₚ current (w_db w) "lamp" ∧
    h_wire s' = h_wire open_http ++ [(1, bare vals); (1, bare vals'); (1, [("lamp", "", "on")])] ∧
    w_tasks (h_world s') = [] ∧ val (w_db (h_world s')) (keypath (var_key false "lamp")) = NewDynamicVar "on".
Proof.
  intros w. assert (w = set_apis {[http_apiId; "VSTP"]} fresh_world) as Hw by apply open_http_world.
  assert (quiet w) as Hq by (rewrite Hw; apply quiet_world_of).
  assert (∀ id, observing (w_db w) id []) as Hv by (intros id; rewrite Hw; apply fresh_observing).
  assert (list_is (w_db w) p_clients []) as Hl by (rewrite Hw; by apply fresh_list).
  assert (∀ p, p ∈ patterns "lamp" → obs_is (w_db w) (var_key false p) []) as Ho by (intros p _; rewrite Hw; apply fresh_obs).
  assert (Z.of_nat 0 + 2 < int64_max)%Z as Hlt by (unfold int64_max; lia).
  assert (st_HasValue (key_byMetadata (var_key false "lamp") (Itoa (w_now w)) "") (w_db w) = false) as Hn by (by vm_compute).
  assert (http_apiId ∈ w_apis w) as Ha by (rewrite Hw; set_solver).
  assert (set_var_error default_controller "lamp" (NewDynamicVar "on") = None) as He by (by vm_compute).
  assert (locked (w_db w) (var_key false "lamp") = false) as Hk by (by vm_compute).
  assert (ToLower (header on_request "Connection") ≠ "upgrade") as Hc by (by vm_compute).
  assert (w_tasks w = []) as Ht by (by rewrite Hw).
  assert (readable false "lamp") as Hr by (split_and!; [done|done|by right]).
  split; [exact Hr|]. split; [exact Hq|]. split; [exact (Hv _)|]. split; [exact Hl|].
  exact (socket_gets_posted_value sockets_reliable default_controller 1 on_request [] 0 open_http eq_refl Hr eq_refl eq_refl
           He Hk eq_refl Hc eq_refl Hq Ht Ho (Hv _) Hl Hlt Hn Ha).
Defined.
End witness.
