(* ===== verification/Confs.v ===== *)
(** * The configuration system ([sources/misc/confs])

    A configuration item takes its value from the first source that knows one of
    its names: the command line, the environment, a file.  Placeholders are then
    replaced in the value, a value that does not pass the validation gives way
    to the default, and a value map may translate it when it is read.

    The environment variables are a parameter of the environment source.  A
    validation function sees the item through its methods, that is through its
    data: [ConfData] is the struct without the function. *)
From S2P Require Import Prelude GoStrings GoStrconv Misc.

(** ** Sources *)
Record IConfsSource := mkSource {
  Find : list string → option (DynamicVar * string);  (** the value and the name found *)
  GetSourceInfo : string
}.

(** The dots of a name as underscores. *)
Definition underscored (n : string) : string := ReplaceAll n "." "_".

(** The search of the command line and of files: each name, then its variant. *)
Fixpoint find_kv (kv : gmap string string) (possibleNames : list string) : option (DynamicVar * string) :=
  match possibleNames with
  | [] => None
  | n :: possibleNames =>
      match kv !! n with
      | Some v => Some (NewDynamicVar v, n)
      | None =>
          match kv !! underscored n with
          | Some v => Some (NewDynamicVar v, underscored n)
          | None => find_kv kv possibleNames
          end
      end
  end.

(** [strings.SplitN(s, sep, 2)] *)
Definition SplitN2 (s : string) (sep : ascii) : option (string * string) :=
  match IndexByte s sep with
  | Some i => Some (s.[:i], s.[S i:])
  | None => None
  end.

(** One argument, with those that follow it. *)
Definition read_arg (kv : gmap string string) (a : string) (rest : list string) : gmap string string :=
  if Contains a "=" then
    match SplitN2 a "="%char with Some (key, val) => <[key := val]> kv | None => kv end
  else if Contains a ":" then
    match SplitN2 a ":"%char with Some (key, val) => <[key := val]> kv | None => kv end
  else match rest with
       | val :: _ => <[a := val]> kv
       | [] => kv
       end.
Fixpoint read_args (kv : gmap string string) (args : list string) : gmap string string :=
  match args with
  | [] => kv
  | a :: rest => read_args (read_arg kv a rest) rest
  end.
Definition NewCommandLineSource (args : list string) : IConfsSource :=
  mkSource (find_kv (read_args ∅ args)) "Command Line Arguments".

(** The environment; a variable that is not set is empty. *)
Fixpoint find_env `{UnicodeCase} (Getenv : string → string) (possibleNames : list string)
    : option (DynamicVar * string) :=
  match possibleNames with
  | [] => None
  | n :: possibleNames =>
      if decide (Getenv n ≠ "") then Some (NewDynamicVar (Getenv n), n)
      else
        let alt := ToUpper (underscored n) in
        if decide (Getenv alt ≠ "") then Some (NewDynamicVar (Getenv alt), alt)
        else find_env Getenv possibleNames
  end.
Definition NewEnvSource `{UnicodeCase} (Getenv : string → string) : IConfsSource :=
  mkSource (find_env Getenv) "Environment Variables".

(** [bufio.Scanner] with [ScanLines]: an empty piece after the last line end is no
    line, one carriage return is dropped, and a line of 64 KiB ends the scan. *)
Definition max_line : nat := 65536.
Definition drop_last_empty (l : list string) : list string :=
  match last l with Some "" => removelast l | _ => l end.
Fixpoint short_lines (l : list string) : list string :=
  match l with
  | [] => []
  | x :: l => if (N.of_nat max_line <=? N.of_nat (len x))%N then [] else TrimSuffix x (String "013" "") :: short_lines l
  end.
Definition scan_lines (text : string) : list string := short_lines (drop_last_empty (SplitByte text newline)).

Definition read_line (kv : gmap string string) (text : string) : gmap string string :=
  let line := TrimSpace text in
  if decide (line = "") then kv
  else if HasPrefix line "#" then kv
  else match SplitN2 line "="%char with
       | Some (key, val) => <[TrimSpace key := TrimSpace val]> kv
       | None => kv
       end.
Definition read_file (text : string) : gmap string string := fold_left read_line (scan_lines text) ∅.

(** [None]: the file cannot be opened. *)
Definition NewFileSource (file : option string) : IConfsSource :=
  let kv := from_option read_file ∅ file in
  mkSource (find_kv kv) ("Configuration File (" +:+ default "" (kv !! "file") +:+ ")").

(** ** Items *)
Record ConfData := mkConfData {
  Name : string;
  PossibleNames : list string;
  DefaultValue : DynamicVar;
  theValue : DynamicVar;
  ValueMap : gmap string DynamicVar;
  UsedNameInSource : string;
  SourceInfo : string
}.
Record ConfItem := mkConfItem { conf : ConfData; ValidateFunc : ConfData → option string }.

Definition set_theValue (v : DynamicVar) (d : ConfData) : ConfData :=
  mkConfData (Name d) (PossibleNames d) (DefaultValue d) v (ValueMap d) (UsedNameInSource d) (SourceInfo d).
Definition set_used (name info : string) (d : ConfData) : ConfData :=
  mkConfData (Name d) (PossibleNames d) (DefaultValue d) (theValue d) (ValueMap d) name info.
Definition on_conf (f : ConfData → ConfData) (c : ConfItem) : ConfItem := mkConfItem (f (conf c)) (ValidateFunc c).

Definition SetPossibleNames (l : list string) : ConfItem → ConfItem :=
  on_conf (λ d, mkConfData (Name d) l (DefaultValue d) (theValue d) (ValueMap d) (UsedNameInSource d) (SourceInfo d)).
Definition SetDefaultValue (v : DynamicVar) : ConfItem → ConfItem :=
  on_conf (λ d, mkConfData (Name d) (PossibleNames d) v (theValue d) (ValueMap d) (UsedNameInSource d) (SourceInfo d)).
Definition SetValidation (f : ConfData → option string) (c : ConfItem) : ConfItem := mkConfItem (conf c) f.

Section confs.
Context `{UnicodeCase} `{RangeOrder}.

(** The keys of the argument are values; it is a map from their strings. *)
Definition AddValueMap (m : gmap string DynamicVar) : ConfItem → ConfItem :=
  on_conf (λ d, mkConfData (Name d) (PossibleNames d) (DefaultValue d) (theValue d)
    (fold_left (λ vm e, <[ToLower e.1 := e.2]> vm) (range m) (ValueMap d)) (UsedNameInSource d) (SourceInfo d)).

(** The options of [CreateConfig]. *)
Definition Option : Type := ConfItem → ConfItem.
Definition WithPossibleNames (l : list string) : Option := SetPossibleNames l.
Definition WithDefaultValue (v : DynamicVar) : Option := SetDefaultValue v.
Definition WithValueMap (m : gmap string DynamicVar) : Option := AddValueMap m.
Definition WithValidationFunc (f : ConfData → option string) : Option := SetValidation f.

Definition Value (d : ConfData) : DynamicVar :=
  default (theValue d) (ValueMap d !! ToLower (GetString (theValue d))).
Definition NotMappedValue (d : ConfData) : DynamicVar := theValue d.
Definition GetUsedNameAnsSourceInfo (d : ConfData) : string * string := (UsedNameInSource d, SourceInfo d).

(** The argument is not used: the item validates what it holds. *)
Definition ValidateThisValue (value : DynamicVar) (c : ConfItem) : option string := ValidateFunc c (conf c).

Definition ChangeCurrentValue (v : DynamicVar) (validate : bool) (c : ConfItem) : option string * ConfItem :=
  match (if validate then ValidateThisValue v c else None) with
  | Some err => (Some err, c)
  | None => (None, on_conf (set_theValue v) c)
  end.
Definition ValidateCurrentValue (c : ConfItem) : option string := ValidateThisValue (theValue (conf c)) c.

Definition NewConfItem (name : string) (options : list Option) : ConfItem :=
  fold_left (λ c opt, opt c) options
    (mkConfItem (mkConfData name [] NewEmptyDynamicVar NewEmptyDynamicVar ∅
                   (name +:+ " (default value, no source)") "No source") (λ _, None)).

(** ** The registry *)
Record Confs := mkConfs {
  items : gmap string ConfItem;
  sources : list IConfsSource;
  placeHolders : gmap string string
}.

Definition NewConfs (s : list IConfsSource) : Confs := mkConfs ∅ s ∅.
Definition AddNewSource (s : IConfsSource) (c : Confs) : Confs :=
  mkConfs (items c) (sources c ++ [s]) (placeHolders c).
Definition AddPlaceHolders (m : gmap string string) (c : Confs) : Confs :=
  mkConfs (items c) (sources c) (fold_left (λ ph e, <[e.1 := e.2]> ph) (range m) (placeHolders c)).
Definition AllPlaceHolders (c : Confs) : gmap string string := placeHolders c.
Definition AllConfigs (c : Confs) : gmap string ConfItem :=
  fold_left (λ result e, <[e.1 := e.2]> result) (range (items c)) ∅.

Definition applyPlaceHolders (c : Confs) (value : string) : string :=
  fold_left (λ strVal e, ReplaceAll strVal e.1 e.2) (range (placeHolders c)) value.

(** The first source that has the item. *)
Fixpoint find_source (names : list string) (l : list IConfsSource) : option (DynamicVar * string * string) :=
  match l with
  | [] => None
  | s :: l =>
      match Find s names with
      | Some (v, foundName) => Some (v, foundName, GetSourceInfo s)
      | None => find_source names l
      end
  end.

(** The value of a new item, from the sources or the default. *)
Definition resolve (c : Confs) (item : ConfItem) : ConfItem :=
  match find_source (PossibleNames (conf item)) (sources c) with
  | Some (v, foundName, info) =>
      on_conf (λ d, set_used foundName info (set_theValue (NewDynamicVar (applyPlaceHolders c (GetString v))) d)) item
  | None => on_conf (λ d, set_theValue (NewDynamicVar (applyPlaceHolders c (GetString (DefaultValue d)))) d) item
  end.

Definition CreateConfig (name : string) (options : list Option) (c : Confs) : ConfItem * option string * Confs :=
  match items c !! name with
  | Some item => (item, None, c)
  | None =>
      let newItem := resolve c (NewConfItem name options) in
      let validationError := ValidateThisValue (theValue (conf newItem)) newItem in
      let newItem := match validationError with
                     | Some _ => on_conf (λ d, set_theValue (NewDynamicVar (applyPlaceHolders c (GetString (DefaultValue d)))) d) newItem
                     | None => newItem
                     end in
      (newItem, validationError, mkConfs (<[name := newItem]> (items c)) (sources c) (placeHolders c))
  end.

Definition GetConfig (name : string) (options : list Option) (c : Confs) : ConfItem * Confs :=
  let '(item, _, c) := CreateConfig name options c in (item, c).

(** The first item, in the order of [range], that has the name. *)
Definition FindConfByParamName (paramName : string) (c : Confs) : option ConfItem :=
  snd <$> head (filter (λ e, paramName ∈ PossibleNames (conf e.2)) (range (items c))).
End confs.

(** ** The value of an item *)
Section theorems.
Context `{UnicodeCase} `{RangeOrder}.

Lemma find_source_first names pre s post v found :
  Forall (λ s, Find s names = None) pre → Find s names = Some (v, found) →
  find_source names (pre ++ s :: post) = Some (v, found, GetSourceInfo s).
Proof. intros Hpre Hs. induction Hpre as [|s' pre Hs' _ IH]; cbn; [by rewrite Hs|by rewrite Hs']. Qed.

Lemma find_source_none names l : Forall (λ s, Find s names = None) l → find_source names l = None.
Proof. intros Hl. induction Hl as [|s l Hs _ IH]; cbn; [done|by rewrite Hs]. Qed.

(** C36.  A new item takes its value from the first source that knows one of its
    names, or its default when none does, with the placeholders replaced; a
    value the validation refuses gives way to the default, and the error is
    reported.  From then on the item is fixed: asking for it again, whatever the
    options, gives the same item and no error. *)
Theorem CreateConfig_resolves name options c pre o post :
  items c !! name = None →
  sources c = pre ++ post →
  let d := conf (NewConfItem name options) in
  Forall (λ s, Find s (PossibleNames d) = None) pre →
  (match o with
   | Some (v, found) => ∃ s, head post = Some s ∧ Find s (PossibleNames d) = Some (v, found)
   | None => post = []
   end) →
  let raw := match o with Some (v, _) => v | None => DefaultValue d end in
  ∃ item err c', CreateConfig name options c = (item, err, c') ∧
    (err = None → NotMappedValue (conf item) = NewDynamicVar (applyPlaceHolders c (GetString raw)) ∧
                  ValidateFunc item (conf item) = None) ∧
    (err ≠ None → NotMappedValue (conf item) = NewDynamicVar (applyPlaceHolders c (GetString (DefaultValue d)))) ∧
    (∀ v found, o = Some (v, found) → UsedNameInSource (conf item) = found) ∧
    ∀ options', CreateConfig name options' c' = (item, None, c').
Proof.
  intros Hnew Hsrc d Hpre Ho raw. set (item0 := NewConfItem name options) in *.
  assert (∃ used info, resolve c item0 = on_conf (λ d, set_used used info
    (set_theValue (NewDynamicVar (applyPlaceHolders c (GetString raw))) d)) item0 ∧
    ∀ v found, o = Some (v, found) → used = found) as (used & info & Hres & Hused).
  { unfold resolve. fold d. rewrite Hsrc. destruct o as [[v found]|].
    - destruct Ho as (s & Hs & Hf). destruct post as [|s' post]; [done|]. injection Hs as ->.
      rewrite (find_source_first _ _ _ _ _ _ Hpre Hf). eexists _, _. split; [done|]. by intros ? ? [= _ ->].
    - rewrite Ho, app_nil_r, find_source_none by done. exists (UsedNameInSource d), (SourceInfo d). split; [|done].
      unfold on_conf. done. }
  unfold CreateConfig. rewrite Hnew. fold item0. rewrite Hres. unfold ValidateThisValue.
  destruct (ValidateFunc _ _) as [e|] eqn:Hval; eexists _, _, _; (split; [done|]).
  - split; [done|]. split; [done|]. split; [intros v f Hof; cbn; by eapply Hused|].
    intros options'. cbn [items]. by rewrite lookup_insert_eq.
  - split; [by split|]. split; [done|]. split; [intros v f Hof; cbn; by eapply Hused|].
    intros options'. cbn [items]. by rewrite lookup_insert_eq.
Qed.
End theorems.

(** ** Configuration files *)

(** An entry a file can carry. *)
Record file_entry (e : string * string) : Prop := {
  fe_key : e.1 ≠ "";
  fe_no_eq : lacks "="%char e.1;
  fe_no_comment : HasPrefix e.1 "#" = false;
  fe_trim_key : TrimSpace e.1 = e.1;
  fe_trim_value : TrimSpace e.2 = e.2;
  fe_trim : TrimSpace (e.1 +:+ "=" +:+ e.2) = e.1 +:+ "=" +:+ e.2;
  fe_no_newline : lacks newline e.1 ∧ lacks newline e.2;
  fe_no_return : TrimSuffix (e.1 +:+ "=" +:+ e.2) (String "013" "") = e.1 +:+ "=" +:+ e.2;
  fe_short : (N.of_nat (len (e.1 +:+ "=" +:+ e.2)) < N.of_nat max_line)%N
}.

Definition print_entry (e : string * string) : string := e.1 +:+ "=" +:+ e.2.
Definition print_file (l : list (string * string)) : string := foldr (λ e s, print_entry e +:+ nl +:+ s) "" l.

Lemma lacks_print_entry e : file_entry e → lacks newline (print_entry e).
Proof.
  intros He. destruct (fe_no_newline _ He). unfold print_entry. apply lacks_app. split; [done|].
  by apply lacks_app.
Qed.

Lemma scan_lines_print l : Forall file_entry l → scan_lines (print_file l) = print_entry <$> l.
Proof.
  intros Hl. unfold scan_lines.
  assert (SplitByte (print_file l) newline = (print_entry <$> l) ++ [""]) as ->.
  { induction Hl as [|e l He Hl IH]; [done|]. cbn [print_file foldr fmap list_fmap app]. fold (print_file l).
    change (nl +:+ print_file l) with (String newline (print_file l)).
    by rewrite SplitByte_app, SplitByte_lacks, IH by (by apply lacks_print_entry). }
  unfold drop_last_empty. rewrite last_snoc, removelast_last.
  induction Hl as [|e l He Hl IH]; [done|]. cbn [fmap list_fmap short_lines].
  destruct (N.leb_spec (N.of_nat max_line) (N.of_nat (len (print_entry e)))) as [Hlt|_].
  - pose proof (fe_short _ He). unfold print_entry in Hlt. lia.
  - f_equal; [apply (fe_no_return _ He)|exact IH].
Qed.

(** C37.  Reading a configuration file gives back the entries it was written
    from, the last one of a key winning, and each is then found by its name. *)
Theorem read_print_file l :
  Forall file_entry l →
  read_file (print_file l) = fold_left (λ kv e, <[e.1 := e.2]> kv) l ∅ ∧
  ∀ pre k v post, l = pre ++ (k, v) :: post → k ∉ post.*1 →
    Find (NewFileSource (Some (print_file l))) [k] = Some (NewDynamicVar v, k).
Proof.
  intros Hl.
  assert (read_file (print_file l) = fold_left (λ kv e, <[e.1 := e.2]> kv) l ∅) as Hread.
  { unfold read_file. rewrite scan_lines_print by done. generalize (∅ : gmap string string).
    induction Hl as [|e l He Hl IH]; intros kv; [done|]. cbn [fmap list_fmap fold_left]. rewrite <-IH. f_equal.
    unfold read_line, print_entry. rewrite (fe_trim _ He). destruct e as [k v]. destruct He. cbn [fst snd] in *.
    rewrite decide_False by (by destruct k).
    assert (HasPrefix (k +:+ "=" +:+ v) "#" = false) as ->.
    { destruct k as [|a k]; [done|]. rewrite app_cons. cbn in fe_no_comment0 |- *.
      by destruct (bool_decide (a = "#"%char)), k. }
    unfold SplitN2. change (k +:+ "=" +:+ v) with (k +:+ String "=" v). rewrite IndexByte_app by done.
    rewrite str_take_app, str_drop_S_app. by rewrite fe_trim_key0, fe_trim_value0. }
  split; [done|]. intros pre k v post -> Hk. cbn [NewFileSource Find from_option find_kv].
  rewrite Hread, fold_left_app. cbn [fold_left fst snd].
  assert (∀ m : gmap string string, m !! k = Some v → fold_left (λ kv e, <[e.1 := e.2]> kv) post m !! k = Some v) as Hpost.
  { clear -Hk. induction post as [|[k' v'] post IH]; intros m Hm; [done|]. apply not_elem_of_cons in Hk as [Hne Hk].
    cbn. apply IH; [done|]. by rewrite lookup_insert_ne. }
  by rewrite Hpost by (by rewrite lookup_insert_eq).
Qed.

(** The value of an item with two placeholders of which one is the
    beginning of the other depends on the order of a map. *)
Theorem placeholders_depend_on_order :
  let c := AddPlaceHolders (H0 := canonical_order) {["$a" := "x"; "$ab" := "y"]} (NewConfs []) in
  applyPlaceHolders (H0 := canonical_order) c "$ab" ≠ applyPlaceHolders (H0 := reverse_order) c "$ab".
Proof. by vm_compute. Qed.

(** ** Witnesses *)
Section witnesses.
Existing Instance canonical_order.
Existing Instance ascii_case.

Definition small_file : list (string * string) := [("vstp.port", "1"); ("http-port", "a=b"); ("vstp.port", "5032")].

Lemma small_file_entries : Forall file_entry small_file.
Proof. repeat constructor; try discriminate; by vm_compute. Qed.

Lemma read_print_file_witness :
  Forall file_entry small_file ∧
  Find (NewFileSource (Some (print_file small_file))) ["vstp.port"] = Some (NewDynamicVar "5032", "vstp.port").
Proof.
  split; [exact small_file_entries|].
  apply (proj2 (read_print_file small_file small_file_entries) [("vstp.port", "1"); ("http-port", "a=b")] "vstp.port" "5032" []);
    [reflexivity|apply not_elem_of_nil].
Defined.

(** A port that must be a number, given by the file after a command line that
    does not name it. *)
Definition port_options : list Option :=
  [WithPossibleNames ["vstp.port"]; WithDefaultValue (NewDynamicVar "5000");
   WithValidationFunc (λ d, if Atoi (GetString (theValue d)) is Some _ then None else Some "not a number")].
Definition two_sources : Confs := NewConfs [NewCommandLineSource ["--x=1"]; NewFileSource (Some (print_file small_file))].

Lemma CreateConfig_resolves_witness :
  items two_sources !! "vstpApiPort" = None ∧
  ∃ item err c', CreateConfig "vstpApiPort" port_options two_sources = (item, err, c') ∧
    err = None ∧ NotMappedValue (conf item) = NewDynamicVar "5032".
Proof.
  assert (items two_sources !! "vstpApiPort" = None) as Hnew by reflexivity.
  assert (Forall (λ s, Find s ["vstp.port"] = None) [NewCommandLineSource ["--x=1"]]) as Hpre
    by (constructor; [by vm_compute|constructor]).
  assert (∃ s, head [NewFileSource (Some (print_file small_file))] = Some s ∧
    Find s ["vstp.port"] = Some (NewDynamicVar "5032", "vstp.port")) as Hs
    by (eexists; split; [reflexivity|by vm_compute]).
  split; [exact Hnew|].
  destruct (CreateConfig_resolves "vstpApiPort" port_options two_sources [NewCommandLineSource ["--x=1"]]
              (Some (NewDynamicVar "5032", "vstp.port")) [NewFileSource (Some (print_file small_file))]
              Hnew eq_refl Hpre Hs) as (item & err & c' & He & Hok & _ & _).
  assert (err = None) as -> by (apply (f_equal (λ t, t.1.2)) in He; cbn [fst snd] in He; rewrite <-He; by vm_compute).
  exists item, None, c'. split; [exact He|]. split; [reflexivity|].
  destruct (Hok eq_refl) as [-> _]. by vm_compute.
Defined.
End witnesses.
