(* ===== verification/Help.v ===== *)
(** * The help of the command line ([displayHelpOrVersion] in [main.go]) *)
From S2P Require Import Prelude GoStrings.

Definition INFO_VERSION : string := "2.0.0+Capella".

(** The lines that [--help] prints. *)
Definition help_text : list string := [
  "VarServerSHU - The variable server for SHU-based systems";
  "Version: " +:+ INFO_VERSION;
  "Usage: vss [options]";
  "Options:";
  "  -h, --help, /?, -?, help          Show this help message and exit";
  "  --version                         Show version information and exit";
  "  --http-api-port <port>            Set the HTTP API port (default: 5024 or value in conf file)";
  "  --http-api-https-port <port>      Set the HTTPS API port (default: 5025 or value in conf file)";
  "  --http-data-folder                Set the HTTP data directory (default: /var/vss/data/http_data or value in conf file)";
  "  --http-api-cert-file              Set the HTTPS certificate file (default: ./ssl/cert/vssCert.pem or value in conf file)";
  "  --http-api-key-file               Set the HTTPS key file (default: ./ssl/cert/vssKey.pem or value in conf file)";
  "  --http-api-returns-full-paths     If true, HTTP API will return entire variables paths in the JSON results (default: false or value in conf file)";
  "  --ram-cache-db-dump-interval-ms   Set the interval, in milliseconds, to RamCacheDB service check for changes in the memory and dump data to disk (default: 60000 or value in conf file)";
  "  --vstp-api-port <port>            Set the VSTP API port (default: 5032 or value in conf file)";
  "  --db-directory <path>             Set the database directory (default: /var/vss/data/database or value in conf file)";
  "  --http-data-directory <path>      Set the HTTP data directory (default: /var/vss/data/http_data or value in conf file)";
  "  --max-log-file-size <size_in_bytes>";
  "  									 Set the maximum log file size in bytes before rotation (default: 52428800 or value in conf file)";
  "  --max-time-waiting-for-clients <seconds>";
  "  									 Set the maximum time in seconds to consider a client disconnected (default: 43200 or value in conf file)";
  "  --stdout-log-level <level>        Set the log level for console output (default: info or value in conf file)";
  "    levels:";
  "      trace						     Very detailed logs, used for debugging";
  "      debug						     Detailed logs, used for debugging";
  "      info							     General information logs";
  "      warning						     Warnings about potential issues";
  "      error						     Errors that occurred";
  "      critical						     Critical errors that may cause shutdown";
  "  --file-log-level <level>          Set the log level for file output (default: info or value in conf file)";
  "  --max-key-length <length>         Set the maximum key length in characters (default: 255 or value in conf file)";
  "  --max-key-word-length <length>    Set the maximum key word length in characters (default: 64 or value in conf file)";
  "  --max-value-size <size_in_bytes>  Set the maximum value size in bytes (default: 1048576 or value in conf file)";
  "  --allow-raw-db-access <true|false>";
  "                                    If true, allows raw database access without 'vars.' prefix (default: false or value in conf file)";
  "";
  "Environment Variables:";
  "  VSS_HTTP_API_PORT                 Same as --http-api-port";
  "  VSS_HTTP_API_HTTPS_PORT           Same as --http-api-https-port";
  "  VSS_VSTP_API_PORT                 Same as --vstp-api-port";
  "  VSS_HTTP_DATA_FOLDER              Same as --http-data-folder";
  "  VSS_HTTP_API_CERT_FILE            Same as --http-api-cert-file";
  "  VSS_HTTP_API_KEY_FILE             Same as --http-api-key-file";
  "  VSS_HTTP_API_RETURN_FULL_PATHS    Same as --http-api-return-full-paths";
  "  VSS_RAM_CACHE_DB_DUMP_INTERVAL_MS Same as --ram-cache-db-dump-interval-ms";
  "  VSS_VSTP_API_PORT                 Same as --vstp-api-port";
  "  VSS_DB_DIRECTORY                  Same as --db-directory";
  "  VSS_HTTP_DATA_DIRECTORY           Same as --http-data-directory";
  "  VSS_MAX_LOG_FILE_SIZE             Same as --max-log-file-size";
  "  VSS_MAX_TIME_WAITING_CLIENTS      Same as --max-time-waiting-clients";
  "  VSS_STDOUT_LOG_LEVEL              Same as --stdout-log-level";
  "  VSS_FILE_LOG_LEVEL                Same as --file-log-level";
  "  VSS_MAX_KEY_LENGTH                Same as --max-key-length";
  "  VSS_MAX_KEY_WORD_LENGTH           Same as --max-key-word-length";
  "  VSS_MAX_VALUE_SIZE                Same as --max-value-size";
  "  VSS_ALLOW_RAW_DB_ACCESS           Same as --allow-raw-db-access";
  "";
  "Command line arguments are more important than environment variables, which are more important than configuration file values.";
  "For more information, visit the documentation."].

(** The lines printed for an argument; the result is always that the program goes
    on. *)
Definition help_for (arg : string) : list string :=
  if decide (arg = "--help" ∨ arg = "-h" ∨ arg = "/?") then help_text
  else if decide (arg = "--version" ∨ arg = "-v") then ["VSS Version: " +:+ INFO_VERSION]
  else [].
Definition displayHelpOrVersion (Args : list string) : list string * bool := (concat (help_for <$> Args), false).

(** The words of a text that start with two dashes. *)
Definition option_words (line : string) : list string :=
  filter (λ w, HasPrefix w "--" = true) (SplitByte line " "%char).
Definition help_options : list string := concat (option_words <$> help_text).
