(* ===== verification/Startup.v ===== *)
(** * The start of the program ([main.go])

    [main] reads the configuration from the command line, the environment and a
    file, opens the log, refuses unknown arguments, and starts the storage, the
    controller, the VSTP service and the HTTP service, in this order.

    A [Process] is what the system gives to the program. *)
From S2P Require Import Prelude GoStrings GoStrconv Misc Storage RamCacheDB LogUtils Logger Runtime ClientHelper VarHelper Controller Confs Help.

(** ** [path/filepath] *)

(** [Clean], one element at a time; [out] is the path so far, reversed. *)
Definition clean_step (rooted : bool) (out : list string) (elem : string) : list string :=
  if decide (elem = "" ∨ elem = ".") then out
  else if decide (elem = "..") then
    match out with
    | [] => if rooted then [] else [".."]
    | top :: rest => if decide (top = "..") then ".." :: out else rest
    end
  else elem :: out.
Definition clean_elems (path : string) : list string :=
  reverse (fold_left (clean_step (HasPrefix path "/")) (SplitByte path "/"%char) []).
Definition Clean (path : string) : string :=
  let body := Join (clean_elems path) "/" in
  if HasPrefix path "/" then "/" +:+ body
  else if decide (body = "") then "." else body.

(** [Dir], [Join] and [Rel]. *)
Definition Dir (path : string) : string :=
  Clean (match LastIndexByte path "/"%char with Some i => str_take (S i) path | None => "" end).
Fixpoint JoinPath (elems : list string) : string :=
  match elems with
  | [] => ""
  | e :: rest => if decide (e = "") then JoinPath rest else Clean (Join elems "/")
  end.
Fixpoint drop_common (a b : list string) : list string * list string :=
  match a, b with
  | x :: a', y :: b' => if decide (x = y) then drop_common a' b' else (a, b)
  | _, _ => (a, b)
  end.
(** [None] is an error. *)
Definition Rel (basepath targpath : string) : option string :=
  let base := Clean basepath in
  let targ := Clean targpath in
  if decide (targ = base) then Some "."
  else if decide (HasPrefix base "/" ≠ HasPrefix targ "/") then None
  else
    let '(up, down) := drop_common (clean_elems base) (clean_elems targ) in
    if decide (head up = Some "..") then None
    else Some (Join (((λ _, "..") <$> up) ++ down) "/").

(** ** The process *)
Record Process := mkProcess {
  Executable : string;
  Getwd : option string;
  Args : list string;                    (** [os.Args]: the program comes first *)
  Getenv : string → string;
  ReadFile : string → option string;     (** the text of a file that can be opened *)
  Openable : string → bool               (** files that can be opened to append *)
}.

Section startup.
Context `{UnicodeCase} `{RangeOrder} (P : Process).

(** ** Directories *)
Definition getApplicationDirectory (shortenIfPossible : bool) : string :=
  let executablePath := Executable P in
  match (if shortenIfPossible then
           cwd ← Getwd P; relPath ← Rel cwd executablePath;
           if HasPrefix relPath ".." then None else Some (Dir relPath)
         else None) with
  | Some ret => ret
  | None => Dir executablePath
  end.
Definition runningInPortableMode : bool :=
  if HasPrefix (Executable P) "/usr" || HasPrefix (Executable P) "/bin" then false else true.
Definition findConfigurationFile : string :=
  if runningInPortableMode then JoinPath [getApplicationDirectory false; "config"; "vss.conf"] else "/etc/vss/vss.conf".
Definition determineLogFile : string :=
  if runningInPortableMode then JoinPath [getApplicationDirectory false; "vss.log"] else "/var/log/vss.log".
Definition suggestDataDirectory : string :=
  if runningInPortableMode then getApplicationDirectory false +:+ "/data" else "/var/vss/data".

(** ** Validations: the text of the error *)
Definition received (value reason : string) : string := "received '" +:+ value +:+ "', " +:+ reason.

(** The text of the error of [strconv.Atoi] is left out. *)
Definition valid_integer (d : ConfData) : option string :=
  match GetInt64e (Value d) with
  | None => Some (received (GetString (Value d)) "must be a positive integer: ")
  | Some _ => None
  end.
Definition level_names : string := "tracedebuginfoinfo2warningerrorcritical".
Definition valid_level (d : ConfData) : option string :=
  let valueStr := ToLower (GetString (NotMappedValue d)) in
  if negb (Contains level_names valueStr)
  then Some (received valueStr "must be a valid log level (trace, debug, info, info, warning, error or critical)")
  else None.
Definition valid_port (d : ConfData) : option string :=
  match GetInte (NotMappedValue d) with
  | Some port => if (port <? 1)%Z || (65535 <? port)%Z
                 then Some (received (GetString (NotMappedValue d)) "must be a valid TCP port number (1-65535)") else None
  | None => Some (received (GetString (NotMappedValue d)) "must be a valid TCP port number (1-65535)")
  end.
Definition valid_at_least (least : Z) (d : ConfData) : option string :=
  match GetInte (NotMappedValue d) with
  | Some n => if (n <? least)%Z then Some (received (GetString (NotMappedValue d)) "must be a valid positive integer") else None
  | None => Some (received (GetString (NotMappedValue d)) "must be a valid positive integer")
  end.

(** The value map of the log levels. *)
Definition level_map : gmap string DynamicVar :=
  {["trace" := NewDynamicVar_int LEVEL_TRACE; "debug2" := NewDynamicVar_int LEVEL_DEBUG2;
    "debug" := NewDynamicVar_int LEVEL_DEBUG; "info2" := NewDynamicVar_int LEVEL_INFO2;
    "info" := NewDynamicVar_int LEVEL_INFO; "warning" := NewDynamicVar_int LEVEL_WARNING;
    "error" := NewDynamicVar_int LEVEL_ERROR; "critical" := NewDynamicVar_int LEVEL_CRITICAL]}.

(** ** The configuration items *)
Definition created : Type := ConfItem * option string * Confs.

Definition create_maxLogFileSize : Confs → created := CreateConfig "maxLogFileSize"
  [WithPossibleNames ["max-log-file-size"; "--max-log-file-size"; "VSS_MAX_LOG_FILE_SIZE"];
   WithDefaultValue (NewDynamicVar "52428800"); WithValidationFunc valid_integer].
Definition create_fileLogLevel : Confs → created := CreateConfig "fileLogLevel"
  [WithPossibleNames ["file-log-level"; "--file-log-level"; "VSS_FILE_LOG_LEVEL"];
   WithDefaultValue (NewDynamicVar "info2"); WithValueMap level_map; WithValidationFunc valid_level].
Definition create_stdoutLogLevel : Confs → created := CreateConfig "stdoutLogLevel"
  [WithPossibleNames ["stdout-log-level"; "--stdout-log-level"; "VSS_STDOUT_LOG_LEVEL"];
   WithDefaultValue (NewDynamicVar "info"); WithValueMap level_map; WithValidationFunc valid_level].
Definition create_serverDiscoveryPort : Confs → created := CreateConfig "serverDiscoveryPort"
  [WithPossibleNames ["server-discovery-port"; "--server-discovery-port"; "VSS_SERVER_DISCOVERY_PORT"];
   WithDefaultValue (NewDynamicVar "5022")].
Definition create_maxTimeWaitingClient : Confs → created := CreateConfig "maxTimeWaitingClient_seconds"
  [WithPossibleNames ["max-time-waiting-client-seconds"; "--max-time-waiting-for-clients"; "VSS_MAX_TIME_WAITING_CLIENTS"];
   WithDefaultValue (NewDynamicVar "43200")].
Definition create_DbDirectory : Confs → created := CreateConfig "DbDirectory"
  [WithPossibleNames ["db-directory"; "--db-directory"; "VSS_DB_DIRECTORY"];
   WithDefaultValue (NewDynamicVar "%SUGGESTED_DATA_DIRECTORY%/database")].
Definition create_httpDataDir : Confs → created := CreateConfig "httpDataDir"
  [WithPossibleNames ["http-data-directory"; "--http-data-directory"; "--http-data-dir"; "VSS_HTTP_DATA_DIRECTORY"];
   WithDefaultValue (NewDynamicVar "%SUGGESTED_DATA_DIRECTORY%/http_data")].
Definition create_httpApiPort : Confs → created := CreateConfig "httpApiPort"
  [WithPossibleNames ["http-api-port"; "--http-api-port"; "VSS_HTTP_API_PORT"];
   WithDefaultValue (NewDynamicVar "5024"); WithValidationFunc valid_port].
Definition create_httpApiHttpsPort : Confs → created := CreateConfig "httpApiHttpsPort"
  [WithPossibleNames ["http-api-https-port"; "--http-api-https-port"; "VSS_HTTP_API_HTTPS_PORT"];
   WithDefaultValue (NewDynamicVar "5025"); WithValidationFunc valid_port].
Definition create_httpApiCertFile : Confs → created := CreateConfig "httpApiCertFile"
  [WithPossibleNames ["http-api-cert-file"; "--http-api-cert-file"; "VSS_HTTP_API_CERT_FILE"];
   WithDefaultValue (NewDynamicVar "%APP_DIR%/ssl/cert/vssCert.pem")].
Definition create_httpApiKeyFile : Confs → created := CreateConfig "httpApiKeyFile"
  [WithPossibleNames ["http-api-key-file"; "--http-api-key-file"; "VSS_HTTP_API_KEY_FILE"];
   WithDefaultValue (NewDynamicVar "%APP_DIR%/ssl/cert/vssKey.pem")].
Definition create_httpApiReturnsFullPaths : Confs → created := CreateConfig "httpApiReturnsFullPaths"
  [WithPossibleNames ["http-api-returns-full-paths"; "--http-api-returns-full-paths"; "VSS_HTTP_API_RETURN_FULL_PATHS"];
   WithDefaultValue (NewDynamicVar "false")].
Definition create_vstpApiPort : Confs → created := CreateConfig "vstpApiPort"
  [WithPossibleNames ["vstp-api-port"; "--vstp-api-port"; "VSS_VSTP_API_PORT"];
   WithDefaultValue (NewDynamicVar "5032"); WithValidationFunc valid_port].
Definition create_RamCacheDbDumpIntervalMs : Confs → created := CreateConfig "RamCacheDbDumpIntervalMs"
  [WithPossibleNames ["ram-cache-db-dump-interval-ms"; "--ram-cache-db-dump-interval-ms"; "VSS_RAMCACHEDB_DUMP_INTERVAL_MS"];
   WithDefaultValue (NewDynamicVar "60000"); WithValidationFunc (valid_at_least 0)].
Definition create_maxKeyLength : Confs → created := CreateConfig "maxKeyLength"
  [WithPossibleNames ["max-key-length"; "--max-key-length"; "VSS_MAX_KEY_LENGTH"];
   WithDefaultValue (NewDynamicVar "255"); WithValidationFunc (valid_at_least 1)].
Definition create_maxKeyWordLength : Confs → created := CreateConfig "maxKeyWordLength"
  [WithPossibleNames ["max-key-word-length"; "--max-key-word-length"; "VSS_MAX_KEY_WORD_LENGTH"];
   WithDefaultValue (NewDynamicVar "64"); WithValidationFunc (valid_at_least 1)].
Definition create_maxValueSize : Confs → created := CreateConfig "maxValueSize"
  [WithPossibleNames ["max-value-size"; "--max-value-size"; "VSS_MAX_VALUE_SIZE"];
   WithDefaultValue (NewDynamicVar "1048576"); WithValidationFunc (valid_at_least 1)].
Definition create_allowRawDbAccess : Confs → created := CreateConfig "allowRawDbAccess"
  [WithPossibleNames ["allow-raw-db-access"; "--allow-raw-db-access"; "VSS_ALLOW_RAW_DB_ACCESS"];
   WithDefaultValue (NewDynamicVar "false")].

(** What is written to the standard error when the creation reports an error. *)
Definition complaint (conf : ConfItem) (err : option string) (note : string) : list string :=
  match err with
  | Some e =>
      let '(usedName, sourceInfo) := GetUsedNameAnsSourceInfo (Confs.conf conf) in
      ["Invalid '" +:+ usedName +:+ "' (" +:+ sourceInfo +:+ "): " +:+ e +:+ ". " +:+ note]
  | None => []
  end.

(** ** [initConfigurations]: the registry, and the standard error *)
Definition sources_of : list IConfsSource :=
  [NewCommandLineSource (tail (Args P)); NewEnvSource (Getenv P); NewFileSource (ReadFile P findConfigurationFile)].
Definition placeholders : gmap string string :=
  {["%PROJECT_DIR%" := getApplicationDirectory false; "%APP_DIR%" := getApplicationDirectory false;
    "%SUGGESTED_DATA_DIRECTORY%" := suggestDataDirectory]}.

(** [err] is assigned by [httpApiPort] and not again before [RamCacheDbDumpIntervalMs]:
    its message is printed for the two ports created in between too. *)
Definition initConfigurations : Confs * list string :=
  let c := AddPlaceHolders placeholders (NewConfs sources_of) in
  let '(conf1, err1, c) := create_maxLogFileSize c in
  let '(conf2, err2, c) := create_fileLogLevel c in
  let '(conf3, err3, c) := create_stdoutLogLevel c in
  let '(_, _, c) := create_serverDiscoveryPort c in
  let '(_, _, c) := create_maxTimeWaitingClient c in
  let '(_, _, c) := create_DbDirectory c in
  let '(_, _, c) := create_httpDataDir c in
  let '(conf, err, c) := create_httpApiPort c in
  let '(_, _, c) := create_httpApiHttpsPort c in
  let '(_, _, c) := create_httpApiCertFile c in
  let '(_, _, c) := create_httpApiKeyFile c in
  let '(_, _, c) := create_httpApiReturnsFullPaths c in
  let '(_, _, c) := create_vstpApiPort c in
  let '(conf4, err4, c) := create_RamCacheDbDumpIntervalMs c in
  let '(conf5, err5, c) := create_maxKeyLength c in
  let '(conf6, err6, c) := create_maxKeyWordLength c in
  let '(conf7, err7, c) := create_maxValueSize c in
  let '(_, _, c) := create_allowRawDbAccess c in
  (c,
   complaint conf1 err1 "System will continue with default value (52428800)." ++
   complaint conf2 err2 " System will continue with default value (info)." ++
   complaint conf3 err3 " System will continue with default value (info)." ++
   complaint conf err "System will continue with default value (5024)." ++
   complaint conf err "System will continue with default value (5025)." ++
   complaint conf err "System will continue with default value (5032)." ++
   complaint conf4 err4 "System will continue with default value (60000)." ++
   complaint conf5 err5 "System will continue with default value (255)." ++
   complaint conf6 err6 "System will continue with default value (64)." ++
   complaint conf7 err7 "System will continue with default value (1048576).").

(** [configs.GetConfig(name).Value()], of an item that exists. *)
Definition get_value (c : Confs) (name : string) : DynamicVar := Value (conf (GetConfig name [] c).1).

(** ** Arguments *)

(** The name in an argument: what comes before an equals sign or a colon. *)
Definition arg_name (arg : string) : string :=
  if Contains arg "=" then from_option fst arg (SplitN2 arg "="%char)
  else if Contains arg ":" then from_option fst arg (SplitN2 arg ":"%char)
  else arg.

(** The names that are not known are logged as errors. *)
Definition unknown_argument (confs : Confs) (arg : string) : list string :=
  match FindConfByParamName (arg_name arg) confs with
  | Some _ => []
  | None => ["Unknown argument: " +:+ arg_name arg]
  end.
Definition detectInvalidArguments (confs : Confs) : list string * bool :=
  let errors := concat (unknown_argument confs <$> tail (Args P)) in
  (errors, bool_decide (errors ≠ [])).

(** ** The banner *)
Definition printBanner (configs : Confs) : string :=
  "The VSS has been started" +:+ nl +:+
  "+-- Version: " +:+ INFO_VERSION +:+ nl +:+
  "+-- Portable mode: " +:+ (if runningInPortableMode then "Yes" else "No") +:+ nl +:+
  "|   +-- conf file: " +:+ findConfigurationFile +:+ nl +:+
  "|   +-- log file: " +:+ determineLogFile +:+ nl +:+
  "|   +-- database folder: " +:+ GetString (get_value configs "DbDirectory") +:+ nl +:+
  "+-- Services" +:+ nl +:+
  "|   +-- VSTP port: TCP/" +:+ GetString (get_value configs "vstpApiPort") +:+ nl +:+
  "|   +-- HTTP port: TCP/" +:+ GetString (get_value configs "httpApiPort") +:+ "(http) + TCP/" +:+
    GetString (get_value configs "httpApiHttpsPort") +:+ "(https)" +:+ nl +:+
  "|   +-- Server discovery port: UDP/" +:+ GetString (get_value configs "serverDiscoveryPort") +:+ nl +:+
  "+-- All configurations" +:+ nl +:+
  foldr (λ e s, "    +-- " +:+ e.1 +:+ ": " +:+ GetString (NotMappedValue (conf e.2)) +:+ nl +:+ s) ""
    (range (AllConfigs configs)).

(** ** The services *)

(** The writers of the log of the server. *)
Inductive LogWriter := ToConsole (w : ConsoleWriter) | ToFile (w : FileWriter).
Instance log_writer : ILogWriter LogWriter := λ now msg level name dateTime tz w,
  match w with
  | ToConsole w => ToConsole (Write now msg level name dateTime tz w)
  | ToFile w => ToFile (FileWriter_Write (Openable P) now msg level name dateTime tz w)
  end.

(** [None] is the panic: the log file cannot be opened. *)
Definition initLogger (fs : gmap string string) (configs : Confs) : option (Logger LogWriter) :=
  let fileLogLevel := get_value configs "fileLogLevel" in
  let consoleLogLevel := get_value configs "stdoutLogLevel" in
  let maxLogSize := get_value configs "maxLogFileSize" in
  fileWriter ← NewFileWriter (Openable P) fs determineLogFile (GetInt fileLogLevel) true (GetInt64 maxLogSize);
  Some (NewLogger [ToConsole (NewConsoleWriter (GetInt consoleLogLevel) true true true true); ToFile fileWriter] false 0).

(** The directory is created and the database loaded from it. *)
Definition initStorage (file : string → file_read) (configs : Confs) : RamCacheDB :=
  let dbDirectoryConfig := get_value configs "DbDirectory" in
  let dbDumpIntervalConfig := get_value configs "RamCacheDbDumpIntervalMs" in
  NewRamCacheDB (GetString dbDirectoryConfig) (GetInt dbDumpIntervalConfig) (file (GetString dbDirectoryConfig)).

(** ** [main] *)

(** How it ends: it panics, it leaves before the services, one of them does not
    start, or it waits for a signal, after which it blocks on its own mutex. *)
Inductive main_end :=
  | HelpShown
  | PanicNoLog
  | UnknownArguments (errors : list string)
  | VstpFailed (err : string)
  | HttpFailed (err : string)
  | Serving (db : RamCacheDB) (ctrl : TheController) (vstpPort httpPort : Z) (rawNotice : bool).

(** [vstp] and [http] are the services: they get the port and tell their error. *)
Definition main (fs : gmap string string) (file : string → file_read)
    (vstp http : Z → TheController → option string) : list string * main_end :=
  let '(help, stop) := displayHelpOrVersion (Args P) in
  if stop : bool then (help, HelpShown)
  else
    let '(configs, stderr) := initConfigurations in
    match initLogger fs configs with
    | None => (help ++ stderr, PanicNoLog)
    | Some _ =>
        let '(errors, invalid) := detectInvalidArguments configs in
        if invalid : bool then (help ++ stderr, UnknownArguments errors)
        else
          let theStorage := initStorage file configs in
          let theController := NewController (get_value configs) INFO_VERSION in
          let vstpPort := GetInt (get_value configs "vstpApiPort") in
          match vstp vstpPort theController with
          | Some err => (help ++ stderr, VstpFailed err)
          | None =>
              let httpPort := GetInt (get_value configs "httpApiPort") in
              match http httpPort theController with
              | Some err => (help ++ stderr, HttpFailed err)
              | None => (help ++ stderr, Serving theStorage theController vstpPort httpPort
                                           (GetBool (get_value configs "allowRawDbAccess")))
              end
          end
    end.
End startup.

(** ** What the configuration guarantees *)
Section limits.
Context `{UnicodeCase} `{RangeOrder}.

(** The items that are numbers, with their bounds. *)
Definition limits : gmap string (Z * Z) :=
  {["maxKeyLength" := (1, int64_max); "maxKeyWordLength" := (1, int64_max); "maxValueSize" := (1, int64_max);
    "vstpApiPort" := (1, 65535); "httpApiPort" := (1, 65535); "httpApiHttpsPort" := (1, 65535);
    "RamCacheDbDumpIntervalMs" := (0, int64_max)]}%Z.

(** A value within the bounds of the item [n]. *)
Definition within (n : string) (v : DynamicVar) : Prop :=
  match limits !! n with
  | Some (lo, hi) => ∃ z, Atoi (GetString v) = Some z ∧ (lo ≤ z ≤ hi)%Z
  | None => True
  end.

Record good (c : Confs) : Prop := {
  good_items n item : items c !! n = Some item → within n (theValue (conf item)) ∧ (is_Some (limits !! n) → ValueMap (conf item) = ∅);
  good_placeholders k v : placeHolders c !! k = Some v → HasPrefix k "%" = true
}.

(** Placeholders do not occur in a text without a percent sign. *)
Lemma ReplaceAll_none s old new : lacks "%"%char s → HasPrefix old "%" = true → ReplaceAll s old new = s.
Proof.
  intros Hs (t & ->)%HasPrefix_spec. rewrite app_cons, app_empty_l. unfold ReplaceAll.
  induction s as [|a s IH]; [done|]. apply lacks_cons in Hs as [Ha Hs]. cbn.
  rewrite bool_decide_false by congruence. cbn. by rewrite IH.
Qed.

Lemma applyPlaceHolders_plain c v : good c → lacks "%"%char v → applyPlaceHolders c v = v.
Proof.
  intros [_ Hph] Hv. unfold applyPlaceHolders.
  assert (Forall (λ e, HasPrefix e.1 "%" = true) (range (placeHolders c))) as Hall.
  { apply Forall_forall. intros [k w] Hin. apply list_elem_of_In, list_elem_of_In, elem_of_range in Hin. by eapply Hph. }
  induction Hall as [|e l He Hl IH]; [done|]. cbn. by rewrite ReplaceAll_none.
Qed.

(** Creating an item keeps a good registry good, when the validation and the
    default keep the bounds. *)
Lemma create_good name options c item err c' :
  good c → CreateConfig name options c = (item, err, c') →
  let new := NewConfItem name options in
  (is_Some (limits !! name) → ValueMap (conf new) = ∅) →
  (∀ d, ValidateFunc new d = None → within name (theValue d)) →
  lacks "%"%char (GetString (DefaultValue (conf new))) ∨ limits !! name = None →
  within name (DefaultValue (conf new)) →
  good c' ∧ is_Some (items c' !! name) ∧ (∀ n, is_Some (items c !! n) → is_Some (items c' !! n)).
Proof.
  intros Hg Hc new Hmap Hval Hlacks Hdef. unfold CreateConfig in Hc.
  destruct (items c !! name) as [old|] eqn:Hold; [injection Hc as <- <- <-; by eauto|].
  fold new in Hc. set (r := resolve c new) in *.
  assert (ValueMap (conf r) = ValueMap (conf new) ∧ ValidateFunc r = ValidateFunc new ∧ DefaultValue (conf r) = DefaultValue (conf new))
    as (Hrm & Hrv & Hrd).
  { unfold r, resolve. destruct (find_source _ _) as [[[? ?] ?]|]; done. }
  assert (within name (NewDynamicVar (applyPlaceHolders c (GetString (DefaultValue (conf r)))))) as Hd.
  { rewrite Hrd. destruct Hlacks as [Hl|Hl]; [|unfold within; by rewrite Hl]. rewrite applyPlaceHolders_plain by done. exact Hdef. }
  assert (∀ item0, within name (theValue (conf item0)) → (is_Some (limits !! name) → ValueMap (conf item0) = ∅) →
    let c0 := mkConfs (<[name:=item0]> (items c)) (sources c) (placeHolders c) in
    good c0 ∧ is_Some (items c0 !! name) ∧ (∀ n, is_Some (items c !! n) → is_Some (items c0 !! n))) as Hins.
  { intros item0 Hw Hm c0. split; [split; [|by apply Hg]|split].
    - intros n it. cbn. rewrite lookup_insert_Some. intros [[<- <-]|[_ Hit]]; [done|by apply Hg].
    - cbn. by rewrite lookup_insert_eq.
    - intros n Hn. cbn. rewrite lookup_insert. case_decide; [done|exact Hn]. }
  unfold ValidateThisValue in Hc. destruct (ValidateFunc r (conf r)) as [e|] eqn:E; injection Hc as <- <- <-; apply Hins.
  - exact Hd.
  - cbn. by rewrite Hrm.
  - rewrite Hrv in E. by apply Hval.
  - by rewrite Hrm.
Qed.

(** The same for the two kinds of items of the program. *)
Lemma create_limited name names dflt valid lo hi c item err c' :
  good c →
  CreateConfig name [WithPossibleNames names; WithDefaultValue (NewDynamicVar dflt); WithValidationFunc valid] c = (item, err, c') →
  limits !! name = Some (lo, hi) →
  (∀ d, valid d = None → ∃ z, Atoi (GetString (theValue d)) = Some z ∧ (lo ≤ z ≤ hi)%Z) →
  (∃ z, Atoi dflt = Some z ∧ (lo ≤ z ≤ hi)%Z) → lacks "%"%char dflt →
  good c' ∧ is_Some (items c' !! name) ∧ (∀ n, is_Some (items c !! n) → is_Some (items c' !! n)).
Proof.
  intros Hg Hc Hl Hv Hd Hpct. eapply create_good; [done|exact Hc|done| |by left|];
    unfold within; rewrite Hl; [exact Hv|exact Hd].
Qed.

Lemma create_free name options c item err c' :
  good c → CreateConfig name options c = (item, err, c') → limits !! name = None →
  good c' ∧ is_Some (items c' !! name) ∧ (∀ n, is_Some (items c !! n) → is_Some (items c' !! n)).
Proof.
  intros Hg Hc Hl. eapply create_good; [done|exact Hc| | |by right|]; unfold within; rewrite ?Hl; [by intros []|done|done].
Qed.

Lemma valid_port_bounds d : valid_port d = None → ∃ z, Atoi (GetString (theValue d)) = Some z ∧ (1 ≤ z ≤ 65535)%Z.
Proof.
  unfold valid_port, NotMappedValue, GetInte, GetString. destruct (Atoi _) as [z|]; [|done].
  destruct (Z.ltb_spec z 1), (Z.ltb_spec 65535 z); cbn; try done. intros _. exists z. split; [done|lia].
Qed.

Lemma valid_at_least_bounds lo d :
  valid_at_least lo d = None → ∃ z, Atoi (GetString (theValue d)) = Some z ∧ (lo ≤ z ≤ int64_max)%Z.
Proof.
  unfold valid_at_least, NotMappedValue, GetInte, GetString. destruct (Atoi _) as [z|] eqn:E; [|done].
  destruct (Z.ltb_spec z lo); [done|]. intros _. exists z. split; [done|]. apply Atoi_bounds in E. lia.
Qed.

Lemma good_start P : good (AddPlaceHolders (placeholders P) (NewConfs (sources_of P))).
Proof.
  split; [intros n item; cbn; by rewrite lookup_empty|]. cbn. intros k v.
  assert (Forall (λ e, HasPrefix e.1 "%" = true) (range (placeholders P))) as Hall.
  { apply Forall_forall. intros [k' w] Hin%list_elem_of_In%list_elem_of_In%elem_of_range. unfold placeholders in Hin.
    rewrite !lookup_insert_Some, lookup_singleton_Some in Hin. naive_solver. }
  assert (∀ m : gmap string string, (∀ k v, m !! k = Some v → HasPrefix k "%" = true) →
    fold_left (λ ph e, <[e.1:=e.2]> ph) (range (placeholders P)) m !! k = Some v → HasPrefix k "%" = true) as Hgen.
  { induction Hall as [|e l He Hl IH]; intros m Hm; [apply Hm|]. cbn. apply IH. intros k' v'.
    rewrite lookup_insert_Some. intros [[<- _]|[_ Hk]]; [done|by eapply Hm]. }
  apply Hgen. intros k' v'. by rewrite lookup_empty.
Qed.

(** One item more: [create_limited] or [create_free]. *)
Ltac create_step :=
  match goal with
  | Hg : good ?c |- context [?f ?c] =>
      let E := fresh "E" in
      destruct (f c) as [[? ?] ?] eqn:E;
      let G := fresh "G" in
      first
        [ epose proof (create_limited _ _ _ _ _ _ _ _ _ _ Hg E eq_refl valid_port_bounds ltac:(by eexists) eq_refl) as G
        | epose proof (create_limited _ _ _ _ _ _ _ _ _ _ Hg E eq_refl (valid_at_least_bounds 1) ltac:(by eexists) eq_refl) as G
        | epose proof (create_limited _ _ _ _ _ _ _ _ _ _ Hg E eq_refl (valid_at_least_bounds 0) ltac:(by eexists) eq_refl) as G
        | epose proof (create_free _ _ _ _ _ _ Hg E eq_refl) as G ];
      clear Hg E; destruct G as (Hg & ? & ?)
  end.

Lemma initConfigurations_good P c out :
  initConfigurations P = (c, out) → good c ∧ ∀ n, is_Some (limits !! n) → is_Some (items c !! n).
Proof.
  unfold initConfigurations. pose proof (good_start P) as Hg. cbv zeta.
  do 18 create_step. intros [= <- _]. split; [done|]. intros n [[lo hi] Hn]. unfold limits in Hn.
  rewrite !lookup_insert_Some, lookup_singleton_Some in Hn.
  repeat (destruct Hn as [[<- _]|[_ Hn]]; [by eauto 20|]). destruct Hn as [<- _]. eauto 20.
Qed.

Lemma get_value_within c n lo hi :
  good c → is_Some (items c !! n) → limits !! n = Some (lo, hi) →
  (lo ≤ GetInt (get_value c n) ≤ hi)%Z ∧ (lo ≤ GetInt64 (get_value c n) ≤ hi)%Z.
Proof.
  intros Hg [item Hi] Hl. unfold get_value, GetConfig, CreateConfig. rewrite Hi. cbn.
  destruct (good_items _ Hg n item Hi) as [Hw Hm]. unfold within in Hw. rewrite Hl in Hw, Hm.
  unfold Value. rewrite Hm, lookup_empty by done. cbn. destruct Hw as (z & Hz & Hb).
  unfold GetInt, GetInte, GetInt64, GetInt64e, GetString in *. by rewrite Hz.
Qed.

(** Whether a name is known does not depend on the order of the registry. *)
Lemma FindConf_iff n c : is_Some (FindConfByParamName n c) ↔ ∃ k item, items c !! k = Some item ∧ n ∈ PossibleNames (conf item).
Proof.
  unfold FindConfByParamName. rewrite fmap_is_Some. split.
  - intros [[k item] Hh]. apply head_Some_elem_of, list_elem_of_filter in Hh as [Hn Hin]. exists k, item. by rewrite <-elem_of_range.
  - intros (k & item & Hi & Hn). destruct (filter _ _) as [|e l] eqn:E; [|by eexists].
    assert ((k, item) ∈ @nil (string * ConfItem)) as []%not_elem_of_nil.
    rewrite <-E. apply list_elem_of_filter. split; [done|]. by apply elem_of_range.
Qed.

Definition known (c : Confs) (a : string) : Prop := ∃ k item, items c !! k = Some item ∧ arg_name a ∈ PossibleNames (conf item).

Lemma no_errors_iff P c : concat (unknown_argument c <$> tail (Args P)) = [] ↔ Forall (known c) (tail (Args P)).
Proof.
  rewrite concat_nil_Forall, Forall_fmap. apply Forall_iff. intros a. unfold known. rewrite <-FindConf_iff. cbn.
  unfold unknown_argument. by destruct (FindConfByParamName (arg_name a) c).
Qed.

End limits.

(** ** Concrete runs *)
Section samples.
Existing Instance canonical_order.
Existing Instance ascii_case.

(** A portable installation with an empty environment and no file. *)
Definition run_with (args : list string) : Process :=
  mkProcess "/opt/vss/vss" None ("vss" :: args) (λ _, "") (λ _, None) (λ _, true).
Definition boot (args : list string) : list string * main_end :=
  main (run_with args) ∅ (λ _, FileMissing) (λ _ _, None) (λ _ _, None).
Definition ports (e : main_end) : option (Z * Z) := if e is Serving _ _ v h _ then Some (v, h) else None.


(** The help shows an option followed by its value, which the command line source
    understands; but the value is then refused as an argument of its own. *)
Example option_then_value_is_refused :
  (boot ["--vstp-api-port"; "6000"]).2 = UnknownArguments ["Unknown argument: 6000"] ∧
  GetInt (get_value (initConfigurations (run_with ["--vstp-api-port"; "6000"])).1 "vstpApiPort") = 6000%Z.
Proof. split; by vm_compute. Qed.

(** Options the help names and the program does not know. *)
Example help_names_unknown_options :
  filter (λ o, bool_decide (is_Some (FindConfByParamName o (initConfigurations (run_with [])).1)) = false) help_options =
  ["--help,"; "--version"; "--http-data-folder"; "--http-data-folder"; "--http-api-return-full-paths"; "--max-time-waiting-clients"].
Proof. by vm_compute. Qed.

(** A port that is not valid is complained about three times, in the name of
    three ports. *)
Example one_bad_port_three_complaints :
  (boot ["--http-api-port=0"]).1 =
  (λ d, "Invalid '--http-api-port' (Command Line Arguments): received '0', must be a valid TCP port number (1-65535). System will continue with default value (" +:+ d +:+ ").")
    <$> ["5024"; "5025"; "5032"].
Proof. by vm_compute. Qed.

(** The names of the log levels are tested as parts of one text: [fo] passes, and
    is no level; [debug2] is one, and does not. *)
Example log_levels_by_substring :
  let c := (initConfigurations (run_with ["--file-log-level=fo"; "--stdout-log-level=debug2"])).1 in
  GetInt (get_value c "fileLogLevel") = 0%Z ∧ GetInt (get_value c "stdoutLogLevel") = LEVEL_INFO.
Proof. split; by vm_compute. Qed.

(** A limit on the size of the log may be negative, and then there is none. *)
Example negative_log_size :
  GetInt64 (get_value (initConfigurations (run_with ["--max-log-file-size=-1"])).1 "maxLogFileSize") = (-1)%Z.
Proof. by vm_compute. Qed.
End samples.
