(* ===== verification/Interception.v ===== *)
(** * The interception of the standard streams

    [setupStdoutAndStderrInterception] of [main.go], which nothing calls, puts a
    pipe behind the standard output and another behind the standard error, and
    logs what comes out of them.  The console writer of the logger prints on
    those streams, so what is logged is read again: once installed, the
    interception never becomes quiet ([interception_feeds_itself]). *)
From stdpp Require Import relations.
From S2P Require Import Prelude GoStrings GoStrconv Misc LogUtils Logger Runtime ClientHelper Startup.

Section interception.
Context (P : Process).
#[local] Instance writer : ILogWriter LogWriter := log_writer P.

(** The logger and what waits in the two pipes. *)
Record Intercepted := mkIntercepted { logs : Logger LogWriter; out_pipe : string; err_pipe : string }.

(** What the console has printed on a stream; [true] is the standard error. *)
Fixpoint on_stream (err : bool) (out : list (bool * string)) : string :=
  match out with
  | [] => ""
  | (e, text) :: out => (if Bool.eqb e err then text else "") +:+ on_stream err out
  end.
Definition printed_by (err : bool) (w : LogWriter) : string :=
  match w with ToConsole c => on_stream err (cw_out c) | ToFile _ => "" end.
Fixpoint printed (err : bool) (ws : list LogWriter) : string :=
  match ws with [] => "" | w :: ws => printed_by err w +:+ printed err ws end.

(** What a writer adds to a stream when it becomes [w']. *)
Definition newly_printed_by (err : bool) (w w' : LogWriter) : string := str_drop (len (printed_by err w)) (printed_by err w').
Fixpoint newly_printed (err : bool) (ws ws' : list LogWriter) : string :=
  match ws, ws' with
  | w :: ws, w' :: ws' => newly_printed_by err w w' +:+ newly_printed err ws ws'
  | _, _ => ""
  end.

Definition pipe_error (stream err : string) : string := "Failed to create pipe for " +:+ stream +:+ " interception: " +:+ err.

(** A pipe that cannot be made is an error; [None]: the buffer of the logger is
    full, and the call waits. *)
Definition setupStdoutAndStderrInterception (now : Time) (out_err err_err : option string) (l : Logger LogWriter)
    : option (Logger LogWriter + Intercepted) :=
  match out_err, err_err with
  | Some err, _ => inl <$> Error_ now "Main" [LogString (pipe_error "stdout" err)] l
  | None, Some err => inl <$> Error_ now "Main" [LogString (pipe_error "stderr" err)] l
  | None, None =>
      Some (inr (mkIntercepted l ("Stdout and Stderr interception setup completed." +:+ nl) ""))
  end.

(** One turn of a reader: [n] bytes, at most 1024, are read and logged. *)
Definition read_stdout (now : Time) (n : nat) (s : Intercepted) : option Intercepted :=
  if decide (0 < n ≤ 1024 ∧ n ≤ len (out_pipe s)) then
    l ← Info_ now "STDOUT" [LogString (str_take n (out_pipe s))] (logs s);
    Some (mkIntercepted l (str_drop n (out_pipe s)) (err_pipe s))
  else None.
Definition read_stderr (now : Time) (n : nat) (s : Intercepted) : option Intercepted :=
  if decide (0 < n ≤ 1024 ∧ n ≤ len (err_pipe s)) then
    l ← Error_ now "STDERR" [LogString (str_take n (err_pipe s))] (logs s);
    Some (mkIntercepted l (out_pipe s) (str_drop n (err_pipe s)))
  else None.

(** One turn of the goroutine of the logger, whose console now prints into the pipes. *)
Definition logger_turn (now : Time) (s : Intercepted) : option Intercepted :=
  l ← deliver now (logs s);
  Some (mkIntercepted l (out_pipe s +:+ newly_printed false (writers (logs s)) (writers l))
                        (err_pipe s +:+ newly_printed true (writers (logs s)) (writers l))).

(** The steps of the interception itself, and those of the rest of the program,
    which logs and prints. *)
Inductive intercept_step (s : Intercepted) : Intercepted → Prop :=
  | step_stdout now n s' : read_stdout now n s = Some s' → intercept_step s s'
  | step_stderr now n s' : read_stderr now n s = Some s' → intercept_step s s'
  | step_logger now s' : logger_turn now s = Some s' → intercept_step s s'.
Inductive any_step (s : Intercepted) : Intercepted → Prop :=
  | step_own s' : intercept_step s s' → any_step s s'
  | step_log now level name msgs l :
      Log now level name msgs (logs s) = Some l → any_step s (mkIntercepted l (out_pipe s) (err_pipe s))
  | step_keep : any_step s (mkIntercepted (KeepNextLineOpened (logs s)) (out_pipe s) (err_pipe s))
  | step_print out err : any_step s (mkIntercepted (logs s) (out_pipe s +:+ out) (err_pipe s +:+ err)).

(** ** The console prints something for every message it lets through *)
Lemma ReplaceAll_nl_length s prefix : len s ≤ len (ReplaceAll s nl (nl +:+ prefix)).
Proof.
  unfold nl at 1. rewrite ReplaceAll_byte. induction s as [|c s IH]; [done|]. cbn [concat_map]. rewrite len_app.
  assert (1 ≤ len (replace_byte newline (nl +:+ prefix) c)) by (unfold replace_byte; case_decide; [rewrite len_app|]; cbn; lia).
  cbn. lia.
Qed.

Lemma Ident_ne_empty s prefix : s ≠ "" → Ident s prefix ≠ "".
Proof.
  intros Hs He%(f_equal len). revert He. unfold Ident. destruct (HasSuffix s nl) eqn:Hsuf.
  - apply HasSuffix_spec in Hsuf as [t ->]. set (R := ReplaceAll _ _ _).
    assert (len R = len (ReplaceAll t nl (nl +:+ prefix)) + S (len prefix)) as HR.
    { unfold R. change nl with (String newline "") at 2 4. rewrite !ReplaceAll_byte, concat_map_app, len_app. f_equal.
      cbn [nl concat_map]. unfold replace_byte. rewrite decide_True, app_empty_r, len_app by done. done. }
    rewrite str_take_length by lia. cbn. lia.
  - pose proof (ReplaceAll_nl_length s prefix). destruct s; [done|]. cbn in *. lia.
Qed.

(** The console lets the messages of the level INFO through. *)
Definition talks (w : LogWriter) : Prop := match w with ToConsole c => (cw_logLevel c ≤ LEVEL_INFO)%Z | ToFile _ => False end.

Lemma on_stream_app err a b : on_stream err (a ++ b) = on_stream err a +:+ on_stream err b.
Proof. induction a as [|[e t] a IH]; [done|]. cbn. by rewrite IH, str_app_assoc. Qed.

Lemma Write_console now msg level name dt tz c :
  Write now msg level name dt tz (ToConsole c) = ToConsole (ConsoleWriter_Write now msg level name dt tz c).
Proof. done. Qed.

Lemma Write_talks now msg level name dt tz w : talks w → talks (Write now msg level name dt tz w).
Proof.
  destruct w as [c|f]; [|done]. rewrite Write_console. unfold ConsoleWriter_Write. cbn [talks]. intros Hl.
  destruct (Z.ltb_spec level (cw_logLevel c)); [exact Hl|].
  by destruct (if cw_displayLinePref c && _ then _ else _) as [out ident].
Qed.

Lemma Write_prints now msg name dt tz w :
  talks w → msg ≠ "" → newly_printed_by false w (Write now msg LEVEL_INFO name dt tz w) ≠ "".
Proof.
  destruct w as [c|f]; [|done]. rewrite Write_console. unfold ConsoleWriter_Write, newly_printed_by. cbn [talks]. intros Hl Hm.
  rewrite (proj2 (Z.ltb_ge _ _)) by done.
  destruct (if cw_displayLinePref c && _ then _ else _) as [out ident] eqn:E. cbn [printed_by cw_out].
  assert (out ≠ "") as Ho.
  { destruct (cw_displayLinePref c && _); injection E as <- _; [|done]. intros He%(f_equal len). rewrite len_app in He.
    destruct msg; [done|]. cbn in He. lia. }
  rewrite on_stream_app, str_drop_app. cbn. rewrite app_empty_r.
  destruct (cw_colors c); cbn; by apply Ident_ne_empty.
Qed.

Lemma newly_printed_ne w ws f err :
  w ∈ ws → newly_printed_by err w (f w) ≠ "" → newly_printed err ws (f <$> ws) ≠ "".
Proof.
  induction 1 as [w ws|w w' ws _ IH]; cbn; intros Hne He%(f_equal len); rewrite len_app in He; cbn in He.
  - apply Hne. destruct (newly_printed_by err w (f w)); [done|]. cbn in He. lia.
  - apply IH; [done|]. destruct (newly_printed err ws (f <$> ws)); [done|]. cbn in He. lia.
Qed.

(** ** The invariant: there is always something to read or to deliver *)
Definition telling (m : message) : Prop := m_level m = LEVEL_INFO ∧ m_msg m ≠ "".
Record fed (s : Intercepted) : Prop := {
  fed_console : Exists talks (writers (logs s));
  fed_work : out_pipe s ≠ "" ∨ Exists telling (buffer (logs s))
}.

Lemma append_ne a b : a ≠ "" → a +:+ b ≠ "".
Proof. by destruct a. Qed.
Lemma append_ne_r a b : b ≠ "" → a +:+ b ≠ "".
Proof. by destruct a. Qed.

Lemma Log_accepts now level name msgs (l : Logger LogWriter) :
  length (buffer l) < buffer_capacity → ∃ l', Log now level name msgs l = Some l'.
Proof. intros Hl. unfold Log. destruct (if useCustomTimezone l then _ else _). rewrite decide_True by done. by eexists. Qed.

(** A text that is logged stays in the message. *)
Lemma Log_text_ne now level name s (l l' : Logger LogWriter) :
  Log now level name [LogString s] l = Some l' → s ≠ "" →
  writers l' = writers l ∧ ∃ m, buffer l' = buffer l ++ [m] ∧ m_level m = level ∧ m_msg m ≠ "".
Proof.
  unfold Log. destruct (if useCustomTimezone l then _ else _) as [now' tz]. case_decide; [|done].
  intros [= <-] Hs. cbn. split; [done|]. eexists. split; [done|]. split; [done|]. cbn. rewrite app_empty_l, app_empty_r.
  destruct (negb _); [|exact Hs]. destruct (HasSuffix s nl); [exact Hs|by apply append_ne].
Qed.

Lemma str_take_ne n s : 0 < n → n ≤ len s → str_take n s ≠ "".
Proof. intros Hn Hl He%(f_equal len). rewrite str_take_length in He by done. cbn in He. lia. Qed.

Lemma logger_turn_fed now s s' : logger_turn now s = Some s' → fed s → fed s'.
Proof.
  unfold logger_turn, deliver. destruct (buffer (logs s)) as [|m rest] eqn:Eb; [done|]. cbn. intros [= <-] [Hc Hw].
  assert (Exists talks ((λ w, Write now (m_msg m) (m_level m) (m_name m) (m_dateTime m) (m_timezoneoffset m) w) <$> writers (logs s)))
    as Hc' by (apply Exists_fmap; eapply Exists_impl; [exact Hc|]; intros w; apply Write_talks).
  split; [done|]. cbn. destruct Hw as [Hw|Hw]; [left; by apply append_ne|]. rewrite Eb in Hw.
  apply Exists_cons in Hw as [[Hl Hm]|Hw]; [|by right]. left. apply append_ne_r.
  apply Exists_exists in Hc as (w & Hw & Ht). eapply newly_printed_ne; [exact Hw|]. rewrite Hl. by apply Write_prints.
Qed.

Lemma intercept_step_fed s s' : intercept_step s s' → fed s → fed s'.
Proof.
  destruct 1 as [now n s' Hr|now n s' Hr|now s' Hr]; [| |by eapply logger_turn_fed].
  - unfold read_stdout in Hr. case_decide as Hn; [|done]. apply bind_Some in Hr as (l & Hl & [= <-]). intros [Hc _].
    apply Log_text_ne in Hl as (Hws & m & Hb & Hm); [|by apply str_take_ne; lia]. split; cbn; [by rewrite Hws|].
    right. rewrite Hb. apply Exists_app. right. by apply Exists_cons_hd.
  - unfold read_stderr in Hr. case_decide as Hn; [|done]. apply bind_Some in Hr as (l & Hl & [= <-]). intros [Hc Hw].
    apply Log_text_ne in Hl as (Hws & m & Hb & _); [|by apply str_take_ne; lia]. split; cbn; [by rewrite Hws|].
    destruct Hw as [Hw|Hw]; [by left|]. right. rewrite Hb. apply Exists_app. by left.
Qed.

Lemma any_step_fed s s' : any_step s s' → fed s → fed s'.
Proof.
  destruct 1 as [s1 Hs|now level name msgs l Hl| |out err]; [by eapply intercept_step_fed|..]; intros [Hc Hw]; split; cbn; try done.
  - apply Log_buffer in Hl as (-> & _); done.
  - apply Log_buffer in Hl as (_ & _ & _ & m & -> & _). destruct Hw; [by left|]. right. apply Exists_app. by left.
  - destruct Hw; [left; by apply append_ne|by right].
Qed.

(** A fed interception can always go on. *)
Lemma fed_steps s : fed s → ∃ s', intercept_step s s'.
Proof.
  intros [_ Hw]. destruct (buffer (logs s)) as [|m rest] eqn:Eb.
  - destruct Hw as [Hw|Hw]; [|by apply Exists_nil in Hw].
    destruct (Log_accepts (mkTime 0 0) LEVEL_INFO "STDOUT" [LogString (str_take 1 (out_pipe s))] (logs s)) as [l Hl];
      [rewrite Eb; cbn; unfold buffer_capacity; lia|].
    eexists. apply (step_stdout s (mkTime 0 0) 1). unfold read_stdout. rewrite decide_True.
    + unfold Info_. by rewrite Hl.
    + destruct (out_pipe s); [done|]. cbn. lia.
  - eexists. apply (step_logger s (mkTime 0 0)). unfold logger_turn, deliver. by rewrite Eb.
Qed.

(** Once the interception is installed while the console prints messages of the level
    INFO, it never becomes quiet: whatever else the program logs or prints, in
    every state it reaches a reader or the logger has something to do, so the
    text it printed first is logged, printed and read again without end. *)
Theorem interception_feeds_itself now l s s' :
  setupStdoutAndStderrInterception now None None l = Some (inr s) → Exists talks (writers l) →
  rtc any_step s s' → ∃ s'', intercept_step s' s''.
Proof.
  intros [= <-] Hc Hs. apply fed_steps. assert (fed (mkIntercepted l ("Stdout and Stderr interception setup completed." +:+ nl) ""))
    as Hf by (split; [done|by left]).
  revert Hf. induction Hs as [|s0 s1 s2 Hst _ IH]; [done|]. intros Hf. apply IH. by eapply any_step_fed.
Qed.

(** What is read is what was printed, in pieces of at most 1024 bytes. *)
Lemma read_stdout_text now n s s' :
  read_stdout now n s = Some s' →
  ∃ chunk, len chunk = n ∧ n ≤ 1024 ∧ out_pipe s = chunk +:+ out_pipe s' ∧ err_pipe s' = err_pipe s ∧
    Info_ now "STDOUT" [LogString chunk] (logs s) = Some (logs s').
Proof.
  unfold read_stdout. case_decide as Hn; [|done]. intros (l & Hl & [= <-])%bind_Some.
  exists (str_take n (out_pipe s)). rewrite str_take_length by lia. cbn. rewrite take_drop_str. split_and!; [done|lia|done..].
Qed.
End interception.

(** ** Witness *)

(** The console as [initLogger] opens it at the default level. *)
Definition console_logger : Logger LogWriter := NewLogger [ToConsole (NewConsoleWriter LEVEL_INFO true true true true)] false 0.
Definition intercepted : Intercepted :=
  mkIntercepted console_logger ("Stdout and Stderr interception setup completed." +:+ nl) "".

Lemma interception_feeds_itself_witness :
  let P := run_with [] in let now := mkTime 0 0 in
  setupStdoutAndStderrInterception now None None console_logger = Some (inr intercepted) ∧
  Exists talks (writers console_logger) ∧
  ∃ s', rtc (any_step P) intercepted s' ∧ out_pipe s' = "" ∧ length (buffer (logs s')) = 1 ∧ ∃ s'', intercept_step P s' s''.
Proof.
  intros P now. assert (Exists talks (writers console_logger)) as Hc by (apply Exists_cons_hd; cbn; unfold LEVEL_INFO; lia).
  split; [reflexivity|]. split; [exact Hc|].
  destruct (read_stdout now 48 intercepted) as [s'|] eqn:E; [|by vm_compute in E].
  assert (rtc (any_step P) intercepted s') as Hs by (apply rtc_once, step_own; by eapply step_stdout).
  exists s'. split; [exact Hs|]. split; [by vm_compute in E; injection E as <-|].
  split; [by vm_compute in E; injection E as <-|].
  exact (interception_feeds_itself P now console_logger intercepted s' eq_refl Hc Hs).
Defined.
