(* ===== verification/Shutdown.v ===== *)
(** * The dumper's ticker and the end of the program

    [NewRamCacheDB] starts [backgroundDumper], whose ticker may panic; once
    [main] serves, it waits for a signal ([setupSignalHandler]).  What follows
    is modelled with the storage at work: no signal ends the program, and the
    storage is never told to save. *)
From stdpp Require Import relations.
From S2P Require Import Prelude GoStrings GoStrconv Misc Storage RamCacheDB Reference RamCacheDump LogUtils Logger Runtime ClientHelper VarHelper Controller Confs Help Startup.

(** ** The ticker *)

(** [time.NewTicker]: [None] is the panic on a period that is not positive. *)
Definition NewTicker (d : Z) : option Z := if (d <=? 0)%Z then None else Some d.

(** The start of [backgroundDumper]: the period of its rounds in nanoseconds.
    The panic is that of a goroutine: the process ends. *)
Definition backgroundDumper (r : RamCacheDB) : option Z := NewTicker (wrap64 (dumpIntervalMs r * Millisecond)).

(** The greatest interval whose nanoseconds fit in 64 bits. *)
Definition max_interval : Z := 9223372036854.

(** C28.  The dumper of a database that is opened with an interval up to 292 years
    starts, and its period is the interval, or five minutes when that is not
    positive; for the next interval, which the configuration accepts, it does
    not start. *)
Theorem dumper_ticks `{RangeOrder} dir ms file :
  (ms ≤ max_interval)%Z →
  backgroundDumper (NewRamCacheDB dir ms file) = Some ((if (0 <? ms)%Z then ms else 300000) * Millisecond)%Z ∧
  backgroundDumper (NewRamCacheDB dir (max_interval + 1) file) = None.
Proof.
  intros Hms. unfold max_interval in Hms. split; [|by destruct file].
  assert (dumpIntervalMs (NewRamCacheDB dir ms file) = if (0 <? ms)%Z then ms else 300000%Z) as Hd.
  { unfold NewRamCacheDB. destruct file; cbv [ram_load snd set_pending with_mem dumpIntervalMs]; destruct (Z.leb_spec ms 0), (Z.ltb_spec 0 ms); lia. }
  unfold backgroundDumper. rewrite Hd. unfold NewTicker, Millisecond. destruct (Z.ltb_spec 0 ms).
  - rewrite wrap64_small by (unfold in_int64, int64_min, int64_max; lia). destruct (Z.leb_spec (ms * 1000000) 0); [lia|done].
  - done.
Qed.

(** ** Signals *)

(** Those the program treats: [os.Interrupt], [SIGTERM] and [SIGPIPE]. *)
Inductive signal := Interrupt | Terminated | BrokenPipe.
#[export] Instance signal_eq_dec : EqDecision signal.
Proof. solve_decision. Defined.
Definition signal_String (s : signal) : string :=
  match s with Interrupt => "interrupt" | Terminated => "terminated" | BrokenPipe => "broken pipe" end.

(** [setupSignalHandler]: the first two are sent on the channel [sigs], which
    holds one; a signal that finds it full is dropped.  The third is ignored. *)
Definition setupSignalHandler (s : signal) (sigs : option signal) : option signal :=
  match s with
  | BrokenPipe => sigs
  | s => match sigs with None => Some s | Some s' => Some s' end
  end.

(** Where [main] is, once it serves. *)
Inductive position := AwaitSignal | Announce (s : signal) | FirstLock | SecondLock | Returned.
#[export] Instance position_eq_dec : EqDecision position.
Proof. solve_decision. Defined.

Record program := mkProgram {
  sigs : option signal;
  at_ : position;
  mx : bool;                 (** the mutex of the last lines is taken *)
  announced : list string;   (** what [main] has logged *)
  disk_of : disk             (** the database, its file and the dumper *)
}.

(** The next statement of [main]; [None] when it waits. *)
Definition main_turn (p : program) : option program :=
  match at_ p with
  | AwaitSignal => s ← sigs p; Some (mkProgram None (Announce s) (mx p) (announced p) (disk_of p))
  | Announce s =>
      Some (mkProgram (sigs p) FirstLock (mx p)
              (announced p ++ ["Received signal: " +:+ signal_String s +:+ ", shutting down..."]) (disk_of p))
  | FirstLock => if mx p then None else Some (mkProgram (sigs p) SecondLock true (announced p) (disk_of p))
  | SecondLock => if mx p then None else Some (mkProgram (sigs p) Returned true (announced p) (disk_of p))
  | Returned => None
  end.

Section run.
Context `{RangeOrder}.

(** What the handlers of the APIs and the dumper do to the database.  Nothing
    in the program calls [Finalize]; after it, the dumper would end. *)
Inductive storage_step : disk → disk → Prop :=
  | storage_set r f d key v : storage_step (mkDisk r f d) (mkDisk (ram_Set key v r) f d)
  | storage_delete r f d key b : storage_step (mkDisk r f d) (mkDisk (ram_DeleteValue key b r) f d)
  | storage_tick r f : let rf := dumper_round true (r, f) in storage_step (mkDisk r f true) (mkDisk rf.1 rf.2 true)
  | storage_exit r f :
      stopped r = true →
      let rf := dumper_round true (r, f) in storage_step (mkDisk r f true) (mkDisk rf.1 rf.2 false).

Inductive program_step : program → program → Prop :=
  | step_signal p s :
      program_step p (mkProgram (setupSignalHandler s (sigs p)) (at_ p) (mx p) (announced p) (disk_of p))
  | step_main p p' : main_turn p = Some p' → program_step p p'
  | step_storage p d :
      storage_step (disk_of p) d → program_step p (mkProgram (sigs p) (at_ p) (mx p) (announced p) d).

(** [main] has just started to serve. *)
Definition serving (r : RamCacheDB) (f : option string) : program := mkProgram None AwaitSignal false [] (mkDisk r f true).

(** Invariant: the mutex is taken exactly by the line before the second [Lock],
    and the dumper has not been told to stop. *)
Record runs (p : program) : Prop := {
  runs_mutex : mx p = bool_decide (at_ p = SecondLock);
  runs_here : at_ p ≠ Returned;
  runs_dumper : d_dumping (disk_of p) = true;
  runs_open : stopped (d_db (disk_of p)) = false
}.

Lemma storage_step_open d d' :
  storage_step d d' → stopped (d_db d) = false → d_dumping d = true →
  stopped (d_db d') = false ∧ d_dumping d' = true.
Proof.
  intros Hs Ho Hd. destruct Hs as [r f d key v|r f d key b|r f rf|r f Hst rf]; cbn in *; [| | |congruence].
  - split; [|done]. unfold ram_Set. by destruct (scrollTree key root false (mem r)) as [[] h].
  - split; [|done]. unfold ram_DeleteValue. by destruct (scrollTree key root true (mem r)).1.
  - split; [|done]. unfold rf, dumper_round. by destruct (pendingChanges r).
Qed.

Lemma main_turn_runs p p' : main_turn p = Some p' → runs p → runs p'.
Proof.
  intros Hm [Hx Hr Hd Ho]. unfold main_turn in Hm. destruct (at_ p) as [|s| | |] eqn:Ha; [|..|done].
  - destruct (sigs p) as [s|]; [|done]. injection Hm as <-. split; [|done..]. cbn. by rewrite Hx.
  - injection Hm as <-. split; [|done..]. cbn. by rewrite Hx.
  - destruct (mx p); [done|]. injection Hm as <-. by split.
  - by rewrite Hx in Hm.
Qed.

Lemma program_step_runs p p' : program_step p p' → runs p → runs p'.
Proof.
  intros Hs Hr. destruct Hs as [p s|p p' Hm|p d Hd]; [by destruct Hr|by eapply main_turn_runs|].
  destruct Hr as [Hx Hr Hdm Ho]. destruct (storage_step_open _ _ Hd Ho Hdm) as [Ho' Hdm']. by split.
Qed.

Lemma rtc_runs p p' : rtc program_step p p' → runs p → runs p'.
Proof. induction 1 as [|p p1 p2 Hs _ IH]; [done|]. intros Hr. by apply IH, (program_step_runs p). Qed.

(** Once [main] waits for its own mutex it stays there. *)
Lemma deadlock_stays p p' : rtc program_step p p' → runs p → at_ p = SecondLock → at_ p' = SecondLock.
Proof.
  induction 1 as [|p p1 p2 Hs _ IH]; [done|]. intros Hr Ha. apply IH; [by apply (program_step_runs p)|].
  destruct Hs as [p s|p p' Hm|p d Hd]; [done| |done].
  unfold main_turn in Hm. rewrite Ha, (runs_mutex _ Hr), bool_decide_true in Hm by done. done.
Qed.

(** [n] statements of [main]. *)
Fixpoint main_turns (n : nat) (p : program) : option program :=
  match n with O => Some p | S n => p' ← main_turn p; main_turns n p' end.

End run.

(** ** Witnesses *)
Section witnesses.
Existing Instance canonical_order.
Existing Instance ascii_case.

Lemma dumper_ticks_witness :
  (60000 ≤ max_interval)%Z ∧
  backgroundDumper (NewRamCacheDB "db" 60000 FileMissing) = Some (60000 * Millisecond)%Z ∧
  backgroundDumper (NewRamCacheDB "db" (max_interval + 1) FileMissing) = None.
Proof.
  assert (60000 ≤ max_interval)%Z as Hle by (unfold max_interval; lia).
  split; [exact Hle|]. exact (dumper_ticks "db" 60000 FileMissing Hle).
Defined.

(** Such an interval on the command line raises no complaint, the services
    start, and the dumper ends the process. *)
Example huge_interval_accepted :
  match boot ["--ram-cache-db-dump-interval-ms=9223372036855"] with
  | (out, Serving db _ _ _ _) => out = [] ∧ backgroundDumper db = None
  | _ => False
  end.
Proof. by vm_compute. Qed.

End witnesses.
